(* ===== verification/_CoqProject ===== *)
-Q . S2P
Prelude.v
PyStr.v
PyDict.v
Json.v
Literals.v
StructuredConfig.v
Models.v
ModelsFacts.v
Repository.v
K8s.v
Cluster.v
ClusterFacts.v
Workload.v
Auth.v
AuthFacts.v
Config.v
ConfigFacts.v
Controller.v
Balancer.v
BalancerFacts.v
Health.v
Tls.v
TlsFacts.v
Operator.v
Sample.v
TlsHandler.v
Provider.v
ProviderFacts.v
TlsHandlerFacts.v
Rotation.v
Broker.v
Restart.v
BrokerFacts.v
Charm.v
PeerClusterHandler.v
Handshake.v
CharmFacts.v
Mapper.v
RollingOps.v
Rolling.v
RollingProgress.v
RollingRestart.v
DataInterfaces.v
DataInterfacesDiff.v
DataInterfacesFacts.v
DataInterfacesCross.v
DataInterfacesSample.v
PeerClusterLink.v
ResourceProvider.v
ResourceProviderFacts.v
Crypto.v
CryptoFacts.v
SelfSigned.v
CryptoSample.v
Certificates.v
CertificatesFacts.v
CertificatesProvider.v
CertificatesProviderFacts.v
CertificatesSample.v
OpsRepository.v
OpsRepositoryFacts.v
OpsRepositorySample.v
CertificateTransfer.v
TlsRequests.v
