(* ===== verification/Prelude.v ===== *)
(** * Charmed Apache Kafka K8s operator: a verification development

    The repository is a Juju charm. Juju delivers hooks (install, pebble-ready,
    start, relation and configuration changes, actions, refresh); each runs a
    handler that reads what the relations hold, works out what the unit should
    be, writes the files of the workload container, runs the scripts of Kafka
    and keytool in it, and publishes data to the other units and applications.
    An application has one or more of three roles: broker, KRaft controller
    and balancer (Cruise Control). Two applications may form a peer cluster,
    the orchestrator (brokers) and the cluster (controllers, balancer).

    ** How the code is modelled

    Handlers are functions from a state to a [result], the state they leave or
    the exception they raise ([Ok]/[Err], Prelude.v); an exception drops the
    state, as Juju drops what a failed hook wrote to its relations (the files
    it wrote stay, which the model does not keep). Everything is executable: the
    witnesses evaluate handlers on concrete units (Sample.v). What is not code
    of the repository is an interface or an argument:
    - [RelationData] with [RelationDataLaws] (Models.v): the data bag of a
      relation, read and written by the data interfaces library; the laws say
      that a read gives the last write. DataInterfacesFacts.v shows that the
      library keeps them for the peer relation, for fields that are used as
      secret or as plain throughout and whose names the library does not use;
      on the other relations a deleted field may still be read from the other
      side;
    - [Secrets] with [SecretsLaws] (DataInterfaces.v): the secrets of Juju, by
      label and by identifier;
    - [Host] (Tls.v) runs commands and keeps files; [Keytool] (TlsFacts.v)
      states what keytool is documented to do with a truststore;
    - [X509] (Tls.v) reads certificates, as the cryptography package does;
    - [Cryptography] with [CryptographyLaws] (Crypto.v): reading and signing the
      texts of keys, requests and certificates; the laws say that what was signed
      reads back and that identifiers are not drawn twice;
    - [KafkaTools] (Auth.v) runs the scripts of Kafka; [AclScript] (Auth.v) and
      [UserScript] (ProviderFacts.v) state what the ACL and user scripts do;
    - [Repository] (Repository.v) is the library of version 1 of the interface,
      which OpsRepository.v models and [ops_update_refines_map] relates to a map;
    - [Validation] (CertificateTransfer.v) is the parsing library, on the data of a
      transfer;
    - [Regex] (Mapper.v) is the engine that runs the user's own patterns;
    - generated values (passwords, UUIDs, certificates), answers of the
      Kubernetes API, of Cruise Control and of Juju are arguments, gathered in
      [KRaftHandler.generated] and [hook].
    Every interface has an instance in the development on which the theorems
    proved against it are evaluated ([bag], [model_cluster], the model
    host of TlsFacts.v and Sample.v).

    ** Files and what they model (paths under src/src/)

    Shared: Prelude.v (errors as values, loops that stop at an error, truth
    values of Python, automation), PyStr.v, PyDict.v and Json.v (the methods of
    [str] and [dict] and the [json] module of Python).

    The state:
    - Literals.v: literals.py. Users, secrets, ports, roles, statuses.
    - StructuredConfig.v: core/structured_config.py. One definition per
      validator of [CharmConfig] and the chain each option goes through.
    - Models.v, ModelsFacts.v: core/models.py. [RelationState], [KafkaCluster],
      [TLSState], [KafkaBroker], [PeerCluster], [KafkaClient], [OAuth].
    - Repository.v: [RelationStateV1] of core/models.py and the data written
      for a client.
    - Cluster.v, ClusterFacts.v: core/cluster.py. [ClusterState], a record of
      the relations a unit sees, and what it derives from them.

    The managers:
    - Workload.v: core/workload.py, workload.py. Paths, files, Pebble layers
      and services of the container, commands.
    - Auth.v, AuthFacts.v: managers/auth.py. Users and ACLs.
    - Config.v, ConfigFacts.v: managers/config.py. Listeners, property files,
      environment, Cruise Control's files.
    - Health.v: health.py, the checks of a machine.
    - K8s.v: managers/k8s.py. Services and node ports.
    - Tls.v, TlsFacts.v: managers/tls.py. Keystores, truststores, listings,
      trust between applications.
    - Mapper.v: managers/ssl_principal_mapper.py. Principal mapping rules.
    - Controller.v: managers/controller.py and events/controller.py. Quorum
      commands and their parsing; [KRaftHandler].
    - Balancer.v, BalancerFacts.v: managers/balancer.py and events/balancer.py.

    The handlers of hooks:
    - Operator.v: the objects a hook shares (events/broker.py, charm.py):
      [operator] holds the [ClusterState], the container, the host, the
      statuses set, the events emitted and whether the hook was deferred.
    - TlsHandler.v, TlsHandlerFacts.v: events/tls.py; TlsRequests.v: what its
      constructor gives the certificates library.
    - Rotation.v: the rotation of internal certificates between the two
      applications, as a protocol that TlsHandler.v implements.
    - Provider.v, ProviderFacts.v: events/provider.py.
    - Broker.v, BrokerFacts.v, Restart.v: events/broker.py, events/oauth.py and
      the handlers of the others that run a configuration change; Restart.v
      follows the requests for a restart through one.
    - PeerClusterHandler.v: events/peer_cluster.py, events/secrets.py,
      events/actions.py.
    - Handshake.v: two applications of a peer cluster, and what the relation
      between them carries ([delivers], which PeerClusterLink.v proves of the library).
    - Charm.v, CharmFacts.v: charm.py and events/refresh.py.
    - Sample.v: concrete units, on which the handlers are evaluated.

    The libraries the state and the restarts rest on (src/lib/charms/):
    - RollingOps.v: rolling_ops/v0/rollingops.py. The lock of each unit, what the
      leader does with the requests and what a unit does with the lock, on what a
      hook sees of the relation.
    - Rolling.v, RollingProgress.v, RollingRestart.v: the hooks of all the units of
      an application together. A hook starts with what the bags hold then, and what
      it wrote is seen when it has ended; hooks of different units overlap.
      RollingRestart.v gives the lock the charm's callbacks (Charm.v).
    - DataInterfaces.v: data_platform_libs/v0/data_interfaces.py. [Data], with what
      [DataPeerData] and the charm's [PeerClusterData] override, [DataDict], [diff],
      and the peer cluster handler's [_default_relation_changed].
      DataInterfacesDiff.v: what a difference is; DataInterfacesFacts.v: the peer
      relation; DataInterfacesCross.v: the relation between applications;
      DataInterfacesSample.v: a model of Juju's secrets and concrete interfaces.
    - PeerClusterLink.v: [RelationState.update] of core/models.py on the library, and
      that what it writes is delivered in the sense of Handshake.v.
    - ResourceProvider.v, ResourceProviderFacts.v:
      data_platform_libs/v1/data_interfaces.py. How a client's requests reach the
      charm and its responses are written.
    - OpsRepository.v, OpsRepositoryFacts.v: the repository of the same file, which
      keeps plain fields in the data bag and the others in the secret of their
      group; OpsRepositorySample.v: one with concrete secrets.
    - Crypto.v, CryptoFacts.v: tls_certificates_interface/v4/tls_certificates.py,
      its objects and the functions that generate them; SelfSigned.v: the internal
      authority of managers/tls.py on them, where Tls.v and the start hook take what
      is issued as an argument; CryptoSample.v: an instance of the interface.
    - Certificates.v, CertificatesFacts.v: the requirer of the same file, the
      charm's side of the relation; CertificatesProvider.v: the other side;
      CertificatesProviderFacts.v: both together; CertificatesSample.v: a unit that
      asks, is answered and renews.
    - CertificateTransfer.v: certificate_transfer_interface/v1/certificate_transfer.py.
      Both sides of the relations that give the charm certificates to trust.

    A method keeps its name; a method that writes to the state returns the new
    state; a property of Python is a function of the state. Each object is the
    module of its class.

    ** What the theorems show

    - Start and status: when a unit is ready to start
      ([ready_to_start_active]), that the start hook starts it only then
      ([on_start_gate]); that initialising a cluster never replaces a secret
      in use ([init_kraft_mode_spec]).
    - Configuration changes: when the service is restarted, and that it is
      asked for once ([config_changed_restart]), and not again when nothing
      changed since ([configuration_settles]).
    - Peer clusters: what one application publishes the other reads
      ([brokers_data_delivered]), and the two never block each other
      ([handshake_starts]).
    - Certificates: what a unit asks for is what it needs
      ([configure_requests_spec]) and asking again changes nothing
      ([configure_idempotent]); a provider that signs what is outstanding delivers
      ([certificates_delivered]); the names asked for are the unit's current ones
      ([refresh_asks_current_names]); the
      internal authority signs what a unit needs ([self_signed_certificate_spec]);
      the certificates to trust are those the providers transfer
      ([transferred_certificates_spec]).
    - Restarts one unit at a time: no two units run with the lock
      ([rolling_exclusive]) and every unit that asks for it gets it
      ([rolling_completes]), as long as units wait for their request to be cleared
      and the callbacks do not raise; what happens otherwise
      ([storage_restart_blocks], [deferred_restart_unlocked],
      [request_again_unlocked]).
    - Data of the relations: the peer interfaces are finite maps
      ([peer_interface_refines_map]) whose secrets are never in the bag
      ([peer_secrets_confidential]); what one application publishes for its peer
      cluster the library delivers to the other, as the handshake assumes
      ([library_delivers]); requests are told once ([requests_told_once]); responses ([set_responses_one_by_one]); updating
      through the repository of version 1 is updating a map, for plain and secret
      fields alike ([ops_update_refines_map]).
    - Rotation of internal certificates: the handler refines a protocol
      ([rotation_refines]) that never blocks ([rotation_progress]) and ends
      ([rotation_terminates]) with the restart it asks for
      ([rotation_done]); old and new certificates are trusted at once
      while it lasts ([update_peer_cluster_trust_spec]).
    - Clients: their ACLs converge to those asked for
      ([update_user_acls_converges]), which requests create users
      ([handle_client_request_safe]), what is removed with a client
      ([remove_broken_clients_spec]), the responses ([reconcile_responses]).
    - Configuration files: listeners do not clash ([listener_ports_distinct]),
      properties are compared as sets of lines
      ([properties_changed_spec]), options are validated as the rules say
      ([validate_int_spec]), mapping rules survive their text ([mapper_rules_roundtrip]).
    - Brokers and balancer: the record of capacities refines an abstract map
      ([update_brokers_state_refines]).
    - Secrets: what becomes of passwords the user gives
      ([system_users_not_retried]).
    - Data: parsing of what the tools print ([parse_quorum_roundtrip]).
    - Among the lemmas: that the differences of a relation are told once
      ([diff_reports_changes_once]), that renewing a certificate asks anew
      ([renew_certificate_spec]), the super users and the environment of the service, the
      versions a refresh accepts, the checks of a machine, the private key the user
      gives, which brokers are given to the balancer, the names openssl prints, when
      a rebalance is sent and a broker is drained ([rebalance_spec],
      [all_storages_drained_spec]), the ports of extra listeners, what reading gives
      after writing ([relation_state_update_spec]), what is never learnt of a
      balancer ([balancer_credentials_unreachable]), which ACLs stay when a client is
      removed ([prefixed_acl_survives]), that a request reads back as
      what was asked for ([generate_csr_roundtrip]).

    ** Bounds and fuel

    [Json.loads] runs on a fuel of twice the length of the text, and
    [loads (dumps v)] is proved to return [v]; [Mapper.find_rules] and the
    reader of the users' description (Auth.v) run on the length of their text,
    each step consuming a character, and [mapper_rules_roundtrip] proves the
    result of the first. Retries stop after the number of attempts the code
    gives, their answers being listed. A wait without a bound in the code is a
    function of the answers it polls ([wait_for_task_spec]). The leader's
    processing of the locks runs with the lock at most once, and then processes
    again: a fuel of 2, whose end is an exception ([process_locks_fuel]);
    [rolling_completes] needs three rounds of hooks for each unit. Integers are
    Python's, hence [Z]; [validate_int_spec] gives the range each option is
    kept in.

    ** Not modelled

    - Constructors: the registration of observers, dashboards, metrics and logs
      with the libraries. The handlers are modelled,
      the table from events to handlers is not.
    - What the other libraries under src/lib/ do (dashboards, metrics, logs,
      identity provider), HTTP and the Kubernetes API: arguments. Of the
      certificates library: when secrets expire, and writes that Juju refuses,
      which the library only logs. Of the data
      interfaces library: the classes of other products, the repository of another
      unit and the requirer side of version 1, and the parsing of its models, which a library
      does.
    - Caches of lookups, logs and sleeping.
    - Concurrency between units is modelled where the code reasons about it,
      the rotation (Rotation.v) and the lock (Rolling.v); elsewhere a hook is one
      step.
    - Look-ups of network interfaces and addresses: arguments.

    Modelled without theorems yet: the coordination of a refresh (Charm.v), the
    principals of clients with certificates and the removal of their ACLs
    (Provider.v), the waits for storages (Broker.v), the services of a pod
    beyond their ports (K8s.v). *)

From stdpp Require Export base tactics decidable option list numbers strings pretty gmap sets sorting.
From Stdlib Require Export Ascii ZArith Lia Bool.

#[export] Set Default Goal Selector "!".
#[export] Set Warnings "-clear-no-such-hyp".

(** Appending to a string literal computes. *)
#[global] Arguments String.append !s1 s2 : simpl nomatch.

(** ** Exceptions of the Python code *)

(** The exception classes the modelled code raises or catches, each with the
    message it is built with where the code gives one. *)
Inductive exn :=
| ValueError (msg : string)
| KeyError (msg : string)
| AttributeError (msg : string)
| RecursionError
| IndexError (msg : string)
| TypeError (msg : string)
| AssertionError
| PyException (msg : string)
| FileNotFoundError (msg : string)
| ExecError (output : string)
| ApiError (code : Z) (msg : string)
| NoMatchingRuleError (msg : string)
| RebalanceError (msg : string)
| UnknownScopeError (msg : string)
| PrecheckFailed (msg : string)
| NotImplementedError (msg : string).

#[export] Instance exn_eq_dec : EqDecision exn.
Proof. solve_decision. Defined.

(** A Python expression either has a value or raises. *)
Inductive result (A : Type) :=
| Ok (a : A)
| Err (e : exn).
Arguments Ok {_} _.
Arguments Err {_} _.

#[export] Instance result_eq_dec {A} `{EqDecision A} : EqDecision (result A).
Proof. solve_decision. Defined.

#[export] Instance result_ret : MRet result := λ A a, Ok a.
#[export] Instance result_bind : MBind result :=
  λ A B f m, match m with Ok a => f a | Err e => Err e end.
#[export] Instance result_fmap : FMap result :=
  λ A B f m, match m with Ok a => Ok (f a) | Err e => Err e end.

Definition is_ok {A} (r : result A) : bool :=
  match r with Ok _ => true | Err _ => false end.

(** [guard b e]: the statement [if not b: raise e]. *)
Definition guard_or (b : bool) (e : exn) : result () :=
  if b then Ok () else Err e.

Lemma ok_inj {A} (a b : A) : Ok a = Ok b → a = b.
Proof. congruence. Qed.

Lemma result_bind_ok {A B} (m : result A) (f : A → result B) b :
  m ≫= f = Ok b ↔ ∃ a, m = Ok a ∧ f a = Ok b.
Proof. destruct m; split; [eauto|by intros (?&[= ->]&?)|done|by intros (?&?&?)]. Qed.

Lemma result_bind_err {A B} (m : result A) (f : A → result B) e :
  m ≫= f = Err e ↔ m = Err e ∨ ∃ a, m = Ok a ∧ f a = Err e.
Proof.
  destruct m as [a|e']; split; cbn.
  - right. eauto.
  - by intros [?|(?&[= ->]&?)].
  - intros [= ->]. by left.
  - by intros [[= ->]|(?&?&?)].
Qed.

Lemma result_fmap_ok {A B} (f : A → B) (m : result A) b :
  f <$> m = Ok b ↔ ∃ a, m = Ok a ∧ b = f a.
Proof. destruct m; split; cbn; [intros [= <-]; eauto|intros (?&[= ->]&->); done|done|by intros (?&?&?)]. Qed.

Lemma guard_or_ok b e u : guard_or b e = Ok u ↔ b = true.
Proof. destruct u, b; split; done. Qed.

Lemma guard_or_err b e e' : guard_or b e = Err e' ↔ b = false ∧ e = e'.
Proof. destruct b; cbn; split; [done|by intros [? ?]|intros [= ->]; done|by intros [? ->]]. Qed.

(** [traverse f l]: the list comprehension [[f(x) for x in l]], which raises
    at the first element whose [f] raises. *)
Fixpoint traverse {A B} (f : A → result B) (l : list A) : result (list B) :=
  match l with
  | [] => Ok []
  | x :: l => y ← f x; ys ← traverse f l; Ok (y :: ys)
  end.

Lemma traverse_ok {A B} (f : A → result B) l ys :
  traverse f l = Ok ys ↔ Forall2 (λ x y, f x = Ok y) l ys.
Proof.
  revert ys. induction l as [|x l IH]; intros ys; cbn.
  - split; [intros [= <-]; constructor|by inversion 1].
  - rewrite result_bind_ok. setoid_rewrite result_bind_ok. split.
    + intros (y & Hy & ys' & Hys & [= <-]). constructor; [done|by apply IH].
    + inversion 1; subst. eexists; split; [done|]. eexists; split; [by apply IH|done].
Qed.

(** ** Truth values of Python *)

(** [bool(s)] for a string, and for an optional string ([None] is false). *)
Definition truthy (s : string) : bool := negb (s =? "")%string.
Definition truthy_opt (s : option string) : bool :=
  match s with Some s => truthy s | None => false end.

(** [s or t] and [o or t]: the first operand when it is true. *)
Definition str_or (s t : string) : string := if truthy s then s else t.
Definition opt_or (o : option string) (t : string) : string :=
  match o with Some s => str_or s t | None => t end.

(** [all([...])] on a list of truth values. *)
Definition all_true (l : list bool) : bool := forallb (λ b, b) l.
Definition any_true (l : list bool) : bool := existsb (λ b, b) l.

Lemma truthy_true s : truthy s = true ↔ s ≠ "".
Proof. unfold truthy. by destruct (String.eqb_spec s ""). Qed.

Lemma truthy_false s : truthy s = false ↔ s = "".
Proof. unfold truthy. destruct (String.eqb_spec s ""); split; done. Qed.

Lemma truthy_opt_true o : truthy_opt o = true ↔ ∃ s, o = Some s ∧ s ≠ "".
Proof.
  destruct o; cbn; [rewrite truthy_true|]; split; [eauto|by intros (?&[= ->]&?)|done|by intros (?&?&?)].
Qed.

Lemma all_true_iff l : all_true l = true ↔ Forall (λ b, b = true) l.
Proof.
  unfold all_true. rewrite forallb_forall, Forall_forall.
  split; intros H b Hb; apply H; by apply list_elem_of_In.
Qed.

(** Conjunctions with the same first part. *)
Lemma and_iff_compat_l_weak (A B C : Prop) : (A → B ↔ C) → A ∧ B ↔ A ∧ C.
Proof. tauto. Qed.

(** ** Generic lemmas on lists *)

Lemma NoDup_fmap_in {A B} (f : A → B) (l : list A) :
  (∀ x y, x ∈ l → y ∈ l → f x = f y → x = y) → NoDup l → NoDup (f <$> l).
Proof.
  induction 2 as [|x l Hx Hl IH]; cbn; constructor.
  - intros (y & Hy & Hyl)%list_elem_of_fmap. apply Hx.
    assert (x = y) as -> by (apply H; set_solver). done.
  - apply IH. intros; apply H; set_solver.
Qed.

(** In a sorted list an earlier element is related to a later one. *)
Lemma StronglySorted_lookup_lt {A} (R : relation A) l (i j : nat) x y :
  StronglySorted R l → l !! i = Some x → l !! j = Some y → i < j → R x y.
Proof.
  intros Hs. revert i j. induction Hs as [|z l _ IH Hz]; intros i j Hi Hj Hij; [done|].
  destruct j as [|j]; [lia|]. cbn in Hj. destruct i as [|i].
  - injection Hi as ->. by apply (Forall_lookup_1 _ _ _ _ Hz Hj).
  - apply (IH i j Hi Hj). lia.
Qed.

(** Sums of a function over a list. *)
Lemma sum_list_with_le {A} (f g : A → nat) l :
  (∀ x, x ∈ l → (f x ≤ g x)%nat) → (sum_list_with f l ≤ sum_list_with g l)%nat.
Proof.
  induction l as [|x l IH]; intros H; cbn; [lia|]. assert (f x ≤ g x) by (apply H; set_solver).
  assert (sum_list_with f l ≤ sum_list_with g l) by (apply IH; set_solver). lia.
Qed.
Lemma sum_list_with_lt {A} (f g : A → nat) l x :
  (∀ x, x ∈ l → (f x ≤ g x)%nat) → x ∈ l → f x < g x → sum_list_with f l < sum_list_with g l.
Proof.
  intros H Hx Hlt. apply list_elem_of_split in Hx as (l1 & l2 & ->). rewrite !sum_list_with_app. cbn.
  assert (sum_list_with f l1 ≤ sum_list_with g l1) by (apply sum_list_with_le; set_solver).
  assert (sum_list_with f l2 ≤ sum_list_with g l2) by (apply sum_list_with_le; set_solver). lia.
Qed.

Lemma filter_none {A} (P : A → Prop) `{∀ x, Decision (P x)} (l : list A) : (∀ x, x ∈ l → ¬ P x) → filter P l = [].
Proof.
  induction l as [|x l IH]; [done|]. intros Hl. rewrite filter_cons_False by (apply Hl; left).
  apply IH. intros y Hy. apply Hl. by right.
Qed.

Lemma filter_every {A} (P : A → Prop) `{∀ x, Decision (P x)} (l : list A) : (∀ x, x ∈ l → P x) → filter P l = l.
Proof.
  induction l as [|x l IH]; [done|]. intros Hl. rewrite filter_cons_True by (apply Hl; left).
  f_equal. apply IH. intros y Hy. apply Hl. by right.
Qed.

(** ** Automation *)

Create HintDb pystr.
Create Rewrite HintDb pystr_rw.

(** Split every conjunction and boolean conjunction of the context. *)
Ltac bool_split :=
  repeat match goal with
  | H : _ && _ = true |- _ => apply andb_true_iff in H; destruct H
  | H : _ || _ = false |- _ => apply orb_false_iff in H; destruct H
  | H : negb _ = true |- _ => apply negb_true_iff in H
  | H : negb _ = false |- _ => apply negb_false_iff in H
  | H : _ ∧ _ |- _ => destruct H
  end.

(** Case analysis on the scrutinee of the first [match] or [if] of the goal,
    keeping its equation. *)
Ltac case_match_eq :=
  match goal with
  | |- context [match ?x with _ => _ end] => destruct x eqn:?
  end.
