(* ===== verification/PyStr.v ===== *)
(** * Python string methods

    The [str] methods and built-ins the charm uses, as executable functions on
    [string] (a string of 8-bit characters, whose case mapping is the ASCII
    one: unit, user, topic and configuration names of the charm are ASCII),
    with the lemmas the components share: splitting inverts joining, decimal
    printing inverts parsing, separators determine the parts around them. *)

From S2P Require Import Prelude.

Local Open Scope string_scope.

(** ** Characters *)

Definition chr (n : nat) : ascii := ascii_of_nat n.
Definition newline : ascii := chr 10.

Definition is_digit (c : ascii) : bool :=
  let n := nat_of_ascii c in (48 <=? n)%nat && (n <=? 57)%nat.

Definition lower_char (c : ascii) : ascii :=
  let n := nat_of_ascii c in
  if (65 <=? n)%nat && (n <=? 90)%nat then chr (n + 32) else c.

Definition upper_char (c : ascii) : ascii :=
  let n := nat_of_ascii c in
  if (97 <=? n)%nat && (n <=? 122)%nat then chr (n - 32) else c.

(** White space of [str.strip()] and [str.split()]. *)
Definition is_space (c : ascii) : bool :=
  let n := nat_of_ascii c in
  ((9 <=? n) && (n <=? 13) || (28 <=? n) && (n <=? 32) || (n =? 133) || (n =? 160))%nat.

(** Line boundaries of [str.splitlines()], the pair CR LF apart. *)
Definition is_linebreak (c : ascii) : bool :=
  let n := nat_of_ascii c in
  ((10 <=? n) && (n <=? 13) || (28 <=? n) && (n <=? 30) || (n =? 133))%nat.

(** ** Maps and tests *)

Fixpoint str_map (f : ascii → ascii) (s : string) : string :=
  match s with "" => "" | String c s => String (f c) (str_map f s) end.

Fixpoint str_forall (p : ascii → bool) (s : string) : bool :=
  match s with "" => true | String c s => p c && str_forall p s end.

Definition str_lower : string → string := str_map lower_char.
Definition str_upper : string → string := str_map upper_char.

(** [s.replace(a, b)] for one-character [a] and [b]. *)
Definition replace_char (a b : ascii) : string → string :=
  str_map (λ c, if (c =? a)%char then b else c).

(** [s.replace(a, "")] for a one-character [a]. *)
Fixpoint remove_char (a : ascii) (s : string) : string :=
  match s with
  | "" => ""
  | String c s => if (c =? a)%char then remove_char a s else String c (remove_char a s)
  end.

(** [c in s] for a character. *)
Definition has_char (c : ascii) (s : string) : bool := negb (str_forall (λ d, negb (d =? c)%char) s).

(** [s] has no [c]. *)
Definition lacks (c : ascii) (s : string) : bool := str_forall (λ d, negb (d =? c)%char) s.

Definition startswith (p s : string) : bool := String.prefix p s.

Fixpoint endswith (p s : string) : bool :=
  (s =? p) || match s with "" => false | String _ s => endswith p s end.

(** [sub in s] *)
Fixpoint contains (sub s : string) : bool :=
  String.prefix sub s || match s with "" => false | String _ s => contains sub s end.

(** [s.isdigit()] *)
Definition isdigit (s : string) : bool := truthy s && str_forall is_digit s.

(** [len(s)] *)
Definition str_len (s : string) : Z := Z.of_nat (String.length s).

(** ** Slices *)

(** [s[n:]] *)
Fixpoint str_drop (n : nat) (s : string) : string :=
  match n, s with O, _ => s | _, "" => "" | S n, String _ s => str_drop n s end.

(** [s[:-1]] *)
Fixpoint str_init (s : string) : string :=
  match s with "" => "" | String c "" => "" | String c s => String c (str_init s) end.

(** ** Replacement of a substring *)

(** [s.replace(old, new)] for a non-empty [old]: left to right, without
    overlap. [skip] counts the characters of a found occurrence still to drop. *)
Fixpoint replace_go (old new : string) (skip : nat) (s : string) : string :=
  match s with
  | "" => ""
  | String c s' =>
      match skip with
      | S k => replace_go old new k s'
      | O => if String.prefix old s
             then new ++ replace_go old new (String.length old - 1) s'
             else String c (replace_go old new 0 s')
      end
  end.
Definition str_replace (old new s : string) : string := replace_go old new 0 s.

(** ** Stripping *)

Fixpoint lstrip_chars (p : ascii → bool) (s : string) : string :=
  match s with "" => "" | String c s' => if p c then lstrip_chars p s' else s end.

Fixpoint rstrip_chars (p : ascii → bool) (s : string) : string :=
  match s with
  | "" => ""
  | String c s' =>
      match rstrip_chars p s' with
      | "" => if p c then "" else String c ""
      | r => String c r
      end
  end.

Definition str_strip (s : string) : string := rstrip_chars is_space (lstrip_chars is_space s).

(** [s.rstrip(cs)]: drops the trailing characters that belong to [cs]. *)
Definition rstrip_of (cs s : string) : string := rstrip_chars (λ c, has_char c cs) s.

(** ** Splitting and joining *)

(** [s.split(c)] for a one-character separator. *)
Fixpoint split_char (c : ascii) (s : string) : list string :=
  match s with
  | "" => [""]
  | String d s =>
      if (d =? c)%char then "" :: split_char c s
      else match split_char c s with
           | [] => [String d ""]
           | w :: ws => String d w :: ws
           end
  end.

(** [s.split(c, maxsplit=1)] as the part before the first [c] and, when there
    is one, the part after it. *)
Fixpoint split_once (c : ascii) (s : string) : string * option string :=
  match s with
  | "" => ("", None)
  | String d s =>
      if (d =? c)%char then ("", Some s)
      else let '(a, b) := split_once c s in (String d a, b)
  end.

(** [sep.join(l)] *)
Definition str_join (sep : string) (l : list string) : string := String.concat sep l.

(** [s.split()]: maximal runs of characters that are not white space. *)
Fixpoint words_go (cur : string) (s : string) : list string :=
  match s with
  | "" => if truthy cur then [cur] else []
  | String c s =>
      if is_space c then (if truthy cur then cur :: words_go "" s else words_go "" s)
      else words_go (cur ++ String c "") s
  end.
Definition split_ws (s : string) : list string := words_go "" s.

(** [s.splitlines()]: no empty last line, CR LF is one boundary. *)
Fixpoint splitlines_go (cur : string) (s : string) : list string :=
  match s with
  | "" => if truthy cur then [cur] else []
  | String c s' =>
      if is_linebreak c then
        cur :: match s' with
               | String d s'' =>
                   if (c =? chr 13)%char && (d =? chr 10)%char
                   then splitlines_go "" s'' else splitlines_go "" s'
               | "" => []
               end
      else splitlines_go (cur ++ String c "") s'
  end.
Definition splitlines (s : string) : list string := splitlines_go "" s.

(** ** Integers *)

Definition digit_val (c : ascii) : Z := Z.of_nat (nat_of_ascii c) - 48.

(** The digits of [int()]: non-empty, single underscores between digits. *)
Fixpoint digits_go (acc : Z) (prev_digit : bool) (s : string) : option Z :=
  match s with
  | "" => if prev_digit then Some acc else None
  | String c s =>
      if is_digit c then digits_go (acc * 10 + digit_val c) true s
      else if (c =? "_")%char && prev_digit then digits_go acc false s
      else None
  end.

(** [int(s)], [None] for [ValueError]. *)
Definition int_opt (s : string) : option Z :=
  match str_strip s with
  | String "-" s => Z.opp <$> digits_go 0 false s
  | String "+" s => digits_go 0 false s
  | s => digits_go 0 false s
  end.

Definition py_int (s : string) : result Z :=
  match int_opt s with
  | Some z => Ok z
  | None => Err (ValueError ("invalid literal for int() with base 10: '" ++ s ++ "'"))
  end.

(** [str(z)] *)
Definition str_of_Z (z : Z) : string := pretty z.

(** ** Sorting *)

(** [sorted(l)] on strings. *)
Definition sorted_str (l : list string) : list string := merge_sort String.le l.

(** [sorted({...})]: the set given by its enumeration. *)
Definition sorted_set (s : gset string) : list string := sorted_str (elements s).

(** ** Lemmas: append *)

Lemma append_nil_r (s : string) : s ++ "" = s.
Proof. induction s as [|c s IH]; [done|]. by rewrite <- IH at 2. Qed.

Lemma append_assoc (a b c : string) : (a ++ b) ++ c = a ++ (b ++ c).
Proof. induction a as [|x a IH]; [done|]. by cbn; rewrite IH. Qed.

Lemma append_cons (c : ascii) (s t : string) : String c s ++ t = String c (s ++ t).
Proof. done. Qed.

Lemma append_length (a b : string) :
  String.length (a ++ b) = (String.length a + String.length b)%nat.
Proof. induction a as [|x a IH]; cbn; [done|]. by rewrite IH. Qed.

Lemma append_longer (a b : string) : b ≠ "" → a ++ b ≠ a.
Proof.
  intros Hb Heq%(f_equal String.length). rewrite append_length in Heq.
  destruct b; cbn in Heq; [done|lia].
Qed.

Lemma append_inj_l (a b c : string) : a ++ b = a ++ c → b = c.
Proof. induction a as [|x a IH]; [done|]. cbn. intros [= H]. auto. Qed.

Lemma append_inj_r (a b c : string) : a ++ c = b ++ c → a = b.
Proof.
  intros H. assert (Hl : String.length a = String.length b).
  { apply (f_equal String.length) in H. rewrite !append_length in H. lia. }
  revert b H Hl. induction a as [|x a IH]; intros [|y b]; try done.
  cbn. intros [= -> H] [= Hl]. f_equal. auto.
Qed.

(** ** Lemmas: predicates over all characters *)

Lemma str_forall_app p a b : str_forall p (a ++ b) = str_forall p a && str_forall p b.
Proof. induction a as [|x a IH]; [done|]. cbn. rewrite IH. by rewrite andb_assoc. Qed.

Lemma str_forall_impl (p q : ascii → bool) s :
  (∀ c, p c = true → q c = true) → str_forall p s = true → str_forall q s = true.
Proof. intros H. induction s as [|c s IH]; [done|]. cbn. rewrite !andb_true_iff. intros [??]; auto. Qed.

Lemma str_map_app f a b : str_map f (a ++ b) = str_map f a ++ str_map f b.
Proof. induction a as [|x a IH]; [done|]. cbn. by rewrite IH. Qed.

Lemma str_map_id_on f p s :
  (∀ c, p c = true → f c = c) → str_forall p s = true → str_map f s = s.
Proof.
  intros Hf. induction s as [|c s IH]; [done|]. cbn. rewrite andb_true_iff.
  intros [Hc Hs]. by rewrite Hf, IH.
Qed.

Lemma str_map_idemp f s : (∀ c, f (f c) = f c) → str_map f (str_map f s) = str_map f s.
Proof. intros Hf. induction s as [|c s IH]; [done|]. cbn. by rewrite Hf, IH. Qed.

Lemma lower_char_idemp c : lower_char (lower_char c) = lower_char c.
Proof. by destruct c as [[] [] [] [] [] [] [] []]. Qed.

Lemma str_lower_idemp s : str_lower (str_lower s) = str_lower s.
Proof. apply str_map_idemp, lower_char_idemp. Qed.

Lemma upper_char_idemp c : upper_char (upper_char c) = upper_char c.
Proof. by destruct c as [[] [] [] [] [] [] [] []]. Qed.

Lemma str_upper_idemp s : str_upper (str_upper s) = str_upper s.
Proof. apply str_map_idemp, upper_char_idemp. Qed.

Lemma str_lower_app a b : str_lower (a ++ b) = str_lower a ++ str_lower b.
Proof. apply str_map_app. Qed.

Lemma lacks_app c a b : lacks c (a ++ b) = lacks c a && lacks c b.
Proof. apply str_forall_app. Qed.

Lemma has_char_lacks c s : has_char c s = negb (lacks c s).
Proof. done. Qed.

(** ** Lemmas: prefixes *)

Lemma str_drop_app a b : str_drop (String.length a) (a ++ b) = b.
Proof. induction a as [|c a IH]; [by destruct b|done]. Qed.

Lemma prefix_app p s : String.prefix p (p ++ s) = true.
Proof. induction p as [|c p IH]; [by destruct s|]. cbn. by destruct (ascii_dec c c). Qed.

Lemma prefix_ne c d p s : d ≠ c → String.prefix (String c p) (String d s) = false.
Proof. intros H. cbn [String.prefix]. by destruct (ascii_dec c d). Qed.

Lemma startswith_iff p s : startswith p s = true ↔ ∃ t, s = p ++ t.
Proof.
  unfold startswith. split.
  - revert s. induction p as [|c p IH]; intros s; [by exists s|].
    destruct s as [|d s]; [done|]. cbn. destruct (ascii_dec c d) as [->|]; [|done].
    intros [t ->]%IH. by exists t.
  - intros [t ->]. apply prefix_app.
Qed.

Lemma contains_iff sub s : contains sub s = true ↔ ∃ a b, s = a ++ sub ++ b.
Proof.
  split.
  - induction s as [|c s IH]; cbn [contains].
    + rewrite orb_false_r. intros [t Ht]%startswith_iff. by exists "", t.
    + intros [[t Ht]%startswith_iff|(a & b & ->)%IH]%orb_true_iff; [by exists "", t|].
      by exists (String c a), b.
  - intros (a & b & ->). induction a as [|c a IH]; cbn [String.append contains].
    + destruct (sub ++ b) eqn:E; cbn [contains]; rewrite <- E, prefix_app; done.
    + by rewrite IH, orb_true_r.
Qed.

Lemma endswith_app p s : endswith p (s ++ p) = true.
Proof.
  induction s as [|c s IH]; cbn [String.append].
  - destruct p; cbn [endswith]; by rewrite String.eqb_refl.
  - cbn [endswith]. by rewrite IH, orb_true_r.
Qed.

Lemma endswith_iff p s : endswith p s = true ↔ ∃ t, s = t ++ p.
Proof.
  split.
  - induction s as [|c s IH]; cbn [endswith].
    + rewrite orb_false_r. intros ->%String.eqb_eq. by exists "".
    + intros [->%String.eqb_eq|[t ->]%IH]%orb_true_iff; [by exists ""|by exists (String c t)].
  - intros [t ->]. apply endswith_app.
Qed.

(** ** Lemmas: splitting and joining *)

(** Unfolding of [str_join]. *)
Lemma str_join_cons sep x l :
  str_join sep (x :: l) = match l with [] => x | _ => x ++ sep ++ str_join sep l end.
Proof. by destruct l. Qed.

Lemma split_char_ne c s : split_char c s ≠ [].
Proof. destruct s as [|d s]; cbn; [done|]. destruct (d =? c)%char; [done|]. by destruct (split_char c s). Qed.

Lemma split_char_lacks c s : lacks c s = true → split_char c s = [s].
Proof.
  induction s as [|d s IH]; [done|]. cbn. intros [Hd%negb_true_iff Hs]%andb_true_iff.
  by rewrite Hd, IH.
Qed.

Lemma split_char_app c a s :
  lacks c a = true → split_char c (a ++ String c s) = a :: split_char c s.
Proof.
  induction a as [|d a IH]; cbn.
  - by rewrite Ascii.eqb_refl.
  - intros [Hd%negb_true_iff Ha]%andb_true_iff. by rewrite Hd, IH.
Qed.

(** [c.join(s.split(c))] gives [s] back. *)
Lemma join_split_char c s : str_join (String c "") (split_char c s) = s.
Proof.
  induction s as [|d s IH]; [done|]. cbn [split_char].
  destruct (Ascii.eqb_spec d c) as [->|].
  - rewrite str_join_cons. destruct (split_char c s) eqn:E; [by apply split_char_ne in E|].
    cbn. f_equal. rewrite <- IH at 1. done.
  - destruct (split_char c s) as [|w ws] eqn:E; [by apply split_char_ne in E|].
    rewrite str_join_cons in IH |- *. destruct ws; cbn in *; by rewrite IH.
Qed.

(** [c.join(l).split(c)] gives [l] back when no element of [l] has a [c]. *)
Lemma split_join_char c l :
  l ≠ [] → Forall (λ w, lacks c w = true) l → split_char c (str_join (String c "") l) = l.
Proof.
  intros Hne Hl. induction Hl as [|w l Hw Hl IH]; [done|].
  rewrite str_join_cons. destruct l as [|w' l].
  - by apply split_char_lacks.
  - change (String c "" ++ ?s) with (String c s). rewrite split_char_app by done.
    f_equal. by apply IH.
Qed.

(** The parts of [s.split(c)] have no [c]. *)
Lemma split_char_parts c s : Forall (λ w, lacks c w = true) (split_char c s).
Proof.
  induction s as [|d s IH]; [by repeat constructor|]. cbn.
  destruct (d =? c)%char eqn:E; [by constructor|].
  destruct (split_char c s) as [|w ws]; [by apply Forall_singleton; cbn; rewrite E|].
  inversion IH; subst. constructor; [|done]. cbn. by rewrite E.
Qed.

Lemma split_once_app c a s : lacks c a = true → split_once c (a ++ String c s) = (a, Some s).
Proof.
  induction a as [|d a IH]; cbn; [by rewrite Ascii.eqb_refl|].
  intros [Hd%negb_true_iff Ha]%andb_true_iff. by rewrite Hd, IH.
Qed.

Lemma split_once_lacks c s : lacks c s = true → split_once c s = (s, None).
Proof.
  induction s as [|d s IH]; cbn; [done|].
  intros [Hd%negb_true_iff Hs]%andb_true_iff. by rewrite Hd, IH.
Qed.

(** The first separator determines the parts around it. *)
Lemma sep_unique c a b s t :
  lacks c a = true → lacks c b = true → a ++ String c s = b ++ String c t → a = b ∧ s = t.
Proof.
  intros Ha Hb H. apply (f_equal (split_once c)) in H.
  rewrite !split_once_app in H by done. by injection H.
Qed.

Lemma sep_absent c a b s : lacks c b = true → a ++ String c s ≠ b.
Proof.
  intros Hb <-. rewrite lacks_app in Hb. apply andb_true_iff in Hb as [_ Hb].
  cbn in Hb. by rewrite Ascii.eqb_refl in Hb.
Qed.

Lemma lacks_str_map f c s :
  (∀ d, f d ≠ c) → lacks c (str_map f s) = true.
Proof.
  intros Hf. induction s as [|d s IH]; [done|]. cbn. unfold lacks in IH. rewrite IH.
  by destruct (Ascii.eqb_spec (f d) c) as [?%Hf|].
Qed.

Lemma replace_char_lacks a b s : a ≠ b → lacks a (replace_char a b s) = true.
Proof.
  intros Hab. apply lacks_str_map. intros d. by destruct (Ascii.eqb_spec d a); congruence.
Qed.

(** ** Lemmas: integers *)

Lemma pretty_N_char_digit (x : N) : (x < 10)%N →
  is_digit (pretty_N_char x) = true ∧ digit_val (pretty_N_char x) = Z.of_N x.
Proof.
  intros H.
  assert (x = 0 ∨ x = 1 ∨ x = 2 ∨ x = 3 ∨ x = 4 ∨ x = 5 ∨ x = 6 ∨ x = 7 ∨ x = 8 ∨ x = 9)%N
    as Hx by lia.
  by destruct_or! Hx; subst.
Qed.

(** Every printed natural is made of digits. *)
Lemma pretty_N_go_digits x s :
  str_forall is_digit s = true → str_forall is_digit (pretty_N_go x s) = true.
Proof.
  revert s. induction (N.lt_wf_0 x) as [x _ IH]; intros s Hs.
  destruct (decide (x = 0)%N) as [->|]; [by rewrite pretty_N_go_0|].
  rewrite pretty_N_go_step by lia. apply IH; [apply N.div_lt; lia|].
  cbn. rewrite Hs, andb_true_r. apply pretty_N_char_digit. apply N.mod_lt. lia.
Qed.

Lemma pretty_N_digits (x : N) : str_forall is_digit (pretty x) = true.
Proof.
  unfold pretty, pretty_N. destruct (decide (x = 0)%N); [done|]. by apply pretty_N_go_digits.
Qed.

Lemma pretty_N_go_ne x s : s ≠ "" → pretty_N_go x s ≠ "".
Proof.
  revert s. induction (N.lt_wf_0 x) as [x _ IH]; intros s Hs.
  destruct (decide (x = 0)%N) as [->|]; [by rewrite pretty_N_go_0|].
  rewrite pretty_N_go_step by lia. apply IH; [apply N.div_lt; lia|done].
Qed.

Lemma pretty_N_ne (x : N) : pretty x ≠ "".
Proof.
  unfold pretty, pretty_N. destruct (decide (x = 0)%N); [done|].
  rewrite pretty_N_go_step by lia. by apply pretty_N_go_ne.
Qed.

Lemma digits_go_pretty x s :
  digits_go 0 false (pretty_N_go x s) = digits_go (Z.of_N x) (0 <? x)%N s.
Proof.
  revert s. induction (N.lt_wf_0 x) as [x _ IH]; intros s.
  destruct (decide (x = 0)%N) as [->|]; [by rewrite pretty_N_go_0|].
  rewrite pretty_N_go_step by lia. rewrite IH by (apply N.div_lt; lia).
  destruct (pretty_N_char_digit (x mod 10)) as [Hd Hv]; [apply N.mod_lt; lia|].
  cbn [digits_go]. rewrite Hd, Hv. f_equal.
  - rewrite N2Z.inj_mod, N2Z.inj_div. change (Z.of_N 10) with 10%Z.
    pose proof (Z.div_mod (Z.of_N x) 10). lia.
  - symmetry. apply N.ltb_lt. lia.
Qed.

Lemma rstrip_chars_id p s : str_forall (λ c, negb (p c)) s = true → rstrip_chars p s = s.
Proof.
  induction s as [|c s IH]; [done|]. cbn. intros [Hc%negb_true_iff Hs]%andb_true_iff.
  rewrite IH by done. destruct s; [by rewrite Hc|done].
Qed.

Lemma lstrip_chars_id p s : str_forall (λ c, negb (p c)) s = true → lstrip_chars p s = s.
Proof. destruct s as [|c s]; [done|]. cbn. intros [Hc%negb_true_iff Hs]%andb_true_iff. by rewrite Hc. Qed.

Lemma str_strip_id s : str_forall (λ c, negb (is_space c)) s = true → str_strip s = s.
Proof. intros H. unfold str_strip. by rewrite lstrip_chars_id, rstrip_chars_id. Qed.

Lemma is_digit_not_space c : is_digit c = true → negb (is_space c) = true.
Proof. by destruct c as [[] [] [] [] [] [] [] []]. Qed.

(** [int(str(z))] is [z]. *)
Lemma int_opt_str z : int_opt (str_of_Z z) = Some z.
Proof.
  assert (Hpos : ∀ x : N, digits_go 0 false (pretty x) = Some (Z.of_N x)).
  { intros x. unfold pretty, pretty_N. destruct (decide (x = 0)%N) as [->|]; [done|].
    rewrite digits_go_pretty. destruct (N.ltb_spec 0 x); [done|lia]. }
  assert (Hstrip : ∀ x : N, str_strip (pretty x) = pretty x).
  { intros x. apply str_strip_id. eapply str_forall_impl; [apply is_digit_not_space|].
    apply pretty_N_digits. }
  assert (Hd : ∀ x : N, int_opt (pretty x) = Some (Z.of_N x)).
  { intros x. unfold int_opt. rewrite Hstrip, <- Hpos.
    pose proof (pretty_N_digits x) as Hx. destruct (pretty x) as [|c s]; [done|].
    cbn in Hx. by destruct c as [[] [] [] [] [] [] [] []]. }
  unfold str_of_Z, pretty, pretty_Z. destruct z as [|p|p].
  - done.
  - apply (Hd (N.pos p)).
  - unfold int_opt, str_strip. cbn [lstrip_chars]. change ("-" ++ ?s) with (String "-" s).
    cbn [lstrip_chars]. change (is_space "-") with false. cbn iota.
    rewrite rstrip_chars_id; [by rewrite (Hpos (N.pos p) : digits_go 0 false (pretty p) = _)|].
    cbn. eapply str_forall_impl; [apply is_digit_not_space|]. apply (pretty_N_digits (N.pos p)).
Qed.

Lemma py_int_str z : py_int (str_of_Z z) = Ok z.
Proof. unfold py_int. by rewrite int_opt_str. Qed.

Lemma str_of_Z_inj z z' : str_of_Z z = str_of_Z z' → z = z'.
Proof. apply (inj pretty). Qed.

(** The characters of a printed integer are digits and the minus sign. *)
Lemma str_of_Z_chars z : str_forall (λ c, is_digit c || (c =? "-")%char) (str_of_Z z) = true.
Proof.
  assert (H : ∀ x : N, str_forall (λ c, is_digit c || (c =? "-")%char) (pretty x) = true).
  { intros x. eapply str_forall_impl; [|apply pretty_N_digits]. by intros c ->. }
  unfold str_of_Z, pretty, pretty_Z. destruct z; [done|apply (H (N.pos p))|].
  cbn. apply (H (N.pos p)).
Qed.

Lemma str_of_Z_digits z : (0 ≤ z)%Z → str_forall is_digit (str_of_Z z) = true.
Proof.
  intros Hz. unfold str_of_Z, pretty, pretty_Z. destruct z as [|p|p]; [done|apply (pretty_N_digits (N.pos p))|lia].
Qed.

Lemma str_of_Z_lacks c z : is_digit c = false → c ≠ "-"%char → lacks c (str_of_Z z) = true.
Proof.
  intros Hc Hm. eapply str_forall_impl; [|apply str_of_Z_chars].
  intros d Hd. destruct (Ascii.eqb_spec d c) as [->|]; [|done].
  rewrite Hc in Hd. by apply Ascii.eqb_eq in Hd.
Qed.

Lemma str_of_Z_ne z : str_of_Z z ≠ "".
Proof.
  unfold str_of_Z, pretty, pretty_Z. destruct z; [done|apply (pretty_N_ne (N.pos p))|done].
Qed.

(** ** Lemmas: sorting *)

Lemma sorted_str_perm l : sorted_str l ≡ₚ l.
Proof. apply merge_sort_Permutation. Qed.

Lemma sorted_str_elem x l : x ∈ sorted_str l ↔ x ∈ l.
Proof. by rewrite sorted_str_perm. Qed.

Lemma sorted_str_sorted l : StronglySorted String.le (sorted_str l).
Proof. apply (StronglySorted_merge_sort _). Qed.

(** [sorted] returns the same list for every enumeration of the same elements. *)
Lemma sorted_str_unique l1 l2 : l1 ≡ₚ l2 → sorted_str l1 = sorted_str l2.
Proof.
  intros H. apply (StronglySorted_unique String.le); try apply sorted_str_sorted.
  by rewrite !sorted_str_perm.
Qed.

Lemma sorted_set_elem x (X : gset string) : x ∈ sorted_set X ↔ x ∈ X.
Proof. unfold sorted_set. by rewrite sorted_str_elem, elem_of_elements. Qed.

Lemma sorted_set_NoDup (X : gset string) : NoDup (sorted_set X).
Proof. unfold sorted_set. rewrite sorted_str_perm. apply NoDup_elements. Qed.

#[export] Hint Resolve append_nil_r sorted_str_perm sorted_str_sorted str_of_Z_ne : pystr.
#[export] Hint Rewrite append_assoc append_nil_r : pystr_rw.

(** ** Lines *)

Lemma splitlines_go_app cur a s :
  str_forall (λ c, negb (is_linebreak c)) a = true →
  splitlines_go cur (a ++ String newline s) = (cur ++ a) :: splitlines_go "" s.
Proof.
  revert cur. induction a as [|c a IH]; intros cur Ha.
  - rewrite append_nil_r. cbn. by destruct s.
  - cbn [str_forall] in Ha. apply andb_true_iff in Ha as [Hc%negb_true_iff Ha].
    rewrite append_cons. cbn [splitlines_go]. rewrite Hc, IH by done.
    by rewrite append_assoc.
Qed.

Lemma splitlines_go_last cur a :
  str_forall (λ c, negb (is_linebreak c)) a = true → truthy (cur ++ a) = true →
  splitlines_go cur a = [cur ++ a].
Proof.
  revert cur. induction a as [|c a IH]; intros cur Ha Ht; cbn [splitlines_go].
  - rewrite append_nil_r in *. by rewrite Ht.
  - cbn [str_forall] in Ha. apply andb_true_iff in Ha as [Hc%negb_true_iff Ha]. rewrite Hc.
    rewrite IH; rewrite ?append_assoc; done.
Qed.

(** Non-empty lines joined by line breaks are split again. *)
Lemma splitlines_join l :
  Forall (λ s, truthy s = true ∧ str_forall (λ c, negb (is_linebreak c)) s = true) l →
  splitlines (str_join (String newline "") l) = l.
Proof.
  unfold splitlines. induction 1 as [|x l [Ht Hx] Hl IH]; [done|].
  rewrite str_join_cons. destruct l as [|y l]; [by apply splitlines_go_last|].
  change (x ++ String newline "" ++ str_join (String newline "") (y :: l))
    with (x ++ String newline (str_join (String newline "") (y :: l))).
  by rewrite splitlines_go_app, IH.
Qed.

Lemma str_init_app s c : str_init (s ++ String c "") = s.
Proof.
  induction s as [|d s IH]; [done|]. rewrite append_cons. cbn [str_init]. rewrite IH. by destruct s.
Qed.
