(* ===== verification/PyDict.v ===== *)
(** * Python dictionaries

    A [dict] as the list of its items in insertion order. [dict_set] replaces
    the value of a present key in place and appends a new one, as Python does;
    a dictionary is well formed when its keys are distinct. *)

From S2P Require Import Prelude.

Section dict.
Context {K V : Type} `{EqDecision K}.
Implicit Types d : list (K * V).

(** [d.get(k)] *)
Fixpoint dict_get (k : K) d : option V :=
  match d with
  | [] => None
  | (k', v) :: d => if decide (k = k') then Some v else dict_get k d
  end.

(** [d.get(k, default)] *)
Definition dict_get_or (k : K) (default : V) d : V :=
  match dict_get k d with Some v => v | None => default end.

(** [k in d] *)
Definition dict_mem (k : K) d : bool := bool_decide (is_Some (dict_get k d)).

(** [d[k] = v] *)
Fixpoint dict_set (k : K) (v : V) d : list (K * V) :=
  match d with
  | [] => [(k, v)]
  | (k', v') :: d => if decide (k = k') then (k', v) :: d else (k', v') :: dict_set k v d
  end.

(** [del d[k]], [d.pop(k)] on a present key. *)
Definition dict_del (k : K) d : list (K * V) := filter (λ kv, kv.1 ≠ k) d.

(** [d1 | d2], [d1.update(d2)] *)
Definition dict_update d1 d2 : list (K * V) := foldl (λ d '(k, v), dict_set k v d) d1 d2.

(** [dict(l)] on a list of items. *)
Definition dict_of_list (l : list (K * V)) : list (K * V) := dict_update [] l.

Definition dict_keys d : list K := d.*1.
Definition dict_values d : list V := d.*2.
Definition dict_wf d : Prop := NoDup (dict_keys d).

Lemma dict_get_set k k' v d :
  dict_get k' (dict_set k v d) = if decide (k' = k) then Some v else dict_get k' d.
Proof.
  induction d as [|[k0 v0] d IH]; cbn; [done|].
  repeat (case_decide; cbn; subst; try congruence).
Qed.

Lemma dict_get_set_eq k v d : dict_get k (dict_set k v d) = Some v.
Proof. rewrite dict_get_set. by case_decide. Qed.

Lemma dict_get_set_ne k k' v d : k' ≠ k → dict_get k' (dict_set k v d) = dict_get k' d.
Proof. intros. rewrite dict_get_set. by case_decide. Qed.

Lemma dict_get_del k k' d :
  dict_get k' (dict_del k d) = if decide (k' = k) then None else dict_get k' d.
Proof.
  unfold dict_del. induction d as [|[k0 v0] d IH]; [by case_decide|].
  rewrite filter_cons. cbn [fst dict_get].
  repeat (case_decide; cbn in *; subst; try congruence; try tauto).
Qed.

Lemma dict_get_elem k v d : dict_get k d = Some v → (k, v) ∈ d.
Proof.
  induction d as [|[k0 v0] d IH]; cbn; [done|]. case_decide as Hk; subst.
  - intros [= ->]. apply list_elem_of_here.
  - intros ?. apply list_elem_of_further. auto.
Qed.

Lemma dict_get_None k d : dict_get k d = None ↔ k ∉ dict_keys d.
Proof.
  induction d as [|[k0 v0] d IH]; cbn; [set_solver|].
  case_decide; [set_solver|]. rewrite IH. set_solver.
Qed.

Lemma dict_get_is_Some k d : is_Some (dict_get k d) ↔ k ∈ dict_keys d.
Proof.
  destruct (decide (k ∈ dict_keys d)) as [Hk|Hk].
  - split; [done|]. intros _. destruct (dict_get k d) eqn:E; [done|].
    by apply dict_get_None in E.
  - split; [|done]. apply dict_get_None in Hk. rewrite Hk. by intros [? ?].
Qed.

Lemma dict_mem_iff k d : dict_mem k d = true ↔ k ∈ dict_keys d.
Proof.
  unfold dict_mem. rewrite bool_decide_eq_true. apply dict_get_is_Some.
Qed.

Lemma dict_elem_get k v d : dict_wf d → (k, v) ∈ d → dict_get k d = Some v.
Proof.
  unfold dict_wf. induction d as [|[k0 v0] d IH]; cbn; [by intros _ ?%not_elem_of_nil|].
  intros [Hk0 Hd]%NoDup_cons [Heq|Hin]%elem_of_cons.
  - injection Heq as -> ->. by case_decide.
  - case_decide; [|auto]. subst. destruct Hk0. by apply (list_elem_of_fmap_2 fst _ _ Hin).
Qed.

Lemma dict_keys_set k v d :
  dict_keys (dict_set k v d) = if decide (k ∈ dict_keys d) then dict_keys d else dict_keys d ++ [k].
Proof.
  unfold dict_keys. induction d as [|[k0 v0] d IH]; [done|]. cbn.
  destruct (decide (k = k0)) as [->|Hne].
  - rewrite decide_True; [done|apply list_elem_of_here].
  - cbn. rewrite IH. repeat case_decide; first [done|set_solver].
Qed.

Lemma dict_set_wf k v d : dict_wf d → dict_wf (dict_set k v d).
Proof.
  unfold dict_wf. rewrite dict_keys_set. intros Hd. case_decide; [done|].
  apply NoDup_app. split_and!; [done|set_solver|apply NoDup_singleton].
Qed.

Lemma dict_del_wf k d : dict_wf d → dict_wf (dict_del k d).
Proof.
  unfold dict_wf, dict_keys, dict_del. intros Hd. induction d as [|[k0 v0] d IH]; [done|].
  cbn in *. apply NoDup_cons in Hd as [Hk Hd]. case_decide; cbn; [|auto].
  apply NoDup_cons. split; [|auto]. intros (y & -> & Hy)%list_elem_of_fmap.
  apply list_elem_of_filter in Hy as [_ Hy]. destruct Hk. by apply list_elem_of_fmap_2.
Qed.

Lemma dict_update_wf d1 d2 : dict_wf d1 → dict_wf (dict_update d1 d2).
Proof.
  revert d1. induction d2 as [|[k v] d2 IH]; intros d1 H1; cbn; [done|].
  apply IH. by apply dict_set_wf.
Qed.

Lemma dict_set_fresh k v d : k ∉ dict_keys d → dict_set k v d = d ++ [(k, v)].
Proof.
  induction d as [|[k0 v0] d IH]; cbn; [done|]. intros Hk.
  case_decide; [set_solver|]. rewrite IH; [done|set_solver].
Qed.

(** Setting distinct new keys one by one appends the items. *)
Lemma dict_update_fresh d1 d2 :
  NoDup (dict_keys d1 ++ dict_keys d2) → dict_update d1 d2 = d1 ++ d2.
Proof.
  revert d1. induction d2 as [|[k v] d2 IH]; intros d1 Hd; cbn; [by rewrite app_nil_r|].
  assert (Hk : k ∉ dict_keys d1) by (apply NoDup_app in Hd as (_ & Hd & _); set_solver).
  rewrite dict_set_fresh by done. fold (dict_update (d1 ++ [(k, v)]) d2). rewrite IH.
  - by rewrite <- app_assoc.
  - unfold dict_keys in *. rewrite fmap_app, <- app_assoc. done.
Qed.

Lemma dict_of_list_id d : dict_wf d → dict_of_list d = d.
Proof. intros Hd. by apply (dict_update_fresh [] d). Qed.

(** The last item with a key gives its value. *)
Lemma dict_get_update k d1 d2 :
  dict_get k (dict_update d1 d2) =
  match dict_get k (reverse d2) with Some v => Some v | None => dict_get k d1 end.
Proof.
  revert d1. induction d2 as [|[k0 v0] d2 IH]; intros d1; [done|].
  change (dict_update d1 ((k0, v0) :: d2)) with (dict_update (dict_set k0 v0 d1) d2).
  rewrite IH, reverse_cons.
  assert (Happ : ∀ l1 l2 : list (K * V), dict_get k (l1 ++ l2) =
    match dict_get k l1 with Some v => Some v | None => dict_get k l2 end).
  { clear. induction l1 as [|[k1 v1] l1 IH]; intros l2; cbn; [done|]. by case_decide. }
  rewrite Happ. destruct (dict_get k (reverse d2)); [done|]. cbn.
  rewrite dict_get_set. by case_decide.
Qed.

(** Reading does not depend on the order of distinct keys. *)
Lemma dict_get_perm k d1 d2 : dict_wf d1 → d1 ≡ₚ d2 → dict_get k d1 = dict_get k d2.
Proof.
  intros Hwf Hp. assert (Hwf2 : dict_wf d2) by (unfold dict_wf, dict_keys in *; by rewrite <- Hp).
  destruct (dict_get k d1) as [v|] eqn:E.
  - symmetry. apply dict_elem_get; [done|]. rewrite <- Hp. by apply dict_get_elem.
  - symmetry. apply dict_get_None. apply dict_get_None in E. unfold dict_keys in *. by rewrite <- Hp.
Qed.

Lemma dict_get_update_wf k d1 d2 : dict_wf d2 →
  dict_get k (dict_update d1 d2) =
  match dict_get k d2 with Some v => Some v | None => dict_get k d1 end.
Proof.
  intros Hwf. rewrite dict_get_update.
  rewrite <- (dict_get_perm k d2 (reverse d2)); [done..|by rewrite reverse_Permutation].
Qed.

(** Writing what is already there changes nothing. *)
Lemma dict_set_same k v d : dict_get k d = Some v → dict_set k v d = d.
Proof.
  induction d as [|[k0 v0] d IH]; cbn; [done|]. case_decide as Hk; [by intros [= ->]|].
  intros Hd. by rewrite IH.
Qed.

Lemma dict_update_same d1 d2 :
  Forall (λ kv, dict_get kv.1 d1 = Some kv.2) d2 → dict_update d1 d2 = d1.
Proof.
  unfold dict_update. induction 1 as [|[k v] d2 Hkv _ IH]; [done|]. cbn [foldl fst snd] in *.
  by rewrite dict_set_same.
Qed.
End dict.
