(* ===== verification/Json.v ===== *)
(** * JSON documents

    The values of [json.loads] and the text of [json.dumps] (default
    separators, ASCII output). An object is a dictionary in insertion order; a
    number with a fraction or an exponent keeps its text. The parser runs on a
    fuel that [loads] takes large enough from the length of the text, so that
    [loads (dumps v)] returns [v] on every document without such numbers. *)

From S2P Require Import Prelude PyStr PyDict.

Local Open Scope string_scope.

#[local] Set Warnings "-register-all".

Inductive json :=
| JNull
| JBool (b : bool)
| JInt (z : Z)
| JFloat (text : string)
| JStr (s : string)
| JList (l : list json)
| JObj (d : list (string * json)).

(** Induction that reaches the elements of lists and objects. *)
Section json_ind_nested.
  Variable P : json → Prop.
  Hypothesis HNull : P JNull.
  Hypothesis HBool : ∀ b, P (JBool b).
  Hypothesis HInt : ∀ z, P (JInt z).
  Hypothesis HFloat : ∀ t, P (JFloat t).
  Hypothesis HStr : ∀ s, P (JStr s).
  Hypothesis HList : ∀ l, Forall P l → P (JList l).
  Hypothesis HObj : ∀ d, Forall (λ kv, P kv.2) d → P (JObj d).

Fixpoint json_ind' (v : json) : P v :=
  match v with
  | JNull => HNull
  | JBool b => HBool b
  | JInt z => HInt z
  | JFloat t => HFloat t
  | JStr s => HStr s
  | JList l =>
      HList l ((fix go l : Forall P l :=
        match l with [] => Forall_nil_2 _ | v :: l => Forall_cons_2 _ _ _ (json_ind' v) (go l) end) l)
  | JObj d =>
      HObj d ((fix go d : Forall (λ kv, P kv.2) d :=
        match d with
        | [] => Forall_nil_2 _
        | kv :: d => Forall_cons_2 (λ kv, P kv.2) _ _ (json_ind' kv.2) (go d)
        end) d)
  end.
End json_ind_nested.

#[export] Instance json_eq_dec : EqDecision json.
Proof.
  refine (fix go (v w : json) : Decision (v = w) :=
    match v, w with
    | JNull, JNull => left _
    | JBool b, JBool c => cast_if (decide (b = c))
    | JInt b, JInt c => cast_if (decide (b = c))
    | JFloat b, JFloat c => cast_if (decide (b = c))
    | JStr b, JStr c => cast_if (decide (b = c))
    | JList l, JList k => cast_if (@list_eq_dec _ go l k)
    | JObj d, JObj e => cast_if (@list_eq_dec _ (λ x y, @prod_eq_dec _ _ _ go x y) d e)
    | _, _ => right _
    end); clear go; abstract congruence.
Defined.

(** ** Printing *)

Definition hex_digit (n : nat) : ascii :=
  if (n <? 10)%nat then chr (48 + n) else chr (87 + n).

(** One character of a string literal. *)
Definition escape_char (c : ascii) : string :=
  let n := nat_of_ascii c in
  if (n =? 34)%nat then String "\" (String c "")
  else if (n =? 92)%nat then "\\"
  else if (n =? 10)%nat then "\n"
  else if (n =? 13)%nat then "\r"
  else if (n =? 9)%nat then "\t"
  else if (n =? 12)%nat then "\f"
  else if (n =? 8)%nat then "\b"
  else if (32 <=? n)%nat && (n <=? 126)%nat then String c ""
  else "\u00" ++ String (hex_digit (n / 16)) (String (hex_digit (n mod 16)) "").

Definition quote : ascii := chr 34.

Fixpoint escape (s : string) : string :=
  match s with "" => "" | String c s => escape_char c ++ escape s end.

Definition dumps_str (s : string) : string := String quote (escape s ++ String quote "").

Fixpoint dumps (v : json) : string :=
  match v with
  | JNull => "null"
  | JBool true => "true"
  | JBool false => "false"
  | JInt z => str_of_Z z
  | JFloat t => t
  | JStr s => dumps_str s
  | JList l => "[" ++ str_join ", " (map dumps l) ++ "]"
  | JObj d => "{" ++ str_join ", " (map (λ kv, dumps_str kv.1 ++ ": " ++ dumps kv.2) d) ++ "}"
  end.

(** ** Parsing *)

Definition is_json_ws (c : ascii) : bool :=
  let n := nat_of_ascii c in ((n =? 32) || (n =? 9) || (n =? 10) || (n =? 13))%nat.

Definition skip_ws : string → string := lstrip_chars is_json_ws.

Definition hex_val (c : ascii) : option nat :=
  let n := nat_of_ascii c in
  if (48 <=? n)%nat && (n <=? 57)%nat then Some (n - 48)%nat
  else if (97 <=? n)%nat && (n <=? 102)%nat then Some (n - 87)%nat
  else if (65 <=? n)%nat && (n <=? 70)%nat then Some (n - 55)%nat
  else None.

(** The rest of a string literal after its opening quote. A [\u] escape
    beyond the 8-bit characters is refused. *)
Fixpoint parse_str (s : string) : option (string * string) :=
  match s with
  | "" => None
  | String c s =>
      if (nat_of_ascii c =? 34)%nat then Some ("", s)
      else if (nat_of_ascii c =? 92)%nat then
        match s with
        | String "u" (String "0" (String "0" (String h (String l s)))) =>
            h ← hex_val h; l ← hex_val l; '(t, r) ← parse_str s;
            Some (String (chr (16 * h + l)) t, r)
        | String e s =>
            c ← (if (nat_of_ascii e =? 34)%nat then Some quote
                 else if (e =? "\")%char then Some "\"%char
                 else if (e =? "/")%char then Some "/"%char
                 else if (e =? "n")%char then Some (chr 10)
                 else if (e =? "r")%char then Some (chr 13)
                 else if (e =? "t")%char then Some (chr 9)
                 else if (e =? "f")%char then Some (chr 12)
                 else if (e =? "b")%char then Some (chr 8) else None);
            '(t, r) ← parse_str s; Some (String c t, r)
        | "" => None
        end
      else if (nat_of_ascii c <? 32)%nat then None
      else '(t, r) ← parse_str s; Some (String c t, r)
  end.

(** The longest prefix of characters that satisfy [p], and the rest. *)
Fixpoint span (p : ascii → bool) (s : string) : string * string :=
  match s with
  | "" => ("", "")
  | String c s' => if p c then let '(a, b) := span p s' in (String c a, b) else ("", s)
  end.

Definition is_number_char (c : ascii) : bool :=
  is_digit c || (c =? "-")%char || (c =? "+")%char || (c =? ".")%char || (c =? "e")%char
  || (c =? "E")%char.

(** [s] without its first character when that is [c]. *)
Definition expect (c : ascii) (s : string) : option string :=
  match s with String d s => if (d =? c)%char then Some s else None | "" => None end.

(** [s] without its prefix [p] when it has it. *)
Definition strip_prefix (p s : string) : option string :=
  if String.prefix p s then Some (str_drop (String.length p) s) else None.

(** A number: an integer when it is all digits after its sign. *)
Definition parse_number (s : string) : option (json * string) :=
  let '(t, r) := span is_number_char s in
  let digits := default t (expect "-" t) in
  if negb (truthy (fst (span is_digit digits))) then None
  else if str_forall is_digit digits then z ← int_opt t; Some (JInt z, r)
  else Some (JFloat t, r).

(** The values that start with neither a bracket nor a brace. *)
Definition parse_scalar (s : string) : option (json * string) :=
  match expect quote s with
  | Some s => '(t, r) ← parse_str s; Some (JStr t, r)
  | None =>
      match strip_prefix "null" s, strip_prefix "true" s, strip_prefix "false" s with
      | Some r, _, _ => Some (JNull, r)
      | _, Some r, _ => Some (JBool true, r)
      | _, _, Some r => Some (JBool false, r)
      | None, None, None => parse_number s
      end
  end.

(** One [key: value] of an object, its value read by [pv]. *)
Definition parse_member (pv : string → option (json * string)) (s : string)
    : option (string * json * string) :=
  s ← expect quote (skip_ws s);
  '(k, r) ← parse_str s;
  r ← expect ":" (skip_ws r);
  '(v, r) ← pv r;
  Some (k, v, r).

Fixpoint parse_value (fuel : nat) (s : string) : option (json * string) :=
  match fuel with
  | O => None
  | S n =>
      let s := skip_ws s in
      match expect "[" s, expect "{" s with
      | Some s, _ =>
          match expect "]" (skip_ws s) with
          | Some r => Some (JList [], r)
          | None => '(l, r) ← parse_items n s; Some (JList l, r)
          end
      | None, Some s =>
          match expect "}" (skip_ws s) with
          | Some r => Some (JObj [], r)
          | None => '(d, r) ← parse_members n s; Some (JObj (dict_of_list d), r)
          end
      | None, None => parse_scalar s
      end
  end
with parse_items (fuel : nat) (s : string) : option (list json * string) :=
  match fuel with
  | O => None
  | S n =>
      '(v, r) ← parse_value n s;
      match expect "," (skip_ws r), expect "]" (skip_ws r) with
      | Some r, _ => '(l, r) ← parse_items n r; Some (v :: l, r)
      | None, Some r => Some ([v], r)
      | None, None => None
      end
  end
with parse_members (fuel : nat) (s : string) : option (list (string * json) * string) :=
  match fuel with
  | O => None
  | S n =>
      '(k, v, r) ← parse_member (parse_value n) s;
      match expect "," (skip_ws r), expect "}" (skip_ws r) with
      | Some r, _ => '(d, r) ← parse_members n r; Some ((k, v) :: d, r)
      | None, Some r => Some ([(k, v)], r)
      | None, None => None
      end
  end.

(** [json.loads(s)] *)
Definition loads (s : string) : result json :=
  match parse_value (2 * String.length s + 2) s with
  | Some (v, r) =>
      if (skip_ws r =? "")%string then Ok v else Err (ValueError "JSONDecodeError: Extra data")
  | None => Err (ValueError "JSONDecodeError")
  end.

(** ** The round trip *)

(** A document without fractional numbers whose objects have distinct keys. *)
Fixpoint plain (v : json) : bool :=
  match v with
  | JFloat _ => false
  | JList l => forallb plain l
  | JObj d => bool_decide (dict_wf d) && forallb (λ kv, plain kv.2) d
  | _ => true
  end.

(** The fuel a document needs. *)
Fixpoint depth (v : json) : nat :=
  match v with
  | JList l => S (foldr (λ v n, S (Nat.max (depth v) n)) 0 l)
  | JObj d => S (foldr (λ kv n, S (Nat.max (depth kv.2) n)) 0 d)
  | _ => 1
  end%nat.

(** What may follow a printed document: nothing that continues a number. *)
Definition stops (r : string) : bool :=
  match r with "" => true | String c _ => negb (is_number_char c) end.

Lemma hex_val_digit n : (n < 16)%nat → hex_val (hex_digit n) = Some n.
Proof. intros H. do 16 (destruct n as [|n]; [done|]). lia. Qed.

(** The parser of string literals undoes the escaping of one character. *)
Lemma parse_str_escape_char c s :
  parse_str (escape_char c ++ s) = '(t, r) ← parse_str s; Some (String c t, r).
Proof. by destruct c as [[] [] [] [] [] [] [] []]. Qed.

Lemma parse_str_escape s r : parse_str (escape s ++ String quote r) = Some (s, r).
Proof.
  induction s as [|c s IH]; [done|]. cbn [escape].
  by rewrite append_assoc, parse_str_escape_char, IH.
Qed.

Lemma span_app p a r :
  str_forall p a = true → match r with "" => true | String c _ => negb (p c) end = true →
  span p (a ++ r) = (a, r).
Proof.
  intros Ha Hr. induction a as [|c a IH]; cbn in *.
  - destruct r as [|c r]; [done|]. cbn. apply negb_true_iff in Hr. by rewrite Hr.
  - apply andb_true_iff in Ha as [-> Ha]. by rewrite IH.
Qed.

Lemma span_forall p a : str_forall p a = true → span p a = (a, "").
Proof. intros. by rewrite <- (append_nil_r a) at 1; rewrite span_app. Qed.

(** A printed integer is digits, or a minus sign and digits. *)
Lemma str_of_Z_shape z :
  ∃ c t, is_digit c = true ∧ str_forall is_digit t = true ∧
    (str_of_Z z = String c t ∨ str_of_Z z = String "-" (String c t)).
Proof.
  assert (H : ∀ x : N, ∃ c t, is_digit c = true ∧ str_forall is_digit t = true ∧
    pretty x = String c t).
  { intros x. pose proof (pretty_N_digits x) as Hx. pose proof (pretty_N_ne x).
    destruct (pretty x) as [|c t]; [done|]. cbn in Hx. apply andb_true_iff in Hx as [??]. eauto. }
  unfold str_of_Z, pretty, pretty_Z. destruct z as [|p|p].
  - exists "0"%char, "". auto.
  - destruct (H (N.pos p)) as (c & t & ? & ? & E). exists c, t. split_and!; try done. by left.
  - destruct (H (N.pos p)) as (c & t & ? & ? & E). exists c, t. split_and!; try done. right.
    cbn. f_equal. exact E.
Qed.

Lemma digit_number_char c : is_digit c = true → is_number_char c = true.
Proof. unfold is_number_char. by intros ->. Qed.

(** The first character of a number starts no other kind of document. *)
Lemma digit_starts c : is_digit c = true ∨ c = "-"%char →
  is_json_ws c = false ∧ (c =? "[")%char = false ∧ (c =? "{")%char = false ∧
  (c =? quote)%char = false ∧ (c =? "n")%char = false ∧ (c =? "t")%char = false ∧
  (c =? "f")%char = false ∧ (c =? "]")%char = false.
Proof. intros [H | ->]; [|done]. revert H. by destruct c as [[] [] [] [] [] [] [] []]. Qed.

Lemma parse_number_int z r :
  stops r = true → parse_number (str_of_Z z ++ r) = Some (JInt z, r).
Proof.
  intros Hr. unfold parse_number.
  destruct (str_of_Z_shape z) as (c & t & Hc & Ht & Hz).
  assert (Hn : str_forall is_number_char (str_of_Z z) = true).
  { destruct Hz as [-> | ->]; cbn; rewrite (digit_number_char c Hc);
      (eapply str_forall_impl; [apply digit_number_char|done]). }
  rewrite span_app by done.
  assert (Hd : default (str_of_Z z) (expect "-" (str_of_Z z)) = String c t).
  { destruct Hz as [-> | ->]; cbn; [|done].
    destruct (Ascii.eqb_spec c "-") as [->|]; [done|done]. }
  rewrite Hd, span_forall by (cbn; by rewrite Hc).
  cbn [fst truthy negb String.eqb str_forall]. rewrite Hc, Ht. cbn.
  by rewrite int_opt_str.
Qed.

Lemma parse_scalar_int z r :
  stops r = true → parse_scalar (str_of_Z z ++ r) = Some (JInt z, r).
Proof.
  intros Hr. rewrite <- (parse_number_int z r Hr).
  destruct (str_of_Z_shape z) as (c & t & Hc & Ht & Hz).
  assert (∃ d u, str_of_Z z ++ r = String d u ∧ (is_digit d = true ∨ d = "-"%char))
    as (d & u & -> & Hd).
  { destruct Hz as [-> | ->]; cbn; eauto. }
  apply digit_starts in Hd as (_ & _ & _ & Hq & Hn & Htt & Hf & _).
  unfold parse_scalar, expect, strip_prefix. rewrite Hq.
  apply Ascii.eqb_neq in Hn, Htt, Hf. by rewrite !prefix_ne by done.
Qed.

(** A printed document starts with a character that is neither white space nor
    a closing bracket. *)
Lemma dumps_head v : plain v = true →
  ∃ c t, dumps v = String c t ∧ is_json_ws c = false ∧ (c =? "]")%char = false.
Proof.
  destruct v as [|[]|z| | | |]; cbn [dumps]; intros Hp; try done;
    try (by eexists _, _; split_and!).
  destruct (str_of_Z_shape z) as (c & t & Hc & Ht & [-> | ->]).
  - exists c, t. destruct (digit_starts c) as (? & _ & _ & _ & _ & _ & _ & ?); auto.
  - by eexists _, _; split_and!.
Qed.

Lemma skip_ws_nonws c s : is_json_ws c = false → skip_ws (String c s) = String c s.
Proof. intros H. unfold skip_ws. cbn. by rewrite H. Qed.

(** Leading spaces do not matter. *)
Lemma parse_value_space n s : parse_value n (String " " s) = parse_value n s.
Proof. by destruct n. Qed.
Lemma parse_items_space n s : parse_items n (String " " s) = parse_items n s.
Proof. destruct n; [done|]. cbn [parse_items]. by rewrite parse_value_space. Qed.
Lemma parse_members_space n s : parse_members n (String " " s) = parse_members n s.
Proof. by destruct n. Qed.

(** What [loads] reads of a printed document, whatever follows it. *)
Definition reads (v : json) : Prop :=
  plain v = true → ∀ n r, (depth v ≤ n)%nat → stops r = true →
  parse_value n (dumps v ++ r) = Some (v, r).

Lemma parse_items_dumps l n r :
  l ≠ [] → Forall reads l → forallb plain l = true →
  (foldr (λ v n, S (Nat.max (depth v) n)) 0 l ≤ n)%nat →
  parse_items n (str_join ", " (map dumps l) ++ String "]" r) = Some (l, r).
Proof.
  intros Hne Hl. revert n. induction Hl as [|v l Hv Hl IH]; intros n Hp Hn; [done|].
  cbn in Hp. apply andb_true_iff in Hp as [Hpv Hpl]. cbn [foldr] in Hn.
  destruct n as [|n]; [lia|]. cbn [parse_items map]. rewrite str_join_cons.
  destruct l as [|v' l]; cbn [map].
  - rewrite (Hv Hpv) by first [done|lia]. done.
  - rewrite !append_assoc. rewrite (Hv Hpv) by first [done|lia]. cbn [mbind option_bind].
    change (", " ++ ?s) with (String "," (String " " s)). rewrite skip_ws_nonws by done.
    cbn [expect Ascii.eqb Bool.eqb]. cbv iota. rewrite parse_items_space.
    rewrite IH; [done..|lia].
Qed.

Lemma parse_member_dumps k v n r :
  reads v → plain v = true → (depth v ≤ n)%nat → stops r = true →
  parse_member (parse_value n) ((dumps_str k ++ ": " ++ dumps v) ++ r) = Some (k, v, r).
Proof.
  intros Hv Hp Hn Hr. unfold parse_member, dumps_str. cbn [String.append].
  rewrite !append_assoc. cbn [String.append]. rewrite skip_ws_nonws by done.
  change (expect quote (String quote ?s)) with (Some s). cbn [mbind option_bind].
  rewrite parse_str_escape. cbn [mbind option_bind].
  change (": " ++ ?s) with (String ":" (String " " s)). rewrite skip_ws_nonws by done.
  change (expect ":" (String ":" ?s)) with (Some s). cbn [mbind option_bind].
  by rewrite parse_value_space, (Hv Hp) by done.
Qed.

Lemma parse_members_dumps d n r :
  d ≠ [] → Forall (λ kv, reads kv.2) d → forallb (λ kv, plain kv.2) d = true →
  (foldr (λ kv n, S (Nat.max (depth kv.2) n)) 0 d ≤ n)%nat →
  parse_members n
    (str_join ", " (map (λ kv, dumps_str kv.1 ++ ": " ++ dumps kv.2) d) ++ String "}" r)
  = Some (d, r).
Proof.
  intros Hne Hd. revert n. induction Hd as [|[k v] d Hv Hd IH]; intros n Hp Hn; [done|].
  cbn in Hp. apply andb_true_iff in Hp as [Hpv Hpd]. cbn [foldr snd] in Hn. cbn [snd] in Hv.
  destruct n as [|n]; [lia|]. cbn [map parse_members]. rewrite str_join_cons. cbn [fst snd].
  destruct d as [|kv' d]; cbn [map].
  - by rewrite parse_member_dumps by first [done|lia].
  - set (tail := str_join ", " _). rewrite (append_assoc _ (", " ++ tail)).
    rewrite (append_assoc ", " tail).
    rewrite parse_member_dumps by first [done|lia]. cbn [mbind option_bind].
    change (", " ++ ?s) with (String "," (String " " s)). rewrite skip_ws_nonws by done.
    cbn [expect Ascii.eqb Bool.eqb]. cbv iota. rewrite parse_members_space.
    unfold tail. rewrite IH; [done..|lia].
Qed.

(** The text of the elements of a list does not start with a closing bracket. *)
Lemma join_dumps_head l r : l ≠ [] → forallb plain l = true →
  ∃ c t, str_join ", " (map dumps l) ++ r = String c t ∧
    is_json_ws c = false ∧ (c =? "]")%char = false.
Proof.
  destruct l as [|v l]; [done|]. intros _ [Hv _]%andb_true_iff.
  destruct (dumps_head v Hv) as (c & t & Hd & ? & ?).
  cbn [map]. rewrite str_join_cons, Hd. destruct (map dumps l); cbn; eauto.
Qed.

Lemma dumps_reads v : reads v.
Proof.
  induction v as [|b|z|t|s|l IH|d IH] using json_ind'; intros Hp n r Hn Hr;
    (destruct n as [|n]; [cbn in Hn; lia|]); cbn [parse_value dumps].
  - by destruct r.
  - by destruct b, r.
  - destruct (dumps_head (JInt z) Hp) as (c & t & Hd & Hws & _). cbn [dumps] in Hd.
    destruct (str_of_Z_shape z) as (c' & t' & Hc' & _ & Hz).
    assert (is_digit c = true ∨ c = "-"%char) as Hc
      by (destruct Hz as [Hz | Hz]; rewrite Hd in Hz; injection Hz as -> _; auto).
    apply digit_starts in Hc as (_ & H1 & H2 & _).
    rewrite Hd. cbn [String.append]. rewrite skip_ws_nonws by done.
    cbn [expect]. rewrite H1, H2. change (String c (t ++ r)) with (String c t ++ r).
    rewrite <- Hd. by apply parse_scalar_int.
  - done.
  - unfold dumps_str. cbn [String.append]. rewrite skip_ws_nonws by done.
    change (expect "[" _) with (@None string). change (expect "{" _) with (@None string). cbn iota.
    unfold parse_scalar. change (expect quote (String quote ?s)) with (Some s). cbn iota.
    rewrite append_assoc. cbn [String.append]. by rewrite parse_str_escape.
  - rewrite !append_assoc. change ("[" ++ ?s) with (String "[" s).
    rewrite skip_ws_nonws by done. change (expect "[" (String "[" ?s)) with (Some s). cbn iota.
    change ("]" ++ r) with (String "]" r).
    destruct (decide (l = [])) as [->|Hne]; [done|].
    destruct (join_dumps_head l (String "]" r) Hne Hp) as (c & t & Hd & Hws & Hb).
    rewrite Hd, skip_ws_nonws by done. cbn [expect]. rewrite Hb, <- Hd.
    cbn [depth] in Hn. rewrite parse_items_dumps by first [done|lia]. done.
  - cbn [plain] in Hp. apply andb_true_iff in Hp as [Hwf%bool_decide_eq_true Hp].
    rewrite !append_assoc. change ("{" ++ ?s) with (String "{" s).
    rewrite skip_ws_nonws by done. change (expect "[" (String "{" ?s)) with (@None string).
    change (expect "{" (String "{" ?s)) with (Some s). cbn iota.
    change ("}" ++ r) with (String "}" r).
    destruct (decide (d = [])) as [->|Hne]; [done|].
    assert (∃ t, str_join ", " (map (λ kv, dumps_str kv.1 ++ ": " ++ dumps kv.2) d)
                 ++ String "}" r = String quote t) as [t Hd].
    { destruct d as [|[k v] d]; [done|]. cbn [map]. rewrite str_join_cons.
      destruct (map _ d); unfold dumps_str; cbn; eauto. }
    rewrite Hd, skip_ws_nonws by done. change (expect "}" (String quote t)) with (@None string).
    cbn iota. rewrite <- Hd. cbn [depth] in Hn.
    rewrite parse_members_dumps by first [done|lia]. cbn [mbind option_bind].
    by rewrite dict_of_list_id.
Qed.

(** ** The fuel of [loads] is enough *)

Lemma join_fuel {A} (text : A → string) (dep : A → nat) l :
  Forall (λ x, dep x ≤ 2 * String.length (text x) + 1)%nat l →
  (foldr (λ x n, S (Nat.max (dep x) n)) 0 l
   ≤ 2 * String.length (str_join ", " (map text l)) + 2)%nat.
Proof.
  induction 1 as [|x l Hx _ IH]; [cbn; lia|]. cbn [foldr map]. rewrite str_join_cons.
  destruct l as [|y l]; [cbn [foldr map] in *; lia|].
  cbn [map] in *. rewrite !append_length. cbn [String.length]. lia.
Qed.

Lemma depth_length v : (depth v ≤ 2 * String.length (dumps v) + 1)%nat.
Proof.
  induction v as [|b|z|t|s|l IH|d IH] using json_ind'; cbn [depth dumps]; try lia;
    rewrite !append_length; cbn [String.length].
  - pose proof (join_fuel dumps depth l IH). lia.
  - assert (H : Forall (λ kv, depth kv.2
      ≤ 2 * String.length (dumps_str kv.1 ++ ": " ++ dumps kv.2) + 1)%nat d).
    { eapply Forall_impl; [exact IH|]. intros [k v] Hv. cbn [fst snd] in *.
      rewrite !append_length. lia. }
    pose proof (join_fuel (λ kv, dumps_str kv.1 ++ ": " ++ dumps kv.2) (λ kv, depth kv.2) d H).
    lia.
Qed.

(** [json.loads(json.dumps(v))] is [v] for every document of nulls,
    booleans, integers, strings, lists and objects with distinct keys. *)
Theorem loads_dumps v : plain v = true → loads (dumps v) = Ok v.
Proof.
  intros Hp. unfold loads. rewrite <- (append_nil_r (dumps v)) at 2.
  rewrite (dumps_reads v Hp); [done| |done]. pose proof (depth_length v). lia.
Qed.

(** ** Equality and truth of documents *)

(** [v == w] in Python: objects compare without regard to order, and a boolean
    equals the integer it stands for. Numbers kept as text compare by text. *)
Fixpoint json_eqb (v w : json) : bool :=
  match v, w with
  | JNull, JNull => true
  | JBool a, JBool b => Bool.eqb a b
  | JBool a, JInt z | JInt z, JBool a => Z.eqb z (if a then 1 else 0)
  | JInt a, JInt b => Z.eqb a b
  | JFloat a, JFloat b => String.eqb a b
  | JStr a, JStr b => String.eqb a b
  | JList l, JList k =>
      (fix go l k :=
         match l, k with
         | [], [] => true
         | v :: l, w :: k => json_eqb v w && go l k
         | _, _ => false
         end) l k
  | JObj d, JObj e =>
      (length d =? length e)%nat &&
      forallb (λ kv, match dict_get kv.1 e with Some w => json_eqb kv.2 w | None => false end) d
  | _, _ => false
  end.

(** [bool(v)] *)
Definition json_truthy (v : json) : bool :=
  match v with
  | JNull => false
  | JBool b => b
  | JInt z => negb (z =? 0)%Z
  | JFloat t =>
      let mantissa := fst (span (λ c, negb ((c =? "e")%char || (c =? "E")%char)) t) in
      negb (str_forall (λ c, has_char c "+-.0") mantissa)
  | JStr s => truthy s
  | JList l => negb (length l =? 0)%nat
  | JObj d => negb (length d =? 0)%nat
  end.

Lemma json_eqb_refl v : plain v = true → json_eqb v v = true.
Proof.
  induction v as [|b|z|t|s|l IH|d IH] using json_ind'; cbn [json_eqb plain]; intros Hp; try done.
  - by destruct b.
  - by rewrite Z.eqb_refl.
  - apply String.eqb_refl.
  - induction IH as [|v l Hv _ IH]; [done|]. cbn in Hp.
    apply andb_true_iff in Hp as [??]. by rewrite Hv, IH.
  - apply andb_true_iff in Hp as [Hwf%bool_decide_eq_true Hp]. rewrite Nat.eqb_refl. cbn [andb].
    apply forallb_forall. intros [k v] Hin%list_elem_of_In. cbn [fst snd].
    rewrite (dict_elem_get k v d) by done.
    rewrite Forall_forall in IH. apply (IH (k, v) Hin).
    rewrite forallb_forall in Hp. apply (Hp (k, v)). by apply list_elem_of_In.
Qed.

Create HintDb json.
#[export] Hint Resolve loads_dumps json_eqb_refl : json.
