(* ===== verification/Literals.v ===== *)
(** * Constants of the charm (literals.py)

    The names of users, relations and secrets, the listener ports, the roles,
    and the statuses of the unit. *)

From S2P Require Import Prelude PyStr PyDict.

Local Open Scope string_scope.
Local Open Scope Z_scope.

(** ** Names *)

Definition SUBSTRATE : string := "k8s".
Definition PEER : string := "cluster".
Definition REL_NAME : string := "kafka-client".
Definition TLS_RELATION : string := "certificates".
Definition INTERNAL_TLS_RELATION : string := "peer-certificates".
Definition PEER_CLUSTER_RELATION : string := "peer-cluster".
Definition PEER_CLUSTER_ORCHESTRATOR_RELATION : string := "peer-cluster-orchestrator".
Definition USER_ID : string := "kafka".
Definition USER_NAME : string := "kafka".
Definition GROUP : string := "kafka".
Definition BALANCER_TOPICS : list string :=
  ["__CruiseControlMetrics"; "__KafkaCruiseControlPartitionMetricSamples";
   "__KafkaCruiseControlBrokerMetricSamples"].
Definition MIN_REPLICAS : nat := 3.
Definition KRAFT_VERSION : Z := 1.

(** ** TLS scopes *)

Inductive TLSScope := PEER_SCOPE | CLIENT_SCOPE.

#[export] Instance TLSScope_eq_dec : EqDecision TLSScope.
Proof. solve_decision. Defined.

Definition TLSScope_value (s : TLSScope) : string :=
  match s with PEER_SCOPE => "peer" | CLIENT_SCOPE => "client" end.

(** ** Users and secrets *)

Definition INTER_BROKER_USER : string := "replication".
Definition ADMIN_USER : string := "operator".
Definition CONTROLLER_USER : string := "controller".
Definition BALANCER_WEBSERVER_USER : string := "balancer".
Definition INTERNAL_USERS : list string := [INTER_BROKER_USER; ADMIN_USER].
Definition BALANCER_WEBSERVER_PORT : Z := 9090.

Definition SECRETS_APP : list string :=
  ((λ user, user ++ "-password")%string <$>
     (INTERNAL_USERS ++ [BALANCER_WEBSERVER_USER; CONTROLLER_USER])%list)
  ++ ["internal-ca"; "internal-ca-key"].

Definition SECRETS_UNIT : list string :=
  ["truststore-password"; "keystore-password"; "client-ca-cert"; "client-certificate";
   "client-chain"; "client-csr"; "client-private-key"; "peer-ca-cert"; "peer-certificate";
   "peer-chain"; "peer-csr"; "peer-private-key"].

Definition JMX_EXPORTER_PORT : Z := 9101.
Definition JMX_CC_PORT : Z := 9102.

(** ** Listener ports *)

Record Ports := mkPorts { client : Z; internal : Z; external : Z; controller : Z; extra : Z }.

Inductive AuthProtocol := SASL_PLAINTEXT | SASL_SSL | SSL_PROTOCOL.
Inductive AuthMechanism := SCRAM_SHA_512 | OAUTHBEARER | SSL_MECHANISM.
Inductive Scope := INTERNAL | CLIENT | EXTERNAL | EXTRA | CONTROLLER.

#[export] Instance AuthProtocol_eq_dec : EqDecision AuthProtocol.
Proof. solve_decision. Defined.
#[export] Instance AuthMechanism_eq_dec : EqDecision AuthMechanism.
Proof. solve_decision. Defined.
#[export] Instance Scope_eq_dec : EqDecision Scope.
Proof. solve_decision. Defined.

Definition protocol_str (p : AuthProtocol) : string :=
  match p with
  | SASL_PLAINTEXT => "SASL_PLAINTEXT" | SASL_SSL => "SASL_SSL" | SSL_PROTOCOL => "SSL"
  end.

Definition mechanism_str (m : AuthMechanism) : string :=
  match m with
  | SCRAM_SHA_512 => "SCRAM-SHA-512" | OAUTHBEARER => "OAUTHBEARER" | SSL_MECHANISM => "SSL"
  end.

Definition scope_str (s : Scope) : string :=
  match s with
  | INTERNAL => "INTERNAL" | CLIENT => "CLIENT" | EXTERNAL => "EXTERNAL"
  | EXTRA => "EXTRA" | CONTROLLER => "CONTROLLER"
  end.

Record AuthMap := mkAuthMap { protocol : AuthProtocol; mechanism : AuthMechanism }.

#[export] Instance AuthMap_eq_dec : EqDecision AuthMap.
Proof. solve_decision. Defined.

(** The table of ports, in the order of the source. *)
Definition SECURITY_PROTOCOL_PORTS : list (AuthMap * Ports) :=
  [(mkAuthMap SASL_PLAINTEXT SCRAM_SHA_512, mkPorts 9092 19092 29092 9097 0);
   (mkAuthMap SASL_SSL SCRAM_SHA_512, mkPorts 9093 19093 29093 9098 0);
   (mkAuthMap SSL_PROTOCOL SSL_MECHANISM, mkPorts 9094 19094 29094 19194 0);
   (mkAuthMap SASL_PLAINTEXT OAUTHBEARER, mkPorts 9095 19095 29095 19195 0);
   (mkAuthMap SASL_SSL OAUTHBEARER, mkPorts 9096 19096 29096 19196 0)].

(** [SECURITY_PROTOCOL_PORTS[auth_map]] *)
Definition ports_of (a : AuthMap) : result Ports :=
  match dict_get a SECURITY_PROTOCOL_PORTS with
  | Some p => Ok p
  | None => Err (KeyError (protocol_str (protocol a) ++ "," ++ mechanism_str (mechanism a))%string)
  end.

Definition KRAFT_NODE_ID_OFFSET : Z := 100.
Definition JVM_MEM_MIN_GB : Z := 1.
Definition JVM_MEM_MAX_GB : Z := 6.

(** ** Paths and roles *)

Record RolePaths := mkRolePaths { CONF : string; LOGS : string; DATA : string; BIN : string }.

Definition KAFKA_PATHS : RolePaths :=
  mkRolePaths "/etc/kafka" "/var/log/kafka" "/var/lib/kafka" "/opt/kafka".
Definition CRUISE_CONTROL_PATHS : RolePaths :=
  mkRolePaths "/etc/cruise-control" "/var/log/cruise-control" "/var/lib/cruise-control"
    "/opt/cruise-control".

Record Role := mkRole {
  role_value : string; role_service : string; role_paths : RolePaths;
  role_relation : string; requested_secrets : list string }.

Definition BROKER_ROLE : Role :=
  mkRole "broker" "kafka" KAFKA_PATHS PEER_CLUSTER_ORCHESTRATOR_RELATION
    ["balancer-username"; "balancer-password"; "balancer-uris"; "controller-password"].
Definition CONTROLLER_ROLE : Role :=
  mkRole "controller" "daemon" KAFKA_PATHS PEER_CLUSTER_RELATION
    ["broker-username"; "broker-password"; "controller-password"].
Definition BALANCER_ROLE : Role :=
  mkRole "balancer" "cruise-control" CRUISE_CONTROL_PATHS PEER_CLUSTER_RELATION
    ["broker-username"; "broker-password"; "broker-uris"; "controller-passwrod";
     "zk-username"; "zk-password"; "zk-uris"].

(** ** Cruise Control goals *)

Definition DEFAULT_BALANCER_GOALS : list string :=
  ["ReplicaCapacity"; "DiskCapacity"; "NetworkInboundCapacity"; "NetworkOutboundCapacity";
   "CpuCapacity"; "ReplicaDistribution"; "PotentialNwOut"; "DiskUsageDistribution";
   "NetworkInboundUsageDistribution"; "NetworkOutboundUsageDistribution";
   "CpuUsageDistribution"; "LeaderReplicaDistribution"; "LeaderBytesInDistribution";
   "TopicReplicaDistribution"; "PreferredLeaderElection"].
Definition HARD_BALANCER_GOALS : list string :=
  ["ReplicaCapacity"; "DiskCapacity"; "NetworkInboundCapacity"; "NetworkOutboundCapacity";
   "CpuCapacity"; "ReplicaDistribution"].
Definition BALANCER_GOALS_TESTING : list string := ["ReplicaDistribution"].

Definition MODE_FULL : string := "full".
Definition MODE_ADD : string := "add".
Definition MODE_REMOVE : string := "remove".
Definition PROFILE_TESTING : string := "testing".

(** ** KRaft quorum *)

Inductive KRaftUnitStatus := LEADER | FOLLOWER | OBSERVER.

#[export] Instance KRaftUnitStatus_eq_dec : EqDecision KRaftUnitStatus.
Proof. solve_decision. Defined.

(** [KRaftUnitStatus(s)] *)
Definition KRaftUnitStatus_of (s : string) : option KRaftUnitStatus :=
  if (s =? "Leader")%string then Some LEADER
  else if (s =? "Follower")%string then Some FOLLOWER
  else if (s =? "Observer")%string then Some OBSERVER else None.

Record KRaftQuorumInfo := mkKRaftQuorumInfo {
  directory_id : string; lag : Z; unit_status : KRaftUnitStatus }.

(** ** Statuses *)

(** The Juju status class of a status. *)
Inductive StatusClass := BlockedStatus | MaintenanceStatus | WaitingStatus | ActiveStatus.
Inductive DebugLevel := DEBUG | INFO | WARNING | ERROR.

Inductive Status :=
| ACTIVE | NO_PEER_RELATION | NO_PEER_CLUSTER_RELATION | SNAP_NOT_INSTALLED
| SERVICE_NOT_RUNNING | NOT_ALL_RELATED | CC_NOT_RUNNING | MISSING_MODE | NO_CLUSTER_UUID
| NO_BOOTSTRAP_CONTROLLER | MISSING_CONTROLLER_PASSWORD | BROKER_NOT_CONNECTED
| ADDED_STORAGE | REMOVED_STORAGE | REMOVED_STORAGE_NO_REPL | NO_BROKER_CREDS | NO_CERT
| NO_INTERNAL_TLS | NO_PEER_CLUSTER_CA | MTLS_REQUIRES_TLS | INVALID_CLIENT_CERTIFICATE
| SYSCONF_NOT_OPTIMAL | SYSCONF_NOT_POSSIBLE | NOT_IMPLEMENTED | NO_BALANCER_RELATION
| NO_BROKER_DATA | NOT_ENOUGH_BROKERS | WAITING_FOR_REBALANCE | SCALING_WARNING.

#[export] Instance StatusClass_eq_dec : EqDecision StatusClass.
Proof. solve_decision. Defined.
#[export] Instance Status_eq_dec : EqDecision Status.
Proof. solve_decision. Defined.

(** The [StatusLevel] of a status: its class, its message and its log level. *)
Record StatusLevel := mkStatusLevel {
  status_class : StatusClass; status_message : string; log_level : DebugLevel }.

Definition status_level (s : Status) : StatusLevel :=
  match s with
  | ACTIVE => mkStatusLevel ActiveStatus "" DEBUG
  | NO_PEER_RELATION => mkStatusLevel MaintenanceStatus "no peer relation yet" DEBUG
  | NO_PEER_CLUSTER_RELATION =>
      mkStatusLevel BlockedStatus "missing required peer-cluster relation" DEBUG
  | SNAP_NOT_INSTALLED => mkStatusLevel BlockedStatus "unable to install charmed-kafka snap" ERROR
  | SERVICE_NOT_RUNNING => mkStatusLevel BlockedStatus "service not running" WARNING
  | NOT_ALL_RELATED => mkStatusLevel MaintenanceStatus "not all units related" DEBUG
  | CC_NOT_RUNNING => mkStatusLevel BlockedStatus "Cruise Control not running" WARNING
  | MISSING_MODE =>
      mkStatusLevel BlockedStatus "application needs to be related with a KRaft controller" DEBUG
  | NO_CLUSTER_UUID => mkStatusLevel WaitingStatus "waiting for cluster uuid" DEBUG
  | NO_BOOTSTRAP_CONTROLLER => mkStatusLevel WaitingStatus "waiting for bootstrap controller" DEBUG
  | MISSING_CONTROLLER_PASSWORD =>
      mkStatusLevel WaitingStatus "waiting for controller user credentials" DEBUG
  | BROKER_NOT_CONNECTED => mkStatusLevel BlockedStatus "unit not connected to the controller" ERROR
  | ADDED_STORAGE =>
      mkStatusLevel ActiveStatus
        "manual partition reassignment may be needed to utilize new storage volumes" WARNING
  | REMOVED_STORAGE =>
      mkStatusLevel ActiveStatus
        "manual partition reassignment from replicated brokers recommended due to lost partitions on removed storage volumes" ERROR
  | REMOVED_STORAGE_NO_REPL =>
      mkStatusLevel ActiveStatus
        "potential data loss due to storage removal without replication" ERROR
  | NO_BROKER_CREDS => mkStatusLevel WaitingStatus "internal broker credentials not yet added" DEBUG
  | NO_CERT => mkStatusLevel WaitingStatus "unit waiting for signed certificates" INFO
  | NO_INTERNAL_TLS => mkStatusLevel WaitingStatus "waiting for internal TLS setup" INFO
  | NO_PEER_CLUSTER_CA => mkStatusLevel WaitingStatus "waiting for peer-cluster TLS setup" INFO
  | MTLS_REQUIRES_TLS =>
      mkStatusLevel BlockedStatus "can't setup mTLS client without a TLS relation first." ERROR
  | INVALID_CLIENT_CERTIFICATE =>
      mkStatusLevel BlockedStatus "mTLS client's certificate is not a valid leaf certificate." ERROR
  | SYSCONF_NOT_OPTIMAL =>
      mkStatusLevel ActiveStatus "machine system settings are not optimal - see logs for info" WARNING
  | SYSCONF_NOT_POSSIBLE =>
      mkStatusLevel BlockedStatus
        "sysctl params cannot be set. Is the machine running on a container?" WARNING
  | NOT_IMPLEMENTED => mkStatusLevel BlockedStatus "feature not yet implemented" WARNING
  | NO_BALANCER_RELATION => mkStatusLevel MaintenanceStatus "no balancer relation yet" DEBUG
  | NO_BROKER_DATA => mkStatusLevel MaintenanceStatus "missing broker data" DEBUG
  | NOT_ENOUGH_BROKERS => mkStatusLevel WaitingStatus "waiting for 3 online brokers" DEBUG
  | WAITING_FOR_REBALANCE =>
      mkStatusLevel WaitingStatus "awaiting completion of rebalance task" DEBUG
  | SCALING_WARNING =>
      mkStatusLevel MaintenanceStatus
        "Apache Kafka cluster is scaling, it is advised to postpone potentially disruptive actions like refresh." WARNING
  end.

(** ** Lemmas on the ports table *)

(** An authentication map the table of ports knows. *)
Definition known_auth (a : AuthMap) : bool := is_ok (ports_of a).

Lemma known_auth_cases a : known_auth a = true →
  a = mkAuthMap SASL_PLAINTEXT SCRAM_SHA_512 ∨ a = mkAuthMap SASL_SSL SCRAM_SHA_512 ∨
  a = mkAuthMap SSL_PROTOCOL SSL_MECHANISM ∨ a = mkAuthMap SASL_PLAINTEXT OAUTHBEARER ∨
  a = mkAuthMap SASL_SSL OAUTHBEARER.
Proof. destruct a as [[] []]; vm_compute; naive_solver. Qed.

Lemma protocol_str_inj p q : protocol_str p = protocol_str q → p = q.
Proof. by destruct p, q. Qed.

Lemma mechanism_str_inj p q : mechanism_str p = mechanism_str q → p = q.
Proof. by destruct p, q. Qed.

Lemma scope_str_inj p q : scope_str p = scope_str q → p = q.
Proof. by destruct p, q. Qed.
