(* ===== verification/StructuredConfig.v ===== *)
(** * Structured configuration (core/structured_config.py)

    The validators of [CharmConfig], one definition per validator, and the
    chains of validators each option goes through, in the order the class
    registers them. An option of an integer type reaches its validators as an
    integer. *)

From S2P Require Import Prelude PyStr Literals.

Local Open Scope string_scope.
Local Open Scope Z_scope.

Module CharmConfig.

(** ** Integer validators *)

Definition log_cleaner_min_compaction_lag_ms_validator (value : Z) : result Z :=
  if (0 <=? value) && (value <=? 1000 * 60 * 60 * 24 * 7) then Ok value
  else Err (ValueError "Value out of range.").

Definition log_cleaner_delete_retention_ms_validator (value : Z) : result Z :=
  if (0 <? value) && (value <=? 1000 * 60 * 60 * 24 * 90) then Ok value
  else Err (ValueError "Value out of range.").

Definition between_zero_and_10k (value : Z) : result Z :=
  if (0 <=? value) && (value <=? 10000) then Ok value
  else Err (ValueError "Value below zero or greater than 10000.").

Definition greater_than_minus_one (value : Z) : result Z :=
  if value <? -1
  then Err (ValueError "Value below -1. Accepted value are greater or equal than -1.")
  else Ok value.

Definition greater_than_one (value : Z) : result Z :=
  if value <? 1
  then Err (ValueError "Value below 1. Accepted value are greater or equal than 1.")
  else Ok value.

Definition greater_than_1_mb (value : Z) : result Z :=
  if value <? 1024 * 1024
  then Err (ValueError "Value below 1 MB. Accepted value are greater or equal than 1 MB.")
  else Ok value.

Definition greater_than_zero (value : Z) : result Z :=
  if value <? 0
  then Err (ValueError "Value below -1. Accepted value are greater or equal than -1.")
  else Ok value.

Definition integer_value (value : Z) : result Z :=
  if (-2147483648 <=? value) && (value <=? 2147483647) then Ok value
  else Err (ValueError "Value is not an integer").

Definition long_value (value : Z) : result Z :=
  if (-9223372036854775807 <=? value) && (value <=? 9223372036854775808) then Ok value
  else Err (ValueError "Value is not a long").

(** ** The integer options *)

(** The options an integer validator is registered for. *)
Inductive int_option :=
| log_flush_interval_messages | log_flush_interval_ms
| log_flush_offset_checkpoint_interval_ms | log_retention_bytes | log_retention_ms
| log_segment_bytes | message_max_bytes | offsets_topic_num_partitions
| transaction_state_log_num_partitions | log_cleaner_delete_retention_ms
| log_cleaner_min_compaction_lag_ms | replication_quota_window_num.

#[export] Instance int_option_eq_dec : EqDecision int_option.
Proof. solve_decision. Defined.

(** Whether an option is in the list of names a decorator is given. *)
Definition registered (o : int_option) (l : list int_option) : bool := existsb (λ o', bool_decide (o = o')) l.

(** The validators of the class on integers with the options they are
    registered for, in the order of the class. *)
Definition int_validators : list (list int_option * (Z → result Z)) :=
  [([log_cleaner_min_compaction_lag_ms], log_cleaner_min_compaction_lag_ms_validator);
   ([log_cleaner_delete_retention_ms], log_cleaner_delete_retention_ms_validator);
   ([transaction_state_log_num_partitions; offsets_topic_num_partitions], between_zero_and_10k);
   ([log_retention_bytes; log_retention_ms], greater_than_minus_one);
   ([log_flush_interval_messages; log_flush_interval_ms; offsets_topic_num_partitions;
     transaction_state_log_num_partitions; replication_quota_window_num], greater_than_one);
   ([log_segment_bytes], greater_than_1_mb);
   ([message_max_bytes], greater_than_zero);
   ([log_flush_offset_checkpoint_interval_ms; log_segment_bytes; message_max_bytes;
     offsets_topic_num_partitions; transaction_state_log_num_partitions;
     replication_quota_window_num], integer_value);
   ([log_flush_interval_messages; log_flush_interval_ms; log_retention_bytes;
     log_retention_ms; log_cleaner_delete_retention_ms; log_cleaner_min_compaction_lag_ms],
    long_value)].

(** The validators of an option. *)
Definition validators_of (o : int_option) : list (Z → result Z) :=
  omap (λ '(names, f), if registered o names then Some f else None) int_validators.

(** The value of an integer option after the validators registered for it. *)
Definition validate_int (o : int_option) (value : Z) : result Z :=
  foldl (λ acc f, v ← acc; f v) (Ok value) (validators_of o).

(** The interval [validate_int] accepts. *)
Definition int_option_range (o : int_option) : Z * Z :=
  match o with
  | log_flush_interval_messages | log_flush_interval_ms => (1, 2^63)
  | log_flush_offset_checkpoint_interval_ms => (-2^31, 2^31 - 1)
  | log_retention_bytes | log_retention_ms => (-1, 2^63)
  | log_segment_bytes => (2^20, 2^31 - 1)
  | message_max_bytes => (0, 2^31 - 1)
  | offsets_topic_num_partitions | transaction_state_log_num_partitions => (1, 10000)
  | log_cleaner_delete_retention_ms => (1, 7776000000)
  | log_cleaner_min_compaction_lag_ms => (0, 604800000)
  | replication_quota_window_num => (1, 2^31 - 1)
  end.

(** ** String options *)

(** [expose_external] on Kubernetes: [None] for ['false']. *)
Definition expose_external_validator (value : string) : result (option string) :=
  if (SUBSTRATE =? "vm")%string then Ok None
  else if negb (bool_decide (value ∈ ["false"; "nodeport"]))
  then Err (ValueError "Value not one of 'false' or 'nodeport'")
  else if (value =? "false")%string then Ok None
  else Ok (Some value).

Definition known_roles : gset string :=
  {[role_value BROKER_ROLE; role_value BALANCER_ROLE; role_value CONTROLLER_ROLE]}.

Definition roles_values (value : string) : result string :=
  let roles : gset string := list_to_set (str_strip <$> split_char "," value) in
  let unknown_roles := roles ∖ known_roles in
  if decide (unknown_roles = ∅) then Ok (str_join "," (sorted_set roles))
  else Err (ValueError "Unknown role(s):").

Definition certificate_extra_sans_values (value : string) : list string :=
  if truthy value then split_char "," value else [].

(** The port of one entry of [extra_listeners]: [None] for an entry without a
    colon, which the loop skips. *)
Definition listener_port (listener : string) : result (option Z) :=
  if negb (has_char ":" listener) then Ok None
  else
    match split_char ":" listener with
    | _ :: p :: _ =>
        if negb (isdigit p)
        then Err (ValueError "Value for listener does not contain a valid port.")
        else port ← py_int p;
             if negb ((20000 <? port) && (port <? 50000))
             then Err (ValueError "Value for port out of accepted values. Accepted values for port are greater than 20000 and less than 50000")
             else Ok (Some port)
    | _ => Err (IndexError "list index out of range")
    end.

(** The first loop: the ports of the listeners that have one. *)
Definition listener_ports (listeners : list string) : result (list Z) :=
  omap (M := list) id <$> traverse listener_port listeners.

(** The second loop: each port against the one before it. *)
Fixpoint check_spacing (current_port : Z) (ports : list Z) : result () :=
  match ports with
  | [] => Ok ()
  | port :: ports =>
      if negb ((current_port - 100 <? port) && (current_port + 100 <? port))
      then Err (ValueError "Value for port is too close to other value for port. Accepted values must be at least 100 apart from each other")
      else check_spacing port ports
  end.

Definition extra_listeners_port_values (value : string) : result (list string) :=
  if negb (truthy value) then Ok []
  else
    let listeners := split_char "," value in
    ports ← listener_ports listeners;
    _ ← check_spacing 0 ports;
    if negb (length ports =? size (list_to_set ports : gset Z))%nat
    then Err (ValueError "Value for port is not unique for each listener.")
    else Ok listeners.

(** [re.compile("secret:[a-z0-9]{20}").match(value)] *)
Definition secret_char (c : ascii) : bool :=
  is_digit c || (let n := nat_of_ascii c in (97 <=? n)%nat && (n <=? 122)%nat).
Definition secret_regex_match (value : string) : bool :=
  startswith "secret:" value &&
  (let id := String.substring 7 20 value in
   (String.length id =? 20)%nat && str_forall secret_char id).

Definition secret_validator (value : string) : result string :=
  if negb (truthy value) then Ok ""
  else if negb (secret_regex_match value)
  then Err (ValueError "Provided value for secret config is not a valid secret URI, accepted values are formatted like 'secret:cvnra0b1c2e3f4g5hi6j'")
  else Ok value.

(** ** Integer options *)

(** A validator that returns, unchanged, the values that satisfy [P]. *)
Definition accepts (f : Z → result Z) (P : Z → Prop) : Prop :=
  ∀ v w, f v = Ok w ↔ w = v ∧ P v.

(** A chain of such validators accepts what each of them accepts. *)
Lemma chain_accepts fs Ps v w :
  Forall2 accepts fs Ps →
  foldl (λ acc f, x ← acc; f x) (Ok v) fs = Ok w ↔ w = v ∧ Forall (λ P : Z → Prop, P v) Ps.
Proof.
  intros H. revert v. induction H as [|f P fs Ps Hf _ IH]; intros v; cbn.
  { split; [by intros [= ->]|by intros [-> _]]. }
  assert (Herr : ∀ e, foldl (λ acc f, x ← acc; f x) (Err e) fs = Err e).
  { intros e. clear. by induction fs. }
  rewrite Forall_cons. destruct (f v) as [x|e] eqn:E.
  - apply Hf in E as [-> HP]. rewrite IH. tauto.
  - rewrite Herr. split; [done|]. intros (-> & HP & _).
    rewrite (proj2 (Hf v v)) in E; done.
Qed.

Ltac accepts_tac f :=
  intros v w; unfold f;
  repeat match goal with
  | |- context [(?a <=? ?b)%Z] => destruct (Z.leb_spec a b)
  | |- context [(?a <? ?b)%Z] => destruct (Z.ltb_spec a b)
  end; cbn [andb]; (split; [intros Hw; first [discriminate Hw|injection Hw as <-; split; [done|lia]]
                    |intros [-> ?]; first [done|lia]]).

Lemma compaction_lag_accepts :
  accepts log_cleaner_min_compaction_lag_ms_validator (λ v, 0 ≤ v ≤ 604800000).
Proof. accepts_tac log_cleaner_min_compaction_lag_ms_validator. Qed.
Lemma delete_retention_accepts :
  accepts log_cleaner_delete_retention_ms_validator (λ v, 0 < v ≤ 7776000000).
Proof. accepts_tac log_cleaner_delete_retention_ms_validator. Qed.
Lemma between_zero_and_10k_accepts : accepts between_zero_and_10k (λ v, 0 ≤ v ≤ 10000).
Proof. accepts_tac between_zero_and_10k. Qed.
Lemma greater_than_minus_one_accepts : accepts greater_than_minus_one (λ v, -1 ≤ v).
Proof. accepts_tac greater_than_minus_one. Qed.
Lemma greater_than_one_accepts : accepts greater_than_one (λ v, 1 ≤ v).
Proof. accepts_tac greater_than_one. Qed.
Lemma greater_than_1_mb_accepts : accepts greater_than_1_mb (λ v, 2^20 ≤ v).
Proof. accepts_tac greater_than_1_mb. Qed.
Lemma greater_than_zero_accepts : accepts greater_than_zero (λ v, 0 ≤ v).
Proof. accepts_tac greater_than_zero. Qed.
Lemma integer_value_accepts : accepts integer_value (λ v, -2^31 ≤ v < 2^31).
Proof. accepts_tac integer_value. Qed.
Lemma long_value_accepts : accepts long_value (λ v, -2^63 < v ≤ 2^63).
Proof. accepts_tac long_value. Qed.

Create HintDb validators.
#[local] Hint Resolve compaction_lag_accepts delete_retention_accepts
  between_zero_and_10k_accepts greater_than_minus_one_accepts greater_than_one_accepts
  greater_than_1_mb_accepts greater_than_zero_accepts integer_value_accepts
  long_value_accepts : validators.
#[local] Hint Constructors Forall2 : validators.

(** The validators of each option, resolved. *)
Lemma validators_of_eq o :
  validators_of o =
  match o with
  | log_flush_interval_messages | log_flush_interval_ms => [greater_than_one; long_value]
  | log_flush_offset_checkpoint_interval_ms => [integer_value]
  | log_retention_bytes | log_retention_ms => [greater_than_minus_one; long_value]
  | log_segment_bytes => [greater_than_1_mb; integer_value]
  | message_max_bytes => [greater_than_zero; integer_value]
  | offsets_topic_num_partitions | transaction_state_log_num_partitions =>
      [between_zero_and_10k; greater_than_one; integer_value]
  | log_cleaner_delete_retention_ms =>
      [log_cleaner_delete_retention_ms_validator; long_value]
  | log_cleaner_min_compaction_lag_ms =>
      [log_cleaner_min_compaction_lag_ms_validator; long_value]
  | replication_quota_window_num => [greater_than_one; integer_value]
  end.
Proof. by destruct o. Qed.


(** ** Extra listeners *)

(** Consecutive ports differ by more than 100, upwards. *)
Definition spaced (p q : Z) : Prop := p + 100 < q.

#[export] Instance spaced_trans : Transitive spaced.
Proof. unfold spaced. intros p q r. lia. Qed.

Lemma check_spacing_ok c ports u : check_spacing c ports = Ok u ↔ Sorted spaced (c :: ports).
Proof.
  destruct u. revert c. induction ports as [|p ports IH]; intros c; cbn [check_spacing].
  { split; [by repeat constructor|done]. }
  destruct (Z.ltb_spec (c - 100) p), (Z.ltb_spec (c + 100) p); cbn [andb negb]; try lia;
    try (split; [done|]; inversion 1 as [|? ? ? Hd]; inversion Hd; unfold spaced in *; lia).
  rewrite IH. split; [|by inversion 1].
  intros H'. constructor; [done|]. constructor. done.
Qed.

Lemma listener_port_range l p : listener_port l = Ok (Some p) → 20000 < p < 50000.
Proof.
  unfold listener_port. destruct (negb (has_char ":" l)); [done|].
  destruct (split_char ":" l) as [|? [|q ?]]; [done..|].
  destruct (negb (isdigit q)); [done|].
  rewrite result_bind_ok. intros (z & _ & Hz). revert Hz.
  destruct (Z.ltb_spec 20000 z), (Z.ltb_spec z 50000); cbn; try done. by intros [= <-].
Qed.

Lemma listener_ports_range ls ports :
  listener_ports ls = Ok ports → Forall (λ p, 20000 < p < 50000) ports.
Proof.
  unfold listener_ports. rewrite result_fmap_ok. intros (os & Hos%traverse_ok & ->).
  induction Hos as [|l o ls os Ho _ IH]; cbn; [constructor|].
  destruct o as [p|]; cbn; [|done]. constructor; [by eapply listener_port_range|done].
Qed.

Lemma spaced_NoDup ports : Sorted spaced ports → NoDup ports.
Proof.
  intros H%(Sorted_StronglySorted _). induction H as [|p ports _ IH Hp]; constructor; [|done].
  rewrite Forall_forall in Hp. intros Hin. specialize (Hp _ Hin). unfold spaced in Hp. lia.
Qed.

(** An accepted value gives ports that increase by more than 100. *)
Lemma extra_listeners_spaced value ls :
  extra_listeners_port_values value = Ok ls →
  ∃ ports, listener_ports ls = Ok ports ∧ Sorted spaced ports.
Proof.
  unfold extra_listeners_port_values. destruct (truthy value); cbn [negb].
  - rewrite result_bind_ok. intros (ports & Hp & (u & Hs%check_spacing_ok & Hu)%result_bind_ok).
    case_match; [done|]. injection Hu as <-. exists ports. split; [done|]. by inversion Hs.
  - intros [= <-]. exists []. split; [done|constructor].
Qed.

(** [extra_listeners] is accepted exactly when every entry with a colon
    names a decimal port strictly between 20000 and 50000 and the ports, in
    the order given, increase by more than 100 at each step; the value is then
    the comma-separated list. The final uniqueness test never rejects. *)
Theorem extra_listeners_port_values_spec value ls :
  extra_listeners_port_values value = Ok ls ↔
  (value = "" ∧ ls = []) ∨
  (value ≠ "" ∧ ls = split_char "," value ∧
   ∃ ports, listener_ports ls = Ok ports ∧
     Forall (λ p, 20000 < p < 50000) ports ∧ Sorted spaced ports).
Proof.
  unfold extra_listeners_port_values. destruct (truthy value) eqn:Ev; cbn [negb].
  - apply truthy_true in Ev. rewrite result_bind_ok. split.
    + intros (ports & Hp & (u & Hs%check_spacing_ok & Hu)%result_bind_ok). right.
      case_match; [done|]. injection Hu as <-. split_and!; [done..|].
      exists ports. split_and!; [done|by eapply listener_ports_range|by inversion Hs].
    + intros [[-> _]|(_ & -> & ports & Hp & Hr & Hs)]; [done|].
      exists ports. split; [done|]. apply result_bind_ok. exists (). split.
      { apply check_spacing_ok. constructor; [done|]. destruct Hr; constructor.
        unfold spaced. lia. }
      rewrite size_list_to_set by (by apply spaced_NoDup). by rewrite Nat.eqb_refl.
  - apply truthy_false in Ev as ->. naive_solver.
Qed.

(** ** Roles *)

(** The roles a [roles] option names. *)
Definition roles_of (value : string) : gset string :=
  list_to_set (str_strip <$> split_char "," value).

Lemma roles_values_ok v r :
  roles_values v = Ok r ↔ roles_of v ⊆ known_roles ∧ r = str_join "," (sorted_set (roles_of v)).
Proof.
  unfold roles_values. fold (roles_of v). cbv zeta.
  case_decide as H; split.
  - intros [= <-]. split; [by apply empty_difference_subseteq_L|done].
  - by intros [_ ->].
  - done.
  - intros [Hs _]. by apply subseteq_empty_difference_L in Hs.
Qed.

(** A subset of the three roles is one of eight. *)
Lemma known_roles_subsets (X : gset string) : X ⊆ known_roles →
  X ∈ ([∅; {["broker"]}; {["balancer"]}; {["controller"]}; {["broker"; "balancer"]};
        {["broker"; "controller"]}; {["balancer"; "controller"]};
        {["broker"; "balancer"; "controller"]}] : list (gset string)).
Proof.
  intros HX.
  assert (X = (if decide ("broker" ∈ X) then {["broker"]} else ∅) ∪
              (if decide ("balancer" ∈ X) then {["balancer"]} else ∅) ∪
              (if decide ("controller" ∈ X) then {["controller"]} else ∅)) as ->.
  { apply set_eq. intros x. specialize (HX x). revert HX. unfold known_roles.
    change (role_value BROKER_ROLE) with "broker".
    change (role_value BALANCER_ROLE) with "balancer".
    change (role_value CONTROLLER_ROLE) with "controller".
    repeat case_decide; set_solver. }
  repeat case_decide; rewrite ?(left_id_L ∅ (∪)), ?(right_id_L ∅ (∪));
    rewrite !elem_of_cons; tauto.
Qed.

Lemma roles_of_ne v : roles_of v ≠ ∅.
Proof.
  unfold roles_of. destruct (split_char "," v) eqn:E; [by apply split_char_ne in E|].
  set_solver.
Qed.

(** An accepted [roles] value is brought to a canonical form (validating
    it again changes nothing), in which the substring tests of the charm
    ([ROLE.value in self.roles]) hold exactly for the roles the user listed. *)
Theorem roles_values_canonical v r :
  roles_values v = Ok r →
  roles_values r = Ok r ∧
  Forall (λ role, contains (role_value role) r = true ↔ role_value role ∈ roles_of v)
    [BROKER_ROLE; BALANCER_ROLE; CONTROLLER_ROLE].
Proof.
  intros [Hsub ->]%roles_values_ok. pose proof (roles_of_ne v) as Hne.
  apply known_roles_subsets in Hsub. rewrite !elem_of_cons in Hsub.
  destruct_or! Hsub; try (by apply not_elem_of_nil in Hsub); rewrite Hsub; try done;
    (split; [by vm_compute|]); repeat constructor; vm_compute; try done; set_solver.
Qed.

Lemma roles_values_canonical_witness :
  roles_values " controller, broker,broker" = Ok "broker,controller" ∧
  roles_values "broker,controller" = Ok "broker,controller".
Proof.
  split; [by vm_compute|].
  apply (roles_values_canonical " controller, broker,broker" "broker,controller").
  by vm_compute.
Defined.

(** ** Where the validators differ from what they announce *)

(** The largest value of a Java [long]. *)
Definition java_long_max : Z := 2^63 - 1.

(** The options typed [long] without a smaller upper bound accept the value
    just above the largest Java [long]. *)
Theorem long_options_overflow o :
  o ∈ [log_flush_interval_messages; log_flush_interval_ms; log_retention_bytes;
       log_retention_ms] →
  validate_int o (java_long_max + 1) = Ok (java_long_max + 1).
Proof.
  intros Ho. rewrite !elem_of_cons in Ho.
  destruct_or! Ho; try (by apply not_elem_of_nil in Ho); subst; by vm_compute.
Qed.

Lemma long_options_overflow_witness :
  validate_int log_retention_bytes (java_long_max + 1) = Ok 9223372036854775808.
Proof. apply (long_options_overflow log_retention_bytes). set_solver. Defined.

(** Ports exactly 100 apart, and ports given in decreasing order, are refused. *)
Example extra_listeners_100_apart :
  is_ok (extra_listeners_port_values "a:20101,b:20201") = false ∧
  is_ok (extra_listeners_port_values "a:30000,b:25000") = false ∧
  extra_listeners_port_values "a:20101,b:20202" = Ok ["a:20101"; "b:20202"].
Proof. by vm_compute. Qed.

End CharmConfig.
