(* ===== verification/Models.v ===== *)
(** * State objects of relations, applications and units (core/models.py)

    A relation data bag is an abstract store with the interface
    [RelationData]; the charm's objects ([RelationState], [KafkaCluster],
    [TLSState], [KafkaBroker]) are views of one, [None] when the relation does
    not exist. [PeerCluster] combines values given at construction with those
    read from the related application. *)

From S2P Require Import Prelude PyStr PyDict Json Literals.

Local Open Scope string_scope.
Local Open Scope Z_scope.

(** ** Relation data *)

(** The operations of the data bag of a peer relation (Data interfaces
    library): reading a key, writing a key, deleting it, the same for secret
    fields, and the secrets of a labelled group. *)
Class RelationData (D : Type) := {
  rd_empty : D;
  rd_get : string → D → option string;
  rd_items : D → list (string * string);
  rd_set : string → string → D → D;
  rd_del : string → D → D;
  rd_set_secret : string → string → D → D;
  rd_delete_secret : string → D → D;
  rd_group_secret : string → string → string → D → D
}.

(** What the charm relies on. Writing an empty value leaves the key absent or
    empty; every other operation affects its key only. *)
Class RelationDataLaws (D : Type) `{RelationData D} := {
  rd_get_empty k : rd_get k rd_empty = None;
  rd_items_get k v d : (k, v) ∈ rd_items d ↔ rd_get k d = Some v;
  rd_items_keys d : NoDup (dict_keys (rd_items d));
  rd_get_set_eq k v d : v ≠ "" → rd_get k (rd_set k v d) = Some v;
  rd_get_set_blank k d : truthy_opt (rd_get k (rd_set k "" d)) = false;
  rd_get_set_ne k k' v d : k' ≠ k → rd_get k' (rd_set k v d) = rd_get k' d;
  rd_get_del_eq k d : rd_get k (rd_del k d) = None;
  rd_get_del_ne k k' d : k' ≠ k → rd_get k' (rd_del k d) = rd_get k' d;
  rd_get_set_secret_eq k v d : v ≠ "" → rd_get k (rd_set_secret k v d) = Some v;
  rd_get_set_secret_ne k k' v d : k' ≠ k → rd_get k' (rd_set_secret k v d) = rd_get k' d;
  rd_get_delete_secret_eq k d : rd_get k (rd_delete_secret k d) = None;
  rd_get_delete_secret_ne k k' d : k' ≠ k → rd_get k' (rd_delete_secret k d) = rd_get k' d;
  rd_get_group_secret g k v k' d :
    rd_get k' (rd_group_secret g k v d) = if decide (k' = k) then Some v else rd_get k' d
}.

(** A data bag as a finite map: plain and secret fields share the names, and
    an empty value removes its key, as Juju does. *)
Abbreviation bag := (gmap string string).
Definition bag_set (k v : string) (d : bag) : bag :=
  if truthy v then <[k := v]> d else delete k d.

#[export] Instance bag_relation_data : RelationData bag := {|
  rd_empty := ∅;
  rd_get k d := d !! k;
  rd_items d := map_to_list d;
  rd_set := bag_set;
  rd_del k d := delete k d;
  rd_set_secret := bag_set;
  rd_delete_secret k d := delete k d;
  rd_group_secret _ k v d := <[k := v]> d
|}.

#[export] Instance bag_relation_data_laws : RelationDataLaws bag.
Proof.
  assert (Heq : ∀ k v (d : bag), v ≠ "" → bag_set k v d !! k = Some v).
  { intros k v d Hv%truthy_true. unfold bag_set. rewrite Hv. apply lookup_insert_eq. }
  assert (Hne : ∀ k k' v (d : bag), k' ≠ k → bag_set k v d !! k' = d !! k').
  { intros k k' v d Hk. unfold bag_set.
    destruct (truthy v); [by rewrite lookup_insert_ne|by rewrite lookup_delete_ne]. }
  split; cbn; intros; auto.
  - apply elem_of_map_to_list.
  - apply NoDup_fst_map_to_list.
  - by rewrite lookup_delete_eq.
  - apply lookup_delete_eq.
  - by rewrite lookup_delete_ne.
  - apply lookup_delete_eq.
  - by rewrite lookup_delete_ne.
  - case_decide; subst; [apply lookup_insert_eq|by rewrite lookup_insert_ne].
Qed.

(** [relation_data.get(k)] and [relation_data.get(k, default)], with the empty
    dictionary when there is no relation. *)
Definition data_get {D} `{RelationData D} (k : string) (o : option D) : option string :=
  d ← o; rd_get k d.
Definition data_get_or {D} `{RelationData D} (k default_value : string) (o : option D) : string :=
  default default_value (data_get k o).

(** The group of each secret field ([SECRET_LABEL_MAP]). *)
Definition SECRET_LABEL_MAP : list (string * string) :=
  [("broker-username", "broker"); ("broker-password", "broker");
   ("controller-password", "controller"); ("broker-uris", "broker");
   ("balancer-username", "balancer"); ("balancer-password", "balancer");
   ("balancer-uris", "balancer")].

(** ** RelationState *)

Module RelationState.
Section relation_state.
Context {D : Type} `{RelationData D}.

(** Fields whose new value is empty are deleted, the others written, and the
    secrets of the labelled fields updated. Without a relation the data is
    an empty dictionary nobody else holds: writes are lost and a deletion
    raises. *)
Definition update (items : list (string * string)) (o : option D) : result (option D) :=
  let delete_fields := filter (λ kv, truthy kv.2 = false) items in
  let update_content := filter (λ kv, truthy kv.2 = true) items in
  match o with
  | None =>
      match delete_fields with
      | [] => Ok None
      | (k, _) :: _ => Err (KeyError k)
      end
  | Some d =>
      let d := foldl (λ d '(k, v), rd_set k v d) d update_content in
      let d := foldl (λ d '(k, _), rd_del k d) d delete_fields in
      Ok (Some (foldl (λ d '(k, v),
        match dict_get k SECRET_LABEL_MAP with
        | Some group => rd_group_secret group k v d
        | None => d
        end) d update_content))
  end.

(** [bool(state)] *)
Definition to_bool (o : option D) : bool := bool_decide (is_Some o).
End relation_state.
End RelationState.

(** ** KafkaCluster *)

Module KafkaCluster.
Section kafka_cluster.
Context {D : Type} `{RelationData D}.

(** Whether a key of the application data is stored as a secret. *)
Definition is_secret_key (key : string) : bool :=
  bool_decide (key ∈ SECRETS_APP) || startswith "relation-" key.

Definition update_one (d : D) (kv : string * string) : D :=
  let '(key, value) := kv in
  if is_secret_key key
  then (if truthy value then rd_set_secret key value d else rd_delete_secret key d)
  else rd_set key value d.

Definition update (items : list (string * string)) (o : option D) : option D :=
  match o with
  | None => None
  | Some d => Some (foldl update_one d items)
  end.

Definition internal_user_credentials (o : option D) : list (string * string) :=
  let credentials :=
    omap (M := list) (λ user,
      match data_get (user ++ "-password") o with
      | Some password => if truthy password then Some (user, password) else None
      | None => None
      end) INTERNAL_USERS in
  if negb (length credentials =? length INTERNAL_USERS)%nat then [] else credentials.

Definition controller_password (o : option D) : string := data_get_or "controller-password" "" o.

Definition client_passwords (o : option D) : list (string * string) :=
  match o with
  | None => []
  | Some d => filter (λ kv, contains "relation-" kv.1 = true) (rd_items d)
  end.

(** [tls_enabled], from the [certificates] relation and whether it is active. *)
Definition tls_enabled (tls_relation_active : option bool) : bool :=
  match tls_relation_active with
  | None => false
  | Some active => if negb active then false else true
  end.

Definition balancer_username (o : option D) : string := data_get_or "balancer-username" "" o.
Definition balancer_password (o : option D) : string := data_get_or "balancer-password" "" o.
Definition balancer_uris (o : option D) : string := data_get_or "balancer-uris" "" o.
Definition cluster_uuid (o : option D) : string := data_get_or "cluster-uuid" "" o.
Definition bootstrap_replica_id (o : option D) : string := data_get_or "bootstrap-replica-id" "" o.
Definition bootstrap_controller (o : option D) : string := data_get_or "bootstrap-controller" "" o.
Definition bootstrap_unit_id (o : option D) : string := data_get_or "bootstrap-unit-id" "" o.

Definition SNAPSHOT_KEY : string := "broker-capacities-snapshot".

(** The snapshot, its keys read back as integers. *)
Definition broker_capacities_snapshot (o : option D) : result (list (Z * json)) :=
  raw ← loads (data_get_or SNAPSHOT_KEY "{}" o);
  match raw with
  | JObj items =>
      items ← traverse (λ '(k, v), k ← py_int k; Ok (k, v)) items;
      Ok (dict_of_list items)
  | _ => Err (TypeError "object has no attribute 'items'")
  end.

(** [json.dumps(snapshot)]: integer keys become strings. *)
Definition dump_snapshot (snapshot : list (Z * json)) : string :=
  dumps (JObj ((λ '(k, v), (str_of_Z k, v)) <$> snapshot)).

(** What [add_broker] reads of a broker. *)
Record broker_info := mkBrokerInfo { cores : string; storages : json; info_broker_id : Z }.

(** The capacity of a broker as [add_broker] records it. *)
Definition capacity_of (network_bandwidth : Z) (broker : broker_info) : json :=
  JObj [("DISK", storages broker);
        ("CPU", JObj [("num.cores", JStr (cores broker))]);
        ("NW_IN", JStr (str_of_Z network_bandwidth));
        ("NW_OUT", JStr (str_of_Z network_bandwidth))].

Definition add_broker (network_bandwidth : Z) (broker : broker_info) (o : option D)
    : result (option D) :=
  if negb (all_true [truthy (cores broker); json_truthy (storages broker)]) then Ok o
  else
    snapshot ← broker_capacities_snapshot o;
    let updated := capacity_of network_bandwidth broker in
    let current := dict_get_or (info_broker_id broker) (JObj []) snapshot in
    if json_eqb updated current then Ok o
    else
      let snapshot := dict_set (info_broker_id broker) updated snapshot in
      Ok (update [(SNAPSHOT_KEY, dump_snapshot snapshot)] o).

Definition remove_broker (broker_id : Z) (o : option D) : result (option D) :=
  snapshot ← broker_capacities_snapshot o;
  if negb (dict_mem broker_id snapshot) then Ok o
  else Ok (update [(SNAPSHOT_KEY, dump_snapshot (dict_del broker_id snapshot))] o).
End kafka_cluster.
End KafkaCluster.

(** ** TLSState *)

(** A JSON list of strings, or a false value, as [json.loads(...) or []] is
    used for chains, bundles and trust lists. *)
Definition json_str_list (v : json) : result (list string) :=
  if negb (json_truthy v) then Ok []
  else match v with
       | JList l => traverse (λ w, match w with JStr s => Ok s | _ => Err (TypeError "str expected") end) l
       | _ => Err (TypeError "list expected")
       end.

(** [json.dumps(l)] on a list of strings. *)
Definition dumps_list (l : list string) : string := dumps (JList (JStr <$> l)).

(** [l.index(x)], for an element of [l]. *)
Fixpoint str_index (x : string) (l : list string) : nat :=
  match l with
  | [] => 0
  | y :: l => if decide (x = y) then 0 else S (str_index x l)
  end%nat.

Record SelfSignedCertificate := mkSelfSigned {
  ss_ca : string; ss_csr : string; ss_certificate : string; ss_private_key : string }.

Module TLSState.
Section tls_state.
Context {D : Type} `{RelationData D}.

Definition key (scope : TLSScope) (field : string) : string :=
  TLSScope_value scope ++ "-" ++ field.

Definition get (scope : TLSScope) (field : string) (o : option D) : string :=
  data_get_or (key scope field) "" o.
Definition set (scope : TLSScope) (field value : string) (o : option D) : result (option D) :=
  RelationState.update [(key scope field, value)] o.

Definition private_key (scope : TLSScope) (o : option D) : string := get scope "private-key" o.
Definition set_private_key (scope : TLSScope) (value : string) (o : option D) :=
  set scope "private-key" value o.
Definition csr (scope : TLSScope) (o : option D) : string := get scope "csr" o.
Definition set_csr (scope : TLSScope) (value : string) (o : option D) := set scope "csr" value o.
Definition certificate (scope : TLSScope) (o : option D) : string := get scope "certificate" o.
Definition set_certificate (scope : TLSScope) (value : string) (o : option D) :=
  set scope "certificate" value o.
Definition ca (scope : TLSScope) (o : option D) : string := get scope "ca-cert" o.
Definition set_ca (scope : TLSScope) (value : string) (o : option D) := set scope "ca-cert" value o.

Definition chain (scope : TLSScope) (o : option D) : result (list string) :=
  v ← loads (data_get_or (key scope "chain") "null" o); json_str_list v.
Definition set_chain (scope : TLSScope) (value : string) (o : option D) :=
  set scope "chain" value o.

(** [sorted(set(bundle), key=bundle.index)] *)
Definition index_le (bundle : list string) (a b : string) : Prop :=
  (str_index a bundle ≤ str_index b bundle)%nat.
#[global] Instance index_le_dec bundle : RelDecision (index_le bundle).
Proof. intros a b. unfold index_le. apply _. Defined.
Definition ordered_set (bundle : list string) : list string :=
  merge_sort (index_le bundle) (elements (list_to_set bundle : gset string)).

Definition bundle (scope : TLSScope) (o : option D) : result (list string) :=
  if negb (all_true [truthy (certificate scope o); truthy (ca scope o)]) then Ok []
  else
    chain ← chain scope o;
    Ok (ordered_set ([certificate scope o; ca scope o] ++ chain)).

Definition rotate (scope : TLSScope) (o : option D) : bool := truthy (get scope "rotation" o).
Definition set_rotate (scope : TLSScope) (value : bool) (o : option D) : result (option D) :=
  set scope "rotation" (if negb value then "" else "true") o.

Definition trusted_certificates (scope : TLSScope) (o : option D) : result (gset string) :=
  v ← loads (data_get_or (key scope "trust") "null" o);
  trust_list ← json_str_list v;
  Ok (list_to_set trust_list).
Definition set_trusted_certificates (scope : TLSScope) (value : list string) (o : option D)
    : result (option D) :=
  trusted ← trusted_certificates scope o;
  if decide (list_to_set value = trusted) then Ok o
  else set scope "trust" (dumps_list (sorted_str value)) o.

Definition ready (scope : TLSScope) (o : option D) : bool :=
  all_true [truthy (certificate scope o); truthy (ca scope o); truthy (private_key scope o)].

Definition set_self_signed (scope : TLSScope) (value : SelfSignedCertificate) (o : option D)
    : result (option D) :=
  o ← set_private_key scope (ss_private_key value) o;
  o ← set_certificate scope (ss_certificate value) o;
  o ← set_ca scope (ss_ca value) o;
  set_csr scope (ss_csr value) o.
End tls_state.
End TLSState.

(** ** KafkaBroker *)

Module KafkaBroker.
Section kafka_broker.
Context {D : Type} `{RelationData D}.

(** The unit a broker object stands for: its name, the substrate and its
    data on the peer relation. *)
Record broker := mkBroker { unit_name : string; substrate : string; data : option D }.

(** [name.split("/")[i]] *)
Definition name_part (i : nat) (name : string) : result string :=
  match split_char "/" name !! i with
  | Some s => Ok s
  | None => Err (IndexError "list index out of range")
  end.

Definition unit_id (b : broker) : result Z := s ← name_part 1 (unit_name b); py_int s.
Definition broker_id (b : broker) : result Z := i ← unit_id b; Ok (KRAFT_NODE_ID_OFFSET + i).

(** The first non-empty value among some keys. *)
Fixpoint first_value (keys : list string) (o : option D) : string :=
  match keys with
  | [] => ""
  | k :: keys =>
      let addr := data_get_or k "" o in
      if truthy addr then addr else first_value keys o
  end.

Definition internal_address (b : broker) : result string :=
  if (substrate b =? "k8s")%string then
    app ← name_part 0 (unit_name b);
    id ← unit_id b;
    Ok (app ++ "-" ++ str_of_Z id ++ "." ++ app ++ "-endpoints")
  else if (substrate b =? "vm")%string
  then Ok (first_value ["hostname"; "ip"; "private-address"] (data b))
  else Ok "".

Definition update (items : list (string * string)) (b : broker) : result broker :=
  o ← RelationState.update items (data b); Ok (mkBroker (unit_name b) (substrate b) o).

Definition peer_ip_address (b : broker) : string := data_get_or "ip" "" (data b).
Definition set_peer_ip_address (value : string) (b : broker) : result broker :=
  update [("ip", value)] b.
(** [ip] is the address the network binding of the peer relation gives. *)
Definition update_peer_ip_address (ip : string) (b : broker) : result broker :=
  addr ← (if truthy ip then Ok ip else internal_address b);
  set_peer_ip_address addr b.

(** [relation_ip_address], for the id of a client relation. *)
Definition relation_ip_address (relation_id : option Z) (b : broker) : result string :=
  match relation_id with
  | None => Ok ""
  | Some id =>
      if (substrate b =? "k8s")%string then internal_address b
      else Ok (data_get_or ("ip-" ++ str_of_Z id) "" (data b))
  end.
Definition update_relation_ip_address (relation_id : option Z) (ip_address : string)
    (b : broker) : result broker :=
  match relation_id with
  | None => Ok b
  | Some id => update [("ip-" ++ str_of_Z id, ip_address)] b
  end.

Definition private_key_kind (b : broker) : string := data_get_or "private-key-kind" "lib" (data b).
Definition keystore_password (b : broker) : string := data_get_or "keystore-password" "" (data b).
Definition truststore_password (b : broker) : string :=
  data_get_or "truststore-password" "" (data b).
Definition storages (b : broker) : result json := loads (data_get_or "storages" "{}" (data b)).
Definition cores (b : broker) : string := data_get_or "cores" "" (data b).
Definition rack (b : broker) : string := data_get_or "rack" "" (data b).
Definition pod_name (b : broker) : string := replace_char "/" "-" (unit_name b).
Definition metadata_directory_id (b : broker) : string :=
  data_get_or "metadata-directory-id" "" (data b).
Definition added_to_quorum (b : broker) : bool :=
  truthy_opt (data_get "added-to-quorum" (data b)).
End kafka_broker.
Arguments broker D : clear implicits.
End KafkaBroker.

(** ** PeerCluster *)

Module PeerCluster.

(** The related application as the charm reads it: whether the relation knows
    the remote application, a plain field of its data, the content of a secret
    by its URI, and the library's lookup of requested fields (plain or secret)
    given the secret fields and the fields asked for. *)
Record remote_app := mkRemote {
  has_app : bool;
  relation_field : string → option string;
  get_secret : string → option (gmap string string);
  fetch_with_secrets : list string → list string → gmap string string }.

(** The library returns requested fields only, when there are any. *)
Definition fetches_requested (r : remote_app) : Prop :=
  ∀ req fields k, fields ≠ [] → is_Some (fetch_with_secrets r req fields !! k) → k ∈ fields.

(** The values given at construction ([_broker_username], ...), and the
    relation. *)
Record peer_cluster := mkPeerCluster {
  relation : option remote_app;
  p_broker_username : string; p_broker_password : string; p_broker_uris : string;
  p_cluster_uuid : string; p_bootstrap_controller : string; p_bootstrap_unit_id : string;
  p_bootstrap_replica_id : string; p_racks : Z; p_broker_capacities : json;
  p_balancer_username : string; p_balancer_password : string; p_balancer_uris : string;
  p_controller_password : string }.

(** A peer cluster known only through its relation. *)
Definition of_relation (r : option remote_app) : peer_cluster :=
  mkPeerCluster r "" "" "" "" "" "" "" 0 (JObj []) "" "" "" "".

Definition PROV_SECRET_PREFIX : string := "secret-".

Definition fetch_from_secrets (p : peer_cluster) (group field : string) : string :=
  match relation p with
  | None => ""
  | Some r =>
      match relation_field r (PROV_SECRET_PREFIX ++ group) with
      | Some uri =>
          if truthy uri then
            match get_secret r uri with
            | Some content => default "" (content !! field)
            | None => ""
            end
          else ""
      | None => ""
      end
  end.

Definition roles (p : peer_cluster) : string :=
  match relation p with
  | None => ""
  | Some r => opt_or (relation_field r "roles") ""
  end.

(** [if self._x: return self._x; if no relation or application: return ""] *)
Definition own_or (own : string) (p : peer_cluster) (remote : remote_app → string) : string :=
  if truthy own then own
  else match relation p with
       | Some r => if has_app r then remote r else ""
       | None => ""
       end.

Definition broker_username (p : peer_cluster) : string :=
  own_or (p_broker_username p) p (λ _, fetch_from_secrets p "broker" "broker-username").
Definition broker_password (p : peer_cluster) : string :=
  own_or (p_broker_password p) p (λ _, fetch_from_secrets p "broker" "broker-password").
Definition broker_uris (p : peer_cluster) : string :=
  own_or (p_broker_uris p) p (λ r,
    default "" (fetch_with_secrets r (requested_secrets BALANCER_ROLE)
                  (requested_secrets BALANCER_ROLE) !! "broker-uris")).
Definition controller_password (p : peer_cluster) : string :=
  own_or (p_controller_password p) p (λ _, fetch_from_secrets p "controller" "controller-password").
Definition cluster_uuid (p : peer_cluster) : string :=
  own_or (p_cluster_uuid p) p (λ r, opt_or (relation_field r "cluster-uuid") "").
Definition bootstrap_controller (p : peer_cluster) : string :=
  own_or (p_bootstrap_controller p) p (λ r, opt_or (relation_field r "bootstrap-controller") "").
Definition bootstrap_unit_id (p : peer_cluster) : string :=
  own_or (p_bootstrap_unit_id p) p (λ r, opt_or (relation_field r "bootstrap-unit-id") "").
Definition bootstrap_replica_id (p : peer_cluster) : string :=
  own_or (p_bootstrap_replica_id p) p (λ r, opt_or (relation_field r "bootstrap-replica-id") "").

Definition racks (p : peer_cluster) : result Z :=
  if negb (p_racks p =? 0) then Ok (p_racks p)
  else match relation p with
       | None => Ok 0
       | Some r =>
           match relation_field r "racks" with
           | Some s => if truthy s then py_int s else Ok 0
           | None => Ok 0
           end
       end.

Definition broker_capacities (p : peer_cluster) : result json :=
  if json_truthy (p_broker_capacities p) then Ok (p_broker_capacities p)
  else match relation p with
       | None => Ok (JObj [])
       | Some r => loads (opt_or (relation_field r "broker-capacities") "{}")
       end.

Definition balancer_username (p : peer_cluster) : string :=
  own_or (p_balancer_username p) p (λ r,
    default "" (fetch_with_secrets r (requested_secrets BROKER_ROLE)
                  (requested_secrets BALANCER_ROLE) !! "balancer-username")).
Definition balancer_password (p : peer_cluster) : string :=
  own_or (p_balancer_password p) p (λ r,
    default "" (fetch_with_secrets r (requested_secrets BROKER_ROLE)
                  (requested_secrets BALANCER_ROLE) !! "balancer-password")).
Definition balancer_uris (p : peer_cluster) : string :=
  own_or (p_balancer_uris p) p (λ r,
    default "" (fetch_with_secrets r (requested_secrets BROKER_ROLE)
                  (requested_secrets BALANCER_ROLE) !! "balancer-uris")).

Definition broker_connected (p : peer_cluster) : result bool :=
  capacities ← broker_capacities p;
  Ok (all_true [truthy (broker_username p); truthy (broker_password p); truthy (broker_uris p);
                json_truthy capacities]).

Definition broker_connected_kraft_mode (p : peer_cluster) : bool :=
  all_true [truthy (broker_username p); truthy (broker_password p); truthy (cluster_uuid p)].

(** [relation_data] is the shared data of both applications. *)
Definition super_users (relation_data_super_users : option string) (p : peer_cluster) : string :=
  match relation p with
  | Some r => if has_app r then default "" relation_data_super_users else ""
  | None => ""
  end.

End PeerCluster.

(** ** Client applications *)

Module KafkaPermissionModel.

Definition VALID_OPERATIONS : list string := ["READ"; "WRITE"; "CREATE"; "DELETE"; "DESCRIBE"].

Definition validate_resource_type (v : string) : result string :=
  if negb (bool_decide (str_upper v ∈ ["TOPIC"; "GROUP"]))
  then Err (ValueError "resource type should be in {'TOPIC', 'GROUP'}")
  else Ok (str_upper v).

Definition validate_privileges (v : list string) : result (list string) :=
  traverse (λ op,
    if negb (bool_decide (op ∈ VALID_OPERATIONS))
    then Err (ValueError "privilege should be in VALID_OPERATIONS") else Ok op) v.

(** A permission a client asks for. *)
Record permission := mkPermission {
  resource_name : string; resource_type : string; privileges : list string }.

Definition validate (p : permission) : result permission :=
  t ← validate_resource_type (resource_type p);
  ops ← validate_privileges (privileges p);
  Ok (mkPermission (resource_name p) t ops).

End KafkaPermissionModel.

Module KafkaClient.

Definition generate_username (relation_id : Z) (request_id : option string) : string :=
  let postfix := if truthy_opt request_id then "-" ++ default "" request_id else "" in
  "relation-" ++ str_of_Z relation_id ++ postfix.

Definition generate_alias (app_name : string) (relation_id : Z) : string :=
  app_name ++ "-" ++ str_of_Z relation_id.

(** A request of a client application ([KafkaRequestModel]). *)
Record request := mkRequest {
  request_id : option string; resource : string; request_extra_user_roles : option string;
  request_mtls_cert : option string;
  entity_permissions : list KafkaPermissionModel.permission }.

(** A client: the id and remote application name of its relation, its request,
    what the charm computed for it, and the relation data it reads. *)
Record kafka_client := mkClient {
  relation_id : option Z; app_name : string; req : request;
  c_bootstrap_server : string; password : string; tls : string;
  relation_data : gmap string string }.

Definition username (c : kafka_client) : string :=
  match relation_id c with
  | None => ""
  | Some id => generate_username id (request_id (req c))
  end.

Definition mtls_cert (c : kafka_client) : string := opt_or (request_mtls_cert (req c)) "".

(** The client port of an authentication map of the table. *)
Definition client_port (a : AuthMap) : result string :=
  p ← ports_of a; Ok (":" ++ str_of_Z (client p)).

Definition bootstrap_server (c : kafka_client) : result string :=
  if negb (all_true [truthy (tls c); truthy (mtls_cert c)]) then Ok (c_bootstrap_server c)
  else
    old ← client_port (mkAuthMap SASL_SSL SCRAM_SHA_512);
    new ← client_port (mkAuthMap SSL_PROTOCOL SSL_MECHANISM);
    Ok (str_replace old new (c_bootstrap_server c)).

Definition topic (c : kafka_client) : string := resource (req c).
Definition extra_user_roles (c : kafka_client) : string :=
  opt_or (request_extra_user_roles (req c)) "".

Definition consumer_group_prefix (c : kafka_client) : string :=
  default (if contains "consumer" (extra_user_roles c) then username c ++ "-" else "")
    (relation_data c !! "consumer-group-prefix").

Definition alias (c : kafka_client) : string :=
  match relation_id c with None => "" | Some id => generate_alias (app_name c) id end.

Definition version (c : kafka_client) : string := default "v0" (relation_data c !! "version").

(** [needs_update], given the data already written for the client. *)
Definition needs_update (written_data : list (string * json)) (broker_ca : string)
    (c : kafka_client) : result bool :=
  server ← bootstrap_server c;
  let eq k v := match dict_get k written_data with Some w => json_eqb (JStr v) w | None => false end in
  Ok (negb (all_true [eq "username" (username c); eq "password" (password c);
                      eq "endpoints" server; eq "tls" (tls c);
                      json_eqb (JStr broker_ca) (dict_get_or "tls-ca" (JStr "") written_data)])).

(** All the permissions asked for, or none when one of them is invalid. *)
Definition permissions (c : kafka_client) : list KafkaPermissionModel.permission :=
  match entity_permissions (req c) with
  | [] => []
  | ps => match traverse KafkaPermissionModel.validate ps with Ok ps => ps | Err _ => [] end
  end.

End KafkaClient.

(** The answer to a request ([KafkaCompatibilityResponseModel]): the flag of
    TLS is a truth value in version 1 of the interface, a text before. *)
Module KafkaCompatibilityResponseModel.
Record response := mkResponse {
  request_id : option string; salt : string; username : string; password : string;
  endpoints : string; consumer_group_prefix : string; tls : bool + string; tls_ca : string;
  resource : string; secret_user : option string; secret_tls : option string; version : string }.
End KafkaCompatibilityResponseModel.

(** ** OAuth *)

Module OAuth.
(** The data of the identity provider: empty without a relation or its
    application. *)
Definition field (k default_value : string) (data : option (gmap string string)) : string :=
  default default_value (d ← data; d !! k).
Definition issuer_url := field "issuer_url" "".
Definition jwks_endpoint := field "jwks_endpoint" "".
Definition introspection_endpoint := field "introspection_endpoint" "".
Definition jwt_access_token (data : option (gmap string string)) : bool :=
  (str_lower (field "jwt_access_token" "false" data) =? "true")%string.
End OAuth.
