(* ===== verification/ModelsFacts.v ===== *)
(** * Properties of the state objects

    What reading gives after writing, for relation data, the snapshot of the
    broker capacities and the certificates of a scope; the names given to
    clients; what a peer cluster knows of its balancer. *)

From S2P Require Import Prelude PyStr PyDict Json Literals Models.

Local Open Scope string_scope.
Local Open Scope Z_scope.

(** ** Facts: writing relation data *)

Section update_facts.
Context {D : Type} `{RelationDataLaws D}.
Implicit Types d : D.

Lemma fold_set_get k l d :
  Forall (λ kv, kv.2 ≠ "") l → NoDup (dict_keys l) →
  rd_get k (foldl (λ d '(k, v), rd_set k v d) d l) =
  match dict_get k l with Some v => Some v | None => rd_get k d end.
Proof.
  intros Hv. revert d. induction Hv as [|[k0 v0] l Hv0 _ IH]; intros d Hd; [done|].
  cbn in Hd. apply NoDup_cons in Hd as [Hk0 Hd]. cbn [foldl dict_get].
  rewrite IH by done. case_decide; subst.
  - rewrite (proj2 (dict_get_None k0 l)) by done. by apply rd_get_set_eq.
  - by rewrite rd_get_set_ne.
Qed.

Lemma fold_del_get k (l : list (string * string)) d :
  rd_get k (foldl (λ d '(k, _), rd_del k d) d l) =
  if decide (k ∈ dict_keys l) then None else rd_get k d.
Proof.
  revert d. induction l as [|[k0 v0] l IH]; intros d; [done|]. cbn [foldl dict_keys].
  rewrite IH. unfold dict_keys. rewrite fmap_cons. cbn [fst].
  destruct (decide (k = k0)) as [->|Hne].
  - destruct (decide (k0 ∈ k0 :: l.*1)) as [_|Hn]; [|destruct Hn; apply list_elem_of_here].
    destruct (decide (k0 ∈ l.*1)); [done|apply rd_get_del_eq].
  - rewrite rd_get_del_ne by done. repeat case_decide; first [done|set_solver].
Qed.

Lemma fold_group_get k l d :
  NoDup (dict_keys l) →
  (∀ v, dict_get k l = Some v → rd_get k d = Some v) →
  rd_get k (foldl (λ d '(k, v),
    match dict_get k SECRET_LABEL_MAP with
    | Some group => rd_group_secret group k v d
    | None => d
    end) d l) = rd_get k d.
Proof.
  revert d. induction l as [|[k0 v0] l IH]; intros d Hd Hk; [done|].
  cbn in Hd. apply NoDup_cons in Hd as [Hk0 Hd]. cbn [foldl dict_get] in *.
  assert (Hstep : rd_get k (match dict_get k0 SECRET_LABEL_MAP with
    | Some group => rd_group_secret group k0 v0 d | None => d end) = rd_get k d).
  { destruct (dict_get k0 SECRET_LABEL_MAP); [|done]. rewrite rd_get_group_secret.
    destruct (decide (k = k0)) as [->|]; [|done]. symmetry. by apply Hk. }
  rewrite IH; [done|done|]. intros v Hv. rewrite Hstep. apply Hk.
  destruct (decide (k = k0)) as [->|]; [|done]. apply dict_get_None in Hk0. congruence.
Qed.

Lemma dict_get_filter (P : string * string → Prop) `{∀ x, Decision (P x)} k l :
  NoDup (dict_keys l) →
  dict_get k (filter P l) =
  match dict_get k l with Some v => if decide (P (k, v)) then Some v else None | None => None end.
Proof.
  unfold dict_keys. induction l as [|[k0 v0] l IH]; [done|].
  rewrite fmap_cons. intros [Hk0 Hl]%NoDup_cons.
  rewrite filter_cons. specialize (IH Hl). cbn [fst] in Hk0.
  apply dict_get_None in Hk0. cbn [dict_get].
  destruct (decide (k = k0)) as [->|Hne].
  - destruct (decide (P (k0, v0))); cbn [dict_get]; [by rewrite decide_True|]. by rewrite IH, Hk0.
  - destruct (decide (P (k0, v0))); cbn [dict_get]; [by rewrite decide_False|done].
Qed.

Lemma filter_keys_NoDup (P : string * string → Prop) `{∀ x, Decision (P x)} l :
  NoDup (dict_keys l) → NoDup (dict_keys (filter P l)).
Proof.
  unfold dict_keys. induction l as [|[k v] l IH]; [done|].
  rewrite fmap_cons. intros [Hk Hl]%NoDup_cons.
  rewrite filter_cons. case_decide; [|auto]. rewrite fmap_cons. apply NoDup_cons. split; [|auto].
  intros (y & Hyk & Hy)%list_elem_of_fmap. apply list_elem_of_filter in Hy as [_ Hy].
  destruct Hk. rewrite Hyk. by apply list_elem_of_fmap_2.
Qed.

(** Each updated field reads its new value afterwards, or is absent when the
    new value was empty, and every other field reads as before. *)
Lemma update_reads items d :
  dict_wf items →
  ∃ d', RelationState.update items (Some d) = Ok (Some d') ∧
    ∀ k, rd_get k d' =
      match dict_get k items with
      | Some v => if truthy v then Some v else None
      | None => rd_get k d
      end.
Proof.
  intros Hwf. eexists; split; [done|]. intros k.
  set (content := filter (λ kv : string * string, truthy kv.2 = true) items).
  set (deleted := filter (λ kv : string * string, truthy kv.2 = false) items).
  assert (Hc : Forall (λ kv : string * string, kv.2 ≠ "") content).
  { apply Forall_forall. intros kv [Hkv _]%list_elem_of_filter. by apply truthy_true. }
  assert (Hnd : NoDup (dict_keys content)) by (by apply filter_keys_NoDup).
  assert (Hgc : dict_get k content = match dict_get k items with
    Some v => if truthy v then Some v else None | None => None end).
  { unfold content. rewrite dict_get_filter by done. destruct (dict_get k items); [|done].
    case_decide as Ht; cbn in Ht; by destruct (truthy s). }
  assert (Hgd : k ∈ dict_keys deleted ↔ ∃ v, dict_get k items = Some v ∧ truthy v = false).
  { rewrite <- dict_get_is_Some. unfold deleted. rewrite dict_get_filter by done.
    destruct (dict_get k items); [|naive_solver]. case_decide as Ht; cbn in Ht; naive_solver. }
  rewrite fold_group_get; [|done|].
  - rewrite fold_del_get, fold_set_get, Hgc by done. destruct (dict_get k items) as [v|] eqn:Ek.
    + destruct (decide (k ∈ dict_keys deleted)) as [(w & [= <-] & Hw)%Hgd|Hk]; [by rewrite Hw|].
      destruct (truthy v) eqn:Ev; [done|]. destruct Hk. apply Hgd. eauto.
    + destruct (decide (k ∈ dict_keys deleted)) as [(w & Hw & _)%Hgd|Hk]; done.
  - intros v Hv. rewrite fold_del_get, fold_set_get, Hv by done.
    case_decide as Hk; [|done]. rewrite Hgd in Hk. rewrite Hgc in Hv.
    destruct Hk as (w & Hw & Ht). rewrite Hw, Ht in Hv. done.
Qed.

(** A field written alone. *)
Lemma update_single k v (d : D) :
  ∃ d', RelationState.update [(k, v)] (Some d) = Ok (Some d') ∧
    rd_get k d' = (if truthy v then Some v else None) ∧
    ∀ k', k' ≠ k → rd_get k' d' = rd_get k' d.
Proof.
  destruct (update_reads [(k, v)] d) as (d' & Hd' & Hget); [apply NoDup_singleton|].
  exists d'. split; [done|]. split; [|intros k' Hk']; rewrite Hget; cbn [dict_get].
  - by rewrite decide_True.
  - by rewrite decide_False.
Qed.

(** On an existing relation [RelationState.update] never raises, and
    afterwards each updated field reads its new value, or is absent when the
    new value was empty, while every other field reads as before; without a
    relation nothing is written, and the call raises [KeyError] exactly when
    some value is empty. *)
Theorem relation_state_update_spec items :
  dict_wf items →
  (∀ d : D, ∃ d', RelationState.update items (Some d) = Ok (Some d') ∧
    ∀ k, rd_get k d' =
      match dict_get k items with
      | Some v => if truthy v then Some v else None
      | None => rd_get k d
      end) ∧
  (RelationState.update (D := D) items None = Ok None ∨
   ∃ k, dict_get k items = Some "" ∧ RelationState.update (D := D) items None = Err (KeyError k)).
Proof.
  intros Hwf. split; [intros; by apply update_reads|]. cbn [RelationState.update].
  destruct (filter (λ kv : string * string, truthy kv.2 = false) items) as [|[k v] l] eqn:E; [by left|].
  right. exists k. split; [|done].
  assert (Hin : (k, v) ∈ filter (λ kv : string * string, truthy kv.2 = false) items)
    by (rewrite E; apply list_elem_of_here).
  apply list_elem_of_filter in Hin as [Hv Hin]. cbn in Hv. apply truthy_false in Hv as ->.
  by apply dict_elem_get.
Qed.

(** What one write to the application data does. *)
Lemma update_one_get k v (d : D) : v ≠ "" → rd_get k (KafkaCluster.update_one d (k, v)) = Some v.
Proof.
  intros Hv. unfold KafkaCluster.update_one. rewrite (proj2 (truthy_true v)) by done.
  destruct (KafkaCluster.is_secret_key k); [by apply rd_get_set_secret_eq|by apply rd_get_set_eq].
Qed.

Lemma update_one_blank k (d : D) : truthy_opt (rd_get k (KafkaCluster.update_one d (k, ""))) = false.
Proof.
  unfold KafkaCluster.update_one. cbn [truthy negb String.eqb].
  destruct (KafkaCluster.is_secret_key k); [by rewrite rd_get_delete_secret_eq|].
  apply rd_get_set_blank.
Qed.

Lemma update_one_ne k k' v (d : D) :
  k' ≠ k → rd_get k' (KafkaCluster.update_one d (k, v)) = rd_get k' d.
Proof.
  intros Hk. unfold KafkaCluster.update_one.
  destruct (KafkaCluster.is_secret_key k), (truthy v);
    first [by apply rd_get_set_secret_ne|by apply rd_get_delete_secret_ne|by apply rd_get_set_ne].
Qed.
End update_facts.

(** ** The snapshot of the broker capacities *)

Definition snapshot_plain (s : list (Z * json)) : Prop :=
  dict_wf s ∧ Forall (λ kv, plain kv.2 = true) s.

Lemma snapshot_read_back s :
  snapshot_plain s →
  loads (KafkaCluster.dump_snapshot s) = Ok (JObj ((λ '(k, v), (str_of_Z k, v)) <$> s)).
Proof.
  intros [Hwf Hp]. apply loads_dumps. cbn [plain]. apply andb_true_iff. split.
  - apply bool_decide_eq_true. unfold dict_wf, dict_keys in *. rewrite <- list_fmap_compose.
    rewrite (list_fmap_ext _ (str_of_Z ∘ fst)) by (by intros ? [? ?]).
    rewrite list_fmap_compose. apply NoDup_fmap_in; [|done].
    intros x y _ _. apply str_of_Z_inj.
  - apply forallb_forall. intros kv ([k v] & -> & Hkv)%list_elem_of_In%list_elem_of_fmap.
    rewrite Forall_forall in Hp. apply (Hp (k, v) Hkv).
Qed.

Section snapshot.
Context {D : Type} `{RelationDataLaws D}.

(** The snapshot written is the snapshot read. *)
Lemma snapshot_written s (d : D) :
  snapshot_plain s →
  KafkaCluster.broker_capacities_snapshot
    (KafkaCluster.update [(KafkaCluster.SNAPSHOT_KEY, KafkaCluster.dump_snapshot s)] (Some d)) = Ok s.
Proof.
  intros Hs. unfold KafkaCluster.broker_capacities_snapshot, KafkaCluster.update, data_get_or, data_get.
  cbn [foldl mbind option_bind]. rewrite update_one_get by done. cbn [default id].
  rewrite (snapshot_read_back s) by done. cbn [mbind result_bind].
  assert (Ht : traverse (λ '(k, v), k ← py_int k; Ok (k, v))
    ((λ '(k, v), (str_of_Z k, v)) <$> s) = Ok s).
  { apply traverse_ok. rewrite Forall2_fmap_l. apply Forall_Forall2_diag, Forall_forall.
    intros [k v] _. unfold compose. by rewrite py_int_str. }
  rewrite Ht. cbn [mbind result_bind]. by rewrite dict_of_list_id by apply Hs.
Qed.

Lemma capacity_plain bw b : plain (KafkaCluster.storages b) = true →
  plain (KafkaCluster.capacity_of bw b) = true.
Proof. intros Hb. cbn. rewrite Hb. by repeat (rewrite bool_decide_eq_true_2; [|by vm_compute; repeat constructor; set_solver]). Qed.

Lemma snapshot_set k v s :
  snapshot_plain s → plain v = true → snapshot_plain (dict_set k v s).
Proof.
  intros [Hwf Hp] Hv. split; [by apply dict_set_wf|].
  induction s as [|[k0 v0] s IH]; cbn; [by repeat constructor|].
  inversion Hp; subst. case_decide; constructor; cbn; try done.
  apply IH; [|done]. by inversion Hwf.
Qed.

Lemma snapshot_del k s : snapshot_plain s → snapshot_plain (dict_del k s).
Proof.
  intros [Hwf Hp]. split; [by apply dict_del_wf|]. unfold dict_del.
  rewrite !Forall_forall in *. intros x [_ Hx]%list_elem_of_filter. auto.
Qed.

(** Writing the snapshot leaves the other fields alone. *)
Lemma snapshot_others s (d : D) k : k ≠ KafkaCluster.SNAPSHOT_KEY →
  data_get k (KafkaCluster.update [(KafkaCluster.SNAPSHOT_KEY, KafkaCluster.dump_snapshot s)] (Some d)) =
  rd_get k d.
Proof. intros Hk. cbn [KafkaCluster.update foldl data_get mbind option_bind]. by apply update_one_ne. Qed.

(** After [add_broker] the snapshot gives the broker the capacity computed
    for it, every other broker keeps its capacity, no other field of the
    application data changes, and adding the broker again changes nothing. *)
Theorem add_broker_spec bw (b : KafkaCluster.broker_info) (d : D) s :
  truthy (KafkaCluster.cores b) = true →
  json_truthy (KafkaCluster.storages b) = true →
  plain (KafkaCluster.storages b) = true →
  KafkaCluster.broker_capacities_snapshot (Some d) = Ok s →
  snapshot_plain s →
  ∃ d' s' v, KafkaCluster.add_broker bw b (Some d) = Ok (Some d') ∧
    KafkaCluster.broker_capacities_snapshot (Some d') = Ok s' ∧
    dict_get (KafkaCluster.info_broker_id b) s' = Some v ∧
    json_eqb (KafkaCluster.capacity_of bw b) v = true ∧
    (∀ i, i ≠ KafkaCluster.info_broker_id b → dict_get i s' = dict_get i s) ∧
    (∀ k, k ≠ KafkaCluster.SNAPSHOT_KEY → rd_get k d' = rd_get k d) ∧
    KafkaCluster.add_broker bw b (Some d') = Ok (Some d').
Proof.
  intros Hc Hst Hp Hs Hplain.
  set (id := KafkaCluster.info_broker_id b). set (cap := KafkaCluster.capacity_of bw b).
  assert (Hadd : ∀ d s, KafkaCluster.broker_capacities_snapshot (Some d) = Ok s →
    KafkaCluster.add_broker bw b (Some d) =
    if json_eqb cap (dict_get_or id (JObj []) s) then Ok (Some d)
    else Ok (KafkaCluster.update
      [(KafkaCluster.SNAPSHOT_KEY, KafkaCluster.dump_snapshot (dict_set id cap s))] (Some d))).
  { intros d0 s0 Hs0. unfold KafkaCluster.add_broker. rewrite Hc, Hst, Hs0. done. }
  rewrite (Hadd d s Hs). destruct (json_eqb cap (dict_get_or id (JObj []) s)) eqn:Heq.
  - unfold dict_get_or in Heq. destruct (dict_get id s) as [v|] eqn:Hv; [|by cbn in Heq].
    exists d, s, v. split_and!; try done. rewrite (Hadd d s Hs). unfold dict_get_or.
    by rewrite Hv, Heq.
  - set (s' := dict_set id cap s). set (d' := KafkaCluster.update_one d
      (KafkaCluster.SNAPSHOT_KEY, KafkaCluster.dump_snapshot s')).
    assert (Hs' : KafkaCluster.broker_capacities_snapshot (Some d') = Ok s').
    { apply snapshot_written. apply snapshot_set; [done|by apply capacity_plain]. }
    exists d', s', cap. split_and!; try done.
    + apply dict_get_set_eq.
    + by apply json_eqb_refl, capacity_plain.
    + intros i Hi. by apply dict_get_set_ne.
    + intros k Hk. by apply update_one_ne.
    + rewrite (Hadd d' s' Hs'). unfold dict_get_or, s'. rewrite dict_get_set_eq.
      by rewrite json_eqb_refl by by apply capacity_plain.
Qed.

(** [remove_broker] makes the snapshot forget the broker and only it, and
    changes nothing when the broker is not recorded. *)
Theorem remove_broker_spec i (d : D) s :
  KafkaCluster.broker_capacities_snapshot (Some d) = Ok s →
  snapshot_plain s →
  ∃ d', KafkaCluster.remove_broker i (Some d) = Ok (Some d') ∧
    (dict_mem i s = false → d' = d) ∧
    ∃ s', KafkaCluster.broker_capacities_snapshot (Some d') = Ok s' ∧
      (∀ j, dict_get j s' = if decide (j = i) then None else dict_get j s) ∧
      (∀ k, k ≠ KafkaCluster.SNAPSHOT_KEY → rd_get k d' = rd_get k d).
Proof.
  intros Hs Hp. unfold KafkaCluster.remove_broker. rewrite Hs. cbn [mbind result_bind].
  destruct (dict_mem i s) eqn:Hm; cbn [negb].
  - eexists; split; [done|]. split; [done|]. exists (dict_del i s).
    split; [by apply snapshot_written, snapshot_del|]. split; [intros; apply dict_get_del|].
    intros k Hk. by apply update_one_ne.
  - exists d. split; [done|]. split; [done|]. exists s. split; [done|]. split; [|done].
    intros j. case_decide; [|done]. subst. destruct (dict_get i s) eqn:E; [|done].
    apply not_true_iff_false in Hm. destruct Hm. unfold dict_mem.
    by rewrite E, bool_decide_eq_true.
Qed.
End snapshot.

Lemma relation_state_update_spec_witness :
  dict_wf [("a", "1"); ("b", "")] ∧ RelationState.update (D := bag) [("a", "1"); ("b", "")] None = Err (KeyError "b").
Proof.
  assert (Hwf : dict_wf [("a", "1"); ("b", "")]) by (unfold dict_wf; cbn; repeat constructor; set_solver).
  split; [done|].
  destruct (proj2 (relation_state_update_spec (D := bag) _ Hwf)) as [Hn|(k & Hk & He)]; [done|].
  rewrite He. revert Hk. cbn. case_decide; [done|]. case_decide; [|done]. by subst.
Defined.

Definition sample_broker : KafkaCluster.broker_info :=
  KafkaCluster.mkBrokerInfo "4" (JObj [("/var/lib/kafka/data/0", JStr "1024")]) 100.
Definition sample_data : bag :=
  {[ KafkaCluster.SNAPSHOT_KEY := KafkaCluster.dump_snapshot [(101, JObj [])] ]}.

Lemma add_broker_spec_witness :
  ∃ d' s', KafkaCluster.add_broker 50000 sample_broker (Some sample_data) = Ok (Some d') ∧
    KafkaCluster.broker_capacities_snapshot (Some d') = Ok s' ∧
    dict_get 101 s' = Some (JObj []).
Proof.
  destruct (add_broker_spec (D := bag) 50000 sample_broker sample_data [(101, JObj [])])
    as (d' & s' & v & Ha & Hs & _ & _ & Ho & _); try reflexivity.
  - split; [apply NoDup_singleton|by repeat constructor].
  - exists d', s'. split; [done|]. split; [done|]. by rewrite Ho.
Defined.

Lemma remove_broker_spec_witness :
  ∃ d', KafkaCluster.remove_broker 101 (Some sample_data) = Ok (Some d') ∧
    KafkaCluster.broker_capacities_snapshot (Some d') ≠ Ok [(101, JObj [])].
Proof.
  destruct (remove_broker_spec (D := bag) 101 sample_data [(101, JObj [])])
    as (d' & Hd & _ & s' & Hs & Hget & _); try reflexivity.
  - split; [apply NoDup_singleton|by repeat constructor].
  - exists d'. split; [done|]. rewrite Hs. intros [= ->]. by specialize (Hget 101).
Defined.

(** ** Certificates *)

(** The elements of a list in order of first occurrence. *)
Fixpoint firsts (seen : list string) (l : list string) : list string :=
  match l with
  | [] => []
  | x :: l => if decide (x ∈ seen) then firsts seen l else x :: firsts (x :: seen) l
  end.

Lemma firsts_elem x seen l : x ∈ firsts seen l ↔ x ∈ l ∧ x ∉ seen.
Proof.
  revert seen. induction l as [|y l IH]; intros seen; cbn; [set_solver|].
  case_decide; rewrite ?elem_of_cons, IH; [set_solver|].
  destruct (decide (x = y)) as [->|]; set_solver.
Qed.

Lemma firsts_NoDup seen l : NoDup (firsts seen l).
Proof.
  revert seen. induction l as [|y l IH]; intros seen; cbn; [constructor|].
  case_decide; [done|]. constructor; [|done]. rewrite firsts_elem. set_solver.
Qed.

Lemma str_index_app x l1 l2 :
  str_index x (l1 ++ l2)%list =
  if decide (x ∈ l1) then str_index x l1 else (length l1 + str_index x l2)%nat.
Proof.
  induction l1 as [|y l1 IH]; [done|]. cbn [app str_index length].
  destruct (decide (x = y)) as [->|Hne].
  - rewrite decide_True; [done|apply list_elem_of_here].
  - rewrite IH. destruct (decide (x ∈ l1)).
    + rewrite decide_True; [done|by apply list_elem_of_further].
    + rewrite decide_False; [done|]. by intros [?|?]%elem_of_cons.
Qed.

Lemma str_index_lt x l : x ∈ l → (str_index x l < length l)%nat.
Proof.
  induction l as [|y l IH]; [by intros ?%not_elem_of_nil|]. cbn.
  case_decide; [lia|]. intros [?|?]%elem_of_cons; [done|]. specialize (IH H0). lia.
Qed.

Lemma str_index_inj x y l : x ∈ l → str_index x l = str_index y l → x = y.
Proof.
  induction l as [|z l IH]; [by intros ?%not_elem_of_nil|]. cbn. intros Hx.
  repeat case_decide; subst; try done. intros [= He]. apply IH; [|done].
  by apply elem_of_cons in Hx as [?|?].
Qed.

(** Taken in order of first occurrence the indices increase. *)
Lemma firsts_sorted pre l :
  StronglySorted (TLSState.index_le (pre ++ l)%list) (firsts pre l).
Proof.
  revert pre. induction l as [|x l IH]; intros pre; cbn [firsts]; [constructor|].
  assert (Hassoc : (pre ++ x :: l = (pre ++ [x]) ++ l)%list) by (by rewrite <- app_assoc).
  assert (Hperm : ∀ seen seen' k, (∀ y, y ∈ seen ↔ y ∈ seen') → firsts seen k = firsts seen' k).
  { clear. intros seen seen' k. revert seen seen'. induction k as [|y k IH]; intros seen seen' Hs; [done|].
    cbn. destruct (decide (y ∈ seen)) as [Hy|Hy].
    - rewrite decide_True by (by apply Hs). auto.
    - rewrite decide_False by (by rewrite <- Hs). f_equal. apply IH. set_solver. }
  rewrite Hassoc. case_decide as Hx.
  - rewrite (Hperm pre (pre ++ [x])%list) by set_solver. apply IH.
  - rewrite (Hperm (x :: pre) (pre ++ [x])%list) by set_solver. constructor; [apply IH|].
    apply Forall_forall. intros y [Hy Hn]%firsts_elem. unfold TLSState.index_le.
    rewrite (str_index_app x (pre ++ [x])), (str_index_app y (pre ++ [x])).
    destruct (decide (x ∈ (pre ++ [x])%list)) as [_|]; [|set_solver].
    destruct (decide (y ∈ (pre ++ [x])%list)) as [|_]; [set_solver|].
    assert (str_index x (pre ++ [x]) < length (pre ++ [x]))%nat by (apply str_index_lt; set_solver).
    lia.
Qed.

Lemma StronglySorted_index_unique l l1 l2 :
  StronglySorted (TLSState.index_le l) l1 → StronglySorted (TLSState.index_le l) l2 →
  (∀ x, x ∈ l1 → x ∈ l) → l1 ≡ₚ l2 → l1 = l2.
Proof.
  intros H1 H2 Hin Hp. apply (StronglySorted_unique_strong (TLSState.index_le l)); try done.
  intros x y Hx Hy Hxy Hyx. apply (str_index_inj x y l); [auto|].
  unfold TLSState.index_le in *. lia.
Qed.

Lemma index_le_sorted l k : StronglySorted (TLSState.index_le l) (merge_sort (TLSState.index_le l) k).
Proof.
  apply StronglySorted_merge_sort.
  - intros a b c. unfold TLSState.index_le. lia.
  - intros a b. unfold TLSState.index_le. lia.
Qed.

Lemma ordered_set_firsts l : TLSState.ordered_set l = firsts [] l.
Proof.
  unfold TLSState.ordered_set.
  assert (Hp : merge_sort (TLSState.index_le l) (elements (list_to_set l : gset string)) ≡ₚ firsts [] l).
  { rewrite merge_sort_Permutation. apply NoDup_Permutation; [apply NoDup_elements|apply firsts_NoDup|].
    intros x. rewrite elem_of_elements, elem_of_list_to_set, firsts_elem. set_solver. }
  apply (StronglySorted_index_unique l); [apply index_le_sorted|apply (firsts_sorted [])| |done].
  intros x. rewrite Hp, firsts_elem. by intros [? _].
Qed.

Section certificates.
Context {D : Type} `{RelationDataLaws D}.

(** The bundle of a scope that has a certificate and a CA lists the
    certificate, then the CA, then the chain, each once and at its first
    occurrence; without a certificate or a CA it is empty. *)
Theorem bundle_spec scope (o : option D) chain :
  TLSState.chain scope o = Ok chain →
  TLSState.bundle scope o =
    Ok (if truthy (TLSState.certificate scope o) && truthy (TLSState.ca scope o)
        then firsts [] (TLSState.certificate scope o :: TLSState.ca scope o :: chain) else []).
Proof.
  intros Hc. unfold TLSState.bundle. cbn [all_true forallb]. rewrite andb_true_r.
  destruct (_ && _); cbn [negb]; [|done]. rewrite Hc. cbn [mbind result_bind].
  by rewrite ordered_set_firsts.
Qed.

Lemma json_str_list_strs l : json_str_list (JList (JStr <$> l)) = Ok l.
Proof.
  destruct l as [|x l]; [done|]. unfold json_str_list. cbn [json_truthy negb length fmap list_fmap Nat.eqb].
  apply traverse_ok. change (Forall2 (λ w y, match w with JStr s => Ok s | _ => Err (TypeError "str expected") end = Ok y)
    (JStr <$> (x :: l)) (x :: l)).
  rewrite Forall2_fmap_l. by apply Forall_Forall2_diag, Forall_true.
Qed.

Lemma loads_dumps_list l : loads (dumps_list l) = Ok (JList (JStr <$> l)).
Proof. apply loads_dumps. cbn [plain]. apply forallb_forall. by intros x (s & -> & _)%list_elem_of_In%list_elem_of_fmap. Qed.

(** The trusted certificates written to a relation are those read back, as
    a set, and a second write of the same set changes nothing. *)
Theorem trusted_certificates_roundtrip scope (l : list string) (d : D) old :
  TLSState.trusted_certificates scope (Some d) = Ok old →
  ∃ d', TLSState.set_trusted_certificates scope l (Some d) = Ok (Some d') ∧
    TLSState.trusted_certificates scope (Some d') = Ok (list_to_set l) ∧
    ∀ l' : list string, (list_to_set l' : gset string) = list_to_set l →
      TLSState.set_trusted_certificates scope l' (Some d') = Ok (Some d').
Proof.
  intros Hold. unfold TLSState.set_trusted_certificates at 1. rewrite Hold. cbn [mbind result_bind].
  assert (Hsame : ∀ d', TLSState.trusted_certificates scope (Some d') = Ok (list_to_set l) →
    ∀ l' : list string, (list_to_set l' : gset string) = list_to_set l →
      TLSState.set_trusted_certificates scope l' (Some d') = Ok (Some d')).
  { intros d' Hd' l' Hl'. unfold TLSState.set_trusted_certificates. rewrite Hd', Hl'.
    cbn [mbind result_bind]. by rewrite decide_True. }
  case_decide as He.
  - exists d. subst old. eauto.
  - destruct (update_single (TLSState.key scope "trust") (dumps_list (sorted_str l)) d)
      as (d' & Hu & Hg & _).
    exists d'. assert (Hr : TLSState.trusted_certificates scope (Some d') = Ok (list_to_set l)).
    { unfold TLSState.trusted_certificates, data_get_or, data_get. cbn [mbind option_bind].
      rewrite Hg. replace (truthy (dumps_list (sorted_str l))) with true by done. cbn [default id].
      rewrite loads_dumps_list. cbn [mbind result_bind]. rewrite json_str_list_strs.
      cbn [mbind result_bind]. f_equal. apply set_eq. intros x.
      by rewrite !elem_of_list_to_set, sorted_str_elem. }
    eauto.
Qed.

(** Setting a self-signed certificate whose fields are all present makes
    the scope ready and leaves the other scope as it was. *)
Theorem set_self_signed_ready scope other (c : SelfSignedCertificate) (d : D) :
  truthy (ss_ca c) = true → truthy (ss_certificate c) = true → truthy (ss_private_key c) = true →
  ∃ d', TLSState.set_self_signed scope c (Some d) = Ok (Some d') ∧
    TLSState.ready scope (Some d') = true ∧
    (other ≠ scope → TLSState.ready other (Some d') = TLSState.ready other (Some d)).
Proof.
  intros Hca Hcert Hpk. unfold TLSState.set_self_signed.
  destruct (update_single (TLSState.key scope "private-key") (ss_private_key c) d) as (d1 & U1 & G1 & O1).
  destruct (update_single (TLSState.key scope "certificate") (ss_certificate c) d1) as (d2 & U2 & G2 & O2).
  destruct (update_single (TLSState.key scope "ca-cert") (ss_ca c) d2) as (d3 & U3 & G3 & O3).
  destruct (update_single (TLSState.key scope "csr") (ss_csr c) d3) as (d4 & U4 & G4 & O4).
  unfold TLSState.set_private_key, TLSState.set_certificate, TLSState.set_ca, TLSState.set_csr, TLSState.set.
  rewrite U1; cbn [mbind result_bind]. rewrite U2; cbn [mbind result_bind].
  rewrite U3; cbn [mbind result_bind]. rewrite U4. exists d4. split; [done|].
  unfold TLSState.ready, TLSState.certificate, TLSState.ca, TLSState.private_key, TLSState.get,
    data_get_or, data_get. cbn [mbind option_bind].
  rewrite Hca in G3. rewrite Hcert in G2. rewrite Hpk in G1. split.
  - rewrite !O4 by (by destruct scope). rewrite G3. rewrite !O3 by (by destruct scope).
    rewrite G2, O2 by (by destruct scope). rewrite G1. cbn. by rewrite Hca, Hcert, Hpk.
  - intros Hne.
    assert (Hkeys : ∀ f g, TLSState.key other f ≠ TLSState.key scope g) by (by destruct other, scope).
    by rewrite !O4, !O3, !O2, !O1 by apply Hkeys.
Qed.
End certificates.

Definition sample_tls : bag :=
  {[ "client-certificate" := "CERT"; "client-ca-cert" := "CA"; "client-chain" := dumps_list ["CA"; "ROOT"; "CERT"] ]}.

Lemma bundle_spec_witness :
  TLSState.bundle CLIENT_SCOPE (Some sample_tls) = Ok ["CERT"; "CA"; "ROOT"].
Proof. rewrite (bundle_spec CLIENT_SCOPE (Some sample_tls) ["CA"; "ROOT"; "CERT"]); reflexivity. Defined.

Lemma trusted_certificates_roundtrip_witness :
  ∃ d', TLSState.set_trusted_certificates PEER_SCOPE ["b"; "a"; "b"] (Some (∅ : bag)) = Ok (Some d') ∧
    TLSState.trusted_certificates PEER_SCOPE (Some d') = Ok {["a"; "b"]}.
Proof.
  destruct (trusted_certificates_roundtrip (D := bag) PEER_SCOPE ["b"; "a"; "b"] ∅ ∅)
    as (d' & Hs & Hr & _); [reflexivity|].
  exists d'. split; [done|]. rewrite Hr. f_equal.
Defined.

Lemma set_self_signed_ready_witness :
  ∃ d', TLSState.set_self_signed PEER_SCOPE (mkSelfSigned "ca" "csr" "cert" "key") (Some (∅ : bag)) = Ok (Some d') ∧
    TLSState.ready PEER_SCOPE (Some d') = true.
Proof.
  destruct (set_self_signed_ready (D := bag) PEER_SCOPE PEER_SCOPE (mkSelfSigned "ca" "csr" "cert" "key") ∅)
    as (d' & Hs & Hr & _); try reflexivity. by exists d'.
Defined.

(** ** Peer clusters and clients *)

(** Whatever the related application publishes, the balancer user name,
    password and URIs of a peer cluster known only through its relation are
    empty: the getters ask the library for the secrets a balancer requests,
    which never include them. *)
Theorem balancer_credentials_unreachable (r : PeerCluster.remote_app) :
  PeerCluster.fetches_requested r →
  PeerCluster.balancer_username (PeerCluster.of_relation (Some r)) = "" ∧
  PeerCluster.balancer_password (PeerCluster.of_relation (Some r)) = "" ∧
  PeerCluster.balancer_uris (PeerCluster.of_relation (Some r)) = "".
Proof.
  intros Hr.
  assert (Hno : ∀ req k, k ∉ requested_secrets BALANCER_ROLE →
    PeerCluster.fetch_with_secrets r req (requested_secrets BALANCER_ROLE) !! k = None).
  { intros req k Hk. apply eq_None_not_Some. intros Hs. apply Hk, (Hr req _ k); done. }
  unfold PeerCluster.balancer_username, PeerCluster.balancer_password, PeerCluster.balancer_uris,
    PeerCluster.own_or. cbn [PeerCluster.of_relation PeerCluster.p_balancer_username
      PeerCluster.p_balancer_password PeerCluster.p_balancer_uris PeerCluster.relation truthy
      String.eqb negb].
  rewrite !Hno by (cbn; set_solver). by destruct (PeerCluster.has_app r).
Qed.

(** A library that holds every field asked for. *)
Definition generous_remote : PeerCluster.remote_app :=
  PeerCluster.mkRemote true (λ _, None) (λ _, None) (λ _ fields, list_to_map ((λ f, (f, f)) <$> fields)).

Lemma generous_fetches : PeerCluster.fetches_requested generous_remote.
Proof.
  intros req fields k _ [v Hv]. cbn in Hv. apply elem_of_list_to_map_2 in Hv.
  apply list_elem_of_fmap in Hv as (f & [= -> ->] & Hf). done.
Qed.

Lemma balancer_credentials_unreachable_witness :
  PeerCluster.broker_uris (PeerCluster.of_relation (Some generous_remote)) = "broker-uris" ∧
  PeerCluster.balancer_uris (PeerCluster.of_relation (Some generous_remote)) = "".
Proof.
  split; [reflexivity|].
  exact (proj2 (proj2 (balancer_credentials_unreachable generous_remote generous_fetches))).
Defined.

(** Two requests of clients are given the same user name only when they
    are the same request of the same relation. *)
Theorem generate_username_inj n n' (q q' : option string) :
  (0 ≤ n) → (0 ≤ n') → q ≠ Some "" → q' ≠ Some "" →
  KafkaClient.generate_username n q = KafkaClient.generate_username n' q' → n = n' ∧ q = q'.
Proof.
  intros Hid Hid' Hq Hq'. unfold KafkaClient.generate_username. cbv zeta. intros He%append_inj_l.
  pose proof (str_of_Z_digits n Hid) as Hd. pose proof (str_of_Z_digits n' Hid') as Hd'.
  assert (Hdash : ∀ z, 0 ≤ z → lacks "-" (str_of_Z z) = true).
  { intros z Hz. unfold lacks. eapply str_forall_impl; [|by apply str_of_Z_digits].
    intros c Hc. destruct (Ascii.eqb_spec c "-"); [by subst|done]. }
  assert (Ht : ∀ o : option string, o ≠ Some "" → o = None ∨ ∃ s, o = Some s ∧ truthy s = true).
  { intros [s|] Ho; [right|by left]. exists s. split; [done|]. apply truthy_true. by intros ->. }
  destruct (Ht q Hq) as [->|(s & -> & Hs)], (Ht q' Hq') as [->|(s' & -> & Hs')];
    cbn [truthy_opt default id] in He; rewrite ?Hs, ?Hs', ?append_nil_r in He.
  - by apply str_of_Z_inj in He as ->.
  - symmetry in He. by apply sep_absent in He; [|apply Hdash].
  - by apply sep_absent in He; [|apply Hdash].
  - apply sep_unique in He as [He%str_of_Z_inj ->]; [by subst|by apply Hdash..].
Qed.

Lemma generate_username_inj_witness :
  KafkaClient.generate_username 7 (Some "0a1b") ≠ KafkaClient.generate_username 7 None.
Proof.
  intros He. destruct (generate_username_inj 7 7 (Some "0a1b") None) as [_ ?]; done.
Defined.
