(* ===== verification/Repository.v ===== *)
(** * Relations of version 1 of the interface (core/models.py)

    [RelationStateV1] reads and writes a relation through the repository of
    the data interfaces library, an interface here: plain fields are JSON
    documents in the data bag, the others are in the secret of their group.
    [written_data] finds in it what was written for one client. *)

From S2P Require Import Prelude PyStr PyDict Json Literals Models ModelsFacts.

Local Open Scope string_scope.
Local Open Scope Z_scope.

Abbreviation document := (list (string * json)).

(** A secret the repository gives: its identifier, when its metadata can be
    read, and the content at hand. *)
Record group_secret := mkSecret { secret_id : option string; content : document }.

Class Repository (W : Type) := {
  get_data : W → option document;
  get_secret : string → W → option group_secret;
  write_field : string → string → W → W;
  write_secret_field : string → string → string → W → W;
  delete_field : string → W → W;
  delete_secret_field : string → string → W → W }.

(** A field, plain or of a group, has the value last written. *)
Class RepositoryLaws (W : Type) `{Repository W} := {
  repo_get : string → W → option string;
  repo_write k v k' w : repo_get k' (write_field k v w) = if decide (k' = k) then Some v else repo_get k' w;
  repo_write_secret k v g k' w :
    repo_get k' (write_secret_field k v g w) = if decide (k' = k) then Some v else repo_get k' w;
  repo_delete k k' w : repo_get k' (delete_field k w) = if decide (k' = k) then None else repo_get k' w;
  repo_delete_secret k g k' w :
    repo_get k' (delete_secret_field k g w) = if decide (k' = k) then None else repo_get k' w }.

Definition SECRET_PREFIX : string := "secret-".

Module RelationStateV1.

(** A field of the data model: its name, whether its type is one of the
    optional secrets, and its metadata. *)
Record model_field := mkField { field : string; optional_secret : bool; metadata : list string }.

Definition secret_map (data_model : option (list model_field)) : list (string * string) :=
  match data_model with
  | None => []
  | Some fields =>
      foldl (λ m f,
        match metadata f with
        | [group] => if optional_secret f && truthy group then dict_set (field f) group m else m
        | _ => m
        end) [] fields
  end.

(** What the object is built with. *)
Record relation := mkRelation {
  data_model : option (list model_field); extra_secret_fields : list string; is_peer_relation : bool }.

Definition secret_fields (r : relation) : gset string :=
  list_to_set (dict_keys (secret_map (data_model r)) ++ extra_secret_fields r)%list.
Definition is_secret_field (r : relation) (k : string) : bool :=
  bool_decide (k ∈ secret_fields r) || (is_peer_relation r && startswith "relation-" k).
Definition group_of (r : relation) (k : string) : string := dict_get_or k "extra" (secret_map (data_model r)).

(** [set(self.secret_map.values()) | {SecretGroup("extra")}], in some order. *)
Definition secret_groups (r : relation) : list string :=
  elements (list_to_set (dict_values (secret_map (data_model r)) ++ ["extra"])%list : gset string).

Section data.
Context {W : Type} `{Repository W}.

(** [model_secret id] is the latest content of a secret, or the exception that
    it cannot be read. *)
Variable model_secret : string → result document.

Definition merge_group (w : W) (data : document) (group : string) : document :=
  match get_secret group w with
  | None => data
  | Some secret =>
      match (id ← secret_id secret; match model_secret id with Ok c => Some c | Err _ => None end) with
      | Some c => dict_update data c
      | None => dict_update data (content secret)
      end
  end.

(** The fields of the secrets whose URIs are among the fields. *)
Fixpoint merge_secrets (fields : list string) (data : document) : result document :=
  match fields with
  | [] => Ok data
  | secret_field :: fields =>
      match dict_get secret_field data with
      | Some (JStr uri) => c ← model_secret uri; merge_secrets fields (dict_update data c)
      | Some _ => Err (TypeError "the URI of a secret is a string")
      | None => Err (KeyError secret_field)
      end
  end.
Definition uri_fields (data : document) : list string :=
  filter (λ k, startswith SECRET_PREFIX k = true) (dict_keys data).

Definition relation_data (r : relation) (w : W) : result document :=
  let data := foldl (merge_group w) (default [] (get_data w)) (secret_groups r) in
  merge_secrets (uri_fields data) data.

Definition write (r : relation) (w : W) (kv : string * string) : W :=
  let '(k, v) := kv in
  if is_secret_field r k then write_secret_field k v (group_of r k) w else write_field k v w.
Definition delete (r : relation) (w : W) (k : string) : W :=
  if is_secret_field r k then delete_secret_field k (group_of r k) w else delete_field k w.

Definition update (r : relation) (items : list (string * string)) (w : W) : W :=
  let w := foldl (write r) w (filter (λ kv, truthy kv.2 = true) items) in
  foldl (delete r) w (dict_keys (filter (λ kv, truthy kv.2 = false) items)).

(** ** What was written for a client *)

(** The secrets of a request: empty URIs are passed over. *)
Fixpoint merge_request (fields : list string) (data : document) : result document :=
  match fields with
  | [] => Ok data
  | secret_field :: fields =>
      match dict_get secret_field data with
      | Some (JStr uri) =>
          if truthy uri then c ← model_secret uri; merge_request fields (dict_update data c)
          else merge_request fields data
      | Some JNull | None => merge_request fields data
      | Some _ => Err (TypeError "the URI of a secret is a string")
      end
  end.

(** [r.get("request-id") == self.request_id] *)
Definition same_request (request_id : option string) (r : json) : result bool :=
  match r with
  | JObj d => Ok (match dict_get "request-id" d, request_id with
                  | None, None | Some JNull, None => true
                  | Some (JStr i), Some j => (i =? j)%string
                  | _, _ => false
                  end)
  | _ => Err (TypeError "object has no attribute 'get'")
  end.
Fixpoint first_request (request_id : option string) (requests : list json) : result (option document) :=
  match requests with
  | [] => Ok None
  | r :: requests =>
      same ← same_request request_id r;
      rest ← first_request request_id requests;
      Ok (match r with JObj d => if (same : bool) then Some d else rest | _ => rest end)
  end.

(** [local_app]: the application the charm runs as is known. *)
Definition written_data (local_app : bool) (c : KafkaClient.kafka_client) (w : W) : result document :=
  if negb local_app then Ok []
  else
    data ← relation_data (mkRelation None [] false) w;
    if (KafkaClient.version c =? "v0")%string then Ok data
    else
      match dict_get "requests" data with
      | None => Ok []
      | Some (JList requests) =>
          mine ← first_request (KafkaClient.request_id (KafkaClient.req c)) requests;
          match mine with
          | None => Ok []
          | Some data => merge_request (uri_fields data) data
          end
      | Some _ => Err (TypeError "the requests are a list")
      end.
End data.
End RelationStateV1.

Section facts.
Context {W : Type} `{RepositoryLaws W}.
Import RelationStateV1.

Lemma write_get r w k v k' :
  repo_get k' (write r w (k, v)) = if decide (k' = k) then Some v else repo_get k' w.
Proof. unfold write. destruct (is_secret_field r k); [apply repo_write_secret|apply repo_write]. Qed.
Lemma delete_get r w k k' :
  repo_get k' (delete r w k) = if decide (k' = k) then None else repo_get k' w.
Proof. unfold delete. destruct (is_secret_field r k); [apply repo_delete_secret|apply repo_delete]. Qed.

Lemma writes_get r l w k :
  dict_wf l → repo_get k (foldl (write r) w l) = match dict_get k l with Some v => Some v | None => repo_get k w end.
Proof.
  revert w. induction l as [|[k' v] l IH]; intros w Hwf; [done|].
  apply NoDup_cons in Hwf as [Hk Hwf]. cbn [foldl dict_get]. rewrite IH by done. rewrite write_get.
  case_decide as E; [|done]. subst k'. by rewrite (proj2 (dict_get_None k l) Hk).
Qed.
Lemma deletes_get r l w k :
  repo_get k (foldl (delete r) w l) = if decide (k ∈ l) then None else repo_get k w.
Proof.
  revert w. induction l as [|k' l IH]; intros w; cbn [foldl]; [by rewrite decide_False by set_solver|].
  rewrite IH, delete_get. repeat case_decide; set_solver.
Qed.

(** What a field holds after the truthy items are written and the others deleted. *)
Lemma updated_value items k (old : option string) :
  dict_wf items →
  (if decide (k ∈ dict_keys (filter (λ kv : string * string, truthy kv.2 = false) items)) then None
   else match dict_get k (filter (λ kv : string * string, truthy kv.2 = true) items) with
        | Some v => Some v
        | None => old
        end) =
  match dict_get k items with
  | Some v => if truthy v then Some v else None
  | None => old
  end.
Proof.
  intros Hwf. rewrite dict_get_filter by done.
  assert (Hd : k ∈ dict_keys (filter (λ kv : string * string, truthy kv.2 = false) items) ↔
    ∃ v, dict_get k items = Some v ∧ truthy v = false).
  { rewrite <- dict_get_is_Some, dict_get_filter by done. destruct (dict_get k items) as [v|].
    - case_decide as Ht; cbn in Ht; (split; [intros [? Hs]|intros (? & [= <-] & Hv)]).
      + by exists v. + by eexists. + done. + done.
    - split; [by intros []|by intros (? & ? & _)]. }
  case_decide as Hk; rewrite Hd in Hk.
  - destruct Hk as (v & -> & Hv). by rewrite Hv.
  - destruct (dict_get k items) as [v|]; [|done]. destruct (truthy v) eqn:Ev.
    + by rewrite decide_True.
    + destruct Hk. by exists v.
Qed.

(** As in version 0, each updated field reads its new value afterwards, or is
    absent when the new value was empty, and every other field reads as before,
    whether the fields are plain or secret. *)
Theorem update_v1_spec r items w k :
  dict_wf items →
  repo_get k (update r items w) =
    match dict_get k items with
    | Some v => if truthy v then Some v else None
    | None => repo_get k w
    end.
Proof.
  intros Hwf. unfold update. rewrite deletes_get, writes_get by (by apply filter_keys_NoDup). by apply updated_value.
Qed.
End facts.

(** ** The data of a client *)

Section written.
Context {W : Type} `{Repository W}.
Import RelationStateV1.

Lemma first_request_found i pre d post :
  Forall (λ r, same_request i r = Ok false) pre → same_request i (JObj d) = Ok true →
  Forall (λ r, is_ok (same_request i r) = true) post →
  first_request i (pre ++ JObj d :: post) = Ok (Some d).
Proof.
  intros Hpre Hd Hpost. assert (Hrest : ∃ x, first_request i post = Ok x).
  { induction Hpost as [|r post Hr _ [x Hx]]; [by eexists|]. cbn [first_request].
    destruct (same_request i r); [|done]. cbn [mbind result_bind]. rewrite Hx. cbn [mbind result_bind]. by eexists. }
  destruct Hrest as [x Hx]. induction Hpre as [|r pre Hr _ IH]; cbn [app first_request].
  - rewrite Hd. cbn [mbind result_bind]. by rewrite Hx.
  - rewrite Hr. cbn [mbind result_bind]. rewrite IH. by destruct r.
Qed.

(** Of the requests of a relation, a client of version 1 reads its own, with
    the content of the secrets its entry points to. *)
Theorem written_data_own model_secret (c : KafkaClient.kafka_client) (w : W) data pre d post :
  relation_data model_secret (mkRelation None [] false) w = Ok data →
  KafkaClient.version c ≠ "v0" → dict_get "requests" data = Some (JList (pre ++ JObj d :: post)) →
  let i := KafkaClient.request_id (KafkaClient.req c) in
  Forall (λ r, same_request i r = Ok false) pre → same_request i (JObj d) = Ok true →
  Forall (λ r, is_ok (same_request i r) = true) post →
  written_data model_secret true c w = merge_request model_secret (uri_fields d) d.
Proof.
  intros Hdata Hv Hreq i Hpre Hd Hpost. unfold written_data. cbn [negb]. rewrite Hdata. cbn [mbind result_bind].
  rewrite (proj2 (String.eqb_neq _ _) Hv), Hreq. fold i. rewrite (first_request_found _ pre d post Hpre Hd Hpost). reflexivity.
Qed.
End written.

(** A repository that keeps plain and secret fields together. *)
#[export] Instance bag_repository : Repository bag := {|
  get_data w := Some (prod_map id JStr <$> map_to_list w);
  get_secret _ _ := None;
  write_field k v w := <[k := v]> w;
  write_secret_field k v _ w := <[k := v]> w;
  delete_field k w := delete k w;
  delete_secret_field k _ w := delete k w |}.
#[export] Instance bag_repository_laws : RepositoryLaws bag.
Proof.
  refine {| repo_get k w := w !! k |}; cbn; intros; case_decide; subst;
    by rewrite ?lookup_insert_eq, ?lookup_insert_ne, ?lookup_delete_eq, ?lookup_delete_ne by done.
Defined.
