(* ===== verification/K8s.v ===== *)
(** * Kubernetes resources of a pod (managers/k8s.py)

    The services the charm builds for itself, the node ports it looks up in
    them, and how it applies them. What the API returns is an argument. The
    two-minute cache of the lookups is not modelled: each lookup is one call. *)

From S2P Require Import Prelude PyStr PyDict Literals.

Local Open Scope string_scope.
Local Open Scope Z_scope.

(** A port of a service; the node port is what the cluster assigns. *)
Record ServicePort := mkServicePort {
  sp_name : string; sp_port : Z; sp_target_port : Z; sp_node_port : Z }.

(** A service with the owner its metadata names. *)
Record Service := mkService {
  svc_name : string; svc_namespace : string; svc_owners : list string;
  svc_selector : list (string * string); svc_ports : list ServicePort }.

(** What the charm reads of a pod and of a node. *)
Record Pod := mkPod { pod_uid : string; pod_owners : list string; pod_node : option string }.
Record Node := mkNode { node_addresses : list (string * string) }.

Module K8sManager.

Record k8s_manager := mkManager { pod_name : string; namespace : string }.

(** ["-".join(pod_name.split("-")[:-1])] *)
Definition app_name (k : k8s_manager) : string :=
  str_join "-" (removelast (split_char "-" (pod_name k))).
Definition bootstrap_service_name (k : k8s_manager) : string := app_name k ++ "-bootstrap".

Definition short_auth_mechanism (m : AuthMechanism) : string :=
  match m with SCRAM_SHA_512 => "scram" | OAUTHBEARER => "oauth" | SSL_MECHANISM => "ssl" end.

(** [protocol.lower().replace("_", "-")] *)
Definition short_protocol (p : AuthProtocol) : string :=
  replace_char "_" "-" (str_lower (protocol_str p)).

(** The first port whose name contains both parts of the authentication map. *)
Fixpoint find_port (auth_map : AuthMap) (ports : list ServicePort) : option Z :=
  match ports with
  | [] => None
  | port :: ports =>
      if contains (short_protocol (protocol auth_map)) (sp_name port) &&
         contains (short_auth_mechanism (mechanism auth_map)) (sp_name port)
      then Some (sp_node_port port) else find_port auth_map ports
  end.
Definition get_node_port (service : Service) (auth_map : AuthMap) : result Z :=
  match svc_ports service with
  | [] => Err (PyException "Could not find Service spec or ports")
  | ports =>
      match find_port auth_map ports with
      | Some p => Ok p
      | None => Err (PyException "Unable to find NodePort")
      end
  end.

Definition build_listener_service_name (k : k8s_manager) (auth_map : AuthMap) : string :=
  pod_name k ++ "-" ++ short_protocol (protocol auth_map) ++ "-"
    ++ short_auth_mechanism (mechanism auth_map).

Definition get_listener_nodeport (get_service : string → result (option Service))
    (k : k8s_manager) (auth_map : AuthMap) : result Z :=
  service ← get_service (build_listener_service_name k auth_map);
  match service with
  | None => Err (PyException "Unable to find Service")
  | Some service => get_node_port service auth_map
  end.

Definition get_bootstrap_nodeport (get_service : string → result (option Service))
    (k : k8s_manager) (auth_map : AuthMap) : result Z :=
  service ← get_service (bootstrap_service_name k);
  match service with
  | None => Err (PyException "Unable to find bootstrap Service")
  | Some service => get_node_port service auth_map
  end.

Definition bootstrap_port_name (auth_map : AuthMap) : string :=
  short_protocol (protocol auth_map) ++ "-" ++ short_auth_mechanism (mechanism auth_map) ++ "-bootstrap-port".

(** [node_port_of] is the node port the cluster will assign to each port. *)
Definition build_bootstrap_services (node_port_of : AuthMap → Z) (k : k8s_manager) (pod : Pod) : Service :=
  mkService (bootstrap_service_name k) (namespace k) (pod_owners pod)
    [("app.kubernetes.io/name", app_name k)]
    ((λ '(auth_map, port),
        mkServicePort (bootstrap_port_name auth_map) (external port) (external port) (node_port_of auth_map))
       <$> SECURITY_PROTOCOL_PORTS).

Definition build_listener_service (node_port_of : AuthMap → Z) (k : k8s_manager) (pod : Pod)
    (auth_map : AuthMap) : result Service :=
  ports ← ports_of auth_map;
  let service_name := build_listener_service_name k auth_map in
  Ok (mkService service_name (namespace k) [pod_uid pod]
        [("statefulset.kubernetes.io/pod-name", pod_name k)]
        [mkServicePort (service_name ++ "-port") (external ports) (external ports) (node_port_of auth_map)]).

(** [apply_service]: a missing trust and an already allocated port are logged. *)
Definition apply_service (applied : result ()) : result () :=
  match applied with
  | Err (ApiError code msg) =>
      if code =? 403 then Ok ()
      else if (code =? 422) && contains "port is already allocated" msg then Ok ()
      else applied
  | r => r
  end.

Definition get_node (get_pod : string → result Pod) (api_node : string → result Node)
    (pod_name : string) : result Node :=
  pod ← get_pod pod_name;
  match pod_node pod with
  | None => Err (PyException "Could not find podSpec or nodeName")
  | Some name => if truthy name then api_node name
                 else Err (PyException "Could not find podSpec or nodeName")
  end.

Fixpoint first_address (addresses : list (string * string)) : string :=
  match addresses with
  | [] => ""
  | (type, address) :: addresses =>
      if bool_decide (type ∈ ["ExternalIP"; "InternalIP"; "Hostname"]) then address
      else first_address addresses
  end.
Definition get_node_ip (get_pod : string → result Pod) (api_node : string → result Node)
    (pod_name : string) : result string :=
  node ← get_node get_pod api_node pod_name;
  match node_addresses node with
  | [] => Err (PyException "No status found")
  | addresses => Ok (first_address addresses)
  end.

(** ** Facts *)

Lemma str_join_snoc sep l x : l ≠ [] → str_join sep (l ++ [x])%list = str_join sep l ++ sep ++ x.
Proof.
  induction l as [|y l IH]; [done|]. intros _. destruct l as [|z l]; [done|].
  change ((y :: z :: l) ++ [x])%list with (y :: ((z :: l) ++ [x])%list).
  assert (Hc : ∀ k, k ≠ [] → str_join sep (y :: k) = y ++ sep ++ str_join sep k)
    by (intros k Hk; by destruct k).
  rewrite (Hc (z :: l)), Hc, IH by (by destruct l). by rewrite !append_assoc.
Qed.

(** In the bootstrap service the charm builds, looking up an
    authentication map gives the node port assigned to it, except for mutual
    TLS: [ssl] occurs in the names of earlier ports, and the lookup gives the
    port of SASL_SSL with SCRAM. *)
Theorem bootstrap_node_port node_port_of k pod a :
  known_auth a = true →
  get_node_port (build_bootstrap_services node_port_of k pod) a =
  Ok (node_port_of (if bool_decide (a = mkAuthMap SSL_PROTOCOL SSL_MECHANISM)
                    then mkAuthMap SASL_SSL SCRAM_SHA_512 else a)).
Proof. intros [->|[->|[->|[->| ->]]]]%known_auth_cases; reflexivity. Qed.

Lemma bootstrap_node_port_witness :
  get_node_port (build_bootstrap_services (λ a, if bool_decide (protocol a = SSL_PROTOCOL) then 31003 else 31002)
    (mkManager "kafka-0" "ns") (mkPod "uid" [] None)) (mkAuthMap SSL_PROTOCOL SSL_MECHANISM) = Ok 31002.
Proof. rewrite bootstrap_node_port; reflexivity. Defined.

Lemma contains_app_l sub a b : contains sub a = true → contains sub (a ++ b) = true.
Proof.
  rewrite !contains_iff. intros (x & y & ->). exists x, (y ++ b). by rewrite !append_assoc.
Qed.
Lemma contains_app_r sub a b : contains sub b = true → contains sub (a ++ b) = true.
Proof.
  rewrite !contains_iff. intros (x & y & ->). exists (a ++ x), y. by rewrite !append_assoc.
Qed.

(** Each authentication map has a listener service of its own, and the
    node port found through it is the one assigned to it. *)
Theorem listener_node_port node_port_of k pod a b svc :
  build_listener_service node_port_of k pod a = Ok svc →
  get_listener_nodeport (λ name, Ok (if bool_decide (name = svc_name svc) then Some svc else None)) k a
    = Ok (node_port_of a) ∧
  (build_listener_service_name k a = build_listener_service_name k b → a = b).
Proof.
  unfold build_listener_service. rewrite result_bind_ok. intros (ports & _ & [= <-]). split.
  - unfold get_listener_nodeport. cbn [mbind result_bind svc_name].
    rewrite bool_decide_eq_true_2 by done. unfold get_node_port. cbn [svc_ports find_port sp_name sp_node_port].
    unfold build_listener_service_name. rewrite !append_assoc.
    rewrite !(contains_app_r _ (pod_name k)); [done|..]; by destruct a as [[] []].
  - unfold build_listener_service_name. intros He%append_inj_l.
    by destruct a as [[] []], b as [[] []].
Qed.

Lemma listener_node_port_witness :
  match build_listener_service (λ _, 31005) (mkManager "kafka-0" "ns") (mkPod "uid" [] None)
          (mkAuthMap SSL_PROTOCOL SSL_MECHANISM) with
  | Ok svc => get_listener_nodeport (λ name, Ok (if bool_decide (name = svc_name svc) then Some svc else None))
      (mkManager "kafka-0" "ns") (mkAuthMap SSL_PROTOCOL SSL_MECHANISM) = Ok 31005
  | Err _ => False
  end.
Proof.
  destruct (build_listener_service _ _ _ _) as [svc|] eqn:E; [|done].
  exact (proj1 (listener_node_port (λ _, 31005) _ _ _ (mkAuthMap SSL_PROTOCOL SSL_MECHANISM) svc E)).
Defined.

(** The application name recovered from a pod's name. *)
Lemma app_name_of_pod app id ns :
  lacks "-" id = true → app_name (mkManager (app ++ "-" ++ id) ns) = app.
Proof.
  intros Hid. unfold app_name. cbn [pod_name].
  assert (Hs : split_char "-" (app ++ "-" ++ id) = (split_char "-" app ++ [id])%list).
  { rewrite <- (join_split_char "-" app) at 1.
    change ("-" ++ id) with (String "-" "" ++ id).
    rewrite <- str_join_snoc by apply split_char_ne. rewrite split_join_char; [done|by destruct (split_char "-" app)|].
    apply Forall_app_2; [apply split_char_parts|by repeat constructor]. }
  rewrite Hs, removelast_last. apply join_split_char.
Qed.

End K8sManager.
