(* ===== verification/Cluster.v ===== *)
(** * The state of the cluster (core/cluster.py)

    [ClusterState]: the roles of the application, its peer relation with the
    data of the application and of each unit, the relations to clients and to
    the other application of a peer cluster, and what the charm derives from
    them: addresses, super users, authentication maps, capacities, trust, and
    the statuses that gate the start of the services. *)

From S2P Require Import Prelude PyStr PyDict Json Literals Models.

Local Open Scope string_scope.
Local Open Scope Z_scope.

(** A relation of the client interface: its id, the remote application, that
    application's raw data, its data as the library reads it, and the requests
    parsed from it for either version of the interface. *)
Record client_relation := mkClientRelation {
  cr_id : Z; cr_app : option string;
  cr_app_data : gmap string string; cr_data : gmap string string;
  cr_request_v0 : KafkaClient.request; cr_requests_v1 : list KafkaClient.request }.

(** The peer relation: the data of the application, of this unit, and of the
    other units by name. *)
Record peer_data (D : Type) := mkPeerData {
  app_data : D; own_data : D; other_units : list (string * D) }.
Arguments mkPeerData {_} _ _ _.
Arguments app_data {_} _.
Arguments own_data {_} _.
Arguments other_units {_} _.

(** A relation between the applications of a peer cluster: the remote
    application, the names of its units, and the data shared by both sides as
    the charm reads and writes it. *)
Record app_relation (D : Type) := mkAppRelation {
  ar_remote : PeerCluster.remote_app; ar_units : list string; ar_data : D }.
Arguments mkAppRelation {_} _ _ _.
Arguments ar_remote {_} _.
Arguments ar_units {_} _.
Arguments ar_data {_} _.

(** What the Kubernetes API tells: the address of the node of a pod, and the
    node ports of the bootstrap service and of a listener service of the unit.
    Each may raise. *)
Record k8s_view := mkK8sView {
  node_ip : string → result string;
  bootstrap_nodeport : AuthMap → result Z;
  listener_nodeport : AuthMap → result Z }.

Record cluster_state (D : Type) := mkState {
  roles : string;
  network_bandwidth : Z;
  expose_external : option string;
  st_unit_name : string;
  is_leader : bool;
  peer_relation : option (peer_data D);
  client_relations : list client_relation;
  peer_cluster_relation : option (app_relation D);
  peer_cluster_orchestrator_relation : option (app_relation D);
  oauth_relation : option (option (gmap string string));
  certificate_transfer_relations : list Z;
  tls_relation_active : option bool;
  internal_tls_relation : bool;
  storage_locations : list string;
  planned_units : Z;
  k8s : k8s_view }.
Arguments mkState {_}.
Arguments roles {_} _.
Arguments network_bandwidth {_} _.
Arguments expose_external {_} _.
Arguments st_unit_name {_} _.
Arguments is_leader {_} _.
Arguments peer_relation {_} _.
Arguments client_relations {_} _.
Arguments peer_cluster_relation {_} _.
Arguments peer_cluster_orchestrator_relation {_} _.
Arguments oauth_relation {_} _.
Arguments certificate_transfer_relations {_} _.
Arguments tls_relation_active {_} _.
Arguments internal_tls_relation {_} _.
Arguments storage_locations {_} _.
Arguments planned_units {_} _.
Arguments k8s {_} _.

Module ClusterState.
Section cluster_state.
Context {D : Type} `{RelationData D}.
Implicit Types s : cluster_state D.

(** ** Roles *)

Definition runs_balancer s : bool := contains (role_value BALANCER_ROLE) (roles s).
Definition runs_broker s : bool := contains (role_value BROKER_ROLE) (roles s).
Definition runs_controller s : bool := contains (role_value CONTROLLER_ROLE) (roles s).
Definition runs_broker_only s : bool := runs_broker s && negb (runs_controller s).
Definition runs_controller_only s : bool := runs_controller s && negb (runs_broker s).

(** ** Core components *)

(** The data of the application on the peer relation ([cluster]). *)
Definition cluster s : option D := app_data <$> peer_relation s.

Definition unit_broker s : KafkaBroker.broker D :=
  KafkaBroker.mkBroker (st_unit_name s) SUBSTRATE (own_data <$> peer_relation s).

Definition kraft_unit_id s : result Z :=
  i ← KafkaBroker.unit_id (unit_broker s);
  if runs_broker s && runs_controller s then Ok (KRAFT_NODE_ID_OFFSET + i) else Ok i.

Definition peer_units_data_interfaces s : list (string * D) :=
  match peer_relation s with None => [] | Some p => other_units p end.

Definition brokers s : list (KafkaBroker.broker D) :=
  (((λ '(name, d), KafkaBroker.mkBroker name SUBSTRATE (Some d)) <$> peer_units_data_interfaces s)
  ++ [unit_broker s])%list.

Definition tls_enabled s : bool := KafkaCluster.tls_enabled (tls_relation_active s).

(** ** General values *)

Definition default_auth s : AuthMap :=
  mkAuthMap
    (if tls_enabled s && truthy (TLSState.certificate CLIENT_SCOPE (KafkaBroker.data (unit_broker s)))
     then SASL_SSL else SASL_PLAINTEXT) SCRAM_SHA_512.

Definition internal_auth s : AuthMap := mkAuthMap SASL_SSL SCRAM_SHA_512.

(** [",".join(sorted({...}))] over the brokers. *)
Definition bootstrap_servers_external s : result string :=
  servers ← traverse (λ b,
    ip ← node_ip (k8s s) (KafkaBroker.pod_name b);
    port ← bootstrap_nodeport (k8s s) (default_auth s);
    Ok (ip ++ ":" ++ str_of_Z port)) (brokers s);
  Ok (str_join "," (sorted_set (list_to_set servers))).

Definition bootstrap_server_client (relation_id : option Z) s : result string :=
  match peer_relation s with
  | None => Ok ""
  | Some _ =>
      match expose_external s with
      | Some _ =>
          match bootstrap_servers_external s with
          | Err (ApiError _ _) => Ok ""
          | r => r
          end
      | None =>
          servers ← traverse (λ b,
            addr ← KafkaBroker.relation_ip_address relation_id b;
            ports ← ports_of (default_auth s);
            Ok (addr ++ ":" ++ str_of_Z (client ports))) (brokers s);
          Ok (str_join "," (sorted_str servers))
      end
  end.

Definition bootstrap_server_internal s : result string :=
  match peer_relation s with
  | None => Ok ""
  | Some _ =>
      servers ← traverse (λ b,
        addr ← KafkaBroker.internal_address b;
        ports ← ports_of (internal_auth s);
        Ok (addr ++ ":" ++ str_of_Z (internal ports))) (brokers s);
      Ok (str_join "," (sorted_str servers))
  end.

Definition bootstrap_controller s : result string :=
  if runs_controller s then
    addr ← KafkaBroker.internal_address (unit_broker s);
    ports ← ports_of (internal_auth s);
    Ok (addr ++ ":" ++ str_of_Z (controller ports))
  else Ok "".

Definition log_dirs s : string :=
  str_join "," ((λ location, location ++ "/log") <$> storage_locations s).

(** [f"{self.log_dirs.split(',')[0].rstrip('/log')}/metadata"] *)
Definition metadata_log_dir s : string :=
  rstrip_of "/log" (default "" (head (split_char "," (log_dirs s)))) ++ "/metadata".

Definition racks s : Z :=
  Z.of_nat (size (list_to_set (filter (λ r, truthy r = true) (KafkaBroker.rack <$> brokers s)) : gset string)).

(** [sorted(snapshot, reverse=True)] *)
Definition sorted_desc (ids : list Z) : list Z := merge_sort Z.ge ids.

Definition broker_capacities s : result json :=
  snapshot ← KafkaCluster.broker_capacities_snapshot (cluster s);
  Ok (JObj [("brokerCapacities", JList
    ((λ broker_id, JObj [("brokerId", JStr (str_of_Z broker_id));
                         ("capacity", dict_get_or broker_id JNull snapshot);
                         ("doc", JStr "")]) <$> sorted_desc (dict_keys snapshot)))]).

(** ** Clients *)

Definition clients_of (r : client_relation) s : result (list KafkaClient.kafka_client) :=
  match cr_app r with
  | None => Ok []
  | Some app =>
      let version := default "v0" (cr_data r !! "version") in
      let requests := if (version =? "v0")%string then [cr_request_v0 r] else cr_requests_v1 r in
      traverse (λ request,
        let username := KafkaClient.generate_username (cr_id r) (KafkaClient.request_id request) in
        server ← bootstrap_server_client (Some (cr_id r)) s;
        Ok (KafkaClient.mkClient (Some (cr_id r)) app request server
              (dict_get_or username "" (KafkaCluster.client_passwords (cluster s)))
              (if tls_enabled s then "enabled" else "disabled") (cr_data r))) requests
  end.

Definition clients s : result (list KafkaClient.kafka_client) :=
  cs ← traverse (λ r, clients_of r s) (client_relations s); Ok (concat cs).

Definition has_mtls_clients s : result bool :=
  cs ← clients s;
  if any_true ((λ c, truthy (KafkaClient.mtls_cert c)) <$> cs) then Ok true
  else if negb (length (certificate_transfer_relations s) =? 0)%nat then Ok true
  else Ok false.

(** ** Peer clusters *)

(** The balancer and controller values this application knows itself. *)
Definition with_balancer s (p : PeerCluster.peer_cluster) : PeerCluster.peer_cluster :=
  let 'PeerCluster.mkPeerCluster r bu bp bs uuid bc bui bri racks caps _ _ _ cp := p in
  PeerCluster.mkPeerCluster r bu bp bs uuid bc bui bri racks caps
    (KafkaCluster.balancer_username (cluster s)) (KafkaCluster.balancer_password (cluster s))
    (KafkaCluster.balancer_uris (cluster s)) cp.
Definition with_controller s (p : PeerCluster.peer_cluster) : PeerCluster.peer_cluster :=
  let 'PeerCluster.mkPeerCluster r bu bp bs uuid _ _ _ racks caps lu lp ls _ := p in
  PeerCluster.mkPeerCluster r bu bp bs uuid
    (KafkaCluster.bootstrap_controller (cluster s)) (KafkaCluster.bootstrap_unit_id (cluster s))
    (KafkaCluster.bootstrap_replica_id (cluster s)) racks caps lu lp ls
    (KafkaCluster.controller_password (cluster s)).

Definition peer_cluster_orchestrator s : PeerCluster.peer_cluster :=
  let p := PeerCluster.of_relation (ar_remote <$> peer_cluster_relation s) in
  let p := if runs_balancer s then with_balancer s p else p in
  if runs_controller s then with_controller s p else p.

Definition peer_cluster s : result PeerCluster.peer_cluster :=
  if runs_broker s then
    uris ← bootstrap_server_internal s;
    capacities ← broker_capacities s;
    let p := PeerCluster.mkPeerCluster (ar_remote <$> peer_cluster_orchestrator_relation s)
      ADMIN_USER (dict_get_or ADMIN_USER "" (KafkaCluster.internal_user_credentials (cluster s)))
      uris (KafkaCluster.cluster_uuid (cluster s)) "" "" "" (racks s) capacities "" "" "" "" in
    Ok (if runs_controller s || runs_balancer s then with_controller s (with_balancer s p) else p)
  else Ok (peer_cluster_orchestrator s).

Definition balancer_exists s : result bool :=
  p ← peer_cluster s;
  Ok (any_true [runs_balancer s; contains (role_value BALANCER_ROLE) (PeerCluster.roles p)]).

Definition enabled_auth s : result (list AuthMap) :=
  let for_clients :=
    if negb (length (client_relations s) =? 0)%nat || runs_balancer s ||
       contains (role_value BALANCER_ROLE) (PeerCluster.roles (peer_cluster_orchestrator s))
    then [default_auth s] else [] in
  let for_oauth :=
    match oauth_relation s with
    | Some _ => [mkAuthMap (protocol (default_auth s)) OAUTHBEARER]
    | None => []
    end in
  mtls ← has_mtls_clients s;
  Ok (for_clients ++ for_oauth ++
      if (mtls : bool) then [mkAuthMap SSL_PROTOCOL SSL_MECHANISM] else [])%list.

(** The users with admin rights among the client relations. *)
Definition client_super_users s : list string :=
  omap (M := list) (λ r,
    match cr_app r with
    | None => None
    | Some _ =>
        let extra_user_roles := default "" (cr_app_data r !! "extra-user-roles") in
        let name := "relation-" ++ str_of_Z (cr_id r) in
        if contains "admin" extra_user_roles && bool_decide (is_Some (data_get name (cluster s)))
        then Some name else None
    end) (client_relations s).

(** The shared data of the relation behind [peer_cluster]. *)
Definition peer_cluster_data s : option D :=
  ar_data <$> (if runs_broker s then peer_cluster_orchestrator_relation s else peer_cluster_relation s).

Definition super_users s : result string :=
  if runs_controller_only s then
    p ← peer_cluster s;
    Ok (PeerCluster.super_users (data_get "super-users" (peer_cluster_data s)) p)
  else
    let users : gset string := 
      list_to_set (INTERNAL_USERS ++ [CONTROLLER_USER] ++ client_super_users s)%list in
    Ok (str_join ";" (sorted_str ((λ user, "User:" ++ user) <$> elements users))).

Definition active_brokers_on_relation s : result (gset Z) :=
  if runs_broker s then
    ids ← traverse KafkaBroker.broker_id (brokers s); Ok (list_to_set ids)
  else
    match peer_cluster_relation s with
    | None => Ok ∅
    | Some r =>
        ids ← traverse (λ name,
          part ← KafkaBroker.name_part 1 name; i ← py_int part; Ok (KRAFT_NODE_ID_OFFSET + i)) (ar_units r);
        Ok (list_to_set ids)
    end.

(** ** Trust between the applications *)

(** The data [kraft_cluster] reads and writes. *)
Definition kraft_cluster_data s : option D :=
  if runs_broker s && runs_controller s then cluster s else peer_cluster_data s.

(** [self.kraft_cluster.update(items)] *)
Definition set_peer_data (f : D → D) s : cluster_state D :=
  mkState (roles s) (network_bandwidth s) (expose_external s) (st_unit_name s) (is_leader s)
    ((λ p, mkPeerData (f (app_data p)) (own_data p) (other_units p)) <$> peer_relation s)
    (client_relations s) (peer_cluster_relation s) (peer_cluster_orchestrator_relation s)
    (oauth_relation s) (certificate_transfer_relations s) (tls_relation_active s)
    (internal_tls_relation s) (storage_locations s) (planned_units s) (k8s s).
Definition set_unit_data (f : D → D) s : cluster_state D :=
  mkState (roles s) (network_bandwidth s) (expose_external s) (st_unit_name s) (is_leader s)
    ((λ p, mkPeerData (app_data p) (f (own_data p)) (other_units p)) <$> peer_relation s)
    (client_relations s) (peer_cluster_relation s) (peer_cluster_orchestrator_relation s)
    (oauth_relation s) (certificate_transfer_relations s) (tls_relation_active s)
    (internal_tls_relation s) (storage_locations s) (planned_units s) (k8s s).
Definition set_peer_cluster_data (o : option D) s : cluster_state D :=
  let put r := match r, o with
    | Some r, Some d => Some (mkAppRelation (ar_remote r) (ar_units r) d) | _, _ => r end in
  mkState (roles s) (network_bandwidth s) (expose_external s) (st_unit_name s) (is_leader s)
    (peer_relation s) (client_relations s)
    (if runs_broker s then peer_cluster_relation s else put (peer_cluster_relation s))
    (if runs_broker s then put (peer_cluster_orchestrator_relation s)
     else peer_cluster_orchestrator_relation s)
    (oauth_relation s) (certificate_transfer_relations s) (tls_relation_active s)
    (internal_tls_relation s) (storage_locations s) (planned_units s) (k8s s).

(** [self.cluster.update(items)] *)
Definition cluster_update (items : list (string * string)) s : cluster_state D :=
  set_peer_data (λ d, foldl KafkaCluster.update_one d items) s.

Definition kraft_cluster_update (items : list (string * string)) s : result (cluster_state D) :=
  if runs_broker s && runs_controller s then Ok (cluster_update items s)
  else o ← RelationState.update items (peer_cluster_data s); Ok (set_peer_cluster_data o s).

(** [if self.peer_cluster_orchestrator: self.peer_cluster_orchestrator.update(items)] *)
Definition orchestrator_update (items : list (string * string)) s : result (cluster_state D) :=
  match peer_cluster_relation s with
  | None => Ok s
  | Some r =>
      o ← RelationState.update items (Some (ar_data r));
      Ok (mkState (roles s) (network_bandwidth s) (expose_external s) (st_unit_name s) (is_leader s)
            (peer_relation s) (client_relations s)
            (Some (mkAppRelation (ar_remote r) (ar_units r) (default (ar_data r) o)))
            (peer_cluster_orchestrator_relation s) (oauth_relation s)
            (certificate_transfer_relations s) (tls_relation_active s) (internal_tls_relation s)
            (storage_locations s) (planned_units s) (k8s s))
  end.

Definition use_internal_tls s : bool := negb (internal_tls_relation s).

Definition internal_ca_key s : option string :=
  let ca_key := data_get_or "internal-ca-key" "" (cluster s) in
  if truthy ca_key then Some ca_key else None.
Definition internal_ca s : option string :=
  let ca := data_get_or "internal-ca" "" (cluster s) in
  match internal_ca_key s with
  | Some _ => if truthy ca then Some ca else None
  | None => None
  end.
Definition set_internal_ca (value : string) s := cluster_update [("internal-ca", value)] s.
Definition set_internal_ca_key (value : string) s := cluster_update [("internal-ca-key", value)] s.

Definition peer_cluster_ca s : result (list string) :=
  if runs_broker_only s then
    v ← loads (data_get_or "controller-ca" "null" (kraft_cluster_data s)); json_str_list v
  else if runs_controller_only s then
    v ← loads (data_get_or "broker-ca" "null" (kraft_cluster_data s)); json_str_list v
  else TLSState.bundle PEER_SCOPE (KafkaBroker.data (unit_broker s)).

Definition set_peer_cluster_ca (value : list string) s : result (cluster_state D) :=
  if runs_broker_only s then kraft_cluster_update [("broker-ca", dumps_list value)] s
  else if runs_controller_only s then kraft_cluster_update [("controller-ca", dumps_list value)] s
  else Ok s.

(** The intersection over the units of the certificates they trust. *)
Definition trusted_by_our_app s : result (gset string) :=
  own ← TLSState.trusted_certificates PEER_SCOPE (KafkaBroker.data (unit_broker s));
  all ← traverse (λ b, TLSState.trusted_certificates PEER_SCOPE (KafkaBroker.data b)) (brokers s);
  Ok (foldl (λ acc t, acc ∩ t) own all).

(** [relation.data[relation.app].get(k)] for the relation of [kraft_cluster];
    [None] when there is no relation. *)
Definition kraft_app_field (k : string) s : option (option string) :=
  if runs_broker s && runs_controller s then (λ d, rd_get k d) <$> cluster s
  else (λ r, PeerCluster.relation_field (ar_remote r) k) <$>
    (if runs_broker s then peer_cluster_orchestrator_relation s else peer_cluster_relation s).

Definition trusted_by_peer_cluster_app s : result (gset string) :=
  match kraft_app_field "trust" s with
  | None => Ok ∅
  | Some o => v ← loads (default "null" o); l ← json_str_list v; Ok (list_to_set l)
  end.

Definition refresh_peer_cluster_trust_state s : result (cluster_state D) :=
  t ← trusted_by_our_app s; kraft_cluster_update [("trust", dumps_list (sorted_set t))] s.

(** ** Rotation flags *)

Definition tls_rotate s : bool :=
  any_true [TLSState.rotate CLIENT_SCOPE (KafkaBroker.data (unit_broker s));
            TLSState.rotate PEER_SCOPE (KafkaBroker.data (unit_broker s))].
Definition set_tls_rotate (value : bool) s : result (cluster_state D) :=
  o ← TLSState.set_rotate CLIENT_SCOPE value (KafkaBroker.data (unit_broker s));
  o ← TLSState.set_rotate PEER_SCOPE value o;
  Ok (match o with Some d => set_unit_data (λ _, d) s | None => s end).

Definition balancer_tls_rotate s : bool := truthy (data_get_or "balancer-rotation" "" (cluster s)).
Definition set_balancer_tls_rotate (value : bool) s : cluster_state D :=
  cluster_update [("balancer-rotation", if negb value then "" else "true")] s.

Definition peer_cluster_tls_rotate s : bool :=
  match kraft_app_field "peer-cluster-rotate" s with
  | None => false
  | Some o => bool_decide (o = Some "true")
  end.
Definition set_peer_cluster_tls_rotate (value : bool) s : result (cluster_state D) :=
  if negb (is_leader s) then Ok s
  else
    let value := if value then "true" else "" in
    s ← kraft_cluster_update [("peer-cluster-rotate", value)] s;
    Ok (cluster_update [("peer-cluster-rotate", value)] s).

Definition both_sides_rotating s : bool :=
  if runs_broker s && runs_controller s then false
  else match kraft_app_field "peer-cluster-rotate" s with
       | None => false
       | Some o =>
           bool_decide (o = Some "true") &&
           any_true ((λ b, TLSState.rotate PEER_SCOPE (KafkaBroker.data b)) <$> brokers s)
       end.

(** ** Statuses *)

Definition broker_status s : result Status :=
  if negb (runs_broker s) then Ok ACTIVE
  else
    p ← peer_cluster s;
    if negb (truthy (PeerCluster.bootstrap_controller p)) then Ok NO_BOOTSTRAP_CONTROLLER
    else if negb (truthy (PeerCluster.controller_password p)) then Ok MISSING_CONTROLLER_PASSWORD
    else if negb (truthy (KafkaCluster.cluster_uuid (cluster s))) then Ok NO_CLUSTER_UUID
    else
      ca ← (if runs_broker_only s then peer_cluster_ca s else Ok []);
      if runs_broker_only s && (length ca =? 0)%nat then Ok NO_PEER_CLUSTER_CA
      else if tls_enabled s &&
              negb (truthy (TLSState.certificate CLIENT_SCOPE (KafkaBroker.data (unit_broker s))))
      then Ok NO_CERT
      else if (length (KafkaCluster.internal_user_credentials (cluster s)) =? 0)%nat
      then Ok NO_BROKER_CREDS
      else Ok ACTIVE.

Definition controller_status s : result Status :=
  if negb (runs_controller s) then Ok ACTIVE
  else if negb (bool_decide (is_Some (peer_cluster_relation s))) && negb (runs_broker s)
  then Ok NO_PEER_CLUSTER_RELATION
  else
    p ← peer_cluster s;
    if negb (truthy (PeerCluster.controller_password p)) then Ok MISSING_CONTROLLER_PASSWORD
    else
      ca ← (if runs_controller_only s then peer_cluster_ca s else Ok []);
      if runs_controller_only s && (length ca =? 0)%nat then Ok NO_PEER_CLUSTER_CA
      else if negb (PeerCluster.broker_connected_kraft_mode p) then Ok NO_BROKER_DATA
      else Ok ACTIVE.

Definition ready_to_start s : result Status :=
  if negb (bool_decide (is_Some (peer_relation s))) then Ok NO_PEER_RELATION
  else if runs_broker_only s && negb (bool_decide (is_Some (peer_cluster_orchestrator_relation s)))
  then Ok MISSING_MODE
  else if negb (TLSState.ready PEER_SCOPE (KafkaBroker.data (unit_broker s))) then Ok NO_INTERNAL_TLS
  else
    broker ← broker_status s;
    controller ← controller_status s;
    if negb (bool_decide (broker = ACTIVE)) then Ok broker
    else if negb (bool_decide (controller = ACTIVE)) then Ok controller
    else Ok ACTIVE.

(** [len(capacities.get("brokerCapacities", []))] *)
Definition capacities_length (capacities : json) : result nat :=
  match capacities with
  | JObj d =>
      match dict_get_or "brokerCapacities" (JList []) d with
      | JList l => Ok (length l)
      | JObj d => Ok (length d)
      | JStr t => Ok (String.length t)
      | _ => Err (TypeError "object has no len()")
      end
  | _ => Err (TypeError "object has no attribute 'get'")
  end.

Definition balancer_status s : result Status :=
  if negb (bool_decide (is_Some (peer_relation s))) then Ok NO_PEER_RELATION
  else if negb (runs_balancer s) || negb (is_leader s) then Ok ACTIVE
  else if negb (bool_decide (is_Some (peer_cluster_relation s))) && negb (runs_broker s)
  then Ok NO_PEER_CLUSTER_RELATION
  else if negb (TLSState.ready PEER_SCOPE (KafkaBroker.data (unit_broker s))) then Ok NO_INTERNAL_TLS
  else
    p ← peer_cluster s;
    connected ← PeerCluster.broker_connected p;
    if negb connected then Ok NO_BROKER_DATA
    else
      capacities ← PeerCluster.broker_capacities p;
      n ← capacities_length capacities;
      if (n <? MIN_REPLICAS)%nat then Ok NOT_ENOUGH_BROKERS else Ok ACTIVE.
End cluster_state.
End ClusterState.
