(* ===== verification/ClusterFacts.v ===== *)
(** * Properties of the cluster state

    When the services may start, who the super users are, which
    authentication maps the listeners get, and what the applications of a
    peer cluster trust. *)

From S2P Require Import Prelude PyStr PyDict Json Literals Models Cluster.

Local Open Scope string_scope.
Local Open Scope Z_scope.

(** ** Starting the services *)

Section start.
Context {D : Type} `{RelationData D}.
Implicit Types s : cluster_state D.

(** Every internal user has a password. *)
Definition internal_users_ready (o : option D) : Prop :=
  ∀ user, user ∈ INTERNAL_USERS → truthy_opt (data_get (user ++ "-password") o) = true.

(** What a unit with the broker role needs to start. *)
Inductive broker_ready s : Prop :=
| BrokerReady p :
    ClusterState.peer_cluster s = Ok p →
    PeerCluster.bootstrap_controller p ≠ "" →
    PeerCluster.controller_password p ≠ "" →
    KafkaCluster.cluster_uuid (ClusterState.cluster s) ≠ "" →
    (ClusterState.runs_broker_only s = true →
      ∃ ca, ClusterState.peer_cluster_ca s = Ok ca ∧ ca ≠ []) →
    (ClusterState.tls_enabled s = true →
      TLSState.certificate CLIENT_SCOPE (KafkaBroker.data (ClusterState.unit_broker s)) ≠ "") →
    internal_users_ready (ClusterState.cluster s) →
    broker_ready s.

(** What a unit with the controller role needs to start. *)
Inductive controller_ready s : Prop :=
| ControllerReady p :
    is_Some (peer_cluster_relation s) ∨ ClusterState.runs_broker s = true →
    ClusterState.peer_cluster s = Ok p →
    PeerCluster.controller_password p ≠ "" →
    (ClusterState.runs_controller_only s = true →
      ∃ ca, ClusterState.peer_cluster_ca s = Ok ca ∧ ca ≠ []) →
    PeerCluster.broker_username p ≠ "" →
    PeerCluster.broker_password p ≠ "" →
    PeerCluster.cluster_uuid p ≠ "" →
    controller_ready s.

Lemma internal_credentials_nonempty (o : option D) :
  length (KafkaCluster.internal_user_credentials o) ≠ 0%nat ↔ internal_users_ready o.
Proof.
  unfold internal_users_ready, INTERNAL_USERS, KafkaCluster.internal_user_credentials.
  cbn [omap list_omap length INTERNAL_USERS].
  assert (Hall : ∀ P : string → Prop, (∀ u, u ∈ [INTER_BROKER_USER; ADMIN_USER] → P u) ↔ P INTER_BROKER_USER ∧ P ADMIN_USER).
  { intros P. setoid_rewrite elem_of_cons. setoid_rewrite list_elem_of_singleton. naive_solver. }
  rewrite Hall.
  destruct (data_get (INTER_BROKER_USER ++ "-password") o) as [p|],
    (data_get (ADMIN_USER ++ "-password") o) as [q|]; cbn [truthy_opt];
    try destruct (truthy p); try destruct (truthy q); cbn; (split; [try done|try lia]); naive_solver.
Qed.

Lemma list_length_zero {A} (l : list A) : (length l =? 0)%nat = true ↔ l = [].
Proof. destruct l; cbn; done. Qed.

Lemma ca_gate (b : bool) (r : result (list string)) :
  (∃ ca, (if b then r else Ok []) = Ok ca ∧ b && (length ca =? 0)%nat = false) ↔
  (b = true → ∃ ca, r = Ok ca ∧ ca ≠ []).
Proof.
  destruct b; cbn [andb].
  - split.
    + intros (ca & -> & Hn) _. exists ca. split; [done|]. by intros ->.
    + intros Hr. destruct (Hr eq_refl) as (ca & -> & Hn). exists ca. split; [done|]. by destruct ca.
  - split; [done|]. eauto.
Qed.

(** The status behind one failed test and the rest of the chain. *)
Lemma gate_active (b : bool) st (r : result Status) :
  st ≠ ACTIVE → ((if b then Ok st else r) = Ok ACTIVE ↔ b = false ∧ r = Ok ACTIVE).
Proof. intros Hst. destruct b; split; try done; [by intros [= ->]|by intros [? ?]|by intros [_ ?]]. Qed.

Lemma broker_status_active s :
  ClusterState.broker_status s = Ok ACTIVE ↔
  (ClusterState.runs_broker s = true → broker_ready s).
Proof.
  unfold ClusterState.broker_status. destruct (ClusterState.runs_broker s); cbn [negb]; [|done].
  rewrite result_bind_ok. split.
  - intros (p & Hp & Hr) _. apply gate_active in Hr as [H1 Hr]; [|done].
    apply gate_active in Hr as [H2 Hr]; [|done]. apply gate_active in Hr as [H3 Hr]; [|done].
    apply result_bind_ok in Hr as (ca & Hca & Hr).
    apply gate_active in Hr as [H4 Hr]; [|done]. apply gate_active in Hr as [H5 Hr]; [|done].
    apply gate_active in Hr as [H6 _]; [|done].
    apply negb_false_iff, truthy_true in H1, H2, H3.
    apply (BrokerReady s p); try done.
    + apply ca_gate. eauto.
    + intros Ht. rewrite Ht in H5. by apply negb_false_iff, truthy_true in H5.
    + apply internal_credentials_nonempty. by apply Nat.eqb_neq.
  - intros Hr. destruct (Hr eq_refl) as [p Hp H1 H2 H3 H4 H5 H6]. exists p. split; [done|].
    apply truthy_true in H1, H2, H3. rewrite H1, H2, H3. cbn [negb].
    apply ca_gate in H4 as (ca & -> & Hca). cbn [mbind result_bind]. rewrite Hca.
    apply internal_credentials_nonempty, Nat.eqb_neq in H6. rewrite H6.
    destruct (ClusterState.tls_enabled s); [|done].
    by rewrite (proj2 (truthy_true _) (H5 eq_refl)).
Qed.

Lemma controller_status_active s :
  ClusterState.controller_status s = Ok ACTIVE ↔
  (ClusterState.runs_controller s = true → controller_ready s).
Proof.
  unfold ClusterState.controller_status. destruct (ClusterState.runs_controller s); cbn [negb]; [|done].
  rewrite gate_active by done. rewrite result_bind_ok. split.
  - intros (H0 & p & Hp & Hr) _. apply gate_active in Hr as [H1 Hr]; [|done].
    apply result_bind_ok in Hr as (ca & Hca & Hr). apply gate_active in Hr as [H2 Hr]; [|done].
    apply gate_active in Hr as [H3 _]; [|done].
    apply negb_false_iff in H1, H3. apply truthy_true in H1.
    unfold PeerCluster.broker_connected_kraft_mode in H3. apply all_true_iff in H3.
    rewrite !Forall_cons, !truthy_true in H3. destruct H3 as (H3 & H4 & H5 & _).
    apply (ControllerReady s p); try done.
    + apply andb_false_iff in H0 as [H0|H0]; apply negb_false_iff in H0; [left|by right].
      by apply bool_decide_eq_true in H0.
    + apply ca_gate. eauto.
  - intros Hr. destruct (Hr eq_refl) as [p H0 Hp H1 H2 H3 H4 H5]. split.
    + apply andb_false_iff. destruct H0 as [H0|H0]; [left|right; by rewrite H0].
      by rewrite bool_decide_eq_true_2.
    + exists p. split; [done|]. rewrite (proj2 (truthy_true _) H1). cbn [negb].
      apply ca_gate in H2 as (ca & -> & Hca). cbn [mbind result_bind]. rewrite Hca.
      apply truthy_true in H3, H4, H5.
      unfold PeerCluster.broker_connected_kraft_mode. by rewrite H3, H4, H5.
Qed.

(** C1: the unit is ready to start exactly when the peer relation exists, a
    broker-only application has its peer-cluster relation, the internal
    certificates are ready, and whatever the roles of the unit need - the
    broker's, the controller's or both - is there. *)
Theorem ready_to_start_active s :
  ClusterState.ready_to_start s = Ok ACTIVE ↔
  is_Some (peer_relation s) ∧
  (ClusterState.runs_broker_only s = true → is_Some (peer_cluster_orchestrator_relation s)) ∧
  TLSState.ready PEER_SCOPE (KafkaBroker.data (ClusterState.unit_broker s)) = true ∧
  (ClusterState.runs_broker s = true → broker_ready s) ∧
  (ClusterState.runs_controller s = true → controller_ready s).
Proof.
  unfold ClusterState.ready_to_start. rewrite !gate_active by done.
  rewrite !negb_false_iff, bool_decide_eq_true, andb_false_iff, negb_false_iff, bool_decide_eq_true.
  rewrite <- broker_status_active, <- controller_status_active.
  assert (Hb : ClusterState.runs_broker_only s = false ∨ is_Some (peer_cluster_orchestrator_relation s) ↔
    (ClusterState.runs_broker_only s = true → is_Some (peer_cluster_orchestrator_relation s)))
    by (destruct (ClusterState.runs_broker_only s); naive_solver).
  rewrite Hb. do 3 apply and_iff_compat_l. split.
  - intros (b & Hb' & (c & Hc & Hr)%result_bind_ok)%result_bind_ok. rewrite Hb', Hc.
    repeat case_bool_decide; cbn in Hr; naive_solver.
  - intros [-> ->]. done.
Qed.

(** ** Super users *)

(** Unless the unit only runs the controller, the super users are the
    internal users, the controller user, and each client relation whose
    application asked for the admin role and has a password; [super.users]
    lists exactly them, separated by semicolons. *)
Theorem super_users_spec s u :
  ClusterState.runs_controller_only s = false →
  lacks ";" u = true →
  ∃ v, ClusterState.super_users s = Ok v ∧
    ("User:" ++ u ∈ split_char ";" v ↔
     u ∈ INTERNAL_USERS ∨ u = CONTROLLER_USER ∨
     ∃ r, r ∈ client_relations s ∧ is_Some (cr_app r) ∧
       u = "relation-" ++ str_of_Z (cr_id r) ∧
       contains "admin" (default "" (cr_app_data r !! "extra-user-roles")) = true ∧
       is_Some (data_get u (ClusterState.cluster s))).
Proof.
  intros Hc Hu. unfold ClusterState.super_users. rewrite Hc. eexists; split; [done|]. cbv zeta.
  set (users := list_to_set _ : gset string).
  assert (Hclient : ∀ w, w ∈ ClusterState.client_super_users s ↔
    ∃ r, r ∈ client_relations s ∧ is_Some (cr_app r) ∧ w = "relation-" ++ str_of_Z (cr_id r) ∧
       contains "admin" (default "" (cr_app_data r !! "extra-user-roles")) = true ∧
       is_Some (data_get w (ClusterState.cluster s))).
  { intros w. unfold ClusterState.client_super_users. rewrite list_elem_of_omap. split.
    - intros (r & Hr & Hw). exists r. split; [done|]. destruct (cr_app r); [|done].
      cbv zeta in Hw. destruct (contains _ _) eqn:Ea; [|done]. case_bool_decide; [|done].
      injection Hw as <-. eauto.
    - intros (r & Hr & [a Ha] & -> & Hadm & Hp). exists r. split; [done|]. rewrite Ha, Hadm.
      by rewrite bool_decide_eq_true_2. }
  assert (Hlack : ∀ w, w ∈ users → lacks ";" w = true).
  { intros w. unfold users. rewrite elem_of_list_to_set, !elem_of_app, Hclient.
    intros [Hw|[Hw|(r & _ & _ & -> & _)]].
    - unfold INTERNAL_USERS in Hw. rewrite !elem_of_cons in Hw.
      destruct Hw as [->|[->|?%not_elem_of_nil]]; done.
    - apply list_elem_of_singleton in Hw as ->. done.
    - rewrite lacks_app. by rewrite str_of_Z_lacks. }
  rewrite split_join_char.
  - rewrite sorted_str_elem, list_elem_of_fmap. split.
    + intros (w & Hw & Hin). apply append_inj_l in Hw as <-. rewrite elem_of_elements in Hin.
      unfold users in Hin. rewrite elem_of_list_to_set, !elem_of_app, Hclient, list_elem_of_singleton in Hin.
      naive_solver.
    + intros Hin. exists u. split; [done|]. rewrite elem_of_elements. unfold users.
      rewrite elem_of_list_to_set, !elem_of_app, Hclient, list_elem_of_singleton. naive_solver.
  - intros Hn. assert (Hin : "User:" ++ CONTROLLER_USER ∈ sorted_str ((λ user, "User:" ++ user) <$> elements users)).
    { rewrite sorted_str_elem. apply list_elem_of_fmap. eexists; split; [done|].
      rewrite elem_of_elements. unfold users. rewrite elem_of_list_to_set, !elem_of_app, list_elem_of_singleton. tauto. }
    rewrite Hn in Hin. by apply not_elem_of_nil in Hin.
  - apply Forall_forall. intros x (w & -> & Hw)%sorted_str_elem%list_elem_of_fmap.
    rewrite lacks_app. apply elem_of_elements, Hlack in Hw. by rewrite Hw.
Qed.

(** ** Authentication maps *)

Lemma default_auth_cases s :
  ClusterState.default_auth s = mkAuthMap SASL_PLAINTEXT SCRAM_SHA_512 ∨
  ClusterState.default_auth s = mkAuthMap SASL_SSL SCRAM_SHA_512.
Proof. unfold ClusterState.default_auth. destruct (_ && _); auto. Qed.

(** The enabled authentication maps are distinct and have ports. *)
Lemma enabled_auth_wf s l :
  ClusterState.enabled_auth s = Ok l → NoDup l ∧ Forall (λ a, known_auth a = true) l.
Proof.
  unfold ClusterState.enabled_auth. cbv zeta.
  generalize (default_auth_cases s). generalize (ClusterState.default_auth s). intros a Ha.
  rewrite result_bind_ok. intros (m & _ & Hl). injection Hl as <-.
  destruct Ha as [->| ->], (oauth_relation s), m, (_ || _); cbn; (split; [|by repeat constructor]);
    repeat constructor; set_solver.
Qed.

(** ** Trust *)

Lemma foldl_inter_elem (x : string) (acc : gset string) l :
  x ∈ foldl (λ acc t, acc ∩ t) acc l ↔ x ∈ acc ∧ Forall (λ t, x ∈ t) l.
Proof.
  revert acc. induction l as [|t l IH]; intros acc; cbn; [naive_solver|].
  rewrite IH, Forall_cons. set_solver.
Qed.

(** The application trusts a certificate exactly when every one of its
    units, this one included, trusts it. *)
Theorem trusted_by_our_app_spec s t x :
  ClusterState.trusted_by_our_app s = Ok t →
  x ∈ t ↔ ∀ b, b ∈ ClusterState.brokers s →
    ∃ tb, TLSState.trusted_certificates PEER_SCOPE (KafkaBroker.data b) = Ok tb ∧ x ∈ tb.
Proof.
  unfold ClusterState.trusted_by_our_app. rewrite result_bind_ok.
  intros (own & Hown & (all & Hall%traverse_ok & [= <-])%result_bind_ok).
  rewrite foldl_inter_elem. split.
  - intros [_ Hx] b Hb. apply list_elem_of_lookup in Hb as [i Hi].
    destruct (Forall2_lookup_l _ _ _ _ _ Hall Hi) as (tb & Htb & Hb). exists tb. split; [done|].
    by apply (Forall_lookup_1 _ _ _ _ Hx Htb).
  - intros Hb. split.
    + destruct (Hb (ClusterState.unit_broker s)) as (tb & Htb & Hx); [unfold ClusterState.brokers; set_solver|].
      congruence.
    + apply Forall_lookup. intros i tb Htb. destruct (Forall2_lookup_r _ _ _ _ _ Hall Htb) as (b & Hbi & Hbt).
      destruct (Hb b) as (tb' & Htb' & Hx); [by eapply list_elem_of_lookup_2|]. congruence.
Qed.
End start.

(** ** A concrete cluster: one application with both roles, two units and a
    client with admin rights. *)

Definition sample_unit : bag :=
  {[ "peer-certificate" := "CERT"; "peer-ca-cert" := "CA"; "peer-private-key" := "KEY";
     "peer-trust" := dumps_list ["f1"; "f2"] ]}.
Definition sample_app : bag :=
  {[ "replication-password" := "p1"; "operator-password" := "p2"; "controller-password" := "p3";
     "cluster-uuid" := "uuid"; "bootstrap-controller" := "kafka-0.kafka-endpoints:9098";
     "relation-9" := "p4" ]}.
Definition sample_state : cluster_state bag :=
  mkState "broker,controller" 50000 None "kafka/0" true
    (Some (mkPeerData sample_app sample_unit
      [("kafka/1", {[ "peer-trust" := dumps_list ["f2"; "f3"] ]})]))
    [mkClientRelation 9 (Some "app") {[ "extra-user-roles" := "admin,producer" ]} ∅
       (KafkaClient.mkRequest None "topic" (Some "admin,producer") None []) []]
    None None None [] None false ["/var/lib/kafka/data/0"; "/var/lib/kafka/data/1"] 2
    (mkK8sView (λ _, Ok "10.0.0.1") (λ _, Ok 31000) (λ _, Ok 31001)).

Example sample_ready : ClusterState.ready_to_start sample_state = Ok ACTIVE.
Proof. vm_compute. reflexivity. Qed.

Example sample_super_users :
  ClusterState.super_users sample_state =
  Ok "User:controller;User:operator;User:relation-9;User:replication".
Proof. vm_compute. reflexivity. Qed.

Lemma super_users_spec_witness :
  ∃ v, ClusterState.super_users sample_state = Ok v ∧ "User:relation-8" ∉ split_char ";" v.
Proof.
  destruct (super_users_spec sample_state "relation-8") as (v & Hv & Hiff); [reflexivity..|].
  exists v. split; [done|]. intros Hin. apply Hiff in Hin as [Hin|[Hin|(r & Hr & _ & Hn & _)]].
  - assert (Hno : bool_decide ("relation-8" ∈ INTERNAL_USERS) = false) by reflexivity.
    by rewrite bool_decide_eq_true_2 in Hno.
  - done.
  - apply list_elem_of_singleton in Hr as ->. done.
Defined.

(** What the second unit trusts. *)
Definition sample_other : KafkaBroker.broker bag :=
  KafkaBroker.mkBroker "kafka/1" SUBSTRATE (Some {[ "peer-trust" := dumps_list ["f2"; "f3"] ]}).

Lemma trusted_by_our_app_spec_witness :
  match ClusterState.trusted_by_our_app sample_state with Ok t => "f1" ∉ t | Err _ => False end.
Proof.
  assert (Hok : is_ok (ClusterState.trusted_by_our_app sample_state) = true) by (vm_compute; reflexivity).
  destruct (ClusterState.trusted_by_our_app sample_state) as [t|] eqn:Ht; [|done].
  rewrite (trusted_by_our_app_spec sample_state t "f1" Ht).
  intros Hall. destruct (Hall sample_other) as (tb & Htb & Hin); [apply list_elem_of_here|].
  assert (Hno : match TLSState.trusted_certificates PEER_SCOPE (KafkaBroker.data sample_other) with
    Ok t => bool_decide ("f1" ∈ t) | Err _ => true end = false) by (vm_compute; reflexivity).
  rewrite Htb in Hno. by apply bool_decide_eq_false in Hno.
Defined.
