(* ===== verification/Workload.v ===== *)
(** * The workload container (core/workload.py, workload.py)

    The paths of a role, the files and services of a container, the layers
    the services are started with, and the commands run in the container. What
    a command prints is an argument of the operations that run one. *)

From S2P Require Import Prelude PyStr PyDict Literals.

Local Open Scope string_scope.
Local Open Scope Z_scope.

(** ** Paths *)

Module CharmedKafkaPaths.

Definition conf_path (r : Role) : string := CONF (role_paths r).
Definition data_path (r : Role) : string := DATA (role_paths r).
Definition binaries_path (r : Role) : string := BIN (role_paths r).
Definition logs_path (r : Role) : string := LOGS (role_paths r).

Definition server_properties (r : Role) : string := conf_path r ++ "/server.properties".
Definition client_properties (r : Role) : string := conf_path r ++ "/client.properties".
Definition kraft_client_properties (r : Role) : string := conf_path r ++ "/kraft-client.properties".
Definition balancer_jaas (r : Role) : string := conf_path r ++ "/cruise_control_jaas.conf".
Definition keystore (r : Role) : string :=
  conf_path r ++ "/" ++ TLSScope_value CLIENT_SCOPE ++ "-keystore.p12".
Definition truststore (r : Role) : string :=
  conf_path r ++ "/" ++ TLSScope_value CLIENT_SCOPE ++ "-truststore.jks".
Definition peer_keystore (r : Role) : string :=
  conf_path r ++ "/" ++ TLSScope_value PEER_SCOPE ++ "-keystore.p12".
Definition peer_truststore (r : Role) : string :=
  conf_path r ++ "/" ++ TLSScope_value PEER_SCOPE ++ "-truststore.jks".
Definition log4j_properties (r : Role) : string := conf_path r ++ "/log4j.properties".
Definition tools_log4j_properties (r : Role) : string := conf_path r ++ "/tools-log4j.properties".
Definition jmx_prometheus_javaagent (r : Role) : string :=
  binaries_path r ++ "/libs/jmx_prometheus_javaagent.jar".
Definition jmx_prometheus_config : string := conf_path BROKER_ROLE ++ "/jmx_prometheus.yaml".
Definition jmx_cc_config : string := conf_path BALANCER_ROLE ++ "/jmx_cruise_control.yaml".
Definition cruise_control_properties (r : Role) : string := conf_path r ++ "/cruisecontrol.properties".
Definition capacity_jbod_json (r : Role) : string := conf_path r ++ "/capacityJBOD.json".
Definition cruise_control_auth (r : Role) : string := conf_path r ++ "/cruisecontrol.credentials".

End CharmedKafkaPaths.
Import CharmedKafkaPaths.

(** ** Services and files *)

(** A service of a Pebble layer. *)
Record Layer := mkLayer {
  layer_service : string; layer_override : string; layer_summary : string;
  layer_command : string; layer_environment : list (string * string) }.

(** The container: whether Pebble answers, its files, the services of its plan
    and those that run. *)
Record container := mkContainer {
  can_connect : bool; files : gmap string string;
  plan : gmap string Layer; running : gset string }.

Module Workload.

Definition container_can_connect (c : container) : bool := can_connect c.
Definition installed (c : container) : bool := container_can_connect c.

(** [(self.root / path).read_text().split("\n")], or no line for no file. *)
Definition read (path : string) (c : container) : list string :=
  match files c !! path with
  | None => []
  | Some text => split_char newline text
  end.

Definition write (content path : string) (c : container) : container :=
  mkContainer (can_connect c) (<[path := content]> (files c)) (plan c) (running c).

Definition start (layer : Layer) (c : container) : container :=
  mkContainer (can_connect c) (files c) (<[layer_service layer := layer]> (plan c))
    ({[layer_service layer]} ∪ running c).
Definition stop (service : string) (c : container) : container :=
  mkContainer (can_connect c) (files c) (plan c) (running c ∖ {[service]}).
Definition restart (layer : Layer) (c : container) : container := start layer c.

Definition active (service : string) (c : container) : bool :=
  if negb (can_connect c) then false
  else if negb (bool_decide (is_Some (plan c !! service))) then false
  else bool_decide (service ∈ running c).

(** A command and its environment, [None] when no option is given. *)
Record command := mkCommand { argv : list string; env : option (list (string * string)) }.

(** One environment string: split at the first equals sign, quotes dropped. *)
Definition parse_opt (opt : string) : result (string * string) :=
  match split_once "=" opt with
  | (k, Some v) => Ok (k, remove_char "'" v)
  | (_, None) => Err (ValueError "not enough values to unpack (expected 2, got 1)")
  end.

(** The command [run_bin_command] executes. *)
Definition bin_command (bin_path bin_keyword : string) (bin_args opts : list string) : result command :=
  parsed ← traverse parse_opt opts;
  let parsed_opts := dict_of_list parsed in
  let command := bin_path ++ "/bin/kafka-" ++ bin_keyword ++ ".sh " ++ str_join " " bin_args in
  Ok (mkCommand (split_ws command) (match parsed_opts with [] => None | _ => Some parsed_opts end)).

Definition run_bin_command (exec : command → result string) (bin_path bin_keyword : string)
    (bin_args opts : list string) : result string :=
  c ← bin_command bin_path bin_keyword bin_args opts; exec c.

End Workload.

(** ** The two workloads *)

Module KafkaWorkload.

Definition service : string := role_service BROKER_ROLE.
Definition JAVA_HOME : string := "/usr/lib/jvm/java-21-openjdk-amd64".

Definition layer : Layer :=
  mkLayer service "merge" "kafka"
    (binaries_path BROKER_ROLE ++ "/bin/kafka-server-start.sh " ++ server_properties BROKER_ROLE)
    [("KAFKA_OPTS", str_join " " ["-javaagent:" ++ jmx_prometheus_javaagent BROKER_ROLE ++ "="
        ++ str_of_Z JMX_EXPORTER_PORT ++ ":" ++ jmx_prometheus_config]);
     ("JAVA_HOME", JAVA_HOME); ("LOG_DIR", logs_path BROKER_ROLE)].

Definition run_bin_command (exec : Workload.command → result string) :=
  Workload.run_bin_command exec (binaries_path BROKER_ROLE).

(** The value text of a metric: the second word of the first line that is not
    a comment and whose first word contains the metric's name in lower case;
    a blank line met before it has no first word. *)
Fixpoint parse_lines (metric : string) (lines : list string) : result (option string) :=
  match lines with
  | [] => Ok None
  | line :: lines =>
      if startswith "#" line then parse_lines metric lines
      else
        let parts := split_ws line in
        match parts with
        | [] => Err (IndexError "list index out of range")
        | name :: rest =>
            if contains (str_lower metric) name then
              match rest with
              | [] => Err (IndexError "list index out of range")
              | v :: _ => Ok (Some (str_strip v))
              end
            else parse_lines metric lines
        end
  end.
Definition parse_metric_value (raw metric : string) : result (option string) :=
  parse_lines metric (split_char newline raw).

(** A decimal text whose value is zero ([float(text) == 0.0]). *)
Definition is_zero_float (text : string) : bool :=
  match split_char "." text with
  | [a] => str_forall (λ c, (c =? "0")%char) a && truthy a
  | [a; b] => str_forall (λ c, (c =? "0")%char) a && str_forall (λ c, (c =? "0")%char) b &&
              (truthy a || truthy b)
  | _ => false
  end.

(** One attempt of [health_check]; [ping] tells whether an address answers and
    [raw] is what the exporter prints. *)
Definition health_attempt (ping : string → bool) (raw : result string)
    (host : string) (runs_broker runs_controller : bool) : result bool :=
  ports ← ports_of (mkAuthMap SASL_SSL SCRAM_SHA_512);
  _ ← guard_or (negb runs_controller || ping (host ++ ":" ++ str_of_Z (controller ports))) AssertionError;
  if negb runs_broker then Ok true
  else
    _ ← guard_or (ping (host ++ ":" ++ str_of_Z (internal ports))) AssertionError;
    raw ← raw;
    count ← parse_metric_value raw "UnderMinIsrPartitionCount";
    Ok (match count with Some v => is_zero_float v | None => false end).

(** The attempts one after the other: the first true result ends them, a false
    one or an exception is retried, and running out gives [False]. *)
Fixpoint health_check (attempts : list (result bool)) : bool :=
  match attempts with
  | [] => false
  | Ok true :: _ => true
  | _ :: attempts => health_check attempts
  end.

End KafkaWorkload.

Module BalancerWorkload.

Definition service : string := role_service BALANCER_ROLE.

Definition layer : Layer :=
  mkLayer service "replace" "balancer"
    (binaries_path BALANCER_ROLE ++ "/bin/kafka-cruise-control-start.sh "
       ++ cruise_control_properties BALANCER_ROLE)
    [("KAFKA_OPTS", str_join " "
        ["-javaagent:" ++ jmx_prometheus_javaagent BROKER_ROLE ++ "=" ++ str_of_Z JMX_CC_PORT ++ ":" ++ jmx_cc_config;
         "-Djava.security.auth.login.config=" ++ balancer_jaas BALANCER_ROLE]);
     ("JAVA_HOME", KafkaWorkload.JAVA_HOME); ("LOG_DIR", logs_path BALANCER_ROLE)].

Definition run_bin_command (exec : Workload.command → result string) :=
  Workload.run_bin_command exec (binaries_path BROKER_ROLE).

End BalancerWorkload.

(** [WorkloadBase.ping]: whether some [host:port] of a comma-separated list is
    open; an entry without a colon is skipped, one with several raises. *)
Fixpoint ping_nodes (connect : string → Z → bool) (nodes : list string) : result bool :=
  match nodes with
  | [] => Ok false
  | host_port :: nodes =>
      if negb (has_char ":" host_port) then ping_nodes connect nodes
      else match split_char ":" host_port with
           | [host; port] =>
               port ← py_int port;
               if connect host port then Ok true else ping_nodes connect nodes
           | _ => Err (ValueError "too many values to unpack (expected 2)")
           end
  end.
Definition ping (connect : string → Z → bool) (bootstrap_nodes : string) : result bool :=
  ping_nodes connect (split_char "," bootstrap_nodes).

(** ** Facts *)

(** Lines without line breaks are read back as they were written. *)
Lemma read_write lines path c :
  lines ≠ [] → Forall (λ l, lacks newline l = true) lines →
  Workload.read path (Workload.write (str_join (String newline "") lines) path c) = lines.
Proof.
  intros Hne Hl. unfold Workload.read, Workload.write. cbn [files].
  rewrite lookup_insert_eq. by apply split_join_char.
Qed.

Lemma read_write_ne content path path' c :
  path' ≠ path → Workload.read path' (Workload.write content path c) = Workload.read path' c.
Proof.
  intros Hp. unfold Workload.read, Workload.write. cbn [files]. by rewrite lookup_insert_ne.
Qed.

Lemma write_twice content path c :
  Workload.write content path (Workload.write content path c) = Workload.write content path c.
Proof. unfold Workload.write. cbn [files can_connect plan running]. by rewrite insert_insert_eq. Qed.

Lemma parse_lines_comments metric lines :
  Forall (λ l, startswith "#" l = true ∨ ∃ name, head (split_ws l) = Some name ∧
    contains (str_lower metric) name = false) lines →
  ∀ rest, KafkaWorkload.parse_lines metric (lines ++ rest)%list = KafkaWorkload.parse_lines metric rest.
Proof.
  induction 1 as [|l lines Hl _ IH]; intros rest; [done|]. cbn [app KafkaWorkload.parse_lines].
  destruct (startswith "#" l) eqn:E; [apply IH|]. destruct Hl as [?|(name & Hn & Hc)]; [done|].
  destruct (split_ws l); [done|]. injection Hn as ->. rewrite Hc. apply IH.
Qed.

(** A metric that no line of the exporter's output names is never reported
    as absent: the output ends with a line break, the empty last line has no
    first word, and the parser raises. *)
Theorem missing_metric_raises metric lines :
  Forall (λ l, lacks newline l = true) lines →
  Forall (λ l, startswith "#" l = true ∨ ∃ name, head (split_ws l) = Some name ∧
    contains (str_lower metric) name = false) lines →
  KafkaWorkload.parse_metric_value (str_join (String newline "") (lines ++ [""])%list) metric
  = Err (IndexError "list index out of range").
Proof.
  intros Hn Hl. unfold KafkaWorkload.parse_metric_value.
  rewrite split_join_char; [|by destruct lines|by apply Forall_app_2; [|repeat constructor]].
  by rewrite parse_lines_comments.
Qed.

Lemma missing_metric_raises_witness :
  is_ok (KafkaWorkload.parse_metric_value
    (str_join (String newline "") ["# HELP x"; "up 1.0"; ""]) "UnderMinIsrPartitionCount") = false.
Proof.
  pose proof (missing_metric_raises "UnderMinIsrPartitionCount" ["# HELP x"; "up 1.0"]) as Hm.
  cbn [app] in Hm. rewrite Hm; [done|by repeat constructor|].
  constructor; [by left|]. constructor; [|constructor]. right. by exists "up".
Defined.

(** A service that was started is active, one that was stopped is not,
    and neither operation changes whether another service is active. *)
Theorem start_stop_active (l : Layer) service c :
  can_connect c = true →
  Workload.active (layer_service l) (Workload.start l c) = true ∧
  Workload.active service (Workload.stop service c) = false ∧
  (service ≠ layer_service l →
    Workload.active service (Workload.start l c) = Workload.active service c ∧
    Workload.active service (Workload.stop (layer_service l) c) = Workload.active service c).
Proof.
  intros Hc. unfold Workload.active, Workload.start, Workload.stop. cbn [can_connect plan running].
  rewrite Hc. cbn [negb]. split_and!.
  - rewrite lookup_insert_eq, !bool_decide_eq_true_2; [done|set_solver|eauto].
  - rewrite (bool_decide_eq_false_2 (service ∈ _)) by set_solver. by destruct (negb _).
  - intros Hs. rewrite lookup_insert_ne by done. split; (case_match; [done|]);
      apply bool_decide_ext; set_solver.
Qed.

Lemma start_stop_active_witness :
  Workload.active "kafka" (Workload.start KafkaWorkload.layer (mkContainer true ∅ ∅ ∅)) = true.
Proof. exact (proj1 (start_stop_active KafkaWorkload.layer "x" (mkContainer true ∅ ∅ ∅) eq_refl)). Defined.
