(* ===== verification/Auth.v ===== *)
(** * Users and ACLs of the cluster (managers/auth.py)

    The commands the manager runs with the Kafka scripts, the parsing of what
    they print, and the reconciliation of a client's ACLs. The scripts and the
    cluster behind them are an interface ([KafkaTools]); [AclScript] states
    what the ACL script is documented to do, and [model_cluster] is a cluster
    that does it. *)

From S2P Require Import Prelude PyStr PyDict Literals Models Workload.

Local Open Scope string_scope.
Local Open Scope Z_scope.

(** ** ACLs and their text *)

Record Acl := mkAcl {
  resource_name : string; resource_type : string; operation : string; username : string }.

#[export] Instance Acl_eq_dec : EqDecision Acl.
Proof. solve_decision. Defined.
#[export] Instance Acl_countable : Countable Acl.
Proof.
  refine (inj_countable' (λ a, (resource_name a, resource_type a, operation a, username a))
    (λ '(n, t, o, u), mkAcl n t o u) _). by intros [].
Defined.

(** The value after [key]: the run of characters that are not commas, when it
    is not empty and a comma follows. *)
Definition field_here (key s : string) : option string :=
  if startswith key s then
    match split_once "," (str_drop (String.length key) s) with
    | (v, Some _) => if truthy v then Some v else None
    | (_, None) => None
    end
  else None.

(** [re.search(r"key([^\,]+),", line)]: the leftmost match. *)
Fixpoint search_field (key line : string) : option string :=
  match field_here key line with
  | Some v => Some v
  | None => match line with "" => None | String _ line => search_field key line end
  end.

Module AuthManager.

(** The variables of the loop: resource type, name and user seen last. *)
Definition parse_state : Type := option string * option string * option string.

Definition keep (found old : option string) : option string :=
  match found with Some v => Some v | None => old end.

Definition parse_line (st : parse_state * gset Acl) (line : string) : parse_state * gset Acl :=
  let '(resource_type, name, user, current_acls) := st in
  let resource_type := keep (search_field "resourceType=" line) resource_type in
  let name := keep (search_field "name=" line) name in
  let user := keep (search_field "principal=User:" line) user in
  match search_field "operation=" line with
  | None => (resource_type, name, user, current_acls)
  | Some operation =>
      match resource_type, name, user with
      | Some t, Some n, Some u =>
          (resource_type, name, user, {[mkAcl n t operation u]} ∪ current_acls)
      | _, _, _ => (resource_type, name, user, current_acls)
      end
  end.
Definition parse_acls (acls : string) : gset Acl :=
  (foldl parse_line (None, None, None, ∅) (splitlines acls)).2.

(** [re.findall(r"user-principal '([^']+)'", raw)] *)
Fixpoint describe_go (fuel : nat) (raw : string) : list string :=
  match fuel, raw with
  | S fuel, String _ rest =>
      if startswith "user-principal '" raw then
        match split_once "'" (str_drop 16 raw) with
        | (v, Some after) => if truthy v then v :: describe_go fuel after else describe_go fuel rest
        | (_, None) => describe_go fuel rest
        end
      else describe_go fuel rest
  | _, _ => []
  end.
Definition parse_describe_users (raw : string) : list string := describe_go (String.length raw) raw.

Definition generate_producer_acls (topic username : string) : gset Acl :=
  list_to_set ((λ op, mkAcl topic "TOPIC" op username) <$> ["CREATE"; "WRITE"; "DESCRIBE"]).

Definition generate_consumer_acls (topic username : string) (group : option string) : gset Acl :=
  let group := opt_or group (username ++ "-") in
  list_to_set ((λ op, mkAcl topic "TOPIC" op username) <$> ["READ"; "DESCRIBE"])
  ∪ {[mkAcl group "GROUP" "READ" username]}.

(** ** Commands *)

(** What the manager is built with: the bootstrap servers and the options. *)
Record auth_manager := mkAuth { bootstrap_server : string; log4j_opts : string }.

Definition common_args (m : auth_manager) : list string :=
  ["--bootstrap-server=" ++ bootstrap_server m;
   "--command-config=" ++ CharmedKafkaPaths.client_properties BROKER_ROLE].

Definition list_acls_args (m : auth_manager) : list string := (common_args m ++ ["--list"])%list.

(** A topic name longer than three characters that ends in an asterisk stands
    for a prefix. *)
Definition is_prefixed (resource_name : string) : bool :=
  (3 <? String.length resource_name)%nat && endswith "*" resource_name.
Definition resource_args (resource_type resource_name : string) : list string :=
  ((if (resource_type =? "TOPIC")%string then
      let '(pattern, name) := if is_prefixed resource_name
        then ("PREFIXED", str_init resource_name) else ("LITERAL", resource_name) in
      ["--topic=" +:+ name; "--resource-pattern-type=" +:+ pattern]
    else []) ++
   (if (resource_type =? "GROUP")%string
    then ["--group=" +:+ resource_name; "--resource-pattern-type=PREFIXED"] else []))%list.

Definition add_acl_args (m : auth_manager) (a : Acl) : list string :=
  (common_args m ++ ["--add"; "--allow-principal=User:" +:+ username a; "--operation=" +:+ operation a]
   ++ resource_args (resource_type a) (resource_name a))%list.
Definition remove_acl_args (m : auth_manager) (a : Acl) : list string :=
  (common_args m ++ ["--remove"; "--allow-principal=User:" +:+ username a;
                     "--operation=" +:+ operation a; "--force"]
   ++ resource_args (resource_type a) (resource_name a))%list.
Definition add_user_args (m : auth_manager) (username password : string) : list string :=
  (["--alter"; "--entity-type=users"; "--entity-name=" +:+ username;
    "--add-config=SCRAM-SHA-512=[password=" +:+ password +:+ "]"] ++ common_args m)%list.
Definition delete_user_args (m : auth_manager) (username : string) : list string :=
  (common_args m ++ ["--alter"; "--entity-type=users"; "--entity-name=" +:+ username;
                     "--delete-config=SCRAM-SHA-512"])%list.
Definition describe_users_args (m : auth_manager) : list string :=
  (common_args m ++ ["--describe"; "--entity-type=users"])%list.

End AuthManager.
Import AuthManager.

(** ** Running the scripts *)

(** The scripts [kafka-<keyword>.sh], run in the container against a cluster
    in state [S]: they print a text and may change the cluster. *)
Class KafkaTools (S : Type) := {
  run_tool : string → list string → list string → S → result (string * S) }.

Section operations.
Context {S : Type} `{KafkaTools S}.
Variable m : auth_manager.
Implicit Types s : S.

Definition run_acls (args : list string) s : result (string * S) :=
  run_tool "acls" args [log4j_opts m] s.

Definition current_acls s : result (gset Acl * S) :=
  '(out, s) ← run_acls (list_acls_args m) s; Ok (parse_acls out, s).

Definition add_acl (a : Acl) s : result S :=
  '(_, s) ← run_acls (add_acl_args m a) s; Ok s.
Definition remove_acl (a : Acl) s : result S :=
  '(_, s) ← run_acls (remove_acl_args m a) s; Ok s.

(** The loop over a set of ACLs. *)
Fixpoint for_each (op : Acl → S → result S) (acls : list Acl) s : result S :=
  match acls with
  | [] => Ok s
  | a :: acls => s ← op a s; for_each op acls s
  end.

Definition acls_of_user (user : string) (acls : gset Acl) : gset Acl :=
  filter (λ a, username a = user) acls.

Definition remove_all_user_acls (user : string) s : result S :=
  '(acls, s) ← current_acls s; for_each remove_acl (elements (acls_of_user user acls)) s.

Definition permission_acls (user : string) (p : KafkaPermissionModel.permission) : gset Acl :=
  list_to_set ((λ op, mkAcl (KafkaPermissionModel.resource_name p)
    (KafkaPermissionModel.resource_type p) op user) <$> KafkaPermissionModel.privileges p).

Definition computed_user_acls (user topic extra_user_roles : string) (group : option string)
    (permissions : list KafkaPermissionModel.permission) : gset Acl :=
  (if contains "producer" extra_user_roles then generate_producer_acls topic user else ∅) ∪
  (if contains "consumer" extra_user_roles then generate_consumer_acls topic user group else ∅) ∪
  ⋃ (permission_acls user <$> permissions).

Definition update_user_acls (user topic extra_user_roles : string) (group : option string)
    (permissions : list KafkaPermissionModel.permission) s : result S :=
  let computed := computed_user_acls user topic extra_user_roles group permissions in
  '(acls, s) ← current_acls s;
  let current := acls_of_user user acls in
  s ← for_each add_acl (elements (computed ∖ current)) s;
  for_each remove_acl (elements (current ∖ computed)) s.

Definition add_user (user password : string) s : result S :=
  '(_, s) ← run_tool "configs" (add_user_args m user password) [log4j_opts m] s; Ok s.

(** A user that does not exist is not an error; [output] is what the failed
    command printed. *)
Definition delete_user (user : string) s : result S :=
  match run_tool "configs" (delete_user_args m user) [log4j_opts m] s with
  | Ok (_, s) => Ok s
  | Err (ExecError output) =>
      if contains "delete a user credential that does not exist" output then Ok s
      else Err (ExecError output)
  | Err e => Err e
  end.

Definition get_users s : result (list string) :=
  '(out, _) ← run_tool "configs" (describe_users_args m) [] s; Ok (parse_describe_users out).
End operations.

(** ** What the ACL script does *)

(** A binding of the cluster: an ACL and the pattern type of its resource. *)
Definition binding : Type := string * Acl.

(** The binding a command of the manager names. *)
Definition binding_of (a : Acl) : binding :=
  if (resource_type a =? "TOPIC")%string then
    if is_prefixed (resource_name a)
    then ("PREFIXED", mkAcl (str_init (resource_name a)) (resource_type a) (operation a) (username a))
    else ("LITERAL", a)
  else ("PREFIXED", a).

(** A text the listing shows without ambiguity. *)
Definition clean_char (c : ascii) : bool :=
  negb (c =? ",")%char && negb (c =? "=")%char && negb (is_linebreak c).
Definition clean (s : string) : bool := truthy s && str_forall clean_char s.
Definition clean_acl (a : Acl) : bool :=
  clean (resource_name a) && clean (resource_type a) && clean (operation a) && clean (username a)
  && bool_decide (resource_type a ∈ ["TOPIC"; "GROUP"]).

(** The ACL script as documented: [--add] and [--remove] act on the binding
    they name, [--list] prints every binding, and clean ones are read back. *)
Class AclScript (S : Type) `{KafkaTools S} := {
  bindings : S → gset binding;
  list_documented m s :
    set_Forall (λ b, clean_acl b.2 = true) (bindings s) →
    ∃ out, run_acls m (list_acls_args m) s = Ok (out, s) ∧ parse_acls out = set_map snd (bindings s);
  add_documented m a s : clean_acl a = true →
    ∃ s', add_acl m a s = Ok s' ∧ bindings s' = {[binding_of a]} ∪ bindings s;
  remove_documented m a s : clean_acl a = true →
    ∃ s', remove_acl m a s = Ok s' ∧ bindings s' = bindings s ∖ {[binding_of a]} }.
