(* ===== verification/AuthFacts.v ===== *)
(** * Properties of the ACL reconciliation

    The listing of clean bindings is parsed back; updating a client's ACLs
    makes the cluster grant what was computed and nothing else to it, without
    touching the other users; what prefixed topics escape; a concrete
    cluster. *)

From S2P Require Import Prelude PyStr PyDict Literals Models Workload Auth.
Import AuthManager.

Local Open Scope string_scope.
Local Open Scope Z_scope.

(** ** Searching a field *)

Lemma last_char (a b : string) c d : a ++ String c "" = b ++ String d "" → c = d.
Proof.
  revert b. induction a as [|x a IH]; intros [|y b]; cbn; intros He.
  - by injection He.
  - injection He as _ He. by destruct b.
  - injection He as _ He. by destruct a.
  - injection He as _ He. by apply (IH b).
Qed.

Lemma endswith_differs p c q x d : c ≠ d → endswith (p ++ String c q) (x ++ String d q) = false.
Proof.
  intros Hne. apply not_true_iff_false. intros (t & Ht)%endswith_iff.
  change (String d q) with (String d "" ++ q) in Ht. change (String c q) with (String c "" ++ q) in Ht.
  rewrite <- !append_assoc in Ht. apply append_inj_r in Ht. by apply last_char in Ht.
Qed.

Lemma startswith_key k u a r :
  lacks "=" k = true → lacks "=" a = true →
  startswith (k ++ String "=" u) (a ++ String "=" r) = true → a = k.
Proof.
  intros Hk Ha (t & Ht)%startswith_iff. rewrite append_assoc in Ht. cbn in Ht.
  by apply sep_unique in Ht as [-> _].
Qed.

(** A stretch up to an equals sign that does not end with the key is skipped. *)
Lemma search_skip k u a r :
  lacks "=" k = true → lacks "=" a = true → endswith k a = false →
  search_field (k ++ String "=" u) (a ++ String "=" r) = search_field (k ++ String "=" u) r.
Proof.
  intros Hk Ha He. induction a as [|c a IH].
  - cbn [String.append search_field]. unfold field_here. destruct (startswith _ _) eqn:Es; [|done].
    apply (startswith_key k u "" r) in Es; [|done|done]. subst k. by cbn in He.
  - rewrite append_cons. cbn [search_field]. unfold field_here.
    cbn [endswith] in He. apply orb_false_iff in He as [Hne He].
    unfold lacks in Ha. cbn [str_forall] in Ha. apply andb_true_iff in Ha as [Hc Ha].
    destruct (startswith _ _) eqn:Es.
    + apply (startswith_key k u (String c a) r) in Es; [|done|].
      * subst k. by rewrite String.eqb_refl in Hne.
      * unfold lacks. cbn [str_forall]. by rewrite Hc.
    + by apply IH.
Qed.

Lemma search_none k u s : lacks "=" s = true → search_field (k ++ String "=" u) s = None.
Proof.
  intros Hs. assert (Hno : ∀ t, lacks "=" t = true → field_here (k ++ String "=" u) t = None).
  { intros t Ht. unfold field_here. destruct (startswith _ _) eqn:E; [|done].
    apply startswith_iff in E as (w & ->). rewrite append_assoc, lacks_app in Ht.
    apply andb_true_iff in Ht as [_ Ht]. done. }
  induction s as [|c s IH]; cbn [search_field].
  - by rewrite Hno.
  - rewrite (Hno (String c s)) by done. apply IH. unfold lacks in *. cbn in Hs. by apply andb_true_iff in Hs as [_ ?].
Qed.

Lemma search_here key s v : field_here key s = Some v → search_field key s = Some v.
Proof. intros Hh. destruct s; cbn [search_field]; by rewrite Hh. Qed.

Lemma search_hit k u pre v r :
  lacks "=" k = true → lacks "=" pre = true → lacks "," v = true → truthy v = true →
  search_field (k ++ String "=" u) (pre ++ k ++ String "=" u ++ v ++ String "," r) = Some v.
Proof.
  intros Hk Hp Hv Ht. induction pre as [|c pre IH].
  - cbn [String.append].
    assert (Hh : field_here (k ++ String "=" u) (k ++ String "=" u ++ v ++ String "," r) = Some v).
    { unfold field_here. change (String "=" u ++ v ++ String "," r) with (String "=" (u ++ v ++ String "," r)).
      replace (k ++ String "=" (u ++ v ++ String "," r)) with ((k ++ String "=" u) ++ v ++ String "," r)
        by (rewrite append_assoc; done).
      rewrite (proj2 (startswith_iff _ _)) by eauto. rewrite str_drop_app, split_once_app by done.
      by rewrite Ht. }
    by apply search_here.
  - rewrite append_cons. cbn [search_field].
    unfold lacks in Hp. cbn [str_forall] in Hp. apply andb_true_iff in Hp as [Hc Hp].
    rewrite (IH Hp). unfold field_here. destruct (startswith _ _) eqn:Es; [|done].
    assert (Hpk : String c pre ++ k = k).
    { apply (startswith_key k u (String c pre ++ k) (u ++ v ++ String "," r)); [done| |].
      - rewrite lacks_app, Hk. unfold lacks. cbn [str_forall]. by rewrite Hc, Hp.
      - rewrite append_assoc. exact Es. }
    apply (f_equal String.length) in Hpk. rewrite append_length in Hpk. cbn in Hpk. lia.
Qed.

(** ** The listing of the script *)

(** The two lines the script prints for a binding. *)
Definition header_line (b : binding) : string :=
  "Current ACLs for resource `ResourcePattern(resourceType=" ++ resource_type b.2
    ++ ", name=" ++ resource_name b.2 ++ ", patternType=" ++ b.1 ++ ")`: ".
Definition entry_line (b : binding) : string :=
  "  (principal=User:" ++ username b.2 ++ ", host=*, operation=" ++ operation b.2
    ++ ", permissionType=ALLOW)".
Definition listing (bs : list binding) : string :=
  str_join (String newline "") (concat ((λ b, [header_line b; entry_line b]) <$> bs)).

Lemma clean_parts s : clean s = true → lacks "," s = true ∧ lacks "=" s = true ∧ truthy s = true ∧
  str_forall (λ c, negb (is_linebreak c)) s = true.
Proof.
  unfold clean. intros [Ht Hs]%andb_true_iff.
  split_and!; try done; (eapply str_forall_impl; [|exact Hs]); intros c Hc;
    unfold clean_char in Hc; apply andb_true_iff in Hc as [[? ?]%andb_true_iff ?]; done.
Qed.

(** Fields without a comma or an equals sign, in the two lines. *)
Section fields.
Variables (t n p u o : string).
Hypothesis (Ht : clean t = true) (Hn : clean n = true) (Hp : clean p = true).
Hypothesis (Hu : clean u = true) (Ho : clean o = true).

Let header : string :=
  "Current ACLs for resource `ResourcePattern(resourceType=" ++ t ++ ", name=" ++ n ++ ", patternType=" ++ p ++ ")`: ".
Let entry : string :=
  "  (principal=User:" ++ u ++ ", host=*, operation=" ++ o ++ ", permissionType=ALLOW)".

Ltac no_equals :=
  rewrite ?lacks_app; repeat match goal with
  | H : clean ?x = true |- context [lacks "=" ?x] => rewrite (proj1 (proj2 (clean_parts x H)))
  end; reflexivity.

Lemma header_resource_type : search_field "resourceType=" header = Some t.
Proof using Ht.
  destruct (clean_parts t Ht) as (? & ? & ? & _).
  apply (search_hit "resourceType" "" "Current ACLs for resource `ResourcePattern(" t); done.
Qed.

Lemma header_shape : header =
  "Current ACLs for resource `ResourcePattern(resourceType" ++ String "=" ((t ++ ", name") ++ String "=" ((n ++ ", patternType") ++ String "=" (p ++ ")`: "))).
Proof using. unfold header. by rewrite !append_assoc. Qed.

Lemma header_name : search_field "name=" header = Some n.
Proof using Ht Hn.
  destruct (clean_parts n Hn) as (? & ? & ? & _). rewrite header_shape.
  change "name=" with ("name" ++ String "=" "").
  rewrite search_skip by done.
  replace ((t ++ ", name") ++ String "=" ((n ++ ", patternType") ++ String "=" (p ++ ")`: ")))
    with ((t ++ ", ") ++ "name" ++ String "=" "" ++ n ++ String "," (" patternType=" ++ p ++ ")`: "))
    by (rewrite !append_assoc; done).
  apply search_hit; [done|no_equals|done|done].
Qed.

Lemma header_skip k w c d :
  lacks "=" k = true → k = d ++ String c "" → c ≠ "e"%char →
  search_field (k ++ String "=" w) header = None.
Proof using Ht Hn Hp.
  intros Hk -> Hc. rewrite header_shape. rewrite search_skip; [|done|done|].
  2:{ apply (endswith_differs d c "" "Current ACLs for resource `ResourcePattern(resourceTyp" "e"). done. }
  rewrite search_skip; [|done|no_equals|].
  2:{ change ", name" with (", nam" ++ String "e" ""). rewrite <- append_assoc. by apply endswith_differs. }
  rewrite search_skip; [|done|no_equals|].
  2:{ change ", patternType" with (", patternTyp" ++ String "e" ""). rewrite <- append_assoc. by apply endswith_differs. }
  apply search_none. no_equals.
Qed.

Lemma header_no_user : search_field "principal=User:" header = None.
Proof using Ht Hn Hp. by apply (header_skip "principal" "User:" "l" "principa"). Qed.

Lemma header_no_operation : search_field "operation=" header = None.
Proof using Ht Hn Hp. by apply (header_skip "operation" "" "n" "operatio"). Qed.

Lemma entry_shape : entry =
  "  (principal" ++ String "=" (("User:" ++ u ++ ", host") ++ String "=" ("*, operation" ++ String "=" ((o ++ ", permissionType") ++ String "=" "ALLOW)"))).
Proof using. unfold entry. by rewrite !append_assoc. Qed.

Lemma entry_skip k v c d q :
  lacks "=" k = true → k = d ++ String c q →
  endswith k "  (principal" = false → endswith k "*, operation" = false →
  (∀ x, endswith k (x ++ ", host") = false) → (∀ x, endswith k (x ++ ", permissionType") = false) →
  search_field (k ++ String "=" v) entry = None.
Proof using Hu Ho.
  intros Hk _ H1 H2 H3 H4. rewrite entry_shape.
  rewrite search_skip by done. rewrite search_skip; [|done|no_equals|].
  2:{ rewrite <- append_assoc. apply H3. }
  rewrite search_skip by done. rewrite search_skip; [|done|no_equals|apply H4].
  by apply search_none.
Qed.

Lemma entry_no_type : search_field "resourceType=" entry = None.
Proof using Hu Ho.
  apply (entry_skip "resourceType" "" "r" "" "esourceType"); [done..|intros x|intros x].
  - change ", host" with (", hos" ++ String "t" ""). rewrite <- append_assoc.
    by apply (endswith_differs "resourceTyp" "e" "").
  - change ", permissionType" with (", permissio" ++ String "n" "Type"). rewrite <- append_assoc.
    by apply (endswith_differs "resourc" "e" "Type").
Qed.

Lemma entry_no_name : search_field "name=" entry = None.
Proof using Hu Ho.
  apply (entry_skip "name" "" "n" "" "ame"); [done..|intros x|intros x].
  - change ", host" with (", hos" ++ String "t" ""). rewrite <- append_assoc.
    by apply (endswith_differs "nam" "e" "").
  - change ", permissionType" with (", permissionTy" ++ String "p" "e"). rewrite <- append_assoc.
    by apply (endswith_differs "na" "m" "e").
Qed.

Lemma entry_user : search_field "principal=User:" entry = Some u.
Proof using Hu.
  destruct (clean_parts u Hu) as (? & ? & ? & _).
  apply (search_hit "principal" "User:" "  (" u (" host=*, operation=" ++ o ++ ", permissionType=ALLOW)")); done.
Qed.

Lemma entry_operation : search_field "operation=" entry = Some o.
Proof using Hu Ho.
  destruct (clean_parts o Ho) as (? & ? & ? & _). rewrite entry_shape.
  change "operation=" with ("operation" ++ String "=" "").
  rewrite search_skip by done.
  rewrite search_skip; [|done|no_equals|].
  2:{ rewrite <- append_assoc. change ", host" with (", hos" ++ String "t" ""). rewrite <- append_assoc.
      by apply (endswith_differs "operatio" "n" ""). }
  change ("*, operation" ++ String "=" ?x) with ("*, " ++ "operation" ++ String "=" "" ++ x).
  replace ((o ++ ", permissionType") ++ String "=" "ALLOW)") with (o ++ String "," " permissionType=ALLOW)")
    by (rewrite append_assoc; done).
  apply search_hit; done.
Qed.
End fields.

Definition clean_binding (b : binding) : bool := clean_acl b.2 && clean b.1.

(** The two lines of a clean binding add its ACL. *)
Lemma parse_two_lines st acc b :
  clean_binding b = true →
  ∃ st', foldl parse_line (st, acc) [header_line b; entry_line b] = (st', {[b.2]} ∪ acc).
Proof.
  intros [Ha Hb]%andb_true_iff. unfold clean_acl in Ha. destruct b as [p [n t o u]]. cbn [fst snd] in *.
  apply andb_true_iff in Ha as [[[[Hn Ht]%andb_true_iff Ho]%andb_true_iff Hu]%andb_true_iff _].
  cbn [resource_name resource_type operation username] in *.
  destruct st as [[t0 n0] u0]. cbn [foldl].
  unfold parse_line at 2, header_line. cbn [snd resource_type resource_name fst].
  rewrite header_resource_type, header_name, header_no_user, header_no_operation by done.
  unfold parse_line, entry_line. cbn [snd username operation keep].
  rewrite entry_no_type, entry_no_name, entry_user, entry_operation by done. cbn [keep]. eauto.
Qed.

Lemma binding_lines b : clean_binding b = true →
  Forall (λ s, truthy s = true ∧ str_forall (λ c, negb (is_linebreak c)) s = true) [header_line b; entry_line b].
Proof.
  intros [Ha Hb]%andb_true_iff. unfold clean_acl in Ha. destruct b as [p [n t o u]]. cbn [fst snd] in *.
  apply andb_true_iff in Ha as [[[[Hn Ht]%andb_true_iff Ho]%andb_true_iff Hu]%andb_true_iff _].
  cbn [resource_name resource_type operation username] in *.
  destruct (clean_parts n Hn) as (_ & _ & _ & Hn'), (clean_parts t Ht) as (_ & _ & _ & Ht'),
    (clean_parts o Ho) as (_ & _ & _ & Ho'), (clean_parts u Hu) as (_ & _ & _ & Hu'),
    (clean_parts p Hb) as (_ & _ & _ & Hp').
  repeat apply Forall_cons_2; [| |apply Forall_nil_2]; (split; [done|]);
    unfold header_line, entry_line; cbn [fst snd resource_type resource_name username operation];
    rewrite !str_forall_app; by rewrite ?Hn', ?Ht', ?Ho', ?Hu', ?Hp'.
Qed.

(** The listing of clean bindings is parsed back into their ACLs. *)
Lemma parse_listing bs :
  Forall (λ b, clean_binding b = true) bs →
  parse_acls (listing bs) = list_to_set (snd <$> bs).
Proof.
  intros Hbs. unfold parse_acls, listing. rewrite splitlines_join.
  2:{ apply Forall_concat, Forall_fmap. eapply Forall_impl; [exact Hbs|]. intros b. apply binding_lines. }
  assert (Hgen : ∀ st acc, (foldl parse_line (st, acc) (concat ((λ b, [header_line b; entry_line b]) <$> bs))).2
    = list_to_set (snd <$> bs) ∪ acc).
  { induction Hbs as [|b bs Hb _ IH]; intros st acc; [set_solver|].
    rewrite fmap_cons. cbn [concat]. rewrite foldl_app.
    destruct (parse_two_lines st acc b Hb) as (st' & ->). rewrite IH. rewrite fmap_cons. set_solver. }
  rewrite Hgen. set_solver.
Qed.

(** ** Reconciliation, against any cluster whose script is as documented *)

Section reconcile.
Context {S : Type} `{AclScript S}.
Variable m : auth_manager.

Definition clean_cluster (s : S) : Prop := set_Forall (λ b, clean_acl b.2 = true) (bindings s).

Lemma for_each_add acls (s : S) :
  Forall (λ a, clean_acl a = true) acls →
  ∃ s', for_each (add_acl m) acls s = Ok s' ∧
    bindings s' = list_to_set (binding_of <$> acls) ∪ bindings s.
Proof.
  intros Ha. revert s. induction Ha as [|a acls Ha _ IH]; intros s.
  - exists s. split; [done|]. set_solver.
  - cbn [for_each]. destruct (add_documented m a s Ha) as (s1 & -> & H1). cbn [mbind result_bind].
    destruct (IH s1) as (s2 & -> & H2). exists s2. split; [done|].
    rewrite H2, H1, fmap_cons. set_solver.
Qed.

Lemma for_each_remove acls (s : S) :
  Forall (λ a, clean_acl a = true) acls →
  ∃ s', for_each (remove_acl m) acls s = Ok s' ∧
    bindings s' = bindings s ∖ list_to_set (binding_of <$> acls).
Proof.
  intros Ha. revert s. induction Ha as [|a acls Ha _ IH]; intros s.
  - exists s. split; [done|]. set_solver.
  - cbn [for_each]. destruct (remove_documented m a s Ha) as (s1 & -> & H1). cbn [mbind result_bind].
    destruct (IH s1) as (s2 & -> & H2). exists s2. split; [done|].
    rewrite H2, H1, fmap_cons. set_solver.
Qed.

(** The bindings after an update, by what was listed and what was computed. *)
Lemma update_bindings user topic roles group perms (s : S) :
  let computed := computed_user_acls user topic roles group perms in
  let current := acls_of_user user (set_map snd (bindings s)) in
  clean_cluster s → set_Forall (λ a, clean_acl a = true) computed →
  ∃ s', update_user_acls m user topic roles group perms s = Ok s' ∧
    ∀ b, b ∈ bindings s' ↔
      (b ∈ bindings s ∨ (∃ a, a ∈ computed ∧ (a ∉ current) ∧ b = binding_of a)) ∧
      ¬ (∃ a, a ∈ current ∧ (a ∉ computed) ∧ b = binding_of a).
Proof.
  intros computed current Hs Hc. unfold update_user_acls, current_acls.
  destruct (list_documented m s Hs) as (out & -> & Hout). cbn [mbind result_bind]. rewrite Hout.
  fold computed. fold current.
  assert (Hcur : ∀ a, a ∈ current → clean_acl a = true).
  { intros a [_ (b & -> & Hb)%elem_of_map]%elem_of_filter. by apply Hs. }
  destruct (for_each_add (elements (computed ∖ current)) s) as (s1 & H1 & E1).
  { apply Forall_forall. intros a [Ha _]%elem_of_elements%elem_of_difference. by apply Hc. }
  rewrite H1. cbn [mbind result_bind].
  destruct (for_each_remove (elements (current ∖ computed)) s1) as (s2 & H2 & E2).
  { apply Forall_forall. intros a [Ha _]%elem_of_elements%elem_of_difference. by apply Hcur. }
  exists s2. split; [exact H2|]. intros b.
  rewrite E2, E1, elem_of_difference, elem_of_union, !elem_of_list_to_set, !list_elem_of_fmap.
  setoid_rewrite elem_of_elements. setoid_rewrite elem_of_difference. naive_solver.
Qed.

Lemma binding_of_user a : username (binding_of a).2 = username a.
Proof. unfold binding_of. destruct (_ =? _)%string; [destruct (is_prefixed _)|]; done. Qed.

Lemma binding_of_acl a :
  resource_type a ≠ "TOPIC" ∨ is_prefixed (resource_name a) = false → (binding_of a).2 = a.
Proof.
  unfold binding_of. intros Ha. destruct (String.eqb_spec (resource_type a) "TOPIC"); [|done].
  destruct Ha as [?| ->]; done.
Qed.

Lemma computed_user a user topic roles group perms :
  a ∈ computed_user_acls user topic roles group perms → username a = user.
Proof.
  unfold computed_user_acls. rewrite !elem_of_union, elem_of_union_list.
  intros [[Ha|Ha]|(X & (p & -> & _)%list_elem_of_fmap & Ha)].
  - destruct (contains _ _); [|set_solver]. unfold generate_producer_acls in Ha.
    by apply elem_of_list_to_set, list_elem_of_fmap in Ha as (? & -> & _).
  - destruct (contains _ _); [|set_solver]. unfold generate_consumer_acls in Ha.
    apply elem_of_union in Ha as [Ha|Ha].
    + by apply elem_of_list_to_set, list_elem_of_fmap in Ha as (? & -> & _).
    + by apply elem_of_singleton in Ha as ->.
  - unfold permission_acls in Ha. by apply elem_of_list_to_set, list_elem_of_fmap in Ha as (? & -> & _).
Qed.


(** A prefixed topic binding of a client stays in the cluster when the
    client no longer asks for anything, and when the client is removed: the
    listing shows it without its pattern, and the removal names the literal
    topic. *)
Theorem prefixed_acl_survives name op user topic (s : S) :
  let b := ("PREFIXED", mkAcl name "TOPIC" op user) in
  clean_cluster s → b ∈ bindings s → is_prefixed name = false →
  set_Forall (λ b' : binding, b'.2 ≠ mkAcl (name ++ "*") "TOPIC" op user) (bindings s) →
  (∃ s', update_user_acls m user topic "" None [] s = Ok s' ∧ b ∈ bindings s') ∧
  (∃ s', remove_all_user_acls m user s = Ok s' ∧ b ∈ bindings s').
Proof.
  intros b Hs Hin Hlit Hno.
  assert (Hne : ∀ a, a ∈ acls_of_user user (set_map snd (bindings s)) → b ≠ binding_of a).
  { intros a [_ (b' & -> & Hb')%elem_of_map]%elem_of_filter. unfold binding_of, b.
    destruct (String.eqb_spec (resource_type b'.2) "TOPIC") as [Ht|Ht].
    - destruct (is_prefixed (resource_name b'.2)) eqn:Ep; [|done]. intros [= Hn _ Ho Hu'].
      apply (Hno b' Hb'). destruct b' as [p [n t o u]]. cbn [snd resource_name resource_type operation username] in *.
      subst. f_equal. unfold is_prefixed in Ep. apply andb_true_iff in Ep as [_ (w & ->)%endswith_iff].
      f_equal. by rewrite str_init_app.
    - intros [= Hb2]. rewrite <- Hb2 in Ht. done. }
  split.
  - destruct (update_bindings user topic "" None [] s Hs) as (s' & Hu & Hb).
    { intros a. unfold computed_user_acls. cbn [contains]. set_solver. }
    exists s'. split; [done|]. apply Hb. split; [by left|]. intros (a & Ha & _ & He). by apply (Hne a Ha).
  - unfold remove_all_user_acls, current_acls.
    destruct (list_documented m s Hs) as (out & -> & Hout). cbn [mbind result_bind]. rewrite Hout.
    destruct (for_each_remove (elements (acls_of_user user (set_map snd (bindings s)))) s) as (s' & H2 & E2).
    { apply Forall_forall. intros a [_ (b' & -> & Hb')%elem_of_map]%elem_of_elements%elem_of_filter. by apply Hs. }
    exists s'. split; [done|]. rewrite E2, elem_of_difference, elem_of_list_to_set, list_elem_of_fmap.
    split; [done|]. intros (a & He & Ha%elem_of_elements). by apply (Hne a Ha).
Qed.
End reconcile.

(** ** A cluster that behaves as documented *)

(** The binding the arguments after the action name. *)
Definition read_binding (principal operation resource pattern : string) : binding :=
  let user := str_drop (String.length "--allow-principal=User:") principal in
  let op := str_drop (String.length "--operation=") operation in
  let pat := str_drop (String.length "--resource-pattern-type=") pattern in
  if startswith "--topic=" resource
  then (pat, mkAcl (str_drop (String.length "--topic=") resource) "TOPIC" op user)
  else (pat, mkAcl (str_drop (String.length "--group=") resource) "GROUP" op user).

(** Only the two pattern types exist. *)
Definition model_cluster : Type := gset binding.
Definition model_bindings (s : model_cluster) : gset binding :=
  filter (λ b : binding, b.1 = "PREFIXED" ∨ b.1 = "LITERAL") s.

Definition acl_script (args : list string) (s : model_cluster) : result (string * model_cluster) :=
  match args with
  | [_; _; "--list"] => Ok (listing (elements (model_bindings s)), s)
  | [_; _; "--add"; p; o; r; t] => Ok ("", {[read_binding p o r t]} ∪ s)
  | [_; _; "--remove"; p; o; _; r; t] => Ok ("", s ∖ {[read_binding p o r t]})
  | _ => Err (ExecError "unknown arguments")
  end.

#[export] Instance model_tools : KafkaTools model_cluster := {|
  run_tool keyword args _ s := if (keyword =? "acls")%string then acl_script args s else Ok ("", s) |}.

Lemma read_binding_of m a : clean_acl a = true →
  ∃ p o r t, add_acl_args m a = (common_args m ++ ["--add"; p; o; r; t])%list ∧
    remove_acl_args m a = (common_args m ++ ["--remove"; p; o; "--force"; r; t])%list ∧
    read_binding p o r t = binding_of a.
Proof.
  intros Ha. assert (Ht : resource_type a = "TOPIC" ∨ resource_type a = "GROUP").
  { unfold clean_acl in Ha. apply andb_true_iff in Ha as [_ Ha%bool_decide_eq_true].
    rewrite elem_of_cons, list_elem_of_singleton in Ha. done. }
  destruct a as [n t o u]. cbn [resource_type] in Ht. unfold add_acl_args, remove_acl_args, binding_of.
  cbn [resource_type resource_name operation username].
  destruct Ht as [-> | ->]; unfold resource_args; cbn [String.eqb Ascii.eqb Bool.eqb app];
    [destruct (is_prefixed n) eqn:Ep|]; cbn [app];
    (eexists _, _, _, _; split_and!; [reflexivity|reflexivity|]);
    unfold read_binding; rewrite !str_drop_app; try done; unfold startswith; by rewrite prefix_app.
Qed.

Lemma binding_of_pattern a : (binding_of a).1 = "PREFIXED" ∨ (binding_of a).1 = "LITERAL".
Proof. unfold binding_of. destruct (_ =? _)%string; [destruct (is_prefixed _)|]; auto. Qed.

Lemma model_list m (s : model_cluster) :
  set_Forall (λ b, clean_acl b.2 = true) (model_bindings s) →
  ∃ out, run_acls m (list_acls_args m) s = Ok (out, s) ∧ parse_acls out = set_map snd (model_bindings s).
Proof.
  intros Hs. eexists. split; [reflexivity|]. rewrite parse_listing.
  - apply set_eq. intros a. rewrite elem_of_list_to_set, list_elem_of_fmap, elem_of_map.
    by setoid_rewrite elem_of_elements.
  - apply Forall_forall. intros b Hb%elem_of_elements. unfold clean_binding. rewrite (Hs b Hb).
    apply elem_of_filter in Hb as [[-> | ->] _]; done.
Qed.

Lemma model_add m a (s : model_cluster) : clean_acl a = true →
  ∃ s', add_acl m a s = Ok s' ∧ model_bindings s' = {[binding_of a]} ∪ model_bindings s.
Proof.
  intros Ha. destruct (read_binding_of m a Ha) as (p & o & r & t & Hadd & _ & Hr).
  exists ({[binding_of a]} ∪ s). split.
  - unfold add_acl. rewrite Hadd, <- Hr. reflexivity.
  - pose proof (binding_of_pattern a). unfold model_bindings. set_solver.
Qed.

Lemma model_remove m a (s : model_cluster) : clean_acl a = true →
  ∃ s', remove_acl m a s = Ok s' ∧ model_bindings s' = model_bindings s ∖ {[binding_of a]}.
Proof.
  intros Ha. destruct (read_binding_of m a Ha) as (p & o & r & t & _ & Hrem & Hr).
  exists (s ∖ {[binding_of a]}). split.
  - unfold remove_acl. rewrite Hrem, <- Hr. reflexivity.
  - unfold model_bindings. set_solver.
Qed.

#[export] Instance model_script : AclScript model_cluster := {|
  bindings := model_bindings; list_documented := model_list;
  add_documented := model_add; remove_documented := model_remove |}.

(** A closed decidable statement, by evaluation. *)
Ltac decide_closed := unfold clean_cluster; apply (bool_decide_unpack _); vm_compute; exact I.

Definition sample_auth : auth_manager := mkAuth "kafka-0.kafka-endpoints:19093" "KAFKA_LOG4J_OPTS=''".
Definition sample_cluster : model_cluster :=
  {[ ("LITERAL", mkAcl "old" "TOPIC" "READ" "relation-1");
     ("LITERAL", mkAcl "t" "TOPIC" "READ" "relation-2") ]}.


Definition prefixed_cluster : model_cluster := {[ ("PREFIXED", mkAcl "logs" "TOPIC" "READ" "relation-1") ]}.

(** The cluster after a client asked for [logs*], and after it asks for nothing. *)
Lemma prefixed_acl_survives_witness :
  ∃ s', update_user_acls sample_auth "relation-1" "t" "" None [] prefixed_cluster = Ok s' ∧
    ("PREFIXED", mkAcl "logs" "TOPIC" "READ" "relation-1") ∈ bindings s'.
Proof.
  destruct (prefixed_acl_survives sample_auth "logs" "READ" "relation-1" "t" prefixed_cluster) as [Hu _].
  - decide_closed.
  - decide_closed.
  - reflexivity.
  - decide_closed.
  - exact Hu.
Defined.
