(* ===== verification/Config.v ===== *)
(** * Configuration files (managers/config.py)

    [Listener]; the lines of the broker's and the balancer's property files
    and of the environment file, as the managers compute them from the state
    and the configuration; and what is written to the container. *)

From S2P Require Import Prelude PyStr PyDict Json Literals Models Cluster Workload.

Local Open Scope string_scope.
Local Open Scope Z_scope.

(** A line break between lines ([chr 10]). *)
Definition nl : string := String newline "".
(** The double quote character, and a quoted text. *)
Definition dq : string := String (chr 34) "".
Definition quoted (s : string) : string := dq ++ s ++ dq.

(** The texts of option lines, as the triple-quoted constants write them. *)
Definition text_block (lines : list string) : string := str_join nl (("" :: lines) ++ [""])%list.

Definition DEFAULT_CONFIG_OPTIONS : string := text_block
  ["sasl.mechanism.inter.broker.protocol=SCRAM-SHA-512";
   "allow.everyone.if.no.acl.found=false";
   "auto.create.topics.enable=false"].
Definition KAFKA_CRUISE_CONTROL_OPTIONS : string := text_block
  ["metric.reporters=com.linkedin.kafka.cruisecontrol.metricsreporter.CruiseControlMetricsReporter"].
Definition TESTING_OPTIONS : string := text_block
  ["cruise.control.metrics.reporter.metrics.reporting.interval.ms=6000"].
Definition CRUISE_CONTROL_CONFIG_OPTIONS : string := text_block
  ["metric.reporter.topic=__CruiseControlMetrics";
   "sample.store.class=com.linkedin.kafka.cruisecontrol.monitor.sampling.KafkaSampleStore";
   "topic.config.provider.class=com.linkedin.kafka.cruisecontrol.config.KafkaAdminTopicConfigProvider";
   "kafka.broker.failure.detection.enable=true";
   "partition.metric.sample.store.topic=__KafkaCruiseControlPartitionMetricSamples";
   "broker.metric.sample.store.topic=__KafkaCruiseControlModelTrainingSamples";
   "max.active.user.tasks=10";
   "default.api.timeout.ms=20000";
   "request.timeout.ms=10000"].
Definition CRUISE_CONTROL_TESTING_OPTIONS : string := text_block
  ["cruise.control.metrics.reporter.metrics.reporting.interval.ms=6000";
   "broker.metrics.window.ms=30000";
   "partition.metrics.window.ms=30000";
   "metadata.max.age.ms=10000";
   "metric.sampling.interval.ms=12000";
   "min.samples.per.broker.metrics.window=1";
   "min.samples.per.partition.metrics.window=1";
   "num.partition.metrics.windows=3";
   "num.broker.metrics.windows=10";
   "default.api.timeout.ms=10000";
   "request.timeout.ms=5000"].
Definition SERVER_PROPERTIES_BLACKLIST : list string :=
  ["profile"; "log_level"; "certificate_extra_sans"; "extra_listeners"; "roles";
   "expose_external"; "system_users"; "tls_private_key"].

(** ** Listeners *)

Module Listener.

Record listener := mkListener {
  auth_map : AuthMap; scope : Scope; host : string; baseport : Z; extra_count : Z;
  node_port : option Z }.

(** The scopes the setter accepts. *)
Definition set_scope (value : Scope) (l : listener) : result listener :=
  if negb (bool_decide (value ∈ [CLIENT; INTERNAL; EXTERNAL; EXTRA]))
  then Err (ValueError "Only CLIENT, INTERNAL, EXTERNAL and EXTRA scopes are accepted")
  else Ok (mkListener (auth_map l) value (host l) (baseport l) (extra_count l) (node_port l)).

(** [getattr(ports, scope.lower())] *)
Definition port_field (s : Scope) (p : Ports) : Z :=
  match s with
  | INTERNAL => internal p | CLIENT => client p | EXTERNAL => external p
  | EXTRA => extra p | CONTROLLER => controller p
  end.

Definition port (l : listener) : result Z :=
  ports ← ports_of (auth_map l);
  if decide (scope l = EXTRA) then Ok (client ports + baseport l)
  else Ok (port_field (scope l) ports).

Definition name (l : listener) : string :=
  (scope_str (scope l) ++ "_" ++ protocol_str (protocol (auth_map l)) ++ "_"
     ++ replace_char "-" "_" (mechanism_str (mechanism (auth_map l))))
  ++ (if 0 <=? extra_count l then "_" ++ str_of_Z (extra_count l) else "").

Definition protocol_map (l : listener) : string :=
  name l ++ ":" ++ protocol_str (protocol (auth_map l)).
Definition listener_repr (l : listener) : result string :=
  p ← port l; Ok (name l ++ "://0.0.0.0:" ++ str_of_Z p).
Definition advertised_listener (l : listener) : result string :=
  if decide (scope l = EXTERNAL)
  then Ok (name l ++ "://" ++ host l ++ ":"
             ++ match node_port l with Some p => str_of_Z p | None => "None" end)
  else p ← port l; Ok (name l ++ "://" ++ host l ++ ":" ++ str_of_Z p).

End Listener.
Import Listener.

(** ** Environment files *)

(** One variable, split at its first equals sign; the value is empty without one. *)
Definition env_entry (var : string) : string * string :=
  match split_once "=" var with
  | (k, Some v) => (k, v)
  | (k, None) => (k, "")
  end.

Definition map_env (env : list string) : list (string * string) :=
  foldl (λ acc var, let '(k, v) := env_entry var in
           if truthy k then dict_set k v acc else acc) [] env.

(** ["\n".join([f"{key}={value}" ...])] *)
Definition print_env (env : list (string * string)) : string :=
  str_join nl ((λ '(k, v), k ++ "=" ++ v) <$> env).

Definition ENVIRONMENT_PATH : string := "/etc/environment".

(** The environment file after the updated variables are merged in. *)
Definition updated_environment (updated_env_list : list string) (c : container) : string :=
  let current_env := map_env (Workload.read ENVIRONMENT_PATH c) in
  print_env (dict_update current_env (map_env updated_env_list)).

(** ** The configuration of the application *)

(** The options the managers read, and all the options as [config.dict()]
    gives them, each with its text. *)
Record charm_config := mkConfig {
  profile : string; log_level : string; extra_listeners_option : list string;
  cruisecontrol_balance_threshold : string; cruisecontrol_capacity_threshold : string;
  config_dict : list (string * option string) }.

(** ** Common options *)

Module CommonConfigManager.

Definition log_level_opt (config : charm_config) : string :=
  if (log_level config =? "WARNING")%string then "KAFKA_CFG_LOGLEVEL=WARN"
  else "KAFKA_CFG_LOGLEVEL=" ++ log_level config.

(** [f"NAME='{' '.join(opts)}'"] *)
Definition quoted_opts (name : string) (opts : list string) : string :=
  name ++ "='" ++ str_join " " opts ++ "'".

Definition kafka_jmx_opts : string := quoted_opts "KAFKA_JMX_OPTS"
  ["-Dcom.sun.management.jmxremote";
   "-javaagent:" ++ CharmedKafkaPaths.jmx_prometheus_javaagent BROKER_ROLE ++ "="
     ++ str_of_Z JMX_EXPORTER_PORT ++ ":" ++ CharmedKafkaPaths.jmx_prometheus_config].
Definition cc_jmx_opts : string := quoted_opts "CC_JMX_OPTS"
  ["-Dcom.sun.management.jmxremote";
   "-javaagent:" ++ CharmedKafkaPaths.jmx_prometheus_javaagent BROKER_ROLE ++ "="
     ++ str_of_Z JMX_CC_PORT ++ ":" ++ CharmedKafkaPaths.jmx_cc_config].
(** [self.log_level.split('=')[1]] *)
Definition tools_log4j_opts (role : Role) (config : charm_config) : string :=
  quoted_opts "KAFKA_LOG4J_OPTS"
    ["-Dlog4j.configuration=file:" ++ CharmedKafkaPaths.tools_log4j_properties role
       ++ " -Dcharmed.kafka.log.level="
       ++ default "" (split_char "=" (log_level_opt config) !! 1%nat)].
Definition jvm_performance_opts : string := quoted_opts "KAFKA_JVM_PERFORMANCE_OPTS"
  ["-XX:MetaspaceSize=96m"; "-XX:+UseG1GC"; "-XX:MaxGCPauseMillis=20";
   "-XX:InitiatingHeapOccupancyPercent=35"; "-XX:G1HeapRegionSize=16M";
   "-XX:MinMetaspaceFreeRatio=50"; "-XX:MaxMetaspaceFreeRatio=80"].
Definition heap_opts (config : charm_config) : string :=
  let target_memory := if (profile config =? "testing")%string then JVM_MEM_MIN_GB else JVM_MEM_MAX_GB in
  quoted_opts "KAFKA_HEAP_OPTS"
    ["-Xms" ++ str_of_Z target_memory ++ "G"; "-Xmx" ++ str_of_Z target_memory ++ "G"].
(** Empty on Kubernetes. *)
Definition role_paths_env (r : RolePaths) : list string :=
  ["CONF=" ++ CONF r; "LOGS=" ++ LOGS r; "DATA=" ++ DATA r; "BIN=" ++ BIN r].
Definition auxiliary_paths (runs_broker runs_controller : bool) : list string :=
  if (SUBSTRATE =? "k8s")%string then []
  else if runs_broker || runs_controller then role_paths_env KAFKA_PATHS
  else role_paths_env CRUISE_CONTROL_PATHS.

End CommonConfigManager.
Import CommonConfigManager.

(** ** The broker's configuration *)

Module ConfigManager.
Section config_manager.
Context {D : Type} `{RelationData D}.

(** The manager's state, configuration and container, the proxies of the
    model, and whether the identity provider's certificate is trusted. *)
Record config_manager := mkManager {
  state : cluster_state D; config : charm_config; workload : container;
  http_proxy : option string; https_proxy : option string; no_proxy : option string;
  oauth_uses_trusted_ca : bool }.
Implicit Types m : config_manager.

(** [re.sub(r"^https?://", "", proxy)] *)
Definition strip_scheme (proxy : string) : string :=
  if startswith "https://" proxy then str_drop 8 proxy
  else if startswith "http://" proxy then str_drop 7 proxy else proxy.

Definition proxy_opt (prot : string) (proxy : option string) : result (list string) :=
  match proxy with
  | None => Ok []
  | Some proxy =>
      if negb (truthy proxy) then Ok [] else
      let proxy := strip_scheme proxy in
      '(host, port) ← (if has_char ":" proxy then
          match split_char ":" proxy with
          | [host; port] => Ok (host, port)
          | _ => Err (ValueError "too many values to unpack (expected 2)")
          end
        else Ok (proxy, "8080"));
      Ok ["-D" ++ prot ++ ".proxyHost=" ++ host ++ " -D" ++ prot ++ ".proxyPort=" ++ port]
  end.

Definition kafka_opts m : result string :=
  http ← proxy_opt "http" (http_proxy m);
  https ← proxy_opt "https" (https_proxy m);
  let no := match no_proxy m with
    | Some p => if truthy p then ["-Dhttp.nonProxyHosts=" ++ p] else []
    | None => [] end in
  Ok (quoted_opts "KAFKA_OPTS" (http ++ https ++ no)%list).

(** *** Replication *)

Definition replication_factor m : Z := Z.min 3 (planned_units (state m)).
Definition min_isr m : Z := Z.max 1 (replication_factor m - 1).
Definition default_replication_properties m : list string :=
  ["default.replication.factor=" ++ str_of_Z (replication_factor m);
   "num.partitions=" ++ str_of_Z (replication_factor m);
   "transaction.state.log.replication.factor=" ++ str_of_Z (replication_factor m);
   "offsets.topic.replication.factor=" ++ str_of_Z (replication_factor m);
   "min.insync.replicas=" ++ str_of_Z (min_isr m);
   "transaction.state.log.min.isr=" ++ str_of_Z (min_isr m)].

(** *** The listeners *)

Definition unit_broker m : KafkaBroker.broker D := ClusterState.unit_broker (state m).

Definition internal_listener m : result listener :=
  addr ← KafkaBroker.internal_address (unit_broker m);
  Ok (mkListener (ClusterState.internal_auth (state m)) INTERNAL addr 30000 (-1) None).
Definition active_controller_listener m : result listener :=
  addr ← KafkaBroker.internal_address (unit_broker m);
  Ok (mkListener (ClusterState.internal_auth (state m)) CONTROLLER addr 30000 (-1) None).
Definition controller_listeners m : result (list listener) :=
  l ← active_controller_listener m; Ok [l].

(** The host and base port of an entry with a colon; the loop unpacks the
    split in two. *)
Definition extra_entry (entry : string) : result (string * string) :=
  match split_char ":" entry with
  | [host; baseport] => Ok (host, baseport)
  | _ => Err (ValueError "too many values to unpack (expected 2)")
  end.

(** The listeners of one entry, its host updated as the loop goes. *)
Fixpoint extra_of_entry (unit_id : result Z) (baseport : string) (extra_count : Z) (host : string)
    (auths : list AuthMap) : result (list listener) :=
  match auths with
  | [] => Ok []
  | auth_map :: auths =>
      unit ← unit_id;
      let host := str_replace "{unit}" (str_of_Z unit) host in
      base ← py_int baseport;
      rest ← extra_of_entry unit_id baseport extra_count host auths;
      Ok (mkListener auth_map EXTRA host base extra_count None :: rest)
  end.

Fixpoint extra_of_entries (unit_id : result Z) (enabled_auth : result (list AuthMap))
    (extra_count : Z) (entries : list string) : result (list listener) :=
  match entries with
  | [] => Ok []
  | entry :: entries =>
      '(host, baseport) ← extra_entry entry;
      auths ← enabled_auth;
      here ← extra_of_entry unit_id baseport extra_count host auths;
      rest ← extra_of_entries unit_id enabled_auth (extra_count + 1) entries;
      Ok (here ++ rest)%list
  end.

Definition extra_listeners m : result (list listener) :=
  extra_of_entries (KafkaBroker.unit_id (unit_broker m)) (ClusterState.enabled_auth (state m)) 0
    (filter (λ l, has_char ":" l = true) (extra_listeners_option (config m))).

Definition client_listeners m : result (list listener) :=
  auths ← ClusterState.enabled_auth (state m);
  traverse (λ auth_map,
    addr ← KafkaBroker.internal_address (unit_broker m);
    Ok (mkListener auth_map CLIENT addr 30000 (-1) None)) auths.

(** An authentication map without a service, or without a node port, has no
    external listener. *)
Definition external_of_auth m (auth : AuthMap) : result (list listener) :=
  match listener_nodeport (k8s (state m)) auth with
  | Err (ApiError _ _) => Ok []
  | Err e => Err e
  | Ok node_port =>
      if (node_port =? 0)%Z then Ok []
      else
        ip ← node_ip (k8s (state m)) (KafkaBroker.pod_name (unit_broker m));
        Ok [mkListener auth EXTERNAL ip 30000 (-1) (Some node_port)]
  end.
Definition external_listeners m : result (list listener) :=
  match expose_external (state m) with
  | None => Ok []
  | Some _ =>
      auths ← ClusterState.enabled_auth (state m);
      ls ← traverse (external_of_auth m) auths; Ok (concat ls)
  end.

Definition all_listeners m : result (list listener) :=
  internal ← internal_listener m;
  clients ← client_listeners m;
  externals ← external_listeners m;
  extras ← extra_listeners m;
  controllers ← (if ClusterState.runs_controller (state m) then controller_listeners m else Ok []);
  Ok ([internal] ++ clients ++ externals ++ extras ++ controllers)%list.

(** *** TLS *)

Definition truststore_password m := KafkaBroker.truststore_password (unit_broker m).
Definition keystore_password m := KafkaBroker.keystore_password (unit_broker m).

Definition tls_properties m : result (list string) :=
  controllers ← controller_listeners m;
  internal ← internal_listener m;
  let per_listener l :=
    let listener_name := str_lower (name l) in
    ["listener.name." ++ listener_name ++ ".ssl.truststore.location="
       ++ CharmedKafkaPaths.peer_truststore BROKER_ROLE;
     "listener.name." ++ listener_name ++ ".ssl.truststore.password=" ++ truststore_password m;
     "listener.name." ++ listener_name ++ ".ssl.keystore.location="
       ++ CharmedKafkaPaths.peer_keystore BROKER_ROLE;
     "listener.name." ++ listener_name ++ ".ssl.keystore.password=" ++ keystore_password m] in
  let properties := concat (per_listener <$> (controllers ++ [internal])%list) in
  if negb (all_true [ClusterState.tls_enabled (state m);
                     TLSState.ready CLIENT_SCOPE (KafkaBroker.data (unit_broker m))])
  then Ok properties
  else Ok (properties ++
    ["ssl.truststore.location=" +:+ CharmedKafkaPaths.truststore BROKER_ROLE;
     "ssl.truststore.password=" +:+ truststore_password m;
     "ssl.keystore.location=" +:+ CharmedKafkaPaths.keystore BROKER_ROLE;
     "ssl.keystore.password=" +:+ keystore_password m])%list.

Definition client_tls_properties m : list string :=
  ["ssl.truststore.location=" ++ CharmedKafkaPaths.peer_truststore BROKER_ROLE;
   "ssl.truststore.password=" ++ truststore_password m;
   "ssl.keystore.location=" ++ CharmedKafkaPaths.peer_keystore BROKER_ROLE;
   "ssl.keystore.password=" ++ keystore_password m].

Definition mtls_properties m : result (list string) :=
  mtls ← ClusterState.has_mtls_clients (state m);
  Ok (if negb mtls then [] else ["ssl.client.auth=required"]).

(** *** SCRAM *)

Definition user_password m (user : string) : string :=
  dict_get_or user "" (KafkaCluster.internal_user_credentials (ClusterState.cluster (state m))).

Definition SCRAM_LOGIN : string := "org.apache.kafka.common.security.scram.ScramLoginModule required".

(** [username="u" password="p"] *)
Definition jaas_credentials (username password : string) : string :=
  "username=" ++ quoted username ++ " password=" ++ quoted password.

Definition scram_listener_properties m (auth : listener) : list string :=
  let mech := mechanism_str (mechanism (auth_map auth)) in
  if negb (startswith "SCRAM" mech) then []
  else
    ["listener.name." ++ str_lower (name auth) ++ "." ++ str_lower mech ++ ".sasl.jaas.config="
       ++ SCRAM_LOGIN ++ " " ++ jaas_credentials INTER_BROKER_USER (user_password m INTER_BROKER_USER) ++ ";";
     "listener.name." ++ str_lower (name auth) ++ ".sasl.enabled.mechanisms=" ++ mech].

Definition scram_properties m : result (list string) :=
  internal ← internal_listener m;
  clients ← client_listeners m;
  externals ← external_listeners m;
  extras ← extra_listeners m;
  let username := INTER_BROKER_USER in
  let password := user_password m INTER_BROKER_USER in
  let admin_password := user_password m ADMIN_USER in
  let listener_name := str_lower (name internal) in
  let mech := mechanism_str (mechanism (auth_map internal)) in
  Ok (["listener.name." +:+ listener_name +:+ "." +:+ str_lower mech +:+ ".sasl.jaas.config="
         +:+ SCRAM_LOGIN +:+ " " +:+ jaas_credentials username password
         +:+ " user_" +:+ ADMIN_USER +:+ "=" +:+ quoted admin_password
         +:+ " user_" +:+ username +:+ "=" +:+ quoted password +:+ ";";
       "listener.name." +:+ listener_name +:+ ".sasl.enabled.mechanisms=" +:+ mech]
      ++ concat (scram_listener_properties m <$> (clients ++ externals ++ extras)))%list.

Definition controller_scram_properties m : result (list string) :=
  p ← ClusterState.peer_cluster (state m);
  controllers ← controller_listeners m;
  let password := PeerCluster.controller_password p in
  Ok (concat ((λ l,
    let mech := mechanism_str (mechanism (auth_map l)) in
    let listener_name := str_lower (name l) in
    ["sasl.mechanism.controller.protocol=" ++ mech;
     "listener.name." ++ listener_name ++ "." ++ str_lower mech ++ ".sasl.jaas.config="
       ++ SCRAM_LOGIN ++ " " ++ jaas_credentials CONTROLLER_USER password
       ++ " user_" ++ CONTROLLER_USER ++ "=" ++ quoted password ++ ";";
     "listener.name." ++ listener_name ++ ".sasl.enabled.mechanisms=" ++ mech]) <$> controllers)).

(** *** OAuth *)

Definition oauth_properties m : result (list string) :=
  match oauth_relation (state m) with
  | None => Ok []
  | Some oauth =>
      clients ← client_listeners m;
      match filter (λ l, startswith "OAUTH" (mechanism_str (mechanism (auth_map l))) = true) clients with
      | [] => Err (IndexError "list index out of range")
      | l :: _ =>
          let mech := mechanism_str (mechanism (auth_map l)) in
          let prefix := "listener.name." ++ str_lower (name l) in
          let validation_cfg :=
            if OAuth.jwt_access_token oauth
            then "oauth.jwks.endpoint.uri=" ++ quoted (OAuth.jwks_endpoint oauth)
            else "oauth.introspection.endpoint.uri=" ++ quoted (OAuth.introspection_endpoint oauth) in
          let truststore_cfg :=
            if negb (oauth_uses_trusted_ca m)
            then "oauth.ssl.truststore.location=" ++ quoted (CharmedKafkaPaths.truststore BROKER_ROLE)
                 ++ " oauth.ssl.truststore.password=" ++ quoted (truststore_password m)
                 ++ " oauth.ssl.truststore.type=" ++ quoted "JKS"
            else "" in
          Ok [str_join " "
                [prefix ++ "." ++ str_lower mech ++ ".sasl.jaas.config=org.apache.kafka.common.security.oauthbearer.OAuthBearerLoginModule required";
                 "oauth.client.id=" ++ quoted "kafka";
                 "oauth.valid.issuer.uri=" ++ quoted (OAuth.issuer_url oauth);
                 validation_cfg;
                 "oauth.username.claim=" ++ quoted "email";
                 "oauth.fallback.username.claim=" ++ quoted "client_id";
                 "oauth.check.audience=" ++ quoted "true";
                 "oauth.check.access.token.type=" ++ quoted "false";
                 "oauth.config.id=" ++ quoted (name l);
                 "unsecuredLoginStringClaim_sub=" ++ quoted "unused";
                 truststore_cfg; ";"];
              prefix ++ "." ++ str_lower mech ++ ".sasl.server.callback.handler.class=io.strimzi.kafka.oauth.server.JaasServerOauthValidatorCallbackHandler";
              prefix ++ ".sasl.enabled.mechanisms=" ++ mech;
              "principal.builder.class=io.strimzi.kafka.oauth.server.OAuthKafkaPrincipalBuilder"]
      end
  end.

(** *** Rack awareness *)

Definition rack_properties m : list string :=
  Workload.read (CharmedKafkaPaths.conf_path BROKER_ROLE ++ "/rack.properties") (workload m).

Fixpoint rack_of (items : list string) : result string :=
  match items with
  | [] => Ok ""
  | item :: items =>
      if contains "broker.rack" item then
        match split_char "=" item !! 1%nat with
        | Some v => Ok v
        | None => Err (IndexError "list index out of range")
        end
      else rack_of items
  end.
Definition rack m : result string := rack_of (rack_properties m).

(** *** Internal clients *)

Definition build_internal_client_properties (username : string) (prefix : option string) m
    : result (list string) :=
  password ← (if (username =? ADMIN_USER)%string
              then p ← ClusterState.peer_cluster (state m); Ok (PeerCluster.broker_password p)
              else Ok (user_password m username));
  server ← ClusterState.bootstrap_server_internal (state m);
  let properties :=
    (["sasl.jaas.config=" +:+ SCRAM_LOGIN +:+ " " +:+ jaas_credentials username password +:+ ";";
      "sasl.mechanism=" +:+ mechanism_str (mechanism (ClusterState.internal_auth (state m)));
      "security.protocol=" +:+ protocol_str (protocol (ClusterState.internal_auth (state m)));
      "bootstrap.servers=" +:+ server] ++ client_tls_properties m)%list in
  Ok ((λ prop, match prefix with
               | Some p => if truthy p then p ++ "." ++ prop else prop
               | None => prop
               end) <$> properties).

Definition client_properties m : result (list string) :=
  build_internal_client_properties ADMIN_USER None m.
Definition metrics_reporter_properties m : result (list string) :=
  build_internal_client_properties ADMIN_USER (Some "cruise.control.metrics.reporter") m.

Definition authorizer_class : list string :=
  ["authorizer.class.name=org.apache.kafka.metadata.authorizer.StandardAuthorizer"].

(** *** The properties of the service *)

Definition controller_properties m : result (list string) :=
  unit_id ← KafkaBroker.unit_id (unit_broker m);
  let runs_broker := ClusterState.runs_broker (state m) in
  let roles := ((if runs_broker then ["broker"] else [])
    ++ (if ClusterState.runs_controller (state m) then ["controller"] else []))%list in
  let node_id := if runs_broker then unit_id + KRAFT_NODE_ID_OFFSET else unit_id in
  p ← ClusterState.peer_cluster (state m);
  controllers ← controller_listeners m;
  scram ← controller_scram_properties m;
  Ok (["process.roles=" +:+ str_join "," roles;
       "node.id=" +:+ str_of_Z node_id;
       "controller.quorum.bootstrap.servers=" +:+ PeerCluster.bootstrap_controller p;
       "controller.listener.names=" +:+ str_join "," (name <$> controllers)] ++ scram)%list.

Definition translate_config_key (key : string) : string :=
  if negb (bool_decide (key ∈ SERVER_PROPERTIES_BLACKLIST)) then replace_char "_" "." key
  else "# " ++ key.
Definition config_properties m : list string :=
  omap (M := list) (λ '(conf_key, value),
    v ← value; Some (translate_config_key conf_key ++ "=" ++ v)) (config_dict (config m)).

Definition server_properties m : result (list string) :=
  all ← all_listeners m;
  let protocol_maps := Listener.protocol_map <$> all in
  listeners_repr ← traverse listener_repr all;
  advertised ← traverse advertised_listener all;
  controllers ← controller_listeners m;
  controller_advertised ← traverse advertised_listener controllers;
  let controller_protocol_map := Listener.protocol_map <$> controllers in
  super_users ← ClusterState.super_users (state m);
  let common := ["super.users=" ++ super_users;
                 "log.dirs=" ++ ClusterState.log_dirs (state m);
                 "metadata.log.dir=" ++ ClusterState.metadata_log_dir (state m)] in
  if ClusterState.runs_controller_only (state m) then
    controller_props ← controller_properties m;
    tls ← tls_properties m;
    Ok (common ++ ["listeners=" +:+ str_join "," controller_advertised;
                   "listener.security.protocol.map=" +:+ str_join "," controller_protocol_map]
        ++ controller_props ++ authorizer_class ++ tls)%list
  else
    let protocol_maps :=
      if ClusterState.runs_broker_only (state m) then (protocol_maps ++ controller_protocol_map)%list
      else protocol_maps in
    internal ← internal_listener m;
    scram ← scram_properties m;
    oauth ← oauth_properties m;
    controller_props ← controller_properties m;
    tls ← tls_properties m;
    mtls ← mtls_properties m;
    p ← ClusterState.peer_cluster (state m);
    reporter ← (if ClusterState.runs_balancer (state m)
                   || contains (role_value BALANCER_ROLE) (PeerCluster.roles p)
                then r ← metrics_reporter_properties m;
                     Ok (splitlines KAFKA_CRUISE_CONTROL_OPTIONS ++ r)%list
                else Ok []);
    Ok (common ++ ["listener.security.protocol.map=" +:+ str_join "," protocol_maps;
                   "listeners=" +:+ str_join "," listeners_repr;
                   "advertised.listeners=" +:+ str_join "," advertised;
                   "inter.broker.listener.name=" +:+ name internal]
        ++ scram ++ oauth ++ config_properties m ++ default_replication_properties m
        ++ rack_properties m ++ split_char newline DEFAULT_CONFIG_OPTIONS ++ authorizer_class
        ++ controller_props ++ tls ++ mtls ++ reporter
        ++ (if (profile (config m) =? PROFILE_TESTING)%string
            then split_char newline TESTING_OPTIONS else []))%list.

(** The broker's properties without those of Cruise Control and TLS. *)
Definition controller_kraft_client_properties m : result (list string) :=
  p ← ClusterState.peer_cluster (state m);
  server ← server_properties m;
  reporter ← metrics_reporter_properties m;
  tls ← tls_properties m;
  internal ← internal_listener m;
  let password := PeerCluster.controller_password p in
  let stripped_properties := sorted_set
    ((list_to_set server : gset string) ∖
     list_to_set (splitlines KAFKA_CRUISE_CONTROL_OPTIONS ++ reporter ++ tls)%list) in
  Ok (stripped_properties
      ++ ["sasl.jaas.config=" +:+ SCRAM_LOGIN +:+ " " +:+ jaas_credentials CONTROLLER_USER password +:+ ";";
          "sasl.mechanism=" +:+ mechanism_str (mechanism (auth_map internal));
          "security.protocol=" +:+ protocol_str (protocol (auth_map internal));
          "default.api.timeout.ms=20000"; "request.timeout.ms=10000"]
      ++ client_tls_properties m)%list.

(** *** Writing the files *)

Definition with_workload (c : container) m : config_manager :=
  mkManager (state m) (config m) c (http_proxy m) (https_proxy m) (no_proxy m)
    (oauth_uses_trusted_ca m).

Definition set_server_properties m : result config_manager :=
  lines ← server_properties m;
  Ok (with_workload (Workload.write (str_join nl lines)
        (CharmedKafkaPaths.server_properties BROKER_ROLE) (workload m)) m).

Definition set_client_properties m : result config_manager :=
  clients ← client_properties m;
  let m := with_workload (Workload.write (str_join nl clients)
             (CharmedKafkaPaths.client_properties BROKER_ROLE) (workload m)) m in
  kraft ← controller_kraft_client_properties m;
  Ok (with_workload (Workload.write (str_join nl kraft)
        (CharmedKafkaPaths.kraft_client_properties BROKER_ROLE) (workload m)) m).

Definition updated_env_list m : result (list string) :=
  opts ← kafka_opts m;
  Ok ([opts; kafka_jmx_opts; cc_jmx_opts; jvm_performance_opts; heap_opts (config m);
       log_level_opt (config m)]
      ++ auxiliary_paths (ClusterState.runs_broker (state m)) (ClusterState.runs_controller (state m)))%list.

Definition set_environment m : result config_manager :=
  env ← updated_env_list m;
  Ok (with_workload (Workload.write (updated_environment env (workload m)) ENVIRONMENT_PATH
        (workload m)) m).

(** The symmetric difference of the written lines and the current ones. *)
Definition properties_changed m : result (gset string) :=
  let current_properties := Workload.read (CharmedKafkaPaths.server_properties BROKER_ROLE) (workload m) in
  match current_properties with
  | [] => Ok ∅
  | _ =>
      lines ← server_properties m;
      let old : gset string := list_to_set current_properties in
      let new : gset string := list_to_set lines in
      Ok ((old ∖ new) ∪ (new ∖ old))
  end.
End config_manager.
Arguments config_manager D : clear implicits.
End ConfigManager.

(** ** The balancer's configuration *)

Module BalancerConfigManager.
Section balancer_config_manager.
Context {D : Type} `{RelationData D}.
Implicit Types m : ConfigManager.config_manager D.
Import ConfigManager.

Definition kafka_opts : string :=
  quoted_opts "KAFKA_OPTS"
    ["-Djava.security.auth.login.config=" ++ CharmedKafkaPaths.balancer_jaas BALANCER_ROLE].

Definition balance_thresholds m : list string :=
  (λ what, what ++ ".balance.threshold=" ++ cruisecontrol_balance_threshold (config m)) <$>
  ["cpu"; "disk"; "network.inbound"; "network.outbound"; "replica.count"; "leader.replica.count"].
Definition capacity_thresholds m : list string :=
  (λ what, what ++ ".capacity.threshold=" ++ cruisecontrol_capacity_threshold (config m)) <$>
  ["disk"; "cpu"; "network.inbound"; "network.outbound"].

(** The goals before their Java class names: those of the profile, and one for
    rack awareness when the brokers are in racks. *)
Definition goal_names (testing : bool) (racks : Z) (brokers : nat) : list string :=
  let goals := if testing then BALANCER_GOALS_TESTING else DEFAULT_BALANCER_GOALS in
  if (racks =? 0)%Z then goals
  else if Z.min 3 (Z.of_nat brokers) >? racks then (goals ++ ["RackAwareDistribution"])%list
  else (goals ++ ["RackAware"])%list.

Definition goal_class (goal : string) : string :=
  "com.linkedin.kafka.cruisecontrol.analyzer.goals." ++ goal ++ "Goal".

(** [any(hard_goal in goal for hard_goal in HARD_BALANCER_GOALS)] *)
Definition is_hard (goal : string) : bool :=
  any_true ((λ hard_goal, contains hard_goal goal) <$> HARD_BALANCER_GOALS).

Definition goals m : result (list string) :=
  p ← ClusterState.peer_cluster (state m);
  racks ← PeerCluster.racks p;
  brokers ← (if (racks =? 0)%Z then Ok 0%nat
             else c ← PeerCluster.broker_capacities p; ClusterState.capacities_length c);
  let default_goals := goal_class <$>
    goal_names (profile (config m) =? PROFILE_TESTING)%string racks brokers in
  Ok ["default.goals=" ++ str_join "," default_goals;
      "goals=" ++ str_join "," default_goals;
      "hard.goals=" ++ str_join "," (filter (λ g, is_hard g = true) default_goals)].

Definition cc_tls_properties m : list string :=
  ["ssl.truststore.location=" ++ CharmedKafkaPaths.peer_truststore BALANCER_ROLE;
   "ssl.truststore.password=" ++ truststore_password m;
   "ssl.keystore.location=" ++ CharmedKafkaPaths.peer_keystore BALANCER_ROLE;
   "ssl.keystore.password=" ++ keystore_password m;
   "ssl.client.auth=none"].

Definition cruise_control_properties m : result (list string) :=
  p ← ClusterState.peer_cluster (state m);
  goals ← goals m;
  Ok (["bootstrap.servers=" +:+ PeerCluster.broker_uris p;
       "sasl.jaas.config=" +:+ SCRAM_LOGIN +:+ " "
         +:+ jaas_credentials (PeerCluster.broker_username p) (PeerCluster.broker_password p) +:+ ";";
       "sasl.mechanism=" +:+ mechanism_str (mechanism (ClusterState.internal_auth (state m)));
       "security.protocol=" +:+ protocol_str (protocol (ClusterState.internal_auth (state m)));
       "capacity.config.file=" +:+ CharmedKafkaPaths.capacity_jbod_json BALANCER_ROLE;
       "webserver.security.enable=true";
       "webserver.auth.credentials.file=" +:+ CharmedKafkaPaths.cruise_control_auth BALANCER_ROLE]
      ++ split_char newline CRUISE_CONTROL_CONFIG_OPTIONS ++ goals ++ cc_tls_properties m
      ++ (if (profile (config m) =? PROFILE_TESTING)%string
          then split_char newline CRUISE_CONTROL_TESTING_OPTIONS else []))%list.

Definition set_cruise_control_properties m : result (config_manager D) :=
  lines ← cruise_control_properties m;
  Ok (with_workload (Workload.write (str_join nl lines)
        (CharmedKafkaPaths.cruise_control_properties BALANCER_ROLE) (workload m)) m).

Definition set_broker_capacities m : result (config_manager D) :=
  p ← ClusterState.peer_cluster (state m);
  capacities ← PeerCluster.broker_capacities p;
  Ok (with_workload (Workload.write (dumps capacities)
        (CharmedKafkaPaths.capacity_jbod_json BALANCER_ROLE) (workload m)) m).

Definition updated_env_list m : list string :=
  ([kafka_jmx_opts; cc_jmx_opts; jvm_performance_opts; heap_opts (config m); log_level_opt (config m);
   kafka_opts]
  ++ auxiliary_paths (ClusterState.runs_broker (state m)) (ClusterState.runs_controller (state m)))%list.

(** A unit that runs a broker leaves the environment to the broker. *)
Definition set_environment m : config_manager D :=
  let content := updated_environment (updated_env_list m) (workload m) in
  if negb (ClusterState.runs_broker (state m))
  then with_workload (Workload.write content ENVIRONMENT_PATH (workload m)) m else m.

Definition set_cruise_control_auth m : config_manager D :=
  let cluster := ClusterState.cluster (state m) in
  with_workload (Workload.write
    (KafkaCluster.balancer_username cluster ++ ": " ++ KafkaCluster.balancer_password cluster
       ++ ",ADMIN" ++ nl)
    (CharmedKafkaPaths.cruise_control_auth BALANCER_ROLE) (workload m)) m.
End balancer_config_manager.
End BalancerConfigManager.
