(* ===== verification/ConfigFacts.v ===== *)
(** * Properties of the configuration files

    Listeners do not clash; the environment file is merged, not overwritten;
    rewriting the properties leaves nothing to report; the bounds of the
    replication settings; the goals given to Cruise Control. *)

From S2P Require Import Prelude PyStr PyDict Json Literals StructuredConfig Models Cluster ClusterFacts Workload Config.
Import Listener ConfigManager.

Local Open Scope string_scope.
Local Open Scope Z_scope.

(** ** Names of listeners *)

(** The part of a listener's name before its count. *)
Definition name_base (s : Scope) (a : AuthMap) : string :=
  scope_str s ++ "_" ++ protocol_str (protocol a) ++ "_" ++ replace_char "-" "_" (mechanism_str (mechanism a)).
Definition name_suffix (n : Z) : string := if 0 <=? n then "_" ++ str_of_Z n else "".

Definition all_bases : list (Scope * AuthMap) :=
  s ← [INTERNAL; CLIENT; EXTERNAL; EXTRA; CONTROLLER];
  p ← [SASL_PLAINTEXT; SASL_SSL; SSL_PROTOCOL];
  m ← [SCRAM_SHA_512; OAUTHBEARER; SSL_MECHANISM];
  [(s, mkAuthMap p m)].

Lemma all_bases_complete s a : (s, a) ∈ all_bases.
Proof. destruct a as [[] []], s; vm_compute; repeat constructor. Qed.

(** No base is a prefix of another. *)
Lemma bases_prefix_free s a s' a' :
  startswith (name_base s a) (name_base s' a') = true → s = s' ∧ a = a'.
Proof.
  assert (Hall : forallb (λ x, forallb (λ y,
    implb (startswith (name_base x.1 x.2) (name_base y.1 y.2)) (bool_decide (x = y))) all_bases) all_bases = true)
    by (vm_compute; reflexivity).
  rewrite forallb_forall in Hall. intros Hp.
  specialize (Hall (s, a) (proj1 (list_elem_of_In _ _) (all_bases_complete s a))).
  rewrite forallb_forall in Hall.
  specialize (Hall (s', a') (proj1 (list_elem_of_In _ _) (all_bases_complete s' a'))).
  cbn [fst snd] in Hall. rewrite Hp in Hall. cbn [implb] in Hall.
  apply bool_decide_eq_true in Hall. by injection Hall as -> ->.
Qed.

Lemma append_prefix (a b s t : string) : a ++ s = b ++ t → startswith a b = true ∨ startswith b a = true.
Proof.
  revert b. induction a as [|c a IH]; intros b; [by left; destruct b|].
  destruct b as [|d b]; [by right|]. rewrite !append_cons. intros [= -> Hs].
  destruct (IH b Hs) as [Hp|Hp]; [left|right]; unfold startswith in *; cbn;
    by case_match.
Qed.

Definition lid (l : listener) : Scope * AuthMap * Z := (scope l, auth_map l, extra_count l).

(** The name of a listener determines its scope, authentication and count. *)
Lemma name_inj l l' : -1 ≤ extra_count l → -1 ≤ extra_count l' → name l = name l' → lid l = lid l'.
Proof.
  intros Hl Hl' Hn.
  assert (Hname : ∀ l, name l = name_base (scope l) (auth_map l) ++ name_suffix (extra_count l)).
  { intros k. unfold name, name_base, name_suffix. by rewrite !append_assoc. }
  rewrite !Hname in Hn.
  assert (Hb : scope l = scope l' ∧ auth_map l = auth_map l').
  { destruct (append_prefix _ _ _ _ Hn) as [Hp|Hp]; apply bases_prefix_free in Hp as [-> ->]; done. }
  destruct Hb as [Hs Ha]. unfold lid. rewrite Hs, Ha in *. apply append_inj_l in Hn.
  unfold name_suffix in Hn.
  destruct (Z.leb_spec 0 (extra_count l)), (Z.leb_spec 0 (extra_count l')); try done.
  - apply append_inj_l, str_of_Z_inj in Hn. by rewrite Hn.
  - f_equal; lia.
Qed.

(** ** The listeners of a unit *)

Section listeners.
Context {D : Type} `{RelationData D}.
Implicit Types m : config_manager D.

(** The base port of an entry of [extra_listeners]. *)
Definition base_of (entry : string) : result Z :=
  '(_, baseport) ← extra_entry entry; py_int baseport.

Definition extra_entries m : list string :=
  filter (λ l, has_char ":" l = true) (extra_listeners_option (config m)).

(** What is known of a listener, for the base ports and the authentication
    maps of the unit. *)
Definition listener_ok (bases : list Z) (auths : list AuthMap) (l : listener) : Prop :=
  match scope l with
  | INTERNAL | CONTROLLER => auth_map l = mkAuthMap SASL_SSL SCRAM_SHA_512 ∧ extra_count l = -1
  | CLIENT | EXTERNAL => auth_map l ∈ auths ∧ extra_count l = -1
  | EXTRA => auth_map l ∈ auths ∧
      ∃ i : nat, extra_count l = Z.of_nat i ∧ bases !! i = Some (baseport l)
  end.

Lemma extra_of_entry_spec uid bp n host auths ls :
  extra_of_entry uid bp n host auths = Ok ls →
  auth_map <$> ls = auths ∧
  Forall (λ l, scope l = EXTRA ∧ extra_count l = n ∧ py_int bp = Ok (baseport l)) ls.
Proof.
  revert host ls. induction auths as [|a auths IH]; intros host ls; cbn [extra_of_entry].
  { intros [= <-]. by repeat constructor. }
  rewrite result_bind_ok. intros (u & _ & (b & Hb & (rest & Hr & [= <-])%result_bind_ok)%result_bind_ok).
  destruct (IH _ _ Hr) as [<- Hf]. cbn. split; [done|]. by constructor.
Qed.

Lemma extra_of_entries_spec uid auths n entries ls :
  extra_of_entries uid (Ok auths) n entries = Ok ls →
  NoDup auths → 0 ≤ n →
  ∃ bases, (auths ≠ [] → traverse base_of entries = Ok bases) ∧ NoDup (lid <$> ls) ∧
    Forall (λ l, scope l = EXTRA ∧ auth_map l ∈ auths ∧
      ∃ i : nat, extra_count l = n + Z.of_nat i ∧ bases !! i = Some (baseport l)) ls.
Proof.
  intros Hls Hnd. revert n ls Hls. induction entries as [|e entries IH]; intros n ls; cbn [extra_of_entries].
  { intros [= <-] _. exists []. split_and!; [done|constructor|constructor]. }
  rewrite result_bind_ok. intros ([h bp] & He & Hr) Hn. cbn [mbind result_bind] in Hr.
  apply result_bind_ok in Hr as (here & Hh & (rest & Hr & [= <-])%result_bind_ok).
  apply extra_of_entry_spec in Hh as [Ha Hf]. rewrite Forall_forall in Hf.
  destruct (IH _ _ Hr) as (bases & Hb & Hnr & Hfr); [lia|]. rewrite Forall_forall in Hfr.
  destruct here as [|l0 here0] eqn:Eh.
  { exists bases. cbn in Ha. subst auths. split; [done|].
    cbn [app]. split; [done|]. apply Forall_forall. intros l Hl. destruct (Hfr l Hl) as (_ & Hin & _).
    by apply not_elem_of_nil in Hin. }
  rewrite <- Eh in *. exists (baseport l0 :: bases).
  assert (Hl0 : l0 ∈ here) by (rewrite Eh; apply list_elem_of_here).
  split_and!.
  - intros Hne. assert (Hbe : base_of e = Ok (baseport l0)).
    { unfold base_of. rewrite He. cbn [mbind result_bind]. by destruct (Hf l0 Hl0) as (_ & _ & ->). }
    cbn [traverse]. rewrite Hbe. cbn [mbind result_bind]. by rewrite Hb.
  - rewrite fmap_app. apply NoDup_app. split_and!; [|intros x Hx Hx'|done].
    + apply (NoDup_fmap_1 (λ x, x.1.2)). rewrite <- list_fmap_compose.
      rewrite (list_fmap_ext _ auth_map) by done. by rewrite Ha.
    + apply list_elem_of_fmap in Hx as (l & -> & Hl), Hx' as (l' & Hll & Hl').
      destruct (Hf l Hl) as (_ & Hc & _), (Hfr l' Hl') as (_ & _ & i & Hc' & _).
      injection Hll as _ _ Hcc. lia.
  - apply Forall_forall. intros l [Hl|Hl]%elem_of_app.
    + destruct (Hf l Hl) as (Hs & Hc & Hp). split; [done|]. split.
      * rewrite <- Ha. by apply list_elem_of_fmap_2.
      * exists 0%nat. split; [lia|]. cbn. destruct (Hf l0 Hl0) as (_ & _ & Hp0). congruence.
    + destruct (Hfr l Hl) as (Hs & Hin & i & Hc & Hb'). split; [done|]. split; [done|].
      exists (S i). split; [lia|done].
Qed.

Lemma external_of_auth_spec m a ls :
  external_of_auth m a = Ok ls →
  ls = [] ∨ ∃ l, ls = [l] ∧ scope l = EXTERNAL ∧ auth_map l = a ∧ extra_count l = -1.
Proof.
  unfold external_of_auth. destruct (listener_nodeport _ a) as [p|[]]; try done.
  - destruct (p =? 0); [intros [= <-]; by left|]. rewrite result_bind_ok.
    intros (ip & _ & [= <-]). right. eexists. by split_and!.
  - intros [= <-]. by left.
Qed.

Lemma external_listeners_spec m auths lss :
  traverse (external_of_auth m) auths = Ok lss → NoDup auths →
  NoDup (lid <$> concat lss) ∧
  Forall (λ l, scope l = EXTERNAL ∧ auth_map l ∈ auths ∧ extra_count l = -1) (concat lss).
Proof.
  intros Hl%traverse_ok. induction Hl as [|a ls auths lss Ha _ IH]; [by repeat constructor|].
  intros [Hna Hnd]%NoDup_cons. destruct (IH Hnd) as [Hn Hf]. rewrite Forall_forall in Hf.
  assert (Hf' : Forall (λ l, scope l = EXTERNAL ∧ auth_map l ∈ a :: auths ∧ extra_count l = -1) (concat lss)).
  { apply Forall_forall. intros l (? & ? & ?)%Hf. by repeat constructor. }
  cbn [concat]. apply external_of_auth_spec in Ha as [->|(l & -> & Hs & <- & Hc)]; [done|].
  cbn [app]. rewrite fmap_cons. split.
  - apply NoDup_cons. split; [|done]. intros (l' & Hll & Hl')%list_elem_of_fmap.
    destruct (Hf l' Hl') as (_ & Hin & _). injection Hll as _ Haa _. by rewrite <- Haa in Hin.
  - constructor; [|done]. split_and!; [done|apply list_elem_of_here|done].
Qed.

Lemma client_listeners_spec m auths ls :
  client_listeners m = Ok ls → ClusterState.enabled_auth (state m) = Ok auths →
  auth_map <$> ls = auths ∧ Forall (λ l, scope l = CLIENT ∧ extra_count l = -1) ls.
Proof.
  unfold client_listeners. intros Hl Ha. rewrite Ha in Hl. cbn [mbind result_bind] in Hl.
  apply traverse_ok in Hl. clear Ha. induction Hl as [|a l auths ls Hl _ [<- IH]]; [by repeat constructor|].
  apply result_bind_ok in Hl as (addr & _ & [= <-]). by repeat constructor.
Qed.
(** Lists of different scopes have no listener in common. *)
Lemma NoDup_by_scope (groups : list (Scope * list listener)) :
  NoDup groups.*1 →
  Forall (λ g : Scope * list listener, NoDup (lid <$> g.2) ∧ Forall (λ l, scope l = g.1) g.2) groups →
  NoDup (lid <$> concat groups.*2).
Proof.
  intros Hs Hg. induction Hg as [|[s ls] groups [Hn Hl] Hg IH]; [constructor|].
  cbn [fmap list_fmap fst snd concat] in *. apply NoDup_cons in Hs as [Hs Hgs].
  rewrite fmap_app. apply NoDup_app. split_and!; [done| |by apply IH].
  intros x (l & -> & Hin)%list_elem_of_fmap (l' & Hll & Hin')%list_elem_of_fmap.
  rewrite Forall_forall in Hl. cbn [fst snd] in *. apply Hs.
  apply list_elem_of_In, in_concat in Hin' as (ls' & Hls' & Hin'%list_elem_of_In).
  apply list_elem_of_In, list_elem_of_fmap in Hls' as ([s' ls''] & -> & Hgin).
  apply list_elem_of_fmap. exists (s', ls''). split; [|done]. cbn [fst snd] in *.
  rewrite Forall_forall in Hg. destruct (Hg _ Hgin) as [_ Hl']. cbn [fst snd] in Hl'.
  rewrite Forall_forall in Hl'. injection Hll as Hsc _ _. rewrite (Hl l Hin), (Hl' l' Hin') in Hsc. done.
Qed.

Lemma all_listeners_spec m ls :
  all_listeners m = Ok ls →
  ∃ auths bases, ClusterState.enabled_auth (state m) = Ok auths ∧
    (auths ≠ [] → traverse base_of (extra_entries m) = Ok bases) ∧
    NoDup (lid <$> ls) ∧ Forall (listener_ok bases auths) ls.
Proof.
  unfold all_listeners. rewrite result_bind_ok. intros (i & Hi & Hr).
  apply result_bind_ok in Hr as (cs & Hc & (es & He & (xs & Hx & (ks & Hk & [= <-])%result_bind_ok)%result_bind_ok)%result_bind_ok).
  assert (Ha : ∃ auths, ClusterState.enabled_auth (state m) = Ok auths).
  { unfold client_listeners in Hc. apply result_bind_ok in Hc as (auths & Ha & _). eauto. }
  destruct Ha as [auths Ha]. destruct (enabled_auth_wf _ _ Ha) as [Hnd _].
  assert (Hi' : scope i = INTERNAL ∧ auth_map i = mkAuthMap SASL_SSL SCRAM_SHA_512 ∧ extra_count i = -1)
    by (unfold internal_listener in Hi; by apply result_bind_ok in Hi as (a & _ & [= <-])).
  assert (Hk' : NoDup (lid <$> ks) ∧ Forall (λ l, scope l = CONTROLLER ∧
    auth_map l = mkAuthMap SASL_SSL SCRAM_SHA_512 ∧ extra_count l = -1) ks).
  { destruct (ClusterState.runs_controller (state m)); [|injection Hk as <-; repeat constructor].
    unfold controller_listeners in Hk.
    apply result_bind_ok in Hk as (l & (a & _ & [= <-])%result_bind_ok & [= <-]).
    split; [apply NoDup_singleton|by repeat constructor]. }
  apply (client_listeners_spec m auths) in Hc as [Hca Hcf]; [|done].
  assert (He' : NoDup (lid <$> es) ∧ Forall (λ l, scope l = EXTERNAL ∧ auth_map l ∈ auths ∧ extra_count l = -1) es).
  { unfold external_listeners in He. destruct (expose_external (state m)); [|injection He as <-; repeat constructor].
    rewrite Ha in He. cbn [mbind result_bind] in He.
    apply result_bind_ok in He as (lss & Hls & [= <-]). by apply (external_listeners_spec m). }
  unfold extra_listeners in Hx. rewrite Ha in Hx.
  apply extra_of_entries_spec in Hx as (bases & Hb & Hxn & Hxf); [|done|done].
  exists auths, bases. split; [done|]. split; [done|].
  destruct Hi' as (Hi1 & Hi2 & Hi3), Hk' as [Hkn Hkf], He' as [Hen Hef].
  assert (Hcn : NoDup (lid <$> cs)).
  { apply (NoDup_fmap_1 (λ x, x.1.2)). rewrite <- list_fmap_compose.
    rewrite (list_fmap_ext _ auth_map) by done. by rewrite Hca. }
  split.
  - pose proof (NoDup_by_scope [(INTERNAL, [i]); (CLIENT, cs); (EXTERNAL, es); (EXTRA, xs); (CONTROLLER, ks)]) as Hnd'.
    cbn [fmap list_fmap fst snd concat] in Hnd'. rewrite app_nil_r in Hnd'. apply Hnd'.
    + by apply (bool_decide_unpack _).
    + repeat apply Forall_cons_2; cbn [fst snd]; try apply Forall_nil_2; (split; [done || apply NoDup_singleton|]).
      * by repeat constructor.
      * eapply Forall_impl; [apply Hcf|]. by intros l [? _].
      * eapply Forall_impl; [apply Hef|]. by intros l [? _].
      * eapply Forall_impl; [apply Hxf|]. by intros l [? _].
      * eapply Forall_impl; [apply Hkf|]. by intros l [? _].
  - rewrite Forall_cons, !Forall_app. split_and!.
    + unfold listener_ok. by rewrite Hi1.
    + apply Forall_forall. intros l Hl. rewrite Forall_forall in Hcf. destruct (Hcf l Hl) as [Hs Hc].
      unfold listener_ok. rewrite Hs. split; [|done]. rewrite <- Hca. by apply list_elem_of_fmap_2.
    + eapply Forall_impl; [apply Hef|]. intros l (Hs & ? & ?). unfold listener_ok. by rewrite Hs.
    + eapply Forall_impl; [apply Hxf|]. intros l (Hs & ? & ?). unfold listener_ok. by rewrite Hs.
    + eapply Forall_impl; [apply Hkf|]. intros l (Hs & ? & ?). unfold listener_ok. by rewrite Hs.
Qed.
(** The listeners of a unit have pairwise distinct names, whatever the
    enabled authentications and the extra listeners. *)
Theorem listener_names_distinct m ls : all_listeners m = Ok ls → NoDup (name <$> ls).
Proof.
  intros (auths & bases & _ & _ & Hn & Hok)%all_listeners_spec.
  rewrite Forall_forall in Hok.
  assert (Hinj : ∀ l l', l ∈ ls → l' ∈ ls → name l = name l' → lid l = lid l').
  { assert (Hc : ∀ l, l ∈ ls → -1 ≤ extra_count l).
    { intros l Hl. specialize (Hok l Hl). unfold listener_ok in Hok.
      destruct (scope l); [lia..| |lia]. destruct Hok as (_ & i & -> & _). lia. }
    intros l l' Hl Hl'. apply name_inj; auto. }
  clear Hok. induction ls as [|l ls IH]; [constructor|]. cbn [fmap list_fmap] in *.
  apply NoDup_cons in Hn as [Hl Hn]. constructor.
  - intros (l' & Hname & Hl')%list_elem_of_fmap. apply Hl. apply list_elem_of_fmap. exists l'.
    split; [|done]. apply Hinj; [apply list_elem_of_here|by apply list_elem_of_further|done].
  - apply IH; [done|]. intros; apply Hinj; auto using list_elem_of_further.
Qed.

(** The validated base ports, as the listeners use them. *)
Lemma bases_of_ports entries os bs :
  traverse CharmConfig.listener_port entries = Ok os →
  traverse base_of (filter (λ l, has_char ":" l = true) entries) = Ok bs →
  omap (M := list) id os = bs.
Proof.
  revert os bs. induction entries as [|e entries IH]; intros os bs; [by intros [= <-] [= <-]|].
  cbn [traverse]. rewrite result_bind_ok. intros (o & Ho & (os' & Hos & [= <-])%result_bind_ok).
  rewrite filter_cons. unfold CharmConfig.listener_port in Ho. destruct (has_char ":" e) eqn:Ec; cbn [negb] in Ho.
  - rewrite decide_True by done. cbn [traverse]. rewrite result_bind_ok.
    intros (b & Hb & (bs' & Hbs & [= <-])%result_bind_ok).
    unfold base_of, extra_entry in Hb. destruct (split_char ":" e) as [|h [|p [|? ?]]]; try done.
    cbn [mbind result_bind] in Hb. destruct (isdigit p); [|done]. cbn [negb] in Ho. rewrite Hb in Ho.
    cbn [mbind result_bind] in Ho. destruct (negb _); [done|]. injection Ho as <-.
    cbn [omap list_omap id]. f_equal. by apply IH.
  - injection Ho as <-. rewrite decide_False by done. cbn [omap list_omap id]. by apply IH.
Qed.

Lemma ports_of_bounds a p : ports_of a = Ok p →
  9092 ≤ client p ≤ 9096 ∧ 29092 ≤ external p ≤ 29096.
Proof. destruct a as [[] []]; intros [= <-]; cbn; lia. Qed.

Lemma ports_of_inj a a' p p' : ports_of a = Ok p → ports_of a' = Ok p' →
  client p = client p' ∨ external p = external p' → a = a'.
Proof. destruct a as [[] []], a' as [[] []]; intros [= <-] [= <-]; cbn; intros [?|?]; done. Qed.

Lemma spaced_lookup bases (i j : nat) b b' :
  Sorted CharmConfig.spaced bases → bases !! i = Some b → bases !! j = Some b' →
  -100 ≤ b - b' ≤ 100 → i = j.
Proof.
  intros Hs%Sorted_StronglySorted Hi Hj Hd; [|apply CharmConfig.spaced_trans].
  destruct (decide (i = j)) as [|Hne]; [done|].
  assert (i < j ∨ j < i)%nat as [Hij|Hij] by lia;
    [pose proof (StronglySorted_lookup_lt _ _ _ _ _ _ Hs Hi Hj Hij) as Hlt
    |pose proof (StronglySorted_lookup_lt _ _ _ _ _ _ Hs Hj Hi Hij) as Hlt];
    unfold CharmConfig.spaced in Hlt; lia.
Qed.

(** Equal ports belong to the same listener, when the extra ones are based
    high enough. *)
Lemma port_inj bases auths l l' p :
  Sorted CharmConfig.spaced bases →
  listener_ok bases auths l → listener_ok bases auths l' →
  (scope l = EXTRA → 20004 < baseport l) → (scope l' = EXTRA → 20004 < baseport l') →
  port l = Ok p → port l' = Ok p → lid l = lid l'.
Proof.
  intros Hsp Hok Hok' Hb Hb' Hp Hp'. unfold port in Hp, Hp'.
  apply result_bind_ok in Hp as (q & Hq & Hp), Hp' as (q' & Hq' & Hp').
  pose proof (ports_of_bounds _ _ Hq) as Hqb. pose proof (ports_of_bounds _ _ Hq') as Hqb'.
  assert (Hfix : ∀ k r, ports_of k = Ok r → k = mkAuthMap SASL_SSL SCRAM_SHA_512 →
    internal r = 19093 ∧ controller r = 9098) by (intros k r Hk ->; by injection Hk as <-).
  unfold lid, listener_ok in *.
  destruct (scope l) eqn:Es, (scope l') eqn:Es'; cbn [decide decide_rel Scope_eq_dec port_field] in Hp, Hp';
    destruct Hok as [Ha Hc], Hok' as [Ha' Hc']; injection Hp as Hp; injection Hp' as Hp';
    try (destruct (Hfix _ _ Hq Ha)); try (destruct (Hfix _ _ Hq' Ha'));
    try (destruct Hc as (i & Hi & Hbi)); try (destruct Hc' as (j & Hj & Hbj));
    try specialize (Hb eq_refl); try specialize (Hb' eq_refl); try lia;
    try (rewrite Ha, Ha', Hc, Hc'; done);
    try (rewrite (ports_of_inj _ _ _ _ Hq Hq') by lia; congruence).
  assert (i = j) as <- by (eapply spaced_lookup; [done..|lia]).
  assert (baseport l = baseport l') by congruence.
  rewrite (ports_of_inj _ _ _ _ Hq Hq') by lia. congruence.
Qed.

(** C34: when the extra listeners passed validation and are based above port
    20004, the ports of the listeners of a unit are pairwise distinct. *)
Theorem listener_ports_distinct m ls value :
  all_listeners m = Ok ls →
  CharmConfig.extra_listeners_port_values value = Ok (extra_listeners_option (config m)) →
  (∀ l, l ∈ ls → scope l = EXTRA → 20004 < baseport l) →
  ∀ i j l l' p, ls !! i = Some l → ls !! j = Some l' → port l = Ok p → port l' = Ok p → i = j.
Proof.
  intros (auths & bases & _ & Hbases & Hn & Hok)%all_listeners_spec Hv Hlow i j l l' p Hi Hj Hp Hp'.
  apply CharmConfig.extra_listeners_spaced in Hv as (ports & (os & Hos & ->)%result_fmap_ok & Hsp).
  assert (Hs : Sorted CharmConfig.spaced bases ∨ auths = []).
  { destruct auths as [|a auths]; [by right|left].
    by rewrite <- (bases_of_ports _ _ _ Hos (Hbases ltac:(done))). }
  assert (Hsame : lid l = lid l').
  { pose proof (list_elem_of_lookup_2 _ _ _ Hi) as Hil. pose proof (list_elem_of_lookup_2 _ _ _ Hj) as Hjl.
    rewrite Forall_forall in Hok. destruct Hs as [Hs| ->].
    - eapply (port_inj bases auths l l'); eauto.
    - eapply (port_inj [] [] l l' p); eauto.
      + specialize (Hok l Hil). unfold listener_ok in *. destruct (scope l); try done.
        destruct Hok as [Hok _]. by apply not_elem_of_nil in Hok.
      + specialize (Hok l' Hjl). unfold listener_ok in *. destruct (scope l'); try done.
        destruct Hok as [Hok _]. by apply not_elem_of_nil in Hok. }
  eapply (NoDup_lookup (lid <$> ls)); [done|rewrite list_lookup_fmap, Hi; done|].
  by rewrite list_lookup_fmap, Hj, Hsame.
Qed.
End listeners.

(** ** A concrete unit *)

(** An application with both roles and no peer-cluster relation, one client,
    exposed by node ports, with two extra listeners. *)
Definition config_with (extra : list string) : charm_config :=
  mkConfig "production" "INFO" extra "1.1" "0.8"
    [("profile", Some "production"); ("log_retention_ms", Some "-1"); ("compression_type", None)].
Definition exposed_state : cluster_state bag :=
  mkState "broker,controller" 50000 (Some "nodeport") "kafka/0" true
    (Some (mkPeerData sample_app sample_unit []))
    [mkClientRelation 9 (Some "app") ∅ ∅
       (KafkaClient.mkRequest None "topic" None (Some "MTLS CERT") []) []]
    None None None [] (Some false) false ["/var/lib/kafka/data/0"] 2
    (mkK8sView (λ _, Ok "10.0.0.1") (λ _, Ok 31000) (λ _, Ok 31001)).
Definition sample_manager (extra : list string) : config_manager bag :=
  mkManager exposed_state (config_with extra) (mkContainer true ∅ ∅ ∅) None None None true.

Lemma listener_names_distinct_witness :
  match all_listeners (sample_manager ["h{unit}:30000"; "g:30101"]) with
  | Ok ls => length ls = 10%nat ∧ NoDup (name <$> ls)
  | Err _ => False
  end.
Proof.
  assert (Hl : (length <$> all_listeners (sample_manager ["h{unit}:30000"; "g:30101"])) = Ok 10%nat)
    by (vm_compute; reflexivity).
  destruct (all_listeners _) as [ls|] eqn:E; [|done]. split; [by injection Hl|].
  exact (listener_names_distinct _ _ E).
Defined.

(** The ports of a unit's listeners, in order. *)
Definition ports_of_unit (extra : list string) : result (list Z) :=
  ls ← all_listeners (sample_manager extra); traverse port ls.

Lemma listener_ports_distinct_witness :
  match all_listeners (sample_manager ["h{unit}:30000"; "g:30101"]) with
  | Ok ls => ∀ i j l l' p, ls !! i = Some l → ls !! j = Some l' → port l = Ok p → port l' = Ok p → i = j
  | Err _ => False
  end.
Proof.
  assert (Hb : (forallb (λ l, 20004 <? baseport l) <$> all_listeners (sample_manager ["h{unit}:30000"; "g:30101"])) = Ok true)
    by (vm_compute; reflexivity).
  destruct (all_listeners _) as [ls|] eqn:E; [|done].
  apply (listener_ports_distinct (sample_manager ["h{unit}:30000"; "g:30101"]) ls "h{unit}:30000,g:30101" E); [reflexivity|].
  intros l Hl _. injection Hb as Hb. rewrite forallb_forall in Hb. apply Z.ltb_lt, Hb. by apply list_elem_of_In.
Defined.

(** Below that bound an accepted extra listener takes the port of an external
    one: 9092 + 20002 = 29094. *)
Example extra_and_external_clash :
  is_ok (CharmConfig.extra_listeners_port_values "h:20002") = true ∧
  ports_of_unit ["h:20002"] = Ok [19093; 9092; 9094; 29092; 29094; 29094; 29096; 9098].
Proof. split; vm_compute; reflexivity. Qed.

(** An entry with two colons is accepted too, and the listeners raise. *)
Example extra_entry_two_colons :
  CharmConfig.extra_listeners_port_values "h:30000:x" = Ok ["h:30000:x"] ∧
  ports_of_unit ["h:30000:x"] = Err (ValueError "too many values to unpack (expected 2)").
Proof. split; vm_compute; reflexivity. Qed.

(** ** The environment file *)

(** A variable that can be written and parsed back. *)
Definition env_var_ok (kv : string * string) : Prop :=
  kv.1 ≠ "" ∧ lacks "=" kv.1 = true ∧ lacks newline kv.1 = true ∧ lacks newline kv.2 = true.
Definition env_ok (env : list (string * string)) : Prop := dict_wf env ∧ Forall env_var_ok env.

Lemma split_once_parts c p s k v :
  split_once c s = (k, v) → str_forall p s = true →
  lacks c k = true ∧ str_forall p k = true ∧ str_forall p (default "" v) = true.
Proof.
  revert k v. induction s as [|d s IH]; intros k v; cbn [split_once str_forall]; [by intros [= <- <-]|].
  intros Hs [Hd Hp]%andb_true_iff. destruct (d =? c)%char eqn:E.
  - by injection Hs as <- <-.
  - destruct (split_once c s) as [k' v'] eqn:Es. injection Hs as <- <-.
    destruct (IH k' v' eq_refl Hp) as (? & ? & ?). unfold lacks in *. cbn. rewrite E, Hd. done.
Qed.

Lemma dict_set_env_ok k v env : env_ok env → env_var_ok (k, v) → env_ok (dict_set k v env).
Proof.
  intros [Hwf Hf] Hkv. split; [by apply dict_set_wf|].
  induction env as [|[k0 v0] env IH]; cbn; [by apply Forall_singleton|].
  apply Forall_cons in Hf as [H0 Hf]. case_decide.
  - constructor; [|done]. destruct H0 as (? & ? & ? & _), Hkv as (_ & _ & _ & ?). by repeat split.
  - constructor; [done|]. apply IH; [|done]. by apply NoDup_cons in Hwf as [_ ?].
Qed.

Lemma map_env_ok lines :
  Forall (λ l, lacks newline l = true) lines → env_ok (map_env lines).
Proof.
  unfold map_env. intros Hl.
  assert (Hgen : ∀ acc, env_ok acc → env_ok (foldl (λ acc var, let '(k, v) := env_entry var in
    if truthy k then dict_set k v acc else acc) acc lines)).
  { induction Hl as [|l lines Hl _ IH]; intros acc Hacc; [done|]. cbn [foldl]. apply IH.
    unfold env_entry. destruct (split_once "=" l) as [k v] eqn:E.
    destruct (split_once_parts _ _ _ _ _ E Hl) as (Hk & Hkn & Hvn).
    destruct (truthy k) eqn:Ek; destruct v; cbn [default id] in Hvn; rewrite ?Ek; try done;
      apply dict_set_env_ok; try done; apply truthy_true in Ek; by repeat split. }
  apply Hgen. split; [constructor|constructor].
Qed.

Lemma update_env_ok env updates : env_ok env → env_ok updates → env_ok (dict_update env updates).
Proof.
  intros He [_ Hf]. revert env He. unfold dict_update.
  induction Hf as [|[k v] updates Hkv _ IH]; intros env He; [done|]. cbn [foldl].
  apply IH. by apply dict_set_env_ok.
Qed.

(** Parsing what is printed. *)
Lemma map_print_env env :
  env_ok env → map_env (split_char newline (print_env env)) = env.
Proof.
  intros [Hwf Hf]. destruct env as [|kv env]; [done|]. unfold print_env.
  rewrite split_join_char; [|done|].
  - assert (Hgen : ∀ env acc, Forall env_var_ok env →
      foldl (λ acc var, let '(k, v) := env_entry var in if truthy k then dict_set k v acc else acc)
        acc ((λ '(k, v), k ++ "=" ++ v) <$> env) = dict_update acc env).
    { clear. induction env as [|[k v] env IH]; intros acc Hf; [done|].
      apply Forall_cons in Hf as [(Hk & He & _) Hf]. rewrite fmap_cons. cbn [foldl].
      unfold env_entry at 2. cbn [fst] in *. change ("=" ++ v) with (String "=" v).
      rewrite split_once_app by done. rewrite (proj2 (truthy_true k) Hk). by apply IH. }
    unfold map_env. rewrite Hgen by done. exact (dict_of_list_id (kv :: env) Hwf).
  - apply Forall_fmap. eapply Forall_impl; [exact Hf|]. intros [k v] (_ & _ & Hk & Hv).
    unfold compose. cbn [fst snd] in Hk, Hv. by rewrite !lacks_app, Hk, Hv.
Qed.

(** What the environment file reads after it is updated, and that updating it
    again with the same variables writes the same text. *)
Lemma updated_environment_spec env c :
  Forall (λ l, lacks newline l = true) env →
  let c' := Workload.write (updated_environment env c) ENVIRONMENT_PATH c in
  map_env (Workload.read ENVIRONMENT_PATH c') =
    dict_update (map_env (Workload.read ENVIRONMENT_PATH c)) (map_env env) ∧
  updated_environment env c' = updated_environment env c.
Proof.
  intros Henv c'. apply map_env_ok in Henv as Hok.
  assert (Hcur : env_ok (map_env (Workload.read ENVIRONMENT_PATH c))).
  { apply map_env_ok. unfold Workload.read. destruct (files c !! _); [apply split_char_parts|constructor]. }
  assert (Hread : map_env (Workload.read ENVIRONMENT_PATH c') =
    dict_update (map_env (Workload.read ENVIRONMENT_PATH c)) (map_env env)).
  { unfold c' at 1, Workload.read at 1, Workload.write. cbn [files]. rewrite lookup_insert_eq.
    apply map_print_env. by apply update_env_ok. }
  split; [done|]. unfold updated_environment at 1. cbv zeta. rewrite Hread.
  unfold updated_environment. cbv zeta. f_equal. apply dict_update_same, Forall_forall.
  intros [k v] Hkv. cbn [fst snd]. rewrite dict_get_update_wf by apply Hok.
  by rewrite (dict_elem_get k v) by (try apply Hok; done).
Qed.

Section files.
Context {D : Type} `{RelationData D}.
Implicit Types m : config_manager D.

(** [set_environment] merges its variables into the environment file:
    each has its new value afterwards, every other variable of the file keeps
    its own, and calling it again changes nothing. *)
Theorem set_environment_spec m m' env :
  updated_env_list m = Ok env → Forall (λ l, lacks newline l = true) env →
  set_environment m = Ok m' →
  (∀ k, dict_get k (map_env (Workload.read ENVIRONMENT_PATH (workload m'))) =
     match dict_get k (map_env env) with
     | Some v => Some v
     | None => dict_get k (map_env (Workload.read ENVIRONMENT_PATH (workload m)))
     end) ∧
  set_environment m' = Ok m'.
Proof.
  intros Henv Hl Hset. unfold set_environment in Hset. rewrite Henv in Hset.
  cbn [mbind result_bind] in Hset. injection Hset as <-.
  destruct (updated_environment_spec env (workload m) Hl) as [Hr Hi]. split.
  - intros k. cbn [with_workload workload]. rewrite Hr. apply dict_get_update_wf. by apply map_env_ok.
  - unfold set_environment. change (updated_env_list (with_workload _ m)) with (updated_env_list m).
    rewrite Henv. cbn [mbind result_bind with_workload workload]. rewrite Hi.
    by rewrite write_twice.
Qed.

Lemma server_properties_workload c m :
  rack_properties (with_workload c m) = rack_properties m →
  server_properties (with_workload c m) = server_properties m.
Proof. intros Hrack. unfold server_properties. rewrite Hrack. reflexivity. Qed.

(** Right after the properties are written, none is reported as changed. *)
Lemma written_unchanged m lines :
  server_properties m = Ok lines → lines ≠ [] → Forall (λ l, lacks newline l = true) lines →
  ∃ m', set_server_properties m = Ok m' ∧ properties_changed m' = Ok ∅.
Proof.
  intros Hs Hne Hl. unfold set_server_properties. rewrite Hs. cbn [mbind result_bind]. eexists; split; [done|].
  unfold properties_changed. cbn [with_workload workload]. unfold nl. rewrite read_write by done.
  destruct lines as [|x lines]; [done|].
  rewrite server_properties_workload, Hs; [|by apply read_write_ne].
  cbn [mbind result_bind]. f_equal. set_solver.
Qed.


(** With at least one planned unit the replication factor is between one
    and three and never above the number of units, and a topic can lose a
    replica and stay writable as soon as there are two. *)
Theorem replication_bounds m :
  1 ≤ planned_units (state m) →
  1 ≤ replication_factor m ≤ 3 ∧ replication_factor m ≤ planned_units (state m) ∧
  1 ≤ min_isr m ≤ replication_factor m ∧
  (2 ≤ planned_units (state m) → min_isr m = replication_factor m - 1) ∧
  (∃ rest, default_replication_properties m =
     ("default.replication.factor=" ++ str_of_Z (replication_factor m)) :: rest).
Proof. intros Hp. unfold min_isr, replication_factor. split_and!; try lia. by eexists. Qed.

(** Another balance and capacity threshold. *)
Definition with_thresholds (balance capacity : string) m : config_manager D :=
  let c := config m in
  mkManager (state m)
    (mkConfig (profile c) (log_level c) (extra_listeners_option c) balance capacity (config_dict c))
    (workload m) (http_proxy m) (https_proxy m) (no_proxy m) (oauth_uses_trusted_ca m).

(** The thresholds the user configures for Cruise Control have no effect
    on the file Cruise Control is given. *)
Theorem thresholds_ignored balance capacity m :
  BalancerConfigManager.cruise_control_properties (with_thresholds balance capacity m) =
  BalancerConfigManager.cruise_control_properties m.
Proof. reflexivity. Qed.
End files.

(** The goals of Cruise Control marked as hard are the six of the charm's
    list and two more, whose names merely contain one of the six; so it is for
    every profile and any number of racks and brokers. *)
Theorem hard_goals_spec testing racks brokers g :
  g ∈ BalancerConfigManager.goal_names testing racks brokers →
  BalancerConfigManager.is_hard (BalancerConfigManager.goal_class g) = true ↔
  g ∈ HARD_BALANCER_GOALS ∨ g = "LeaderReplicaDistribution" ∨ g = "TopicReplicaDistribution".
Proof.
  assert (Hall : Forall (λ g, BalancerConfigManager.is_hard (BalancerConfigManager.goal_class g) =
    bool_decide (g ∈ HARD_BALANCER_GOALS ∨ g = "LeaderReplicaDistribution" ∨ g = "TopicReplicaDistribution"))
    (DEFAULT_BALANCER_GOALS ++ BALANCER_GOALS_TESTING ++ ["RackAwareDistribution"; "RackAware"])%list)
    by (apply (bool_decide_unpack _); vm_compute; exact I).
  rewrite Forall_forall in Hall. intros Hg. rewrite Hall; [apply bool_decide_eq_true|].
  unfold BalancerConfigManager.goal_names in Hg. cbv zeta in Hg.
  rewrite !elem_of_app, elem_of_cons, list_elem_of_singleton.
  destruct testing; (case_match; [tauto|]); case_match;
    rewrite elem_of_app, list_elem_of_singleton in Hg; tauto.
Qed.

Lemma set_environment_spec_witness :
  let m := with_workload (mkContainer true {[ ENVIRONMENT_PATH := "PATH=/bin:/usr/bin" ]} ∅ ∅) (sample_manager []) in
  match set_environment m with
  | Ok m' => dict_get "PATH" (map_env (Workload.read ENVIRONMENT_PATH (workload m'))) = Some "/bin:/usr/bin"
  | Err _ => False
  end.
Proof.
  intros m. assert (Hok : is_ok (set_environment m) = true) by (vm_compute; reflexivity).
  destruct (set_environment m) as [m'|] eqn:E; [|done].
  destruct (updated_env_list m) as [env|] eqn:Eenv; [|vm_compute in Eenv; done].
  assert (Hl : (forallb (λ l, lacks newline l) <$> updated_env_list m) = Ok true) by (vm_compute; reflexivity).
  assert (Hp : (dict_get "PATH" ∘ map_env <$> updated_env_list m) = Ok None) by (vm_compute; reflexivity).
  rewrite Eenv in Hl, Hp. injection Hl as Hl. injection Hp as Hp. unfold compose in Hp.
  destruct (set_environment_spec m m' env Eenv) as [Hk _]; [|done|].
  - apply Forall_forall. intros l Hin. rewrite forallb_forall in Hl. apply Hl. by apply list_elem_of_In.
  - rewrite Hk, Hp. vm_compute. reflexivity.
Defined.


Lemma replication_bounds_witness :
  replication_factor (sample_manager []) = 2 ∧ min_isr (sample_manager []) = 1.
Proof.
  destruct (replication_bounds (sample_manager [])) as (_ & _ & _ & H2 & _); [done|].
  split; [reflexivity|]. rewrite H2; done.
Defined.

Lemma hard_goals_spec_witness :
  ("LeaderReplicaDistribution" ∉ HARD_BALANCER_GOALS) ∧
  BalancerConfigManager.is_hard (BalancerConfigManager.goal_class "LeaderReplicaDistribution") = true.
Proof.
  split; [by apply (bool_decide_unpack _)|].
  apply (hard_goals_spec false 0 0 "LeaderReplicaDistribution").
  - by apply (bool_decide_unpack _).
  - right. by left.
Defined.
