(* ===== verification/Controller.v ===== *)
(** * The KRaft controller (managers/controller.py, events/controller.py)

    The commands of [ControllerManager], the parsing of the quorum's status
    and what is derived from it; the handlers of [KRaftHandler] as functions
    on the state, the values they generate and the tool's answers being
    arguments. A handler returns the state it leaves, or the exception it
    raises. *)

From S2P Require Import Prelude PyStr PyDict Json Literals Models Cluster ClusterFacts Workload Config.

Local Open Scope string_scope.
Local Open Scope Z_scope.

(** [tenacity.retry] with [reraise=True]: the first attempt that returns, or
    the error of the last one. *)
Fixpoint retry {A} (stop_after : nat) (attempt : nat → result A) : result A :=
  match stop_after with
  | O => attempt O
  | S O => attempt O
  | S n => match attempt O with Ok a => Ok a | Err _ => retry n (λ i, attempt (S i)) end
  end.

Module ControllerManager.

Definition parse_lag_col (s : string) : Z :=
  match py_int s with Ok z => z | Err _ => -1 end.

(** ** Commands *)

Definition data_path : string := CharmedKafkaPaths.data_path BROKER_ROLE.

Definition format_args (uuid : string) (internal_user_credentials : list (string * string))
    (kraft_version : Z) (initial_controllers : option string) : list string :=
  (["format"; "--ignore-formatted"; "--cluster-id"; uuid; "-c";
    CharmedKafkaPaths.server_properties BROKER_ROLE]
   ++ (if 0 <? kraft_version then
         ["--feature"; "kraft.version=" +:+ str_of_Z kraft_version]
         ++ (if truthy_opt initial_controllers
             then ["--initial-controllers"; default "" initial_controllers] else ["--standalone"])
       else [])
   ++ concat ((λ '(user, password),
        ["--add-scram"; "SCRAM-SHA-512=[name=" +:+ user +:+ ",password=" +:+ password +:+ "]"])
        <$> internal_user_credentials))%list.

(** A command of the container, or a Kafka script with its arguments. *)
Inductive run := Exec (argv : list string) | Bin (keyword : string) (args : list string).

(** The data path belongs to root only while the storage tool runs. *)
Definition format_storages (uuid : string) (internal_user_credentials : list (string * string))
    (kraft_version : Z) (initial_controllers : option string) : list run :=
  [Exec ["chown"; "-R"; "root:root"; data_path];
   Bin "storage" (format_args uuid internal_user_credentials kraft_version initial_controllers);
   Exec ["chmod"; "-R"; "750"; data_path];
   Exec ["chown"; "-R"; USER_ID ++ ":" ++ GROUP; data_path]].

Definition generate_uuid (random_uuid : result string) : result string :=
  out ← random_uuid; Ok (str_strip out).

(** [os.path.join(log_dirs, "meta.properties")] *)
Definition meta_path (log_dirs : string) : string :=
  if truthy log_dirs && negb (endswith "/" log_dirs) then log_dirs ++ "/meta.properties"
  else log_dirs ++ "meta.properties".
Fixpoint directory_id_of (lines : list string) : string :=
  match lines with
  | [] => ""
  | line :: lines =>
      if startswith "directory.id" line then str_replace "directory.id=" "" (str_strip line)
      else directory_id_of lines
  end.
Definition get_metadata_directory_id (log_dirs : string) (c : container) : string :=
  directory_id_of (Workload.read (meta_path log_dirs) c).

Definition quorum_args (bootstrap_node : string) (rest : list string) : list string :=
  (["--bootstrap-controller"; bootstrap_node; "--command-config";
    CharmedKafkaPaths.kraft_client_properties BROKER_ROLE] ++ rest)%list.

(** [tool] answers each attempt at a script. *)
Definition add_controller (tool : nat → list string → result string) (bootstrap_node metadata_log_dir : string)
    (c : container) : result string :=
  retry 4 (λ i,
    match tool i (quorum_args bootstrap_node ["add-controller"]) with
    | Ok _ => Ok (get_metadata_directory_id metadata_log_dir c)
    | Err (ExecError details) =>
        if negb (contains "DuplicateVoterException" details) then Err (ExecError details)
        else Ok (get_metadata_directory_id metadata_log_dir c)
    | Err e => Err e
    end).

Definition remove_controller (tool : nat → list string → result string) (controller_id : Z)
    (controller_metadata_directory_id : string) (bootstrap_node own_bootstrap : string) : result () :=
  let bootstrap_node := str_or bootstrap_node own_bootstrap in
  retry 3 (λ i,
    match tool i (quorum_args bootstrap_node
            ["remove-controller"; "--controller-id"; str_of_Z controller_id;
             "--controller-directory-id"; controller_metadata_directory_id]) with
    | Ok _ => Ok ()
    | Err (ExecError details) =>
        if contains "VoterNotFoundException" details || contains "TimeoutException" details then Ok ()
        else Err (ExecError details)
    | Err e => Err e
    end).

(** ** The quorum *)

Definition tab : ascii := chr 9.

(** One line of [describe --replication]; a line that does not parse is
    skipped. *)
Definition parse_quorum_line (line : string) : option (Z * KRaftQuorumInfo) :=
  let fields := str_strip <$> split_char tab line in
  id ← (f ← fields !! 0%nat; int_opt f);
  directory_id ← fields !! 1%nat;
  lag ← fields !! 3%nat;
  status ← (f ← fields !! 6%nat; KRaftUnitStatus_of f);
  Some (id, mkKRaftQuorumInfo directory_id (parse_lag_col lag) status).
Definition parse_quorum (result : string) : list (Z * KRaftQuorumInfo) :=
  dict_of_list (omap (M := list) parse_quorum_line (split_char newline result)).

(** [ping] and [describe] answer for the bootstrap controller; a failed
    command is logged. *)
Definition quorum_status (bootstrap_controller : string) (can_connect : bool)
    (ping : string → result bool) (describe : list string → result string)
    : result (list (Z * KRaftQuorumInfo)) :=
  if negb (truthy bootstrap_controller) then Ok []
  else
    alive ← ping bootstrap_controller;
    if negb (all_true [can_connect; alive]) then Ok []
    else
      match describe (quorum_args bootstrap_controller ["describe"; "--replication"]) with
      | Ok out => Ok (parse_quorum out)
      | Err (ExecError _) => Ok []
      | Err e => Err e
      end.

Definition broker_active (quorum : list (Z * KRaftQuorumInfo)) (broker_id : Z) (runs_controller : bool) : bool :=
  match dict_get broker_id quorum with
  | None => false
  | Some info =>
      all_true [bool_decide (unit_status info ∈ if runs_controller then [LEADER; FOLLOWER] else [OBSERVER]);
                0 <=? lag info]
  end.

Definition online_brokers (quorum : list (Z * KRaftQuorumInfo)) : gset Z :=
  list_to_set (filter (λ id, KRAFT_NODE_ID_OFFSET ≤ id) (dict_keys quorum)).

Definition departing_brokers (quorum : list (Z * KRaftQuorumInfo)) (active : gset Z) : gset Z :=
  let online := online_brokers quorum in
  if decide (online = ∅) then ∅ else online ∖ active.

End ControllerManager.

(** ** The handlers *)

Module KRaftHandler.
Section kraft_handler.
Context {D : Type} `{RelationData D}.
Implicit Types s : cluster_state D.

(** What the handler generates: passwords, and identifiers of the storage tool. *)
Record generated := mkGenerated {
  user_passwords : string → string; new_uuid : result string;
  new_controller_password : string; new_replica_id : result string }.

Definition init_credentials (g : generated) s : cluster_state D :=
  if (length (KafkaCluster.internal_user_credentials (ClusterState.cluster s)) =? 0)%nat
     && ClusterState.runs_broker s
  then foldl (λ s user, ClusterState.cluster_update [(user ++ "-password", user_passwords g user)] s)
         s INTERNAL_USERS
  else s.

Definition init_cluster_uuid (g : generated) s : result (cluster_state D) :=
  if negb (truthy (KafkaCluster.cluster_uuid (ClusterState.cluster s))) && ClusterState.runs_broker s
  then
    uuid ← ControllerManager.generate_uuid (new_uuid g);
    let s := ClusterState.cluster_update [("cluster-uuid", uuid)] s in
    o ← RelationState.update [("cluster-uuid", uuid)] (ClusterState.peer_cluster_data s);
    Ok (ClusterState.set_peer_cluster_data o s)
  else Ok s.

Definition init_bootstrap (g : generated) s : result (cluster_state D) :=
  if ClusterState.runs_controller s
     && negb (truthy (KafkaCluster.bootstrap_controller (ClusterState.cluster s)))
  then
    let password := new_controller_password g in
    let s := ClusterState.cluster_update [("controller-password", password)] s in
    s ← ClusterState.kraft_cluster_update [("controller-password", password)] s;
    bootstrap_controller ← ClusterState.bootstrap_controller s;
    unit_id ← ClusterState.kraft_unit_id s;
    replica_id ← ControllerManager.generate_uuid (new_replica_id g);
    Ok (ClusterState.cluster_update
          [("bootstrap-controller", bootstrap_controller); ("bootstrap-unit-id", str_of_Z unit_id);
           ("bootstrap-replica-id", replica_id)] s)
  else Ok s.

Definition init_kraft_mode (g : generated) s : result (cluster_state D) :=
  if negb (is_leader s) then Ok s
  else
    s ← init_cluster_uuid g (init_credentials g s);
    init_bootstrap g s.

(** The state after the handler, whether it deferred the event, and the
    commands it ran. *)
Record handled := mkHandled {
  after : ConfigManager.config_manager D; deferred : bool; runs : list ControllerManager.run }.

Definition with_state s (m : ConfigManager.config_manager D) : ConfigManager.config_manager D :=
  ConfigManager.mkManager s (ConfigManager.config m) (ConfigManager.workload m)
    (ConfigManager.http_proxy m) (ConfigManager.https_proxy m) (ConfigManager.no_proxy m)
    (ConfigManager.oauth_uses_trusted_ca m).

(** [format_storages]: the properties are written first. *)
Definition format_storages (m : ConfigManager.config_manager D)
    : result (ConfigManager.config_manager D * list ControllerManager.run) :=
  m ← ConfigManager.set_server_properties m;
  let s := ConfigManager.state m in
  if truthy (ControllerManager.get_metadata_directory_id (ClusterState.log_dirs s) (ConfigManager.workload m))
  then Ok (m, [])
  else
    p ← ClusterState.peer_cluster s;
    credentials ← (
      if ClusterState.runs_broker s then Ok (KafkaCluster.internal_user_credentials (ClusterState.cluster s))
      else if ClusterState.runs_controller s
      then Ok [(PeerCluster.broker_username p, PeerCluster.broker_password p)]
      else Err (PyException "UnboundLocalError: credentials"));
    Ok (m, ControllerManager.format_storages (PeerCluster.cluster_uuid p) credentials KRAFT_VERSION
             (Some (PeerCluster.bootstrap_unit_id p ++ "@" ++ PeerCluster.bootstrap_controller p
                      ++ ":" ++ PeerCluster.bootstrap_replica_id p))).

(** [refresh_in_progress] is [None] while the refresh library is not there. *)
Definition on_start (g : generated) (refresh_in_progress : option bool)
    (m : ConfigManager.config_manager D) : result handled :=
  match refresh_in_progress with
  | None => Ok (mkHandled m true [])
  | Some in_progress =>
      if negb (can_connect (ConfigManager.workload m)) then Ok (mkHandled m true [])
      else if (in_progress : bool) then Ok (mkHandled m false [])
      else
        s ← init_kraft_mode g (ConfigManager.state m);
        let m := with_state s m in
        current_status ← ClusterState.ready_to_start s;
        if negb (bool_decide (current_status = ACTIVE)) then Ok (mkHandled m true [])
        else '(m, runs) ← format_storages m; Ok (mkHandled m false runs)
  end.

(** [healthy], from the activity of the workload. *)
Definition healthy (active : bool) s : result bool :=
  if negb (ClusterState.runs_controller s) then Ok true
  else
    current_status ← ClusterState.ready_to_start s;
    if negb (bool_decide (current_status = ACTIVE)) then Ok false
    else if negb active then Ok false else Ok true.

Definition leader_elected s : result (cluster_state D) :=
  if negb (truthy (KafkaCluster.bootstrap_controller (ClusterState.cluster s)))
     || negb (ClusterState.runs_controller s)
  then Ok s
  else
    bootstrap_controller ← ClusterState.bootstrap_controller s;
    unit_id ← ClusterState.kraft_unit_id s;
    let updated_bootstrap_data :=
      [("bootstrap-controller", bootstrap_controller); ("bootstrap-unit-id", str_of_Z unit_id);
       ("bootstrap-replica-id", KafkaBroker.metadata_directory_id (ClusterState.unit_broker s))] in
    ClusterState.orchestrator_update updated_bootstrap_data
      (ClusterState.cluster_update updated_bootstrap_data s).

(** Updating this unit's data. *)
Definition update_unit (items : list (string * string)) s : result (cluster_state D) :=
  o ← RelationState.update items (KafkaBroker.data (ClusterState.unit_broker s));
  Ok (match o with Some d => ClusterState.set_unit_data (λ _, d) s | None => s end).

Definition add_to_quorum (tool : nat → list string → result string) (c : container) s
    : result (cluster_state D) :=
  if is_leader s || KafkaBroker.added_to_quorum (ClusterState.unit_broker s)
     || negb (ClusterState.runs_controller s)
  then Ok s
  else
    metadata_directory_id ← ControllerManager.add_controller tool
      (KafkaCluster.bootstrap_controller (ClusterState.cluster s)) (ClusterState.metadata_log_dir s) c;
    update_unit [("metadata-directory-id", metadata_directory_id); ("added-to-quorum", "true")] s.

Definition on_update_status (refresh_not_ready active : bool) (tool : nat → list string → result string)
    (m : ConfigManager.config_manager D) : result (ConfigManager.config_manager D) :=
  let s := ConfigManager.state m in
  ok ← (if refresh_not_ready then Ok false else healthy active s);
  if negb ok then Ok m
  else
    m ← ConfigManager.set_client_properties m;
    s ← add_to_quorum tool (ConfigManager.workload m) (ConfigManager.state m);
    Ok (with_state s m).

(** Python's conditional: nothing to do unless the unit runs a controller and
    was added, or leads. *)
Definition remove_from_quorum (tool : nat → list string → result string) s : result (cluster_state D) :=
  if negb (ClusterState.runs_controller s) then Ok s
  else if KafkaBroker.added_to_quorum (ClusterState.unit_broker s) || is_leader s then
    let metadata_directory_id :=
      if negb (is_leader s) then KafkaBroker.metadata_directory_id (ClusterState.unit_broker s)
      else KafkaCluster.bootstrap_replica_id (ClusterState.cluster s) in
    s ← update_unit [("added-to-quorum", "")] s;
    unit_id ← ClusterState.kraft_unit_id s;
    bootstrap ← ClusterState.bootstrap_controller s;
    _ ← ControllerManager.remove_controller tool unit_id metadata_directory_id bootstrap
          (KafkaCluster.bootstrap_controller (ClusterState.cluster s));
    Ok s
  else Ok s.

Definition on_peer_relation_departed (departing_unit : string) (tool : nat → list string → result string) s
    : result (cluster_state D) :=
  if bool_decide (departing_unit = st_unit_name s) then remove_from_quorum tool s else Ok s.
End kraft_handler.
End KRaftHandler.

(** ** Facts *)

(** The row the quorum tool prints for a replica: node, directory, end offset,
    lag, two timestamps, status. *)
Record quorum_row := mkRow {
  row_id : Z; row_directory : string; row_offset : Z; row_lag : Z; row_fetch : Z; row_caught_up : Z;
  row_status : KRaftUnitStatus }.
Definition status_text (st : KRaftUnitStatus) : string :=
  match st with LEADER => "Leader" | FOLLOWER => "Follower" | OBSERVER => "Observer" end.
Definition row_line (r : quorum_row) : string :=
  str_join (String ControllerManager.tab "")
    [str_of_Z (row_id r); row_directory r; str_of_Z (row_offset r); str_of_Z (row_lag r);
     str_of_Z (row_fetch r); str_of_Z (row_caught_up r); status_text (row_status r)].
Definition row_info (r : quorum_row) : Z * KRaftQuorumInfo :=
  (row_id r, mkKRaftQuorumInfo (row_directory r) (row_lag r) (row_status r)).
Definition header_row : string :=
  str_join (String ControllerManager.tab "")
    ["NodeId"; "DirectoryId"; "LogEndOffset"; "Lag"; "LastFetchTimestamp"; "LastCaughtUpTimestamp"; "Status"].

Definition no_space (s : string) : bool := str_forall (λ c, negb (is_space c)) s.

Lemma str_of_Z_no_space z : no_space (str_of_Z z) = true.
Proof.
  eapply str_forall_impl; [|apply str_of_Z_chars]. intros c [Hc|Hc%Ascii.eqb_eq]%orb_true_iff.
  - by apply is_digit_not_space.
  - by subst.
Qed.

Lemma no_space_lacks c s : is_space c = true → no_space s = true → lacks c s = true.
Proof.
  intros Hc. apply str_forall_impl. intros d Hd. apply negb_true_iff.
  destruct (Ascii.eqb_spec d c); [|done]. subst. by rewrite Hc in Hd.
Qed.

Lemma parse_row r : no_space (row_directory r) = true →
  ControllerManager.parse_quorum_line (row_line r) = Some (row_info r).
Proof.
  intros Hd. unfold ControllerManager.parse_quorum_line, row_line.
  assert (Hall : Forall (λ s, no_space s = true)
    [str_of_Z (row_id r); row_directory r; str_of_Z (row_offset r); str_of_Z (row_lag r);
     str_of_Z (row_fetch r); str_of_Z (row_caught_up r); status_text (row_status r)]).
  { repeat constructor; try apply str_of_Z_no_space; [done|]. by destruct (row_status r). }
  rewrite split_join_char; [|done|].
  2:{ eapply Forall_impl; [exact Hall|]. intros s. by apply no_space_lacks. }
  rewrite (list_fmap_ext str_strip id).
  2:{ intros i s Hs. apply str_strip_id. by apply (Forall_lookup_1 _ _ _ _ Hall Hs). }
  rewrite list_fmap_id. cbn [lookup list_lookup mbind option_bind].
  rewrite int_opt_str. cbn [mbind option_bind]. unfold ControllerManager.parse_lag_col.
  rewrite py_int_str. unfold row_info. by destruct (row_status r).
Qed.


(** A broker is taken for departing exactly when the quorum still lists
    it, its identifier is in the range of brokers and its unit is not on the
    relation; a broker whose unit is there never is. *)
Theorem departing_brokers_spec quorum active i :
  i ∈ ControllerManager.departing_brokers quorum active ↔
  is_Some (dict_get i quorum) ∧ KRAFT_NODE_ID_OFFSET ≤ i ∧ i ∉ active.
Proof.
  assert (Ho : ∀ j, j ∈ ControllerManager.online_brokers quorum ↔ is_Some (dict_get j quorum) ∧ KRAFT_NODE_ID_OFFSET ≤ j).
  { intros j. unfold ControllerManager.online_brokers.
    rewrite elem_of_list_to_set, list_elem_of_filter, dict_get_is_Some. tauto. }
  unfold ControllerManager.departing_brokers. cbv zeta. case_decide as He.
  - split; [set_solver|]. intros (H1 & H2 & _). assert (i ∈ ControllerManager.online_brokers quorum) by (by apply Ho).
    set_solver.
  - rewrite elem_of_difference, Ho. tauto.
Qed.


(** With two data storages the log directories joined by commas are taken for
    one directory, and the properties of a formatted storage are not found. *)
Example formatted_storages_not_seen :
  let c := mkContainer true {[ "/data/0/log/meta.properties" := "directory.id=AbC";
                               "/data/1/log/meta.properties" := "directory.id=DeF" ]} ∅ ∅ in
  ControllerManager.get_metadata_directory_id "/data/0/log" c = "AbC" ∧
  ControllerManager.get_metadata_directory_id "/data/0/log,/data/1/log" c = "".
Proof. split; vm_compute; reflexivity. Qed.

(** ** Initialising a cluster *)

Section initialise.
Context {D : Type} `{RelationDataLaws D}.
Implicit Types s : cluster_state D.

(** A field of the application's data is set. *)
Definition has (k : string) s : Prop := truthy (data_get_or k "" (ClusterState.cluster s)) = true.

(** The roles, the leadership and the peer relation are the same. *)
Definition same_unit s s' : Prop :=
  roles s' = roles s ∧ is_leader s' = is_leader s ∧
  (is_Some (peer_relation s) → is_Some (peer_relation s')).

Lemma same_unit_trans s1 s2 s3 : same_unit s1 s2 → same_unit s2 s3 → same_unit s1 s3.
Proof. unfold same_unit. intros (-> & -> & ?) (-> & -> & ?). auto. Qed.

Lemma cluster_update_same items s : same_unit s (ClusterState.cluster_update items s).
Proof.
  split_and!; [done..|]. intros [p Hp]. unfold ClusterState.cluster_update, ClusterState.set_peer_data.
  cbn [peer_relation]. rewrite Hp. by eexists.
Qed.

Lemma cluster_update_cons x items s :
  ClusterState.cluster_update (x :: items) s = ClusterState.cluster_update items (ClusterState.cluster_update [x] s).
Proof.
  unfold ClusterState.cluster_update, ClusterState.set_peer_data. cbn [peer_relation roles network_bandwidth
    expose_external st_unit_name is_leader client_relations peer_cluster_relation peer_cluster_orchestrator_relation
    oauth_relation certificate_transfer_relations tls_relation_active internal_tls_relation storage_locations
    planned_units k8s]. by destruct (peer_relation s).
Qed.

Lemma has_updated k v s : is_Some (peer_relation s) → v ≠ "" → has k (ClusterState.cluster_update [(k, v)] s).
Proof.
  intros [p Hp] Hv. unfold has, ClusterState.cluster, ClusterState.cluster_update, ClusterState.set_peer_data, data_get_or, data_get.
  cbn [peer_relation]. rewrite Hp. cbn [fmap option_fmap option_map app_data mbind option_bind foldl].
  unfold KafkaCluster.update_one. rewrite (proj2 (truthy_true v) Hv).
  destruct (KafkaCluster.is_secret_key k); [rewrite rd_get_set_secret_eq by done|rewrite rd_get_set_eq by done];
    by apply truthy_true.
Qed.

Lemma has_kept k k' v s : k ≠ k' → has k s → has k (ClusterState.cluster_update [(k', v)] s).
Proof.
  intros Hk. unfold has, ClusterState.cluster, ClusterState.cluster_update, ClusterState.set_peer_data, data_get_or, data_get.
  cbn [peer_relation]. destruct (peer_relation s) as [p|]; [|done].
  cbn [fmap option_fmap option_map app_data mbind option_bind foldl].
  unfold KafkaCluster.update_one.
  destruct (KafkaCluster.is_secret_key k'), (truthy v);
    first [by rewrite rd_get_set_secret_ne|by rewrite rd_get_delete_secret_ne|by rewrite rd_get_set_ne].
Qed.

Lemma set_peer_cluster_same (o : option D) s :
  same_unit s (ClusterState.set_peer_cluster_data o s) ∧
  ClusterState.cluster (ClusterState.set_peer_cluster_data o s) = ClusterState.cluster s.
Proof. done. Qed.

Lemma kraft_update_kept k v s s' :
  ClusterState.kraft_cluster_update [(k, v)] s = Ok s' →
  same_unit s s' ∧ ∀ k', k' ≠ k → has k' s → has k' s'.
Proof.
  unfold ClusterState.kraft_cluster_update. destruct (_ && _).
  - intros [= <-]. split; [apply cluster_update_same|]. intros k' Hk'. by apply has_kept.
  - rewrite result_bind_ok. intros (o & _ & [= <-]). destruct (set_peer_cluster_same o s) as [Hs Hc].
    split; [done|]. intros k' _. unfold has. by rewrite Hc.
Qed.

Definition users_set s : Prop := ∀ user, user ∈ INTERNAL_USERS → has (user ++ "-password") s.

Lemma users_set_iff s :
  (length (KafkaCluster.internal_user_credentials (ClusterState.cluster s)) =? 0)%nat = false ↔ users_set s.
Proof.
  rewrite Nat.eqb_neq, internal_credentials_nonempty. unfold internal_users_ready, users_set, has, data_get_or.
  split; intros Hu user Hin; specialize (Hu user Hin); by destruct (data_get _ _).
Qed.

Lemma init_credentials_spec g s :
  is_Some (peer_relation s) → (∀ u, KRaftHandler.user_passwords g u ≠ "") →
  same_unit s (KRaftHandler.init_credentials g s) ∧
  (ClusterState.runs_broker s = true → users_set (KRaftHandler.init_credentials g s)) ∧
  (∀ k, k ∉ ((λ u, u ++ "-password") <$> INTERNAL_USERS) → has k s → has k (KRaftHandler.init_credentials g s)).
Proof.
  intros Hp Hg. unfold KRaftHandler.init_credentials.
  destruct (length _ =? 0)%nat eqn:El; cbn [andb].
  2:{ split; [by split_and!|]. split; [|done]. intros _. by apply users_set_iff. }
  destruct (ClusterState.runs_broker s) eqn:Er; [|by split; [split_and!|]].
  unfold INTERNAL_USERS. cbn [foldl].
  set (s1 := ClusterState.cluster_update _ s). set (s2 := ClusterState.cluster_update _ s1).
  assert (H1 : same_unit s s1) by apply cluster_update_same.
  assert (H2 : same_unit s1 s2) by apply cluster_update_same.
  split; [by eapply same_unit_trans|]. split.
  - intros _ user Hu. unfold INTERNAL_USERS in Hu. rewrite elem_of_cons, list_elem_of_singleton in Hu.
    destruct Hu as [-> | ->].
    + apply has_kept; [done|]. by apply has_updated.
    + apply has_updated; [by apply H1|done].
  - intros k Hk Hh. cbn [fmap list_fmap] in Hk. apply not_elem_of_cons in Hk as [Hk1 Hk].
    apply not_elem_of_cons in Hk as [Hk2 _]. apply has_kept; [done|]. by apply has_kept.
Qed.

(** The roles do not change with the data. *)
Lemma same_unit_roles s t : same_unit s t →
  ClusterState.runs_broker t = ClusterState.runs_broker s ∧
  ClusterState.runs_controller t = ClusterState.runs_controller s.
Proof. intros (Ht & _). unfold ClusterState.runs_broker, ClusterState.runs_controller. by rewrite Ht. Qed.

Lemma internal_user_cases user : user ∈ INTERNAL_USERS → user = INTER_BROKER_USER ∨ user = ADMIN_USER.
Proof. unfold INTERNAL_USERS. by rewrite elem_of_cons, list_elem_of_singleton. Qed.

Lemma init_cluster_uuid_spec g uuid s s1 :
  is_Some (peer_relation s) → ControllerManager.generate_uuid (KRaftHandler.new_uuid g) = Ok uuid → uuid ≠ "" →
  KRaftHandler.init_cluster_uuid g s = Ok s1 →
  same_unit s s1 ∧ (users_set s → users_set s1) ∧
  (ClusterState.runs_broker s = true → has "cluster-uuid" s1).
Proof.
  intros Hp Hu Hne H1. unfold KRaftHandler.init_cluster_uuid in H1.
  destruct (truthy (KafkaCluster.cluster_uuid _)) eqn:Et; cbn [negb andb] in H1; [by injection H1 as <-|].
  destruct (ClusterState.runs_broker s); [|by injection H1 as <-].
  rewrite Hu in H1. cbn [mbind result_bind] in H1. apply result_bind_ok in H1 as (o & _ & [= <-]).
  set (t := ClusterState.cluster_update [("cluster-uuid", uuid)] s).
  destruct (set_peer_cluster_same o t) as [Hst Hct]. split_and!.
  - eapply same_unit_trans; [apply cluster_update_same|exact Hst].
  - intros Hus user Huser. unfold has. rewrite Hct. apply has_kept; [|by apply Hus].
    by destruct (internal_user_cases user Huser) as [-> | ->].
  - intros _. unfold has. rewrite Hct. by apply has_updated.
Qed.

Lemma init_bootstrap_spec g s s' :
  is_Some (peer_relation s) → KRaftHandler.init_bootstrap g s = Ok s' →
  same_unit s s' ∧ (users_set s → users_set s') ∧ (has "cluster-uuid" s → has "cluster-uuid" s') ∧
  (ClusterState.runs_controller s = true → has "bootstrap-controller" s').
Proof.
  intros Hp H2. unfold KRaftHandler.init_bootstrap in H2.
  destruct (ClusterState.runs_controller s) eqn:Erc; cbn [andb] in H2; [|by injection H2 as <-].
  destruct (truthy (KafkaCluster.bootstrap_controller _)) eqn:Et; cbn [negb] in H2; [by injection H2 as <-|].
  set (t1 := ClusterState.cluster_update _ s) in H2.
  apply result_bind_ok in H2 as (t2 & Ht2 & (bc & Hbc & (uid & _ & (rid & _ & [= <-])%result_bind_ok)%result_bind_ok)%result_bind_ok).
  destruct (kraft_update_kept _ _ _ _ Ht2) as [Hsu Hkept].
  assert (Hst1 : same_unit s t1) by apply cluster_update_same.
  assert (Hst2 : same_unit s t2) by (eapply same_unit_trans; eauto).
  assert (Hk : ∀ k, k ≠ "controller-password" → k ≠ "bootstrap-controller" → k ≠ "bootstrap-unit-id" →
    k ≠ "bootstrap-replica-id" → has k s → has k (ClusterState.cluster_update
      [("bootstrap-controller", bc); ("bootstrap-unit-id", str_of_Z uid); ("bootstrap-replica-id", rid)] t2)).
  { intros k ???? Hh. rewrite cluster_update_cons, (cluster_update_cons ("bootstrap-unit-id", _)).
    repeat (apply has_kept; [done|]). apply Hkept; [done|]. by apply has_kept. }
  split_and!.
  - eapply same_unit_trans; [exact Hst2|apply cluster_update_same].
  - intros Hus user Huser. specialize (Hus user Huser). revert Hus.
    destruct (internal_user_cases user Huser) as [-> | ->]; by apply Hk.
  - by apply Hk.
  - intros _. rewrite cluster_update_cons, (cluster_update_cons ("bootstrap-unit-id", _)).
    do 2 (apply has_kept; [done|]). apply has_updated; [by apply Hst2|].
    unfold ClusterState.bootstrap_controller in Hbc. destruct (same_unit_roles s t2 Hst2) as [_ Hrc2].
    rewrite Hrc2, Erc in Hbc. apply result_bind_ok in Hbc as (addr & _ & [= <-]). by destruct addr.
Qed.

(** A cluster that has what initialisation provides is left alone. *)
Lemma init_kraft_mode_done g s :
  (ClusterState.runs_broker s = true → users_set s ∧ has "cluster-uuid" s) →
  (ClusterState.runs_controller s = true → has "bootstrap-controller" s) →
  KRaftHandler.init_kraft_mode g s = Ok s.
Proof.
  intros Hb Hc. unfold KRaftHandler.init_kraft_mode. destruct (is_leader s); [|done]. cbn [negb].
  assert (Hi : KRaftHandler.init_credentials g s = s).
  { unfold KRaftHandler.init_credentials. destruct (ClusterState.runs_broker s); [|by rewrite andb_false_r].
    destruct Hb as [Hu2 _]; [done|]. by rewrite (proj2 (users_set_iff s) Hu2). }
  rewrite Hi. unfold KRaftHandler.init_cluster_uuid, KRaftHandler.init_bootstrap, has in *.
  unfold KafkaCluster.cluster_uuid, KafkaCluster.bootstrap_controller.
  destruct (ClusterState.runs_broker s); [destruct Hb as [_ ->]; [done|]|rewrite andb_false_r];
    cbn [negb andb mbind result_bind];
    (destruct (ClusterState.runs_controller s); [by rewrite Hc|done]).
Qed.

(** C32: when the leader initialises a cluster, afterwards an application
    with brokers has all its internal users and a cluster identifier, one with
    controllers has a bootstrap controller, and initialising again, whatever
    would be generated then, changes nothing: no password or identifier in use
    is ever replaced. *)
Theorem init_kraft_mode_spec (g : KRaftHandler.generated) uuid s s' :
  is_leader s = true → is_Some (peer_relation s) →
  (∀ u, KRaftHandler.user_passwords g u ≠ "") →
  ControllerManager.generate_uuid (KRaftHandler.new_uuid g) = Ok uuid → uuid ≠ "" →
  KRaftHandler.init_kraft_mode g s = Ok s' →
  (ClusterState.runs_broker s = true → users_set s' ∧ has "cluster-uuid" s') ∧
  (ClusterState.runs_controller s = true → has "bootstrap-controller" s') ∧
  ∀ g', KRaftHandler.init_kraft_mode g' s' = Ok s'.
Proof.
  intros Hl Hp Hg Hu Hne. unfold KRaftHandler.init_kraft_mode at 1. rewrite Hl. cbn [negb].
  destruct (init_credentials_spec g s Hp Hg) as (Hs0 & Hc0 & _).
  set (s0 := KRaftHandler.init_credentials g s) in *. rewrite result_bind_ok. intros (s1 & H1 & H2).
  assert (Hp0 : is_Some (peer_relation s0)) by (by apply Hs0).
  destruct (init_cluster_uuid_spec g uuid s0 s1 Hp0 Hu Hne H1) as (Hs1 & Hu1 & Hc1).
  assert (Hp1 : is_Some (peer_relation s1)) by (by apply Hs1).
  destruct (init_bootstrap_spec g s1 s' Hp1 H2) as (Hs2 & Hu2 & Hc2 & Hb2).
  destruct (same_unit_roles s s0 Hs0) as [Eb0 Ec0], (same_unit_roles s0 s1 Hs1) as [Eb1 Ec1],
    (same_unit_roles s1 s' Hs2) as [Eb2 Ec2].
  assert (Hb : ClusterState.runs_broker s = true → users_set s' ∧ has "cluster-uuid" s').
  { intros Hr. split; [by apply Hu2, Hu1, Hc0|]. apply Hc2, Hc1. by rewrite Eb0. }
  assert (Hc : ClusterState.runs_controller s = true → has "bootstrap-controller" s').
  { intros Hr. apply Hb2. by rewrite Ec1, Ec0. }
  split; [done|]. split; [done|]. intros g'. apply init_kraft_mode_done.
  - by rewrite Eb2, Eb1, Eb0.
  - by rewrite Ec2, Ec1, Ec0.
Qed.
End initialise.

(** A new cluster whose leader has nothing yet. *)
Definition fresh_state : cluster_state bag :=
  mkState "broker,controller" 50000 None "kafka/0" true (Some (mkPeerData ∅ ∅ [])) []
    None None None [] None false ["/data/0"] 1 (mkK8sView (λ _, Ok "") (λ _, Ok 0) (λ _, Ok 0)).
Definition sample_generated : KRaftHandler.generated :=
  KRaftHandler.mkGenerated (λ u, "pw-" ++ u) (Ok "uuid ") "ctl" (Ok "replica").

Lemma init_kraft_mode_spec_witness :
  match KRaftHandler.init_kraft_mode sample_generated fresh_state with
  | Ok s => has "bootstrap-controller" s ∧
      KRaftHandler.init_kraft_mode (KRaftHandler.mkGenerated (λ _, "other") (Ok "u") "c" (Ok "r")) s = Ok s
  | Err _ => False
  end.
Proof.
  assert (Hok : is_ok (KRaftHandler.init_kraft_mode sample_generated fresh_state) = true) by (vm_compute; reflexivity).
  destruct (KRaftHandler.init_kraft_mode sample_generated fresh_state) as [s|] eqn:E; [|done].
  destruct (init_kraft_mode_spec sample_generated "uuid" fresh_state s) as (_ & Hb & Hi); try done.
  split; [by apply Hb|apply Hi].
Defined.
