(* ===== verification/Balancer.v ===== *)
(** * Cruise Control (managers/balancer.py, events/balancer.py)

    The client of the REST API with its retries, the parsing and cleaning of
    what it and the Kafka scripts answer, the checks before a rebalance and
    the handlers of the balancer role. Answers of the API, of the scripts and
    generated values are arguments. *)

From S2P Require Import Prelude PyStr PyDict Json Literals Models Cluster Workload Config.

Local Open Scope string_scope.
Local Open Scope Z_scope.

(** ** The client *)

Module CruiseControlClient.

(** [d.get(k, default)] on a document; only objects have it. *)
Definition jget (k : string) (default_value v : json) : result json :=
  match v with
  | JObj d => Ok (dict_get_or k default_value d)
  | _ => Err (TypeError "object has no attribute 'get'")
  end.
(** [v[k]] *)
Definition jitem (k : string) (v : json) : result json :=
  match v with
  | JObj d => match dict_get k d with Some w => Ok w | None => Err (KeyError k) end
  | _ => Err (TypeError "string indices must be integers")
  end.
(** [for x in v] *)
Definition jiter (v : json) : result (list json) :=
  match v with
  | JList l => Ok l
  | JObj d => Ok ((λ kv, JStr kv.1) <$> d)
  | _ => Err (TypeError "object is not iterable")
  end.

(** The parameters of a POST request: the later entries win. *)
Definition post_params (dryrun : bool) (kwargs : list (string * json)) : list (string * json) :=
  let payload := [("dryrun", JStr (if dryrun then "True" else "False"))] in
  let payload := match dict_get_or "brokerid" JNull kwargs with
    | JNull => payload | b => dict_set "brokerid" b payload end in
  dict_update (dict_update kwargs payload) [("json", JStr "True")].

(** The status of the first task with the identifier. *)
Fixpoint find_task (user_task_id : string) (tasks : list json) : result json :=
  match tasks with
  | [] => Ok (JStr "")
  | task :: tasks =>
      id ← jget "UserTaskId" (JStr "") task;
      if json_eqb id (JStr user_task_id) then jget "Status" (JStr "") task
      else find_task user_task_id tasks
  end.
Definition get_task_status (user_tasks : json) (user_task_id : string) : result json :=
  tasks ← jget "userTasks" JNull user_tasks;
  l ← jiter tasks; find_task user_task_id l.

(** [state.get(section, {}).get("state", "")] *)
Definition section_state (section : string) (state : json) : result json :=
  v ← jget section (JObj []) state; jget "state" (JStr "") v.

(** Attempts retried on an exception, and on [False] for [monitoring]; the
    result is [False] when they run out. *)
Fixpoint retried (on_false : bool) (attempts : list (result bool)) : bool :=
  match attempts with
  | [] => false
  | Ok b :: attempts => if negb b && on_false then retried on_false attempts else b
  | Err _ :: attempts => retried on_false attempts
  end.

(** The answers to successive requests for the state of Cruise Control. *)
Definition monitoring (answers : list (result json)) : bool :=
  retried true ((λ a, v ← a; st ← section_state "MonitorState" v; Ok (json_eqb st (JStr "RUNNING")))
                  <$> take 3 answers).
Definition executing (answers : list (result json)) : bool :=
  retried false ((λ a, v ← a; st ← section_state "ExecutorState" v;
                       Ok (negb (json_eqb st (JStr "NO_TASK_IN_PROGRESS")))) <$> take 3 answers).
Definition ready (answers : list (result json)) : bool :=
  retried false ((λ a,
    v ← a; monitor ← jget "MonitorState" (JStr "") v;
    windows ← jget "numMonitoredWindows" (JInt 0) monitor;
    partitions ← jget "numValidPartitions" (JInt 0) monitor;
    Ok (all_true [json_truthy windows; json_truthy partitions])) <$> take 3 answers).

End CruiseControlClient.
Import CruiseControlClient.

(** ** The manager *)

Module BalancerManager.

(** [storages], from the locations and the sizes of the volumes. *)
Definition storages (locations : list string) (df : string → result string) : result string :=
  sizes ← traverse (λ l, out ← df l; size ← py_int out; Ok (l, JStr (str_of_Z size))) locations;
  Ok (dumps (JObj (dict_of_list sizes))).

Definition topics_args (action : list string) (bootstrap_servers : string) : list string :=
  (action ++ ["--bootstrap-server"; bootstrap_servers; "--command-config";
              CONF CRUISE_CONTROL_PATHS +:+ "/cruisecontrol.properties"])%list.

(** The topics created: those the list of topics, printed before each, does
    not contain; a script that fails raises. *)
Fixpoint create_topics (list_topics : nat → result string) (i : nat) (topics : list string)
    : result (list string) :=
  match topics with
  | [] => Ok []
  | topic :: topics =>
      listed ← list_topics i;
      rest ← create_topics list_topics (S i) topics;
      Ok (if negb (contains topic listed) then topic :: rest else rest)
  end.
Definition create_internal_topics (list_topics : nat → result string) : result (list string) :=
  create_topics list_topics 0 BALANCER_TOPICS.

Definition rebalance_endpoint (mode : string) : string :=
  if negb (mode =? MODE_FULL)%string then mode ++ "_broker" else "rebalance".

(** [wait_for_task]: polls the task's status and the executor until the task
    is completed and nothing is executing; the number of polls, or [None] when
    the observations given run out first. *)
Fixpoint wait_for_task (polls : list (string * bool)) : option nat :=
  match polls with
  | [] => None
  | (status, executing) :: polls =>
      if negb (contains "Completed" status) || executing
      then n ← wait_for_task polls; Some (S n)
      else Some O
  end.

(** *** Cleaning results *)

Definition label_mapping : list (string * string) :=
  [("brokers", "Broker"); ("hosts", "Host"); ("goalSummary", "goal")].

Definition sanitise_str (key : string) : string :=
  str_lower (replace_char "_" "-" (replace_char "." "-" key)).

Section clean.
(** [str(v)] of a list, an object or a fractional number. *)
Variable py_repr : json → string.

(** [f"{self._sanitise_key(label)}"] *)
Definition label_text (v : json) : string :=
  match v with
  | JStr s => sanitise_str s
  | JInt z => str_of_Z z
  | JNull => "None"
  | JBool true => "True"
  | JBool false => "False"
  | v => py_repr v
  end.

(** The key of an item of a labelled list. *)
Definition new_key (nested_key label_key : string) (item : list (string * json)) : string :=
  str_lower (nested_key ++ "." ++ label_text (dict_get_or label_key JNull item)).

(** [clean_results], with [_build_new_key] unfolded where it recurses. *)
Fixpoint clean_results (value : json) : json :=
  match value with
  | JList l => JList (map clean_results l)
  | JObj d =>
      JObj ((fix go (nested_dict : list (string * json)) (d : list (string * json)) :=
        match d with
        | [] => nested_dict
        | (nested_key, nested_value) :: d =>
            let built :=
              match dict_get nested_key label_mapping, nested_value with
              | Some label_key, JList items =>
                  (fix build (acc : list (string * json)) (items : list json) :=
                     match items with
                     | [] => acc
                     | item :: items =>
                         match item with
                         | JObj fields =>
                             build (dict_set (new_key nested_key label_key fields) (clean_results item) acc) items
                         | _ => build acc items
                         end
                     end) [] items
              | _, _ => []
              end in
            match built with
            | [] => go (dict_set (sanitise_str nested_key) (clean_results nested_value) nested_dict) d
            | _ => go (dict_update nested_dict built) d
            end
        end) [] d)
  | v => v
  end.
End clean.

(** *** Partitions *)

(** The text from the first opening of the document to the end of its line. *)
Fixpoint find_brokers (s : string) : option string :=
  let line := (split_once newline s).1 in
  if startswith ("{" ++ dq ++ "brokers" ++ dq) line &&
     (String.length ("{" ++ dq ++ "brokers" ++ dq) <? String.length line)%nat
  then Some line
  else match s with "" => None | String _ s => find_brokers s end.

(** [int(v)] of a number or a text. *)
Definition jint (v : json) : result Z :=
  match v with
  | JInt z => Ok z
  | JStr s => py_int s
  | JBool b => Ok (if b then 1 else 0)
  | _ => Err (TypeError "int() argument must be a string or a number")
  end.

Definition log_dir_partitions (log_dir : json) : result (list json) :=
  ps ← jitem "partitions" log_dir; l ← jiter ps; traverse (jitem "partition") l.

Fixpoint broker_log_dirs (broker_id : Z) (i : nat) (log_dirs : list json)
    : result (list (string * list json)) :=
  match log_dirs with
  | [] => Ok []
  | d :: log_dirs =>
      ps ← log_dir_partitions d;
      rest ← broker_log_dirs broker_id (S i) log_dirs;
      Ok ((str_of_Z broker_id ++ "/" ++ str_of_Z (Z.of_nat i), ps) :: rest)
  end.

Definition broker_assignment (b : json) : result (list (string * list json)) :=
  id ← jitem "broker" b; broker_id ← jint id;
  dirs ← jget "logDirs" (JList []) b; l ← jiter dirs;
  broker_log_dirs broker_id 0 l.

Definition parse_log_dirs_output (raw : string) : result (list (string * list json)) :=
  match find_brokers raw with
  | None => Ok []
  | Some part =>
      state ← loads part;
      brokers ← jget "brokers" (JList []) state;
      l ← jiter brokers;
      assignments ← traverse broker_assignment l;
      Ok (dict_of_list (concat assignments))
  end.

(** [alive] is the answer of [ping]; a failing script is logged. *)
Definition get_partition_assignment (alive : result bool) (raw : result string)
    : result (list (string * list json)) :=
  up ← alive;
  if negb up then Ok []
  else match raw with
       | Ok raw => parse_log_dirs_output raw
       | Err (ExecError _) => Ok []
       | Err e => Err e
       end.

Definition all_storages_drained (assignment : list (string * list json)) (broker_id : Z) : bool :=
  match assignment with
  | [] => false
  | _ =>
      let keys := filter (λ k, startswith (str_of_Z broker_id) k = true) (dict_keys assignment) in
      match keys with
      | [] => true
      | _ => negb (any_true ((λ k, negb (length (dict_get_or k [] assignment) =? 0)%nat) <$> keys))
      end
  end.

(** *** Capacities *)

Definition capacities_list (v : json) : result (list json) :=
  l ← jget "brokerCapacities" (JList []) v; jiter l.
Definition json_in (v : json) (l : list json) : bool := existsb (json_eqb v) l.

Definition compare_capacities_files (old new : json) : result (list json * list json) :=
  if negb (json_truthy old) then n ← capacities_list new; Ok ([], n)
  else if negb (json_truthy new) then n ← capacities_list new; Ok (n, [])
  else
    o ← capacities_list old; n ← capacities_list new;
    Ok (filter (λ b, json_in b n = false) o, filter (λ b, json_in b o = false) n).

Section config_changes.
Context {D : Type} `{RelationData D}.
Implicit Types m : ConfigManager.config_manager D.

Definition config_change_detected m : result bool :=
  lines ← BalancerConfigManager.cruise_control_properties m;
  let file_content := Workload.read
    (CharmedKafkaPaths.cruise_control_properties BALANCER_ROLE) (ConfigManager.workload m) in
  let content_changed := negb (bool_decide
    ((list_to_set file_content : gset string) = list_to_set lines)) in
  p ← ClusterState.peer_cluster (ConfigManager.state m);
  broker_capacities ← PeerCluster.broker_capacities p;
  file ← loads (str_join "" (Workload.read
    (CharmedKafkaPaths.capacity_jbod_json BALANCER_ROLE) (ConfigManager.workload m)));
  Ok (if negb (json_eqb file broker_capacities) then true else content_changed).
End config_changes.
End BalancerManager.

(** ** The operator *)

(** A rebalance event: what is kept of it across deferrals. *)
Module RebalanceEvent.
Record event := mkEvent { mode : string; broker_id : option Z }.

Definition snapshot (e : event) : list (string * string) :=
  dict_update [("mode", mode e)]
    (match broker_id e with
     | Some b => if negb (b =? 0) then [("broker_id", str_of_Z b)] else []
     | None => []
     end).
Definition restore (s : list (string * string)) : result event :=
  match dict_get "mode" s with
  | None => Err (KeyError "mode")
  | Some mode =>
      match dict_get "broker_id" s with
      | Some t => if truthy t then b ← py_int t; Ok (mkEvent mode (Some b)) else Ok (mkEvent mode None)
      | None => Ok (mkEvent mode None)
      end
  end.
End RebalanceEvent.

Module BalancerOperator.

(** What Cruise Control tells of itself. *)
Record cruise_control := mkCC { cc_monitoring : bool; cc_executing : bool; cc_ready : bool }.
(** An HTTP response: status code, document, identifier of the task. *)
Record response := mkResponse { status_code : Z; body : json; user_task_id : string }.

Section operator.
Context {D : Type} `{RelationData D}.
Implicit Types s : cluster_state D.

(** The brokers an action may name: without the broker role, the unit numbers
    of the related application. *)
Definition available_brokers s : result (list Z) :=
  if ClusterState.runs_broker s then traverse KafkaBroker.broker_id (ClusterState.brokers s)
  else
    match peer_cluster_relation s with
    | None => Ok []
    | Some r => traverse (λ name, part ← KafkaBroker.name_part 1 name; py_int part) (ar_units r)
    end.

Definition needs_broker (mode : string) : bool := bool_decide (mode ∈ [MODE_ADD; MODE_REMOVE]).

(** The conditions that refuse a rebalance, in order. *)
Definition failure_conditions (available : list Z) (cc : cruise_control) (trigger mode : string)
    (broker_id : option Z) s : list (bool * string) :=
  [(negb (ClusterState.runs_balancer s), "Action must be run on an application with balancer role");
   (negb (is_leader s), "Action must be run on the application leader");
   (negb (cc_monitoring cc), "CruiseControl balancer service is not yet ready");
   (cc_executing cc,
    "CruiseControl balancer service is currently executing a task, please try again later");
   (negb (cc_ready cc),
    "CruiseControl balancer service has not yet collected enough data to provide a partition reallocation proposal");
   (needs_broker mode && bool_decide (broker_id = None),
    "'add' and 'remove' rebalance action require passing the 'brokerid' parameter");
   (((trigger =? "action")%string && needs_broker mode) &&
      negb (match broker_id with Some b => bool_decide (b ∈ available) | None => false end),
    "invalid brokerid")].

Fixpoint first_failure (conditions : list (bool * string)) : result () :=
  match conditions with
  | [] => Ok ()
  | (check, msg) :: conditions => if (check : bool) then Err (RebalanceError msg) else first_failure conditions
  end.

(** [post] sends the request; the wait that follows is [wait_for_task]. *)
Definition rebalance (post : string → list (string * json) → result response)
    (cc : cruise_control) (trigger mode : string) (broker_id : option Z) (dryrun : bool) s
    : result response :=
  available ← available_brokers s;
  _ ← first_failure (failure_conditions available cc trigger mode broker_id s);
  r ← post (BalancerManager.rebalance_endpoint mode)
        (post_params dryrun [("brokerid", match broker_id with Some b => JInt b | None => JNull end)]);
  let has_error := match body r with JObj d => dict_mem "errorMessage" d | _ => false end in
  if negb (status_code r =? 200) || has_error
  then Err (RebalanceError ("'" ++ mode ++ "' rebalance failed with status code " ++ str_of_Z (status_code r)))
  else Ok r.

(** What the rebalance event asks of Cruise Control: [None] when there is
    nothing to do or Cruise Control is not ready, otherwise the outcome, an
    error being logged. *)
Definition on_rebalance_event (assignment : list (string * list json))
    (post : string → list (string * json) → result response) (cc : cruise_control)
    (e : RebalanceEvent.event) s : result (option response) :=
  let drained := match RebalanceEvent.broker_id e with
    | Some b => negb (b =? 0) && BalancerManager.all_storages_drained assignment b
    | None => false end in
  if (RebalanceEvent.mode e =? "remove")%string && drained then Ok None
  else if any_true [negb (cc_monitoring cc); cc_executing cc; negb (cc_ready cc)] then Ok None
  else
    match rebalance post cc "event" (RebalanceEvent.mode e) (RebalanceEvent.broker_id e) false s with
    | Ok r => Ok (Some r)
    | Err (RebalanceError _) => Ok None
    | Err e => Err e
    end.

(** The payload published when the balancer starts for the first time. *)
Definition balancer_payload (password : string) s : result (list (string * string)) :=
  addr ← KafkaBroker.internal_address (ClusterState.unit_broker s);
  Ok [("balancer-username", BALANCER_WEBSERVER_USER); ("balancer-password", password);
      ("balancer-uris", addr ++ ":" ++ str_of_Z BALANCER_WEBSERVER_PORT)].

Definition publish_credentials (password : string) s : result (cluster_state D) :=
  if truthy (KafkaCluster.balancer_password (ClusterState.cluster s)) then Ok s
  else
    payload ← balancer_payload password s;
    ClusterState.orchestrator_update payload (ClusterState.cluster_update payload s).

(** The internal certificates, generated when they are not ready. *)
Definition setup_internal_tls (generated : option SelfSignedCertificate) s : result (cluster_state D) :=
  let o := KafkaBroker.data (ClusterState.unit_broker s) in
  if TLSState.ready PEER_SCOPE o then Ok s
  else match generated with
       | None => Ok s
       | Some c =>
           o ← TLSState.set_self_signed PEER_SCOPE c o;
           Ok (match o with Some d => ClusterState.set_unit_data (λ _, d) s | None => s end)
       end.

Definition with_state s (m : ConfigManager.config_manager D) : ConfigManager.config_manager D :=
  ConfigManager.mkManager s (ConfigManager.config m) (ConfigManager.workload m)
    (ConfigManager.http_proxy m) (ConfigManager.https_proxy m) (ConfigManager.no_proxy m)
    (ConfigManager.oauth_uses_trusted_ca m).

(** The outcome of the start handler: the status set when the balancer is not
    ready, a deferral when the topics cannot be created, or a start. *)
Inductive started := NotReady (st : Status) | Deferred | Started.

Definition on_start (password : string) (generated : option SelfSignedCertificate)
    (list_topics : nat → result string) (m : ConfigManager.config_manager D)
    : result (ConfigManager.config_manager D * started) :=
  let s := ConfigManager.state m in
  current_status ← ClusterState.balancer_status s;
  if negb (bool_decide (current_status = ACTIVE)) then Ok (m, NotReady current_status)
  else
    s ← publish_credentials password s;
    s ← setup_internal_tls generated s;
    m ← BalancerConfigManager.set_cruise_control_properties (with_state s m);
    m ← BalancerConfigManager.set_broker_capacities m;
    let m := BalancerConfigManager.set_cruise_control_auth m in
    match BalancerManager.create_internal_topics list_topics with
    | Err (ExecError _) => Ok (m, Deferred)
    | Err e => Err e
    | Ok _ =>
        let c := Workload.restart BalancerWorkload.layer (ConfigManager.workload m) in
        let s := ConfigManager.state m in
        let s := if ClusterState.balancer_tls_rotate s then ClusterState.set_balancer_tls_rotate false s else s in
        Ok (ConfigManager.with_workload c (with_state s m), Started)
    end.

(** Whether the balancer is alive, and the status set when it is not. *)
Definition healthy (active : bool) s : result (bool * option Status) :=
  if negb (ClusterState.runs_balancer s) then Ok (true, None)
  else
    current_status ← ClusterState.balancer_status s;
    if negb (bool_decide (current_status = ACTIVE)) then Ok (false, Some current_status)
    else if negb active && is_leader s then Ok (false, Some CC_NOT_RUNNING)
    else Ok (true, None).

(** The rebalance events emitted for the storages without partitions. *)
Definition rebalances_for (assignment : list (string * list json)) : result (list RebalanceEvent.event) :=
  events ← traverse (λ '(id, partitions),
    part ← KafkaBroker.name_part 0 id; broker_id ← py_int part;
    Ok (if (length (partitions : list json) =? 0)%nat
        then [RebalanceEvent.mkEvent "add" (Some broker_id)] else [])) assignment;
  Ok (concat events).

(** Whether the balancer is restarted, and the events emitted. *)
Definition on_config_changed (active : bool) (assignment : result (list (string * list json)))
    (m : ConfigManager.config_manager D)
    : result (ConfigManager.config_manager D * bool * list RebalanceEvent.event) :=
  let s := ConfigManager.state m in
  if negb (is_leader s) then Ok (m, false, [])
  else
    '(ok, _) ← healthy active s;
    if negb (ok : bool) then Ok (m, false, [])
    else
      changed ← BalancerManager.config_change_detected m;
      let restart := changed || ClusterState.balancer_tls_rotate s in
      m ← (if restart then m ← BalancerConfigManager.set_cruise_control_properties m;
                           BalancerConfigManager.set_broker_capacities m
           else Ok m);
      a ← assignment;
      events ← rebalances_for a;
      Ok (m, restart, events).
End operator.
End BalancerOperator.
