(* ===== verification/BalancerFacts.v ===== *)
(** * Properties of the balancer

    When a rebalance is allowed, what a rebalance event keeps across
    deferrals, when a broker counts as drained, the keys of cleaned results,
    and the partition assignment read from the script. *)

From S2P Require Import Prelude PyStr PyDict Json Literals Models Cluster Workload Config Balancer.
Import CruiseControlClient BalancerManager BalancerOperator.

Local Open Scope string_scope.
Local Open Scope Z_scope.

(** ** Events *)

(** A rebalance event is the same after being deferred, except that a
    broker identifier of zero is lost. *)
Theorem rebalance_event_roundtrip (e : RebalanceEvent.event) :
  RebalanceEvent.restore (RebalanceEvent.snapshot e) =
  Ok (RebalanceEvent.mkEvent (RebalanceEvent.mode e)
        (if bool_decide (RebalanceEvent.broker_id e = Some 0) then None else RebalanceEvent.broker_id e)).
Proof.
  destruct e as [mode [b|]]; [|reflexivity]. unfold RebalanceEvent.snapshot, RebalanceEvent.restore.
  cbn [RebalanceEvent.mode RebalanceEvent.broker_id]. destruct (Z.eqb_spec b 0) as [->|Hb]; [reflexivity|].
  rewrite bool_decide_eq_false_2 by congruence. cbn [negb].
  change (dict_update [("mode", mode)] [("broker_id", str_of_Z b)]) with [("mode", mode); ("broker_id", str_of_Z b)].
  cbn [dict_get]. rewrite decide_True, decide_False, decide_True by done.
  rewrite (proj2 (truthy_true _) (str_of_Z_ne b)), py_int_str. reflexivity.
Qed.

(** ** Checks *)

Lemma first_failure_ok conditions :
  first_failure conditions = Ok () ↔ Forall (λ c, c.1 = false) conditions.
Proof.
  induction conditions as [|[b msg] conditions IH]; cbn [first_failure]; [split; [constructor|done]|].
  rewrite Forall_cons. cbn [fst]. destruct b; [split; [done|by intros [? _]]|]. rewrite IH. tauto.
Qed.

Section checks.
Context {D : Type} `{RelationData D}.
Implicit Types s : cluster_state D.

(** A rebalance request reaches Cruise Control only from the leader of an
    application with the balancer role, when Cruise Control monitors, has
    data and executes nothing, with a broker where the mode needs one - for an
    action, a known one - and only when it is accepted does the call return;
    otherwise it raises. *)
Theorem rebalance_spec post cc trigger mode b dryrun s r :
  rebalance post cc trigger mode b dryrun s = Ok r →
  ClusterState.runs_balancer s = true ∧ is_leader s = true ∧
  cc_monitoring cc = true ∧ cc_executing cc = false ∧ cc_ready cc = true ∧
  (needs_broker mode = true → ∃ i, b = Some i ∧
     (trigger = "action" → ∃ available, available_brokers s = Ok available ∧ i ∈ available)) ∧
  status_code r = 200 ∧
  post (rebalance_endpoint mode)
    (post_params dryrun [("brokerid", match b with Some b => JInt b | None => JNull end)]) = Ok r.
Proof.
  unfold rebalance. rewrite result_bind_ok. intros (available & Ha & (u & Hu & (r' & Hr & He)%result_bind_ok)%result_bind_ok).
  destruct u. apply first_failure_ok in Hu. unfold failure_conditions in Hu. rewrite !Forall_cons in Hu.
  cbn [fst] in Hu. destruct Hu as (H1 & H2 & H3 & H4 & H5 & H6 & H7 & _).
  destruct (Z.eqb_spec (status_code r') 200) as [Hc|]; [|done]. cbn [negb orb] in He.
  destruct (match body r' with JObj d => dict_mem "errorMessage" d | _ => false end); [done|].
  injection He as <-. apply negb_false_iff in H1, H2, H3, H5. split_and!; try done.
  intros Hn. rewrite Hn in H6, H7. destruct b as [i|]; [|done]. exists i. split; [done|].
  intros ->. cbn [String.eqb Ascii.eqb Bool.eqb andb] in H7. apply negb_false_iff, bool_decide_eq_true in H7. eauto.
Qed.

(** On an application without the broker role the action does not know
    the broker identifiers: the one of any unit of the related application
    numbered below 100 is refused. *)
Theorem balancer_only_refuses_brokers post cc dryrun s app names r i (n : nat) name :
  ClusterState.runs_broker s = false → ClusterState.runs_balancer s = true → is_leader s = true →
  cc = mkCC true false true →
  peer_cluster_relation s = Some r → ar_units r = names →
  (∀ j x, names !! j = Some x → ∃ z, x = app ++ "/" ++ str_of_Z z ∧ 0 ≤ z < 100) →
  lacks "/" app = true →
  names !! n = Some name → name = app ++ "/" ++ str_of_Z i →
  rebalance post cc "action" MODE_ADD (Some (KRAFT_NODE_ID_OFFSET + i)) dryrun s
    = Err (RebalanceError "invalid brokerid").
Proof.
  intros Hb Hbal Hl -> Hr Hn Hnames Happ Hi ->.
  assert (Hids : ∃ ids, available_brokers s = Ok ids ∧ Forall (λ z, z < 100) ids).
  { unfold available_brokers. rewrite Hb, Hr, Hn. clear Hi Hn Hr. induction names as [|x names IH]; [by exists []|].
    destruct (Hnames 0%nat x eq_refl) as (z & -> & Hz).
    destruct IH as (ids & Hids & Hf); [intros j y Hj; by apply (Hnames (S j))|].
    exists (z :: ids). split; [|by constructor; [lia|]]. cbn [traverse]. rewrite Hids.
    assert (Hp : KafkaBroker.name_part 1 (app ++ "/" ++ str_of_Z z) = Ok (str_of_Z z)).
    { unfold KafkaBroker.name_part. change ("/" ++ str_of_Z z) with (String "/" (str_of_Z z)).
      rewrite split_char_app by done. rewrite split_char_lacks by (by apply str_of_Z_lacks). reflexivity. }
    rewrite Hp. cbn [mbind result_bind]. by rewrite py_int_str. }
  destruct Hids as (ids & Hids & Hf). destruct (Hnames n _ Hi) as (z & Hz & Hr0).
  apply append_inj_l in Hz. injection Hz as Hz. apply str_of_Z_inj in Hz as <-.
  unfold rebalance. rewrite Hids. cbn [mbind result_bind]. unfold failure_conditions.
  rewrite Hbal, Hl. cbn [cc_monitoring cc_executing cc_ready negb first_failure].
  rewrite (bool_decide_eq_false_2 (KRAFT_NODE_ID_OFFSET + i ∈ ids)); [reflexivity|]. intros Hin. rewrite Forall_forall in Hf.
  specialize (Hf _ Hin). unfold KRAFT_NODE_ID_OFFSET in Hf. lia.
Qed.
End checks.

(** Waiting for a task ends at the first poll that finds it completed and
    nothing executing, if there is one. *)
Theorem wait_for_task_spec polls n :
  wait_for_task polls = Some n ↔
  (∃ st, polls !! n = Some (st, false) ∧ contains "Completed" st = true) ∧
  ∀ i st ex, (i < n)%nat → polls !! i = Some (st, ex) → contains "Completed" st = false ∨ ex = true.
Proof.
  revert n. induction polls as [|[st ex] polls IH]; intros n; cbn [wait_for_task].
  { split; [done|]. by intros [(st & Hn & _) _]. }
  destruct (contains "Completed" st) eqn:Ec, ex; cbn [negb orb];
    try (destruct n as [|n]; cbn [lookup list_lookup];
      [split; [by destruct (wait_for_task polls)|intros [(st' & [= <-] & Hst) _]; congruence]|];
      transitivity (wait_for_task polls = Some n); [destruct (wait_for_task polls); cbn; naive_solver|];
      rewrite IH; split; intros [He Hi]; (split; [done|]);
      [intros [|i] st' ex' Hlt Hl; [injection Hl as <- <-; auto|apply (Hi i); [lia|done]]
      |intros i st' ex' Hlt Hl; apply (Hi (S i) st' ex'); [lia|done]]).
  split.
  - intros [= <-]. split; [eauto|]. lia.
  - intros [_ Hi]. destruct n as [|n]; [done|]. destruct (Hi 0%nat st false); [lia|done|congruence|done].
Qed.

(** ** Drained brokers *)

Lemma three_digits z : 100 ≤ z ≤ 999 → String.length (str_of_Z z) = 3%nat.
Proof.
  intros Hz. assert (Hall : forallb (λ n, (String.length (str_of_Z (Z.of_nat n)) =? 3)%nat) (seq 100 900) = true)
    by (vm_compute; reflexivity).
  rewrite forallb_forall in Hall. specialize (Hall (Z.to_nat z)). rewrite Z2Nat.id in Hall by lia.
  apply Nat.eqb_eq, Hall, in_seq. lia.
Qed.

Lemma append_inj_len (a b s t : string) :
  String.length a = String.length b → a ++ s = b ++ t → a = b ∧ s = t.
Proof.
  revert b. induction a as [|c a IH]; intros [|d b]; cbn; try done.
  intros [= Hl] [= -> He]. by destruct (IH b Hl He) as [-> ->].
Qed.

(** For broker identifiers of three digits, a broker counts as drained
    exactly when something is known of the cluster and none of its storages
    holds a partition. *)
Theorem all_storages_drained_spec (assignment : list (string * list json)) b :
  dict_wf assignment → 100 ≤ b ≤ 999 →
  (∀ k ps, (k, ps) ∈ assignment → ∃ id t, k = str_of_Z id ++ "/" ++ t ∧ 100 ≤ id ≤ 999) →
  all_storages_drained assignment b = true ↔
  assignment ≠ [] ∧ ∀ t ps, (str_of_Z b ++ "/" ++ t, ps) ∈ assignment → ps = [].
Proof.
  intros Hwf Hb Hkeys. unfold all_storages_drained.
  set (keys := filter (λ k, startswith (str_of_Z b) k = true) (dict_keys assignment)).
  assert (Hk : ∀ k, k ∈ keys ↔ ∃ t ps, k = str_of_Z b ++ "/" ++ t ∧ (k, ps) ∈ assignment).
  { intros k. unfold keys, dict_keys. rewrite list_elem_of_filter, list_elem_of_fmap. split.
    - intros [(r & Hr)%startswith_iff ([k' ps] & Hkk & Hin)]. cbn [fst] in Hkk. subst k'.
      destruct (Hkeys k ps Hin) as (id & t & Hid & Hr3). rewrite Hid in Hr.
      apply append_inj_len in Hr as [Heq%str_of_Z_inj _]; [|by rewrite !three_digits]. subst id. eauto.
    - intros (t & ps & -> & Hin). split; [apply startswith_iff; eauto|]. by exists (str_of_Z b ++ "/" ++ t, ps). }
  assert (Hdrained : (match keys with [] => true | _ =>
      negb (any_true ((λ k, negb (length (dict_get_or k [] assignment) =? 0)%nat) <$> keys)) end) = true ↔
    ∀ k, k ∈ keys → dict_get_or k [] assignment = []).
  { transitivity (any_true ((λ k, negb (length (dict_get_or k [] assignment) =? 0)%nat) <$> keys) = false).
    { destruct keys; [done|]. apply negb_true_iff. }
    unfold any_true. rewrite <- not_true_iff_false, existsb_exists. split.
    - intros Hno k Hin. destruct (dict_get_or k [] assignment) eqn:E; [done|]. destruct Hno. exists true.
      split; [|done]. apply list_elem_of_In, list_elem_of_fmap. exists k. by rewrite E.
    - intros Hall (x & Hx%list_elem_of_In & ->). apply list_elem_of_fmap in Hx as (k & Hk' & Hin).
      by rewrite (Hall k Hin) in Hk'. }
  destruct assignment as [|kv assignment]; [by split; [|intros [? _]]|]. fold keys. rewrite Hdrained. split.
  - intros Hall. split; [done|]. intros t ps Hin.
    assert (Hkin : str_of_Z b ++ "/" ++ t ∈ keys) by (apply Hk; eauto).
    specialize (Hall _ Hkin). unfold dict_get_or in Hall. by rewrite (dict_elem_get _ _ _ Hwf Hin) in Hall.
  - intros [_ Hall] k (t & ps & -> & Hin)%Hk. unfold dict_get_or. rewrite (dict_elem_get _ _ _ Hwf Hin). by apply (Hall t).
Qed.

Lemma all_storages_drained_spec_witness :
  all_storages_drained [("100/0", []); ("100/1", []); ("101/0", [JStr "t-0"])] 100 = true.
Proof.
  apply all_storages_drained_spec; [apply (bool_decide_unpack _); exact I|lia| |].
  - intros k ps Hin. rewrite !elem_of_cons in Hin.
    destruct Hin as [[= -> ->]|[[= -> ->]|[[= -> ->]|Hin]]]; [by exists 100, "0"|by exists 100, "1"|by exists 101, "0"|].
    by apply not_elem_of_nil in Hin.
  - split; [done|]. intros t ps Hin. rewrite !elem_of_cons in Hin.
    destruct Hin as [[= _ ->]|[[= _ ->]|[Hk|Hin]]]; [done|done| |by apply not_elem_of_nil in Hin].
    change (str_of_Z 100) with "100" in Hk. by injection Hk.
Defined.

(** The keys are compared as texts: broker 1000 keeps broker 100 from being
    drained. *)
Example drained_prefix :
  all_storages_drained [("100/0", []); ("1000/0", [JStr "t-0"])] 100 = false.
Proof. vm_compute. reflexivity. Qed.

(** ** Cleaned results *)

(** A key an action result may have, as far as [_sanitise_key] goes. *)
Definition key_ok (k : string) : bool := (str_lower k =? k)%string && lacks "_" k.
Fixpoint keys_ok (v : json) : bool :=
  match v with
  | JList l => forallb keys_ok l
  | JObj d => forallb (λ kv, key_ok kv.1 && keys_ok kv.2) d
  | _ => true
  end.

(** The labels of labelled lists are texts, integers, truth values or absent,
    as Cruise Control documents them. *)
Definition scalar_label (v : json) : bool :=
  match v with JStr _ | JInt _ | JNull | JBool _ => true | _ => false end.
Definition items_ok (label_key : string) (items : list json) : bool :=
  forallb (λ item, match item with JObj f => scalar_label (dict_get_or label_key JNull f) | _ => true end) items.
Fixpoint labels_ok (v : json) : bool :=
  match v with
  | JList l => forallb labels_ok l
  | JObj d => forallb (λ kv, match dict_get kv.1 label_mapping, kv.2 with
                             | Some lk, JList items => items_ok lk items
                             | _, _ => true
                             end && labels_ok kv.2) d
  | _ => true
  end.

Lemma lower_key_ok s : lacks "_" s = true → key_ok (str_lower s) = true.
Proof.
  intros Hs. unfold key_ok. rewrite str_lower_idemp, String.eqb_refl. cbn [andb].
  revert Hs. unfold str_lower. induction s as [|c s IH]; [done|]. unfold lacks in *. cbn [str_map str_forall].
  intros [Hc Hs]%andb_true_iff. rewrite (IH Hs), andb_true_r. clear -Hc. by destruct c as [[] [] [] [] [] [] [] []].
Qed.

Lemma sanitise_lacks s : lacks "_" (replace_char "_" "-" (replace_char "." "-" s)) = true.
Proof. by apply replace_char_lacks. Qed.

Lemma sanitise_key_ok s : key_ok (sanitise_str s) = true.
Proof. apply lower_key_ok, sanitise_lacks. Qed.

Lemma new_key_ok py_repr nk lk f :
  is_Some (dict_get nk label_mapping) → scalar_label (dict_get_or lk JNull f) = true →
  key_ok (new_key py_repr nk lk f) = true.
Proof.
  intros Hn Hl. apply lower_key_ok. rewrite !lacks_app.
  assert (Hnk : lacks "_" nk = true).
  { apply dict_get_is_Some in Hn. cbn in Hn. rewrite !elem_of_cons in Hn.
    destruct Hn as [->|[->|[->|Hn]]]; try done. by apply not_elem_of_nil in Hn. }
  rewrite Hnk. cbn [andb]. destruct (dict_get_or lk JNull f) as [|[]|z|t|s|l|d]; try done; cbn [label_text andb].
  - by rewrite str_of_Z_lacks.
  - pose proof (sanitise_key_ok s) as Hk. unfold key_ok in Hk. by apply andb_true_iff in Hk as [_ ->].
Qed.

Lemma dict_set_keys_ok k v d : key_ok k = true → keys_ok v = true → keys_ok (JObj d) = true →
  keys_ok (JObj (dict_set k v d)) = true.
Proof.
  intros Hk Hv. cbn [keys_ok]. induction d as [|[k0 v0] d IH]; cbn [dict_set forallb fst snd]; [by rewrite Hk, Hv|].
  intros [H0 Hd]%andb_true_iff. case_decide; cbn [forallb fst snd].
  - apply andb_true_iff in H0 as [H0 _]. by rewrite H0, Hv, Hd.
  - by rewrite H0, IH.
Qed.

Lemma dict_update_keys_ok d1 d2 : keys_ok (JObj d1) = true → keys_ok (JObj d2) = true →
  keys_ok (JObj (dict_update d1 d2)) = true.
Proof.
  revert d1. unfold dict_update. induction d2 as [|[k v] d2 IH]; intros d1 H1; [done|]. cbn [foldl keys_ok forallb fst snd].
  intros [[Hk Hv]%andb_true_iff H2]%andb_true_iff. apply IH; [by apply dict_set_keys_ok|done].
Qed.

(** Every key at any depth of a cleaned answer of Cruise Control is in
    lower case and without underscores. *)
Theorem clean_results_keys py_repr v :
  labels_ok v = true → keys_ok (clean_results py_repr v) = true.
Proof.
  induction v as [|b|z|t|s|l IH|d IH] using json_ind'; intros Hv; try done.
  - cbn [clean_results keys_ok labels_ok] in *. induction IH as [|v l Hvk _ IHl]; [done|].
    cbn [map forallb] in *. apply andb_true_iff in Hv as [H1 H2]. by rewrite Hvk, IHl.
  - cbn [clean_results].
    match goal with |- keys_ok (JObj (?f [] d)) = true => set (go := f) end.
    assert (Hgo : ∀ acc, keys_ok (JObj acc) = true → keys_ok (JObj (go acc d)) = true); [|by apply Hgo].
    induction IH as [|[nk nv] d Hnv _ IHd]; intros acc Hacc; [done|].
    cbn [labels_ok forallb fst snd] in Hv, Hnv. apply andb_true_iff in Hv as [[Hlab Hl]%andb_true_iff Hd].
    assert (Hplain : keys_ok (JObj (dict_set (sanitise_str nk) (clean_results py_repr nv) acc)) = true)
      by (apply dict_set_keys_ok; [apply sanitise_key_ok|by apply Hnv|done]).
    cbn [go]. fold go.
    destruct (dict_get nk label_mapping) as [lk|] eqn:El; [|by apply IHd].
    destruct nv as [|b|z|t|str|items|fields]; try by apply IHd.
    match goal with |- context [match ?f [] items with [] => _ | _ => _ end] => set (build := f) end.
    assert (Hb : ∀ acc, keys_ok (JObj acc) = true → keys_ok (JObj (build acc items)) = true).
    { specialize (Hnv Hl). clear -El Hlab Hnv. revert Hlab Hnv. unfold items_ok.
      induction items as [|item items IHi]; intros Hlab Hnv acc Hacc; [done|].
      cbn [forallb clean_results map keys_ok] in Hlab, Hnv.
      apply andb_true_iff in Hlab as [Hit Hlab], Hnv as [Hci Hnv].
      destruct item as [|?|?|?|?|?|fields]; cbn [build]; fold build; apply IHi; try done.
      apply dict_set_keys_ok; [apply new_key_ok; [rewrite El; eauto|done]|exact Hci|done]. }
    specialize (Hb [] eq_refl).
    destruct (build [] items) as [|kv built] eqn:Eb; [by apply IHd|].
    apply IHd; [done|]. by apply dict_update_keys_ok.
Qed.

Lemma clean_results_keys_witness :
  let v := JObj [("loadAfter_Optimization", JObj [("brokers", JList [JObj [("BrokerState", JStr "ALIVE"); ("Broker", JInt 101)]])])] in
  clean_results (λ _, "") v =
    JObj [("loadafter-optimization", JObj [("brokers.101", JObj [("brokerstate", JStr "ALIVE"); ("broker", JInt 101)])])] ∧
  keys_ok (clean_results (λ _, "") v) = true.
Proof. intros v. split; [vm_compute; reflexivity|]. by apply clean_results_keys. Defined.

(** ** Concrete requests *)

Definition balancer_state : cluster_state bag :=
  mkState "balancer,broker" 50000 None "kafka/0" true (Some (mkPeerData ∅ ∅ [("kafka/1", ∅)])) []
    None None None [] None false ["/data/0"] 2 (mkK8sView (λ _, Ok "") (λ _, Ok 0) (λ _, Ok 0)).
Definition accept_all (endpoint : string) (params : list (string * json)) : result response :=
  Ok (mkResponse 200 (JObj []) "task").

Lemma rebalance_spec_witness :
  needs_broker MODE_ADD = true ∧
  ∃ available, available_brokers balancer_state = Ok available ∧ 101 ∈ available.
Proof.
  split; [reflexivity|].
  destruct (rebalance_spec accept_all (mkCC true false true) "action" MODE_ADD (Some 101) false
    balancer_state (mkResponse 200 (JObj []) "task")) as (_ & _ & _ & _ & _ & Hb & _); [vm_compute; reflexivity|].
  destruct (Hb eq_refl) as (i & [= <-] & Ha). by apply Ha.
Defined.

(** A balancer-only application related to one with a single broker. *)
Definition balancer_only_state : cluster_state bag :=
  mkState "balancer" 50000 None "cc/0" true (Some (mkPeerData ∅ ∅ [])) []
    (Some (mkAppRelation (PeerCluster.mkRemote true (λ _, None) (λ _, None) (λ _ _, ∅)) ["kafka/0"] ∅))
    None None [] None false ["/data/0"] 1 (mkK8sView (λ _, Ok "") (λ _, Ok 0) (λ _, Ok 0)).

Lemma balancer_only_refuses_brokers_witness :
  rebalance accept_all (mkCC true false true) "action" MODE_ADD (Some 100) false balancer_only_state
    = Err (RebalanceError "invalid brokerid").
Proof.
  apply (balancer_only_refuses_brokers accept_all (mkCC true false true) false balancer_only_state "kafka" ["kafka/0"]
    (mkAppRelation (PeerCluster.mkRemote true (λ _, None) (λ _, None) (λ _ _, ∅)) ["kafka/0"] ∅) 0 0%nat "kafka/0");
    try reflexivity.
  intros [|j] x; [|done]. intros [= <-]. exists 0. split; [reflexivity|lia].
Defined.

(** Its identifier without the offset is accepted, and sent. *)
Example balancer_only_wrong_id :
  is_ok (rebalance accept_all (mkCC true false true) "action" MODE_ADD (Some 0) false balancer_only_state) = true.
Proof. vm_compute. reflexivity. Qed.
