(* ===== verification/Health.v ===== *)
(** * The health of the machine (health.py)

    [KafkaHealth] checks the memory, the memory maps, the file descriptors and
    the swappiness of the machine. The charm creates it on machines only. The
    commands are run by an argument. Quotients and averages are rational
    numbers: Python's floats round them, which can only matter when a value is
    within a rounding error of its threshold. *)

From Stdlib Require Import QArith.
From S2P Require Import Prelude PyStr PyDict Json Literals Models Cluster ClusterFacts Workload Config Balancer.

Local Open Scope string_scope.
Local Open Scope Z_scope.

Module KafkaHealth.
Import CruiseControlClient BalancerManager.

(** [KafkaHealth.__init__] *)
Definition init (substrate : string) : result () :=
  if (substrate =? "k8s")%string
  then Err (PyException "Health object cannot be instantiated on K8s charms.") else Ok ().

Section health.
Context {D : Type} `{RelationData D}.

(** What a command prints, or its failure ([ExecError]); the process of the
    service; whether the brokers answer; the configured size of a segment. *)
Variable exec : Workload.command → result string.
Variable service_pid : result Z.
Variable ping : result bool.
Variable log_segment_bytes : Z.
Variable m : ConfigManager.config_manager D.

Definition exec_int (argv : list string) : result Z :=
  out ← exec (Workload.mkCommand argv None); py_int out.

Definition get_current_memory_maps : result Z :=
  pid ← service_pid; exec_int ["bash"; "-c"; "cat /proc/" ++ str_of_Z pid ++ "/maps | wc -l"].
Definition get_current_max_files : result Z :=
  pid ← service_pid;
  exec_int ["bash"; "-c"; "cat /proc/" ++ str_of_Z pid ++ "/limits | grep files | awk '{print $5}'"].
Definition get_max_memory_maps : result Z := exec_int ["sysctl"; "-n"; "vm.max_map_count"].
Definition get_vm_swappiness : result Z := exec_int ["sysctl"; "-n"; "vm.swappiness"].

(** The first line that is a JSON document. *)
Fixpoint first_json (lines : list string) : json :=
  match lines with
  | [] => JObj []
  | line :: lines => match loads line with Ok v => v | Err _ => first_json lines end
  end.

(** The sizes of the partitions of a directory, each of which has a number. *)
Definition partition_size (partition : json) : result Z :=
  _ ← jitem "partition" partition; size ← jitem "size" partition; jint size.
Definition log_dir_sizes (log_dir : json) : result (list Z) :=
  partitions ← jitem "partitions" log_dir; partitions ← jiter partitions; traverse partition_size partitions.
Definition broker_sizes (broker : json) : result (list Z) :=
  dirs ← jitem "logDirs" broker; dirs ← jiter dirs; sizes ← traverse log_dir_sizes dirs; Ok (concat sizes).

(** The sizes of all partitions: none when the brokers do not answer, when the
    command fails or when it prints no document. *)
Definition partition_sizes : result (list Z) :=
  server ← ClusterState.bootstrap_server_internal (ConfigManager.state m);
  up ← ping;
  if negb up then Ok []
  else
    match KafkaWorkload.run_bin_command exec "log-dirs"
            ["--describe"; "--bootstrap-server " ++ server;
             "--command-config " ++ CharmedKafkaPaths.client_properties BROKER_ROLE]
            [CommonConfigManager.tools_log4j_opts BROKER_ROLE (ConfigManager.config m)] with
    | Err (ExecError _) => Ok []
    | Err e => Err e
    | Ok log_dirs =>
        let dirs := first_json (splitlines log_dirs) in
        if negb (json_truthy dirs) then Ok []
        else
          brokers ← jitem "brokers" dirs; brokers ← jiter brokers;
          sizes ← traverse broker_sizes brokers; Ok (concat sizes)
    end.

Definition sum (l : list Z) : Z := foldr Z.add 0 l.
Definition mean (sizes : list Z) : Q := (inject_Z (sum sizes) / inject_Z (Z.of_nat (length sizes)))%Q.
Definition get_partitions_size : result (Z * Q) :=
  sizes ← partition_sizes;
  Ok (match sizes with [] => (0, 0%Q) | _ => (Z.of_nat (length sizes), mean sizes) end).

(** ** The checks *)

(** The 80 percent of a limit, [limit * 0.8]. *)
Definition most_of (limit : Z) : Q := (inject_Z limit * (4 # 5))%Q.

Definition check_memory_maps : result bool :=
  max_maps ← get_max_memory_maps;
  current_maps ← get_current_memory_maps;
  Ok (negb (Qle_bool (most_of max_maps) (inject_Z current_maps))).

Definition check_file_descriptors : result bool :=
  listeners ← ConfigManager.client_listeners m;
  match listeners with
  | [] => Ok true
  | _ =>
      '(total_partitions, average_partition_size) ← get_partitions_size;
      if log_segment_bytes =? 0 then Err (PyException "ZeroDivisionError")
      else
        let minimum_fd_limit :=
          (inject_Z total_partitions * (average_partition_size / inject_Z log_segment_bytes))%Q in
        current_max_files ← get_current_max_files;
        Ok (negb (Qle_bool (most_of current_max_files) minimum_fd_limit))
  end.

Definition check_vm_swappiness : result bool :=
  vm_swappiness ← get_vm_swappiness; Ok (negb (1 <? vm_swappiness)).

(** The second word of the first line of /proc/meminfo, in kilobytes. *)
Definition target_memory_gb : Z :=
  if (profile (ConfigManager.config m) =? "testing")%string then JVM_MEM_MIN_GB else JVM_MEM_MAX_GB.
Definition check_total_memory : result bool :=
  match Workload.read "/proc/meminfo" (ConfigManager.workload m) with
  | [] => Ok false
  | line :: _ =>
      match split_ws line with
      | _ :: word :: _ =>
          total_memory ← py_int word;
          let total_memory_gb := (inject_Z total_memory / inject_Z 1000000)%Q in
          Ok (negb (Qle_bool total_memory_gb (inject_Z target_memory_gb)))
      | _ => Err (IndexError "list index out of range")
      end
  end.

Definition machine_configured : result bool :=
  memory ← check_total_memory;
  maps ← check_memory_maps;
  files ← check_file_descriptors;
  swappiness ← check_vm_swappiness;
  Ok (all_true [memory; maps; files; swappiness]).
End health.
End KafkaHealth.

(** ** The checks in integers *)

Section facts.
Context {D : Type} `{RelationData D}.
Import KafkaHealth.

Lemma Qle_bool_spec (a b : Q) (P : bool) : ((a <= b)%Q ↔ P = true) → Qle_bool a b = P.
Proof. intros HP. apply eq_true_iff_eq. by rewrite Qle_bool_iff. Qed.

Lemma quotient n d : 0 < d → (inject_Z n / inject_Z d == n # Z.to_pos d)%Q.
Proof. destruct d as [|p|p]; [done| |done]. intros _. unfold Qeq, Qdiv, Qinv. cbn. lia. Qed.

(** [limit * 0.8 <= n / d] *)
Lemma most_of_le limit n d (q : Q) :
  0 < d → (q == inject_Z n / inject_Z d)%Q → Qle_bool (most_of limit) q = (4 * limit * d <=? 5 * n).
Proof.
  intros Hd Hq. apply Qle_bool_spec. rewrite Z.leb_le, Hq, quotient by done. unfold most_of, Qle.
  cbn -[Z.mul]. rewrite Z2Pos.id by done. lia.
Qed.

(** The number of partitions times the average of their sizes is their sum. *)
Lemma minimum_limit sizes segment :
  0 < segment →
  let '(total, average) := match sizes with [] => (0, 0%Q) | _ => (Z.of_nat (length sizes), mean sizes) end in
  (inject_Z total * (average / inject_Z segment) == inject_Z (sum sizes) / inject_Z segment)%Q.
Proof.
  intros Hs. assert (Hne : ¬ inject_Z segment == 0) by (intros E; unfold Qeq in E; cbn in E; lia).
  destruct sizes as [|size sizes]; [cbn [sum foldr]; by field|].
  unfold mean. field. split; [done|]. intros E. unfold Qeq in E. cbn -[Z.of_nat] in E. cbn [length] in E. lia.
Qed.

(** The machine counts as configured exactly when its memory is more than
    the profile needs, less than four fifths of the memory maps are used, the
    partitions need less than four fifths of the file descriptors - one for
    each segment of their total size - and swappiness is at most 1. *)
Theorem machine_configured_spec exec service_pid ping segment (m : ConfigManager.config_manager D)
    line lines label word words kb max_maps maps l ls sizes files swappiness :
  Workload.read "/proc/meminfo" (ConfigManager.workload m) = line :: lines →
  split_ws line = label :: word :: words → py_int word = Ok kb →
  get_max_memory_maps exec = Ok max_maps → get_current_memory_maps exec service_pid = Ok maps →
  ConfigManager.client_listeners m = Ok (l :: ls) → 0 < segment →
  partition_sizes exec ping m = Ok sizes → get_current_max_files exec service_pid = Ok files →
  get_vm_swappiness exec = Ok swappiness →
  machine_configured exec service_pid ping segment m =
    Ok (bool_decide (target_memory_gb m * 1000000 < kb ∧ 5 * maps < 4 * max_maps ∧
                     5 * sum sizes < 4 * files * segment ∧ swappiness <= 1)).
Proof.
  intros Hr Hw Hkb Hmax Hmaps Hl Hseg Hs Hf Hsw.
  unfold machine_configured, check_total_memory. rewrite Hr, Hw, Hkb. cbn [mbind result_bind].
  unfold check_memory_maps. rewrite Hmax, Hmaps. cbn [mbind result_bind].
  unfold check_file_descriptors, get_partitions_size. rewrite Hl, Hs, Hf. cbn [mbind result_bind].
  pose proof (minimum_limit sizes segment Hseg) as Hmin.
  destruct (match sizes with [] => _ | _ => _ end) as [total average].
  destruct (Z.eqb_spec segment 0) as [->|_]; [done|]. cbn [mbind result_bind].
  rewrite (most_of_le files (sum sizes) segment _ Hseg Hmin).
  unfold check_vm_swappiness. rewrite Hsw. cbn [mbind result_bind].
  rewrite (most_of_le max_maps maps 1 (inject_Z maps)) by (done || (unfold Qeq; cbn; lia)).
  assert (Hmem : Qle_bool (inject_Z kb / inject_Z 1000000) (inject_Z (target_memory_gb m)) =
                 (kb <=? target_memory_gb m * 1000000)).
  { apply Qle_bool_spec. rewrite Z.leb_le, quotient by done. unfold Qle. cbn -[Z.mul]. lia. }
  rewrite Hmem. f_equal. symmetry. unfold all_true. cbn [forallb].
  apply eq_true_iff_eq. rewrite bool_decide_eq_true, !andb_true_iff, !negb_true_iff, !Z.leb_gt, Z.ltb_ge. lia.
Qed.
End facts.

(** ** A machine *)

Definition log_dirs_output : string :=
  "Querying brokers for log directories information" ++ String newline
  (dumps (JObj [("version", JInt 1); ("brokers", JList [JObj [("broker", JInt 0); ("logDirs", JList
     [JObj [("logDir", JStr "/data"); ("partitions", JList
        [JObj [("partition", JStr "t-0"); ("size", JInt 1000)];
         JObj [("partition", JStr "t-1"); ("size", JInt 500)]])]])]])])).
Definition machine_exec (c : Workload.command) : result string :=
  match Workload.argv c with
  | ["sysctl"; "-n"; key] => Ok (if (key =? "vm.swappiness")%string then "1" else "65530")
  | ["bash"; "-c"; command] => Ok (if contains "maps" command then "2000" else "100000")
  | _ => Ok log_dirs_output
  end.
Definition machine_manager : ConfigManager.config_manager bag :=
  ConfigManager.mkManager sample_state (mkConfig "testing" "INFO" [] "1.1" "0.8" [])
    (mkContainer true {[ "/proc/meminfo" := "MemTotal:       16000000 kB" ]} ∅ ∅) None None None true.

Lemma machine_configured_spec_witness :
  KafkaHealth.machine_configured machine_exec (Ok 7) (Ok true) 1000 machine_manager = Ok true.
Proof.
  assert (Hl : match ConfigManager.client_listeners machine_manager with Ok (_ :: _) => true | _ => false end = true)
    by (vm_compute; reflexivity).
  destruct (ConfigManager.client_listeners machine_manager) as [[|l ls]|e] eqn:El; [discriminate Hl| |discriminate Hl].
  rewrite (machine_configured_spec machine_exec (Ok 7) (Ok true) 1000 machine_manager
    "MemTotal:       16000000 kB" [] "MemTotal:" "16000000" ["kB"] 16000000 65530 2000 l ls [1000; 500] 100000 1).
  - vm_compute. reflexivity.
  - vm_compute. reflexivity.
  - vm_compute. reflexivity.
  - vm_compute. reflexivity.
  - vm_compute. reflexivity.
  - vm_compute. reflexivity.
  - exact El.
  - lia.
  - vm_compute. reflexivity.
  - vm_compute. reflexivity.
  - vm_compute. reflexivity.
Defined.
