(* ===== verification/Tls.v ===== *)
(** * Certificates, keystores and truststores (managers/tls.py)

    The files and commands of [TLSManager], the parsing of what keytool and
    openssl print, and the questions the rotation of certificates asks of a
    truststore. The host that runs the commands is an interface ([Host]), and
    so is the library that reads certificates ([X509]). *)

From S2P Require Import Prelude PyStr PyDict Json Literals Models Cluster Workload.

Local Open Scope string_scope.
Local Open Scope Z_scope.

(** ** Interfaces *)

(** The container of the workload: its files by path, and a command run in a
    working directory, which prints a text and may change files; a command
    that fails changes nothing. *)
Class Host (S : Type) := {
  host_files : S → gmap string string;
  with_files : gmap string string → S → S;
  exec : string → list string → S → result (string * S) }.

(** What the library reads of a certificate: the [ca] flag of its basic
    constraints, the two signing bits of its key usage, its subject, the hash
    its signature uses and its digest under a hash. *)
Record x509 := mkX509 {
  basic_constraints : option bool; key_usage : option (bool * bool);
  subject : string; signature_hash_algorithm : option string; fingerprint : string → list Z }.
Class X509 := { load_pem : string → result x509 }.

(** ** Fingerprints *)

Definition hex_char (n : Z) : ascii :=
  if n <? 10 then ascii_of_nat (Z.to_nat (48 + n)) else ascii_of_nat (Z.to_nat (87 + n)).
(** [hex(b)[2:]] for a byte. *)
Definition hex_byte (b : Z) : string :=
  if b <? 16 then String (hex_char b) "" else String (hex_char (b / 16)) (String (hex_char (b mod 16)) "").

Definition is_hex (c : ascii) : bool := bool_decide (is_Some (hex_val c)).
(** [int(s, 16)] of hexadecimal digits. *)
Fixpoint hex_go (acc : Z) (s : string) : option Z :=
  match s with
  | "" => Some acc
  | String c s => match hex_val c with Some d => hex_go (16 * acc + Z.of_nat d) s | None => None end
  end.
Definition hex_int (s : string) : result Z :=
  match (if truthy s then hex_go 0 s else None) with
  | Some z => Ok z
  | None => Err (ValueError "invalid literal for int() with base 16")
  end.

Module TLSManager.

Definition OLD_PREFIX : string := "old-".
Definition NEW_PREFIX : string := "new-".
Definition PEER_CLUSTER_ALIAS : string := "cluster-tls".
Definition SCOPES : list TLSScope := [PEER_SCOPE; CLIENT_SCOPE].
Definition keytool : string := if (SUBSTRATE =? "vm")%string then "charmed-kafka.keytool" else "keytool".

Definition keytool_hash_to_bytes (hash : string) : result (list Z) :=
  bytes ← traverse hex_int (split_char ":" hash);
  if forallb (λ b, b <? 256) bytes then Ok bytes
  else Err (ValueError "bytes must be in range(0, 256)").
Definition bytes_to_keytool_hash (hash_bytes : list Z) (sep : string) : string :=
  str_upper (str_join sep (hex_byte <$> hash_bytes)).

(** ** Certificates *)

Section certificates.
Context `{X509}.

Definition END_CERTIFICATE : string := "-----END CERTIFICATE-----".
(** [cert.split(END_CERTIFICATE)[0]] *)
Fixpoint before_end (cert : string) : string :=
  if startswith END_CERTIFICATE cert then ""
  else match cert with "" => "" | String c cert => String c (before_end cert) end.

Definition is_valid_leaf_certificate (cert : string) : result bool :=
  let leaf_cert := str_strip (before_end cert) ++ String newline END_CERTIFICATE in
  certificate ← load_pem leaf_cert;
  match basic_constraints certificate with
  | None => Ok true
  | Some ca =>
      match key_usage certificate with
      | None => Ok (negb ca)
      | Some (key_cert_sign, crl_sign) => Ok (negb (key_cert_sign || crl_sign || ca))
      end
  end.

Definition certificate_distinguished_name (cert : string) : result string :=
  cert_obj ← load_pem cert; Ok (subject cert_obj).
Definition certificate_fingerprint (cert : string) : result (list Z) :=
  cert_obj ← load_pem cert;
  Ok (fingerprint cert_obj (default "sha256" (signature_hash_algorithm cert_obj))).
End certificates.

(** ** The manager *)

(** What the manager is built with: the state, the role of its workload, and
    the two options naming additional hosts. *)
Record tls_manager (D : Type) := mkTls {
  state : cluster_state D; role : Role;
  extra_listeners : list string; certificate_extra_sans : list string }.
Arguments mkTls {_} _ _ _ _.
Arguments state {_} _.
Arguments role {_} _.
Arguments extra_listeners {_} _.
Arguments certificate_extra_sans {_} _.

(** ** Listings of keytool *)

(** Two lines of a listing that match the pattern: the alias is the text up to
    the first comma, its first character aside; the fingerprint is the last
    95 characters of the second line. *)
Definition hash_char (c : ascii) : bool := is_hex c || (c =? ":")%char.
Definition record_of (l1 l2 : string) : option (string * string) :=
  match l1 with
  | "" => None
  | String c rest =>
      match split_once "," rest with
      | (a, Some after) =>
          let hash := str_drop (String.length l2 - 95) l2 in
          if contains "trustedCertEntry" (str_drop 1 after) && (96 <=? String.length l2)%nat
             && str_forall hash_char hash
          then Some (String c a, hash) else None
      | (_, None) => None
      end
  end.
(** [re.findall] on a text, by its lines: both lines of a match end with a
    line break, and a match starts after the end of the one before. *)
Fixpoint records (lines : list string) : list (string * string) :=
  match lines with
  | l1 :: ((l2 :: ((_ :: _) as after)) as rest) =>
      match record_of l1 l2 with Some r => r :: records after | None => records rest end
  | _ => []
  end.
Definition parse_listing (raw : string) : result (list (string * list Z)) :=
  entries ← traverse (λ '(alias, hash), bytes ← keytool_hash_to_bytes hash; Ok (alias, bytes))
    (records (split_char newline raw));
  Ok (dict_of_list entries).

Section manager.
Context {D : Type} `{RelationData D} {S : Type} `{Host S} `{X509}.
Implicit Types m : tls_manager D.
Implicit Types s : S.

Definition unit_data m : option D := KafkaBroker.data (ClusterState.unit_broker (state m)).
Definition conf_path m : string := CharmedKafkaPaths.conf_path (role m).
Definition store_password m : string := KafkaBroker.truststore_password (ClusterState.unit_broker (state m)).
Definition key_password m : string := KafkaBroker.keystore_password (ClusterState.unit_broker (state m)).

(** [WorkloadBase.write] and the existence of a file. *)
Definition write (content path : string) s : S := with_files (<[path := content]> (host_files s)) s.
Definition exists_file (path : string) s : bool := bool_decide (is_Some (host_files s !! path)).

Definition get_truststore_path m (scope : TLSScope) : string :=
  match scope with
  | PEER_SCOPE => CharmedKafkaPaths.peer_truststore (role m)
  | CLIENT_SCOPE => CharmedKafkaPaths.truststore (role m)
  end.
Definition get_keystore_path m (scope : TLSScope) : string :=
  match scope with
  | PEER_SCOPE => CharmedKafkaPaths.peer_keystore (role m)
  | CLIENT_SCOPE => CharmedKafkaPaths.keystore (role m)
  end.
Definition scoped_file m (scope : TLSScope) (name : string) : string :=
  conf_path m ++ "/" ++ TLSScope_value scope ++ "-" ++ name.

(** ** Files *)

(** A loop over the scopes. *)
Fixpoint for_scopes (f : TLSScope → S → result S) (scopes : list TLSScope) s : result S :=
  match scopes with
  | [] => Ok s
  | scope :: scopes => s ← f scope s; for_scopes f scopes s
  end.

(** A value of the state is written unless it is empty. *)
Definition set_file m (name : string) (value : TLSScope → string) s : result S :=
  for_scopes (λ scope s,
    if negb (truthy (value scope)) then Ok s
    else Ok (write (value scope) (scoped_file m scope name) s)) SCOPES s.
Definition set_server_key m : S → result S :=
  set_file m "server.key" (λ scope, TLSState.private_key scope (unit_data m)).
Definition set_ca m : S → result S := set_file m "ca.pem" (λ scope, TLSState.ca scope (unit_data m)).
Definition set_certificate m : S → result S :=
  set_file m "server.pem" (λ scope, TLSState.certificate scope (unit_data m)).

Definition set_bundle m : S → result S := for_scopes (λ scope s,
  if negb (truthy (TLSState.certificate scope (unit_data m))) || negb (truthy (TLSState.ca scope (unit_data m)))
  then Ok s
  else
    bundle ← TLSState.bundle scope (unit_data m);
    Ok (write (str_join (String newline "") bundle) (scoped_file m scope "bundle.pem") s)) SCOPES.

Fixpoint write_chain m (scope : TLSScope) (i : Z) (bundle : list string) s : S :=
  match bundle with
  | [] => s
  | chain_cert :: bundle =>
      write_chain m scope (i + 1) bundle
        (write chain_cert (scoped_file m scope ("bundle" ++ str_of_Z i ++ ".pem")) s)
  end.
Definition set_chain m : S → result S := for_scopes (λ scope s,
  bundle ← TLSState.bundle scope (unit_data m); Ok (write_chain m scope 0 bundle s)) SCOPES.

(** ** Truststores *)

Definition import_args m (alias filename : string) (scope : TLSScope) : list string :=
  [keytool; "-import"; "-v"; "-alias"; alias; "-file"; filename; "-keystore";
   TLSScope_value scope ++ "-truststore.jks"; "-storepass"; store_password m; "-noprompt"].
Definition delete_args m (alias : string) (scope : TLSScope) : list string :=
  [keytool; "-delete"; "-v"; "-alias"; alias; "-keystore";
   TLSScope_value scope ++ "-truststore.jks"; "-storepass"; store_password m; "-noprompt"].
Definition list_args m (truststore_path : string) : list string :=
  [keytool; "-list"; "-keystore"; truststore_path; "-storepass"; store_password m; "-noprompt"].

(** A command whose failure is ignored when it prints [benign]. *)
Definition tolerate (benign : string) s (r : result S) : result S :=
  match r with
  | Ok s => Ok s
  | Err (ExecError out) => if truthy out && contains benign out then Ok s else Err (ExecError out)
  | Err e => Err e
  end.

Definition import_cert m (alias filename : string) (scope : TLSScope) s : result S :=
  tolerate "already exists" s (snd <$> exec (conf_path m) (import_args m alias filename scope) s).

Definition remove_cert m (alias : string) (scope : TLSScope) s : result S :=
  match exec (conf_path m) (delete_args m alias scope) s with
  | Ok (_, s) =>
      tolerate "does not exist" s
        (snd <$> exec (conf_path m) (split_ws ("rm -f " ++ TLSScope_value scope ++ "-" ++ alias ++ ".pem")) s)
  | Err e => tolerate "does not exist" s (Err e)
  end.

Definition update_cert m (alias cert : string) (scope : TLSScope) s : result S :=
  s ← remove_cert m alias scope s;
  let filename := TLSScope_value scope ++ "-" ++ alias ++ ".pem" in
  import_cert m alias filename scope (write cert (conf_path m ++ "/" ++ filename) s).

Fixpoint import_bundle_from m (i : Z) (bundle : list string) (scope : TLSScope)
    (alias_prefix : string) s : result S :=
  match bundle with
  | [] => Ok s
  | certificate :: bundle =>
      let alias := alias_prefix ++ "bundle" ++ str_of_Z i in
      let filename := TLSScope_value scope ++ "-" ++ alias ++ ".pem" in
      let file_path := conf_path m ++ "/" ++ filename in
      let s := if exists_file file_path s then s else write certificate file_path s in
      s ← import_cert m alias filename scope s;
      import_bundle_from m (i + 1) bundle scope alias_prefix s
  end.
Definition import_bundle m (bundle : list string) (scope : TLSScope) (alias_prefix : string)
    : S → result S := import_bundle_from m 0 bundle scope alias_prefix.

(** Owner and mode of a store. *)
Definition secure m (path : string) s : result S :=
  '(_, s) ← exec "" ["chown"; USER_NAME ++ ":" ++ GROUP; path] s;
  '(_, s) ← exec "" ["chmod"; "770"; path] s; Ok s.

Definition set_truststore m : S → result S := for_scopes (λ scope s,
  bundle ← TLSState.bundle scope (unit_data m);
  s ← import_bundle m bundle scope "" s;
  if negb (exists_file (get_truststore_path m scope) s) then Ok s
  else secure m (get_truststore_path m scope) s) SCOPES.

Definition keystore_args m (scope : TLSScope) : list string :=
  let v := TLSScope_value scope in
  ["openssl"; "pkcs12"; "-export"; "-in"; v ++ "-bundle.pem"; "-inkey"; v ++ "-server.key";
   "-passin"; "pass:" ++ key_password m; "-certfile"; v ++ "-server.pem"; "-out";
   v ++ "-keystore.p12"; "-password"; "pass:" ++ key_password m].
Definition set_keystore m : S → result S := for_scopes (λ scope s,
  if negb (all_true [truthy (TLSState.private_key scope (unit_data m));
                     truthy (TLSState.certificate scope (unit_data m));
                     truthy (TLSState.ca scope (unit_data m))])
  then Ok s
  else
    '(_, s) ← exec (conf_path m) (keystore_args m scope) s;
    secure m (get_keystore_path m scope) s) SCOPES.

(** ** What a truststore holds *)

Definition get_trusted_certificates m (truststore_path : string) s
    : result (list (string * list Z) * S) :=
  if negb (exists_file truststore_path s) then Ok ([], s)
  else
    '(raw, s) ← exec (conf_path m) (list_args m truststore_path) s;
    certs ← parse_listing raw; Ok (certs, s).
Definition trusted_certificates m s :=
  get_trusted_certificates m (CharmedKafkaPaths.truststore (role m)) s.
Definition peer_trusted_certificates m s :=
  get_trusted_certificates m (CharmedKafkaPaths.peer_truststore (role m)) s.

Definition peer_truststore_has_temporary_aliases m s : result (bool * S) :=
  '(certs, s) ← peer_trusted_certificates m s;
  Ok (any_true ((λ alias, startswith OLD_PREFIX alias || startswith NEW_PREFIX alias)
                  <$> dict_keys certs), s).

Definition alias_needs_update m (alias cert : string) s : result (bool * S) :=
  if negb (truthy cert) then Ok (false, s)
  else
    f ← certificate_fingerprint cert;
    '(certs, s) ← trusted_certificates m s;
    Ok (negb (bool_decide (f = dict_get_or alias [] certs)), s).

Definition alias_common_name m (alias : string) s : result (string * S) :=
  '(certs, s) ← trusted_certificates m s;
  if negb (dict_mem alias certs) then Err (PyException "alias can't be found in the truststore.")
  else
    match host_files s !! (conf_path m ++ "/" ++ TLSScope_value CLIENT_SCOPE ++ "-" ++ alias ++ ".pem") with
    | Some cert => if truthy cert then n ← certificate_distinguished_name cert; Ok (n, s)
                   else Err (FileNotFoundError "Can't find the certificate")
    | None => Err (FileNotFoundError "Can't find the certificate")
    end.

(** ** The other application's certificates *)

Fixpoint trust_bundle m (trusted_certs : list (string * list Z)) (i : Z) (bundle : list string) s
    : result S :=
  match bundle with
  | [] => Ok s
  | cert :: bundle =>
      f ← certificate_fingerprint cert;
      s ← (if bool_decide (f ∈ dict_values trusted_certs) then Ok s
           else
             let alias := PEER_CLUSTER_ALIAS ++ str_of_Z i in
             let alias := if dict_mem alias trusted_certs then NEW_PREFIX ++ alias else alias in
             update_cert m alias cert PEER_SCOPE s);
      trust_bundle m trusted_certs (i + 1) bundle s
  end.

Definition update_peer_cluster_trust m s : result S :=
  bundle ← ClusterState.peer_cluster_ca (state m);
  match bundle with
  | [] => Ok s
  | _ => '(trusted_certs, s) ← peer_trusted_certificates m s; trust_bundle m trusted_certs 0 bundle s
  end.

Definition configure m s : result S :=
  s ← set_server_key m s; s ← set_ca m s; s ← set_chain m s; s ← set_certificate m s;
  s ← set_bundle m s; s ← set_truststore m s; s ← set_keystore m s;
  update_peer_cluster_trust m s.

Definition rebuild_truststore m s : result S :=
  let s := with_files (delete (CharmedKafkaPaths.peer_truststore (role m)) (host_files s)) s in
  s ← set_truststore m s; update_peer_cluster_trust m s.

(** The files of a scope with one of the four extensions. *)
Definition store_file m (scope : TLSScope) (path : string) : bool :=
  startswith (scoped_file m scope "") path &&
  (let name := str_drop (String.length (scoped_file m scope "")) path in
   lacks "/" name && existsb (λ ext, endswith ext name) [".pem"; ".key"; ".p12"; ".jks"]).
Definition remove_stores m (scope : TLSScope) s : S :=
  with_files (filter (λ kv, store_file m scope kv.1 = false) (host_files s)) s.

(** [trusted] holds the certificates of a bundle that are not leaves, by the
    text of their fingerprint. *)
Fixpoint bundle_trusted (trusted : gset string) (bundle : list string) : result bool :=
  match bundle with
  | [] => Ok true
  | certificate :: bundle =>
      leaf ← is_valid_leaf_certificate certificate;
      if (leaf : bool) then bundle_trusted trusted bundle
      else
        hash_bytes ← certificate_fingerprint certificate;
        if decide (bytes_to_keytool_hash hash_bytes "" ∈ trusted) then bundle_trusted trusted bundle
        else Ok false
  end.

Definition peer_cluster_app_trusts_new_bundle m : result bool :=
  if ClusterState.runs_broker (state m) && ClusterState.runs_controller (state m) then Ok true
  else
    bundle ← TLSState.bundle PEER_SCOPE (unit_data m);
    trusted ← ClusterState.trusted_by_peer_cluster_app (state m);
    bundle_trusted trusted bundle.

Definition both_apps_trust_new_bundle m : result bool :=
  ours ← ClusterState.trusted_by_our_app (state m);
  theirs ← ClusterState.trusted_by_peer_cluster_app (state m);
  bundle ← TLSState.bundle PEER_SCOPE (unit_data m);
  ca ← ClusterState.peer_cluster_ca (state m);
  bundle_trusted (ours ∩ theirs) (bundle ++ ca)%list.

(** [alive] is the answer of [ping]. *)
Definition reload_truststore m (alive : result bool) s : result S :=
  bootstrap ← ClusterState.bootstrap_server_internal (state m);
  up ← alive;
  if negb (all_true [exists_file (CharmedKafkaPaths.truststore (role m)) s;
                     exists_file (CharmedKafkaPaths.client_properties (role m)) s; up])
  then Ok s
  else
    broker_id ← KafkaBroker.broker_id (ClusterState.unit_broker (state m));
    c ← Workload.bin_command (CharmedKafkaPaths.binaries_path (role m)) "configs"
      ["--command-config " ++ CharmedKafkaPaths.client_properties (role m);
       "--bootstrap-server " ++ bootstrap; "--entity-type brokers";
       "--entity-name " ++ str_of_Z broker_id; "--alter";
       "--add-config listener.name.CLIENT_SSL_SSL.ssl.truststore.location="
         ++ CharmedKafkaPaths.truststore (role m)] [];
    '(_, s) ← exec "" (Workload.argv c) s; Ok s.

(** ** Subject alternative names *)

Record Sans := mkSans { sans_ip : list string; sans_dns : list string }.

Definition build_extra_sans m : result (list string) :=
  let extra_sans := match extra_listeners m with [] => certificate_extra_sans m | l => l end in
  match extra_sans with
  | [] => Ok []
  | _ =>
      unit_id ← KafkaBroker.unit_id (ClusterState.unit_broker (state m));
      Ok ((λ san, str_replace "{unit}" (str_of_Z unit_id) (default "" (head (split_char ":" san))))
            <$> extra_sans)
  end.

(** [bind_address] is the address of the peer relation's binding, [ips] those
    of the workload and [fqdn] the name of the host. *)
Definition build_sans m (bind_address fqdn : string) (ips : list string) : result Sans :=
  let b := ClusterState.unit_broker (state m) in
  extra ← build_extra_sans m;
  if (SUBSTRATE =? "vm")%string then Ok (mkSans ips ([KafkaBroker.unit_name b; fqdn] ++ extra)%list)
  else
    ip ← node_ip (k8s (state m)) (KafkaBroker.pod_name b);
    addr ← KafkaBroker.internal_address b;
    Ok (mkSans (sorted_set ({[bind_address; ip]} ∪ list_to_set ips))
          (sorted_str ([default "" (head (split_char "." addr)); addr; fqdn] ++ extra)%list)).

(** The line the loop stops at: the first with both kinds of names, or else
    the last. *)
Fixpoint sans_line (lines : list string) : option string :=
  match lines with
  | [] => None
  | line :: rest =>
      if contains "DNS" line && contains "IP" line then Some line
      else match rest with [] => Some line | _ => sans_line rest end
  end.

(** [line.split(", ")] *)
Fixpoint split_items (cur line : string) : list string :=
  match line with
  | "" => [cur]
  | String c rest =>
      match rest with
      | String d rest' =>
          if (c =? ",")%char && (d =? " ")%char then cur :: split_items "" rest'
          else split_items (cur ++ String c "") rest
      | "" => [cur ++ String c ""]
      end
  end.

Fixpoint parse_sans (items : list string) : result Sans :=
  match items with
  | [] => Ok (mkSans [] [])
  | item :: items =>
      match split_char ":" item with
      | [san_type; san_value] =>
          sans ← parse_sans items;
          let t := str_strip san_type in
          Ok (mkSans (if (t =? "IP Address")%string then san_value :: sans_ip sans else sans_ip sans)
                     (if (t =? "DNS")%string then san_value :: sans_dns sans else sans_dns sans))
      | [_] => Err (ValueError "not enough values to unpack (expected 2, got 1)")
      | _ => Err (ValueError "too many values to unpack (expected 2)")
      end
  end.

Definition sans_of_lines (sans_lines : list string) : result (option Sans) :=
  match sans_line sans_lines with
  | None => Ok None
  | Some line =>
      sans ← parse_sans (split_items "" line);
      Ok (Some (mkSans (sorted_str (sans_ip sans)) (sorted_str (sans_dns sans))))
  end.

Definition get_current_sans m (scope : TLSScope) s : result (option Sans * S) :=
  if negb (truthy (TLSState.certificate scope (unit_data m)))
     || negb (exists_file (scoped_file m scope "server.pem") s)
  then Ok (None, s)
  else
    '(out, s) ← exec (conf_path m) ["openssl"; "x509"; "-noout"; "-ext"; "subjectAltName"; "-in";
                                    TLSScope_value scope ++ "-server.pem"] s;
    sans ← sans_of_lines (splitlines out); Ok (sans, s).

Definition sym_diff (X Y : gset string) : gset string := (X ∖ Y) ∪ (Y ∖ X).

(** The two questions of [sans_changed], [expected] being [build_sans]. *)
Definition sans_differ (unit_name app_name : string) (current expected : Sans) : bool :=
  negb (bool_decide (sym_diff (list_to_set (sans_ip current)) (list_to_set (sans_ip expected)) = ∅)) ||
  negb (bool_decide (sym_diff (list_to_set (sans_dns current)) (list_to_set (sans_dns expected))
                       ∖ {[unit_name; app_name]} = ∅)).

Definition sans_changed m (expected : result Sans) (scope : TLSScope) s : result (bool * S) :=
  '(current, s) ← get_current_sans m scope s;
  match current with
  | None => Ok (false, s)
  | Some current =>
      expected ← expected;
      app_name ← KafkaBroker.name_part 0 (st_unit_name (state m));
      Ok (sans_differ (st_unit_name (state m)) app_name current expected, s)
  end.

(** ** Self-signed certificates *)

(** [issue] is the library: it signs a certificate for the unit with the
    internal authority, on the given private key or a new one. *)
Definition generate_self_signed_certificate m (sans : result Sans)
    (issue : string → string → option string → string → Sans → SelfSignedCertificate)
    : result (option SelfSignedCertificate) :=
  match ClusterState.internal_ca (state m) with
  | None => Ok None
  | Some ca =>
      if TLSState.ready PEER_SCOPE (unit_data m) then Ok None
      else
        match ClusterState.internal_ca_key (state m) with
        | None => Ok None
        | Some ca_key =>
            let private_key := TLSState.private_key PEER_SCOPE (unit_data m) in
            sans ← sans;
            Ok (Some (issue ca ca_key (if truthy private_key then Some private_key else None)
                        (st_unit_name (state m)) sans))
        end
  end.
End manager.
End TLSManager.
