(* ===== verification/TlsFacts.v ===== *)
(** * Facts on certificates and truststores

    Fingerprints and their texts, the listings of keytool, the trust of the
    other application's certificates against any keytool that does what it is
    documented to do ([Keytool]), and the names of a certificate. *)

From S2P Require Import Prelude PyStr PyDict Json Literals Models Cluster Workload Tls.
Import TLSManager.

Local Open Scope string_scope.
Local Open Scope Z_scope.

(** ** Fingerprints *)

Definition is_byte (b : Z) : Prop := 0 ≤ b < 256.

(** Facts on bytes, decided on the 256 of them. *)
Lemma byte_cases (P : Z → Prop) `{∀ b, Decision (P b)} :
  forallb (λ n, bool_decide (P (Z.of_nat n))) (seq 0 256) = true → ∀ b, is_byte b → P b.
Proof.
  intros Hall b Hb. rewrite forallb_forall in Hall. unfold is_byte in Hb.
  assert (Hin : In (Z.to_nat b) (seq 0 256)) by (apply in_seq; lia).
  specialize (Hall _ Hin). apply bool_decide_eq_true in Hall. by rewrite Z2Nat.id in Hall by lia.
Qed.

Definition upper_byte (b : Z) : string := str_upper (hex_byte b).

Lemma upper_byte_spec b : is_byte b →
  hex_int (upper_byte b) = Ok b ∧ lacks ":" (upper_byte b) = true ∧
  (16 ≤ b → String.length (upper_byte b) = 2%nat).
Proof.
  apply (byte_cases (λ b, hex_int (upper_byte b) = Ok b ∧ lacks ":" (upper_byte b) = true ∧
    (16 ≤ b → String.length (upper_byte b) = 2%nat))).
  vm_compute. reflexivity.
Qed.

Lemma str_join_cons2 sep x y l : str_join sep (x :: y :: l) = x ++ sep ++ str_join sep (y :: l).
Proof. done. Qed.

Lemma str_upper_join sep l : str_upper sep = sep →
  str_upper (str_join sep l) = str_join sep (str_upper <$> l).
Proof.
  intros Hs. induction l as [|x [|y l] IH]; [done..|].
  rewrite str_join_cons2, !fmap_cons, str_join_cons2, <- fmap_cons, <- IH.
  unfold str_upper in *. by rewrite !str_map_app, Hs.
Qed.

Lemma bytes_to_keytool_hash_eq bs sep : str_upper sep = sep →
  bytes_to_keytool_hash bs sep = str_join sep (upper_byte <$> bs).
Proof.
  intros Hs. unfold bytes_to_keytool_hash. rewrite str_upper_join by done.
  by rewrite <- list_fmap_compose.
Qed.

(** The bytes of a text of colon-separated hexadecimal numbers. *)
Lemma keytool_hash_parts ps bs :
  ps ≠ [] → Forall2 (λ p b, hex_int p = Ok b ∧ lacks ":" p = true ∧ is_byte b) ps bs →
  keytool_hash_to_bytes (str_join ":" ps) = Ok bs.
Proof.
  intros Hne Hps. unfold keytool_hash_to_bytes.
  change ":" with (String ":" "") at 1. rewrite split_join_char.
  - assert (Ht : traverse hex_int ps = Ok bs).
    { apply traverse_ok. eapply Forall2_impl; [exact Hps|]. naive_solver. }
    rewrite Ht. cbn [mbind result_bind].
    assert (Hb : forallb (λ b, b <? 256) bs = true); [|by rewrite Hb].
    apply forallb_forall. intros b Hb%list_elem_of_In. apply list_elem_of_lookup in Hb as (i & Hb).
    destruct (Forall2_lookup_r _ _ _ _ _ Hps Hb) as (p & _ & _ & _ & Hbyte).
    apply Z.ltb_lt. apply Hbyte.
  - done.
  - apply Forall_forall. intros p Hp. apply list_elem_of_lookup in Hp as (i & Hp).
    destruct (Forall2_lookup_l _ _ _ _ _ Hps Hp) as (b & _ & _ & Hl & _). done.
Qed.

Lemma concat_two_inj (l l' : list string) :
  Forall (λ x, String.length x = 2%nat) l → Forall (λ x, String.length x = 2%nat) l' →
  str_join "" l = str_join "" l' → l = l'.
Proof.
  assert (Hlen : ∀ a b c d : string, String.length a = String.length b → a ++ c = b ++ d → a = b ∧ c = d).
  { induction a as [|x a IH]; intros [|y b] c d Hl He; try done; cbn in *.
    injection Hl as Hl. injection He as -> He. destruct (IH b c d Hl He) as [-> ->]. done. }
  assert (Hcons : ∀ x l, str_join "" (x :: l) = x ++ str_join "" l).
  { intros x [|y r]; cbn; [by rewrite append_nil_r|done]. }
  intros Hl. revert l'. induction Hl as [|x l Hx Hl IH]; intros l' Hl' He.
  - destruct Hl' as [|y l' Hy _]; [done|]. rewrite Hcons in He. by destruct y.
  - destruct Hl' as [|y l' Hy Hl']; [rewrite Hcons in He; by destruct x|].
    rewrite !Hcons in He. apply Hlen in He as [-> He]; [|congruence]. f_equal. by apply IH.
Qed.

(** A fingerprint written with colons is read back byte for byte, and two
    fingerprints without a byte below 16 have the same text without separator
    only when they are equal. *)
Theorem keytool_hash_roundtrip bs bs' :
  bs ≠ [] → Forall is_byte bs → Forall is_byte bs' →
  keytool_hash_to_bytes (bytes_to_keytool_hash bs ":") = Ok bs ∧
  (Forall (λ b, 16 ≤ b) bs → Forall (λ b, 16 ≤ b) bs' →
   bytes_to_keytool_hash bs "" = bytes_to_keytool_hash bs' "" → bs = bs').
Proof.
  intros Hne Hb Hb'. split.
  - rewrite bytes_to_keytool_hash_eq by done. apply keytool_hash_parts; [by destruct bs|].
    apply Forall2_fmap_l, Forall_Forall2_diag. eapply Forall_impl; [exact Hb|].
    intros b Hbyte. destruct (upper_byte_spec b Hbyte) as (? & ? & _). done.
  - intros H16 H16' He. rewrite !bytes_to_keytool_hash_eq in He by done.
    assert (Htwo : ∀ l, Forall is_byte l → Forall (λ b, 16 ≤ b) l →
      Forall (λ x, String.length x = 2%nat) (upper_byte <$> l)).
    { intros l Hl Hl16. apply Forall_fmap. rewrite Forall_forall in *.
      intros b Hin. cbn. by apply upper_byte_spec; [apply Hl|apply Hl16]. }
    apply concat_two_inj in He; [|by apply Htwo..].
    assert (Hback : ∀ l, Forall is_byte l → hex_int <$> (upper_byte <$> l) = Ok <$> l).
    { induction 1 as [|b l Hbyte _ IH]; [done|]. rewrite !fmap_cons, IH.
      by rewrite (proj1 (upper_byte_spec b Hbyte)). }
    apply (f_equal (fmap hex_int)) in He. rewrite !Hback in He by done.
    assert (Inj (=) (=) (@Ok Z)) by (by intros ? ? [= ->]). by apply (inj (fmap Ok)) in He.
Qed.

Lemma keytool_hash_roundtrip_witness :
  keytool_hash_to_bytes (bytes_to_keytool_hash [5; 46; 171] ":") = Ok [5; 46; 171].
Proof.
  apply (keytool_hash_roundtrip [5; 46; 171] []); [done|..]; repeat constructor; done.
Defined.

(** Bytes below 16 lose their leading zero, so that without a separator two
    fingerprints of the same length may have the same text. *)
Example keytool_hash_collision :
  bytes_to_keytool_hash [1; 35] "" = bytes_to_keytool_hash [18; 3] "".
Proof. reflexivity. Qed.

(** ** Listings *)

(** The listing keytool prints: header lines, then two lines for each entry,
    with the date it was added and the SHA-256 fingerprint in full. *)
Definition two_digits (b : Z) : string :=
  str_upper (String (hex_char (b / 16)) (String (hex_char (b mod 16)) "")).
Definition entry_lines (date : string) (e : string * list Z) : list string :=
  [e.1 ++ ", " ++ date ++ ", trustedCertEntry, ";
   "Certificate fingerprint (SHA-256): " ++ str_join ":" (two_digits <$> e.2)].
Definition listing (header : list string) (date : string) (entries : list (string * list Z)) : string :=
  str_join (String newline "") (header ++ concat (entry_lines date <$> entries) ++ [""])%list.

(** A SHA-256 digest. *)
Definition is_sha256 (f : list Z) : Prop := length f = 32%nat ∧ Forall is_byte f.
#[export] Instance is_sha256_dec f : Decision (is_sha256 f).
Proof. unfold is_sha256, is_byte. apply _. Defined.
(** An alias that keytool keeps and prints as it is given. *)
Definition plain_alias (a : string) : bool :=
  truthy a && lacks "," a && lacks newline a && (str_lower a =? a)%string.

Lemma two_digits_spec b : is_byte b →
  hex_int (two_digits b) = Ok b ∧ lacks ":" (two_digits b) = true ∧
  String.length (two_digits b) = 2%nat ∧ str_forall hash_char (two_digits b) = true ∧
  lacks newline (two_digits b) = true.
Proof.
  apply (byte_cases (λ b, hex_int (two_digits b) = Ok b ∧ lacks ":" (two_digits b) = true ∧
    String.length (two_digits b) = 2%nat ∧ str_forall hash_char (two_digits b) = true ∧
    lacks newline (two_digits b) = true)).
  vm_compute. reflexivity.
Qed.

Lemma hash_text f : Forall is_byte f →
  str_forall hash_char (str_join ":" (two_digits <$> f)) = true ∧
  lacks newline (str_join ":" (two_digits <$> f)) = true ∧
  (f ≠ [] → String.length (str_join ":" (two_digits <$> f)) = (3 * length f - 1)%nat) ∧
  (f ≠ [] → keytool_hash_to_bytes (str_join ":" (two_digits <$> f)) = Ok f).
Proof.
  intros Hf. split_and!.
  - induction Hf as [|b [|c f] Hb _ IH]; [done|by apply two_digits_spec|].
    rewrite !fmap_cons, str_join_cons2, !str_forall_app, <- fmap_cons, IH.
    by rewrite (proj1 (proj2 (proj2 (proj2 (two_digits_spec b Hb))))).
  - induction Hf as [|b [|c f] Hb _ IH]; [done|by apply two_digits_spec|].
    rewrite !fmap_cons, str_join_cons2, !lacks_app, <- fmap_cons, IH.
    by rewrite (proj2 (proj2 (proj2 (proj2 (two_digits_spec b Hb))))).
  - intros Hne. induction Hf as [|b [|c f] Hb _ IH]; [done|by apply two_digits_spec|].
    rewrite !fmap_cons, str_join_cons2, !append_length, <- fmap_cons, IH by done.
    rewrite (proj1 (proj2 (proj2 (two_digits_spec b Hb)))). cbn [length String.length]. lia.
  - intros Hne. apply keytool_hash_parts; [by destruct f|].
    apply Forall2_fmap_l, Forall_Forall2_diag. eapply Forall_impl; [exact Hf|].
    intros b Hb. destruct (two_digits_spec b Hb) as (? & ? & _). done.
Qed.

Lemma lacks_no_contains_comma l : lacks "," l = true → split_once "," l = (l, None).
Proof. apply split_once_lacks. Qed.

Lemma record_of_plain l1 l2 : lacks "," l1 = true → record_of l1 l2 = None.
Proof.
  destruct l1 as [|c l1]; [done|]. unfold record_of. cbn [lacks str_forall].
  intros [_ Hl]%andb_true_iff. by rewrite split_once_lacks.
Qed.

Lemma record_of_entry date e :
  plain_alias e.1 = true → is_sha256 e.2 →
  match entry_lines date e with
  | [l1; l2] => record_of l1 l2 = Some (e.1, str_join ":" (two_digits <$> e.2))
  | _ => False
  end.
Proof.
  destruct e as [a f]. cbn [fst snd entry_lines]. intros Ha [Hlen Hf].
  unfold plain_alias in Ha. bool_split. destruct a as [|c a]; [done|].
  unfold record_of. rewrite append_cons. cbn [lacks str_forall] in *. bool_split.
  change (", " ++ date ++ ", trustedCertEntry, ")
    with (String "," (" " ++ date ++ ", trustedCertEntry, ")).
  rewrite split_once_app by done.
  destruct (hash_text f Hf) as (Hh & _ & Hl & _). specialize (Hl ltac:(by destruct f)).
  rewrite append_length, Hl, Hlen.
  change (String.length "Certificate fingerprint (SHA-256): " + (3 * 32 - 1) - 95)%nat
    with (String.length "Certificate fingerprint (SHA-256): ").
  rewrite str_drop_app, Hh.
  assert (Hc : contains "trustedCertEntry" (str_drop 1 (" " ++ date ++ ", trustedCertEntry, ")) = true).
  { apply contains_iff. exists (date ++ ", "), ", ". cbn [str_drop]. by rewrite append_assoc. }
  by rewrite Hc.
Qed.

Lemma records_some l1 l2 r after :
  record_of l1 l2 = Some r → after ≠ [] → records (l1 :: l2 :: after) = r :: records after.
Proof. intros Hr Ha. destruct after; [done|]. cbn [records]. by rewrite Hr. Qed.

Lemma records_none l1 rest : lacks "," l1 = true → records (l1 :: rest) = records rest.
Proof.
  intros Hl. destruct rest as [|l2 [|l3 rest]]; [done|done|].
  cbn [records]. by rewrite record_of_plain.
Qed.

(** The listing of plain aliases with SHA-256 fingerprints is read back. *)
Lemma parse_listing_spec header date entries :
  Forall (λ l, lacks "," l = true ∧ lacks newline l = true) header →
  lacks newline date = true →
  Forall (λ e, plain_alias e.1 = true ∧ is_sha256 e.2) entries → dict_wf entries →
  parse_listing (listing header date entries) = Ok entries.
Proof.
  intros Hh Hd He Hwf. unfold parse_listing, listing.
  rewrite split_join_char.
  - assert (Hr : records (header ++ concat (entry_lines date <$> entries) ++ [""])%list =
      (λ e, (e.1, str_join ":" (two_digits <$> e.2))) <$> entries).
    { induction Hh as [|l header [Hl _] _ IH]; [|cbn [app]; by rewrite records_none].
      cbn [app]. clear Hwf. induction He as [|e entries [Ha Hf] _ IH]; [done|].
      pose proof (record_of_entry date e Ha Hf) as Hrec. cbn [entry_lines] in Hrec.
      rewrite !fmap_cons. cbn [concat app entry_lines].
      erewrite records_some; [|exact Hrec|]; [by rewrite IH|].
      by destruct (concat (entry_lines date <$> entries)). }
    rewrite Hr. assert (Ht : traverse (λ '(alias, hash),
        bytes ← keytool_hash_to_bytes hash; Ok (alias, bytes))
        ((λ e : string * list Z, (e.1, str_join ":" (two_digits <$> e.2))) <$> entries) = Ok entries).
    { apply traverse_ok, Forall2_fmap_l, Forall_Forall2_diag. eapply Forall_impl; [exact He|].
      intros [a f] [_ [Hlen Hf]]. cbn [fst snd] in *.
      destruct (hash_text f Hf) as (_ & _ & _ & Hk).
      cbv beta iota delta [compose]. cbn [fst snd]. rewrite Hk by (by destruct f). done. }
    rewrite Ht. cbn [mbind result_bind]. by rewrite dict_of_list_id.
  - by destruct header, (concat (entry_lines date <$> entries)).
  - apply Forall_app_2; [eapply Forall_impl; [exact Hh|by intros l []]|].
    apply Forall_app_2; [|by repeat constructor].
    apply Forall_concat, Forall_fmap. eapply Forall_impl; [exact He|]. intros [a f] [Ha [_ Hf]].
    unfold plain_alias in Ha. cbn [fst snd] in *.
    apply andb_true_iff in Ha as [[_ H1]%andb_true_iff _].
    constructor; [|constructor; [|constructor]]; cbn [fst snd entry_lines]; rewrite !lacks_app.
    + by rewrite Hd, H1.
    + destruct (hash_text f Hf) as (_ & -> & _). done.
Qed.

(** ** Fingerprints a listing can hold *)

Lemma str_drop_length n s : String.length (str_drop n s) = (String.length s - n)%nat.
Proof. revert s. induction n as [|n IH]; intros [|c s]; cbn; [done..|]. apply IH. Qed.

Lemma records_hash lines a h : (a, h) ∈ records lines → String.length h = 95%nat.
Proof.
  assert (Hall : ∀ n lines, (length lines ≤ n)%nat → (a, h) ∈ records lines → String.length h = 95%nat); [|eauto].
  clear lines. induction n as [|n IH]; intros [|l1 [|l2 [|l3 rest]]] Hn Hin;
    try (by apply not_elem_of_nil in Hin); cbn [length] in Hn; [lia|].
  cbn [records] in Hin. destruct (record_of l1 l2) as [r|] eqn:E.
  - apply elem_of_cons in Hin as [<-|Hin]; [|apply (IH (l3 :: rest)); [cbn; lia|done]].
    unfold record_of in E. destruct l1 as [|c l1]; [done|].
    destruct (split_once "," l1) as [b [after|]]; [|done]. case_match eqn:Hc; [|done].
    injection E as <- <-. apply andb_true_iff in Hc as [[_ Hl%Nat.leb_le]%andb_true_iff _].
    rewrite str_drop_length. lia.
  - apply (IH (l2 :: l3 :: rest)); [cbn; lia|done].
Qed.

(** Each byte takes a digit and a separator at least. *)
Lemma keytool_hash_length hash bs :
  keytool_hash_to_bytes hash = Ok bs → (2 * length bs ≤ String.length hash + 1)%nat.
Proof.
  unfold keytool_hash_to_bytes. intros (bytes & Hb & Hif)%result_bind_ok.
  destruct (forallb _ _); [|done]. injection Hif as <-.
  apply traverse_ok in Hb. pose proof (join_split_char ":" hash) as Hj.
  apply (f_equal String.length) in Hj. rewrite <- Hj. clear Hj. revert Hb.
  generalize (split_char ":" hash). intros ps Hb. change (String ":" "") with ":".
  induction Hb as [|p b ps bs Hp Hps IH]; [cbn; lia|].
  assert (1 ≤ String.length p)%nat by (destruct p; [done|cbn; lia]).
  destruct ps as [|p' ps]; [inversion Hps; subst; change (str_join ":" [p]) with p; cbn [length]; lia|].
  rewrite str_join_cons2, !append_length. cbn [length String.length] in *. lia.
Qed.

Lemma parse_listing_length raw certs a f :
  parse_listing raw = Ok certs → dict_get a certs = Some f → (length f ≤ 48)%nat.
Proof.
  unfold parse_listing. intros (entries & He & [= <-])%result_bind_ok Hg.
  apply traverse_ok in He.
  assert (Hin : ∃ e, e ∈ entries ∧ e.2 = f).
  { unfold dict_of_list in Hg. rewrite dict_get_update in Hg.
    destruct (dict_get a (reverse entries)) as [v|] eqn:E; [|done]. injection Hg as ->.
    apply dict_get_elem in E. exists (a, f). split; [|done]. by rewrite elem_of_reverse in E. }
  destruct Hin as (e & Hin & <-). apply list_elem_of_lookup in Hin as (i & Hi).
  destruct (Forall2_lookup_r _ _ _ _ _ He Hi) as ([al h] & Hl & Hk).
  apply result_bind_ok in Hk as (bytes & Hk & [= <-]). cbn [snd].
  apply keytool_hash_length in Hk. apply list_elem_of_lookup_2, records_hash in Hl. lia.
Qed.

Section needs_update.
Context {D : Type} `{RelationData D} {S : Type} `{Host S} `{X509}.

(** Whatever the truststore lists, a certificate whose signature uses a hash
    of 64 bytes is never up to date: it is compared by that hash with the
    SHA-256 fingerprints keytool prints. *)
Theorem sha512_never_up_to_date (m : tls_manager D) alias cert x (s s' : S) r :
  cert ≠ "" → load_pem cert = Ok x →
  length (fingerprint x (default "sha256" (signature_hash_algorithm x))) = 64%nat →
  alias_needs_update m alias cert s = Ok (r, s') → r = true.
Proof.
  intros Hc Hx Hlen. unfold alias_needs_update, certificate_fingerprint.
  rewrite (proj2 (truthy_true cert) Hc). cbn [negb]. rewrite Hx. cbn [mbind result_bind].
  intros ([certs s1] & Hcerts & [= <- <-])%result_bind_ok.
  apply negb_true_iff, bool_decide_eq_false_2. intros He.
  unfold dict_get_or in He. destruct (dict_get alias certs) as [f|] eqn:Hf; [|by rewrite He in Hlen].
  unfold trusted_certificates, get_trusted_certificates in Hcerts. case_match; [by injection Hcerts as <- <-|].
  apply result_bind_ok in Hcerts as ([raw s2] & _ & (cs & Hp & [= <- <-])%result_bind_ok).
  pose proof (parse_listing_length raw cs alias f Hp Hf). rewrite He in Hlen. lia.
Qed.
End needs_update.

(** ** Keytool *)

(** What the commands of the manager do, as keytool and [rm] document it, for
    the password the stores were created with. [trust] is what a truststore
    holds, by the path of its file. *)
Class Keytool (S : Type) `{Host S} `{X509} := {
  kt_password : string;
  trust : string → S → gmap string (list Z);
  trust_file p s : trust p s ≠ ∅ → is_Some (host_files s !! p);
  trust_plain p s a f : trust p s !! a = Some f → plain_alias a = true ∧ is_sha256 f;
  sha256_digest c x : load_pem c = Ok x → is_sha256 (fingerprint x "sha256");
  files_with fs s : host_files (with_files fs s) = fs;
  trust_with p fs s : fs !! p = host_files s !! p → trust p (with_files fs s) = trust p s;
  list_documented wd p s : is_Some (host_files s !! p) →
    ∃ header date entries,
      exec wd [keytool; "-list"; "-keystore"; p; "-storepass"; kt_password; "-noprompt"] s
        = Ok (listing header date entries, s) ∧
      Forall (λ l, lacks "," l = true ∧ lacks newline l = true) header ∧
      lacks newline date = true ∧ entries ≡ₚ map_to_list (trust p s);
  import_documented wd store alias file cert x s :
    plain_alias alias = true → host_files s !! (wd ++ "/" ++ file) = Some cert → load_pem cert = Ok x →
    let p := wd ++ "/" ++ store in
    let r := exec wd [keytool; "-import"; "-v"; "-alias"; alias; "-file"; file; "-keystore"; store;
                      "-storepass"; kt_password; "-noprompt"] s in
    if bool_decide (is_Some (trust p s !! alias))
    then ∃ out, r = Err (ExecError out) ∧ contains "already exists" out = true
    else ∃ out s', r = Ok (out, s') ∧ trust p s' = <[alias := fingerprint x "sha256"]> (trust p s) ∧
           ∀ q, q ≠ p → trust q s' = trust q s ∧ host_files s' !! q = host_files s !! q;
  delete_documented wd store alias s :
    plain_alias alias = true →
    let p := wd ++ "/" ++ store in
    let r := exec wd [keytool; "-delete"; "-v"; "-alias"; alias; "-keystore"; store;
                      "-storepass"; kt_password; "-noprompt"] s in
    if bool_decide (is_Some (trust p s !! alias))
    then ∃ out s', r = Ok (out, s') ∧ trust p s' = delete alias (trust p s) ∧
           ∀ q, q ≠ p → trust q s' = trust q s ∧ host_files s' !! q = host_files s !! q
    else ∃ out, r = Err (ExecError out) ∧ contains "does not exist" out = true;
  rm_documented wd file s :
    ∃ out s', exec wd ["rm"; "-f"; file] s = Ok (out, s') ∧
      host_files s' = delete (wd ++ "/" ++ file) (host_files s) ∧
      ∀ q, q ≠ wd ++ "/" ++ file → trust q s' = trust q s }.

Lemma contains_truthy sub s : sub ≠ "" → contains sub s = true → truthy s = true.
Proof. intros Hs Hc. apply truthy_true. intros ->. cbn in Hc. by destruct sub. Qed.

Section keytool.
Context {D : Type} `{RelationData D} {S : Type} `{Keytool S}.
Implicit Types m : tls_manager D.
Implicit Types s : S.

(** What the manager reads of a truststore is what it holds. *)
Lemma get_trusted_certificates_spec m p s :
  store_password m = kt_password →
  ∃ certs, get_trusted_certificates m p s = Ok (certs, s) ∧ dict_wf certs ∧
    ∀ a, dict_get a certs = trust p s !! a.
Proof.
  intros Hpw. unfold get_trusted_certificates, exists_file.
  destruct (host_files s !! p) eqn:Hp.
  - rewrite bool_decide_eq_true_2 by eauto. cbn [negb]. unfold list_args. rewrite Hpw.
    destruct (list_documented (conf_path m) p s) as (header & date & entries & -> & Hh & Hd & He); [eauto|].
    cbn [mbind result_bind].
    assert (Hwf : dict_wf entries).
    { unfold dict_wf, dict_keys. rewrite He. apply NoDup_fst_map_to_list. }
    rewrite parse_listing_spec; [|done..| |done].
    + cbn [mbind result_bind]. exists entries. split_and!; [done..|]. intros a.
      apply option_eq. intros f. rewrite <- elem_of_map_to_list, <- He. split.
      * apply dict_get_elem.
      * by apply dict_elem_get.
    + rewrite He. apply Forall_forall. intros [a f] Hin%elem_of_map_to_list. by eapply trust_plain.
  - rewrite bool_decide_eq_false_2 by (by intros []). cbn [negb]. exists []. split_and!; [done|constructor|].
    intros a. destruct (decide (trust p s = ∅)) as [->|Hne]; [by rewrite lookup_empty|].
    apply trust_file in Hne as []. congruence.
Qed.

(** The path of a truststore, and those of other files. *)
Lemma truststore_path m scope :
  get_truststore_path m scope = conf_path m ++ "/" ++ (TLSScope_value scope ++ "-truststore.jks").
Proof. by destruct scope. Qed.

Lemma pem_ne_truststore m scope name :
  scoped_file m scope (name ++ ".pem") ≠ get_truststore_path m scope.
Proof.
  rewrite truststore_path. unfold scoped_file. intros He%append_inj_l%append_inj_l%append_inj_l.
  change ("-" ++ (name ++ ".pem")) with (String "-" (name ++ ".pem")) in He.
  change "-truststore.jks" with (String "-" ("truststore" ++ ".jks")) in He.
  injection He as He. apply (f_equal (endswith ".pem")) in He.
  rewrite endswith_app in He. vm_compute in He. done.
Qed.

(** Adding a certificate under an alias that is not in use. *)
Lemma update_cert_fresh m alias cert x scope s :
  store_password m = kt_password → plain_alias alias = true → load_pem cert = Ok x →
  trust (get_truststore_path m scope) s !! alias = None →
  ∃ s', update_cert m alias cert scope s = Ok s' ∧
    trust (get_truststore_path m scope) s' =
      <[alias := fingerprint x "sha256"]> (trust (get_truststore_path m scope) s).
Proof.
  intros Hpw Ha Hx Hn. unfold update_cert, remove_cert, delete_args. rewrite Hpw.
  pose proof (delete_documented (conf_path m) (TLSScope_value scope ++ "-truststore.jks") alias s Ha) as Hd.
  cbv zeta in Hd. rewrite <- truststore_path in Hd.
  rewrite bool_decide_eq_false_2 in Hd by (rewrite Hn; by intros []).
  destruct Hd as (out & -> & Hout). cbn [tolerate].
  rewrite (contains_truthy "does not exist"), Hout by done. cbn [andb mbind result_bind].
  set (file := TLSScope_value scope ++ "-" ++ alias ++ ".pem").
  assert (Hne : conf_path m ++ "/" ++ file ≠ get_truststore_path m scope) by apply pem_ne_truststore.
  unfold write. set (s1 := with_files _ s).
  assert (Hs1 : trust (get_truststore_path m scope) s1 = trust (get_truststore_path m scope) s).
  { apply trust_with. by rewrite lookup_insert_ne. }
  unfold import_cert, import_args. rewrite Hpw.
  pose proof (import_documented (conf_path m) (TLSScope_value scope ++ "-truststore.jks") alias file cert x s1 Ha) as Hi.
  cbv zeta in Hi. rewrite <- truststore_path in Hi. specialize (Hi ltac:(unfold s1; by rewrite files_with, lookup_insert_eq) Hx).
  rewrite bool_decide_eq_false_2 in Hi by (rewrite Hs1, Hn; by intros []).
  destruct Hi as (out' & s2 & -> & Ht & _). exists s2. split; [done|]. by rewrite Ht, Hs1.
Qed.

(** The two aliases of a position of the bundle. *)
Definition cluster_alias (i : Z) : string := PEER_CLUSTER_ALIAS ++ str_of_Z i.
Definition temporary_alias (i : Z) : string := NEW_PREFIX ++ cluster_alias i.

Lemma lower_digits (n : string) :
  str_forall (λ c, is_digit c || (c =? "-")%char) n = true → str_lower n = n.
Proof.
  apply str_map_id_on. intros c. by destruct c as [[] [] [] [] [] [] [] []].
Qed.

Lemma plain_cluster_alias i : plain_alias (cluster_alias i) = true ∧ plain_alias (temporary_alias i) = true.
Proof.
  unfold plain_alias, temporary_alias, cluster_alias.
  rewrite !lacks_app, !str_lower_app, (lower_digits (str_of_Z i)) by apply str_of_Z_chars.
  rewrite !str_of_Z_lacks by done. change (str_lower NEW_PREFIX) with NEW_PREFIX.
  change (str_lower PEER_CLUSTER_ALIAS) with PEER_CLUSTER_ALIAS. by rewrite !String.eqb_refl.
Qed.

Lemma cluster_alias_ne i j : i ≠ j →
  cluster_alias i ≠ cluster_alias j ∧ temporary_alias i ≠ temporary_alias j.
Proof.
  intros Hij. unfold temporary_alias, cluster_alias.
  split; [intros He%append_inj_l|intros He%append_inj_l%append_inj_l]; by apply str_of_Z_inj in He.
Qed.
Lemma temporary_ne i j : temporary_alias i ≠ cluster_alias j.
Proof. done. Qed.

(** The loop, from position [i]: [t] is the truststore when it began. *)
Lemma trust_bundle_spec m certs t i bundle s :
  let p := get_truststore_path m PEER_SCOPE in
  store_password m = kt_password → dict_wf certs →
  (∀ a, dict_get a certs = t !! a) → t ⊆ trust p s →
  (∀ j, i ≤ j → trust p s !! cluster_alias j = t !! cluster_alias j ∧
                trust p s !! temporary_alias j = t !! temporary_alias j) →
  (∀ j, i ≤ j < i + Z.of_nat (length bundle) → t !! temporary_alias j = None) →
  Forall (λ c, ∃ x, load_pem c = Ok x ∧ default "sha256" (signature_hash_algorithm x) = "sha256") bundle →
  ∃ s', trust_bundle m certs i bundle s = Ok s' ∧ t ⊆ trust p s' ∧ trust p s ⊆ trust p s' ∧
    ∀ c x, c ∈ bundle → load_pem c = Ok x → ∃ a, trust p s' !! a = Some (fingerprint x "sha256").
Proof.
  intros p Hpw Hwf Hc. revert i s. induction bundle as [|cert bundle IH]; intros i s Hsub Hal Htmp Hb.
  { exists s. split_and!; [done..|]. intros ? ? Hin. by apply not_elem_of_nil in Hin. }
  apply Forall_cons in Hb as [(x & Hx & Hsig) Hb]. cbn [trust_bundle length] in *.
  unfold certificate_fingerprint. rewrite Hx. cbn [mbind result_bind]. rewrite Hsig.
  case_bool_decide as Hin.
  - cbn [mbind result_bind]. destruct (IH (i + 1) s) as (s' & -> & Hs' & Hss & Hall);
      [done|intros; apply Hal; lia|intros; apply Htmp; lia|done|].
    exists s'. split_and!; [done..|]. intros c y [->|Hcy]%elem_of_cons Hy; [|by eapply Hall].
    rewrite Hx in Hy. injection Hy as <-. unfold dict_values in Hin.
    apply list_elem_of_fmap in Hin as ([a f] & Hf & Hin). cbn in Hf. subst f.
    apply (dict_elem_get _ _ _ Hwf) in Hin. rewrite Hc in Hin. exists a. by eapply lookup_weaken.
  - set (alias := if dict_mem _ certs then _ else _).
    assert (Ha : t !! alias = None ∧ plain_alias alias = true ∧
      (alias = cluster_alias i ∨ alias = temporary_alias i)).
    { unfold alias. fold (cluster_alias i). fold (temporary_alias i).
      destruct (dict_mem (cluster_alias i) certs) eqn:Hm.
      - split_and!; [apply Htmp; lia|apply plain_cluster_alias|by right].
      - split_and!; [|apply plain_cluster_alias|by left]. rewrite <- Hc.
        unfold dict_mem in Hm. apply bool_decide_eq_false in Hm. by apply eq_None_not_Some. }
    destruct Ha as (Hn & Hplain & Hcase).
    destruct (Hal i ltac:(lia)) as [Hal1 Hal2].
    assert (Hnow : trust p s !! alias = None) by (destruct Hcase as [->| ->]; congruence).
    destruct (update_cert_fresh m alias cert x PEER_SCOPE s) as (s1 & -> & Ht1); [done..|].
    cbn [mbind result_bind]. fold p in Ht1.
    assert (Hgrow : trust p s ⊆ trust p s1) by (rewrite Ht1; by apply insert_subseteq).
    assert (Hal' : ∀ j, i + 1 ≤ j → trust p s1 !! cluster_alias j = t !! cluster_alias j ∧
      trust p s1 !! temporary_alias j = t !! temporary_alias j).
    { intros j Hj. destruct (Hal j ltac:(lia)) as [H1j H2j].
      destruct (cluster_alias_ne i j ltac:(lia)) as [Hne1 Hne2].
      rewrite Ht1, !lookup_insert_ne; [done|by destruct Hcase as [->| ->]..]. }
    destruct (IH (i + 1) s1) as (s' & -> & Hs' & Hss & Hall);
      [by etransitivity|done|intros; apply Htmp; lia|done|].
    exists s'. split_and!; [done|done|by etransitivity|].
    intros c y [->|Hcy]%elem_of_cons Hy; [|by eapply Hall].
    rewrite Hx in Hy. injection Hy as <-. exists alias. eapply lookup_weaken; [|exact Hss].
    by rewrite Ht1, lookup_insert_eq.
Qed.

(** C35: when no temporary alias of an earlier rotation is left, loading the other
    application's certificates (signed with SHA-256) makes the truststore hold
    every one of them and keeps everything it held: during a rotation the old
    and the new certificates are trusted at once. *)
Theorem update_peer_cluster_trust_spec m s bundle :
  let p := get_truststore_path m PEER_SCOPE in
  store_password m = kt_password →
  ClusterState.peer_cluster_ca (state m) = Ok bundle →
  Forall (λ c, ∃ x, load_pem c = Ok x ∧ default "sha256" (signature_hash_algorithm x) = "sha256") bundle →
  (∀ j, 0 ≤ j < Z.of_nat (length bundle) → trust p s !! temporary_alias j = None) →
  ∃ s', update_peer_cluster_trust m s = Ok s' ∧ trust p s ⊆ trust p s' ∧
    ∀ c x, c ∈ bundle → load_pem c = Ok x → ∃ a, trust p s' !! a = Some (fingerprint x "sha256").
Proof.
  intros p Hpw Hca Hb Htmp. unfold update_peer_cluster_trust. rewrite Hca. cbn [mbind result_bind].
  destruct bundle as [|c0 bundle].
  { exists s. split_and!; [done..|]. intros ? ? Hin. by apply not_elem_of_nil in Hin. }
  destruct (get_trusted_certificates_spec m p s Hpw) as (certs & Hcerts & Hwf & Hget).
  unfold peer_trusted_certificates. change (CharmedKafkaPaths.peer_truststore (role m)) with p.
  rewrite Hcerts. cbn [mbind result_bind].
  destruct (trust_bundle_spec m certs (trust p s) 0 (c0 :: bundle) s) as (s' & Hs' & _ & Hss & Hall);
    [done..|]. eauto.
Qed.
End keytool.

(** ** A host with a keytool *)

(** A host that is its files; the text of a truststore stands for the entries
    it holds. *)
Definition valid_entries (t : gmap string (list Z)) : Prop :=
  map_Forall (λ a f, plain_alias a = true ∧ is_sha256 f) t.
Definition store_text (t : gmap string (list Z)) : string := str_of_Z (Zpos (encode t)).
Definition store_entries (o : option string) : gmap string (list Z) :=
  match o with
  | None => ∅
  | Some text =>
      match py_int text with
      | Ok (Zpos n) => match decode n with
                       | Some t => if decide (valid_entries t) then t else ∅
                       | None => ∅ end
      | _ => ∅
      end
  end.

Lemma store_entries_text t : valid_entries t → store_entries (Some (store_text t)) = t.
Proof.
  intros Ht. unfold store_entries, store_text. rewrite py_int_str, decode_encode.
  by rewrite decide_True.
Qed.

Lemma store_entries_valid o : valid_entries (store_entries o).
Proof.
  unfold store_entries. repeat case_match; try done; apply map_Forall_empty.
Qed.

Section model_host.
Context `{X509}.

Definition model_exec (wd : string) (argv : list string) (s : gmap string string)
    : result (string * gmap string string) :=
  match argv with
  | [_; op; file] => if (op =? "-f")%string then Ok ("", delete (wd ++ "/" ++ file) s) else Ok ("", s)
  | [_; op; _; p; _; _; _] =>
      Ok (listing ["Keystore type: PKCS12"] "Jan 1 2025" (map_to_list (store_entries (s !! p))), s)
  | [_; op; _; _; alias; _; store; _; _; _] =>
      let p := wd ++ "/" ++ store in
      let t := store_entries (s !! p) in
      if bool_decide (is_Some (t !! alias)) then Ok ("", <[p := store_text (delete alias t)]> s)
      else Err (ExecError ("Alias <" ++ alias ++ "> does not exist"))
  | [_; op; _; _; alias; _; file; _; store; _; _; _] =>
      let p := wd ++ "/" ++ store in
      let t := store_entries (s !! p) in
      match s !! (wd ++ "/" ++ file) with
      | None => Err (ExecError "")
      | Some cert =>
          match load_pem cert with
          | Err e => Err (ExecError "")
          | Ok x =>
              if bool_decide (is_Some (t !! alias))
              then Err (ExecError ("alias <" ++ alias ++ "> already exists"))
              else Ok ("", <[p := store_text (<[alias := fingerprint x "sha256"]> t)]> s)
          end
      end
  | _ => Err (ExecError "")
  end.

#[local] Instance model_host : Host (gmap string string) :=
  {| host_files s := s; with_files fs _ := fs; exec := model_exec |}.

Definition model_keytool
    (Hd : ∀ c x, load_pem c = Ok x → is_sha256 (fingerprint x "sha256")) : Keytool (gmap string string).
Proof.
  refine {| kt_password := "password"; trust p s := store_entries (s !! p) |}; cbn [host_files with_files exec model_host].
  - intros p s Hne. destruct (s !! p); [eauto|done].
  - intros p s a f Hf. by eapply (store_entries_valid (s !! p)).
  - exact Hd.
  - done.
  - by intros p fs s ->.
  - intros wd p s _. do 3 eexists. split_and!; [reflexivity|by repeat constructor|done|done].
  - intros wd store alias file cert x s Ha Hf Hx. cbv zeta. cbn [model_exec]. rewrite Hf, Hx.
    case_bool_decide as Hin.
    + eexists. split; [done|]. apply contains_iff. exists ("alias <" ++ alias ++ "> "), "".
      by rewrite append_nil_r, !append_assoc.
    + do 2 eexists. split; [done|]. split.
      * rewrite lookup_insert_eq. apply store_entries_text, map_Forall_insert_2; [by eauto|apply store_entries_valid].
      * intros q Hq. by rewrite lookup_insert_ne.
  - intros wd store alias s Ha. cbv zeta. cbn [model_exec]. case_bool_decide as Hin.
    + do 2 eexists. split; [done|]. split.
      * rewrite lookup_insert_eq. apply store_entries_text, map_Forall_delete, store_entries_valid.
      * intros q Hq. by rewrite lookup_insert_ne.
    + eexists. split; [done|]. apply contains_iff. exists ("Alias <" ++ alias ++ "> "), "".
      by rewrite append_nil_r, !append_assoc.
  - intros wd file s. do 2 eexists. split_and!; [reflexivity|done|].
    intros q Hq. by rewrite lookup_delete_ne.
Defined.
End model_host.

(** Certificates whose text names the hash of their signature. *)
Definition sample_digest (h : string) : list Z := replicate (if (h =? "sha512")%string then 64 else 32) 171.
#[local] Instance sample_x509 : X509 := {| load_pem cert :=
  Ok (mkX509 (Some true) None cert (Some (if contains "sha512" cert then "sha512" else "sha256")) sample_digest) |}.

#[local] Instance sample_host : Host (gmap string string) := model_host.

Lemma sample_digest_sha256 c x : load_pem c = Ok x → is_sha256 (fingerprint x "sha256").
Proof. intros [= <-]. by apply (bool_decide_unpack _). Qed.

(** A broker application that knows the bundle of the controllers. *)
Definition trusting_state : cluster_state bag :=
  mkState "broker" 50000 None "kafka/0" true
    (Some (mkPeerData ∅ {[ "truststore-password" := "password"; "peer-certificate" := "CERT";
                           "peer-ca-cert" := "CA"; "peer-private-key" := "KEY" ]} []))
    [] None
    (Some (mkAppRelation (PeerCluster.mkRemote true (λ _, None) (λ _, None) (λ _ _, ∅)) []
             ({[ "controller-ca" := dumps_list ["A"; "B"] ]} : bag)))
    None [] None false [] 1 (mkK8sView (λ _, Ok "10.0.0.1") (λ _, Ok 31000) (λ _, Ok 31001)).
Definition sample_tls_manager : tls_manager bag := mkTls trusting_state BROKER_ROLE [] [].

Lemma sha512_never_up_to_date_witness :
  alias_needs_update sample_tls_manager "app-1" "sha512 CERT" (∅ : gmap string string) = Ok (true, ∅).
Proof.
  destruct (alias_needs_update sample_tls_manager "app-1" "sha512 CERT" (∅ : gmap string string))
    as [[r s']|e] eqn:E; [|vm_compute in E; done].
  pose proof (sha512_never_up_to_date sample_tls_manager "app-1" "sha512 CERT"
    (mkX509 (Some true) None "sha512 CERT" (Some "sha512") sample_digest) ∅ s' r) as Hr.
  rewrite Hr; [|done..]. vm_compute in E. injection E as _ <-. done.
Defined.

Lemma update_peer_cluster_trust_spec_witness :
  ∃ s', update_peer_cluster_trust sample_tls_manager (∅ : gmap string string) = Ok s' ∧
    ∃ a, store_entries (s' !! "/etc/kafka/peer-truststore.jks") !! a = Some (sample_digest "sha256").
Proof.
  pose (kt := model_keytool sample_digest_sha256).
  destruct (update_peer_cluster_trust_spec (H2 := kt) sample_tls_manager (∅ : gmap string string) ["A"; "B"])
    as (s' & Hs' & _ & Hall).
  - reflexivity.
  - vm_compute. reflexivity.
  - repeat constructor; eexists; (split; reflexivity).
  - intros j _. reflexivity.
  - exists s'. split; [exact Hs'|]. apply (Hall "A" (mkX509 (Some true) None "A" (Some "sha256") sample_digest));
      [apply list_elem_of_here|reflexivity].
Defined.

(** ** Subject alternative names *)

(** What openssl prints of the names of a certificate: a title, and one line
    with each name and its kind. *)
Inductive san := Dns (name : string) | Ip (addr : string).
Definition san_value (n : san) : string := match n with Dns v => v | Ip v => v end.
Definition san_text (n : san) : string :=
  match n with Dns v => "DNS:" ++ v | Ip v => "IP Address:" ++ v end.
Definition openssl_lines (names : list san) : list string :=
  ["X509v3 Subject Alternative Name: "; "    " ++ str_join ", " (san_text <$> names)].
Definition dns_of (names : list san) : list string :=
  omap (λ n, match n with Dns v => Some v | Ip _ => None end) names.
Definition ips_of (names : list san) : list string :=
  omap (λ n, match n with Ip v => Some v | Dns _ => None end) names.

Lemma split_items_step cur c d r :
  split_items cur (String c (String d r)) =
  if (c =? ",")%char && (d =? " ")%char then cur :: split_items "" r
  else split_items (cur ++ String c "") (String d r).
Proof. done. Qed.

Lemma split_items_app cur a rest : lacks "," a = true →
  split_items cur (a ++ ", " ++ rest) = (cur ++ a) :: split_items "" rest.
Proof.
  revert cur. induction a as [|c a IH]; intros cur; [by rewrite append_nil_r|].
  cbn [lacks str_forall]. intros [Hc%negb_true_iff Ha]%andb_true_iff.
  rewrite append_cons. destruct (a ++ ", " ++ rest) as [|d r] eqn:E; [by destruct a|].
  rewrite split_items_step, Hc. cbn [andb]. rewrite IH by done. by rewrite append_assoc.
Qed.

Lemma split_items_last cur a : lacks "," a = true → split_items cur a = [cur ++ a].
Proof.
  revert cur. induction a as [|c a IH]; intros cur; [by rewrite append_nil_r|].
  cbn [lacks str_forall]. intros [Hc%negb_true_iff Ha]%andb_true_iff.
  destruct a as [|d r]; [done|]. rewrite split_items_step, Hc. cbn [andb].
  rewrite IH by done. by rewrite append_assoc.
Qed.

Lemma split_items_join cur x l :
  Forall (λ a, lacks "," a = true) (x :: l) →
  split_items cur (str_join ", " (x :: l)) = (cur ++ x) :: l.
Proof.
  revert cur x. induction l as [|y l IH]; intros cur x Hl; inversion Hl; subst.
  - by apply split_items_last.
  - rewrite str_join_cons2, split_items_app by done. by rewrite IH.
Qed.

(** One item, the first of the line being indented. *)
Lemma parse_sans_item pad n items :
  pad = "" ∨ pad = "    " →
  parse_sans ((pad ++ san_text n) :: items) =
  if lacks ":" (san_value n) then
    sans ← parse_sans items;
    Ok (match n with
        | Dns v => mkSans (sans_ip sans) (v :: sans_dns sans)
        | Ip v => mkSans (v :: sans_ip sans) (sans_dns sans)
        end)
  else Err (ValueError "too many values to unpack (expected 2)").
Proof.
  intros Hpad. assert (Hs : ∃ k, pad ++ san_text n = k ++ String ":" (san_value n) ∧ lacks ":" k = true ∧
    str_strip k = match n with Dns _ => "DNS" | Ip _ => "IP Address" end).
  { exists (pad ++ match n with Dns _ => "DNS" | Ip _ => "IP Address" end).
    destruct Hpad as [->| ->], n; (split; [reflexivity|split; reflexivity]). }
  destruct Hs as (k & -> & Hk & Hstrip). cbn [parse_sans].
  rewrite split_char_app by done. destruct (lacks ":" (san_value n)) eqn:Hv.
  - rewrite split_char_lacks by done. rewrite Hstrip. destruct n; reflexivity.
  - destruct (split_char ":" (san_value n)) as [|a [|b l]] eqn:E; [by apply split_char_ne in E| |done].
    pose proof (split_char_parts ":" (san_value n)) as Hp. rewrite E in Hp. inversion Hp; subst.
    pose proof (join_split_char ":" (san_value n)) as Hj. rewrite E in Hj. cbn in Hj. congruence.
Qed.

Lemma parse_sans_names names :
  parse_sans (san_text <$> names) =
  if forallb (λ n, lacks ":" (san_value n)) names then Ok (mkSans (ips_of names) (dns_of names))
  else Err (ValueError "too many values to unpack (expected 2)").
Proof.
  induction names as [|n names IH]; [done|]. rewrite fmap_cons.
  pose proof (parse_sans_item "" n (san_text <$> names) (or_introl eq_refl)) as Hi.
  change ("" ++ san_text n) with (san_text n) in Hi. rewrite Hi, IH. cbn [forallb].
  destruct (lacks ":" (san_value n)); [|done]. cbn [andb]. destruct (forallb _ names); [|done].
  by destruct n.
Qed.

(** The names openssl prints are read back, sorted, when none has a colon;
    an IPv6 address among them makes the parser raise. *)
Theorem openssl_names_roundtrip names :
  names ≠ [] → Forall (λ n, lacks "," (san_value n) = true) names →
  sans_of_lines (openssl_lines names) =
  if forallb (λ n, lacks ":" (san_value n)) names
  then Ok (Some (mkSans (sorted_str (ips_of names)) (sorted_str (dns_of names))))
  else Err (ValueError "too many values to unpack (expected 2)").
Proof.
  intros Hne Hc. unfold sans_of_lines, openssl_lines, sans_line.
  replace (if contains "DNS" ("    " ++ str_join ", " (san_text <$> names)) && _ then _ else _)
    with (Some ("    " ++ str_join ", " (san_text <$> names))) by (by destruct (_ && _)).
  destruct names as [|n names]; [done|]. rewrite fmap_cons.
  assert (Htext : Forall (λ a, lacks "," a = true) (san_text n :: (san_text <$> names))).
  { rewrite <- fmap_cons. apply Forall_fmap. eapply Forall_impl; [exact Hc|].
    intros [v|v] Hv; cbn [compose san_text san_value] in *; by rewrite lacks_app, Hv. }
  assert (Hs : split_items "" ("    " ++ str_join ", " (san_text n :: (san_text <$> names))) =
    ("    " ++ san_text n) :: (san_text <$> names)).
  { rewrite <- (split_items_join "    " (san_text n) (san_text <$> names) Htext).
    destruct (str_join ", " _) as [|d r] eqn:E; [|done].
    rewrite str_join_cons in E. by destruct n, names. }
  change (contains "DNS" "X509v3 Subject Alternative Name: " &&
          contains "IP" "X509v3 Subject Alternative Name: ") with false. cbv iota.
  rewrite Hs, parse_sans_item by (by right).
  pose proof (parse_sans_item "" n (san_text <$> names) (or_introl eq_refl)) as Hi.
  change ("" ++ san_text n) with (san_text n) in Hi. rewrite <- Hi, <- fmap_cons, parse_sans_names.
  by destruct (forallb _ _).
Qed.

Lemma openssl_names_roundtrip_witness :
  sans_of_lines (openssl_lines [Dns "kafka-0"; Ip "2001:db8::1"])
  = Err (ValueError "too many values to unpack (expected 2)").
Proof. rewrite openssl_names_roundtrip; [reflexivity|done|by repeat constructor]. Defined.

(** The names of a certificate count as unchanged exactly when its
    addresses are the expected ones and its host names are too, the names of
    the unit and of the application aside. *)
Theorem sans_differ_spec unit_name app_name current expected :
  sans_differ unit_name app_name current expected = false ↔
  (∀ a, a ∈ sans_ip current ↔ a ∈ sans_ip expected) ∧
  ∀ n, n ≠ unit_name → n ≠ app_name → n ∈ sans_dns current ↔ n ∈ sans_dns expected.
Proof.
  unfold sans_differ. rewrite orb_false_iff, !negb_false_iff, !bool_decide_eq_true.
  unfold sym_diff. split.
  - intros [Hip Hdns]. split; intros a.
    + assert (Hno : a ∉ (∅ : gset string)) by set_solver. rewrite <- Hip in Hno.
      destruct (decide (a ∈ sans_ip current)), (decide (a ∈ sans_ip expected)); set_solver.
    + intros Hu Ha. assert (Hno : a ∉ (∅ : gset string)) by set_solver. rewrite <- Hdns in Hno.
      destruct (decide (a ∈ sans_dns current)), (decide (a ∈ sans_dns expected)); set_solver.
  - intros [Hip Hdns]. split; apply set_eq; intros a.
    + specialize (Hip a). set_solver.
    + specialize (Hdns a). set_solver.
Qed.
