(* ===== verification/Operator.v ===== *)
(** * The charm's objects in a hook (events/broker.py)

    [operator] is what the handlers of a hook share: the state of the cluster
    with the workload container, the host that runs keytool and the Kafka
    scripts, and what the handlers leave behind - statuses, events emitted,
    whether the event is deferred. [hook] is what they learn from outside.
    The handlers are functions that return the operator they leave, or the
    exception they raise. *)

From S2P Require Import Prelude PyStr PyDict Json Literals Models K8s Cluster Workload Auth Config Controller Balancer Tls.

Local Open Scope string_scope.
Local Open Scope Z_scope.

(** What a handler does to the outside: the events it emits, the lock of the
    rolling restart with its callback among them, the responses written to the
    clients, the ports opened, the Kubernetes objects applied, the commands
    run in the container. *)
Inductive emission :=
| ConfigChanged
| UpdateStatus
| RefreshTlsCertificates
| AcquireLock (callback_override : option string)
| Rebalance (e : RebalanceEvent.event)
| SetResponse (relation_id : Z) (response : KafkaCompatibilityResponseModel.response)
| SetPorts (ports : list Z)
| ApplyService (service : Service)
| PatchPartition (partition : Z)
| Run (command : ControllerManager.run).

(** What the relations tell of a client: whether it has units and is active,
    the salt of its request, the secrets and the data written for it so far. *)
Record client_view := mkClientView {
  has_units : bool; is_active : bool; salt : string; secret_user : option string;
  secret_tls : option string; written_data : list (string * json); ip : string }.

(** What a hook tells the handlers: whether a refresh is in progress ([None]
    when the refresh library is not there), the answers of [ping] for the
    bootstrap servers and for the balancer, the certificates transferred to the
    charm, the addresses of the unit, the last restart of the service and the
    last change of the truststore, generated passwords and certificates, the
    quorum, the relations of the clients, the processors of the machine and the
    volumes of the storages, the Kubernetes API, the answers to the topics
    command, and the partition assignments of successive polls. *)
Record hook := mkHook {
  refresh_in_progress : option bool;
  alive : result bool;
  balancer_alive : result bool;
  transferred_certificates : list string;
  bind_address : string; fqdn : string; ips : list string; extra_sans_option : list string;
  last_restart : Z; modify_time : Z;
  new_password : string → string;
  issue : string → string → option string → string → TLSManager.Sans → SelfSignedCertificate;
  quorum : result (list (Z * KRaftQuorumInfo));
  view_of : KafkaClient.kafka_client → client_view;
  cores : string; volumes : result string;
  k8s_manager : K8sManager.k8s_manager; pod : Pod; node_port_of : AuthMap → Z;
  applied : Service → result ();
  list_topics : nat → result string; balancer_certificate : option SelfSignedCertificate;
  generated_ca : string * string;
  assignments : list (result (list (string * list json))) }.

Record operator (D S : Type) := mkOperator {
  manager : ConfigManager.config_manager D;
  host : S;
  statuses : list Status;
  emitted : list emission;
  deferred : bool;
  certs_updated : bool }.
Arguments mkOperator {_ _} _ _ _ _ _ _.
Arguments manager {_ _} _.
Arguments host {_ _} _.
Arguments statuses {_ _} _.
Arguments emitted {_ _} _.
Arguments deferred {_ _} _.
Arguments certs_updated {_ _} _.

Module Operator.
Section operator.
Context {D : Type} `{RelationData D} {S : Type}.
Implicit Types o : operator D S.

Definition state o : cluster_state D := ConfigManager.state (manager o).
Definition workload o : container := ConfigManager.workload (manager o).

(** ** Effects *)

Definition with_manager (m : ConfigManager.config_manager D) o : operator D S :=
  mkOperator m (host o) (statuses o) (emitted o) (deferred o) (certs_updated o).
Definition with_state (s : cluster_state D) o : operator D S :=
  with_manager (KRaftHandler.with_state s (manager o)) o.
Definition with_container (c : container) o : operator D S :=
  with_manager (ConfigManager.with_workload c (manager o)) o.
Definition with_host (h : S) o : operator D S :=
  mkOperator (manager o) h (statuses o) (emitted o) (deferred o) (certs_updated o).
Definition set_status (key : Status) o : operator D S :=
  mkOperator (manager o) (host o) (statuses o ++ [key]) (emitted o) (deferred o) (certs_updated o).
Definition emit (e : emission) o : operator D S :=
  mkOperator (manager o) (host o) (statuses o) (emitted o ++ [e]) (deferred o) (certs_updated o).
Definition defer o : operator D S :=
  mkOperator (manager o) (host o) (statuses o) (emitted o) true (certs_updated o).
Definition set_certs_updated (b : bool) o : operator D S :=
  mkOperator (manager o) (host o) (statuses o) (emitted o) (deferred o) b.

(** An update of the state, and one of this unit's data. *)
Definition update_state (f : cluster_state D → result (cluster_state D)) o : result (operator D S) :=
  s ← f (state o); Ok (with_state s o).
Definition update_unit_data (f : option D → result (option D)) o : result (operator D S) :=
  data ← f (KafkaBroker.data (ClusterState.unit_broker (state o)));
  Ok (match data with
      | Some d => with_state (ClusterState.set_unit_data (λ _, d) (state o)) o
      | None => o
      end).
Definition unit_update (items : list (string * string)) o : result (operator D S) :=
  update_unit_data (RelationState.update items) o.
(** One update of this application's data, and one of the data it shares with
    the other application. *)
Definition cluster_update (items : list (string * string)) o : operator D S :=
  with_state (ClusterState.cluster_update items (state o)) o.

(** The unit's broker object. *)
Definition update_unit_broker (f : KafkaBroker.broker D → result (KafkaBroker.broker D)) o
    : result (operator D S) :=
  update_unit_data (λ _, b ← f (ClusterState.unit_broker (state o)); Ok (KafkaBroker.data b)) o.
Definition peer_cluster_update (items : list (string * string)) o : result (operator D S) :=
  update_state (λ s,
    data ← RelationState.update items (ClusterState.peer_cluster_data s);
    Ok (ClusterState.set_peer_cluster_data data s)) o.

(** An update of the files of the managers, and one of the host. *)
Definition update_manager
    (f : ConfigManager.config_manager D → result (ConfigManager.config_manager D)) o : result (operator D S) :=
  m ← f (manager o); Ok (with_manager m o).
Definition update_host (f : S → result S) o : result (operator D S) :=
  h ← f (host o); Ok (with_host h o).

(** ** Objects of the charm *)

Definition unit_data o : option D := KafkaBroker.data (ClusterState.unit_broker (state o)).

(** The TLS managers of the broker and of the balancer. *)
Definition tls_manager_of (role : Role) (k : hook) o : TLSManager.tls_manager D :=
  TLSManager.mkTls (state o) role (extra_listeners_option (ConfigManager.config (manager o)))
    (extra_sans_option k).
Definition broker_tls (k : hook) o := tls_manager_of BROKER_ROLE k o.
Definition balancer_tls (k : hook) o := tls_manager_of BALANCER_ROLE k o.

Definition auth_manager o : result AuthManager.auth_manager :=
  servers ← ClusterState.bootstrap_server_internal (state o);
  Ok (AuthManager.mkAuth servers
        (CommonConfigManager.tools_log4j_opts BROKER_ROLE (ConfigManager.config (manager o)))).

Definition refresh_not_ready (k : hook) : bool :=
  match refresh_in_progress k with None => true | Some in_progress => in_progress end.

Definition active o : bool := Workload.active KafkaWorkload.service (workload o).

(** [BrokerOperator.healthy]: it also sets the status that tells why not. *)
Definition healthy o : result (bool * operator D S) :=
  current_status ← ClusterState.ready_to_start (state o);
  if negb (bool_decide (current_status = ACTIVE)) then Ok (false, set_status current_status o)
  else if negb (active o) then Ok (false, set_status SERVICE_NOT_RUNNING o)
  else Ok (true, o).

(** ** Internal certificates *)

Context `{Host S} `{X509}.

(** [setup_internal_tls]; the event is a start or another one. *)
Definition setup_internal_tls (k : hook) (is_start : bool) o : result (operator D S) :=
  if TLSState.ready PEER_SCOPE (unit_data o)
  then update_host (TLSManager.configure (broker_tls k o)) o
  else
    let m := broker_tls k o in
    self_signed_cert ← TLSManager.generate_self_signed_certificate m
      (TLSManager.build_sans m (bind_address k) (fqdn k) (ips k)) (issue k);
    match self_signed_cert with
    | None => Ok o
    | Some cert =>
        o ← update_unit_data (TLSState.set_self_signed PEER_SCOPE cert) o;
        o ← (if is_start then Ok o else update_unit_data (TLSState.set_rotate PEER_SCOPE true) o);
        o ← update_host (TLSManager.configure (broker_tls k o)) o;
        if is_leader (state o)
        then bundle ← TLSState.bundle PEER_SCOPE (unit_data o);
             update_state (ClusterState.set_peer_cluster_ca bundle) o
        else Ok o
    end.

(** [update_peer_truststore_state]: the fingerprints of the truststore are
    published once the service was restarted with it, or when forced. *)
Definition update_peer_truststore_state (k : hook) (force : bool) o : result (operator D S) :=
  let m := broker_tls k o in
  if negb (TLSManager.exists_file (CharmedKafkaPaths.peer_truststore BROKER_ROLE) (host o)) then Ok o
  else if negb force && (last_restart k <=? modify_time k) then Ok o
  else
    '(certs, h) ← TLSManager.peer_trusted_certificates m (host o);
    let o := with_host h o in
    let trusted_certs := (λ hash, TLSManager.bytes_to_keytool_hash hash "") <$> dict_values certs in
    o ← update_unit_data (TLSState.set_trusted_certificates PEER_SCOPE trusted_certs) o;
    if is_leader (state o) then update_state ClusterState.refresh_peer_cluster_trust_state o else Ok o.
End operator.

(** ** Lemmas *)

Section lemmas.
Context {D : Type} `{RelationData D} {S : Type}.
Implicit Types o : operator D S.

Lemma healthy_cases o b o' :
  healthy o = Ok (b, o') →
  (b = true ∧ o' = o ∧ ClusterState.ready_to_start (state o) = Ok ACTIVE ∧ active o = true) ∨
  (b = false ∧ ∃ st, o' = set_status st o).
Proof.
  unfold healthy. rewrite result_bind_ok. intros (st & Hst & Hr).
  destruct (bool_decide (st = ACTIVE)) eqn:Ea; cbn in Hr.
  - apply bool_decide_eq_true in Ea as ->. destruct (active o) eqn:Er; cbn in Hr; injection Hr as <- <-; eauto.
  - injection Hr as <- <-. eauto.
Qed.

Lemma healthy_ok o :
  ClusterState.ready_to_start (state o) = Ok ACTIVE → active o = true → healthy o = Ok (true, o).
Proof. unfold healthy. by intros -> ->. Qed.

Lemma update_host_ok (f : S → result S) o o' :
  update_host f o = Ok o' ↔ ∃ h, f (host o) = Ok h ∧ o' = with_host h o.
Proof. unfold update_host. rewrite result_bind_ok. naive_solver. Qed.
End lemmas.
End Operator.
