(* ===== verification/Sample.v ===== *)
(** * A concrete charm

    The machine, the hook and the units on which the theorems about the
    handlers are evaluated: a keytool as in TlsFacts.v, the scripts of
    AuthFacts.v, one broker that is also the controller. *)

From S2P Require Import Prelude PyStr PyDict Json Literals Models K8s Cluster ClusterFacts Workload Auth AuthFacts Config Controller Balancer Tls TlsFacts Operator.

Local Open Scope string_scope.
Local Open Scope Z_scope.

(** Files with their truststores, and the bindings of the cluster. *)
Definition machine : Type := gmap string string * model_cluster.

#[export] Instance machine_x509 : X509 := sample_x509.
#[export] Instance machine_host : Host machine := {|
  host_files s := s.1;
  with_files fs s := (fs, s.2);
  exec wd argv s := '(out, fs) ← model_exec wd argv s.1; Ok (out, (fs, s.2)) |}.
#[export] Instance machine_tools : KafkaTools machine := {|
  run_tool keyword args opts s :=
    '(out, c) ← run_tool (KafkaTools := model_tools) keyword args opts s.2; Ok (out, (s.1, c)) |}.

Definition sample_config : charm_config := mkConfig "production" "INFO" [] "1.1" "0.8" [].
Definition running_container : container :=
  mkContainer true ∅ {[ KafkaWorkload.service := KafkaWorkload.layer ]} {[ KafkaWorkload.service ]}.

(** A charm that is ready to start and runs, in a state. *)
Definition charm_in (s : cluster_state bag) (m : machine) : operator bag machine :=
  mkOperator (ConfigManager.mkManager s sample_config running_container None None None true) m [] [] false false.

(** A quiet hook that sees the clients in a view. *)
Definition hook_seeing (view : KafkaClient.kafka_client → client_view) : hook :=
  mkHook (Some false) (Ok true) (Ok false) [] "10.0.0.1" "kafka-0" [] [] 2 1 (λ u, "pw-" ++ u)
    (λ _ ca _ name _, mkSelfSigned ca "csr" name "key") (Ok [])
    view "4" (Ok "{}")
    (K8sManager.mkManager "kafka-0" "model") (mkPod "uid" [] (Some "node")) (λ _, 31000) (λ _, Ok ())
    (λ _, Ok "") None ("CA", "CA KEY") [].
Definition sample_hook : hook :=
  hook_seeing (λ _, mkClientView true true "salt" None None [] "10.0.0.1").
