(* ===== verification/TlsHandler.v ===== *)
(** * The handlers of certificates (events/tls.py)

    [TLSHandler] over the managers of the broker and of the balancer: a new
    or broken relation to a provider of certificates, the certificates of
    clients, the private key of the unit, and the steps of the rotation that
    every configuration change runs. *)

From S2P Require Import Prelude PyStr PyDict Json Literals Models Cluster Workload Config Tls Operator.
Import Operator.

Local Open Scope string_scope.
Local Open Scope Z_scope.

Module TLSHandler.
Section tls_handler.
Context {D : Type} `{RelationData D} {S : Type} `{Host S} `{X509}.
Implicit Types o : operator D S.

(** The two managers, in the order the handlers go through them. *)
Definition dependents : list Role := [BROKER_ROLE; BALANCER_ROLE].
Fixpoint for_dependents (f : Role → operator D S → result (operator D S)) (roles : list Role) o
    : result (operator D S) :=
  match roles with
  | [] => Ok o
  | role :: roles => o ← f role o; for_dependents f roles o
  end.

(** A password of the unit is generated unless there is one. *)
Definition init_password (key password : string) o : result (operator D S) :=
  if truthy (data_get_or key "" (unit_data o)) then Ok o else unit_update [(key, password)] o.

(** [_init_credentials]: [assigned] is the private key the certificates library
    holds for a scope. *)
Definition init_credentials (assigned : TLSScope → option string)
    (keystore_password truststore_password : string) o : result (operator D S) :=
  let set_key scope o := match assigned scope with
    | Some key => update_unit_data (TLSState.set_private_key scope key) o
    | None => Ok o end in
  o ← set_key CLIENT_SCOPE o;
  o ← set_key PEER_SCOPE o;
  o ← init_password "keystore-password" keystore_password o;
  init_password "truststore-password" truststore_password o.

Definition remove_stores (k : hook) (scope : TLSScope) (role : Role) o : operator D S :=
  with_host (TLSManager.remove_stores (tls_manager_of role k o) scope (host o)) o.
Definition keep_old (k : hook) (old_bundle : list string) (scope : TLSScope) (role : Role) o
    : result (operator D S) :=
  update_host (TLSManager.import_bundle (tls_manager_of role k o) old_bundle scope TLSManager.OLD_PREFIX) o.

Definition tls_relation_broken (k : hook) (scope : TLSScope) o : result (operator D S) :=
  old_bundle ← TLSState.bundle scope (unit_data o);
  o ← update_unit_data (TLSState.set_csr scope "") o;
  o ← update_unit_data (TLSState.set_certificate scope "") o;
  o ← update_unit_data (TLSState.set_chain scope "") o;
  o ← update_unit_data (TLSState.set_ca scope "") o;
  let o := remove_stores k scope BALANCER_ROLE (remove_stores k scope BROKER_ROLE o) in
  match scope with
  | CLIENT_SCOPE => Ok o
  | PEER_SCOPE =>
      o ← setup_internal_tls k false o;
      o ← for_dependents (keep_old k old_bundle scope) dependents o;
      o ← update_unit_data (TLSState.set_rotate scope true) o;
      Ok (emit ConfigChanged o)
  end.

(** A new certificate, its authority and its chain. *)
Definition handle_certificate_available (k : hook) (scope : TLSScope)
    (certificate ca : string) (chain : list string) o : result (operator D S) :=
  let old_certificate := TLSState.certificate scope (unit_data o) in
  let old_ca := TLSState.ca scope (unit_data o) in
  let certificate_changed := truthy old_certificate && negb (certificate =? old_certificate)%string in
  let ca_changed := truthy old_ca && negb (ca =? old_ca)%string in
  old_bundle ← TLSState.bundle scope (unit_data o);
  o ← update_unit_data (TLSState.set_certificate scope certificate) o;
  o ← update_unit_data (TLSState.set_ca scope ca) o;
  o ← update_unit_data (TLSState.set_chain scope (dumps_list chain)) o;
  o ← for_dependents (λ role o,
    let o := remove_stores k scope role o in
    o ← update_host (TLSManager.configure (tls_manager_of role k o)) o;
    if ca_changed then keep_old k old_bundle scope role o else Ok o) dependents o;
  if certificate_changed || ca_changed
  then update_unit_data (TLSState.set_rotate scope true) o else Ok o.

Definition ready o : bool :=
  if negb (all_true [Workload.container_can_connect (workload o); Workload.installed (workload o)])
  then false
  else bool_decide (is_Some (peer_relation (state o))).

Definition on_peer_certificate_available (k : hook) (certificate ca : string) (chain : list string) o
    : result (operator D S) :=
  if negb (ready o) then Ok (defer o)
  else
    o ← handle_certificate_available k PEER_SCOPE certificate ca chain o;
    o ← (if is_leader (state o) then
           bundle ← TLSState.bundle PEER_SCOPE (unit_data o);
           o ← update_state (ClusterState.set_peer_cluster_ca bundle) o;
           if TLSState.rotate PEER_SCOPE (unit_data o)
           then update_state (ClusterState.set_peer_cluster_tls_rotate true) o else Ok o
         else Ok o);
    Ok (emit ConfigChanged o).

(** ** Certificates of clients *)

(** The clients' certificates that are not in the truststore as they should. *)
Fixpoint trust_clients (k : hook) (clients : list KafkaClient.kafka_client) o : result (operator D S) :=
  match clients with
  | [] => Ok o
  | client :: clients =>
      match KafkaClient.relation_id client with
      | None => trust_clients k clients o
      | Some _ =>
          let alias := KafkaClient.alias client in
          let cert := KafkaClient.mtls_cert client in
          '(needed, h) ← TLSManager.alias_needs_update (broker_tls k o) alias cert (host o);
          let o := with_host h o in
          o ← (if (needed : bool)
               then update_host (TLSManager.update_cert (broker_tls k o) alias cert CLIENT_SCOPE) o
               else Ok o);
          trust_clients k clients o
      end
  end.

Fixpoint trust_transferred (k : hook) (certs : list string) o : result (operator D S) :=
  match certs with
  | [] => Ok o
  | cert :: certs =>
      alias ← TLSManager.certificate_distinguished_name cert;
      '(needed, h) ← TLSManager.alias_needs_update (broker_tls k o) alias cert (host o);
      let o := with_host h o in
      o ← (if (needed : bool)
           then update_host (TLSManager.update_cert (broker_tls k o) alias cert CLIENT_SCOPE) o
           else Ok o);
      trust_transferred k certs o
  end.

Definition update_truststore (k : hook) o : result (operator D S) :=
  '(ok, o) ← healthy o;
  mtls ← ClusterState.has_mtls_clients (state o);
  if negb (all_true [ok; mtls; ClusterState.tls_enabled (state o);
                     truthy (TLSState.certificate CLIENT_SCOPE (unit_data o));
                     truthy (TLSState.ca CLIENT_SCOPE (unit_data o))])
  then Ok o
  else
    clients ← ClusterState.clients (state o);
    o ← trust_clients k clients o;
    o ← trust_transferred k (transferred_certificates k) o;
    update_host (TLSManager.reload_truststore (broker_tls k o) (alive k)) o.

Definition on_client_certificate_available (k : hook) (certificate ca : string) (chain : list string) o
    : result (operator D S) :=
  if negb (ready o) then Ok (defer o)
  else
    o ← handle_certificate_available k CLIENT_SCOPE certificate ca chain o;
    o ← update_truststore k o;
    Ok (emit ConfigChanged o).

(** [relation_active]: the relation of the transfer exists and is active. *)
Definition on_mtls_client_certificates_available (k : hook) (relation_active : bool) o
    : result (operator D S) :=
  if negb relation_active then Ok o
  else if negb (all_true [ClusterState.tls_enabled (state o);
                          truthy (TLSState.certificate CLIENT_SCOPE (unit_data o))])
  then Ok (defer (set_status NO_CERT o))
  else match transferred_certificates k with [] => Ok o | _ => update_truststore k o end.

Definition on_mtls_client_certificates_removed (k : hook) o : result (operator D S) :=
  o ← update_truststore k o;
  if is_leader (state o) then
    mtls ← ClusterState.has_mtls_clients (state o);
    Ok (if negb mtls then cluster_update [("mtls", "")] o else o)
  else Ok o.

(** ** The private key of the unit *)

(** A private key in PEM form, tested by [re.match(r"(-+(BEGIN|END) [A-Z ]+-+)", key)]:
    dashes, the word, a space, letters and spaces, a dash. *)
Definition is_label_char (c : ascii) : bool :=
  (c =? " ")%char || (let n := nat_of_ascii c in (65 <=? n)%nat && (n <=? 90)%nat).
Fixpoint label_end (seen : bool) (key : string) : bool :=
  match key with
  | "" => false
  | String c key => if is_label_char c then label_end true key else seen && (c =? "-")%char
  end.
Definition looks_like_pem (key : string) : bool :=
  startswith "-" key &&
  (let rest := lstrip_chars (λ c, (c =? "-")%char) key in
   (startswith "BEGIN " rest && label_end false (str_drop 6 rest)) ||
   (startswith "END " rest && label_end false (str_drop 4 rest))).

(** [b64decode] is the decoding of a key that is not in PEM form. *)
Definition set_tls_private_key (b64decode : string → result string) (secret_private_key : option string) o
    : result (operator D S) :=
  if bool_decide (secret_private_key = Some (TLSState.private_key CLIENT_SCOPE (unit_data o))) then Ok o
  else if negb (truthy_opt secret_private_key)
          && (KafkaBroker.private_key_kind (ClusterState.unit_broker (state o)) =? "lib")%string
  then Ok o
  else
    '(private_key, o) ← (
      if truthy_opt secret_private_key then
        let key := default "" secret_private_key in
        private_key ← (if looks_like_pem key then Ok key else b64decode key);
        o ← unit_update [("private-key-kind", "secret")] o;
        Ok (private_key, o)
      else o ← unit_update [("private-key-kind", "lib")] o; Ok ("", o));
    o ← update_unit_data (TLSState.set_private_key CLIENT_SCOPE private_key) o;
    Ok (emit RefreshTlsCertificates o).

(** ** Rotation *)

Definition unit_tls_rotate (k : hook) o : result (operator D S) :=
  o ← update_peer_truststore_state k false o;
  '(old, h) ← TLSManager.peer_trusted_certificates (broker_tls k o) (host o);
  let o := with_host h o in
  o ← update_host (TLSManager.update_peer_cluster_trust (broker_tls k o)) o;
  '(new, h) ← TLSManager.peer_trusted_certificates (broker_tls k o) (host o);
  let o := with_host h o in
  Ok (set_certs_updated
        (negb (bool_decide ((list_to_set (dict_values new) : gset (list Z)) = list_to_set (dict_values old)))) o).

Definition sans_changed (k : hook) (scope : TLSScope) o : result (bool * operator D S) :=
  let m := broker_tls k o in
  '(changed, h) ← TLSManager.sans_changed m
    (TLSManager.build_sans m (bind_address k) (fqdn k) (ips k)) scope (host o);
  Ok (changed, with_host h o).

(** The certificates whose names changed are dropped and asked for again. *)
Definition revoke_changed (k : hook) (is_start : bool) o : result (operator D S) :=
  '(changed, o) ← sans_changed k CLIENT_SCOPE o;
  o ← (if (changed : bool) then
         o ← update_unit_data (TLSState.set_certificate CLIENT_SCOPE "") o;
         Ok (emit RefreshTlsCertificates o)
       else Ok o);
  '(changed, o) ← sans_changed k PEER_SCOPE o;
  if (changed : bool) then
    o ← update_unit_data (TLSState.set_certificate PEER_SCOPE "") o;
    if ClusterState.use_internal_tls (state o) then setup_internal_tls k is_start o
    else Ok (emit RefreshTlsCertificates o)
  else Ok o.

(** [config_changed_rotation]: whether the handler of the event continues. *)
Definition config_changed_rotation (k : hook) (is_start : bool) o : result (bool * operator D S) :=
  o ← unit_tls_rotate k o;
  trusts ← (if ClusterState.tls_rotate (state o)
            then TLSManager.peer_cluster_app_trusts_new_bundle (broker_tls k o) else Ok true);
  if negb trusts && negb (ClusterState.both_sides_rotating (state o) && ClusterState.runs_broker (state o))
  then Ok (false, defer o)
  else o ← revoke_changed k is_start o; Ok (true, o).

Definition handle_config_changed_tls_updates (k : hook) o : result (operator D S) :=
  o ← update_truststore k o;
  o ← (if ClusterState.tls_rotate (state o) then
         let o := if ClusterState.runs_balancer (state o)
                  then with_state (ClusterState.set_balancer_tls_rotate true (state o)) o else o in
         update_state (ClusterState.set_tls_rotate false) o
       else Ok o);
  update_state (ClusterState.set_peer_cluster_tls_rotate
    (any_true ((λ b, TLSState.rotate PEER_SCOPE (KafkaBroker.data b)) <$> ClusterState.brokers (state o)))) o.
End tls_handler.
End TLSHandler.
