(* ===== verification/Provider.v ===== *)
(** * The provider of clients (events/provider.py)

    [KafkaProvider]: the users, ACLs and responses of the client relations,
    and their removal. The handlers that end by running the handler of a
    configuration change are in Broker.v. *)

From S2P Require Import Prelude PyStr PyDict Json Literals Models Cluster Workload Auth Config Tls Operator.
Import Operator.

Local Open Scope string_scope.
Local Open Scope Z_scope.

Module KafkaProvider.
Section provider.
Context {D : Type} `{RelationData D} {S : Type} `{Host S} `{X509} `{KafkaTools S}.
Implicit Types o : operator D S.

(** The data of the application on the peer relation. *)
Definition cluster_data o : option D := ClusterState.cluster (state o).

(** An operation of the manager of users and ACLs. *)
Definition with_auth (f : AuthManager.auth_manager → S → result S) o : result (operator D S) :=
  m ← auth_manager o; update_host (f m) o.

(** The bootstrap servers are computed, then pinged. *)
Definition ping (k : hook) o : result bool :=
  _ ← ClusterState.bootstrap_server_internal (state o); alive k.

Definition acls_for (username : string) (client : KafkaClient.kafka_client) o : result (operator D S) :=
  with_auth (λ m, update_user_acls m username (KafkaClient.topic client)
    (KafkaClient.extra_user_roles client) (Some (KafkaClient.consumer_group_prefix client))
    (KafkaClient.permissions client)) o.

(** The last steps for a new client: its user, its ACLs, and the data of the
    cluster, from which every unit derives its super users. A user that cannot
    be created yet is not an error. *)
Definition setup_client (k : hook) (client : KafkaClient.kafka_client) o : result (operator D S) :=
  let username := KafkaClient.username client in
  let password := str_or (KafkaClient.password client) (new_password k username) in
  match with_auth (λ m, add_user m username password) o with
  | Err (ExecError _) => Ok o
  | Err e => Err e
  | Ok o =>
      o ← acls_for username client o;
      super_users ← ClusterState.super_users (state o);
      Ok (cluster_update (dict_set username password [("super-users", super_users)]) o)
  end.

Definition tls_ready o : bool :=
  all_true [ClusterState.tls_enabled (state o); truthy (TLSState.certificate CLIENT_SCOPE (unit_data o))].

Definition handle_client_request (k : hook) (client : KafkaClient.kafka_client) o : result (operator D S) :=
  if negb (truthy (KafkaClient.topic client)) then Ok o
  else if truthy_opt (data_get (KafkaClient.username client) (cluster_data o)) then Ok o
  else
    up ← ping k o;
    if negb up then Ok o
    else
      '(ok, o) ← healthy o;
      if negb ok then Ok o
      else if negb (is_leader (state o)) || negb (bool_decide (is_Some (peer_relation (state o))))
      then Ok o
      else
        let mtls_cert := KafkaClient.mtls_cert client in
        if truthy mtls_cert && negb (tls_ready o) then Ok (set_status MTLS_REQUIRES_TLS o)
        else
          '(waiting, o) ← (
            if truthy mtls_cert then
              '(needed, h) ← TLSManager.alias_needs_update (broker_tls k o)
                (KafkaClient.alias client) mtls_cert (host o);
              Ok (needed, with_host h o)
            else Ok (false, o));
          if (waiting : bool) then Ok o else setup_client k client o.

(** ** Broken clients *)

(** The users of client relations the cluster holds, and those of the clients
    there are. *)
Definition client_usernames o : gset string :=
  list_to_set (filter (λ u, startswith "relation-" u = true)
    (dict_keys (match cluster_data o with Some d => rd_items d | None => [] end))).
Definition active_clients o : result (gset string) :=
  clients ← ClusterState.clients (state o); Ok (list_to_set (KafkaClient.username <$> clients)).

Definition remove_client (username : string) o : result (operator D S) :=
  o ← with_auth (λ m, remove_all_user_acls m username) o;
  o ← with_auth (λ m, delete_user m username) o;
  Ok (cluster_update [(username, "")] o).
Fixpoint remove_clients (usernames : list string) o : result (operator D S) :=
  match usernames with
  | [] => Ok o
  | username :: usernames => o ← remove_client username o; remove_clients usernames o
  end.
Definition remove_broken_clients o : result (operator D S) :=
  active ← active_clients o; remove_clients (elements (client_usernames o ∖ active)) o.

(** ** Reconciliation *)

(** In version 1 the flag of TLS has to be serialisable. *)
Definition tls_value (client : KafkaClient.kafka_client) : bool + string :=
  if (KafkaClient.version client =? "v1")%string
  then inl (KafkaClient.tls client =? "enabled")%string else inr (KafkaClient.tls client).

Definition response_for (k : hook) (client : KafkaClient.kafka_client) o
    : result KafkaCompatibilityResponseModel.response :=
  let view := view_of k client in
  endpoints ← KafkaClient.bootstrap_server client;
  Ok (KafkaCompatibilityResponseModel.mkResponse
        (KafkaClient.request_id (KafkaClient.req client)) (salt view) (KafkaClient.username client)
        (KafkaClient.password client) endpoints (KafkaClient.consumer_group_prefix client)
        (tls_value client) (TLSState.ca CLIENT_SCOPE (unit_data o)) (KafkaClient.topic client)
        (secret_user view) (secret_tls view) (KafkaClient.version client)).

Definition reconcile_client (k : hook) (client : KafkaClient.kafka_client) o : result (operator D S) :=
  match KafkaClient.relation_id client with
  | None => Ok o
  | Some relation_id =>
      let view := view_of k client in
      if negb (all_true [has_units view; is_active view]) then Ok o
      else
        o ← handle_client_request k client o;
        if negb (all_true [truthy (KafkaClient.password client); truthy (KafkaClient.topic client)])
        then Ok o
        else
          stale ← KafkaClient.needs_update (written_data view)
                    (TLSState.ca CLIENT_SCOPE (unit_data o)) client;
          if negb stale then Ok o
          else response ← response_for k client o; Ok (emit (SetResponse relation_id response) o)
  end.
Fixpoint reconcile_clients (k : hook) (clients : list KafkaClient.kafka_client) o : result (operator D S) :=
  match clients with
  | [] => Ok o
  | client :: clients => o ← reconcile_client k client o; reconcile_clients k clients o
  end.

Definition reconcile (k : hook) o : result (operator D S) :=
  if negb (is_leader (state o)) then Ok o
  else
    '(ok, o) ← healthy o;
    if negb ok then Ok o
    else
      o ← remove_broken_clients o;
      clients ← ClusterState.clients (state o);
      reconcile_clients k clients o.

(** ** Certificates of clients *)

(** How the loop over the clients of a relation ends. *)
Inductive mtls_outcome := Completed | Stopped.

(** The ACLs move from the user of the relation to the principal its
    certificate maps to; [get_name] is the mapper of the charm. *)
Fixpoint map_principals (get_name : string → result string) (k : hook)
    (clients : list KafkaClient.kafka_client) o : result (mtls_outcome * operator D S) :=
  match clients with
  | [] => Ok (Completed, o)
  | client :: clients =>
      let cert := KafkaClient.mtls_cert client in
      valid ← TLSManager.is_valid_leaf_certificate cert;
      if negb valid then Ok (Stopped, set_status INVALID_CLIENT_CERTIFICATE o)
      else
        up ← ping k o;
        if negb up then Ok (Stopped, defer o)
        else
          distinguished_name ← TLSManager.certificate_distinguished_name cert;
          match get_name distinguished_name with
          | Err (NoMatchingRuleError _) => Ok (Stopped, o)
          | Err e => Err e
          | Ok cert_principal =>
              o ← with_auth (λ m, remove_all_user_acls m (KafkaClient.username client)) o;
              o ← acls_for cert_principal client o;
              map_principals get_name k clients o
          end
  end.

(** The event's relation, by its id, when it exists and is active. *)
Definition on_mtls_cert_updated (get_name : string → result string) (k : hook)
    (relation : option Z) o : result (operator D S) :=
  match relation with
  | None => Ok o
  | Some id =>
      clients ← ClusterState.clients (state o);
      match filter (λ c, KafkaClient.relation_id c = Some id ∧ truthy (KafkaClient.mtls_cert c) = true) clients with
      | [] => Ok o
      | mtls_clients =>
          '(ok, o) ← healthy o;
          if negb ok then Ok (defer o)
          else if negb (tls_ready o) then Ok (defer (set_status MTLS_REQUIRES_TLS o))
          else
            '(outcome, o) ← map_principals get_name k mtls_clients o;
            Ok (match outcome with Completed => emit ConfigChanged o | Stopped => o end)
      end
  end.

(** ** A relation is gone *)

(** [app_name] and [relation_id] of the relation; [same_app] when it is this
    application that goes away. *)
Definition on_relation_broken (k : hook) (app_name : string) (relation_id : Z) (same_app : bool) o
    : result (operator D S) :=
  '(ok, o) ← healthy o;
  if negb ok then Ok (defer o)
  else
    let alias := KafkaClient.generate_alias app_name relation_id in
    '(trusted, h) ← TLSManager.trusted_certificates (broker_tls k o) (host o);
    let o := with_host h o in
    o ← (
      if dict_mem alias trusted && negb same_app then
        o ← (if is_leader (state o) then
               '(username, h) ← TLSManager.alias_common_name (broker_tls k o) alias (host o);
               with_auth (λ m, remove_all_user_acls m username) (with_host h o)
             else Ok o);
        o ← update_host (TLSManager.remove_cert (broker_tls k o) alias CLIENT_SCOPE) o;
        update_host (TLSManager.reload_truststore (broker_tls k o) (alive k)) o
      else Ok o);
    reconcile k o.
End provider.
End KafkaProvider.
