(* ===== verification/ProviderFacts.v ===== *)
(** * Facts about the provider of clients *)

From S2P Require Import Prelude PyStr PyDict Json Literals Models ModelsFacts Cluster ClusterFacts Workload Auth AuthFacts Config Controller Tls Operator Sample Provider.
Import Operator KafkaProvider.

Local Open Scope string_scope.
Local Open Scope Z_scope.

(** The users' script as documented: deleting a user succeeds or reports that
    there is no such user, adding one may fail, and neither touches the ACLs. *)
Class UserScript (S : Type) `{AclScript S} := {
  delete_user_documented m user s :
    ∃ s', delete_user m user s = Ok s' ∧ bindings s' = bindings s;
  add_user_documented m user password s s' :
    add_user m user password s = Ok s' → bindings s' = bindings s }.

#[export] Instance model_users : UserScript model_cluster.
Proof.
  split.
  - intros m user s. by exists s.
  - intros m user password s s'. unfold add_user. cbn. by intros [= <-].
Defined.

Section provider.
Context {D : Type} `{RelationDataLaws D} {S : Type} `{UserScript S}.
Implicit Types o : operator D S.

(** ** What an update of the application's data leaves alone *)

Lemma cluster_update_addresses items (s : cluster_state D) :
  ClusterState.bootstrap_server_internal (ClusterState.cluster_update items s) =
  ClusterState.bootstrap_server_internal s.
Proof.
  unfold ClusterState.bootstrap_server_internal, ClusterState.brokers, ClusterState.peer_units_data_interfaces,
    ClusterState.unit_broker, ClusterState.cluster_update, ClusterState.set_peer_data.
  cbn [peer_relation st_unit_name]. by destruct (peer_relation s).
Qed.

Lemma auth_manager_kept items o : auth_manager (cluster_update items o) = auth_manager o.
Proof.
  unfold auth_manager, cluster_update, with_state, with_manager, Operator.state.
  cbn [manager KRaftHandler.with_state ConfigManager.state ConfigManager.config].
  by rewrite cluster_update_addresses.
Qed.

Lemma cluster_data_update items o :
  cluster_data (cluster_update items o) = KafkaCluster.update items (cluster_data o).
Proof.
  unfold cluster_data, ClusterState.cluster, cluster_update, with_state, with_manager, Operator.state.
  cbn. destruct (peer_relation _); done.
Qed.

(** ** Users of the cluster *)

Lemma client_usernames_elem u o :
  u ∈ client_usernames o ↔ startswith "relation-" u = true ∧ is_Some (data_get u (cluster_data o)).
Proof.
  unfold client_usernames. rewrite elem_of_list_to_set, list_elem_of_filter.
  apply and_iff_compat_l. unfold data_get. destruct (cluster_data o) as [d|]; cbn.
  - unfold dict_keys. rewrite list_elem_of_fmap. split.
    + intros ([k v] & -> & Hin). apply rd_items_get in Hin. by eexists.
    + intros [v Hv]. exists (u, v). split; [done|]. by apply rd_items_get.
  - split; [by intros ?%not_elem_of_nil|by intros []].
Qed.

(** Deleting the credentials of a client. *)
Lemma deleted_user u k o :
  startswith "relation-" u = true →
  data_get k (cluster_data (cluster_update [(u, "")] o)) =
  if decide (k = u) then None else data_get k (cluster_data o).
Proof.
  intros Hu. rewrite cluster_data_update. destruct (cluster_data o) as [d|]; cbn; [|by case_decide].
  unfold KafkaCluster.is_secret_key. rewrite Hu, orb_true_r. cbn.
  case_decide; [subst; apply rd_get_delete_secret_eq|by apply rd_get_delete_secret_ne].
Qed.

(** ** ACLs of a user *)

Definition own_bindings (user : string) (s : S) : Prop :=
  set_Forall (λ b : binding, username b.2 = user → b = binding_of b.2) (bindings s).

Lemma remove_user_bindings m user (s : S) :
  clean_cluster s → own_bindings user s →
  ∃ s', remove_all_user_acls m user s = Ok s' ∧
    ∀ b, b ∈ bindings s' ↔ b ∈ bindings s ∧ username b.2 ≠ user.
Proof.
  intros Hs Hown. unfold remove_all_user_acls, current_acls.
  destruct (list_documented m s Hs) as (out & -> & Hout). cbn [mbind result_bind]. rewrite Hout.
  destruct (for_each_remove m (elements (acls_of_user user (set_map snd (bindings s)))) s) as (s' & Hr & E2).
  { apply Forall_forall. intros a [_ (b' & -> & Hb')%elem_of_map]%elem_of_elements%elem_of_filter. by apply Hs. }
  exists s'. split; [done|]. intros b. rewrite E2, elem_of_difference, elem_of_list_to_set, list_elem_of_fmap.
  setoid_rewrite elem_of_elements. unfold acls_of_user. setoid_rewrite elem_of_filter. setoid_rewrite elem_of_map.
  split; intros [Hb Hn]; (split; [done|]).
  - intros Hu. apply Hn. exists b.2. split; [by apply Hown|]. split; [done|]. by exists b.
  - intros (a & -> & <- & _). apply Hn. by rewrite binding_of_user.
Qed.

(** One broken client, with the manager of users at hand. *)
Lemma remove_client_spec m u o :
  auth_manager o = Ok m → startswith "relation-" u = true →
  clean_cluster (host o) → own_bindings u (host o) →
  ∃ o', remove_client u o = Ok o' ∧ auth_manager o' = Ok m ∧
    (∀ k, data_get k (cluster_data o') = if decide (k = u) then None else data_get k (cluster_data o)) ∧
    (∀ b, b ∈ bindings (host o') ↔ b ∈ bindings (host o) ∧ username b.2 ≠ u).
Proof.
  intros Hm Hu Hs Hown. unfold remove_client, with_auth, update_host. rewrite Hm. cbn [mbind result_bind].
  destruct (remove_user_bindings m u (host o) Hs Hown) as (s1 & -> & B1). cbn [mbind result_bind].
  replace (auth_manager (with_host s1 o)) with (Ok m) by done. cbn [mbind result_bind].
  destruct (delete_user_documented m u (host (with_host s1 o))) as (s2 & -> & B2). cbn [mbind result_bind].
  eexists. split; [done|]. split_and!.
  - by rewrite auth_manager_kept.
  - intros k. by rewrite deleted_user.
  - intros b. cbn. rewrite B2. apply B1.
Qed.

Lemma remove_clients_spec m us o :
  auth_manager o = Ok m → Forall (λ u, startswith "relation-" u = true) us →
  clean_cluster (host o) → Forall (λ u, own_bindings u (host o)) us →
  ∃ o', remove_clients us o = Ok o' ∧
    (∀ k, data_get k (cluster_data o') = if decide (k ∈ us) then None else data_get k (cluster_data o)) ∧
    (∀ b, b ∈ bindings (host o') ↔ b ∈ bindings (host o) ∧ username b.2 ∉ us).
Proof.
  intros Hm Hus. revert o Hm. induction Hus as [|u us Hu _ IH]; intros o Hm Hs Hown.
  - exists o. split; [done|]. split; [intros k|intros b]; set_solver.
  - apply Forall_cons in Hown as [Hown1 Hown]. cbn [remove_clients].
    destruct (remove_client_spec m u o Hm Hu Hs Hown1) as (o1 & -> & Hm1 & Hd1 & Hb1). cbn [mbind result_bind].
    destruct (IH o1 Hm1) as (o2 & -> & Hd2 & Hb2).
    + intros b [Hb _]%Hb1. by apply Hs.
    + eapply Forall_impl; [exact Hown|]. intros v Hv b [Hb _]%Hb1 Huv. by apply Hv.
    + exists o2. split; [done|]. split.
      * intros k. rewrite Hd2, Hd1. repeat case_decide; try done; exfalso; set_solver.
      * intros b. rewrite Hb2, Hb1. set_solver.
Qed.

End provider.

(** ** A new client *)

Section new_client.
Context {D : Type} `{RelationData D} {S : Type} `{Host S} `{X509} `{KafkaTools S}.
Implicit Types o : operator D S.

Lemma with_auth_ok f o o' :
  with_auth f o = Ok o' ↔ ∃ m h, auth_manager o = Ok m ∧ f m (host o) = Ok h ∧ o' = with_host h o.
Proof. unfold with_auth. rewrite result_bind_ok. setoid_rewrite update_host_ok. naive_solver. Qed.

(** The only way [setup_client] changes the data of the cluster. *)
Lemma setup_client_data k client o o' :
  setup_client k client o = Ok o' →
  cluster_data o' = cluster_data o ∨
  ∃ super_users, ClusterState.super_users (state o) = Ok super_users ∧
    cluster_data o' = KafkaCluster.update
      (dict_set (KafkaClient.username client)
         (str_or (KafkaClient.password client) (new_password k (KafkaClient.username client)))
         [("super-users", super_users)]) (cluster_data o).
Proof.
  unfold setup_client. destruct (with_auth _ o) as [o1|[]] eqn:Ha; try discriminate; [|naive_solver].
  apply with_auth_ok in Ha as (m & h & _ & _ & ->).
  rewrite result_bind_ok. intros (o2 & (m2 & h2 & _ & _ & ->)%with_auth_ok & (su & Hsu & [= <-])%result_bind_ok).
  right. exists su. split; [exact Hsu|]. by rewrite cluster_data_update.
Qed.

(** C30: a client's request changes the data of the cluster only when the client
    asks for a topic and has no credentials yet, on the leader, while the
    cluster answers and the service is ready and runs, and, for a client with a
    certificate, once TLS is there and the certificate is in the truststore;
    the change is the client's credentials and the super users. *)
Theorem handle_client_request_safe k client o o' :
  handle_client_request k client o = Ok o' → cluster_data o' ≠ cluster_data o →
  KafkaClient.topic client ≠ "" ∧
  truthy_opt (data_get (KafkaClient.username client) (cluster_data o)) = false ∧
  is_leader (state o) = true ∧ alive k = Ok true ∧
  ClusterState.ready_to_start (state o) = Ok ACTIVE ∧ active o = true ∧
  (KafkaClient.mtls_cert client ≠ "" → tls_ready o = true ∧
     ∃ h, TLSManager.alias_needs_update (broker_tls k o) (KafkaClient.alias client)
            (KafkaClient.mtls_cert client) (host o) = Ok (false, h)) ∧
  ∃ super_users, ClusterState.super_users (state o) = Ok super_users ∧
    cluster_data o' = KafkaCluster.update
      (dict_set (KafkaClient.username client)
         (str_or (KafkaClient.password client) (new_password k (KafkaClient.username client)))
         [("super-users", super_users)]) (cluster_data o).
Proof.
  unfold handle_client_request. intros Hr Hd.
  destruct (truthy (KafkaClient.topic client)) eqn:Et; cbn [negb] in Hr; [|by injection Hr as <-].
  apply truthy_true in Et.
  destruct (truthy_opt _) eqn:Eu; [by injection Hr as <-|].
  apply result_bind_ok in Hr as (up & Hup & Hr).
  unfold ping in Hup. apply result_bind_ok in Hup as (_ & _ & Hup).
  destruct up; cbn [negb] in Hr; [|by injection Hr as <-].
  apply result_bind_ok in Hr as ([ok o1] & [(-> & -> & Hready & Hact)|(-> & st & ->)]%healthy_cases & Hr);
    cbn [negb] in Hr; [|by injection Hr as <-].
  destruct (is_leader (state o)) eqn:El; cbn [negb orb] in Hr; [|by injection Hr as <-].
  destruct (bool_decide _); cbn [negb] in Hr; [|by injection Hr as <-].
  destruct (truthy (KafkaClient.mtls_cert client)) eqn:Em; cbn [andb] in Hr.
  - destruct (tls_ready o) eqn:Etls; cbn [negb] in Hr; [|by injection Hr as <-].
    apply result_bind_ok in Hr as ([waiting o1] & Hw & Hr).
    apply result_bind_ok in Hw as ([needed h] & Hneed & [= -> <-]).
    destruct waiting; [by injection Hr as <-|].
    split_and!; try done; [intros _; eauto|].
    destruct (setup_client_data k client (with_host h o) o' Hr) as [?|?]; done.
  - cbn [mbind result_bind] in Hr. split_and!; try done.
    + intros Hm%truthy_true. congruence.
    + destruct (setup_client_data k client o o' Hr) as [?|?]; done.
Qed.

(** ** Responses *)

Lemma healthy_emitted o b o' : healthy o = Ok (b, o') → emitted o' = emitted o.
Proof. by intros [(_ & -> & _)|(_ & st & ->)]%healthy_cases. Qed.

Lemma with_auth_emitted f o o' : with_auth f o = Ok o' → emitted o' = emitted o.
Proof. by intros (m & h & _ & _ & ->)%with_auth_ok. Qed.

Lemma setup_client_emitted k client o o' : setup_client k client o = Ok o' → emitted o' = emitted o.
Proof.
  unfold setup_client. destruct (with_auth _ o) as [o1|[]] eqn:Ha; try discriminate; [|naive_solver].
  apply with_auth_emitted in Ha as <-.
  rewrite result_bind_ok. intros (o2 & <-%with_auth_emitted & (su & _ & [= <-])%result_bind_ok). done.
Qed.

Lemma handle_client_request_emitted k client o o' :
  handle_client_request k client o = Ok o' → emitted o' = emitted o.
Proof.
  unfold handle_client_request. destruct (negb _); [by intros [= <-]|].
  destruct (truthy_opt _); [by intros [= <-]|].
  rewrite result_bind_ok. intros (up & _ & Hr). destruct (negb up); [by injection Hr as <-|].
  apply result_bind_ok in Hr as ([ok o1] & Hh%healthy_emitted & Hr). rewrite <- Hh. clear Hh.
  destruct (negb ok); [by injection Hr as <-|]. destruct (_ || _); [by injection Hr as <-|].
  destruct (_ && _); [by injection Hr as <-|].
  apply result_bind_ok in Hr as ([waiting o2] & Hw & Hr).
  assert (Ho2 : emitted o2 = emitted o1).
  { destruct (truthy _); [|by injection Hw as _ <-].
    by apply result_bind_ok in Hw as ([needed h] & _ & [= _ <-]). }
  rewrite <- Ho2. destruct waiting; [by injection Hr as <-|]. by apply setup_client_emitted in Hr.
Qed.

Lemma remove_clients_emitted us o o' : remove_clients us o = Ok o' → emitted o' = emitted o.
Proof.
  revert o. induction us as [|u us IH]; intros o; [by intros [= <-]|]. cbn [remove_clients].
  rewrite result_bind_ok. intros (o1 & Hr & Hus%IH). rewrite Hus. clear Hus IH. unfold remove_client in Hr.
  apply result_bind_ok in Hr as (o2 & Ha%with_auth_emitted & Hr).
  apply result_bind_ok in Hr as (o3 & Hb%with_auth_emitted & [= <-]). cbn. congruence.
Qed.

(** A response that the interface accepts: it names the user of the client with
    a password and a topic, and its TLS flag has the type of its version. *)
Definition well_formed_response (e : emission) : Prop :=
  ∃ id client r, e = SetResponse id r ∧ KafkaClient.relation_id client = Some id ∧
    KafkaCompatibilityResponseModel.username r = KafkaClient.username client ∧
    KafkaCompatibilityResponseModel.password r ≠ "" ∧ KafkaCompatibilityResponseModel.resource r ≠ "" ∧
    match KafkaCompatibilityResponseModel.tls r with
    | inl _ => KafkaCompatibilityResponseModel.version r = "v1"
    | inr _ => KafkaCompatibilityResponseModel.version r ≠ "v1"
    end.

(** What is written for a client once a response was: its fields as texts, the
    CA when there is one, and the flag of version 1 in JSON. *)
Definition flag_text (tls : bool + string) : string :=
  match tls with inl b => if b then "true" else "false" | inr s => s end.
Record carries (r : KafkaCompatibilityResponseModel.response) (d : list (string * json)) : Prop := {
  carries_username : dict_get "username" d = Some (JStr (KafkaCompatibilityResponseModel.username r));
  carries_password : dict_get "password" d = Some (JStr (KafkaCompatibilityResponseModel.password r));
  carries_endpoints : dict_get "endpoints" d = Some (JStr (KafkaCompatibilityResponseModel.endpoints r));
  carries_tls : dict_get "tls" d = Some (JStr (flag_text (KafkaCompatibilityResponseModel.tls r)));
  carries_tls_ca : dict_get_or "tls-ca" (JStr "") d = JStr (KafkaCompatibilityResponseModel.tls_ca r) }.

Lemma needs_update_answered k client o r d :
  response_for k client o = Ok r → carries r d →
  KafkaClient.tls client = "enabled" ∨ KafkaClient.tls client = "disabled" →
  KafkaClient.needs_update d (TLSState.ca CLIENT_SCOPE (unit_data o)) client =
    Ok (KafkaClient.version client =? "v1")%string.
Proof.
  unfold response_for. rewrite result_bind_ok. intros (endpoints & He & [= <-]) [Hu Hp Hend Ht Hca] Htls.
  cbn in Hu, Hp, Hend, Ht, Hca. unfold KafkaClient.needs_update. rewrite He. cbn [mbind result_bind].
  rewrite Hu, Hp, Hend, Ht, Hca, !json_eqb_refl by done. unfold tls_value.
  destruct (KafkaClient.version client =? "v1")%string; cbn; [by destruct Htls as [-> | ->]|].
  by rewrite String.eqb_refl.
Qed.

Lemma request_answered k client o :
  truthy_opt (data_get (KafkaClient.username client) (cluster_data o)) = true →
  handle_client_request k client o = Ok o.
Proof. intros Hc. unfold handle_client_request. rewrite Hc. by destruct (negb _). Qed.

(** A client that has its credentials and was answered is answered again,
    with the same response, on every reconciliation when it uses version 1 of
    the interface, and left alone before: the flag of TLS is then written as a
    truth value and compared with a text. *)
Theorem answered_client k client o r id :
  KafkaClient.relation_id client = Some id →
  has_units (view_of k client) = true → is_active (view_of k client) = true →
  truthy_opt (data_get (KafkaClient.username client) (cluster_data o)) = true →
  KafkaClient.password client ≠ "" → KafkaClient.topic client ≠ "" →
  KafkaClient.tls client = "enabled" ∨ KafkaClient.tls client = "disabled" →
  response_for k client o = Ok r → carries r (written_data (view_of k client)) →
  reconcile_client k client o =
    Ok (if (KafkaClient.version client =? "v1")%string then emit (SetResponse id r) o else o).
Proof.
  intros Hid Hu Ha Hc Hp%truthy_true Ht%truthy_true Htls Hr Hd. unfold reconcile_client.
  rewrite Hid, Hu, Ha, (request_answered k client o Hc). cbn [all_true forallb negb andb mbind result_bind].
  rewrite Hp, Ht, (needs_update_answered k client o r _ Hr Hd Htls). cbn [forallb negb andb mbind result_bind].
  destruct (KafkaClient.version client =? "v1")%string; cbn [negb]; [|done]. by rewrite Hr.
Qed.

Lemma no_responses o o2 :
  emitted o2 = emitted o → ∃ rs, emitted o2 = (emitted o ++ rs)%list ∧ Forall well_formed_response rs.
Proof. intros ->. exists []. by rewrite app_nil_r. Qed.

Lemma reconcile_client_responses k client o o' :
  reconcile_client k client o = Ok o' →
  ∃ rs, emitted o' = (emitted o ++ rs)%list ∧ Forall well_formed_response rs.
Proof.
  unfold reconcile_client. destruct (KafkaClient.relation_id client) as [id|] eqn:Hid; [|intros [= <-]; by apply no_responses].
  destruct (negb (all_true _)); [intros [= <-]; by apply no_responses|].
  rewrite result_bind_ok. intros (o1 & Ho1%handle_client_request_emitted & Hr).
  destruct (negb (all_true _)) eqn:Hset; [injection Hr as <-; by apply no_responses|].
  apply result_bind_ok in Hr as (stale & _ & Hr). destruct (negb stale); [injection Hr as <-; by apply no_responses|].
  apply result_bind_ok in Hr as (r & Hresp & [= <-]). exists [SetResponse id r]. cbn. rewrite Ho1. split; [done|].
  apply Forall_singleton. unfold response_for in Hresp. apply result_bind_ok in Hresp as (endpoints & _ & [= <-]).
  apply negb_false_iff, all_true_iff in Hset. apply Forall_cons in Hset as [Hp%truthy_true Hset].
  apply Forall_cons in Hset as [Ht%truthy_true _].
  do 3 eexists. split_and!; [done|done|done|done|done|]. cbn. unfold tls_value.
  by destruct (String.eqb_spec (KafkaClient.version client) "v1").
Qed.

End new_client.

(** ** A cluster with a client that left and one that stays *)

Definition sample_client : client_relation :=
  let request := KafkaClient.mkRequest None "t" (Some "producer") None [] in
  mkClientRelation 2 (Some "app") ∅ ∅ request [request].
Definition sample_provider : operator bag model_cluster :=
  mkOperator
    (ConfigManager.mkManager
       (mkState "broker,controller" 50000 None "kafka/0" true
          (Some (mkPeerData (list_to_map [("relation-1", "p"); ("relation-2", "q"); ("cluster-uuid", "u")]) ∅ []))
          [sample_client] None None None [] None false ["/data/0"] 1
          (mkK8sView (λ _, Ok "") (λ _, Ok 0) (λ _, Ok 0)))
       (mkConfig "production" "INFO" [] "1.1" "0.8" []) (mkContainer true ∅ ∅ ∅) None None None true)
    {[ ("LITERAL", mkAcl "old" "TOPIC" "READ" "relation-1"); ("LITERAL", mkAcl "t" "TOPIC" "READ" "relation-2") ]}
    [] [] false false.


(** A client without credentials asks for a topic. *)
Definition new_client : KafkaClient.kafka_client :=
  KafkaClient.mkClient (Some 3) "app" (KafkaClient.mkRequest None "t" (Some "producer") None [])
    "kafka-0:9092" "" "disabled" ∅.

Lemma handle_client_request_safe_witness :
  is_leader sample_state = true ∧
  match handle_client_request sample_hook new_client (charm_in sample_state (∅, ∅)) with
  | Ok o' => data_get "relation-3" (cluster_data o') = Some "pw-relation-3"
  | Err _ => False
  end.
Proof.
  destruct (handle_client_request sample_hook new_client (charm_in sample_state (∅, ∅))) as [o'|] eqn:E.
  - assert (Hg : data_get "relation-3" (cluster_data o') = Some "pw-relation-3").
    { enough (Hr : (match handle_client_request sample_hook new_client (charm_in sample_state (∅, ∅)) with
        Ok o' => data_get "relation-3" (cluster_data o') | Err _ => None end) = Some "pw-relation-3")
        by (by rewrite E in Hr).
      vm_compute. reflexivity. }
    split; [|exact Hg].
    apply (handle_client_request_safe sample_hook new_client (charm_in sample_state (∅, ∅)) o' E).
    intros Hc. rewrite Hc in Hg. vm_compute in Hg. done.
  - exfalso. enough (Hr : is_ok (handle_client_request sample_hook new_client (charm_in sample_state (∅, ∅))) = true)
      by (by rewrite E in Hr).
    vm_compute. reflexivity.
Defined.


(** A client in version 1 that was answered. *)
Definition answered : KafkaClient.kafka_client :=
  KafkaClient.mkClient (Some 9) "app" (KafkaClient.mkRequest None "t" (Some "producer") None [])
    "kafka-0:9092" "pw" "disabled" {[ "version" := "v1" ]}.
Definition answered_hook : hook :=
  hook_seeing (λ _, mkClientView true true "salt" None None
    [("username", JStr "relation-9"); ("password", JStr "pw"); ("endpoints", JStr "kafka-0:9092");
     ("tls", JStr "false"); ("tls-ca", JStr "")] "10.0.0.1").

Lemma answered_client_witness :
  match reconcile_client answered_hook answered (charm_in sample_state (∅, ∅)) with
  | Ok o' => length (emitted o') = 1%nat
  | Err _ => False
  end.
Proof.
  destruct (response_for answered_hook answered (charm_in sample_state (∅, ∅))) as [r|] eqn:E.
  - rewrite (answered_client answered_hook answered (charm_in sample_state (∅, ∅)) r 9).
    + reflexivity.
    + reflexivity.
    + reflexivity.
    + reflexivity.
    + vm_compute. reflexivity.
    + discriminate.
    + discriminate.
    + right. reflexivity.
    + exact E.
    + vm_compute in E. injection E as <-. split; reflexivity.
  - exfalso. vm_compute in E. discriminate.
Defined.
