(* ===== verification/TlsHandlerFacts.v ===== *)
(** * Facts about the handlers of certificates

    What the steps of a rotation leave alone, when a unit goes on and when it
    waits for the other application, and why two applications that rotate at
    the same time do not wait for each other. *)

From S2P Require Import Prelude PyStr PyDict Json Literals Models ModelsFacts Cluster ClusterFacts Workload Config Controller Tls TlsFacts Operator Sample TlsHandler.
Import Operator TLSHandler.

Local Open Scope string_scope.
Local Open Scope Z_scope.

Section rotation.
Context {D : Type} `{RelationDataLaws D} {S : Type} `{Host S} `{X509}.
Implicit Types o : operator D S.
Implicit Types s : cluster_state D.

(** ** The part of the state that decides about rotation *)

Definition rotations s : list bool :=
  (λ b, TLSState.rotate PEER_SCOPE (KafkaBroker.data b)) <$> ClusterState.brokers s.
Definition rotation_flag s : option (option string) :=
  ClusterState.kraft_app_field "peer-cluster-rotate" s.

(** Two states with the same roles and rotations, and the same flag of the
    other application. *)
Definition same_rotation s s' : Prop :=
  roles s' = roles s ∧ ClusterState.tls_rotate s' = ClusterState.tls_rotate s ∧
  rotations s' = rotations s ∧ rotation_flag s' = rotation_flag s.

#[local] Instance same_rotation_refl : Reflexive same_rotation.
Proof. done. Qed.
#[local] Instance same_rotation_trans : Transitive same_rotation.
Proof. intros s1 s2 s3 (?&?&?&?) (?&?&?&?). repeat split; congruence. Qed.

Lemma same_rotation_both s s' :
  same_rotation s s' →
  ClusterState.both_sides_rotating s' = ClusterState.both_sides_rotating s ∧
  ClusterState.runs_broker s' = ClusterState.runs_broker s.
Proof.
  intros (Hr & _ & Hrot & Hf). unfold ClusterState.both_sides_rotating, ClusterState.runs_broker,
    ClusterState.runs_controller. rewrite Hr. unfold rotation_flag in Hf. unfold rotations in Hrot.
  rewrite Hf, Hrot. done.
Qed.

(** Writing this unit's list of trusted certificates. *)
Lemma set_trusted_rotation value s (w : option D) :
  TLSState.set_trusted_certificates PEER_SCOPE value (KafkaBroker.data (ClusterState.unit_broker s)) = Ok w →
  same_rotation s (match w with Some d => ClusterState.set_unit_data (λ _, d) s | None => s end).
Proof.
  unfold ClusterState.unit_broker. cbn [KafkaBroker.data].
  destruct (peer_relation s) as [p|] eqn:Hp; cbn [fmap option_fmap option_map].
  2:{ unfold TLSState.set_trusted_certificates. rewrite result_bind_ok. intros (t & _ & Ht).
      case_decide; [by injection Ht as <-|].
      unfold TLSState.set, RelationState.update in Ht. destruct (filter _ _) as [|[]] in Ht; [by injection Ht as <-|done]. }
  unfold TLSState.set_trusted_certificates. rewrite result_bind_ok. intros (t & _ & Ht).
  assert (Hsame : ∃ d, w = Some d ∧ ∀ k, k ≠ "peer-trust" → rd_get k d = rd_get k (own_data p)).
  { case_decide; [injection Ht as <-; eauto|].
    destruct (update_single "peer-trust" (dumps_list (sorted_str value)) (own_data p)) as (d & Hd & _ & Hne).
    unfold TLSState.set in Ht. change (TLSState.key PEER_SCOPE "trust") with "peer-trust" in Ht.
    rewrite Hd in Ht. injection Ht as <-. eauto. }
  destruct Hsame as (d & -> & Hd).
  assert (Hrot : ∀ scope, TLSState.rotate scope (Some d) = TLSState.rotate scope (Some (own_data p))).
  { intros scope. unfold TLSState.rotate, TLSState.get, data_get_or. cbn [data_get mbind option_bind].
    by rewrite Hd by (by destruct scope). }
  unfold same_rotation. split_and!; [done| | |].
  - unfold ClusterState.tls_rotate, ClusterState.unit_broker, ClusterState.set_unit_data. cbn.
    rewrite Hp. cbn. by rewrite !Hrot.
  - unfold rotations, ClusterState.brokers, ClusterState.peer_units_data_interfaces, ClusterState.unit_broker,
      ClusterState.set_unit_data. cbn. rewrite Hp. cbn. by rewrite !fmap_app, <- !list_fmap_compose; cbn; rewrite Hrot.
  - unfold rotation_flag, ClusterState.kraft_app_field, ClusterState.runs_broker, ClusterState.runs_controller,
      ClusterState.cluster, ClusterState.set_unit_data. cbn. by rewrite Hp.
Qed.

(** Writing the trust of the application. *)
Lemma kraft_trust_rotation v s s' :
  ClusterState.kraft_cluster_update [("trust", v)] s = Ok s' → same_rotation s s'.
Proof.
  unfold ClusterState.kraft_cluster_update.
  destruct (ClusterState.runs_broker s && ClusterState.runs_controller s) eqn:Hboth.
  - intros [= <-].
    unfold same_rotation, ClusterState.tls_rotate, rotations, rotation_flag, ClusterState.kraft_app_field,
      ClusterState.brokers, ClusterState.peer_units_data_interfaces, ClusterState.unit_broker,
      ClusterState.cluster_update, ClusterState.set_peer_data, ClusterState.cluster.
    unfold ClusterState.runs_broker, ClusterState.runs_controller in *. cbn [roles peer_relation st_unit_name].
    rewrite Hboth. destruct (peer_relation s) as [p|]; [|done]. split_and!; [done..|].
    cbn [fmap option_fmap option_map app_data foldl]. by rewrite update_one_ne.
  - rewrite result_bind_ok. intros (w & _ & [= <-]).
    unfold same_rotation, rotation_flag, ClusterState.kraft_app_field. cbn [roles ClusterState.set_peer_cluster_data].
    unfold ClusterState.runs_broker, ClusterState.runs_controller in *. cbn [roles ClusterState.set_peer_cluster_data].
    split_and!; [done..|]. rewrite Hboth. unfold ClusterState.set_peer_cluster_data, ClusterState.runs_broker. cbn.
    destruct (contains "broker" (roles s)), w;
      destruct (peer_cluster_orchestrator_relation s), (peer_cluster_relation s); done.
Qed.

Lemma unit_data_state o d :
  state (with_state (ClusterState.set_unit_data (λ _, d) (state o)) o) =
  ClusterState.set_unit_data (λ _, d) (state o).
Proof. done. Qed.

Lemma peer_truststore_rotation k force o o' :
  update_peer_truststore_state k force o = Ok o' → same_rotation (state o) (state o').
Proof.
  unfold update_peer_truststore_state. destruct (negb _); [by intros [= <-]|].
  destruct (_ && _); [by intros [= <-]|].
  rewrite result_bind_ok. intros ([certs h] & _ & Hr).
  apply result_bind_ok in Hr as (o1 & Hu & Hr).
  assert (H1' : same_rotation (state o) (state o1)).
  { unfold update_unit_data in Hu. apply result_bind_ok in Hu as (w & Hw & Hu). injection Hu as <-.
    apply set_trusted_rotation in Hw. by destruct w. }
  destruct (is_leader (state o1)); [|by injection Hr as <-].
  unfold update_state in Hr. apply result_bind_ok in Hr as (s2 & Hs2 & Hr). injection Hr as <-.
  unfold ClusterState.refresh_peer_cluster_trust_state in Hs2.
  apply result_bind_ok in Hs2 as (t & _ & Hk). apply kraft_trust_rotation in Hk.
  by etrans.
Qed.

Lemma unit_tls_rotate_rotation k o o' :
  unit_tls_rotate k o = Ok o' → same_rotation (state o) (state o').
Proof.
  unfold unit_tls_rotate. rewrite result_bind_ok. intros (o1 & Ht & Hr).
  apply result_bind_ok in Hr as ([old h1] & _ & Hr).
  apply result_bind_ok in Hr as (o2 & (h2 & _ & ->)%update_host_ok & Hr).
  apply result_bind_ok in Hr as ([new h3] & _ & Hr). injection Hr as <-.
  by apply peer_truststore_rotation in Ht.
Qed.

(** ** Going on, or waiting for the other application *)

(** The unit has new certificates that the other application does not trust
    yet, and it is not the one that goes first. *)
Definition waits k o o1 : Prop :=
  ClusterState.tls_rotate (state o) = true ∧
  TLSManager.peer_cluster_app_trusts_new_bundle (broker_tls k o1) = Ok false ∧
  (ClusterState.both_sides_rotating (state o) = false ∨ ClusterState.runs_broker (state o) = false).

Lemma rotation_outcome k is_start o go o' :
  config_changed_rotation k is_start o = Ok (go, o') →
  ∃ o1, unit_tls_rotate k o = Ok o1 ∧ (go = false ↔ waits k o o1) ∧ (go = false → o' = defer o1).
Proof.
  unfold config_changed_rotation. rewrite result_bind_ok. intros (o1 & Hu & Hr).
  exists o1. split; [done|]. pose proof (unit_tls_rotate_rotation k o o1 Hu) as Hs.
  destruct (same_rotation_both _ _ Hs) as [Hb Hrb]. destruct Hs as (_ & Hrot & _).
  unfold waits. rewrite <- Hrot, <- Hb, <- Hrb.
  apply result_bind_ok in Hr as (trusts & Ht & Hr).
  destruct (negb trusts && negb _) eqn:Ew.
  - injection Hr as <- <-. apply andb_true_iff in Ew as [Et%negb_true_iff Ew%negb_true_iff]. subst.
    split; [|done]. split; [|done]. intros _. destruct (ClusterState.tls_rotate (state o1)); [|done].
    split_and!; [done|done|]. by apply andb_false_iff.
  - apply result_bind_ok in Hr as (o2 & _ & Hr). injection Hr as <- _. split; [|done].
    split; [done|]. intros (Hrt & Htr & Hor). rewrite Hrt in Ht. rewrite Htr in Ht. injection Ht as <-.
    cbn [negb andb] in Ew. apply negb_false_iff, andb_true_iff in Ew as [E1 E2].
    rewrite E1, E2 in Hor. by destruct Hor.
Qed.

(** A unit with new certificates learns whether the other application trusts
    them, whatever it does then. *)
Lemma rotation_trust_known k is_start o go o' o1 :
  config_changed_rotation k is_start o = Ok (go, o') → unit_tls_rotate k o = Ok o1 →
  ClusterState.tls_rotate (state o) = true →
  ∃ trusts, TLSManager.peer_cluster_app_trusts_new_bundle (broker_tls k o1) = Ok trusts.
Proof.
  unfold config_changed_rotation. intros Hgo Hu Hr. rewrite Hu in Hgo. cbn [mbind result_bind] in Hgo.
  destruct (unit_tls_rotate_rotation k o o1 Hu) as (_ & Hrot & _). rewrite Hrot, Hr in Hgo.
  apply result_bind_ok in Hgo as (trusts & Ht & _). eauto.
Qed.
End rotation.
