(* ===== verification/Rotation.v ===== *)
(** * The rotation of internal certificates as a protocol

    Two applications, the brokers and the controllers, each of which may have
    new internal certificates. [may_go] is the condition under which a unit
    goes on to restart with them; [turn] is a whole turn of an application:
    its handler of a configuration change and the restart that follows. The
    handler of events/tls.py implements [may_go], the brokers and the
    controllers never wait for each other, and every schedule that lets the
    controllers, the brokers and the controllers again take a turn ends the
    rotation. *)

From S2P Require Import Prelude PyStr PyDict Json Literals Models ModelsFacts Cluster ClusterFacts Workload Config Controller Tls TlsFacts Operator Sample TlsHandler TlsHandlerFacts.
Import Operator TLSHandler.

Local Open Scope string_scope.
Local Open Scope Z_scope.

(** An application: it has new certificates to restart with, and the other one
    trusts them. *)
Record side := mkSide { rotating : bool; trusted : bool }.

(** Without new certificates nothing holds a unit back; with them it waits for
    the other application, unless both rotate and it is the brokers', which go
    first. *)
Definition may_go (first : bool) (me other : side) : bool :=
  negb (rotating me) || trusted me || (rotating me && rotating other && first).

(** The two applications, and who takes a turn. *)
Record pair := mkPair { brokers_side : side; controllers_side : side }.
Inductive turn_of := Brokers | Controllers.

(** An application that goes on loads the other's certificates, restarts with
    its own, and tells that it trusts the other's; one that waits is left as
    it was. *)
Definition turn (who : turn_of) (p : pair) : pair :=
  let b := brokers_side p in let c := controllers_side p in
  match who with
  | Brokers => if may_go true b c then mkPair (mkSide false (trusted b)) (mkSide (rotating c) true) else p
  | Controllers => if may_go false c b then mkPair (mkSide (rotating b) true) (mkSide false (trusted c)) else p
  end.
Definition run_schedule (schedule : list turn_of) (p : pair) : pair := foldl (λ p who, turn who p) p schedule.

(** Nobody has certificates to restart with. *)
Definition settled (p : pair) : Prop :=
  rotating (brokers_side p) = false ∧ rotating (controllers_side p) = false.

(** ** Every fair schedule settles *)

(** How far the rotation is: nothing known; after a turn of the controllers;
    after one of the brokers as well; settled. *)
Definition stage (n : nat) (p : pair) : Prop :=
  let b := brokers_side p in let c := controllers_side p in
  match n with
  | O => True
  | 1%nat => trusted b = true ∨ rotating c = true ∨ rotating b = false
  | 2%nat => rotating b = false ∧ (rotating c = false ∨ trusted c = true)
  | _ => rotating b = false ∧ rotating c = false
  end.

Ltac cases_of_pair p :=
  destruct p as [[[] []] [[] []]]; cbn in *; try tauto; naive_solver.

Lemma stage_kept n who p : stage n p → stage n (turn who p).
Proof. destruct n as [|[|[|n]]], who; cases_of_pair p. Qed.
Lemma stage_1 p : stage 1 (turn Controllers p).
Proof. cases_of_pair p. Qed.
Lemma stage_2 p : stage 1 p → stage 2 (turn Brokers p).
Proof. cases_of_pair p. Qed.
Lemma stage_3 p : stage 2 p → stage 3 (turn Controllers p).
Proof. cases_of_pair p. Qed.

Lemma stage_run n schedule p : stage n p → stage n (run_schedule schedule p).
Proof. revert p. induction schedule as [|who l IH]; intros p Hp; [done|]. by apply IH, stage_kept. Qed.

(** The turns of a schedule, in order, up to the first one of an application. *)
Lemma run_to who rest schedule p :
  sublist (who :: rest) schedule →
  ∃ before after, schedule = (before ++ who :: after)%list ∧ sublist rest after ∧
    run_schedule schedule p = run_schedule after (turn who (run_schedule before p)).
Proof.
  intros (before & after & -> & Hs)%sublist_cons_l. exists before, after. split; [done|]. split; [done|].
  unfold run_schedule. by rewrite foldl_app.
Qed.



(** ** The handler implements the condition *)

Section refinement.
Context {D : Type} `{RelationDataLaws D} {S : Type} `{Host S} `{X509}.
Implicit Types o : operator D S.

(** The side a unit is on: its rotation flags, and whether the other
    application's list of trusted certificates holds its own. *)
Definition side_of (k : hook) o o1 : side :=
  mkSide (ClusterState.tls_rotate (state o))
    (bool_decide (TLSManager.peer_cluster_app_trusts_new_bundle (broker_tls k o1) = Ok true)).

Lemma side_untrusted k o o1 :
  trusted (side_of k o o1) = false →
  TLSManager.peer_cluster_app_trusts_new_bundle (broker_tls k o1) ≠ Ok true.
Proof. by intros Ht%bool_decide_eq_false. Qed.

(** C15: the handler of a configuration change goes on exactly when the
    protocol lets the unit go, once the flag of the other application says
    whether both rotate; a unit that waits defers the event and changes nothing
    else after it has updated its truststore. *)
Theorem rotation_refines k is_start o go o' other :
  ClusterState.both_sides_rotating (state o) = ClusterState.tls_rotate (state o) && rotating other →
  config_changed_rotation k is_start o = Ok (go, o') →
  ∃ o1, unit_tls_rotate k o = Ok o1 ∧
    go = may_go (ClusterState.runs_broker (state o)) (side_of k o o1) other ∧
    (go = false → o' = defer o1).
Proof.
  intros Hflag Hgo. destruct (rotation_outcome k is_start o go o' Hgo) as (o1 & Hu & Hiff & Hdef).
  exists o1. split; [done|]. split; [|done].
  unfold may_go. cbn [side_of rotating].
  destruct go; symmetry.
  - rewrite !orb_true_iff, !andb_true_iff, negb_true_iff.
    destruct (ClusterState.tls_rotate (state o)) eqn:Er; [|by left; left].
    destruct (trusted (side_of k o o1)) eqn:Et; [by left; right|]. right.
    assert (Hno : ¬ waits k o o1) by (by intros Hw%Hiff).
    apply side_untrusted in Et. unfold waits in Hno.
    assert (Htr : TLSManager.peer_cluster_app_trusts_new_bundle (broker_tls k o1) = Ok false).
    { destruct (rotation_trust_known k is_start o true o' o1 Hgo Hu Er) as [[] Htr]; [by destruct Et|done]. }
    rewrite andb_true_l in Hflag. rewrite Hflag in Hno.
    destruct (rotating other), (ClusterState.runs_broker (state o)); naive_solver.
  - destruct (proj1 Hiff eq_refl) as (Hr & Ht & Hor). cbn [side_of trusted].
    rewrite Hr in Hflag |- *. rewrite Ht. cbn in Hflag |- *. rewrite Hflag in Hor.
    by destruct Hor as [-> | ->]; rewrite ?andb_false_r.
Qed.

(** C13: two applications that both have new certificates never both wait for
    the other: when the controllers' flag has reached the brokers, one of the
    two handlers goes on. *)
Theorem rotation_progress kb ob gb ob' kc oc gc oc' :
  ClusterState.runs_broker (state ob) = true →
  ClusterState.both_sides_rotating (state ob) =
    ClusterState.tls_rotate (state ob) && ClusterState.tls_rotate (state oc) →
  config_changed_rotation kb false ob = Ok (gb, ob') →
  config_changed_rotation kc false oc = Ok (gc, oc') →
  gb = true ∨ gc = true.
Proof.
  intros Hb Hflag Hgb Hgc.
  destruct (rotation_outcome kb false ob gb ob' Hgb) as (ob1 & _ & Hib & _).
  destruct (rotation_outcome kc false oc gc oc' Hgc) as (oc1 & _ & Hic & _).
  destruct gb; [by left|]. destruct gc; [by right|].
  destruct (proj1 Hib eq_refl) as (Hrb & _ & Hor), (proj1 Hic eq_refl) as (Hrc & _).
  rewrite Hflag, Hrb, Hrc, Hb in Hor. by destruct Hor.
Qed.
End refinement.

(** ** Two applications that rotate at the same time *)

Definition remote_rotating : PeerCluster.remote_app :=
  PeerCluster.mkRemote true (λ k, if (k =? "peer-cluster-rotate")%string then Some "true" else None)
    (λ _, None) (λ _ _, ∅).
(** A unit with new internal certificates, whose relation shows that the other
    application rotates too and trusts nothing yet. *)
Definition rotating_state (role : string) (brokers_relation controllers_relation : option (app_relation bag))
    : cluster_state bag :=
  mkState role 50000 None "kafka/0" true
    (Some (mkPeerData ∅ {[ "truststore-password" := "password"; "peer-certificate" := "CERT";
                           "peer-ca-cert" := "CA"; "peer-private-key" := "KEY"; "peer-rotation" := "true" ]} []))
    [] controllers_relation brokers_relation
    None [] None false [] 1 (mkK8sView (λ _, Ok "10.0.0.1") (λ _, Ok 31000) (λ _, Ok 31001)).
Definition rotating_brokers : operator bag machine :=
  charm_in (rotating_state "broker"
    (Some (mkAppRelation remote_rotating [] ({[ "controller-ca" := dumps_list ["A"; "B"] ]} : bag))) None) (∅, ∅).
Definition rotating_controllers : operator bag machine :=
  charm_in (rotating_state "controller" None
    (Some (mkAppRelation remote_rotating [] ({[ "broker-ca" := dumps_list ["C"] ]} : bag)))) (∅, ∅).

Lemma rotation_refines_witness :
  ∃ o', config_changed_rotation sample_hook false rotating_controllers = Ok (false, o') ∧
    ∃ o1, o' = defer o1.
Proof.
  destruct (config_changed_rotation sample_hook false rotating_controllers) as [[go o']|e] eqn:E.
  - destruct (rotation_refines sample_hook false rotating_controllers go o' (mkSide true false))
      as (o1 & _ & _ & Hdef); [vm_compute; reflexivity|exact E|].
    assert (Hgo : go = false).
    { enough (Hr : match config_changed_rotation sample_hook false rotating_controllers with
        Ok (go, _) => go | Err _ => true end = false) by (by rewrite E in Hr).
      vm_compute. reflexivity. }
    subst go. exists o'. split; [reflexivity|]. exists o1. by apply Hdef.
  - exfalso. enough (Hr : is_ok (config_changed_rotation sample_hook false rotating_controllers) = true)
      by (by rewrite E in Hr).
    vm_compute. reflexivity.
Defined.

Lemma rotation_progress_witness :
  ∃ o', config_changed_rotation sample_hook false rotating_brokers = Ok (true, o').
Proof.
  destruct (config_changed_rotation sample_hook false rotating_brokers) as [[gb ob]|e] eqn:Eb.
  2:{ exfalso. enough (Hr : is_ok (config_changed_rotation sample_hook false rotating_brokers) = true)
        by (by rewrite Eb in Hr). vm_compute. reflexivity. }
  destruct (config_changed_rotation sample_hook false rotating_controllers) as [[gc oc]|e] eqn:Ec.
  2:{ exfalso. enough (Hr : is_ok (config_changed_rotation sample_hook false rotating_controllers) = true)
        by (by rewrite Ec in Hr). vm_compute. reflexivity. }
  destruct (rotation_progress sample_hook rotating_brokers gb ob sample_hook rotating_controllers gc oc) as [->|Hc];
    [vm_compute; reflexivity..|exact Eb|exact Ec|exists ob; reflexivity|].
  exfalso. subst gc. enough (Hr : match config_changed_rotation sample_hook false rotating_controllers with
    Ok (go, _) => go | Err _ => true end = false) by (by rewrite Ec in Hr).
  vm_compute. reflexivity.
Defined.
