(* ===== verification/Broker.v ===== *)
(** * The broker (events/broker.py)

    [BrokerOperator]: the handlers of the broker's hooks, which compose the
    managers and the other handlers. *)

From S2P Require Import Prelude PyStr PyDict Json Literals Models K8s Cluster Workload Auth Config Controller Balancer Tls Operator TlsHandler Provider.
Import Operator.

Local Open Scope string_scope.
Local Open Scope Z_scope.

Module BrokerOperator.
Section broker.
Context {D : Type} `{RelationData D} {S : Type} `{Host S} `{X509} `{KafkaTools S}.
Implicit Types o : operator D S.

(** A loop over a list. *)
Fixpoint for_all {A} (f : A → operator D S → result (operator D S)) (l : list A) o
    : result (operator D S) :=
  match l with
  | [] => Ok o
  | x :: l => o ← f x o; for_all f l o
  end.
Definition emit_runs (runs : list ControllerManager.run) o : operator D S :=
  foldl (λ o r, emit (Run r) o) o runs.

(** ** Updates of what the outside sees *)

Definition apply_service (k : hook) (service : Service) o : result (operator D S) :=
  _ ← K8sManager.apply_service (applied k service); Ok (emit (ApplyService service) o).

Definition update_external_services (k : hook) o : result (operator D S) :=
  if negb (SUBSTRATE =? "k8s")%string then Ok o
  else if truthy_opt (expose_external (state o)) then
    o ← apply_service k (K8sManager.build_bootstrap_services (node_port_of k) (k8s_manager k) (pod k)) o;
    auths ← ClusterState.enabled_auth (state o);
    for_all (λ auth o,
      service ← K8sManager.build_listener_service (node_port_of k) (k8s_manager k) (pod k) auth;
      apply_service k service o) auths o
  else Ok o.

(** Addresses from the bindings of the peer relation and of each client. *)
Definition update_ip_addresses (k : hook) o : result (operator D S) :=
  o ← update_unit_broker (KafkaBroker.update_peer_ip_address (bind_address k)) o;
  clients ← ClusterState.clients (state o);
  for_all (λ client o,
    match KafkaClient.relation_id client with
    | None => Ok o
    | Some id => update_unit_broker
                   (KafkaBroker.update_relation_ip_address (Some id) (ip (view_of k client))) o
    end) clients o.

(** What the brokers tell the other application. *)
Definition broker_items (s : cluster_state D) (p : PeerCluster.peer_cluster)
    : result (list (string * string)) :=
  racks ← PeerCluster.racks p;
  capacities ← PeerCluster.broker_capacities p;
  super_users ← ClusterState.super_users s;
  Ok [("roles", roles s); ("broker-username", PeerCluster.broker_username p);
      ("broker-password", PeerCluster.broker_password p); ("broker-uris", PeerCluster.broker_uris p);
      ("cluster-uuid", PeerCluster.cluster_uuid p); ("racks", str_of_Z racks);
      ("broker-capacities", dumps capacities); ("super-users", super_users)].

(** The chain of trust of the application, then its data. *)
Definition publish_ca o : result (operator D S) :=
  bundle ← TLSState.bundle PEER_SCOPE (unit_data o);
  update_state (ClusterState.set_peer_cluster_ca bundle) o.
Definition publish_broker_items o : result (operator D S) :=
  o ← publish_ca o;
  p ← ClusterState.peer_cluster (state o);
  items ← broker_items (state o) p;
  peer_cluster_update items o.

Definition update_peer_cluster_data o : result (operator D S) :=
  if negb (is_leader (state o)) then Ok o
  else
    '(ok, o) ← healthy o;
    if negb ok then Ok o else publish_broker_items o.

(** The users of the clients are added again when the cluster lost them. *)
Definition readd_user (users : list string) (client : KafkaClient.kafka_client) o
    : result (operator D S) :=
  if negb (truthy (KafkaClient.password client)) then Ok o
  else if bool_decide (KafkaClient.username client ∈ users) then Ok o
  else KafkaProvider.with_auth
         (λ m, add_user m (KafkaClient.username client) (KafkaClient.password client)) o.

Definition update_credentials_cache (k : hook) o : result (operator D S) :=
  '(ok, o) ← healthy o;
  if negb (all_true [is_leader (state o); ClusterState.runs_broker (state o); ok]) then Ok o
  else
    up ← KafkaProvider.ping k o;
    if negb up then Ok o
    else
      m ← auth_manager o;
      match get_users m (host o) with
      | Err (ExecError _) => Ok o
      | Err e => Err e
      | Ok users =>
          o ← update_manager ConfigManager.set_client_properties o;
          clients ← ClusterState.clients (state o);
          for_all (readd_user users) clients o
      end.

(** ** The brokers of the cluster *)

(** An update of the application's data by [KafkaCluster]. *)
Definition update_cluster (f : option D → result (option D)) o : result (operator D S) :=
  data ← f (ClusterState.cluster (state o));
  Ok (match data with
      | Some d => with_state (ClusterState.set_peer_data (λ _, d) (state o)) o
      | None => o
      end).
Definition add_broker (b : KafkaBroker.broker D) o : result (operator D S) :=
  storages ← KafkaBroker.storages b;
  if negb (all_true [truthy (KafkaBroker.cores b); json_truthy storages]) then Ok o
  else
    id ← KafkaBroker.broker_id b;
    update_cluster (KafkaCluster.add_broker (network_bandwidth (state o))
      (KafkaCluster.mkBrokerInfo (KafkaBroker.cores b) storages id)) o.
Definition remove_broker (broker_id : Z) o : result (operator D S) :=
  active ← ClusterState.active_brokers_on_relation (state o);
  if bool_decide (broker_id ∈ active) then Ok o else update_cluster (KafkaCluster.remove_broker broker_id) o.

Definition update_brokers_state (k : hook) o : result (operator D S) :=
  if negb (all_true [is_leader (state o); ClusterState.runs_broker (state o)]) then Ok o
  else
    o ← for_all add_broker (ClusterState.brokers (state o)) o;
    snapshot ← KafkaCluster.broker_capacities_snapshot (ClusterState.cluster (state o));
    quorum ← quorum k;
    let removed : gset Z := list_to_set (dict_keys snapshot) ∖ ControllerManager.online_brokers quorum in
    for_all remove_broker (elements removed) o.

(** The relation is asked only when some broker is online. *)
Definition departing_brokers (k : hook) o : result (gset Z) :=
  quorum ← quorum k;
  if bool_decide (ControllerManager.online_brokers quorum = ∅) then Ok ∅
  else
    active ← ClusterState.active_brokers_on_relation (state o);
    Ok (ControllerManager.departing_brokers quorum active).

Definition reconcile_autobalance (k : hook) o : result (operator D S) :=
  if negb (all_true [ClusterState.runs_balancer (state o); is_leader (state o)]) then Ok o
  else
    departing ← departing_brokers k o;
    Ok (foldl (λ o broker_id, emit (Rebalance (RebalanceEvent.mkEvent "remove" (Some broker_id))) o) o
          (elements departing)).

(** ** Configuration changes *)

Definition AcquireRestart : emission := AcquireLock None.

(** [is_storage]: the event is one of a storage, whose new directories are
    formatted before the restart. *)
Definition handle_configuration_updates (is_storage : bool) o : result (operator D S) :=
  if negb (active o) then Ok o
  else
    changed ← ConfigManager.properties_changed (manager o);
    let properties_changed := negb (bool_decide (changed = ∅)) in
    o ← (if properties_changed then update_manager ConfigManager.set_server_properties o else Ok o);
    if any_true [properties_changed; ClusterState.tls_rotate (state o); certs_updated o] then
      if (is_storage : bool) then
        p ← ClusterState.peer_cluster (state o);
        Ok (emit (AcquireLock (Some "_disable_enable_restart_broker"))
              (emit_runs (ControllerManager.format_storages (PeerCluster.cluster_uuid p)
                 (KafkaCluster.internal_user_credentials (ClusterState.cluster (state o))) KRAFT_VERSION
                 (Some (PeerCluster.bootstrap_unit_id p ++ "@" ++ PeerCluster.bootstrap_controller p
                          ++ ":" ++ PeerCluster.bootstrap_replica_id p))) o))
      else Ok (emit AcquireRestart o)
    else Ok o.

Definition set_ports (listeners : result (list Listener.listener)) o : result (operator D S) :=
  ls ← listeners; ports ← traverse Listener.port ls; Ok (emit (SetPorts ports) o).

Definition handle_broker_service_updates (k : hook) o : result (operator D S) :=
  o ← update_manager ConfigManager.set_client_properties o;
  o ← update_external_services k o;
  o ← (if ClusterState.runs_broker (state o) then set_ports (ConfigManager.all_listeners (manager o)) o
       else if ClusterState.runs_controller_only (state o)
       then set_ports (ConfigManager.controller_listeners (manager o)) o
       else Ok o);
  o ← update_ip_addresses k o;
  o ← update_credentials_cache k o;
  o ← KafkaProvider.reconcile k o;
  if bool_decide (is_Some (peer_cluster_orchestrator_relation (state o))) && is_leader (state o)
  then update_peer_cluster_data o else Ok o.

(** [BalancerOperator._on_start] on the charm's objects. *)
Definition start_balancer (k : hook) o : result (operator D S) :=
  '(m, started) ← BalancerOperator.on_start (new_password k BALANCER_WEBSERVER_USER)
    (balancer_certificate k) (list_topics k) (manager o);
  let o := with_manager m o in
  Ok (match started with
      | BalancerOperator.NotReady st => set_status st o
      | BalancerOperator.Deferred => defer o
      | BalancerOperator.Started => o
      end).

Definition balancer_missing (k : hook) o : result bool :=
  status ← ClusterState.balancer_status (state o);
  alive ← balancer_alive k;
  Ok (all_true [is_leader (state o); ClusterState.runs_balancer (state o);
                bool_decide (status = ACTIVE); negb alive]).

Definition on_config_changed (k : hook) (is_storage : bool) o : result (operator D S) :=
  if refresh_not_ready k then Ok o
  else
    '(ok, o) ← healthy o;
    if negb ok then Ok o
    else match Workload.read (CharmedKafkaPaths.server_properties BROKER_ROLE) (workload o) with
    | [] => Ok o
    | _ =>
        missing ← balancer_missing k o;
        o ← (if (missing : bool) then start_balancer k o else Ok o);
        o ← update_manager ConfigManager.set_environment o;
        '(should_continue, o) ← TLSHandler.config_changed_rotation k false o;
        if negb should_continue then Ok o
        else
          o ← handle_configuration_updates is_storage o;
          o ← handle_broker_service_updates k o;
          o ← TLSHandler.handle_config_changed_tls_updates k o;
          o ← update_brokers_state k o;
          reconcile_autobalance k o
    end.

(** ** Install and start *)

Definition on_install (k : hook) o : result (operator D S) :=
  if negb (Workload.container_can_connect (workload o)) then Ok (defer o)
  else o ← update_manager ConfigManager.set_environment o; update_external_services k o.

(** The leader generates the internal authority when there is none. *)
Definition setup_internal_ca (k : hook) o : operator D S :=
  if all_true [negb (TLSState.ready PEER_SCOPE (unit_data o));
               negb (bool_decide (is_Some (ClusterState.internal_ca (state o)))); is_leader (state o)]
  then with_state (ClusterState.set_internal_ca_key (generated_ca k).2
                     (ClusterState.set_internal_ca (generated_ca k).1 (state o))) o
  else o.

Definition format_and_start (k : hook) o : result (operator D S) :=
  '(m, runs) ← KRaftHandler.format_storages (manager o);
  let o := emit_runs runs (with_manager m o) in
  o ← update_external_services k o;
  o ← update_ip_addresses k o;
  o ← update_manager ConfigManager.set_server_properties o;
  o ← update_manager ConfigManager.set_client_properties o;
  o ← (if ClusterState.tls_enabled (state o) && truthy (TLSState.certificate CLIENT_SCOPE (unit_data o))
          && truthy (TLSState.ca CLIENT_SCOPE (unit_data o))
       then update_host (TLSManager.configure (broker_tls k o)) o else Ok o);
  Ok (emit UpdateStatus (with_container (Workload.start KafkaWorkload.layer (workload o)) o)).

Definition on_start (k : hook) o : result (operator D S) :=
  match refresh_in_progress k with
  | None => Ok (defer o)
  | Some in_progress =>
      if negb (Workload.container_can_connect (workload o)) then Ok (defer o)
      else
        o ← (if bool_decide (is_Some (peer_relation (state o)))
             then rack ← ConfigManager.rack (manager o);
                  unit_update [("cores", str_strip (cores k)); ("rack", rack)] o
             else Ok o);
        if (in_progress : bool) then Ok o
        else
          o ← setup_internal_tls k true (setup_internal_ca k o);
          current_status ← ClusterState.ready_to_start (state o);
          if negb (bool_decide (current_status = ACTIVE)) then Ok (defer (set_status current_status o))
          else format_and_start k o
  end.

(** ** Status, secrets and storages *)

(** Without the truststore's temporary certificates once both applications
    trust the new ones. *)
Definition remove_temporary (k : hook) o : result (operator D S) :=
  '(temporary, h) ← TLSManager.peer_truststore_has_temporary_aliases (broker_tls k o) (host o);
  let o := with_host h o in
  both ← (if (temporary : bool) then TLSManager.both_apps_trust_new_bundle (broker_tls k o) else Ok false);
  if (both : bool) then
    o ← update_host (TLSManager.rebuild_truststore (broker_tls k o)) o; Ok (emit AcquireRestart o)
  else Ok o.

Definition broker_active (k : hook) o : result bool :=
  quorum ← quorum k;
  id ← KafkaBroker.broker_id (ClusterState.unit_broker (state o));
  Ok (ControllerManager.broker_active quorum id (ClusterState.runs_controller (state o))).

Definition on_update_status (k : hook) o : result (operator D S) :=
  if refresh_not_ready k then Ok o
  else
    '(ok, o) ← healthy o;
    if negb ok then Ok o
    else
      o ← remove_temporary k (emit ConfigChanged o);
      if ClusterState.runs_broker (state o) then
        active ← broker_active k o;
        Ok (if negb active then set_status BROKER_NOT_CONNECTED o else o)
      else Ok o.

(** [secret_label] of the event, [extra_label] the one of the application's
    secret on the peer relation. *)
Definition on_secret_changed (secret_label : option string) (extra_label : string) o : operator D S :=
  if negb (truthy_opt secret_label) || negb (bool_decide (is_Some (peer_relation (state o)))) then o
  else if bool_decide (secret_label = Some extra_label) then emit ConfigChanged o else o.

Definition on_storage_attached (k : hook) o : result (operator D S) :=
  if negb (Workload.container_can_connect (workload o)) || negb (bool_decide (is_Some (peer_relation (state o))))
  then Ok (defer o)
  else
    storages ← volumes k;
    o ← unit_update [("storages", storages)] o;
    let o := emit (Run (ControllerManager.Exec
      ["chown"; "-R"; USER_ID ++ ":" ++ GROUP; CharmedKafkaPaths.data_path BROKER_ROLE])) o in
    let o := foldl (λ o storage, emit (Run (ControllerManager.Exec ["rm"; "-rf"; storage ++ "/lost+found"])) o)
      o (split_char "," (ClusterState.log_dirs (state o))) in
    if active o then on_config_changed k true (set_status ADDED_STORAGE o) else Ok o.

(** The poll at which the storages of the unit are drained, if any. *)
Fixpoint wait_drained (broker_id : Z) (polls : list (result (list (string * list json)))) : result bool :=
  match polls with
  | [] => Ok false
  | poll :: polls =>
      assignment ← poll;
      if BalancerManager.all_storages_drained assignment broker_id then Ok true
      else wait_drained broker_id polls
  end.

(** Whether the hook ends within the polls given. *)
Definition on_storage_detaching (k : hook) o : result (bool * operator D S) :=
  let o := set_status (if (1 <? length (ClusterState.brokers (state o)))%nat
                       then REMOVED_STORAGE else REMOVED_STORAGE_NO_REPL) o in
  storages ← volumes k;
  o ← unit_update [("storages", storages)] o;
  let o := emit ConfigChanged o in
  exists_ ← ClusterState.balancer_exists (state o);
  if negb exists_ then Ok (true, o)
  else
    broker_id ← KafkaBroker.broker_id (ClusterState.unit_broker (state o));
    ended ← wait_drained broker_id (assignments k); Ok (ended, o).

(** ** Handlers that end in a configuration change *)

Definition for_relation (relation_id : Z) (f : KafkaClient.kafka_client → operator D S → result (operator D S))
    (client : KafkaClient.kafka_client) o : result (operator D S) :=
  if bool_decide (KafkaClient.relation_id client = Some relation_id) then f client o else Ok o.
Definition on_topic_requested (k : hook) (relation_id : Z) o : result (operator D S) :=
  clients ← ClusterState.clients (state o);
  o ← for_all (for_relation relation_id (KafkaProvider.handle_client_request k)) clients o;
  on_config_changed k false o.
Definition on_relation_created (k : hook) o : result (operator D S) := on_config_changed k false o.

(** [OAuthHandler]: there is always a broker, the unit itself. *)
Definition on_oauth_relation_changed (k : hook) o : result (operator D S) :=
  if negb (is_leader (state o)) || (length (ClusterState.brokers (state o)) =? 0)%nat then Ok o
  else on_config_changed k false o.
End broker.
End BrokerOperator.
