(* ===== verification/Restart.v ===== *)
(** * When a configuration change restarts the service

    The handler of a configuration change runs on nearly every event. It asks
    for the lock of the rolling restart at most once, in one place: all the
    steps around it are shown to leave the requests for the lock alone. *)

From S2P Require Import Prelude PyStr PyDict Json Literals Models ModelsFacts K8s Cluster ClusterFacts Workload Auth Config ConfigFacts Controller Balancer Tls Operator Sample TlsHandler Provider ProviderFacts Broker.
Import Operator.

Local Open Scope string_scope.
Local Open Scope Z_scope.

Definition is_lock (e : emission) : bool := match e with AcquireLock _ => true | _ => false end.

Section quiet.
Context {D : Type} `{RelationData D} {S : Type} `{Host S} `{X509} `{KafkaTools S}.
Implicit Types o : operator D S.

(** The requests for the lock that a hook has made. *)
Definition restarts o : list emission := filter (λ e, is_lock e = true) (emitted o).

(** An operation that asks for no restart when it succeeds; the second is for
    the operations that also return a value. *)
Definition quiet o (r : result (operator D S)) : Prop := ∀ o', r = Ok o' → restarts o' = restarts o.
Definition quiet2 {A} o (r : result (A * operator D S)) : Prop :=
  ∀ a o', r = Ok (a, o') → restarts o' = restarts o.

Lemma quiet_ok o o' : restarts o' = restarts o → quiet o (Ok o').
Proof. by intros Hr ? [= <-]. Qed.
Lemma quiet2_ok {A} (a : A) o o' : restarts o' = restarts o → quiet2 o (Ok (a, o')).
Proof. by intros Hr ? ? [= _ <-]. Qed.
Lemma quiet_err o e : quiet o (Err e).
Proof. by intros ? [=]. Qed.
Lemma quiet2_err {A} o e : quiet2 (A := A) o (Err e).
Proof. by intros ? ? [=]. Qed.
Lemma quiet_from o o1 r : restarts o1 = restarts o → quiet o1 r → quiet o r.
Proof. intros Ho Hr o' ->%Hr. done. Qed.
Lemma quiet2_from {A} o o1 (r : result (A * operator D S)) : restarts o1 = restarts o → quiet2 o1 r → quiet2 o r.
Proof. intros Ho Hr a o' ->%Hr. done. Qed.

Lemma quiet_bind o r f :
  quiet o r → (∀ o1, restarts o1 = restarts o → quiet o (f o1)) → quiet o (r ≫= f).
Proof. intros Hr Hf o' (o1 & Ho1%Hr & Hf1)%result_bind_ok. by eapply Hf. Qed.
Lemma quiet_bind2 {A} o (r : result (A * operator D S)) f :
  quiet2 o r → (∀ a o1, restarts o1 = restarts o → quiet o (f (a, o1))) → quiet o (r ≫= f).
Proof. intros Hr Hf o' ([a o1] & Ho1%Hr & Hf1)%result_bind_ok. by eapply Hf. Qed.
Lemma quiet_bind_other {A} o (r : result A) f : (∀ a, quiet o (f a)) → quiet o (r ≫= f).
Proof. intros Hf o' (a & _ & Hf1)%result_bind_ok. by eapply Hf. Qed.
Lemma quiet2_bind {A} o r (f : operator D S → result (A * operator D S)) :
  quiet o r → (∀ o1, restarts o1 = restarts o → quiet2 o (f o1)) → quiet2 o (r ≫= f).
Proof. intros Hr Hf a o' (o1 & Ho1%Hr & Hf1)%result_bind_ok. by eapply Hf. Qed.
Lemma quiet2_bind2 {A B} o (r : result (A * operator D S)) (f : _ → result (B * operator D S)) :
  quiet2 o r → (∀ a o1, restarts o1 = restarts o → quiet2 o (f (a, o1))) → quiet2 o (r ≫= f).
Proof. intros Hr Hf b o' ([a o1] & Ho1%Hr & Hf1)%result_bind_ok. by eapply Hf. Qed.
Lemma quiet2_bind_other {A B} o (r : result A) (f : A → result (B * operator D S)) :
  (∀ a, quiet2 o (f a)) → quiet2 o (r ≫= f).
Proof. intros Hf b o' (a & _ & Hf1)%result_bind_ok. by eapply Hf. Qed.

Lemma restarts_emit e o : is_lock e = false → restarts (emit e o) = restarts o.
Proof.
  intros He. unfold restarts. cbn [emit emitted]. rewrite filter_app, filter_cons_False by (by rewrite He).
  by rewrite filter_nil, app_nil_r.
Qed.
End quiet.

Create HintDb quiet.

(** Goes through an operation, each call of which is known to be quiet. *)
Ltac quiet_eq :=
  first [ assumption | reflexivity
        | match goal with |- restarts (if ?b then _ else _) = _ => destruct b; quiet_eq end
        | rewrite restarts_emit by reflexivity; quiet_eq | (etrans; [|eassumption]; quiet_eq) ].
Ltac quiet :=
  lazymatch goal with
  | |- quiet _ (Err _) => apply quiet_err
  | |- quiet2 _ (Err _) => apply quiet2_err
  | |- quiet _ (Ok _) => apply quiet_ok; quiet_eq
  | |- quiet2 _ (Ok _) => apply quiet2_ok; quiet_eq
  | |- quiet _ (_ ≫= _) =>
      first [ apply quiet_bind; [quiet|intros; quiet]
            | apply quiet_bind2; [quiet|intros; quiet]
            | apply quiet_bind_other; intros; quiet ]
  | |- quiet2 _ (_ ≫= _) =>
      first [ apply quiet2_bind; [quiet|intros; quiet]
            | apply quiet2_bind2; [quiet|intros; quiet]
            | apply quiet2_bind_other; intros; quiet ]
  | |- quiet _ (if ?b then _ else _) => destruct b; quiet
  | |- quiet2 _ (if ?b then _ else _) => destruct b; quiet
  | |- quiet _ (let _ := _ in _) => cbv zeta; quiet
  | |- quiet2 _ (let _ := _ in _) => cbv zeta; quiet
  | |- quiet _ (match ?x with _ => _ end) => destruct x; quiet
  | |- quiet2 _ (match ?x with _ => _ end) => destruct x; quiet
  | |- quiet _ ((λ _, _) _) => cbv beta; quiet
  | |- quiet2 _ ((λ _, _) _) => cbv beta; quiet
  | |- quiet _ _ => eapply quiet_from; [|solve [auto with quiet]]; quiet_eq
  | |- quiet2 _ _ => eapply quiet2_from; [|solve [auto with quiet]]; quiet_eq
  end.

Section operations.
Context {D : Type} `{RelationData D} {S : Type} `{Host S} `{X509} `{KafkaTools S}.
Implicit Types o : operator D S.

Lemma update_state_quiet f o : quiet o (update_state f o).
Proof. unfold update_state. quiet. Qed.
Lemma update_unit_data_quiet f o : quiet o (update_unit_data f o).
Proof. unfold update_unit_data. apply quiet_bind_other. intros [d|]; quiet. Qed.
Lemma update_manager_quiet f o : quiet o (update_manager f o).
Proof. unfold update_manager. quiet. Qed.
Lemma update_host_quiet f o : quiet o (update_host f o).
Proof. unfold update_host. quiet. Qed.
Lemma healthy_quiet o : quiet2 o (healthy o).
Proof. unfold healthy. quiet. Qed.
End operations.

#[export] Hint Resolve update_state_quiet update_unit_data_quiet update_manager_quiet update_host_quiet
  healthy_quiet : quiet.

Section tls.
Context {D : Type} `{RelationData D} {S : Type} `{Host S} `{X509} `{KafkaTools S}.
Implicit Types o : operator D S.

Lemma setup_internal_tls_quiet k is_start o : quiet o (setup_internal_tls k is_start o).
Proof. unfold setup_internal_tls. quiet. Qed.
Lemma update_peer_truststore_state_quiet k force o : quiet o (update_peer_truststore_state k force o).
Proof. unfold update_peer_truststore_state. quiet. Qed.
Lemma unit_tls_rotate_quiet k o : quiet o (TLSHandler.unit_tls_rotate k o).
Proof.
  unfold TLSHandler.unit_tls_rotate. apply quiet_bind; [apply update_peer_truststore_state_quiet|intros o1 Ho1]. quiet.
Qed.
Lemma sans_changed_quiet k scope o : quiet2 o (TLSHandler.sans_changed k scope o).
Proof.
  unfold TLSHandler.sans_changed. intros b o'. cbv zeta. rewrite result_bind_ok.
  by intros ([changed h] & _ & [= _ <-]).
Qed.
End tls.

#[export] Hint Resolve setup_internal_tls_quiet update_peer_truststore_state_quiet unit_tls_rotate_quiet
  sans_changed_quiet : quiet.

Section rotation.
Context {D : Type} `{RelationData D} {S : Type} `{Host S} `{X509} `{KafkaTools S}.
Implicit Types o : operator D S.

Lemma config_changed_rotation_quiet k is_start o : quiet2 o (TLSHandler.config_changed_rotation k is_start o).
Proof. unfold TLSHandler.config_changed_rotation, TLSHandler.revoke_changed. quiet. Qed.
Lemma trust_clients_quiet k clients o : quiet o (TLSHandler.trust_clients k clients o).
Proof.
  revert o. induction clients as [|c clients IH]; intros o; cbn [TLSHandler.trust_clients]; [quiet|].
  destruct (KafkaClient.relation_id c); [|apply IH]. cbv zeta.
  apply quiet_bind_other. intros [needed h]. apply quiet_bind; [quiet|]. intros o1 Ho1. by eapply quiet_from.
Qed.
Lemma trust_transferred_quiet k certs o : quiet o (TLSHandler.trust_transferred k certs o).
Proof.
  revert o. induction certs as [|c certs IH]; intros o; cbn [TLSHandler.trust_transferred]; [quiet|].
  apply quiet_bind_other. intros alias. apply quiet_bind_other. intros [needed h]. cbv zeta.
  apply quiet_bind; [quiet|]. intros o1 Ho1. by eapply quiet_from.
Qed.
End rotation.

#[export] Hint Resolve config_changed_rotation_quiet trust_clients_quiet trust_transferred_quiet : quiet.

Section broker.
Context {D : Type} `{RelationData D} {S : Type} `{Host S} `{X509} `{KafkaTools S}.
Implicit Types o : operator D S.

Lemma handle_config_changed_tls_updates_quiet k o : quiet o (TLSHandler.handle_config_changed_tls_updates k o).
Proof. unfold TLSHandler.handle_config_changed_tls_updates, TLSHandler.update_truststore. quiet. Qed.
Lemma for_all_quiet {A} (f : A → operator D S → result (operator D S)) l o :
  (∀ x o, quiet o (f x o)) → quiet o (BrokerOperator.for_all f l o).
Proof.
  intros Hf. revert o. induction l as [|x l IH]; intros o; cbn [BrokerOperator.for_all]; [quiet|].
  apply quiet_bind; [apply Hf|]. intros o1 Ho1. by eapply quiet_from.
Qed.
Lemma with_auth_quiet f o : quiet o (KafkaProvider.with_auth f o).
Proof. unfold KafkaProvider.with_auth. quiet. Qed.
Lemma same_emissions_quiet o r : (∀ o', r = Ok o' → emitted o' = emitted o) → quiet o r.
Proof. intros Hr o' Ho%Hr. unfold restarts. by rewrite Ho. Qed.
Lemma apply_service_quiet k service o : quiet o (BrokerOperator.apply_service k service o).
Proof. unfold BrokerOperator.apply_service. quiet. Qed.
Lemma publish_ca_quiet o : quiet o (BrokerOperator.publish_ca o).
Proof. unfold BrokerOperator.publish_ca. quiet. Qed.
Lemma peer_cluster_update_quiet items o : quiet o (peer_cluster_update items o).
Proof. unfold peer_cluster_update. quiet. Qed.
Lemma update_cluster_quiet f o : quiet o (BrokerOperator.update_cluster f o).
Proof. unfold BrokerOperator.update_cluster. apply quiet_bind_other. intros [d|]; quiet. Qed.
Lemma handle_client_request_quiet k client o : quiet o (KafkaProvider.handle_client_request k client o).
Proof. apply same_emissions_quiet. intros o'. apply handle_client_request_emitted. Qed.
Lemma remove_broken_clients_quiet o : quiet o (KafkaProvider.remove_broken_clients o).
Proof.
  unfold KafkaProvider.remove_broken_clients. apply quiet_bind_other. intros active.
  apply same_emissions_quiet. intros o'. apply remove_clients_emitted.
Qed.
End broker.

#[export] Hint Resolve handle_config_changed_tls_updates_quiet with_auth_quiet apply_service_quiet
  publish_ca_quiet peer_cluster_update_quiet update_cluster_quiet handle_client_request_quiet
  remove_broken_clients_quiet : quiet.
#[export] Hint Extern 2 (quiet _ (BrokerOperator.for_all _ _ _)) => apply for_all_quiet; intros; quiet : quiet.

Section service.
Context {D : Type} `{RelationData D} {S : Type} `{Host S} `{X509} `{KafkaTools S}.
Implicit Types o : operator D S.

Lemma reconcile_clients_quiet k clients o : quiet o (KafkaProvider.reconcile_clients k clients o).
Proof.
  revert o. induction clients as [|c clients IH]; intros o; cbn [KafkaProvider.reconcile_clients]; [quiet|].
  apply quiet_bind; [unfold KafkaProvider.reconcile_client; quiet|]. intros o1 Ho1. by eapply quiet_from.
Qed.
Lemma update_external_services_quiet k o : quiet o (BrokerOperator.update_external_services k o).
Proof. unfold BrokerOperator.update_external_services. quiet. Qed.
Lemma set_ports_quiet ls o : quiet o (BrokerOperator.set_ports ls o).
Proof. unfold BrokerOperator.set_ports. quiet. Qed.
Lemma update_ip_addresses_quiet k o : quiet o (BrokerOperator.update_ip_addresses k o).
Proof. unfold BrokerOperator.update_ip_addresses, update_unit_broker. quiet. Qed.
Lemma update_credentials_cache_quiet k o : quiet o (BrokerOperator.update_credentials_cache k o).
Proof. unfold BrokerOperator.update_credentials_cache, BrokerOperator.readd_user. quiet. Qed.
Lemma start_balancer_quiet k o : quiet o (BrokerOperator.start_balancer k o).
Proof. unfold BrokerOperator.start_balancer. apply quiet_bind_other. intros [m []]; quiet. Qed.
Lemma reconcile_autobalance_quiet k o : quiet o (BrokerOperator.reconcile_autobalance k o).
Proof.
  unfold BrokerOperator.reconcile_autobalance. destruct (negb _); [quiet|]. apply quiet_bind_other. intros departing.
  apply quiet_ok. generalize (elements departing). intros l. revert o. induction l as [|i l IH]; intros o; [done|].
  cbn [foldl]. rewrite IH. by apply restarts_emit.
Qed.
End service.

#[export] Hint Resolve reconcile_clients_quiet update_external_services_quiet set_ports_quiet
  update_ip_addresses_quiet update_credentials_cache_quiet start_balancer_quiet reconcile_autobalance_quiet : quiet.

Section config_changed.
Context {D : Type} `{RelationData D} {S : Type} `{Host S} `{X509} `{KafkaTools S}.
Implicit Types o : operator D S.

Lemma handle_broker_service_updates_quiet k o : quiet o (BrokerOperator.handle_broker_service_updates k o).
Proof.
  unfold BrokerOperator.handle_broker_service_updates, BrokerOperator.update_peer_cluster_data,
    BrokerOperator.publish_broker_items, KafkaProvider.reconcile. quiet.
Qed.
Lemma update_brokers_state_quiet k o : quiet o (BrokerOperator.update_brokers_state k o).
Proof.
  unfold BrokerOperator.update_brokers_state, BrokerOperator.add_broker, BrokerOperator.remove_broker. quiet.
Qed.
(** ** The decision *)

(** The service runs, and its properties or its certificates changed. *)
Definition restart_needed o : bool :=
  active o &&
  match ConfigManager.properties_changed (manager o) with
  | Ok changed => negb (bool_decide (changed = ∅)) || ClusterState.tls_rotate (state o) || certs_updated o
  | Err _ => false
  end.
Definition lock_of (is_storage : bool) : emission :=
  AcquireLock (if is_storage then Some "_disable_enable_restart_broker" else None).

Lemma handle_configuration_updates_restarts is_storage o o' :
  BrokerOperator.handle_configuration_updates is_storage o = Ok o' →
  restarts o' = (restarts o ++ if restart_needed o then [lock_of is_storage] else [])%list.
Proof.
  unfold BrokerOperator.handle_configuration_updates, restart_needed.
  destruct (active o); cbn [negb andb]; [|intros [= <-]; by rewrite app_nil_r].
  rewrite result_bind_ok. intros (changed & -> & Hr). apply result_bind_ok in Hr as (o1 & Ho1 & Hr).
  assert (Hsame : restarts o1 = restarts o ∧ state o1 = state o ∧ certs_updated o1 = certs_updated o).
  { destruct (negb (bool_decide (changed = ∅))); [|by injection Ho1 as <-].
    unfold update_manager in Ho1. apply result_bind_ok in Ho1 as (m & Hm & [= <-]).
    split; [done|]. split; [|done]. unfold ConfigManager.set_server_properties in Hm.
    by apply result_bind_ok in Hm as (ls & _ & [= <-]). }
  destruct Hsame as (Hr1 & Hs1 & Hc1). unfold any_true in Hr. cbn [existsb] in Hr.
  rewrite Hs1, Hc1, orb_false_r, orb_assoc in Hr.
  destruct (_ || _); [|injection Hr as <-; by rewrite app_nil_r].
  assert (Hemit : ∀ e o2, is_lock e = true → restarts o2 = restarts o → restarts (emit e o2) = (restarts o ++ [e])%list).
  { intros e o2 He <-. unfold restarts. cbn [emit emitted]. rewrite filter_app. by rewrite filter_cons_True. }
  destruct is_storage; [|injection Hr as <-; by apply Hemit].
  apply result_bind_ok in Hr as (p & _ & [= <-]). apply Hemit; [done|].
  by rewrite !restarts_emit by reflexivity.
Qed.


(** The charm once the handler has gone through the rotation, and whether the
    rotation lets it go on. *)
Definition rotated (k : hook) o (go : bool) o1 : Prop :=
  ∃ missing o0 o0', BrokerOperator.balancer_missing k o = Ok missing ∧
    (if (missing : bool) then BrokerOperator.start_balancer k o else Ok o) = Ok o0 ∧
    update_manager ConfigManager.set_environment o0 = Ok o0' ∧
    TLSHandler.config_changed_rotation k false o0' = Ok (go, o1).

Lemma rotated_restarts k o go o1 : rotated k o go o1 → restarts o1 = restarts o.
Proof.
  intros (missing & o0 & o0' & _ & Hb & He & Hr).
  apply config_changed_rotation_quiet in Hr. apply update_manager_quiet in He.
  assert (Hb' : restarts o0 = restarts o) by (destruct missing; [by apply start_balancer_quiet in Hb|by injection Hb as <-]).
  congruence.
Qed.

Lemma after_updates_quiet k o :
  quiet o (o ← BrokerOperator.handle_broker_service_updates k o;
           o ← TLSHandler.handle_config_changed_tls_updates k o;
           o ← BrokerOperator.update_brokers_state k o;
           BrokerOperator.reconcile_autobalance k o).
Proof.
  apply quiet_bind; [apply handle_broker_service_updates_quiet|intros o1 H1'].
  apply quiet_bind; [eapply quiet_from; [exact H1'|apply handle_config_changed_tls_updates_quiet]|intros o2 H2'].
  apply quiet_bind; [eapply quiet_from; [exact H2'|apply update_brokers_state_quiet]|intros o3 H3'].
  eapply quiet_from; [exact H3'|apply reconcile_autobalance_quiet].
Qed.

Lemma healthy_reason o ok o1 :
  healthy o = Ok (ok, o1) →
  (ok = true ∧ o1 = o ∧ ClusterState.ready_to_start (state o) = Ok ACTIVE ∧ active o = true) ∨
  (ok = false ∧ restarts o1 = restarts o ∧
   (ClusterState.ready_to_start (state o) ≠ Ok ACTIVE ∨ active o = false)).
Proof.
  unfold healthy. rewrite result_bind_ok. intros (st & -> & Hr). case_bool_decide as Ha; cbn [negb] in Hr.
  - subst st. destruct (active o); injection Hr as <- <-; [by left|right]. split_and!; [done..|by right].
  - injection Hr as <- <-. right. split_and!; [done..|]. left. congruence.
Qed.

(** C6: a configuration change asks for a restart at most once, and exactly
    when it should: outside of a refresh, with a service that is ready and
    runs and has its properties file, once the rotation of certificates lets
    the unit go on, and if the properties or the certificates changed. *)
Theorem config_changed_restart k is_storage o o' :
  BrokerOperator.on_config_changed k is_storage o = Ok o' →
  (restarts o' = restarts o ∧
   (refresh_not_ready k = true ∨ ClusterState.ready_to_start (state o) ≠ Ok ACTIVE ∨ active o = false ∨
    Workload.read (CharmedKafkaPaths.server_properties BROKER_ROLE) (workload o) = [])) ∨
  (refresh_not_ready k = false ∧ ClusterState.ready_to_start (state o) = Ok ACTIVE ∧ active o = true ∧
   ∃ go o1, rotated k o go o1 ∧
     restarts o' = (restarts o ++ if go && restart_needed o1 then [lock_of is_storage] else [])%list).
Proof.
  unfold BrokerOperator.on_config_changed. destruct (refresh_not_ready k); [intros [= <-]; left; naive_solver|].
  rewrite result_bind_ok. intros ([ok o1] & Hh & Hr).
  destruct (healthy_reason o ok o1 Hh) as [(-> & -> & Hready & Hact)|(-> & Ho1 & Hwhy)]; cbn [negb] in Hr.
  2:{ injection Hr as <-. left. split; [done|]. naive_solver. }
  destruct (Workload.read _ _) as [|line lines]; [injection Hr as <-; left; naive_solver|]. right.
  split; [done|]. split; [done|]. split; [done|].
  apply result_bind_ok in Hr as (missing & Hm & Hr). apply result_bind_ok in Hr as (o0 & H0' & Hr).
  apply result_bind_ok in Hr as (o0' & H0'' & Hr). apply result_bind_ok in Hr as ([go o1] & Hrot & Hr).
  exists go, o1. assert (Hrd : rotated k o go o1) by (by exists missing, o0, o0').
  split; [done|]. apply rotated_restarts in Hrd. destruct go; cbn [negb] in Hr.
  2:{ injection Hr as <-. by rewrite app_nil_r. }
  apply result_bind_ok in Hr as (o2 & Hu%handle_configuration_updates_restarts & Hr%after_updates_quiet).
  cbn [andb]. by rewrite Hr, Hu, Hrd.
Qed.
End config_changed.

(** ** A rotation ends with its restart *)

Section rotation_done.
Context {D : Type} `{RelationDataLaws D} {S : Type} `{Host S} `{X509} `{KafkaTools S}.
Implicit Types o : operator D S.
Implicit Types s : cluster_state D.

(** The data of the unit. *)
Definition own s : option D := KafkaBroker.data (ClusterState.unit_broker s).

Lemma rotate_own s s' : own s' = own s → ClusterState.tls_rotate s' = ClusterState.tls_rotate s.
Proof. unfold own, ClusterState.tls_rotate. by intros ->. Qed.

Lemma set_peer_data_own f s : own (ClusterState.set_peer_data f s) = own s.
Proof. unfold own, ClusterState.unit_broker. cbn. by destruct (peer_relation s). Qed.
Lemma cluster_update_own items s : own (ClusterState.cluster_update items s) = own s.
Proof. apply set_peer_data_own. Qed.
Lemma kraft_cluster_update_own items s s' :
  ClusterState.kraft_cluster_update items s = Ok s' → own s' = own s.
Proof.
  unfold ClusterState.kraft_cluster_update. destruct (_ && _); [intros [= <-]; apply cluster_update_own|].
  rewrite result_bind_ok. by intros (w & _ & [= <-]).
Qed.

Lemma set_tls_rotate_reset s s' :
  ClusterState.set_tls_rotate false s = Ok s' → ClusterState.tls_rotate s' = false.
Proof.
  unfold ClusterState.set_tls_rotate, ClusterState.unit_broker. cbn [KafkaBroker.data].
  destruct (peer_relation s) as [p|] eqn:Hp; [|done]. cbn [fmap option_fmap option_map].
  unfold TLSState.set_rotate, TLSState.set. cbn [negb].
  change (TLSState.key CLIENT_SCOPE "rotation") with "client-rotation".
  change (TLSState.key PEER_SCOPE "rotation") with "peer-rotation".
  destruct (update_single "client-rotation" "" (own_data p)) as (d1 & -> & Hc & Hne1). cbn [mbind result_bind].
  destruct (update_single "peer-rotation" "" d1) as (d2 & -> & Hpr & Hne2). cbn [mbind result_bind].
  intros [= <-]. unfold ClusterState.tls_rotate, ClusterState.unit_broker, ClusterState.set_unit_data.
  cbn [peer_relation KafkaBroker.data]. rewrite Hp. cbn [fmap option_fmap option_map KafkaBroker.data own_data].
  unfold TLSState.rotate, TLSState.get, data_get_or. cbn [data_get mbind option_bind].
  change (TLSState.key CLIENT_SCOPE "rotation") with "client-rotation".
  change (TLSState.key PEER_SCOPE "rotation") with "peer-rotation".
  by rewrite Hpr, Hne2, Hc by done.
Qed.

Lemma trust_clients_state k clients o o' :
  TLSHandler.trust_clients k clients o = Ok o' → state o' = state o.
Proof.
  revert o. induction clients as [|c clients IH]; intros o; cbn [TLSHandler.trust_clients]; [by intros [= <-]|].
  destruct (KafkaClient.relation_id c); [|apply IH]. cbv zeta. rewrite result_bind_ok.
  intros ([needed h] & _ & (o1 & Ho1 & Hr)%result_bind_ok). apply IH in Hr. rewrite Hr.
  destruct needed; [|by injection Ho1 as <-]. by apply update_host_ok in Ho1 as (h' & _ & ->).
Qed.
Lemma trust_transferred_state k certs o o' :
  TLSHandler.trust_transferred k certs o = Ok o' → state o' = state o.
Proof.
  revert o. induction certs as [|c certs IH]; intros o; cbn [TLSHandler.trust_transferred]; [by intros [= <-]|].
  rewrite result_bind_ok. intros (alias & _ & ([needed h] & _ & (o1 & Ho1 & Hr)%result_bind_ok)%result_bind_ok).
  apply IH in Hr. rewrite Hr. destruct needed; [|by injection Ho1 as <-].
  by apply update_host_ok in Ho1 as (h' & _ & ->).
Qed.
Lemma update_truststore_state k o o' : TLSHandler.update_truststore k o = Ok o' → state o' = state o.
Proof.
  unfold TLSHandler.update_truststore. rewrite result_bind_ok. intros ([ok o1] & Hh & Hr).
  assert (Hs : state o1 = state o) by (by apply healthy_cases in Hh as [(_ & -> & _)|(_ & st & ->)]).
  apply result_bind_ok in Hr as (mtls & _ & Hr). destruct (negb _); [by injection Hr as <-|].
  apply result_bind_ok in Hr as (clients & _ & Hr).
  apply result_bind_ok in Hr as (o2 & H2'%trust_clients_state & Hr).
  apply result_bind_ok in Hr as (o3 & H3'%trust_transferred_state & Hr).
  apply update_host_ok in Hr as (h & _ & ->). change (state (with_host h o3)) with (state o3). congruence.
Qed.

(** The flags of the unit are reset. *)
Lemma tls_updates_reset k o o' :
  TLSHandler.handle_config_changed_tls_updates k o = Ok o' → ClusterState.tls_rotate (state o') = false.
Proof.
  unfold TLSHandler.handle_config_changed_tls_updates. rewrite result_bind_ok.
  intros (o1 & _ & (o2 & Ho2 & Hr)%result_bind_ok).
  assert (H2' : ClusterState.tls_rotate (state o2) = false).
  { destruct (ClusterState.tls_rotate (state o1)) eqn:Er; [|by injection Ho2 as <-].
    unfold update_state in Ho2. apply result_bind_ok in Ho2 as (s & Hs & [= <-]).
    by apply set_tls_rotate_reset in Hs. }
  unfold update_state in Hr. apply result_bind_ok in Hr as (s & Hs & [= <-]).
  change (state (with_state s o2)) with s. rewrite <- H2'. apply rotate_own.
  unfold ClusterState.set_peer_cluster_tls_rotate in Hs. destruct (negb _); [by injection Hs as <-|].
  apply result_bind_ok in Hs as (s1 & H1'%kraft_cluster_update_own & [= <-]).
  by rewrite cluster_update_own.
Qed.

Lemma update_cluster_own f o o' : BrokerOperator.update_cluster f o = Ok o' → own (state o') = own (state o).
Proof.
  unfold BrokerOperator.update_cluster. rewrite result_bind_ok. intros ([d|] & _ & [= <-]); [|done].
  apply set_peer_data_own.
Qed.
Lemma for_all_own {A} (f : A → operator D S → result (operator D S)) l o o' :
  (∀ x o o', f x o = Ok o' → own (state o') = own (state o)) →
  BrokerOperator.for_all f l o = Ok o' → own (state o') = own (state o).
Proof.
  intros Hf. revert o. induction l as [|x l IH]; intros o; cbn [BrokerOperator.for_all]; [by intros [= <-]|].
  rewrite result_bind_ok. intros (o1 & Ho1%Hf & Hl%IH). congruence.
Qed.
Lemma update_brokers_state_own k o o' :
  BrokerOperator.update_brokers_state k o = Ok o' → own (state o') = own (state o).
Proof.
  unfold BrokerOperator.update_brokers_state. destruct (negb _); [by intros [= <-]|].
  rewrite result_bind_ok. intros (o1 & Ha & Hr). apply result_bind_ok in Hr as (snapshot & _ & Hr).
  apply result_bind_ok in Hr as (quorum & _ & Hr). apply for_all_own in Hr; [apply for_all_own in Ha; [congruence|]|].
  - intros b o2 o3. unfold BrokerOperator.add_broker. rewrite result_bind_ok. intros (st & _ & Hb).
    destruct (negb _); [by injection Hb as <-|]. apply result_bind_ok in Hb as (id & _ & Hb).
    by apply update_cluster_own in Hb.
  - intros i o2 o3. unfold BrokerOperator.remove_broker. rewrite result_bind_ok. intros (act & _ & Hb).
    destruct (bool_decide _); [by injection Hb as <-|by apply update_cluster_own in Hb].
Qed.
Lemma reconcile_autobalance_state k o o' : BrokerOperator.reconcile_autobalance k o = Ok o' → state o' = state o.
Proof.
  unfold BrokerOperator.reconcile_autobalance. destruct (negb _); [by intros [= <-]|].
  rewrite result_bind_ok. intros (departing & _ & [= <-]). generalize (elements departing). intros l.
  revert o. induction l as [|i l IH]; intros o; [done|]. cbn [foldl]. by rewrite IH.
Qed.

(** C16: a rotation ends with the restart it asked for: after a configuration
    change that asked for a restart, the unit has no rotation pending, so the
    rotation does not ask for another one. *)
Theorem rotation_done k is_storage o o' :
  BrokerOperator.on_config_changed k is_storage o = Ok o' → restarts o' ≠ restarts o →
  ClusterState.tls_rotate (state o') = false.
Proof.
  unfold BrokerOperator.on_config_changed. destruct (refresh_not_ready k); [by intros [= <-]|].
  rewrite result_bind_ok. intros ([ok o1] & Hh & Hr) Hne.
  destruct (healthy_reason o ok o1 Hh) as [(-> & -> & _)|(-> & Ho1 & _)]; cbn [negb] in Hr.
  2:{ injection Hr as <-. done. }
  destruct (Workload.read _ _) as [|line lines]; [by injection Hr as <-|].
  apply result_bind_ok in Hr as (missing & Hm & Hr). apply result_bind_ok in Hr as (o0 & H0' & Hr).
  apply result_bind_ok in Hr as (o0' & H0'' & Hr). apply result_bind_ok in Hr as ([go o1] & Hrot & Hr).
  destruct go; cbn [negb] in Hr.
  2:{ injection Hr as <-. destruct Hne. apply (rotated_restarts k o false). by exists missing, o0, o0'. }
  apply result_bind_ok in Hr as (o2 & _ & Hr). apply result_bind_ok in Hr as (o3 & _ & Hr).
  apply result_bind_ok in Hr as (o4 & H4'%tls_updates_reset & Hr).
  apply result_bind_ok in Hr as (o5 & H5'%update_brokers_state_own%rotate_own & Hr).
  apply reconcile_autobalance_state in Hr. by rewrite Hr, H5', H4'.
Qed.
End rotation_done.

(** A controller that is ready and runs with an old properties file, while it
    has new certificates; the brokers trust some, at first none. *)
Definition remote_brokers (trust : list string) : PeerCluster.remote_app :=
  PeerCluster.mkRemote true
    (λ k, dict_get k [("cluster-uuid", "uuid"); ("secret-broker", "secret:broker"); ("trust", dumps_list trust)])
    (λ _, Some {[ "broker-username" := "operator"; "broker-password" := "pw" ]}) (λ _ _, ∅).
Definition rotating_controller (trust : list string) : operator bag machine :=
  let s := mkState "controller" 50000 None "kafka/0" true
    (Some (mkPeerData {[ "controller-password" := "ctl-pw" ]}
      {[ "truststore-password" := "password"; "peer-certificate" := "CERT"; "peer-ca-cert" := "CA";
         "peer-private-key" := "KEY"; "peer-rotation" := "true" ]} []))
    [] (Some (mkAppRelation (remote_brokers trust) [] ({[ "broker-ca" := dumps_list ["C"] ]} : bag))) None
    None [] None false [] 1 (mkK8sView (λ _, Ok "10.0.0.1") (λ _, Ok 31000) (λ _, Ok 31001)) in
  let o := charm_in s (∅, ∅) in
  with_container (mkContainer true {[ CharmedKafkaPaths.server_properties BROKER_ROLE := "old=1" ]}
    (plan (workload o)) (running (workload o))) o.
Definition waiting_controller : operator bag machine := rotating_controller [].
Definition trusted_controller : operator bag machine :=
  rotating_controller ["ABABABABABABABABABABABABABABABABABABABABABABABABABABABABABABABAB"].

Lemma config_changed_restart_witness :
  ∃ o', BrokerOperator.on_config_changed sample_hook false waiting_controller = Ok o' ∧
    deferred o' = true ∧ ∃ go o1, rotated sample_hook waiting_controller go o1 ∧ go && restart_needed o1 = false.
Proof.
  assert (Hl : match BrokerOperator.on_config_changed sample_hook false waiting_controller with
               Ok o' => (deferred o', restarts o') | Err _ => (false, []) end = (true, [])) by (vm_compute; reflexivity).
  destruct (BrokerOperator.on_config_changed sample_hook false waiting_controller) as [o'|e] eqn:E; [|discriminate Hl].
  injection Hl as Hd Hl. exists o'. split; [reflexivity|]. split; [exact Hd|].
  destruct (config_changed_restart sample_hook false waiting_controller o' E)
    as [[_ [Hw|[Hw|[Hw|Hw]]]]|(_ & _ & _ & go & o1 & Hrot & Hr)].
  - discriminate Hw.
  - exfalso. apply Hw. vm_compute. reflexivity.
  - vm_compute in Hw. discriminate Hw.
  - vm_compute in Hw. discriminate Hw.
  - exists go, o1. split; [exact Hrot|]. rewrite Hl in Hr.
    destruct (go && restart_needed o1); [discriminate Hr|reflexivity].
Defined.

(** The same controller once its certificates are in use. *)
Definition settled_controller : operator bag machine :=
  with_state (ClusterState.set_unit_data (rd_del "peer-rotation") (state waiting_controller)) waiting_controller.


Lemma rotation_done_witness :
  ClusterState.tls_rotate (state trusted_controller) = true ∧
  match BrokerOperator.on_config_changed sample_hook false trusted_controller with
  | Ok o' => ClusterState.tls_rotate (state o') = false
  | Err _ => False
  end.
Proof.
  assert (Hl : match BrokerOperator.on_config_changed sample_hook false trusted_controller with
               Ok o' => restarts o' | Err _ => [] end = [AcquireLock None]) by (vm_compute; reflexivity).
  split; [vm_compute; reflexivity|].
  destruct (BrokerOperator.on_config_changed sample_hook false trusted_controller) as [o'|] eqn:E; [|discriminate Hl].
  apply (rotation_done sample_hook false trusted_controller o' E). rewrite Hl. discriminate.
Defined.
