(* ===== verification/BrokerFacts.v ===== *)
(** * Facts about the broker

    The recording of brokers refines an abstract map of capacities; the
    handlers of the hooks start the service, emit rebalances and touch the
    state only as they should. *)

From S2P Require Import Prelude PyStr PyDict Json Literals Models ModelsFacts K8s Cluster ClusterFacts Workload Auth AuthFacts Config Controller Balancer Tls Operator Sample TlsHandler Provider ProviderFacts Broker.
Import Operator BrokerOperator.

Local Open Scope string_scope.
Local Open Scope Z_scope.

(** ** The abstract map of capacities *)

Module Capacities.
(** The capacity of each broker, by its id. *)
Abbreviation capacities := (gmap Z json).

(** A broker's capacity is recorded unless it is the one known. *)
Definition record (bandwidth : Z) (m : capacities) (b : KafkaCluster.broker_info) : capacities :=
  let capacity := KafkaCluster.capacity_of bandwidth b in
  if json_eqb capacity (default (JObj []) (m !! KafkaCluster.info_broker_id b)) then m
  else <[KafkaCluster.info_broker_id b := capacity]> m.
(** Only the brokers of a set are kept. *)
Definition keep (brokers : gset Z) (m : capacities) : capacities := filter (λ kv, kv.1 ∈ brokers) m.

(** The brokers known are recorded, those gone are forgotten. *)
Definition refresh (bandwidth : Z) (infos : list KafkaCluster.broker_info) (present : gset Z) (m : capacities)
    : capacities := keep present (foldl (record bandwidth) m infos).
End Capacities.
Import Capacities.

(** A dictionary as a map. *)
Definition dict_map (s : list (Z * json)) : capacities := list_to_map s.

Lemma dict_map_lookup s i : dict_map s !! i = dict_get i s.
Proof.
  induction s as [|[k v] s IH]; [done|].
  change (dict_map ((k, v) :: s)) with (<[k := v]> (dict_map s)). cbn [dict_get].
  case_decide; [subst; by rewrite lookup_insert_eq|by rewrite lookup_insert_ne].
Qed.

Section snapshot.
Context {D : Type} `{RelationDataLaws D} {S : Type}.
Implicit Types o : operator D S.

(** What a broker tells of itself, when it tells both its processors and its
    storages. *)
Definition info_of (b : KafkaBroker.broker D) : result (option KafkaCluster.broker_info) :=
  storages ← KafkaBroker.storages b;
  if negb (all_true [truthy (KafkaBroker.cores b); json_truthy storages]) then Ok None
  else
    id ← KafkaBroker.broker_id b;
    Ok (Some (KafkaCluster.mkBrokerInfo (KafkaBroker.cores b) storages id)).

(** The data of the application holds the map as its snapshot. *)
Definition holds (m : capacities) o : Prop :=
  ∃ d s, ClusterState.cluster (state o) = Some d ∧
    KafkaCluster.broker_capacities_snapshot (Some d) = Ok s ∧ snapshot_plain s ∧ m = dict_map s.

(** What an update of the application's data leaves alone. *)
Definition same_unit_state o o' : Prop :=
  network_bandwidth (state o') = network_bandwidth (state o) ∧
  ClusterState.active_brokers_on_relation (state o') = ClusterState.active_brokers_on_relation (state o).
#[local] Instance same_unit_state_trans : Transitive same_unit_state.
Proof. intros o1 o2 o3 [? ?] [? ?]. split; congruence. Qed.

Lemma update_cluster_kept f o o' : update_cluster f o = Ok o' → same_unit_state o o'.
Proof.
  unfold update_cluster. rewrite result_bind_ok. intros (w & _ & [= <-]).
  destruct w as [d|]; [|done]. split; [done|].
  unfold ClusterState.active_brokers_on_relation, ClusterState.runs_broker, ClusterState.brokers,
    ClusterState.peer_units_data_interfaces, ClusterState.unit_broker. cbn.
  by destruct (peer_relation (state o)).
Qed.

Lemma update_cluster_data f o d d' :
  ClusterState.cluster (state o) = Some d → f (Some d) = Ok (Some d') →
  ∃ o', update_cluster f o = Ok o' ∧ ClusterState.cluster (state o') = Some d'.
Proof.
  intros Hd Hf. unfold update_cluster. rewrite Hd, Hf. cbn [mbind result_bind]. eexists. split; [done|].
  unfold ClusterState.cluster in *. cbn. by destruct (peer_relation (state o)).
Qed.

(** Writing a snapshot. *)
Lemma snapshot_holds s' d o :
  snapshot_plain s' → ClusterState.cluster (state o) = Some d →
  ∀ f, f (Some d) = Ok (KafkaCluster.update [(KafkaCluster.SNAPSHOT_KEY, KafkaCluster.dump_snapshot s')] (Some d)) →
  ∃ o', update_cluster f o = Ok o' ∧ holds (dict_map s') o'.
Proof.
  intros Hs Hd f Hf. pose proof (snapshot_written s' d Hs) as Hw. cbn [KafkaCluster.update] in Hf, Hw.
  destruct (update_cluster_data f o d _ Hd Hf) as (o' & Ho' & Hd'). exists o'. split; [done|].
  eexists _, s'. split_and!; done.
Qed.

Lemma add_broker_refines b o m info :
  holds m o → info_of b = Ok info →
  (∀ i, info = Some i → plain (KafkaCluster.storages i) = true) →
  ∃ o', add_broker b o = Ok o' ∧ same_unit_state o o' ∧
    holds (match info with Some i => record (network_bandwidth (state o)) m i | None => m end) o'.
Proof.
  intros (d & s & Hd & Hs & Hp & ->) Hinfo Hplain. unfold info_of in Hinfo. unfold add_broker.
  destruct (KafkaBroker.storages b) as [st|]; [|done]. cbn [mbind result_bind] in *.
  destruct (negb _) eqn:Hg.
  { injection Hinfo as <-. exists o. split; [done|]. split; [done|]. by exists d, s. }
  destruct (KafkaBroker.broker_id b) as [id|]; [|done]. cbn [mbind result_bind] in *. injection Hinfo as <-.
  set (i := KafkaCluster.mkBrokerInfo (KafkaBroker.cores b) st id) in *.
  set (cap := KafkaCluster.capacity_of (network_bandwidth (state o)) i).
  enough (Hex : ∃ o', update_cluster (KafkaCluster.add_broker (network_bandwidth (state o)) i) o = Ok o' ∧
      holds (record (network_bandwidth (state o)) (dict_map s) i) o').
  { destruct Hex as (o' & Ho' & Hh). exists o'. split; [done|]. split; [by eapply update_cluster_kept|done]. }
  assert (Hadd : KafkaCluster.add_broker (network_bandwidth (state o)) i (Some d) =
    if json_eqb cap (dict_get_or id (JObj []) s) then Ok (Some d)
    else Ok (KafkaCluster.update
      [(KafkaCluster.SNAPSHOT_KEY, KafkaCluster.dump_snapshot (dict_set id cap s))] (Some d))).
  { unfold KafkaCluster.add_broker. cbn [KafkaCluster.cores KafkaCluster.storages i]. by rewrite Hg, Hs. }
  unfold record. cbn [KafkaCluster.info_broker_id i]. rewrite dict_map_lookup. fold cap.
  change (default (JObj []) (dict_get id s)) with (dict_get_or id (JObj []) s).
  destruct (json_eqb cap _).
  - destruct (update_cluster_data _ o d d Hd Hadd) as (o' & Ho' & Hd'). exists o'. split; [done|]. by exists d, s.
  - assert (Hps : snapshot_plain (dict_set id cap s)) by (apply snapshot_set; [done|by apply capacity_plain, Hplain]).
    destruct (snapshot_holds _ d o Hps Hd _ Hadd) as (o' & Ho' & Hh). exists o'. split; [done|].
    replace (<[id:=cap]> (dict_map s)) with (dict_map (dict_set id cap s)); [done|].
    apply map_eq. intros j. rewrite dict_map_lookup, dict_get_set.
    destruct (decide (j = id)) as [->|]; [by rewrite lookup_insert_eq|].
    by rewrite lookup_insert_ne, dict_map_lookup.
Qed.

(** The brokers one after the other. *)
Lemma add_brokers_refine bs o m infos :
  holds m o → traverse info_of bs = Ok infos →
  Forall (λ i, plain (KafkaCluster.storages i) = true) (omap id infos) →
  ∃ o', for_all add_broker bs o = Ok o' ∧ same_unit_state o o' ∧
    holds (foldl (record (network_bandwidth (state o))) m (omap id infos)) o'.
Proof.
  revert o m infos. induction bs as [|b bs IH]; intros o m infos Hm Hi Hp.
  { injection Hi as <-. exists o. by split_and!. }
  cbn [traverse] in Hi. apply result_bind_ok in Hi as (info & Hb & Hi).
  apply result_bind_ok in Hi as (rest & Hrest & [= <-]).
  destruct (add_broker_refines b o m info Hm Hb) as (o1 & Ho1 & Hsame & Hh).
  { intros i ->. by apply Forall_cons in Hp as [Hp _]. }
  destruct (IH o1 _ rest Hh Hrest) as (o2 & Ho2 & Hsame2 & Hh2).
  { destruct info; [by apply Forall_cons in Hp as [_ Hp]|done]. }
  exists o2. cbn [for_all]. rewrite Ho1. cbn [mbind result_bind]. split; [done|].
  split; [by etrans|]. destruct Hsame as [E _]. rewrite E in Hh2. by destruct info.
Qed.

Lemma remove_broker_refines i o m active :
  holds m o → ClusterState.active_brokers_on_relation (state o) = Ok active →
  ∃ o', remove_broker i o = Ok o' ∧ same_unit_state o o' ∧
    holds (if bool_decide (i ∈ active) then m else delete i m) o'.
Proof.
  intros (d & s & Hd & Hs & Hp & ->) Ha. unfold remove_broker. rewrite Ha. cbn [mbind result_bind].
  destruct (bool_decide (i ∈ active)); [exists o; split_and!; [done|done|by exists d, s]|].
  enough (Hex : ∃ o', update_cluster (KafkaCluster.remove_broker i) o = Ok o' ∧ holds (delete i (dict_map s)) o').
  { destruct Hex as (o' & Ho' & Hh). exists o'. split; [done|]. split; [by eapply update_cluster_kept|done]. }
  assert (Hrem : KafkaCluster.remove_broker i (Some d) =
    if negb (dict_mem i s) then Ok (Some d)
    else Ok (KafkaCluster.update [(KafkaCluster.SNAPSHOT_KEY, KafkaCluster.dump_snapshot (dict_del i s))] (Some d))).
  { unfold KafkaCluster.remove_broker. by rewrite Hs. }
  destruct (dict_mem i s) eqn:Hmem; cbn [negb] in Hrem.
  - destruct (snapshot_holds _ d o (snapshot_del i s Hp) Hd _ Hrem) as (o' & Ho' & Hh). exists o'. split; [done|].
    replace (delete i (dict_map s)) with (dict_map (dict_del i s)); [done|].
    apply map_eq. intros j. rewrite dict_map_lookup, dict_get_del.
    destruct (decide (j = i)) as [->|]; [by rewrite lookup_delete_eq|by rewrite lookup_delete_ne, dict_map_lookup].
  - destruct (update_cluster_data _ o d d Hd Hrem) as (o' & Ho' & Hd'). exists o'. split; [done|].
    replace (delete i (dict_map s)) with (dict_map s); [by exists d, s|].
    symmetry. apply delete_id. rewrite dict_map_lookup.
    destruct (dict_get i s) eqn:E; [|done]. unfold dict_mem in Hmem. by rewrite E in Hmem.
Qed.

Lemma remove_brokers_refine ids o m active :
  holds m o → ClusterState.active_brokers_on_relation (state o) = Ok active →
  ∃ o', for_all remove_broker ids o = Ok o' ∧
    holds (filter (λ kv, kv.1 ∉ ids ∨ kv.1 ∈ active) m) o'.
Proof.
  revert o m. induction ids as [|i ids IH]; intros o m Hm Ha.
  { exists o. split; [done|]. replace (filter _ m) with m; [done|]. symmetry.
    apply map_filter_id. intros j x _. left. apply not_elem_of_nil. }
  destruct (remove_broker_refines i o m active Hm Ha) as (o1 & Ho1 & [_ Ha1] & Hh).
  destruct (IH o1 _ Hh) as (o2 & Ho2 & Hh2); [by rewrite Ha1|].
  exists o2. cbn [for_all]. rewrite Ho1. cbn [mbind result_bind]. split; [done|].
  match goal with H : holds ?a o2 |- holds ?b o2 => replace b with a; [exact H|] end.
  apply map_eq. intros j. apply option_eq. intros x. rewrite !map_lookup_filter_Some. cbn.
  rewrite elem_of_cons. destruct (bool_decide_reflect (i ∈ active)) as [Hi|Hi]; destruct (decide (j = i)) as [->|Hj];
    rewrite ?lookup_delete_eq, ?lookup_delete_ne by done; naive_solver.
Qed.

(** C17: on the leader of the brokers, updating the state of the brokers
    implements the abstract update of the capacities: every broker that tells
    its processors and storages is recorded, and those that are neither online
    nor on the relation are forgotten. *)
Theorem update_brokers_state_refines k o m infos quorum_status active :
  is_leader (state o) = true → ClusterState.runs_broker (state o) = true → holds m o →
  traverse info_of (ClusterState.brokers (state o)) = Ok infos →
  Forall (λ i, plain (KafkaCluster.storages i) = true) (omap id infos) →
  quorum k = Ok quorum_status → ClusterState.active_brokers_on_relation (state o) = Ok active →
  ∃ o', update_brokers_state k o = Ok o' ∧
    holds (Capacities.refresh (network_bandwidth (state o)) (omap id infos)
             (ControllerManager.online_brokers quorum_status ∪ active) m) o'.
Proof.
  intros Hl Hb Hm Hi Hp Hq Ha. unfold update_brokers_state. rewrite Hl, Hb. cbn [all_true forallb andb negb].
  destruct (add_brokers_refine _ o m infos Hm Hi Hp) as (o1 & -> & [_ Ha1] & Hh). cbn [mbind result_bind].
  pose proof Hh as (d & s & Hd & Hs & _ & Hm1). rewrite Hd, Hs, Hq. cbn [mbind result_bind].
  destruct (remove_brokers_refine
    (elements (list_to_set (dict_keys s) ∖ ControllerManager.online_brokers quorum_status)) o1 _ active Hh)
    as (o2 & -> & Hh2); [by rewrite Ha1|].
  exists o2. split; [done|]. unfold refresh, keep.
  match goal with H : holds ?a o2 |- holds ?b o2 => replace b with a; [exact H|] end.
  apply map_eq. intros j. apply option_eq. intros x. rewrite !map_lookup_filter_Some. cbn.
  apply and_iff_compat_l_weak. intros Hx.
  rewrite elem_of_elements, elem_of_difference, elem_of_list_to_set, elem_of_union.
  assert (Hj : j ∈ dict_keys s) by (apply dict_get_is_Some; rewrite <- dict_map_lookup, <- Hm1; by eexists).
  destruct (decide (j ∈ ControllerManager.online_brokers quorum_status)); naive_solver.
Qed.
End snapshot.

(** ** Rebalances *)

Section hooks.
Context {D : Type} `{RelationData D} {S : Type}.
Implicit Types o : operator D S.

Lemma emit_all {A} (f : A → emission) l o :
  emitted (foldl (λ o x, emit (f x) o) o l) = (emitted o ++ (f <$> l))%list.
Proof.
  revert o. induction l as [|x l IH]; intros o; [by rewrite app_nil_r|].
  cbn [foldl]. rewrite IH. cbn. by rewrite <- app_assoc.
Qed.

(** The leader of an application that runs the balancer asks for exactly
    one removal of each broker that is online without being on the relation,
    and another unit asks for nothing. *)
Theorem reconcile_autobalance_spec k o quorum_status active :
  quorum k = Ok quorum_status → ClusterState.active_brokers_on_relation (state o) = Ok active →
  ∃ ids, reconcile_autobalance k o = Ok (foldl (λ o i, emit (Rebalance (RebalanceEvent.mkEvent "remove" (Some i))) o) o ids) ∧
    NoDup ids ∧
    ∀ i, i ∈ ids ↔ ClusterState.runs_balancer (state o) = true ∧ is_leader (state o) = true ∧
      i ∈ ControllerManager.online_brokers quorum_status ∧ i ∉ active.
Proof.
  intros Hq Ha. unfold reconcile_autobalance.
  destruct (ClusterState.runs_balancer (state o)), (is_leader (state o)); cbn [all_true forallb andb negb];
    try (exists []; split; [done|]; split; [constructor|]; intros i; split; [by intros ?%not_elem_of_nil|by intros (?&?&_)]).
  unfold departing_brokers. rewrite Hq, Ha. cbn [mbind result_bind].
  destruct (bool_decide_reflect (ControllerManager.online_brokers quorum_status = ∅)) as [He|He]; cbn [mbind result_bind].
  - exists []. rewrite He. split; [done|]. split; [constructor|]. set_solver.
  - unfold ControllerManager.departing_brokers. rewrite decide_False by done.
    eexists. split; [done|]. split; [apply NoDup_elements|]. intros i.
    rewrite elem_of_elements, elem_of_difference. naive_solver.
Qed.
End hooks.

(** ** A broker that was removed, and one that joined *)

Definition quorum_of (ids : list Z) : list (Z * KRaftQuorumInfo) :=
  (λ i, (i, mkKRaftQuorumInfo "dir" 0 OBSERVER)) <$> ids.
Definition hook_with (ids : list Z) : hook :=
  mkHook (Some false) (Ok true) (Ok true) [] "10.0.0.1" "kafka-0" [] [] 2 1 (λ u, "pw-" ++ u)
    (λ _ ca _ name _, mkSelfSigned ca "csr" name "key") (Ok (quorum_of ids))
    (λ _, mkClientView true true "salt" None None [] "10.0.0.1") "4" (Ok "{}")
    (K8sManager.mkManager "kafka-0" "model") (mkPod "uid" [] (Some "node")) (λ _, 31000) (λ _, Ok ())
    (λ _, Ok "") None ("CA", "CA KEY") [].
Definition scaled_state : cluster_state bag :=
  mkState "broker,balancer" 50000 None "kafka/0" true
    (Some (mkPeerData
       {[ KafkaCluster.SNAPSHOT_KEY := KafkaCluster.dump_snapshot [(107, JObj [])] ]}
       {[ "cores" := "4"; "storages" := dumps (JObj [("/data", JStr "100")]) ]} []))
    [] None None None [] None false ["/data"] 1 (mkK8sView (λ _, Ok "") (λ _, Ok 0) (λ _, Ok 0)).
Definition joined : KafkaCluster.broker_info :=
  KafkaCluster.mkBrokerInfo "4" (JObj [("/data", JStr "100")]) 100.

Lemma update_brokers_state_refines_witness :
  ∃ o', update_brokers_state (hook_with [100; 3]) (charm_in scaled_state (∅, ∅)) = Ok o' ∧
    ∃ m, holds m o' ∧ dom m = {[100]}.
Proof.
  destruct (update_brokers_state_refines (hook_with [100; 3]) (charm_in scaled_state (∅, ∅))
    {[107 := JObj []]} [Some joined] (quorum_of [100; 3]) {[100]}) as (o' & Ho' & Hh).
  - reflexivity.
  - reflexivity.
  - eexists _, [(107, JObj [])]. split; [reflexivity|]. split; [vm_compute; reflexivity|].
    split; [|reflexivity]. split; [|by repeat constructor]. unfold dict_wf. cbn. apply NoDup_singleton.
  - vm_compute. reflexivity.
  - by repeat constructor.
  - reflexivity.
  - vm_compute. reflexivity.
  - exists o'. split; [exact Ho'|]. eexists. split; [exact Hh|]. apply (bool_decide_unpack _). vm_compute. exact I.
Defined.

Lemma reconcile_autobalance_spec_witness :
  ∃ ids, 107 ∈ ids ∧ (100 ∉ ids) ∧
    reconcile_autobalance (hook_with [100; 107]) (charm_in scaled_state (∅, ∅)) =
    Ok (foldl (λ o i, emit (Rebalance (RebalanceEvent.mkEvent "remove" (Some i))) o)
          (charm_in scaled_state (∅, ∅)) ids).
Proof.
  destruct (reconcile_autobalance_spec (hook_with [100; 107]) (charm_in scaled_state (∅, ∅))
    (quorum_of [100; 107]) {[100]}) as (ids & Hr & _ & Hin).
  - reflexivity.
  - vm_compute. reflexivity.
  - exists ids. split; [|split; [|exact Hr]].
    + apply Hin. split; [reflexivity|]. split; [reflexivity|].
      split; apply (bool_decide_unpack _); vm_compute; exact I.
    + intros (_ & _ & _ & Hn)%Hin. apply Hn. by apply elem_of_singleton.
Defined.
