(* ===== verification/Charm.v ===== *)
(** * The charm (charm.py, events/refresh.py)

    [KafkaCharm]: the status of the unit, the rolling restart, the change of
    roles and the coordination of a refresh; and the checks of a refresh. *)

From S2P Require Import Prelude PyStr PyDict Json Literals Models Cluster Workload Auth Config Controller Balancer Tls Operator TlsHandler Provider Broker.
Import Operator.

Local Open Scope string_scope.
Local Open Scope Z_scope.

(** ** Versions *)

(** The integers of a version, or [None] when one of the components is not an
    integer or there are fewer than two of them. *)
Definition version_of (version : string) : option (Z * Z) :=
  match traverse py_int (split_char "." version) with
  | Ok (major :: minor :: _) => Some (major, minor)
  | _ => None
  end.

Definition is_workload_compatible (old_workload_version new_workload_version : string) : bool :=
  match version_of old_workload_version, version_of new_workload_version with
  | Some (old_major, old_minor), Some (new_major, new_minor) =>
      if negb (old_major =? new_major) then false
      else if negb (old_minor <=? new_minor) then false
      else true
  | _, _ => false
  end.

Module KafkaRefresh.
Section refresh.
Context {D : Type} `{RelationData D} {S : Type} `{Host S} `{X509}.
Implicit Types o : operator D S.

(** [charm_compatible] is the answer of the refresh library for the charm's
    own versions. *)
Definition is_compatible (charm_compatible : bool) (old_workload_version new_workload_version : string) : bool :=
  if negb charm_compatible then false
  else is_workload_compatible old_workload_version new_workload_version.

(** Files and certificates of the broker, before its service is started. *)
Definition write_all (k : hook) o : result (operator D S) :=
  o ← update_manager ConfigManager.set_environment o;
  o ← update_manager ConfigManager.set_server_properties o;
  o ← update_manager ConfigManager.set_client_properties o;
  update_host (TLSManager.configure (broker_tls k o)) o.

Definition start_broker o : operator D S :=
  with_container (Workload.start KafkaWorkload.layer (workload o)) o.
Definition restart_broker o : operator D S :=
  with_container (Workload.restart KafkaWorkload.layer (workload o)) o.

(** [ready_to_start] is a member of the enumeration of statuses, which is
    always true. *)
Definition status_truthy (st : Status) : bool := true.

Definition precheck_after_1_unit (k : hook) o : result (operator D S) :=
  let s := state o in
  if ClusterState.runs_balancer s && negb (ClusterState.runs_broker s) && negb (ClusterState.runs_controller s)
  then Err (PrecheckFailed "Refresh not supported on balancer-only nodes.")
  else
    st ← ClusterState.ready_to_start s;
    o ← (if status_truthy st then o ← write_all k o; Ok (restart_broker o) else Ok o);
    '(ok, o) ← healthy o;
    if negb ok then Err (PrecheckFailed "Cluster is not healthy") else Ok o.

(** [patch] is the answer of the Kubernetes API. *)
Definition set_rolling_update_partition (patch : Z → result ()) (partition : Z) o : result (operator D S) :=
  match patch partition with
  | Ok _ => Ok (emit (PatchPartition partition) o)
  | Err (ApiError code msg) => Err (PyException "Kubernetes StatefulSet patch failed")
  | Err e => Err e
  end.

Definition run_pre_refresh_checks_after_1_unit_refreshed (patch : Z → result ()) (k : hook) o
    : result (operator D S) :=
  o ← precheck_after_1_unit k o;
  if is_leader (state o)
  then set_rolling_update_partition patch (Z.of_nat (length (ClusterState.brokers (state o))) - 1) o
  else Ok o.
End refresh.
End KafkaRefresh.
Import KafkaRefresh.

(** ** The charm *)

Module KafkaCharm.
Section charm.
Context {D : Type} `{RelationData D} {S : Type} `{Host S} `{X509} `{KafkaTools S}.
Implicit Types o : operator D S.

Definition balancer_active o : bool := Workload.active BalancerWorkload.service (workload o).

Definition on_roles_changed o : operator D S :=
  let o := if negb (ClusterState.runs_broker (state o) || ClusterState.runs_controller (state o)) && active o
           then with_container (Workload.stop KafkaWorkload.service (workload o)) o else o in
  if negb (ClusterState.runs_balancer (state o)) && is_leader (state o) && balancer_active o
  then with_container (Workload.stop BalancerWorkload.service (workload o)) o else o.

(** [attempts] are the attempts of the health check. *)
Definition restart (attempts : list (result bool)) (k : hook) o : result (operator D S) :=
  '(ok, o) ← healthy o;
  if negb ok then Ok (defer o)
  else
    let o := restart_broker o in
    _ ← KafkaBroker.internal_address (ClusterState.unit_broker (state o));
    if negb (KafkaWorkload.health_check attempts) then Ok (defer o)
    else
      o ← BrokerOperator.update_credentials_cache k o;
      update_peer_truststore_state k true o.

(** The methods of the charm that a request for the lock names, with whether
    they defer the event: the manager is created with [_restart_broker], and the
    charm has no method of the other name that [handle_configuration_updates]
    gives. The charm comes with what the hook tells it. *)
Definition charm_in_hook : Type := list (result bool) * hook * operator D S.
Definition run_restart (c : charm_in_hook) : result (bool * charm_in_hook) :=
  let '(attempts, k, o) := c in
  o ← restart attempts k (mkOperator (manager o) (host o) (statuses o) (emitted o) false (certs_updated o));
  Ok (deferred o, (attempts, k, o)).
Definition method (name : string) : option (charm_in_hook → result (bool * charm_in_hook)) :=
  if (name =? "_restart_broker")%string then Some run_restart else None.

(** What the refresh library shows, before and after the charm's own statuses. *)
Record refresh_statuses := mkRefreshStatuses {
  higher_priority : option string; lower_priority : bool → option string }.

(** The status of the unit: a text of the refresh library, statuses of the
    charm, or active. *)
Inductive unit_status := FromRefresh (message : string) | FromCharm (statuses : list Status) | ActiveStatus.

Definition determine_unit_status (refresh : option refresh_statuses) (k : hook) o : result unit_status :=
  match (r ← refresh; higher_priority r) with
  | Some message => Ok (FromRefresh message)
  | None =>
      departing ← (if ClusterState.runs_broker (state o) && ClusterState.runs_balancer (state o)
                   then BrokerOperator.departing_brokers k o else Ok ∅);
      if negb (bool_decide (departing = ∅)) then Ok (FromCharm [SCALING_WARNING])
      else
        current_status ← ClusterState.ready_to_start (state o);
        match filter (λ st, st ≠ ACTIVE) (statuses o ++ [current_status])%list with
        | (_ :: _) as charm_statuses => Ok (FromCharm charm_statuses)
        | [] =>
            match (r ← refresh; lower_priority r (active o)) with
            | Some message => Ok (FromRefresh message)
            | None => Ok ActiveStatus
            end
        end
  end.

Definition is_workload_healthy o : result (bool * operator D S) :=
  if negb (active o) then Ok (false, o)
  else if ClusterState.runs_broker (state o) || ClusterState.runs_controller (state o) then healthy o
  else Ok (true, o).

(** What the refresh library allows. *)
Record coordination := mkCoordination {
  workload_allowed_to_start : bool; next_unit_allowed_to_refresh : bool }.

(** Whether the next unit may be refreshed after the hook. *)
Definition handle_refresh_coordination (c : coordination) (k : hook) o : result (bool * operator D S) :=
  let next := next_unit_allowed_to_refresh c in
  if bool_decide (refresh_in_progress k = None) || negb (Workload.container_can_connect (workload o))
  then Ok (next, o)
  else if negb (default false (refresh_in_progress k)) || negb (workload_allowed_to_start c)
  then Ok (next, o)
  else if next then Ok (next, o)
  else
    o ← write_all k o;
    is_workload_healthy (start_broker o).
End charm.
End KafkaCharm.
