(* ===== verification/PeerClusterHandler.v ===== *)
(** * Peer clusters and user-defined secrets (events/peer_cluster.py, events/secrets.py)

    [PeerClusterEventsHandler] publishes what each application of a peer
    cluster tells the other; [SecretsHandler] reads the passwords and the
    private key that the user gives as secrets. *)

From S2P Require Import Prelude PyStr PyDict Json Literals Models Cluster Workload Auth Config Controller Tls Operator TlsHandler Provider Broker.
Import Operator.

Local Open Scope string_scope.
Local Open Scope Z_scope.

Module PeerClusterEventsHandler.
Section handler.
Context {D : Type} `{RelationData D} {S : Type}.
Implicit Types o : operator D S.

(** The field in which the library looks for the secrets asked for. *)
Definition REQ_SECRET_FIELDS : string := "requested-secrets".

(** The secrets of every role the application has. *)
Definition requested_secrets_of (s : cluster_state D) : gset string :=
  (if ClusterState.runs_balancer s then list_to_set (requested_secrets BALANCER_ROLE) else ∅) ∪
  (if ClusterState.runs_controller s then list_to_set (requested_secrets CONTROLLER_ROLE) else ∅) ∪
  (if ClusterState.runs_broker s then list_to_set (requested_secrets BROKER_ROLE) else ∅).

Definition on_peer_cluster_created o : result (operator D S) :=
  if negb (is_leader (state o)) then Ok o
  else
    p ← ClusterState.peer_cluster (state o);
    match PeerCluster.relation p, ClusterState.peer_cluster_data (state o) with
    | Some _, Some d =>
        let d := rd_set REQ_SECRET_FIELDS (dumps_list (elements (requested_secrets_of (state o)))) d in
        let d := rd_set "roles" (roles (state o)) d in
        Ok (with_state (ClusterState.set_peer_cluster_data (Some d) (state o)) o)
    | _, _ => Ok (defer o)
    end.

Definition controller_items (s : cluster_state D) (p : PeerCluster.peer_cluster) : list (string * string) :=
  ((if ClusterState.runs_balancer s then
      [("balancer-username", PeerCluster.balancer_username p);
       ("balancer-password", PeerCluster.balancer_password p);
       ("balancer-uris", PeerCluster.balancer_uris p)] else []) ++
   [("controller-password", PeerCluster.controller_password p);
    ("bootstrap-controller", PeerCluster.bootstrap_controller p);
    ("bootstrap-unit-id", PeerCluster.bootstrap_unit_id p);
    ("bootstrap-replica-id", PeerCluster.bootstrap_replica_id p)])%list.

(** What the controllers and the balancer tell the other application: the
    chain of trust, then their data. *)
Definition publish_controller_items o : result (operator D S) :=
  o ← BrokerOperator.publish_ca o;
  p ← ClusterState.peer_cluster (state o);
  peer_cluster_update (controller_items (state o) p) o.

(** [registered] is the charm after [_default_relation_changed], which lets the
    library register the labels of the secrets that the other application
    added. *)
Definition on_peer_cluster_changed (registered : operator D S → operator D S) o : result (operator D S) :=
  if negb (is_leader (state o)) then Ok o
  else
    p ← ClusterState.peer_cluster (state o);
    if negb (truthy (PeerCluster.roles p)) then Ok o
    else
      o ← publish_controller_items (registered o);
      Ok (emit ConfigChanged o).

(** The event may be an update of the status, which does not emit a change of
    configuration. *)
Definition on_peer_cluster_orchestrator_changed (registered : operator D S → operator D S)
    (is_update_status : bool) o : result (operator D S) :=
  if negb (is_leader (state o)) then Ok o
  else if negb (ClusterState.runs_broker (state o)) then Ok o
  else
    p ← ClusterState.peer_cluster (state o);
    if negb (any_true ((λ role, contains (role_value role) (PeerCluster.roles p))
                         <$> [BALANCER_ROLE; CONTROLLER_ROLE]))
    then Ok o
    else
      o ← BrokerOperator.publish_broker_items (registered o);
      Ok (if (is_update_status : bool) then o else emit ConfigChanged o).

(** The handler of a broken relation, which no observer runs: [locations] are
    those of the data storages. *)
Definition on_peer_cluster_broken (locations : list string) o : operator D S :=
  if ClusterState.runs_controller (state o) then o
  else
    let o := with_container (Workload.stop KafkaWorkload.service (workload o)) o in
    if ClusterState.runs_broker (state o) then
      let o := foldl (λ o location, emit (Run (ControllerManager.Exec
        ["rm"; location ++ "/meta.properties"; location ++ "/__cluster_metadata-0/quorum-state"])) o)
        o locations in
      if is_leader (state o) then
        foldl (λ o username, cluster_update [(username ++ "-password", "")] o) o
          (dict_keys (KafkaCluster.internal_user_credentials (ClusterState.cluster (state o))))
      else o
    else o.
End handler.
End PeerClusterEventsHandler.

Module SecretsHandler.
Section secrets.
Context {D : Type} `{RelationData D} {S : Type} `{Host S} `{X509} `{KafkaTools S}.
Implicit Types o : operator D S.

(** [get_secret id] is the content of a secret, or [None] when it cannot be
    read. *)
Definition load_tls_private_key_secret (get_secret : string → option (list (string * string)))
    (tls_private_key : option string) o : result (option string) :=
  if negb (truthy_opt tls_private_key) then Ok None
  else match get_secret (default "" tls_private_key) with
       | None => Ok None
       | Some secret_content =>
           let pod_name := KafkaBroker.pod_name (ClusterState.unit_broker (state o)) in
           let key := dict_get_or pod_name "" secret_content in
           if negb (truthy key) then Err (KeyError "Missing tls-private-key secret key") else Ok (Some key)
       end.

Definition load_auth_secret (get_secret : string → option (list (string * string)))
    (system_users : option string) : list (string * string) :=
  if negb (truthy_opt system_users) then []
  else match get_secret (default "" system_users) with
       | None => []
       | Some secret_content => filter (λ kv, kv.1 ∈ INTERNAL_USERS) secret_content
       end.

(** The users whose password is not the one the cluster's data holds. *)
Definition changed_users (credentials : list (string * string)) (s : cluster_state D) : gset string :=
  let saved_state := KafkaCluster.internal_user_credentials (ClusterState.cluster s) in
  list_to_set (omap (M := list) (λ '(u, _),
    if bool_decide (dict_get u credentials = dict_get u saved_state) then None else Some u) credentials).

Definition store_passwords (credentials : list (string * string)) (changed : list string) o : operator D S :=
  foldl (λ o u, cluster_update [(u ++ "-password", dict_get_or u "" credentials)] o) o changed.

(** The users are altered one after the other; the first failure ends the
    loop. *)
Fixpoint alter_users (credentials : list (string * string)) (changed : list string) o
    : bool * operator D S :=
  match changed with
  | [] => (true, o)
  | u :: changed =>
      match KafkaProvider.with_auth (λ m, add_user m u (dict_get_or u "" credentials)) o with
      | Ok o => alter_users credentials changed o
      | Err _ => (false, o)
      end
  end.

Definition update_system_users (k : hook) (credentials : list (string * string)) o : result (operator D S) :=
  match credentials with
  | [] => Ok o
  | _ =>
      '(ok, o) ← healthy o;
      if negb (all_true [negb (refresh_not_ready k); ok; Workload.container_can_connect (workload o)])
      then Ok (defer o)
      else
        let changed := elements (changed_users credentials (state o)) in
        match changed with
        | [] => Ok o
        | _ =>
            up ← KafkaProvider.ping k o;
            if negb up then Ok (defer o)
            else
              let '(altered, o) := alter_users credentials changed (store_passwords credentials changed o) in
              Ok (if altered then emit ConfigChanged o else o)
        end
  end.

Definition on_secret_changed (b64decode : string → result string)
    (get_secret : string → option (list (string * string))) (tls_private_key system_users : option string)
    (k : hook) o : result (operator D S) :=
  key ← load_tls_private_key_secret get_secret tls_private_key o;
  o ← TLSHandler.set_tls_private_key b64decode key o;
  if negb (is_leader (state o)) then Ok o
  else update_system_users k (load_auth_secret get_secret system_users) o.
End secrets.
End SecretsHandler.

(** ** The action on listeners (events/actions.py) *)

Module ActionEvents.
Section actions.
Context {D : Type} `{RelationData D} {S : Type}.
Implicit Types o : operator D S.

Record listener_info := mkListenerInfo {
  name : string; scope : Scope; port : Z; protocol : AuthProtocol; auth_mechanism : AuthMechanism;
  advertised_listener : string }.

Definition describe (l : Listener.listener) : result (string * listener_info) :=
  port ← Listener.port l;
  advertised ← Listener.advertised_listener l;
  Ok (str_lower (replace_char "_" "-" (Listener.name l)),
      mkListenerInfo (Listener.name l) (Listener.scope l) port
        (Literals.protocol (Listener.auth_map l)) (Literals.mechanism (Listener.auth_map l)) advertised).
Definition get_listeners o : result (list (string * listener_info)) :=
  listeners ← ConfigManager.all_listeners (manager o);
  entries ← traverse describe listeners;
  Ok (dict_of_list entries).
End actions.
End ActionEvents.
