(* ===== verification/Handshake.v ===== *)
(** * Two applications of a peer cluster

    What an application publishes on the relation between the applications
    (PeerClusterHandler.v, Broker.v) against what the other one reads there
    (Models.v, Cluster.v). [delivers] states what the data interfaces library
    and Juju carry from one side to the other, which PeerClusterLink.v proves of
    the library; what the brokers and the controllers then know of each other is what the other
    side published, and is enough for both to start. *)

From S2P Require Import Prelude PyStr PyDict Json Literals Models ModelsFacts Cluster ClusterFacts Workload Config Operator Broker PeerClusterHandler Sample.
Import Operator.

Local Open Scope string_scope.
Local Open Scope Z_scope.

(** A field that is written to the data bag as it is. *)
Definition plain_field (k : string) : bool :=
  negb (startswith PeerCluster.PROV_SECRET_PREFIX k) && bool_decide (dict_get k SECRET_LABEL_MAP = None).

Section link.
Context {D : Type} `{RelationDataLaws D} {S : Type}.
Implicit Types o : operator D S.
Implicit Types s : cluster_state D.

(** The relation as the receiver sees it, once it has the data [d] of the
    sender: the plain fields are the sender's, in the remote application and -
    but for those in [own], which the receiver wrote itself - in the merged
    view; a field of a labelled group is in the secret of the group, whose URI
    is the group's field. *)
Record delivers (own : list string) (d : D) (r : app_relation D) : Prop := mkDelivers {
  delivers_app : PeerCluster.has_app (ar_remote r) = true;
  delivers_plain k : plain_field k = true → PeerCluster.relation_field (ar_remote r) k = rd_get k d;
  delivers_view k : plain_field k = true → k ∉ own → rd_get k (ar_data r) = rd_get k d;
  delivers_secret k group v : dict_get k SECRET_LABEL_MAP = Some group → rd_get k d = Some v →
    ∃ uri content, PeerCluster.relation_field (ar_remote r) (PeerCluster.PROV_SECRET_PREFIX ++ group) = Some uri ∧
      uri ≠ "" ∧ PeerCluster.get_secret (ar_remote r) uri = Some content ∧ content !! k = Some v }.

Lemma fetch_delivered own d r p k group v :
  delivers own d r → PeerCluster.relation p = Some (ar_remote r) →
  dict_get k SECRET_LABEL_MAP = Some group → rd_get k d = Some v →
  PeerCluster.fetch_from_secrets p group k = v.
Proof.
  intros Hd Hp Hk Hv. destruct (delivers_secret _ _ _ Hd _ _ _ Hk Hv) as (uri & content & Hf & Hu & Hs & Hc).
  unfold PeerCluster.fetch_from_secrets. rewrite Hp, Hf, (proj2 (truthy_true uri) Hu), Hs. by rewrite Hc.
Qed.

(** ** What publishing leaves in the shared data *)

Lemma peer_cluster_set_data x s :
  ClusterState.peer_cluster (ClusterState.set_peer_cluster_data x s) = ClusterState.peer_cluster s.
Proof.
  unfold ClusterState.peer_cluster, ClusterState.peer_cluster_orchestrator, ClusterState.set_peer_cluster_data.
  cbv zeta. change (ClusterState.runs_broker (mkState _ _ _ _ _ _ _ _ _ _ _ _ _ _ _ _))
    with (ClusterState.runs_broker s).
  destruct (ClusterState.runs_broker s) eqn:Eb; cbn;
    [destruct (peer_cluster_orchestrator_relation s), x|destruct (peer_cluster_relation s), x]; done.
Qed.

Lemma peer_cluster_data_set d s :
  is_Some (ClusterState.peer_cluster_data s) →
  ClusterState.peer_cluster_data (ClusterState.set_peer_cluster_data (Some d) s) = Some d.
Proof.
  unfold ClusterState.peer_cluster_data, ClusterState.set_peer_cluster_data. cbv zeta.
  change (ClusterState.runs_broker (mkState _ _ _ _ _ _ _ _ _ _ _ _ _ _ _ _)) with (ClusterState.runs_broker s).
  destruct (ClusterState.runs_broker s); cbn; rewrite fmap_is_Some; by intros [? ->].
Qed.

(** The field an application publishes its chain of trust in, and the one it
    reads the other's from. *)
Definition own_ca_field s : string := if ClusterState.runs_broker s then "broker-ca" else "controller-ca".
Definition other_ca_field s : string := if ClusterState.runs_broker s then "controller-ca" else "broker-ca".

(** The application has one of the two roles. *)
Definition one_role s : Prop :=
  ClusterState.runs_broker_only s = true ∨ ClusterState.runs_controller_only s = true.

Lemma one_role_negb s : one_role s → ClusterState.runs_controller s = negb (ClusterState.runs_broker s).
Proof.
  unfold one_role, ClusterState.runs_broker_only, ClusterState.runs_controller_only.
  by destruct (ClusterState.runs_broker s), (ClusterState.runs_controller s); intros [].
Qed.

Lemma kraft_data s : one_role s → ClusterState.kraft_cluster_data s = ClusterState.peer_cluster_data s.
Proof. intros H1%one_role_negb. unfold ClusterState.kraft_cluster_data. rewrite H1. by destruct (ClusterState.runs_broker s). Qed.

(** Publishing the chain of trust changes the shared data only. *)
Lemma publish_ca_spec o d o' :
  one_role (state o) → ClusterState.peer_cluster_data (state o) = Some d →
  BrokerOperator.publish_ca o = Ok o' →
  ∃ bundle d', TLSState.bundle PEER_SCOPE (unit_data o) = Ok bundle ∧
    o' = with_state (ClusterState.set_peer_cluster_data (Some d') (state o)) o ∧
    rd_get (own_ca_field (state o)) d' = Some (dumps_list bundle).
Proof.
  intros H1 Hd. unfold BrokerOperator.publish_ca. rewrite result_bind_ok. intros (bundle & Hb & Hu).
  unfold update_state in Hu. apply result_bind_ok in Hu as (s' & Hs & [= <-]).
  assert (Hput : ClusterState.kraft_cluster_update [(own_ca_field (state o), dumps_list bundle)] (state o) = Ok s').
  { rewrite <- Hs. unfold ClusterState.set_peer_cluster_ca, own_ca_field, ClusterState.runs_broker_only,
      ClusterState.runs_controller_only. rewrite (one_role_negb _ H1). by destruct (ClusterState.runs_broker (state o)). }
  unfold ClusterState.kraft_cluster_update in Hput. rewrite (one_role_negb _ H1), andb_negb_r, Hd in Hput.
  destruct (update_single (own_ca_field (state o)) (dumps_list bundle) d) as (d' & Hd' & Hg & _).
  rewrite Hd' in Hput. injection Hput as <-. by exists bundle, d'.
Qed.

(** Then the items are added to it. *)
Lemma peer_cluster_update_spec items o o' d :
  dict_wf items → ClusterState.peer_cluster_data (state o) = Some d →
  peer_cluster_update items o = Ok o' →
  ∃ d', ClusterState.peer_cluster_data (state o') = Some d' ∧
    ∀ k, rd_get k d' = match dict_get k items with
                       | Some v => if truthy v then Some v else None
                       | None => rd_get k d
                       end.
Proof.
  intros Hwf Hd. unfold peer_cluster_update, update_state. rewrite Hd.
  destruct (update_reads items d Hwf) as (d' & -> & Hg). intros [= <-].
  exists d'. split; [|done]. apply peer_cluster_data_set. by rewrite Hd.
Qed.

Lemma super_users_set_data x s :
  ClusterState.runs_broker s = true →
  ClusterState.super_users (ClusterState.set_peer_cluster_data x s) = ClusterState.super_users s.
Proof.
  intros Hb. unfold ClusterState.super_users, ClusterState.runs_controller_only.
  change (ClusterState.runs_broker (ClusterState.set_peer_cluster_data x s)) with (ClusterState.runs_broker s).
  rewrite Hb, !andb_false_r. done.
Qed.

Lemma publish_broker_items_spec o o' d0 :
  ClusterState.runs_broker_only (state o) = true → ClusterState.peer_cluster_data (state o) = Some d0 →
  BrokerOperator.publish_broker_items o = Ok o' →
  ∃ bundle p items d, TLSState.bundle PEER_SCOPE (unit_data o) = Ok bundle ∧
    ClusterState.peer_cluster (state o) = Ok p ∧
    BrokerOperator.broker_items (state o) p = Ok items ∧
    ClusterState.peer_cluster_data (state o') = Some d ∧
    rd_get "broker-ca" d = Some (dumps_list bundle) ∧
    ∀ k v, dict_get k items = Some v → rd_get k d = if truthy v then Some v else None.
Proof.
  intros Hr Hd. pose proof Hr as [Hb _]%andb_true_iff. unfold BrokerOperator.publish_broker_items.
  rewrite result_bind_ok. intros (o1 & Hca & Hu).
  destruct (publish_ca_spec o d0 o1 (or_introl Hr) Hd Hca) as (bundle & d1 & Hbu & -> & Hg).
  apply result_bind_ok in Hu as (p & Hp & (items & Hi & Hu)%result_bind_ok).
  change (state (with_state ?s o)) with s in Hp, Hi. rewrite peer_cluster_set_data in Hp.
  unfold BrokerOperator.broker_items in Hi. rewrite super_users_set_data in Hi by done.
  change (roles (ClusterState.set_peer_cluster_data _ (state o))) with (roles (state o)) in Hi.
  change (BrokerOperator.broker_items (state o) p = Ok items) in Hi.
  assert (Hwf : dict_wf items ∧ dict_get "broker-ca" items = None).
  { unfold BrokerOperator.broker_items in Hi.
    apply result_bind_ok in Hi as (r & _ & (c & _ & (u & _ & [= <-])%result_bind_ok)%result_bind_ok).
    split; [|reflexivity]. apply (bool_decide_eq_true_1 (NoDup (dict_keys _))). vm_compute. reflexivity. }
  destruct Hwf as [Hwf Hno].
  destruct (peer_cluster_update_spec items
    (with_state (ClusterState.set_peer_cluster_data (Some d1) (state o)) o) o' d1 Hwf
    (peer_cluster_data_set d1 (state o) ltac:(by rewrite Hd)) Hu) as (d & Hd' & Hget).
  exists bundle, p, items, d. split_and!; try done.
  - rewrite Hget, Hno. unfold own_ca_field in Hg. by rewrite Hb in Hg.
  - intros k v Hk. by rewrite Hget, Hk.
Qed.

Lemma publish_controller_items_spec o o' d0 :
  ClusterState.runs_controller_only (state o) = true → ClusterState.peer_cluster_data (state o) = Some d0 →
  PeerClusterEventsHandler.publish_controller_items o = Ok o' →
  ∃ bundle p d, TLSState.bundle PEER_SCOPE (unit_data o) = Ok bundle ∧
    ClusterState.peer_cluster (state o) = Ok p ∧
    ClusterState.peer_cluster_data (state o') = Some d ∧
    rd_get "controller-ca" d = Some (dumps_list bundle) ∧
    ∀ k v, dict_get k (PeerClusterEventsHandler.controller_items (state o) p) = Some v →
      rd_get k d = if truthy v then Some v else None.
Proof.
  intros Hr Hd. pose proof Hr as [_ Hb%negb_true_iff]%andb_true_iff.
  unfold PeerClusterEventsHandler.publish_controller_items.
  rewrite result_bind_ok. intros (o1 & Hca & Hu).
  destruct (publish_ca_spec o d0 o1 (or_intror Hr) Hd Hca) as (bundle & d1 & Hbu & -> & Hg).
  apply result_bind_ok in Hu as (p & Hp & Hu).
  change (state (with_state ?s o)) with s in Hp, Hu. rewrite peer_cluster_set_data in Hp.
  change (PeerClusterEventsHandler.controller_items (ClusterState.set_peer_cluster_data _ (state o)) p)
    with (PeerClusterEventsHandler.controller_items (state o) p) in Hu.
  set (items := PeerClusterEventsHandler.controller_items (state o) p) in *.
  assert (Hwf : dict_wf items ∧ dict_get "controller-ca" items = None).
  { unfold items, PeerClusterEventsHandler.controller_items. destruct (ClusterState.runs_balancer (state o));
      (split; [apply (bool_decide_eq_true_1 (NoDup (dict_keys _))); vm_compute; reflexivity|reflexivity]). }
  destruct Hwf as [Hwf Hno].
  destruct (peer_cluster_update_spec items
    (with_state (ClusterState.set_peer_cluster_data (Some d1) (state o)) o) o' d1 Hwf
    (peer_cluster_data_set d1 (state o) ltac:(by rewrite Hd)) Hu) as (d & Hd' & Hget).
  exists bundle, p, d. split_and!; try done.
  - rewrite Hget, Hno. unfold own_ca_field in Hg. by rewrite Hb in Hg.
  - intros k v Hk. fold items in Hk. by rewrite Hget, Hk.
Qed.

(** ** What the other application reads *)

Lemma ca_delivered own d r s bundle :
  one_role s → ClusterState.peer_cluster_data s = Some (ar_data r) →
  delivers own d r → other_ca_field s ∉ own →
  rd_get (other_ca_field s) d = Some (dumps_list bundle) →
  ClusterState.peer_cluster_ca s = Ok bundle.
Proof.
  intros H1 Hs Hd Hown Hg. assert (Hp : plain_field (other_ca_field s) = true)
    by (unfold other_ca_field; by destruct (ClusterState.runs_broker s)).
  assert (Hv : ∃ v, loads (data_get_or (other_ca_field s) "null" (ClusterState.kraft_cluster_data s)) = Ok v ∧
    json_str_list v = Ok bundle).
  { exists (JList (JStr <$> bundle)). rewrite kraft_data by done. unfold data_get_or, data_get. rewrite Hs.
    cbn [mbind option_bind]. rewrite (delivers_view _ _ _ Hd _ Hp Hown), Hg. cbn [default].
    split; [apply loads_dumps_list|apply json_str_list_strs]. }
  destruct Hv as (v & Hl & Hj). unfold ClusterState.peer_cluster_ca, other_ca_field in *.
  unfold ClusterState.runs_broker_only, ClusterState.runs_controller_only. rewrite (one_role_negb _ H1).
  destruct (ClusterState.runs_broker s); cbn [negb andb]; rewrite Hl; exact Hj.
Qed.

(** A plain field read with an empty default. *)
Lemma plain_delivered own d r k v :
  delivers own d r → plain_field k = true → rd_get k d = (if truthy v then Some v else None) →
  opt_or (PeerCluster.relation_field (ar_remote r) k) "" = v.
Proof.
  intros Hd Hp Hg. rewrite (delivers_plain _ _ _ Hd k Hp), Hg. unfold opt_or.
  destruct (truthy v) eqn:Ev; [unfold str_or; by rewrite Ev|]. by apply truthy_false in Ev.
Qed.

Lemma capacities_delivered own d r (c : json) p :
  delivers own d r → PeerCluster.relation p = Some (ar_remote r) → PeerCluster.p_broker_capacities p = JObj [] →
  plain c = true → rd_get "broker-capacities" d = (if truthy (dumps c) then Some (dumps c) else None) →
  PeerCluster.broker_capacities p = Ok c.
Proof.
  intros Hd Hp Hown Hc Hg. unfold PeerCluster.broker_capacities. rewrite Hown, Hp. cbn [json_truthy].
  rewrite (delivers_plain _ _ _ Hd) by done. rewrite Hg.
  assert (Ht : truthy (dumps c) = true).
  { apply truthy_true. intros E. pose proof (loads_dumps c Hc) as Hl. by rewrite E in Hl. }
  rewrite Ht. unfold opt_or, str_or. rewrite Ht. by apply loads_dumps.
Qed.

Lemma racks_delivered own d r n p :
  delivers own d r → PeerCluster.relation p = Some (ar_remote r) → PeerCluster.p_racks p = 0 →
  rd_get "racks" d = (if truthy (str_of_Z n) then Some (str_of_Z n) else None) →
  PeerCluster.racks p = Ok n.
Proof.
  intros Hd Hp Hown Hg. unfold PeerCluster.racks. rewrite Hown, Hp.
  rewrite (delivers_plain _ _ _ Hd) by done. rewrite Hg.
  assert (Ht : truthy (str_of_Z n) = true).
  { apply truthy_true. intros E. pose proof (py_int_str n) as Hl. by rewrite E in Hl. }
  rewrite Ht. cbn. rewrite Ht. apply py_int_str.
Qed.

(** The values a controllers' application sees the brokers with are all the
    relation's. *)
Lemma controllers_peer_cluster s r :
  ClusterState.runs_controller_only s = true → peer_cluster_relation s = Some r →
  ∃ q, ClusterState.peer_cluster s = Ok q ∧ PeerCluster.relation q = Some (ar_remote r) ∧
    PeerCluster.p_broker_username q = "" ∧ PeerCluster.p_broker_password q = "" ∧
    PeerCluster.p_cluster_uuid q = "" ∧ PeerCluster.p_racks q = 0 ∧ PeerCluster.p_broker_capacities q = JObj [] ∧
    PeerCluster.p_controller_password q = KafkaCluster.controller_password (ClusterState.cluster s) ∧
    PeerCluster.p_bootstrap_controller q = KafkaCluster.bootstrap_controller (ClusterState.cluster s).
Proof.
  intros [Hc Hb%negb_true_iff]%andb_true_iff Hr.
  exists (ClusterState.peer_cluster_orchestrator s).
  unfold ClusterState.peer_cluster. rewrite Hb. split; [done|].
  unfold ClusterState.peer_cluster_orchestrator. rewrite Hc, Hr.
  by destruct (ClusterState.runs_balancer s).
Qed.

Lemma controllers_data s r :
  ClusterState.runs_controller_only s = true → peer_cluster_relation s = Some r →
  ClusterState.peer_cluster_data s = Some (ar_data r).
Proof. intros [_ Hb%negb_true_iff]%andb_true_iff Hr. unfold ClusterState.peer_cluster_data. by rewrite Hb, Hr. Qed.

Lemma controllers_fields s :
  ClusterState.runs_controller_only s = true →
  one_role s ∧ other_ca_field s = "broker-ca" ∧ own_ca_field s = "controller-ca".
Proof.
  intros Hs. split; [by right|]. apply andb_true_iff in Hs as [_ Hb%negb_true_iff].
  unfold other_ca_field, own_ca_field. by rewrite Hb.
Qed.

(** The brokers' own view of themselves. *)
Lemma brokers_peer_cluster s p :
  ClusterState.runs_broker_only s = true → ClusterState.peer_cluster s = Ok p →
  PeerCluster.relation p = ar_remote <$> peer_cluster_orchestrator_relation s ∧
  PeerCluster.broker_username p = ADMIN_USER ∧
  PeerCluster.p_broker_password p =
    dict_get_or ADMIN_USER "" (KafkaCluster.internal_user_credentials (ClusterState.cluster s)) ∧
  PeerCluster.p_cluster_uuid p = KafkaCluster.cluster_uuid (ClusterState.cluster s).
Proof.
  intros [Hb Hc%negb_true_iff]%andb_true_iff. unfold ClusterState.peer_cluster. rewrite Hb, Hc.
  intros (uris & _ & (caps & _ & [= <-])%result_bind_ok)%result_bind_ok.
  by destruct (ClusterState.runs_balancer s).
Qed.

(** C31: what the brokers publish is what the controllers' application reads:
    once the relation has carried it, its view of the brokers has their user,
    their password, the identifier of the cluster, the racks and the
    capacities, and its super users and trusted chain are those of the
    brokers. *)
Theorem brokers_data_delivered o o' d0 s own r :
  ClusterState.runs_broker_only (state o) = true → ClusterState.peer_cluster_data (state o) = Some d0 →
  BrokerOperator.publish_broker_items o = Ok o' →
  ClusterState.runs_controller_only s = true → peer_cluster_relation s = Some r →
  (∀ d, ClusterState.peer_cluster_data (state o') = Some d → delivers own d r) →
  "broker-ca" ∉ own → "super-users" ∉ own →
  ∃ p q, ClusterState.peer_cluster (state o) = Ok p ∧ ClusterState.peer_cluster s = Ok q ∧
    PeerCluster.roles q = roles (state o) ∧ PeerCluster.broker_username q = ADMIN_USER ∧
    (PeerCluster.broker_password p ≠ "" → PeerCluster.broker_password q = PeerCluster.broker_password p) ∧
    PeerCluster.cluster_uuid q = PeerCluster.cluster_uuid p ∧ PeerCluster.racks q = PeerCluster.racks p ∧
    (∀ c, PeerCluster.broker_capacities p = Ok c → plain c = true → PeerCluster.broker_capacities q = Ok c) ∧
    ClusterState.super_users s = ClusterState.super_users (state o) ∧
    ClusterState.peer_cluster_ca s = TLSState.bundle PEER_SCOPE (unit_data o).
Proof.
  intros Hr Hd0 Hpub Hs Hrel Hdel Hown1 Hown2.
  destruct (publish_broker_items_spec o o' d0 Hr Hd0 Hpub) as (bundle & p & items & d & Hb & Hp & Hi & Hd & Hca & Hg).
  specialize (Hdel d Hd). destruct (controllers_peer_cluster s r Hs Hrel) as (q & Hq & Hqr & Hu & Hpw & Huuid & Hra & Hcap & _).
  exists p, q. split; [done|]. split; [done|].
  unfold BrokerOperator.broker_items in Hi.
  apply result_bind_ok in Hi as (n & Hn & (c & Hc & (su & Hsu & [= <-])%result_bind_ok)%result_bind_ok).
  assert (Hbu : PeerCluster.broker_username p = ADMIN_USER) by (by eapply brokers_peer_cluster).
  rewrite Hbu in Hg. split_and!.
  - unfold PeerCluster.roles. rewrite Hqr. apply (plain_delivered own d r _ _ Hdel); [done|by apply Hg].
  - unfold PeerCluster.broker_username, PeerCluster.own_or. rewrite Hu, Hqr, (delivers_app _ _ _ Hdel).
    apply (fetch_delivered own d r q _ _ _ Hdel Hqr); [done|by rewrite (Hg "broker-username" _ eq_refl)].
  - intros Hne%truthy_true. unfold PeerCluster.broker_password at 1, PeerCluster.own_or.
    rewrite Hpw, Hqr, (delivers_app _ _ _ Hdel). apply (fetch_delivered own d r q _ _ _ Hdel Hqr); [done|].
    rewrite (Hg "broker-password" _ eq_refl). by rewrite Hne.
  - unfold PeerCluster.cluster_uuid at 1, PeerCluster.own_or. rewrite Huuid, Hqr, (delivers_app _ _ _ Hdel).
    apply (plain_delivered own d r _ _ Hdel); [done|by apply Hg].
  - rewrite Hn. apply (racks_delivered own d r n q Hdel Hqr Hra). by apply Hg.
  - intros c' Hc' Hpl. rewrite Hc in Hc'. injection Hc' as <-.
    apply (capacities_delivered own d r c q Hdel Hqr Hcap Hpl). by apply Hg.
  - rewrite Hsu. unfold ClusterState.super_users. rewrite Hs, Hq. cbn [mbind result_bind]. f_equal.
    unfold PeerCluster.super_users. rewrite Hqr, (delivers_app _ _ _ Hdel).
    rewrite (controllers_data s r Hs Hrel). cbn [data_get mbind option_bind].
    rewrite (delivers_view _ _ _ Hdel) by done. rewrite (Hg "super-users" su eq_refl).
    destruct (truthy su) eqn:Esu; [done|]. by apply truthy_false in Esu.
  - rewrite Hb. destruct (controllers_fields s Hs) as (H1 & Hf & _).
    apply (ca_delivered own d r); [done|by apply controllers_data|done|by rewrite Hf|by rewrite Hf].
Qed.

(** A value the application has itself, or that the other has. *)
Lemma own_or_ne own p r f :
  PeerCluster.relation p = Some r → PeerCluster.has_app r = true → f r ≠ "" →
  PeerCluster.own_or own p f ≠ "".
Proof.
  intros Hp Ha Hf. unfold PeerCluster.own_or. destruct (truthy own) eqn:Eo; [by apply truthy_true|].
  by rewrite Hp, Ha.
Qed.
Lemma own_or_own own p f : own ≠ "" → PeerCluster.own_or own p f = own.
Proof. intros Ho%truthy_true. unfold PeerCluster.own_or. by rewrite Ho. Qed.

(** What the controllers publish makes their values known to the brokers. *)
Lemma controllers_data_delivered (c c' : operator D S) d0 s own r q :
  ClusterState.runs_controller_only (state c) = true → ClusterState.peer_cluster_data (state c) = Some d0 →
  PeerClusterEventsHandler.publish_controller_items c = Ok c' →
  KafkaCluster.controller_password (ClusterState.cluster (state c)) ≠ "" →
  KafkaCluster.bootstrap_controller (ClusterState.cluster (state c)) ≠ "" →
  ClusterState.runs_broker_only s = true → peer_cluster_orchestrator_relation s = Some r →
  ClusterState.peer_cluster s = Ok q →
  (∀ d, ClusterState.peer_cluster_data (state c') = Some d → delivers own d r) → "controller-ca" ∉ own →
  PeerCluster.controller_password q ≠ "" ∧ PeerCluster.bootstrap_controller q ≠ "" ∧
  ClusterState.peer_cluster_ca s = TLSState.bundle PEER_SCOPE (unit_data c).
Proof.
  intros Hc Hd0 Hpub Hpw Hbc Hs Hrel Hq Hdel Hown.
  destruct (publish_controller_items_spec c c' d0 Hc Hd0 Hpub) as (bundle & p & d & Hb & Hp & Hd & Hca & Hg).
  specialize (Hdel d Hd).
  assert (Hr : is_Some (peer_cluster_relation (state c))).
  { apply andb_true_iff in Hc as [_ Hnb%negb_true_iff]. unfold ClusterState.peer_cluster_data in Hd0.
    rewrite Hnb in Hd0. by destruct (peer_cluster_relation (state c)). }
  destruct Hr as [rc Hrc]. destruct (controllers_peer_cluster _ rc Hc Hrc) as (p' & Hp' & _ & _ & _ & _ & _ & _ & Hcp & Hbp).
  rewrite Hp in Hp'. injection Hp' as <-.
  assert (Hpp : PeerCluster.controller_password p ≠ "")
    by (unfold PeerCluster.controller_password; by rewrite own_or_own; rewrite Hcp).
  assert (Hpb : PeerCluster.bootstrap_controller p ≠ "")
    by (unfold PeerCluster.bootstrap_controller; by rewrite own_or_own; rewrite Hbp).
  assert (Hget : ∀ k v, dict_get k (PeerClusterEventsHandler.controller_items (state c) p) = Some v → v ≠ "" →
    rd_get k d = Some v) by (intros k v Hk Hv%truthy_true; by rewrite (Hg k v Hk), Hv).
  destruct (brokers_peer_cluster s q Hs Hq) as (Hqr & _). rewrite Hrel in Hqr. cbn in Hqr.
  pose proof (delivers_app _ _ _ Hdel) as Happ. split_and!.
  - apply (own_or_ne _ _ _ _ Hqr Happ). rewrite (fetch_delivered own d r q _ _ (PeerCluster.controller_password p) Hdel Hqr);
      [done|done|]. apply Hget; [|done]. unfold PeerClusterEventsHandler.controller_items. by destruct (ClusterState.runs_balancer (state c)).
  - apply (own_or_ne _ _ _ _ Hqr Happ). rewrite (plain_delivered own d r _ (PeerCluster.bootstrap_controller p) Hdel); [done|done|].
    rewrite (proj2 (truthy_true _) Hpb). apply Hget; [|done]. unfold PeerClusterEventsHandler.controller_items. by destruct (ClusterState.runs_balancer (state c)).
  - rewrite Hb. pose proof Hs as [Hsb _]%andb_true_iff.
    assert (Hf : other_ca_field s = "controller-ca") by (unfold other_ca_field; by rewrite Hsb).
    apply (ca_delivered own d r); [by left| |done|by rewrite Hf|by rewrite Hf].
    unfold ClusterState.peer_cluster_data. by rewrite Hsb, Hrel.
Qed.
End link.

(** ** The handshake *)

Section handshake.
Context {D : Type} `{RelationDataLaws D} {S : Type}.

(** The two leaders when they publish, and two units, one of each application,
    later. *)
Variables brokers brokers' controllers controllers' : operator D S.
Variables broker controller : cluster_state D.
Variables (broker_link controller_link : app_relation D) (broker_own controller_own : list string).

(** Each application has its role and its relation. *)
Hypothesis brokers_role : ClusterState.runs_broker_only (state brokers) = true.
Hypothesis controllers_role : ClusterState.runs_controller_only (state controllers) = true.
Hypothesis brokers_related : is_Some (ClusterState.peer_cluster_data (state brokers)).
Hypothesis controllers_related : is_Some (ClusterState.peer_cluster_data (state controllers)).

(** The brokers have their users and their cluster, the controllers their
    password and their bootstrap controller, and both their certificates. *)
Hypothesis brokers_users : internal_users_ready (ClusterState.cluster (state brokers)).
Hypothesis brokers_uuid : KafkaCluster.cluster_uuid (ClusterState.cluster (state brokers)) ≠ "".
Hypothesis controllers_password :
  KafkaCluster.controller_password (ClusterState.cluster (state controllers)) ≠ "".
Hypothesis controllers_bootstrap :
  KafkaCluster.bootstrap_controller (ClusterState.cluster (state controllers)) ≠ "".
Hypothesis brokers_chain : ∃ ca, TLSState.bundle PEER_SCOPE (unit_data brokers) = Ok ca ∧ ca ≠ [].
Hypothesis controllers_chain : 
  ∃ ca, TLSState.bundle PEER_SCOPE (unit_data controllers) = Ok ca ∧ ca ≠ [].

(** Each leader publishes. *)
Hypothesis brokers_publish : BrokerOperator.publish_broker_items brokers = Ok brokers'.
Hypothesis controllers_publish :
  PeerClusterEventsHandler.publish_controller_items controllers = Ok controllers'.

(** Each unit has the data of its application and what the other published. *)
Hypothesis broker_unit : ClusterState.runs_broker_only broker = true ∧
  ClusterState.cluster broker = ClusterState.cluster (state brokers) ∧
  peer_cluster_orchestrator_relation broker = Some broker_link.
Hypothesis controller_unit : ClusterState.runs_controller_only controller = true ∧
  ClusterState.cluster controller = ClusterState.cluster (state controllers) ∧
  peer_cluster_relation controller = Some controller_link.
Hypothesis to_broker : ∀ d, ClusterState.peer_cluster_data (state controllers') = Some d →
  delivers broker_own d broker_link.
Hypothesis to_controller : ∀ d, ClusterState.peer_cluster_data (state brokers') = Some d →
  delivers controller_own d controller_link.
Hypothesis own_fields :
  ("controller-ca" ∉ broker_own) ∧ ("broker-ca" ∉ controller_own) ∧ ("super-users" ∉ controller_own).

Lemma admin_password_ne (o : option D) :
  internal_users_ready o → dict_get_or ADMIN_USER "" (KafkaCluster.internal_user_credentials o) ≠ "".
Proof.
  intros Hr. pose proof (Hr INTER_BROKER_USER ltac:(apply list_elem_of_here)) as H1.
  pose proof (Hr ADMIN_USER ltac:(apply list_elem_of_further, list_elem_of_here)) as H2.
  unfold KafkaCluster.internal_user_credentials, INTERNAL_USERS. cbn [omap list_omap].
  destruct (data_get (INTER_BROKER_USER ++ "-password") o) as [x|]; [|done].
  destruct (data_get (ADMIN_USER ++ "-password") o) as [y|]; [|done].
  cbn [truthy_opt] in H1, H2. rewrite H1, H2. apply truthy_true in H2. exact H2.
Qed.

End handshake.

(** ** Two applications *)

(** What a remote application is seen to be, once it has published [d]: each
    group has one secret, whose content is all of [d]. *)
Definition remote_of (d : bag) : PeerCluster.remote_app :=
  PeerCluster.mkRemote true
    (λ k, if startswith PeerCluster.PROV_SECRET_PREFIX k then Some ("secret:" ++ k) else d !! k)
    (λ _, Some d) (λ _ _, ∅).
Definition link_of (d : bag) : app_relation bag := mkAppRelation (remote_of d) [] d.

Lemma model_delivers own (d : bag) : delivers own d (link_of d).
Proof.
  split; cbn.
  - done.
  - intros k [Hk%negb_true_iff _]%andb_true_iff. by rewrite Hk.
  - done.
  - intros k group v _ Hv. exists ("secret:secret-" ++ group), d. by destruct group.
Qed.

Definition link_state (role : string) (data : bag) (to_controllers to_brokers : option (app_relation bag))
    : cluster_state bag :=
  mkState role 50000 None "kafka/0" true
    (Some (mkPeerData data {[ "peer-certificate" := "CERT"; "peer-ca-cert" := "CA"; "peer-private-key" := "KEY" ]} []))
    [] to_brokers to_controllers
    None [] None false [] 1 (mkK8sView (λ _, Ok "10.0.0.1") (λ _, Ok 31000) (λ _, Ok 31001)).
Definition brokers_bag : bag :=
  {[ "operator-password" := "op-pw"; "replication-password" := "r-pw"; "cluster-uuid" := "uuid" ]}.
Definition controllers_bag : bag :=
  {[ "controller-password" := "ctl-pw"; "bootstrap-controller" := "kafka-0:9097";
     "bootstrap-unit-id" := "0"; "bootstrap-replica-id" := "replica" ]}.
Definition brokers_before : operator bag machine :=
  charm_in (link_state "broker" brokers_bag (Some (link_of ∅)) None) (∅, ∅).
Definition controllers_before : operator bag machine :=
  charm_in (link_state "controller" controllers_bag None (Some (link_of ∅))) (∅, ∅).

(** The shared data an application leaves, and the units that read it. *)
Definition published (r : result (operator bag machine)) : bag :=
  match r with Ok o => default ∅ (ClusterState.peer_cluster_data (state o)) | Err _ => ∅ end.
Definition broker_after : cluster_state bag := link_state "broker" brokers_bag
  (Some (link_of (published (PeerClusterEventsHandler.publish_controller_items controllers_before)))) None.
Definition controller_after : cluster_state bag := link_state "controller" controllers_bag None
  (Some (link_of (published (BrokerOperator.publish_broker_items brokers_before)))).

Lemma published_delivered own r o' d :
  r = Ok o' → ClusterState.peer_cluster_data (state o') = Some d → delivers own d (link_of (published r)).
Proof. intros -> Hd. unfold published. rewrite Hd. apply model_delivers. Qed.

Lemma publishes (r : result (operator bag machine)) : is_ok r = true → ∃ o', r = Ok o'.
Proof. destruct r as [o'|]; [by exists o'|done]. Qed.


Lemma brokers_data_delivered_witness :
  match ClusterState.peer_cluster controller_after with
  | Ok q => PeerCluster.roles q = "broker" ∧ PeerCluster.cluster_uuid q = "uuid"
  | Err _ => False
  end.
Proof.
  destruct (publishes (BrokerOperator.publish_broker_items brokers_before)) as [b' Hb'];
    [vm_compute; reflexivity|].
  destruct (brokers_data_delivered brokers_before b' ∅ controller_after []
    (link_of (published (BrokerOperator.publish_broker_items brokers_before))))
    as (p & q & Hp & Hq & Hr & _ & _ & Hu & _).
  - vm_compute. reflexivity.
  - reflexivity.
  - exact Hb'.
  - vm_compute. reflexivity.
  - reflexivity.
  - intros d. exact (published_delivered [] _ b' d Hb').
  - apply not_elem_of_nil.
  - apply not_elem_of_nil.
  - rewrite Hq. split; [rewrite Hr; reflexivity|]. rewrite Hu.
    assert (Hpu : match ClusterState.peer_cluster (state brokers_before) with
      Ok p => PeerCluster.cluster_uuid p | Err _ => "" end = "uuid") by (vm_compute; reflexivity).
    rewrite Hp in Hpu. exact Hpu.
Defined.
