(* ===== verification/Mapper.v ===== *)
(** * Principals of certificates (managers/ssl_principal_mapper.py)

    The rules that turn the distinguished name of a certificate into a
    principal: their text is split and parsed as the two fixed regular
    expressions of [SslPrincipalMapper] do, and the first rule that applies
    gives the name. The patterns the user writes inside rules are run by
    Python's engine, an interface here ([Regex]). *)

From S2P Require Import Prelude PyStr.

Local Open Scope string_scope.
Local Open Scope Z_scope.

(** A pattern of the user: whether it compiles, its number of groups, whether
    it matches at the start of a name, and the name with every match replaced by
    a template. *)
Class Regex := {
  re_compiles : string → bool;
  re_groups : string → Z;
  re_match : string → string → bool;
  re_sub : string → string → string → string }.

Module Rule.

(** A rule as it is built; without a pattern it is the default one. *)
Record rule := mkRule {
  pattern : option string; replacement : option string; to_lower_case : bool; to_upper_case : bool }.
Definition default_rule : rule := mkRule None None false false.

(** The reference [pending] collected so far: a dollar and its digits. A number
    of a group becomes a back reference, another one stays as it is. *)
Definition flush (num_capturing_groups : Z) (pending : option string) : string :=
  match pending with
  | None => ""
  | Some digits =>
      match py_int digits with
      | Err _ => "$"
      | Ok group_num =>
          if (1 <=? group_num) && (group_num <=? num_capturing_groups)
          then String (chr 92) (str_of_Z group_num) else "$" ++ str_of_Z group_num
      end
  end.
Fixpoint escape_go (num_capturing_groups : Z) (pending : option string) (unescaped : string) : string :=
  match unescaped with
  | "" => flush num_capturing_groups pending
  | String c unescaped =>
      match pending with
      | Some digits =>
          if is_digit c then escape_go num_capturing_groups (Some (digits ++ String c "")) unescaped
          else flush num_capturing_groups pending ++
               (if (c =? "$")%char then escape_go num_capturing_groups (Some "") unescaped
                else String c (escape_go num_capturing_groups None unescaped))
      | None =>
          if (c =? "$")%char then escape_go num_capturing_groups (Some "") unescaped
          else String c (escape_go num_capturing_groups None unescaped)
      end
  end.
Definition escape_literal_back_references (unescaped : string) (num_capturing_groups : Z) : string :=
  escape_go num_capturing_groups None unescaped.

Section apply.
Context `{Regex}.

(** [None] when the rule does not apply. *)
Definition apply (r : rule) (distinguished_name : string) : option string :=
  match pattern r, replacement r with
  | Some p, Some replacement =>
      if negb (truthy p) then Some distinguished_name
      else if negb (re_match p distinguished_name) then None
      else
        let result := re_sub p (escape_literal_back_references replacement (re_groups p)) distinguished_name in
        Some (if to_lower_case r then str_lower result
              else if to_upper_case r then str_upper result else result)
  | _, _ => Some distinguished_name
  end.
End apply.

(** [__repr__] *)
Definition repr (r : rule) : string :=
  match pattern r with
  | None => "DEFAULT"
  | Some p =>
      "RULE:" ++ p
      ++ match replacement r with Some replacement => "/" ++ replacement | None => "" end
      ++ (if to_lower_case r then "/L" else if to_upper_case r then "/U" else "")
  end.
End Rule.
Import Rule.

Module SslPrincipalMapper.

Definition DEFAULT_SSL_PRINCIPAL_MAPPING_RULES : string := "DEFAULT".

(** The two inner groups of [RULE_PATTERN]: characters other than slashes and backslashes, and any
    character but a line break after a backslash; with what follows. *)
Fixpoint tokens (s : string) : string * string :=
  match s with
  | "" => ("", "")
  | String c rest =>
      if (c =? "/")%char then ("", s)
      else if (c =? chr 92)%char then
        match rest with
        | String d rest' =>
            if (d =? newline)%char then ("", s)
            else let '(t, after) := tokens rest' in (String c (String d t), after)
        | "" => ("", s)
        end
      else let '(t, after) := tokens rest in (String c t, after)
  end.

(** [RULE:(tokens)/(tokens)/([LU]?)], with what follows. *)
Definition slash (s : string) : option string :=
  match s with String c s => if (c =? "/")%char then Some s else None | "" => None end.
Definition rule_here (s : string) : option (string * string * string * string) :=
  if startswith "RULE:" s then
    let '(p, s) := tokens (str_drop 5 s) in
    s ← slash s;
    let '(r, s) := tokens s in
    s ← slash s;
    Some (match s with
          | String c rest =>
              if (c =? "L")%char || (c =? "U")%char then (p, r, String c "", rest) else (p, r, "", s)
          | "" => (p, r, "", "")
          end)
  else None.

(** [\s*(,\s*|$)]: what follows a separator at the start of the text. *)
Definition lstrip (s : string) : string := lstrip_chars is_space s.
Definition separator (s : string) : option string :=
  match lstrip s with
  | "" => Some ""
  | String c s => if (c =? ",")%char then Some (lstrip s) else None
  end.
(** [.*?] up to the first separator: the characters taken and what follows it. *)
Fixpoint lazily (s : string) : option (string * string) :=
  match separator s with
  | Some rest => Some ("", rest)
  | None =>
      match s with
      | "" => None
      | String c s =>
          if (c =? newline)%char then None
          else '(t, rest) ← lazily s; Some (String c t, rest)
      end
  end.

Definition rule_text (p r flag : string) : string := "RULE:" ++ p ++ "/" ++ r ++ "/" ++ flag.

(** A match of [RULE_SPLITTER] at the start of the text: its first group and
    what follows the match. The alternatives are tried in order. *)
Definition rule_match (s : string) : option (string * string) :=
  let s := lstrip s in
  let default_here := if startswith "DEFAULT" s then separator (str_drop 7 s) else None in
  match default_here with
  | Some rest => Some ("DEFAULT", rest)
  | None =>
      match ('(p, r, flag, after) ← rule_here s; '(t, rest) ← lazily after; Some (rule_text p r flag ++ t, rest)) with
      | Some m => Some m
      | None => lazily s
      end
  end.

(** [finditer]: a match, then the next one from where it ends; a match of the
    empty text is the last one. Where nothing matches a character is skipped. *)
Fixpoint find_rules (fuel : nat) (s : string) : list string :=
  match fuel with
  | O => []
  | S fuel =>
      match rule_match s, s with
      | Some (rule, _), "" => [rule]
      | Some (rule, rest), _ => rule :: find_rules fuel rest
      | None, String _ s => find_rules fuel s
      | None, "" => []
      end
  end.
Definition split_rules (ssl_principal_mapping_rules : option string) : list string :=
  let s := str_strip (default DEFAULT_SSL_PRINCIPAL_MAPPING_RULES ssl_principal_mapping_rules) in
  find_rules (S (String.length s)) s.

Section mapper.
Context `{Regex}.

(** The match of [RULE_PARSER]: the rule it makes, if any, and its length. *)
Definition parse_match (rule : string) : option Rule.rule * nat :=
  if startswith "DEFAULT" rule then (Some default_rule, 7%nat)
  else match rule_here rule with
       | Some (p, r, flag, _) =>
           (Some (mkRule (Some p) (Some r) (flag =? "L")%string (flag =? "U")%string),
            String.length (rule_text p r flag))
       | None => (None, 0%nat)
       end.
(** A pattern is compiled when its rule is built, unless it is empty. *)
Definition compile (r : Rule.rule) : result Rule.rule :=
  match pattern r with
  | Some p => if truthy p && negb (re_compiles p) then Err (PyException "re.error") else Ok r
  | None => Ok r
  end.
Fixpoint parse_rules (rules : list string) : result (list Rule.rule) :=
  match rules with
  | [] => Ok []
  | rule :: rules =>
      let '(r, end_) := parse_match rule in
      if negb (String.length rule =? end_)%nat then Err (ValueError "Invalid rule")
      else
        parsed ← (match r with Some r => r ← compile r; Ok [r] | None => Ok [] end);
        others ← parse_rules rules;
        Ok (parsed ++ others)%list
  end.

(** The rules of the mapper. *)
Definition mapper_rules (ssl_principal_mapping_rules : option string) : result (list Rule.rule) :=
  parse_rules (split_rules ssl_principal_mapping_rules).

Fixpoint get_name (rules : list Rule.rule) (distinguished_name : string) : result string :=
  match rules with
  | [] => Err (NoMatchingRuleError "No rules apply")
  | r :: rules =>
      match apply r distinguished_name with
      | Some principal_name => Ok principal_name
      | None => get_name rules distinguished_name
      end
  end.

(** [CharmConfig.ssl_principal_mapping_rules_validator] *)
Definition ssl_principal_mapping_rules_validator (value : string) : result string :=
  _ ← mapper_rules (Some value); Ok value.
End mapper.
End SslPrincipalMapper.

(** ** Round trip *)

Import SslPrincipalMapper.

(** A pattern or a replacement that the text of a rule can hold: every slash
    is escaped, and no backslash is last or before a line break. *)
Fixpoint token_ok (s : string) : bool :=
  match s with
  | "" => true
  | String c rest =>
      if (c =? "/")%char then false
      else if (c =? chr 92)%char then
        match rest with
        | String d rest => negb (d =? newline)%char && token_ok rest
        | "" => false
        end
      else token_ok rest
  end.

Definition flag_of (r : Rule.rule) : string :=
  if to_lower_case r then "L" else if to_upper_case r then "U" else "".
(** The text of a rule in the option of the charm. *)
Definition text (r : Rule.rule) : string :=
  match pattern r, replacement r with
  | Some p, Some q => rule_text p q (flag_of r)
  | _, _ => "DEFAULT"
  end.

Section roundtrip.
Context `{Regex}.

Definition rule_ok (r : Rule.rule) : Prop :=
  match pattern r, replacement r with
  | Some p, Some q =>
      token_ok p = true ∧ token_ok q = true ∧ (truthy p = true → re_compiles p = true) ∧
      to_lower_case r && to_upper_case r = false
  | _, _ => r = default_rule
  end.

Lemma tokens_app p x :
  token_ok p = true → tokens (p ++ String "/" x) = (p, String "/" x).
Proof.
  remember (String.length p) as n eqn:Hn. revert p Hn.
  induction n as [n IH] using lt_wf_ind. intros [|c [|d p]] Hn Hp; [done| |]; cbn in Hp |- *.
  - destruct (c =? "/")%char; [done|]. destruct (c =? chr 92)%char; done.
  - destruct (c =? "/")%char; [done|]. destruct (c =? chr 92)%char.
    + apply andb_true_iff in Hp as [Hd Hp]. apply negb_true_iff in Hd. rewrite Hd.
      rewrite (IH (String.length p)) by (done || (subst; cbn; lia)). done.
    + change (String d (p ++ String "/" x)) with (String d p ++ String "/" x).
      pose proof (IH (String.length (String d p)) ltac:(subst; cbn; lia) (String d p) eq_refl Hp) as E.
      cbn in E |- *. by rewrite E.
Qed.

(** What may follow a rule: nothing, or a comma. *)
Definition ends_rule (rest : string) : Prop := rest = "" ∨ ∃ t, rest = String "," t.

Lemma rule_here_text p q (r : Rule.rule) rest :
  token_ok p = true → token_ok q = true → ends_rule rest →
  rule_here (rule_text p q (flag_of r) ++ rest) = Some (p, q, flag_of r, rest).
Proof.
  intros Hp Hq Hr. unfold rule_text. rewrite !append_assoc. cbn [String.append].
  unfold rule_here, startswith.
  pose proof (prefix_app "RULE:" (p ++ String "/" (q ++ String "/" (flag_of r ++ rest)))) as E.
  cbn [String.append] in E. rewrite E.
  cbn [str_drop]. rewrite tokens_app by done. cbn [slash Ascii.eqb Bool.eqb mbind option_bind].
  rewrite ?append_assoc. cbn [String.append]. rewrite tokens_app by done.
  cbn [slash Ascii.eqb Bool.eqb mbind option_bind].
  unfold flag_of. destruct (to_lower_case r); [done|]. destruct (to_upper_case r); [done|].
  by destruct Hr as [-> |[t ->]].
Qed.

Lemma rule_match_text r rest rest' :
  rule_ok r → ends_rule rest → separator rest = Some rest' → rule_match (text r ++ rest) = Some (text r, rest').
Proof.
  intros Hr Hrest Hs. unfold rule_ok in Hr. unfold text.
  assert (Hdef : rule_match ("DEFAULT" ++ rest) = Some ("DEFAULT", rest')).
  { unfold rule_match. change (lstrip ("DEFAULT" ++ rest)) with ("DEFAULT" ++ rest).
    unfold startswith. rewrite (prefix_app "DEFAULT" rest).
    change (str_drop 7 ("DEFAULT" ++ rest)) with rest. by rewrite Hs. }
  destruct (pattern r) as [p|]; [|done]. destruct (replacement r) as [q|]; [|done].
  destruct Hr as (Hp & Hq & _). unfold rule_match.
  assert (El : lstrip (rule_text p q (flag_of r) ++ rest) = rule_text p q (flag_of r) ++ rest) by done.
  rewrite El, rule_here_text by done. cbn [mbind option_bind].
  assert (Elazy : lazily rest = Some ("", rest')) by (destruct rest; cbn [lazily]; by rewrite Hs).
  rewrite Elazy. cbn. by rewrite append_nil_r.
Qed.

Definition texts (rs : list Rule.rule) : string := str_join ", " (text <$> rs).

Lemma text_head r : ∃ c t, text r = String c t ∧ is_space c = false.
Proof. unfold text, rule_text. destruct (pattern r), (replacement r); cbn; eauto. Qed.

Lemma texts_head r rs : ∃ c t, texts (r :: rs) = String c t ∧ is_space c = false.
Proof.
  destruct (text_head r) as (c & t & E & Hc). unfold texts. rewrite fmap_cons.
  destruct rs; cbn; rewrite E; eauto.
Qed.

Lemma find_rules_texts rs fuel :
  Forall rule_ok rs → (S (String.length (texts rs)) ≤ fuel)%nat →
  find_rules fuel (texts rs) = ((text <$> rs) ++ [""])%list.
Proof.
  intros Hrs. revert fuel. induction Hrs as [|r rs Hr Hrs IH]; intros fuel Hf.
  { destruct fuel; [lia|done]. }
  destruct fuel as [|fuel]; [lia|].
  assert (Hcase : ∃ rest, texts (r :: rs) = text r ++ rest ∧ ends_rule rest ∧ separator rest = Some (texts rs)).
  { destruct rs as [|r' rs]; [exists ""; unfold texts; cbn; rewrite append_nil_r; split_and!; [done|by left|done]|].
    exists (", " ++ texts (r' :: rs)). split_and!; [done|right; by eexists|].
    destruct (texts_head r' rs) as (c & t & -> & Hc).
    transitivity (Some (lstrip (String c t))); [done|]. unfold lstrip. cbn [lstrip_chars]. by rewrite Hc. }
  destruct Hcase as (rest & E & Hends & Hsep). rewrite E in Hf |- *. cbn [find_rules].
  rewrite (rule_match_text r rest (texts rs)) by done.
  destruct (text_head r) as (c & t & Et & _). rewrite Et in *. cbn [String.append fmap list_fmap].
  rewrite Et. cbn [app]. f_equal. apply IH.
  assert (Hle : (String.length (texts rs) ≤ String.length rest)%nat).
  { destruct rs as [|r' rs]; [cbn; lia|]. unfold texts in E. rewrite !fmap_cons in E.
    change (str_join ", " (text r :: text r' :: (text <$> rs)))
      with (text r ++ ", " ++ str_join ", " (text r' :: (text <$> rs))) in E.
    rewrite Et in E. apply append_inj_l in E as <-. unfold texts. rewrite fmap_cons, !append_length. lia. }
  rewrite append_length in Hf. cbn in Hf. lia.
Qed.

(** The last character of a rule is not a space. *)
Lemma text_last r : ∃ t c, text r = t ++ String c "" ∧ is_space c = false.
Proof.
  unfold text, rule_text. destruct (pattern r) as [p|]; [|by exists "DEFAUL", "T"%char].
  destruct (replacement r) as [q|]; [|by exists "DEFAUL", "T"%char].
  unfold flag_of. destruct (to_lower_case r); [|destruct (to_upper_case r)];
    [exists ("RULE:" ++ p ++ "/" ++ q ++ "/"), "L"%char|exists ("RULE:" ++ p ++ "/" ++ q ++ "/"), "U"%char
    |exists ("RULE:" ++ p ++ "/" ++ q), "/"%char];
    (split; [|done]); rewrite !append_assoc; try done.
Qed.

Lemma texts_last r rs : ∃ t c, texts (r :: rs) = t ++ String c "" ∧ is_space c = false.
Proof.
  revert r. induction rs as [|r' rs IH]; intros r; [apply text_last|].
  destruct (IH r') as (t & c & E & Hc). exists (text r ++ ", " ++ t), c. split; [|done].
  unfold texts in *. rewrite !fmap_cons in *.
  change (str_join ", " (text r :: text r' :: (text <$> rs)))
    with (text r ++ ", " ++ str_join ", " (text r' :: (text <$> rs))). by rewrite E, !append_assoc.
Qed.

Lemma rstrip_last s c : is_space c = false → rstrip_chars is_space (s ++ String c "") = s ++ String c "".
Proof.
  intros Hc. induction s as [|d s IH]; cbn [String.append rstrip_chars]; [by rewrite Hc|].
  rewrite IH. by destruct s.
Qed.

Lemma parse_text r rules :
  rule_ok r → parse_rules (text r :: rules) = rs ← parse_rules rules; Ok (r :: rs).
Proof.
  intros Hr. cbn [parse_rules]. unfold rule_ok in Hr. unfold text.
  destruct r as [[p|] [q|] low up]; cbn [pattern replacement to_lower_case to_upper_case] in *;
    try discriminate; [|by injection Hr as -> ->].
  destruct Hr as (Hp & Hq & Hc & Hf). unfold parse_match.
  pose proof (rule_here_text p q (mkRule (Some p) (Some q) low up) "" Hp Hq ltac:(by left)) as E.
  rewrite append_nil_r in E. rewrite E.
  replace (startswith "DEFAULT" _) with false by done. rewrite Nat.eqb_refl. cbn [negb].
  assert (Er : mkRule (Some p) (Some q) (flag_of (mkRule (Some p) (Some q) low up) =? "L")%string
    (flag_of (mkRule (Some p) (Some q) low up) =? "U")%string = mkRule (Some p) (Some q) low up)
    by (destruct low, up; done).
  rewrite Er. unfold compile. cbn [pattern]. destruct (truthy p) eqn:Ep; cbn [andb]; [rewrite Hc by done; done|done].
Qed.

(** C36: rules survive their text: whatever rules are written in the option,
    separated by commas, the mapper is built with exactly those rules in that
    order - provided slashes are escaped in patterns and replacements and
    the patterns compile. *)
Theorem mapper_rules_roundtrip rs :
  rs ≠ [] → Forall rule_ok rs → mapper_rules (Some (texts rs)) = Ok rs.
Proof.
  intros Hne Hrs. unfold mapper_rules, split_rules. cbn [default from_option id].
  assert (Hstrip : str_strip (texts rs) = texts rs).
  { destruct rs as [|r rs]; [done|]. unfold str_strip.
    destruct (texts_last r rs) as (t & c & E & Hc), (texts_head r rs) as (d & u & E' & Hd).
    replace (lstrip_chars is_space (texts (r :: rs))) with (texts (r :: rs))
      by (rewrite E'; cbn [lstrip_chars]; by rewrite Hd).
    rewrite E. by apply rstrip_last. }
  rewrite Hstrip, find_rules_texts by (done || lia). clear Hstrip Hne.
  induction Hrs as [|r rs Hr _ IH]; [done|].
  rewrite fmap_cons. cbn [app]. rewrite parse_text by done. by rewrite IH.
Qed.
End roundtrip.

(** Patterns that compile and match literally. *)
#[local] Instance sample_regex : Regex := {|
  re_compiles p := negb (startswith "[" p); re_groups _ := 1;
  re_match p n := startswith p n; re_sub p t n := str_replace p t n |}.

Lemma mapper_rules_roundtrip_witness :
  mapper_rules (Some "RULE:CN=a, O=x/b\/$1/L, RULE:c/d/, DEFAULT") =
  Ok [mkRule (Some "CN=a, O=x") (Some "b\/$1") true false; mkRule (Some "c") (Some "d") false false; default_rule].
Proof.
  apply (mapper_rules_roundtrip
    [mkRule (Some "CN=a, O=x") (Some "b\/$1") true false; mkRule (Some "c") (Some "d") false false; default_rule]);
    [done|repeat constructor; done].
Defined.

Example escaped : escape_literal_back_references "I owe $8 to $1$" 3 = "I owe $8 to \1$".
Proof. vm_compute. reflexivity. Qed.
Example invalid_rule : mapper_rules (Some "RULE:a/b/Lx") = Err (ValueError "Invalid rule").
Proof. vm_compute. reflexivity. Qed.
Example invalid_pattern : ssl_principal_mapping_rules_validator "RULE:[/b/" = Err (PyException "re.error").
Proof. vm_compute. reflexivity. Qed.
