(* ===== verification/RollingOps.v ===== *)
(** * The lock of the rolling restart (lib/charms/rolling_ops/v0/rollingops.py)

    [RollingOpsManager]: the units of an application share a lock through the
    data of their peer relation. A unit asks for it and gives it back in its own
    data, the leader grants it in the data of the application; a unit that is
    granted the lock runs a callback of the charm. [view] is what the manager of
    one unit sees in a hook and what it leaves. *)

From S2P Require Import Prelude.

Local Open Scope string_scope.

Module RollingOps.

Abbreviation databag := (gmap string string).

(** [RelationDataContent.__setitem__]: the empty string removes a key. *)
Definition bag_set (key value : string) (bag : databag) : databag :=
  if value =? "" then delete key bag else <[key:=value]> bag.

Inductive LockState := ACQUIRE | RELEASE | GRANTED | IDLE.

#[export] Instance LockState_eq_dec : EqDecision LockState.
Proof. solve_decision. Defined.

Definition LockState_value (s : LockState) : string :=
  match s with ACQUIRE => "acquire" | RELEASE => "release" | GRANTED => "granted" | IDLE => "idle" end.

(** [LockState(value)]. *)
Definition LockState_of (value : string) : result LockState :=
  if value =? "acquire" then Ok ACQUIRE
  else if value =? "release" then Ok RELEASE
  else if value =? "granted" then Ok GRANTED
  else if value =? "idle" then Ok IDLE
  else Err (ValueError ("'" ++ value ++ "' is not a valid LockState")).

(** The status of a unit or of the application, with its message. *)
Inductive status_base :=
| ActiveStatus
| WaitingStatus (message : string)
| MaintenanceStatus (message : string)
| OtherStatus (message : string).
Definition message (st : status_base) : string :=
  match st with ActiveStatus => "" | WaitingStatus m | MaintenanceStatus m | OtherStatus m => m end.

(** The manager of a unit in a hook: its name, whether it leads, the other units
    of the relation in the order the set of them is iterated, the data of the
    units and of the application, the two statuses, the callbacks run so far in
    the hook, whether a run was deferred, and the charm. *)
Record view (W : Type) := mkView {
  name : string;
  me : string;
  is_leader : bool;
  others : list string;
  unit_bags : gmap string databag;
  app_bag : databag;
  unit_status : status_base;
  app_status : status_base;
  runs : list string;
  run_deferred : bool;
  charm : W }.
Arguments mkView {_} _ _ _ _ _ _ _ _ _ _ _.
Arguments name {_} _.
Arguments me {_} _.
Arguments is_leader {_} _.
Arguments others {_} _.
Arguments unit_bags {_} _.
Arguments app_bag {_} _.
Arguments unit_status {_} _.
Arguments app_status {_} _.
Arguments runs {_} _.
Arguments run_deferred {_} _.
Arguments charm {_} _.

(** What a hook makes the manager do: a change of the relation, a request of
    the charm for the lock, a run of the callback that an earlier hook deferred. *)
Inductive event := Changed | Acquire (callback_override : option string) | Deferred.

#[export] Instance event_eq_dec : EqDecision event.
Proof. solve_decision. Defined.

Section rolling.
(** [str_unit] is [str] of a unit; [default_callback] the name of the callback
    the manager is created with; [getattr] the methods of the charm by name,
    each of which says whether it deferred the event. *)
Context {W : Type} (str_unit : string → string).
Context (default_callback : string) (getattr : string → option (W → result (bool * W))).
Implicit Types v : view W.

Definition bag_of (u : string) v : databag := default ∅ (unit_bags v !! u).
(** What the manager may write: the data of its unit, and of the application. *)
Definition set_own (key value : string) v : view W :=
  mkView (name v) (me v) (is_leader v) (others v)
    (<[me v := bag_set key value (bag_of (me v) v)]> (unit_bags v)) (app_bag v)
    (unit_status v) (app_status v) (runs v) (run_deferred v) (charm v).
Definition set_app (key value : string) v : view W :=
  mkView (name v) (me v) (is_leader v) (others v) (unit_bags v) (bag_set key value (app_bag v))
    (unit_status v) (app_status v) (runs v) (run_deferred v) (charm v).
Definition set_unit_status (st : status_base) v : view W :=
  mkView (name v) (me v) (is_leader v) (others v) (unit_bags v) (app_bag v)
    st (app_status v) (runs v) (run_deferred v) (charm v).
Definition set_app_status (st : status_base) v : view W :=
  mkView (name v) (me v) (is_leader v) (others v) (unit_bags v) (app_bag v)
    (unit_status v) st (runs v) (run_deferred v) (charm v).
Definition ran (callback : string) (deferred : bool) (w : W) v : view W :=
  mkView (name v) (me v) (is_leader v) (others v) (unit_bags v) (app_bag v)
    (unit_status v) (app_status v) (runs v ++ [callback]) (run_deferred v || deferred) w.

(** ** The lock of a unit *)

Definition unit_state (u : string) v : result LockState :=
  LockState_of (default (LockState_value IDLE) (bag_of u v !! "state")).
Definition app_state (u : string) v : result LockState :=
  LockState_of (default (LockState_value IDLE) (app_bag v !! str_unit u)).

Definition state (u : string) v : result LockState :=
  unit_state ← unit_state u v;
  app_state ← app_state u v;
  if bool_decide (app_state = GRANTED) && bool_decide (unit_state = RELEASE) then Ok RELEASE
  else if bool_decide (app_state = IDLE) && bool_decide (unit_state = ACQUIRE) then Ok ACQUIRE
  else Ok app_state.

(** The setter, for the manager's own unit and for the application. *)
Definition acquire v : view W := set_own "state" (LockState_value ACQUIRE) v.
Definition release v : view W := set_own "state" (LockState_value RELEASE) v.
Definition grant (u : string) v : view W := set_app (str_unit u) (LockState_value GRANTED) v.
Definition clear (u : string) v : view W := set_app (str_unit u) (LockState_value IDLE) v.

Definition is_held (u : string) v : result bool := st ← state u v; Ok (bool_decide (st = GRANTED)).
Definition release_requested (u : string) v : result bool := st ← state u v; Ok (bool_decide (st = RELEASE)).
Definition is_pending (u : string) v : result bool := st ← state u v; Ok (bool_decide (st = ACQUIRE)).

(** [Locks]: the other units, then this one. *)
Definition locks v : list string := (others v ++ [me v])%list.

(** ** The handlers *)

(** The loop of [_on_process_locks]: it stops at a lock that is held ([None]),
    or gives the units that wait. *)
Fixpoint scan (units pending : list string) v : result (option (list string) * view W) :=
  match units with
  | [] => Ok (Some pending, v)
  | u :: units =>
      held ← is_held u v;
      if (held : bool) then Ok (None, v)
      else
        released ← release_requested u v;
        let v := if (released : bool) then clear u v else v in
        waits ← is_pending u v;
        scan units
          (if (waits : bool) then if bool_decide (u = me v) then u :: pending else pending ++ [u] else pending)%list v
  end.

Definition rolling_message v : string := "Beginning rolling " ++ name v.

(** [_on_process_locks]; [run] is [_on_run_with_lock]. *)
Definition process_locks_with (run : view W → result (view W)) v : result (view W) :=
  if negb (is_leader v) then Ok v
  else
    '(pending, v) ← scan (locks v) [] v;
    match pending with
    | None => Ok v
    | Some pending =>
        match list.last pending with
        | Some u =>
            let v := set_app_status (MaintenanceStatus (rolling_message v)) v in
            let v := grant u v in
            if bool_decide (u = me v) then run v else Ok v
        | None =>
            if message (app_status v) =? rolling_message v then Ok (set_app_status ActiveStatus v) else Ok v
        end
    end.

(** [_on_run_with_lock]; [process] is [_on_process_locks]. The lock it gives
    back is the one of its own unit. *)
Definition run_with_lock_with (process : view W → result (view W)) v : result (view W) :=
  let v := set_unit_status (MaintenanceStatus ("Executing " ++ name v ++ " operation")) v in
  let callback_name := default default_callback (bag_of (me v) v !! "callback_override") in
  match getattr callback_name with
  | None => Err (AttributeError callback_name)
  | Some callback =>
      '(deferred, w) ← callback (charm v);
      let v := release (ran callback_name deferred w v) in
      v ← process v;
      let v := set_own "callback_override" "" v in
      if message (unit_status v) =? "Executing " ++ name v ++ " operation"
      then Ok (set_unit_status ActiveStatus v) else Ok v
  end.

(** The two handlers emit each other's event; a depth beyond [fuel] is a
    [RecursionError]. *)
Fixpoint process_locks_fuel (fuel : nat) v : result (view W) :=
  match fuel with
  | O => Err RecursionError
  | Datatypes.S fuel => process_locks_with (run_with_lock_with (process_locks_fuel fuel)) v
  end.

Definition process_locks v : result (view W) := process_locks_fuel 2 v.
Definition run_with_lock v : result (view W) := run_with_lock_with process_locks v.

Definition relation_changed v : result (view W) :=
  waits ← is_pending (me v) v;
  let v := if (waits : bool) then set_unit_status (WaitingStatus ("Awaiting " ++ name v ++ " operation")) v else v in
  held ← is_held (me v) v;
  v ← (if (held : bool) then run_with_lock v else Ok v);
  if is_leader v then process_locks v else Ok v.

(** [_on_acquire_lock], given the relations of that name: it indexes the list
    of them before it looks whether there is one. *)
Definition acquire_lock (callback_override : option string) (relations : list (view W)) : result (view W) :=
  match relations with
  | [] => Err (IndexError "list index out of range")
  | v :: _ =>
      relation_changed (set_own "callback_override" (default "" callback_override) (acquire v))
  end.

Definition handle (e : event) v : result (view W) :=
  match e with
  | Changed => relation_changed v
  | Acquire callback_override => acquire_lock callback_override [v]
  | Deferred => run_with_lock v
  end.
End rolling.
End RollingOps.
