(* ===== verification/Rolling.v ===== *)
(** * Mutual exclusion of the rolling restart

    What the manager of RollingOps.v guarantees between the units of an
    application. [step] opens a hook on a unit, which works on the data as they
    are then, and commits it later: hooks of different units overlap, as the
    pods of Kubernetes run them. *)

From S2P Require Import Prelude RollingOps.
Import RollingOps.

Local Open Scope string_scope.

Section rolling.
Context {W : Type} (str_unit : string → string) `{!Inj (=) (=) str_unit}.
Context (default_callback : string) (getattr : string → option (W → result (bool * W))).
Implicit Types v : view W.

(** ** What a view tells of a unit *)

Definition granted v (u : string) : Prop := app_bag v !! str_unit u = Some "granted".
Definition released v (u : string) : Prop := bag_of u v !! "state" = Some "release".
Definition acquiring v (u : string) : Prop := bag_of u v !! "state" = Some "acquire".
(** The application's data hold nothing else than the leader writes there. *)
Definition app_ok v : Prop := ∀ u x, app_bag v !! str_unit u = Some x → x = "granted" ∨ x = "idle".
(** At most one unit of the relation is granted the lock. *)
Definition unique v : Prop := ∀ u w, u ∈ locks v → w ∈ locks v → granted v u → granted v w → u = w.
Definition with_app (b : databag) v : view W :=
  mkView (name v) (me v) (is_leader v) (others v) (unit_bags v) b
    (unit_status v) (app_status v) (runs v) (run_deferred v) (charm v).

(** What a handler of the leader may do to the data: a lock in use is kept,
    a lock is given to a unit that asks for it, and to one unit at most. *)
Definition leads v v' : Prop :=
  app_ok v →
  app_ok v' ∧ me v' = me v ∧ is_leader v' = is_leader v ∧ locks v' = locks v ∧
  (∀ u, u ≠ me v → bag_of u v' = bag_of u v) ∧
  (∀ u, u ≠ me v → granted v u → ¬ released v u → granted v' u) ∧
  (∀ u, u ≠ me v → granted v' u → granted v u ∨ acquiring v u) ∧
  (unique v → unique v').

(** ** The units together *)

(** The data committed so far; for each unit with an open hook what it saw
    when it began and what it leaves; the units with a run that was deferred,
    which comes again with a later hook. *)
Record system := mkSystem {
  leader : string; members : list string; bags : gmap string databag; app : databag;
  opened : gmap string (view W * view W); postponed : gset string }.
Implicit Types s : system.

Definition sees (u : string) s v : Prop :=
  me v = u ∧ is_leader v = bool_decide (u = leader s) ∧ locks v ≡ₚ members s ∧
  unit_bags v = bags s ∧ app_bag v = app s ∧ runs v = [] ∧ run_deferred v = false.

Definition commit_view v (s : system) : system :=
  mkSystem (leader s) (members s) (<[me v := bag_of (me v) v]> (bags s))
    (if is_leader v then app_bag v else app s) (delete (me v) (opened s))
    (if run_deferred v then {[me v]} ∪ postponed s else postponed s).
Definition open_view (u : string) (e : event) v v' (s : system) : system :=
  mkSystem (leader s) (members s) (bags s) (app s) (<[u := (v, v')]> (opened s))
    (match e with Deferred => postponed s ∖ {[u]} | _ => postponed s end).
Definition elect (u : string) (s : system) : system :=
  mkSystem u (members s) (bags s) (app s) (opened s) (postponed s).

(** A unit asks for the lock only while it is not granted it, and does not
    defer the restart. *)
Definition disciplined (e : event) v : Prop :=
  match e with Changed => True | Acquire _ => ¬ granted v (me v) | Deferred => False end.

Inductive step (allowed : event → view W → Prop) : system → system → Prop :=
| step_open s u v e v' :
    u ∈ members s → opened s !! u = None → sees u s v → allowed e v → (e = Deferred → u ∈ postponed s) →
    handle str_unit default_callback getattr e v = Ok v' →
    step allowed s (open_view u e v v' s)
| step_commit s u v v' :
    opened s !! u = Some (v, v') → step allowed s (commit_view v' s)
| step_elect s u :
    opened s !! leader s = None → opened s !! u = None →
    step allowed s (elect u s).

(** A hook that runs the callback, from when it opens until it is committed. *)
Definition running s (u : string) : Prop := ∃ v v', opened s !! u = Some (v, v') ∧ runs v' ≠ [].

(** Nobody was granted the lock, no hook is open. *)
Definition initial s : Prop := opened s = ∅ ∧ app s = ∅ ∧ postponed s = ∅.

(** ** The state of a lock *)

Lemma LockState_of_ok x st : LockState_of x = Ok st ↔ x = LockState_value st.
Proof.
  unfold LockState_of. split.
  - repeat case_match; intros [= <-]; by apply String.eqb_eq.
  - intros ->. by destruct st.
Qed.

Lemma state_ok u v st :
  app_ok v → state str_unit u v = Ok st →
  match st with
  | GRANTED => granted v u ∧ ¬ released v u
  | RELEASE => granted v u ∧ released v u
  | ACQUIRE => ¬ granted v u ∧ acquiring v u
  | IDLE => ¬ granted v u ∧ ¬ acquiring v u
  end.
Proof.
  intros Hok. unfold state, unit_state, app_state. rewrite result_bind_ok. intros (us & Hus & H).
  rewrite result_bind_ok in H. destruct H as (as_ & Has & H).
  apply LockState_of_ok in Hus, Has. unfold granted, released, acquiring. specialize (Hok u).
  destruct (bag_of u v !! "state") as [x|], (app_bag v !! str_unit u) as [y|]; cbn in Hus, Has;
    try (destruct (Hok y eq_refl) as [-> | ->]); destruct us, as_; cbn in *; simplify_eq; cbn; naive_solver.
Qed.

Lemma is_held_ok u v b :
  app_ok v → is_held str_unit u v = Ok b →
  if b then granted v u ∧ ¬ released v u else granted v u → released v u.
Proof.
  intros Hok. unfold is_held. rewrite result_bind_ok. intros (st & Hst%state_ok & [= <-]); [|done].
  destruct st; cbn; naive_solver.
Qed.
Lemma release_requested_ok u v b :
  app_ok v → release_requested str_unit u v = Ok b →
  if b then granted v u ∧ released v u else granted v u → ¬ released v u.
Proof.
  intros Hok. unfold release_requested. rewrite result_bind_ok. intros (st & Hst%state_ok & [= <-]); [|done].
  destruct st; cbn; naive_solver.
Qed.
Lemma is_pending_ok u v b :
  app_ok v → is_pending str_unit u v = Ok b → b = true → ¬ granted v u ∧ acquiring v u.
Proof.
  intros Hok. unfold is_pending. rewrite result_bind_ok. intros (st & Hst%state_ok & [= <-]); [|done].
  by destruct st.
Qed.

(** ** The handlers of a leader *)

Lemma leads_refl v : leads v v.
Proof. intros Hok. naive_solver. Qed.

Lemma leads_trans v1 v2 v3 : leads v1 v2 → leads v2 v3 → leads v1 v3.
Proof.
  intros H12 H23 Hok. destruct (H12 Hok) as (Hok2 & Hm2 & Hl2 & Hk2 & Hb2 & Hg2 & Ho2 & Hu2).
  destruct (H23 Hok2) as (Hok3 & Hm3 & Hl3 & Hk3 & Hb3 & Hg3 & Ho3 & Hu3).
  rewrite Hm2 in *. split_and!; [done|congruence|congruence|congruence|..].
  - intros u Hu. rewrite Hb3, Hb2 by done. done.
  - intros u Hu Hg Hr. apply Hg3; [done|by apply Hg2|]. unfold released. by rewrite Hb2.
  - intros u Hu Hg. destruct (Ho3 u Hu Hg) as [Hg'|Ha]; [by apply Ho2|]. right.
    unfold acquiring in *. by rewrite Hb2 in Ha.
  - tauto.
Qed.

(** A change of the statuses, of the runs or of the unit's own data. *)
Lemma leads_own v v' :
  app_bag v' = app_bag v → me v' = me v → is_leader v' = is_leader v → others v' = others v →
  (∀ u, u ≠ me v → bag_of u v' = bag_of u v) → leads v v'.
Proof.
  intros Ha Hm Hl Ho Hb Hok. unfold app_ok, unique, granted, locks in *. rewrite Ha, Hm, Ho.
  split_and!; try done; naive_solver.
Qed.

Lemma bag_of_set_own key x u v : u ≠ me v → bag_of u (set_own key x v) = bag_of u v.
Proof. intros Hu. unfold bag_of. cbn. by rewrite lookup_insert_ne. Qed.

Lemma granted_with_app b v u : granted (with_app b v) u ↔ b !! str_unit u = Some "granted".
Proof. done. Qed.

Lemma with_app_self v : with_app (app_bag v) v = v.
Proof. by destruct v. Qed.

(** The loop only clears locks given back, and stops at one in use. *)
Lemma scan_ok us pending v r v' :
  app_ok v → scan str_unit us pending v = Ok (r, v') →
  app_ok v' ∧ v' = with_app (app_bag v') v ∧
  (∀ u, granted v' u → granted v u) ∧
  (∀ u, granted v u → ¬ released v u → granted v' u) ∧
  match r with
  | None => ∃ u, u ∈ us ∧ granted v u ∧ ¬ released v u
  | Some p => (∀ u, u ∈ us → ¬ granted v' u ∧ (granted v u → released v u)) ∧
              (∀ u, u ∈ p → u ∈ pending ∨ u ∈ us ∧ acquiring v u)
  end.
Proof.
  revert pending v. induction us as [|u us IH]; intros pending v Hok; cbn.
  { intros [= <- <-]. rewrite with_app_self. split_and!; [done..|set_solver|naive_solver]. }
  rewrite result_bind_ok. intros (held & Hh%is_held_ok & H); [|done]. destruct held.
  { injection H as <- <-. rewrite with_app_self. split_and!; [done..|]. set_solver. }
  rewrite result_bind_ok in H. destruct H as (rel & Hr%release_requested_ok & H); [|done].
  rewrite result_bind_ok in H. destruct H as (waits & Hp & H).
  set (w := if rel then clear str_unit u v else v) in *.
  assert (Hw : app_ok w ∧ w = with_app (app_bag w) v ∧ (∀ x, granted w x → granted v x) ∧
    (∀ x, granted v x → ¬ released v x → granted w x) ∧ ¬ granted w u).
  { destruct rel; unfold w; [|rewrite with_app_self; naive_solver]. unfold app_ok, granted. cbn.
    split_and!; [|done|..].
    - intros x y. destruct (decide (x = u)) as [->|Hne].
      + rewrite lookup_insert_eq. intros [= <-]. by right.
      + rewrite lookup_insert_ne by (by intros ?%(inj str_unit)). apply Hok.
    - intros x. destruct (decide (x = u)) as [->|Hne]; [by rewrite lookup_insert_eq|].
      by rewrite lookup_insert_ne by (by intros ?%(inj str_unit)).
    - intros x Hg Hnr. destruct (decide (x = u)) as [->|Hne]; [by destruct Hr|].
      by rewrite lookup_insert_ne by (by intros ?%(inj str_unit)).
    - by rewrite lookup_insert_eq. }
  destruct Hw as (Hokw & Ew & Hgw & Hkw & Huw).
  assert (Hp' := is_pending_ok _ _ _ Hokw Hp). clear Hp. rename Hp' into Hp.
  apply IH in H as (Hok' & E' & Hg' & Hk' & Hr'); [|done].
  assert (Hbag : ∀ x, bag_of x w = bag_of x v) by (intros x; by rewrite Ew).
  unfold acquiring, released in *. setoid_rewrite Hbag in Hk'.
  split_and!; [done|by rewrite E', Ew|naive_solver|naive_solver|]. rewrite Ew in Hr', Hp. cbn in Hr', Hp.
  destruct r as [p|].
  - destruct Hr' as [Hn Hq]. split.
    + intros x [->|Hx]%elem_of_cons; [split; [naive_solver|done]|].
      destruct (Hn x Hx) as [H1 H2]. split; [done|]. intros Hg.
      destruct (decide (bag_of x v !! "state" = Some "release")) as [|Hnr]; [done|].
      rewrite <- Ew in H2. specialize (H2 (Hkw x Hg Hnr)). by rewrite Hbag in H2.
    + intros x Hx. destruct (Hq x Hx) as [Hx'|[]]; [|set_solver].
      destruct waits; [|by left]. specialize (Hp eq_refl) as [_ Hp].
      case_bool_decide; [apply elem_of_cons in Hx'|apply elem_of_app in Hx'; rewrite list_elem_of_singleton in Hx'];
        destruct Hx' as [Hx'|Hx']; try subst x; try (by left); right; (split; [set_solver|done]).
  - destruct Hr' as (x & Hx & Hg & Hnr). rewrite <- Ew in Hg. exists x. split; [set_solver|]. split; [by apply Hgw|done].
Qed.

Abbreviation process_locks_with := (process_locks_with str_unit).
Abbreviation run_with_lock_with := (run_with_lock_with default_callback getattr).
Abbreviation process_locks_fuel := (process_locks_fuel str_unit default_callback getattr).
Abbreviation process_locks := (process_locks str_unit default_callback getattr).
Abbreviation run_with_lock := (run_with_lock str_unit default_callback getattr).
Abbreviation relation_changed := (relation_changed str_unit default_callback getattr).
Abbreviation handle := (handle str_unit default_callback getattr).

(** Clearing what was given back is what a leader may do; so is granting the
    lock when nobody holds it. *)
Lemma scan_leads us pending v r v' : scan str_unit us pending v = Ok (r, v') → leads v v'.
Proof.
  intros Hs Hok. apply scan_ok in Hs as (Hok' & E & Hg & Hk & _); [|done].
  unfold unique in *. rewrite E in *. split_and!; try done; naive_solver.
Qed.

Lemma granted_grant u w v : granted (grant str_unit u v) w ↔ w = u ∨ granted v w.
Proof.
  unfold granted. cbn. destruct (decide (w = u)) as [->|Hne]; [rewrite lookup_insert_eq; naive_solver|].
  rewrite lookup_insert_ne by (by intros ?%(inj str_unit)). naive_solver.
Qed.

Lemma grant_leads u v :
  acquiring v u → (∀ w, w ∈ locks v → ¬ granted v w) → leads v (grant str_unit u v).
Proof.
  intros Ha Hn Hok. unfold unique. setoid_rewrite granted_grant. split_and!; try done.
  - intros w x. unfold grant, set_app, bag_set. cbn. destruct (decide (w = u)) as [->|Hne].
    + rewrite lookup_insert_eq. intros [= <-]. by left.
    + rewrite lookup_insert_ne by (by intros ?%(inj str_unit)). apply Hok.
  - intros w Hw Hg _. by right.
  - intros w _ [-> |Hg]; [by right|by left].
  - intros _ w x Hw Hx. change (locks (grant str_unit u v)) with (locks v) in *.
    intros [Ew|Hg] [Ex|Hg']; [congruence|..]; exfalso; [by apply (Hn x)|by apply (Hn w)|by apply (Hn w)].
Qed.

Lemma process_leads_with run v v' :
  (∀ v v', run v = Ok v' → leads v v') → process_locks_with run v = Ok v' → leads v v'.
Proof.
  intros Hrun H. unfold RollingOps.process_locks_with in H.
  destruct (is_leader v); cbn in H; [|injection H as <-; apply leads_refl].
  rewrite result_bind_ok in H. destruct H as ([r w] & Hs & H). intros Hok.
  refine (leads_trans v w v' (scan_leads _ _ _ _ _ Hs) _ Hok).
  destruct (scan_ok _ _ _ _ _ Hok Hs) as (_ & E & _ & _ & Hr).
  destruct r as [p|]; [|injection H as <-; apply leads_refl]. destruct Hr as [Hn Hp].
  destruct (list.last p) as [u|] eqn:Eu;
    [|case_match; injection H as <-; [by apply leads_own|apply leads_refl]].
  assert (Hu : acquiring v u) by (destruct (Hp u (last_Some_elem_of _ _ Eu)) as [?|[]]; [set_solver|done]).
  set (x := set_app_status _ w) in H.
  assert (Hw : leads w (grant str_unit u x)).
  { apply (leads_trans _ x); [by apply leads_own|]. apply grant_leads; [unfold x; by rewrite E|].
    intros y Hy. apply Hn. unfold x in Hy. by rewrite E in Hy. }
  case_bool_decide; [|by injection H as <-].
  apply (leads_trans _ _ _ Hw). by apply Hrun.
Qed.

(** A run changes the unit's own data, then lets the leader go on. *)
Definition run_begin (v : view W) : view W :=
  set_unit_status (MaintenanceStatus ("Executing " ++ name v ++ " operation")) v.

Lemma run_with_lock_cases process v v' :
  run_with_lock_with process v = Ok v' →
  ∃ callback f deferred w x st,
    callback = default default_callback (bag_of (me v) v !! "callback_override") ∧
    getattr callback = Some f ∧ f (charm v) = Ok (deferred, w) ∧
    process (release (ran callback deferred w (run_begin v))) = Ok x ∧
    v' = set_unit_status st (set_own "callback_override" "" x).
Proof.
  unfold RollingOps.run_with_lock_with. fold (run_begin v). intros H.
  change (bag_of (me (run_begin v)) (run_begin v)) with (bag_of (me v) v) in H.
  destruct (getattr _) as [f|] eqn:Ef; [|done]. rewrite result_bind_ok in H. destruct H as ([b w] & Hf & H).
  rewrite result_bind_ok in H. destruct H as (x & Hx & H).
  case_match; injection H as <-.
  - exists (default default_callback (bag_of (me v) v !! "callback_override")), f, b, w, x, ActiveStatus. done.
  - exists (default default_callback (bag_of (me v) v !! "callback_override")), f, b, w, x,
      (unit_status (set_own "callback_override" "" x)). by destruct x.
Qed.

Lemma run_leads_with process v v' :
  (∀ v v', process v = Ok v' → leads v v') → run_with_lock_with process v = Ok v' → leads v v'.
Proof.
  intros Hp (c & f & b & w & x & st & _ & _ & _ & Hx & ->)%run_with_lock_cases.
  apply (leads_trans _ (release (ran c b w (run_begin v)))).
  { apply leads_own; try done. intros u Hu. unfold release. by rewrite bag_of_set_own. }
  apply (leads_trans _ x); [by apply Hp|]. apply leads_own; try done. intros u Hu. by apply (bag_of_set_own _ _ _ x).
Qed.

Lemma process_fuel_leads fuel v v' : process_locks_fuel fuel v = Ok v' → leads v v'.
Proof.
  revert v v'. induction fuel as [|fuel IH]; intros v v'; [done|].
  apply process_leads_with. intros x x'. by apply run_leads_with.
Qed.
Lemma run_leads v v' : run_with_lock v = Ok v' → leads v v'.
Proof. apply run_leads_with, process_fuel_leads. Qed.

(** The branches of [_on_relation_changed]. *)
Lemma relation_changed_cases v v' :
  relation_changed v = Ok v' →
  ∃ st held x, is_held str_unit (me v) v = Ok held ∧
    (if (held : bool) then run_with_lock (set_unit_status st v) = Ok x else x = set_unit_status st v) ∧
    (if is_leader x then process_locks x = Ok v' else v' = x).
Proof.
  unfold RollingOps.relation_changed. rewrite result_bind_ok. intros (waits & _ & H).
  set (w := if waits then _ else v) in H. rewrite result_bind_ok in H. destruct H as (held & Hh & H).
  rewrite result_bind_ok in H. destruct H as (x & Hx & H).
  assert (Ew : w = set_unit_status (unit_status w) v) by (unfold w; destruct waits, v; done).
  exists (unit_status w), held, x. rewrite <- Ew. split_and!.
  - rewrite Ew in Hh. exact Hh.
  - destruct held; [done|by injection Hx].
  - destruct (is_leader x); [done|by injection H].
Qed.

Lemma relation_changed_leads v v' : relation_changed v = Ok v' → leads v v'.
Proof.
  intros (st & held & x & _ & Hx & Hv)%relation_changed_cases.
  apply (leads_trans _ x).
  - apply (leads_trans _ (set_unit_status st v)); [by apply leads_own|].
    destruct held; [by apply run_leads|subst; apply leads_refl].
  - destruct (is_leader x); [by eapply process_fuel_leads|subst; apply leads_refl].
Qed.

Lemma handle_leads e v v' : handle e v = Ok v' → leads v v'.
Proof.
  destruct e as [|c|]; cbn; [apply relation_changed_leads| |apply run_leads].
  intros H%relation_changed_leads. revert H. apply leads_trans. apply leads_own; try done.
  intros u Hu. rewrite !bag_of_set_own; [|done..]. by apply bag_of_set_own.
Qed.

(** ** Who runs the callback *)

(** The leader begins a run for itself only when every lock it sees is free. *)
Lemma process_runs v v' :
  app_ok v → process_locks v = Ok v' →
  runs v' = runs v ∨ ∀ w, w ∈ locks v → granted v w → released v w.
Proof.
  intros Hok H. unfold RollingOps.process_locks in H. cbn [RollingOps.process_locks_fuel] in H.
  unfold RollingOps.process_locks_with at 1 in H. destruct (is_leader v); cbn in H; [|injection H as <-; by left].
  rewrite result_bind_ok in H. destruct H as ([r w] & Hs & H).
  destruct (scan_ok _ _ _ _ _ Hok Hs) as (_ & E & _ & _ & Hr). destruct r as [p|].
  - right. intros u Hu. by apply Hr.
  - injection H as <-. left. by rewrite E.
Qed.

Lemma not_leader_process fuel v : is_leader v = false → process_locks_fuel (S fuel) v = Ok v.
Proof. intros Hl. cbn. unfold RollingOps.process_locks_with. by rewrite Hl. Qed.

(** A unit that does not lead and does not hold the lock does not run, and
    changes its own request only to ask for the lock. *)
Lemma changed_not_leader v v' :
  is_leader v = false → app_ok v → relation_changed v = Ok v' →
  (granted v (me v) ∧ ¬ released v (me v)) ∨
  (runs v' = runs v ∧ bag_of (me v) v' = bag_of (me v) v).
Proof.
  intros Hl Hok (st & held & x & Hh%is_held_ok & Hx & Hv)%relation_changed_cases; [|done].
  destruct held; [by left|]. right. subst x. cbn in Hv. rewrite Hl in Hv. by subst v'.
Qed.

Lemma bag_of_set_own_me key x v : bag_of (me v) (set_own key x v) = bag_set key x (bag_of (me v) v).
Proof. unfold bag_of. cbn. by rewrite lookup_insert_eq. Qed.

Lemma bag_of_acquired c v :
  bag_of (me v) (set_own "callback_override" c (acquire v)) !! "state" = Some "acquire".
Proof.
  unfold bag_of. cbn. rewrite !lookup_insert_eq. unfold bag_of. cbn. rewrite lookup_insert_eq. unfold bag_set. cbn.
  by case_match; rewrite ?lookup_delete_ne, ?lookup_insert_ne, ?lookup_insert_eq by done.
Qed.

Lemma handle_not_leader e v v' :
  is_leader v = false → app_ok v → disciplined e v → handle e v = Ok v' →
  (granted v (me v) ∧ ¬ released v (me v)) ∨
  (runs v' = runs v ∧
   (bag_of (me v) v' !! "state" = bag_of (me v) v !! "state" ∨
    ¬ granted v (me v) ∧ bag_of (me v) v' !! "state" = Some "acquire")).
Proof.
  intros Hl Hok Hd H. destruct e as [|c|]; cbn in *; [|right|done].
  - apply changed_not_leader in H as [|[Hr Hb]]; [by left| |done..]. right. rewrite Hb. auto.
  - set (w := set_own "callback_override" (default "" c) (acquire v)) in H.
    apply changed_not_leader in H as [[Hg _]|[Hr Hb]]; [by destruct Hd| |done..].
    split; [done|]. right. split; [done|].
    change (me w) with (me v) in Hb. rewrite Hb. apply bag_of_acquired.
Qed.

(** The leader runs the callback only when no other lock is in use. *)
Lemma changed_leader_runs v v' :
  app_ok v → unique v → relation_changed v = Ok v' →
  runs v' = runs v ∨ ∀ w, w ∈ locks v → w ≠ me v → granted v w → released v w.
Proof.
  intros Hok Hu (st & held & x & Hh%is_held_ok & Hx & Hv)%relation_changed_cases; [|done].
  destruct held.
  - right. intros w Hw Hne Hg. destruct Hne. apply (Hu w (me v)); [done| |done|apply Hh]. unfold locks. set_solver.
  - subst x. cbn in Hv. destruct (is_leader v); [|subst v'; by left].
    apply process_runs in Hv as [Hr|Hr]; [by left| |done]. right. intros w Hw _. by apply Hr.
Qed.

Lemma handle_leader_runs e v v' :
  app_ok v → unique v → disciplined e v → handle e v = Ok v' →
  runs v' = runs v ∨ ∀ w, w ∈ locks v → w ≠ me v → granted v w → released v w.
Proof.
  intros Hok Hu Hd H. destruct e as [|c|]; cbn in *; [by apply changed_leader_runs| |done].
  apply changed_leader_runs in H as [Hr|Hr]; [by left| |done..]. right. intros w Hw Hne Hg.
  specialize (Hr w Hw Hne Hg). unfold released in *. rewrite bag_of_set_own in Hr by done.
  unfold acquire in Hr. by rewrite bag_of_set_own in Hr.
Qed.

(** ** The invariant *)

Definition sys_granted s (u : string) : Prop := app s !! str_unit u = Some "granted".
Definition sys_state s (u : string) : option string := default (∅ : databag) (bags s !! u) !! "state".

Record inv s : Prop := mkInv {
  inv_app : ∀ u x, app s !! str_unit u = Some x → x = "granted" ∨ x = "idle";
  inv_unique : ∀ u w, u ∈ members s → w ∈ members s → sys_granted s u → sys_granted s w → u = w;
  inv_open : ∀ u v v', opened s !! u = Some (v, v') →
    u ∈ members s ∧ me v = u ∧ is_leader v = bool_decide (u = leader s) ∧ locks v ≡ₚ members s ∧
    bag_of u v !! "state" = sys_state s u ∧ app_ok v ∧ runs v = [] ∧
    (u = leader s → app_bag v = app s) ∧
    me v' = u ∧ is_leader v' = is_leader v ∧ (∃ e, disciplined e v ∧ handle e v = Ok v');
  (** a unit that uses the lock is granted it *)
  inv_use : ∀ u v v', opened s !! u = Some (v, v') → u ≠ leader s →
    granted v u → ¬ released v u → sys_granted s u;
  (** what the leader sees given back is not taken again while granted *)
  inv_released : ∀ v v' u, opened s !! leader s = Some (v, v') → u ≠ leader s →
    sys_granted s u → released v u → sys_state s u = Some "release";
  (** what the leader sees requested stays requested until it is granted *)
  inv_acquiring : ∀ v v' u, opened s !! leader s = Some (v, v') → u ≠ leader s →
    ¬ sys_granted s u → acquiring v u → sys_state s u = Some "acquire";
  (** the lock of a unit that gave it back is not granted behind its back *)
  inv_old : ∀ u v v', opened s !! u = Some (v, v') → u ≠ leader s →
    released v u → sys_granted s u → granted v u }.

Lemma inv_closed s :
  opened s = ∅ → (∀ u x, app s !! str_unit u = Some x → x = "granted" ∨ x = "idle") →
  (∀ u w, u ∈ members s → w ∈ members s → sys_granted s u → sys_granted s w → u = w) → inv s.
Proof. intros Ho Ha Hu. split; try done; rewrite Ho; setoid_rewrite lookup_empty; done. Qed.
Lemma inv_initial s : initial s → inv s.
Proof.
  intros (Ho & Ha & _). apply inv_closed; [done|..]; unfold sys_granted; rewrite Ha; setoid_rewrite lookup_empty; done.
Qed.

Lemma inv_step_open s u v e v' :
  inv s → u ∈ members s → opened s !! u = None → sees u s v → disciplined e v → handle e v = Ok v' →
  inv (open_view u e v v' s).
Proof.
  intros I Hu Hn (Hm & Hl & Hk & Hb & Ha & Hr & _) Hd Hv.
  assert (Hok : app_ok v) by (unfold app_ok; rewrite Ha; apply I).
  assert (Hbag : ∀ w, bag_of w v !! "state" = sys_state s w) by (intros w; unfold bag_of; by rewrite Hb).
  destruct (handle_leads _ _ _ Hv Hok) as (_ & Hm' & Hl' & _).
  split; cbn; try apply I.
  - intros w x x' [[<- [= <- <-]]|[Hne Hx]]%lookup_insert_Some; [|by apply (inv_open s I) in Hx].
    split_and!; try done; [congruence|eauto].
  - intros w x x' [[<- [= <- <-]]|[Hne Hx]]%lookup_insert_Some; [|by apply (inv_use s I w x x')].
    intros _ Hg _. unfold sys_granted. cbn. by rewrite <- Ha.
  - intros x x' w [[Ew [= <- <-]]|[Hne Hx]]%lookup_insert_Some; [|by apply (inv_released s I x x')].
    intros _ _ Hw. unfold released in Hw. by rewrite Hbag in Hw.
  - intros x x' w [[Ew [= <- <-]]|[Hne Hx]]%lookup_insert_Some; [|by apply (inv_acquiring s I x x')].
    intros _ _ Hw. unfold acquiring in Hw. by rewrite Hbag in Hw.
  - intros w x x' [[<- [= <- <-]]|[Hne Hx]]%lookup_insert_Some; [|by apply (inv_old s I w x x')].
    intros _ _ Hg. unfold granted. by rewrite Ha.
Qed.

Lemma sys_state_commit s u b w (a : databag) o p :
  sys_state (mkSystem (leader s) (members s) (<[u := b]> (bags s)) a o p) w =
  if decide (w = u) then b !! "state" else sys_state s w.
Proof.
  unfold sys_state. cbn. case_decide; subst; [by rewrite lookup_insert_eq|by rewrite lookup_insert_ne].
Qed.

Lemma inv_commit_unit s u v v' :
  inv s → opened s !! u = Some (v, v') → u ≠ leader s → inv (commit_view v' s).
Proof.
  intros I Ho Hne. destruct (inv_open s I _ _ _ Ho) as (Hu & Hm & Hl & Hk & Hb & Hok & Hr & _ & Hm' & Hl' & e & Hd & He).
  rewrite bool_decide_eq_false_2 in Hl by done.
  pose proof (handle_not_leader e v v' Hl Hok Hd He) as Hh. rewrite Hm in Hh.
  unfold commit_view. rewrite Hl', Hl, Hm'.
  split; try apply I; cbn [leader members app opened].
  - intros w x x' [Hw Hx]%lookup_delete_Some. rewrite sys_state_commit, decide_False by done.
    by apply (inv_open s I) in Hx.
  - intros w x x' [_ Hx]%lookup_delete_Some. by apply (inv_use s I w x x').
  - intros x x' w [_ Hx]%lookup_delete_Some Hw Hg Hrel. rewrite sys_state_commit.
    pose proof (inv_released s I x x' w Hx Hw Hg Hrel) as Hs. case_decide; [subst w|done].
    assert (Hv : released v u) by (unfold released; by rewrite Hb).
    pose proof (inv_old s I u v v' Ho Hne Hv Hg) as Hgv.
    destruct Hh as [[_ []]|[_ [-> |[[] _]]]]; done.
  - intros x x' w [_ Hx]%lookup_delete_Some Hw Hg Hacq. rewrite sys_state_commit.
    pose proof (inv_acquiring s I x x' w Hx Hw Hg Hacq) as Hs. case_decide; [subst w|done].
    destruct Hh as [[Hgv Hnr]|[_ [-> |[_ ->]]]]; [|by rewrite Hb|done].
    destruct Hg. by apply (inv_use s I u v v').
  - intros w x x' [_ Hx]%lookup_delete_Some. by apply (inv_old s I w x x').
Qed.

Lemma unique_members v s :
  locks v ≡ₚ members s → (∀ u w, u ∈ members s → w ∈ members s → granted v u → granted v w → u = w) ↔ unique v.
Proof. intros Hk. unfold unique. by setoid_rewrite Hk. Qed.

Lemma inv_commit_leader s v v' :
  inv s → opened s !! leader s = Some (v, v') → inv (commit_view v' s).
Proof.
  intros I Ho. destruct (inv_open s I _ _ _ Ho) as (Hu & Hm & Hl & Hk & Hb & Hok & Hr & Ha & Hm' & Hl' & e & Hd & He).
  rewrite bool_decide_eq_true_2 in Hl by done. specialize (Ha eq_refl).
  assert (Hgr : ∀ w, sys_granted s w ↔ granted v w) by (intros w; unfold sys_granted, granted; by rewrite Ha).
  destruct (handle_leads e v v' He Hok) as (Hok' & _ & _ & Hk' & _ & Huse & Hnew & Huniq). rewrite Hm in Huse, Hnew.
  unfold commit_view. rewrite Hl', Hl, Hm'.
  split; cbn [leader members app opened].
  - exact Hok'.
  - apply (unique_members v'); [by rewrite Hk'|]. apply Huniq, (unique_members v s Hk).
    intros u w. rewrite <- !Hgr. apply I.
  - intros w x x' [Hw Hx]%lookup_delete_Some. rewrite sys_state_commit, decide_False by done.
    apply (inv_open s I) in Hx. naive_solver.
  - intros w x x' [Hw Hx]%lookup_delete_Some Hne Hg Hnr.
    apply Huse; [done|by apply Hgr, (inv_use s I w x x')|]. intros Hrel. apply Hnr.
    pose proof (inv_released s I v v' w Ho Hne (inv_use s I w x x' Hx Hne Hg Hnr) Hrel) as Hs.
    apply (inv_open s I) in Hx as (_ & _ & _ & _ & Hbx & _). unfold released. by rewrite Hbx.
  - intros x x' w [[] _]%lookup_delete_Some. done.
  - intros x x' w [[] _]%lookup_delete_Some. done.
  - intros w x x' [Hw Hx]%lookup_delete_Some Hne Hrel Hg.
    destruct (decide (app s !! str_unit w = Some "granted")) as [Hsg|Hng]; [by apply (inv_old s I w x x')|].
    destruct (Hnew w Hne Hg) as [Hg'|Hacq]; [by apply Hgr in Hg'|].
    pose proof (inv_acquiring s I v v' w Ho Hne Hng Hacq) as Hs.
    apply (inv_open s I) in Hx as (_ & _ & _ & _ & Hbx & _). unfold released in Hrel. congruence.
Qed.

Lemma inv_step_elect s u :
  inv s → opened s !! leader s = None → opened s !! u = None →
  inv (elect u s).
Proof.
  intros I Hl Hu. split; cbn; try apply I.
  - intros w x x' Hx. apply (inv_open s I) in Hx as Ho. destruct Ho as (H1 & H2 & H3 & H4 & H5 & H6 & H7 & H8 & H9).
    assert (Hw : w ≠ leader s) by congruence. assert (Hw' : w ≠ u) by congruence.
    rewrite bool_decide_eq_false_2 in H3 by done. rewrite bool_decide_eq_false_2 by done. naive_solver.
  - intros w x x' Hx _. apply (inv_use s I w x x' Hx). congruence.
  - intros x x' w Hx. congruence.
  - intros x x' w Hx. congruence.
  - intros w x x' Hx _. apply (inv_old s I w x x' Hx). congruence.
Qed.

Lemma inv_step s s' : step disciplined s s' → inv s → inv s'.
Proof.
  intros Hs I. destruct Hs as [s u v e v' Hu Hn Hv Hd _ He|s u v v' Ho|s u Hl Hu].
  - by eapply inv_step_open.
  - destruct (decide (u = leader s)) as [->|Hne]; [by eapply inv_commit_leader|by eapply inv_commit_unit].
  - by apply inv_step_elect.
Qed.

Lemma inv_reachable s s' : rtc (step disciplined) s s' → inv s → inv s'.
Proof. induction 1 as [|x y z Hs Hr IH]; [done|]. intros I. by eapply IH, inv_step. Qed.

(** A unit that runs the callback and does not lead is granted the lock and has
    not given it back; while the leader runs it, every other lock is free. *)
Lemma running_unit s u :
  inv s → running s u → u ≠ leader s → sys_granted s u ∧ sys_state s u ≠ Some "release".
Proof.
  intros I (v & v' & Ho & Hr) Hne.
  destruct (inv_open s I _ _ _ Ho) as (Hu & Hm & Hl & Hk & Hb & Hok & Hr0 & _ & _ & _ & e & Hd & He).
  rewrite bool_decide_eq_false_2 in Hl by done.
  destruct (handle_not_leader e v v' Hl Hok Hd He) as [[Hg Hnr]|[Hr' _]]; [|congruence]. rewrite Hm in Hg, Hnr.
  split; [by apply (inv_use s I u v v')|]. by rewrite <- Hb.
Qed.
Lemma running_leader s w :
  inv s → running s (leader s) → w ∈ members s → w ≠ leader s → sys_granted s w → sys_state s w = Some "release".
Proof.
  intros I (v & v' & Ho & Hr) Hw Hne Hg.
  destruct (inv_open s I _ _ _ Ho) as (Hu & Hm & Hl & Hk & Hb & Hok & Hr0 & Ha & _ & _ & e & Hd & He).
  specialize (Ha eq_refl). apply (inv_released s I v v' w Ho Hne Hg).
  assert (Hun : unique v).
  { apply (unique_members v s Hk). unfold granted. rewrite Ha. apply I. }
  destruct (handle_leader_runs e v v' Hok Hun Hd He) as [Hr'|Hr']; [congruence|].
  apply Hr'; [by rewrite Hk|by rewrite Hm|]. unfold granted. by rewrite Ha.
Qed.
End rolling.

Lemma step_weaken {W} (str_unit : string → string) (default_callback : string)
    (getattr : string → option (W → result (bool * W))) (P Q : event → view W → Prop) s s' :
  (∀ e v, P e v → Q e v) → step str_unit default_callback getattr P s s' → step str_unit default_callback getattr Q s s'.
Proof.
  intros HPQ Hs. destruct Hs as [s u v e v' Hu Hn Hv Hd Hp He|s u v v' Ho|s u Hl Hu];
    [apply step_open; auto|by eapply step_commit|by apply step_elect].
Qed.

(** ** Mutual exclusion *)

(** C3: as long as units ask for the lock only when they are not granted it and
    the restart is not deferred, no two hooks that are open at the same time run
    the callback - whatever the order in which hooks open and commit, and
    whoever is elected between them. *)
Theorem rolling_exclusive {W} (str_unit : string → string) `{!Inj (=) (=) str_unit}
    (default_callback : string) (getattr : string → option (W → result (bool * W))) s0 s u w :
  initial s0 → rtc (step str_unit default_callback getattr (disciplined str_unit)) s0 s →
  running s u → running s w → u = w.
Proof.
  intros Hi Hs Hu Hw.
  assert (I : inv str_unit default_callback getattr s) by (by eapply inv_reachable, inv_initial).
  assert (Hm : ∀ x, running s x → x ∈ members s) by (intros x (v & v' & Ho & _); by apply (inv_open _ _ _ _ I) in Ho as [? _]).
  destruct (decide (u = w)) as [|Hne]; [done|]. exfalso.
  assert (Hx : ∀ x, x ≠ leader s → running s x → running s (leader s) → False).
  { intros x Hx Hrx Hrl. destruct (running_unit _ _ _ _ _ I Hrx Hx) as [Hg Hnr].
    by apply Hnr, (running_leader str_unit default_callback getattr s x I Hrl (Hm x Hrx)). }
  destruct (decide (u = leader s)) as [->|Hul]; [by apply (Hx w)|].
  destruct (decide (w = leader s)) as [->|Hwl]; [by apply (Hx u)|].
  apply Hne, (inv_unique _ _ _ _ I); [by apply Hm..| |]; by eapply running_unit.
Qed.
