(* ===== verification/RollingProgress.v ===== *)
(** * Progress of the rolling restart

    Hooks delivered one after the other: every unit that asked for the lock runs
    the callback once, the leader after the others, and then nobody waits. *)

From S2P Require Import Prelude RollingOps Rolling.
Import RollingOps.

Local Open Scope string_scope.
Local Open Scope nat_scope.

(** How far a unit is from having nothing to do: it waits for the lock, it holds
    it, it gave it back, or none of these. *)
Definition stage_of (app_value unit_state : option string) : nat :=
  if bool_decide (app_value = Some "granted")
  then if bool_decide (unit_state = Some "release") then 1 else 2
  else if bool_decide (unit_state = Some "acquire") then 3 else 0.

Section progress.
Context {W : Type} (str_unit : string → string) `{!Inj (=) (=) str_unit}.
Context (default_callback : string) (getattr : string → option (W → result (bool * W))).
Implicit Types v : view W.

Definition stage v (u : string) : nat := stage_of (app_bag v !! str_unit u) (bag_of u v !! "state").
Definition LockState_of_stage (n : nat) : LockState :=
  match n with 0 => IDLE | 1 => RELEASE | 2 => GRANTED | _ => ACQUIRE end.

(** The callback of a name ends, and does not defer. *)
Definition callback_ends (callback : string) : Prop :=
  ∃ f, getattr callback = Some f ∧ ∀ w, ∃ w', f w = Ok (false, w').

(** The data hold what the managers write. *)
Definition unit_ok (bag : databag) : Prop :=
  (∀ x, bag !! "state" = Some x → x = "acquire" ∨ x = "release") ∧
  callback_ends (default default_callback (bag !! "callback_override")).
Definition wf v : Prop := app_ok str_unit v ∧ ∀ u, u ∈ locks v → unit_ok (bag_of u v).

(** ** Hooks delivered one by one *)

Implicit Types s : system (W := W).

Definition view_of (relation : string) (charms : string → W) (u : string) s : view W :=
  mkView relation u (bool_decide (u = leader s)) (filter (λ w, w ≠ u) (members s)) (bags s) (app s)
    (OtherStatus "") (OtherStatus "") [] false (charms u).

(** A change of the relation delivered to a unit, with the callbacks it ran. *)
Definition deliver (relation : string) (charms : string → W) (u : string) s : result (list string * system) :=
  v ← relation_changed str_unit default_callback getattr (view_of relation charms u s);
  Ok ((λ _, u) <$> runs v, commit_view v s).

Fixpoint schedule (relation : string) (charms : string → W) (turns : list string) s : result (list string * system) :=
  match turns with
  | [] => Ok ([], s)
  | u :: turns =>
      '(ran1, s) ← deliver relation charms u s;
      '(ran2, s) ← schedule relation charms turns s;
      Ok (ran1 ++ ran2, s)%list
  end.

(** ** The state of a lock, exactly *)

Lemma state_stage u v : wf v → u ∈ locks v → state str_unit u v = Ok (LockState_of_stage (stage v u)).
Proof.
  intros [Ha Hu] Hl. unfold state, unit_state, app_state, stage, stage_of.
  destruct (bag_of u v !! "state") as [x|] eqn:Ex.
  - destruct (proj1 (Hu u Hl) x Ex) as [-> | ->];
      (destruct (app_bag v !! str_unit u) as [y|] eqn:Ey; [destruct (Ha _ _ Ey) as [-> | ->]|]); done.
  - destruct (app_bag v !! str_unit u) as [y|] eqn:Ey; [destruct (Ha _ _ Ey) as [-> | ->]|]; done.
Qed.

Lemma stage_cases v u : stage v u = 0 ∨ stage v u = 1 ∨ stage v u = 2 ∨ stage v u = 3.
Proof. unfold stage, stage_of. repeat case_bool_decide; auto. Qed.

Lemma is_held_stage u v : wf v → u ∈ locks v → is_held str_unit u v = Ok (bool_decide (stage v u = 2)).
Proof.
  intros Hw Hl. unfold is_held. rewrite state_stage by done. cbn. by destruct (stage_cases v u) as [-> |[-> |[-> | ->]]].
Qed.
Lemma release_requested_stage u v :
  wf v → u ∈ locks v → release_requested str_unit u v = Ok (bool_decide (stage v u = 1)).
Proof.
  intros Hw Hl. unfold release_requested. rewrite state_stage by done. cbn. by destruct (stage_cases v u) as [-> |[-> |[-> | ->]]].
Qed.
Lemma is_pending_stage u v : wf v → u ∈ locks v → is_pending str_unit u v = Ok (bool_decide (stage v u = 3)).
Proof.
  intros Hw Hl. unfold is_pending. rewrite state_stage by done. cbn. by destruct (stage_cases v u) as [-> |[-> |[-> | ->]]].
Qed.

Lemma stage_set_app u w key v :
  stage (set_app (str_unit u) key v) w =
  if decide (w = u) then stage_of (bag_set (str_unit u) key (app_bag v) !! str_unit u) (bag_of u v !! "state") else stage v w.
Proof.
  unfold stage. cbn. case_decide as Hw; [by subst|].
  assert (str_unit u ≠ str_unit w) by (by intros ?%(inj str_unit)).
  unfold bag_set. case_match; by rewrite ?lookup_delete_ne, ?lookup_insert_ne by done.
Qed.

Lemma stage_clear u w v : stage v u = 1 → stage (clear str_unit u v) w = if decide (w = u) then 0 else stage v w.
Proof.
  intros H1. unfold clear. rewrite stage_set_app. case_decide; [|done]. subst.
  unfold stage, stage_of in *. cbn. rewrite lookup_insert_eq. by repeat case_bool_decide; simplify_eq.
Qed.
Lemma stage_grant u w v : stage v u = 3 → stage (grant str_unit u v) w = if decide (w = u) then 2 else stage v w.
Proof.
  intros H3. unfold grant. rewrite stage_set_app. case_decide; [|done]. subst.
  unfold stage, stage_of in *. cbn. rewrite lookup_insert_eq. by repeat case_bool_decide; simplify_eq.
Qed.

Lemma wf_set_app u x v : x = "granted" ∨ x = "idle" → wf v → wf (set_app (str_unit u) x v).
Proof.
  intros Hx [Ha Hu]. split; [|done]. intros w y. cbn. unfold bag_set.
  rewrite (proj2 (String.eqb_neq x "")) by (by intros ->; destruct Hx). 
  destruct (decide (w = u)) as [->|Hne].
  - rewrite lookup_insert_eq. by intros [= <-].
  - rewrite lookup_insert_ne by (by intros ?%(inj str_unit)). apply Ha.
Qed.

(** ** The loop of the leader, exactly *)

(** A holder, when nothing was given back: nothing changes. *)
Lemma scan_holder us pending v :
  wf v → us ⊆ locks v → (∀ u, u ∈ us → stage v u ≠ 1) → (∃ u, u ∈ us ∧ stage v u = 2) →
  scan str_unit us pending v = Ok (None, v).
Proof.
  intros Hw. revert pending. induction us as [|u us IH]; intros pending Hl H1 (x & Hx & H2); [set_solver|]. cbn.
  rewrite is_held_stage by (done || set_solver). cbn. case_bool_decide as E2; [done|].
  rewrite release_requested_stage by (done || set_solver). cbn.
  rewrite (bool_decide_eq_false_2 (stage v u = 1)) by (apply H1; set_solver).
  rewrite is_pending_stage by (done || set_solver). cbn.
  apply IH; [set_solver|set_solver|]. exists x. split; [|done]. apply elem_of_cons in Hx as [->|]; done.
Qed.

(** This unit is the last to be served only when it waits alone. *)
Definition self_last (x : string) (l : list string) : Prop := list.last l = Some x → ∀ y, y ∈ l → y = x.

Lemma self_last_add x u l :
  self_last x l → self_last x (if bool_decide (u = x) then u :: l else l ++ [u]).
Proof.
  intros Hl. case_bool_decide as Hu; unfold self_last.
  - subst. destruct l as [|y l]; [set_solver|]. change (list.last (x :: y :: l)) with (list.last (y :: l)).
    intros H z [->|Hz]%elem_of_cons; [done|]. by apply Hl.
  - rewrite last_snoc. intros [= ->]. done.
Qed.

(** Nobody holds the lock: what was given back is cleared, and those who wait
    are gathered. *)
Lemma scan_free us pending v :
  wf v → us ⊆ locks v → (∀ u, u ∈ us → stage v u ≠ 2) → self_last (me v) pending →
  ∃ p b, scan str_unit us pending v = Ok (Some p, with_app b v) ∧ wf (with_app b v) ∧
    (∀ w, stage (with_app b v) w = if decide (w ∈ us ∧ stage v w = 1) then 0 else stage v w) ∧
    (∀ w, w ∈ p ↔ w ∈ pending ∨ w ∈ us ∧ stage v w = 3) ∧ self_last (me v) p.
Proof.
  revert pending v. induction us as [|u us IH]; intros pending v Hw Hl H2 Hs.
  { exists pending, (app_bag v). rewrite with_app_self. split_and!; try done. set_solver. }
  cbn [scan]. rewrite is_held_stage by (done || set_solver). cbn [mbind result_bind].
  rewrite (bool_decide_eq_false_2 (stage v u = 2)) by (apply H2; set_solver).
  rewrite release_requested_stage by (done || set_solver). cbn [mbind result_bind].
  set (w := if bool_decide (stage v u = 1) then _ else _).
  assert (Hw' : wf w ∧ w = with_app (app_bag w) v ∧
    ∀ x, stage w x = if decide (x = u ∧ stage v u = 1) then 0 else stage v x).
  { unfold w. case_bool_decide as E1.
    - split; [apply wf_set_app; [by right|done]|]. split; [done|]. intros x. rewrite stage_clear by done.
      repeat case_decide; naive_solver.
    - rewrite with_app_self. split; [done|]. split; [done|]. intros x. by rewrite decide_False by naive_solver. }
  clearbody w. destruct Hw' as (Hww & Ew & Hst).
  assert (Hk : locks w = locks v) by (by rewrite Ew). assert (Hm : me w = me v) by (by rewrite Ew).
  rewrite is_pending_stage by (done || (rewrite Hk; set_solver)). cbn [mbind result_bind].
  assert (Hp3 : stage w u = 3 ↔ stage v u = 3) by (rewrite Hst; destruct (decide (u = u ∧ stage v u = 1)); lia).
  set (pending' := if bool_decide (stage w u = 3) then _ else _).
  assert (Hs' : self_last (me w) pending').
  { unfold pending'. rewrite Hm. case_bool_decide; [|done]. by apply self_last_add. }
  destruct (IH pending' w Hww) as (p & b & E & Hwb & Hsb & Hpb & Hlb); [rewrite Hk; set_solver| |done|].
  { intros x Hx. rewrite Hst. destruct (decide (x = u ∧ stage v u = 1)); [lia|]. apply H2. set_solver. }
  assert (Eb : with_app b w = with_app b v) by (by rewrite Ew). rewrite Eb in E, Hwb, Hsb. rewrite Hm in Hlb.
  exists p, b. split_and!; [exact E|exact Hwb| | |exact Hlb].
  - intros x. rewrite Hsb, Hst. destruct (decide (x = u)) as [->|Hx].
    + destruct (decide (stage v u = 1)) as [E1|E1].
      * rewrite !(decide_True (P := u = u ∧ _)) by done. rewrite decide_False by lia. by rewrite decide_True by (split; [left|done]).
      * rewrite !(decide_False (P := u = u ∧ _)) by tauto. by rewrite !decide_False by tauto.
    + rewrite !(decide_False (P := x = u ∧ _)) by tauto. apply decide_ext. set_unfold. tauto.
  - intros x. rewrite Hpb, Hst, elem_of_cons. unfold pending'. destruct (decide (x = u)) as [->|Hx].
    + rewrite <- Hp3, Hst. case_bool_decide as E3; [case_bool_decide|]; set_unfold; tauto.
    + rewrite (decide_False (P := x = u ∧ _)) by tauto. case_bool_decide as E3; [case_bool_decide|]; set_unfold; tauto.
Qed.

(** ** The handlers, exactly *)

Hypothesis Hdefault : callback_ends default_callback.

Abbreviation process_locks_fuel := (process_locks_fuel str_unit default_callback getattr).
Abbreviation run_with_lock_with := (run_with_lock_with default_callback getattr).
Abbreviation relation_changed := (relation_changed str_unit default_callback getattr).

(** The view after the callback, and after the run. *)
Definition after_run (c : string) (w : W) v : view W := release (ran c false w (run_begin v)).
Definition run_end v : view W :=
  let v := set_own "callback_override" "" v in
  if (message (unit_status v) =? "Executing " ++ name v ++ " operation")%string then set_unit_status ActiveStatus v else v.

Lemma run_exact process v :
  callback_ends (default default_callback (bag_of (me v) v !! "callback_override")) →
  ∃ c w, run_with_lock_with process v = (x ← process (after_run c w v); Ok (run_end x)).
Proof.
  intros (f & Hf & He). destruct (He (charm v)) as [w Hw].
  exists (default default_callback (bag_of (me v) v !! "callback_override")), w.
  unfold RollingOps.run_with_lock_with. fold (run_begin v).
  change (bag_of (me (run_begin v)) (run_begin v)) with (bag_of (me v) v).
  change (charm (run_begin v)) with (charm v). rewrite Hf, Hw. cbn [mbind result_bind].
  unfold after_run. destruct (process _) as [x|e]; [|done]. cbn [mbind result_bind]. unfold run_end. by case_match.
Qed.

(** Writing the unit's own data. *)
Lemma stage_set_own key x u v : key ≠ "state" → stage (set_own key x v) u = stage v u.
Proof.
  intros Hk. unfold stage. destruct (decide (u = me v)) as [->|Hu]; [|by rewrite bag_of_set_own].
  rewrite bag_of_set_own_me. unfold bag_set. case_match; by rewrite ?lookup_delete_ne, ?lookup_insert_ne by done.
Qed.
Lemma stage_release u v :
  stage (release v) u = if decide (u = me v) then (if bool_decide (stage v u = 1 ∨ stage v u = 2) then 1 else 0) else stage v u.
Proof.
  unfold stage, release. case_decide as Hu; [subst u|by rewrite bag_of_set_own].
  rewrite bag_of_set_own_me. unfold bag_set. cbn. rewrite lookup_insert_eq. unfold stage_of.
  repeat case_bool_decide; naive_solver lia.
Qed.
Lemma wf_set_own key x v :
  wf v → unit_ok (bag_set key x (bag_of (me v) v)) → wf (set_own key x v).
Proof.
  intros [Ha Hu] Hx. split; [done|]. intros u Hl. destruct (decide (u = me v)) as [->|Hne].
  - by rewrite bag_of_set_own_me.
  - rewrite bag_of_set_own by done. by apply Hu.
Qed.
Lemma me_in_locks v : me v ∈ locks v.
Proof. unfold locks. set_solver. Qed.

Lemma wf_after_run c w v : wf v → wf (after_run c w v).
Proof.
  intros Hw. unfold after_run, release. apply wf_set_own; [exact Hw|].
  change (bag_of (me (ran c false w (run_begin v))) (ran c false w (run_begin v))) with (bag_of (me v) v).
  destruct (proj2 Hw (me v) (me_in_locks v)) as [Hs Ho]. split; unfold bag_set; cbn.
  - intros x. rewrite lookup_insert_eq. intros [= <-]. by right.
  - by rewrite lookup_insert_ne.
Qed.
Lemma run_end_spec v :
  wf v → wf (run_end v) ∧ me (run_end v) = me v ∧ is_leader (run_end v) = is_leader v ∧ locks (run_end v) = locks v ∧
  app_bag (run_end v) = app_bag v ∧ runs (run_end v) = runs v ∧ ∀ u, stage (run_end v) u = stage v u.
Proof.
  intros Hw. unfold run_end. assert (Hw' : wf (set_own "callback_override" "" v)).
  { apply wf_set_own; [done|]. destruct (proj2 Hw (me v) (me_in_locks v)) as [Hs Ho]. split; unfold bag_set; cbn.
    - intros x. rewrite lookup_delete_ne by done. apply Hs.
    - by rewrite lookup_delete_eq. }
  case_match; split_and!; try done; intros u; by rewrite <- (stage_set_own "callback_override" "" u v).
Qed.

Definition framed v v' : Prop := me v' = me v ∧ is_leader v' = is_leader v ∧ locks v' = locks v.

Lemma granted_stage u v : granted str_unit v u ↔ stage v u = 1 ∨ stage v u = 2.
Proof. unfold granted, stage, stage_of. repeat case_bool_decide; naive_solver lia. Qed.

Lemma process_fuel_S fuel v :
  process_locks_fuel (S fuel) v = process_locks_with str_unit (run_with_lock_with (process_locks_fuel fuel)) v.
Proof. done. Qed.

Lemma process_holder fuel u v :
  wf v → is_leader v = true → unique str_unit v → u ∈ locks v → stage v u = 2 →
  process_locks_fuel (S fuel) v = Ok v.
Proof.
  intros Hw Hl Hu Hm H2. rewrite process_fuel_S. unfold process_locks_with. rewrite Hl. cbn [negb].
  rewrite scan_holder; [done|done|done| |by eauto]. intros w Hw' H1.
  assert (w = u) as -> by (apply Hu; [done..| |]; apply granted_stage; auto). lia.
Qed.

(** Nobody holds the lock and nobody waits for it. *)
Lemma process_none fuel v :
  wf v → is_leader v = true → (∀ u, u ∈ locks v → stage v u ≤ 1) →
  ∃ v', process_locks_fuel (S fuel) v = Ok v' ∧ framed v v' ∧ wf v' ∧
    (∀ u, u ∈ locks v → stage v' u = 0) ∧ runs v' = runs v.
Proof.
  intros Hw Hl H1. rewrite process_fuel_S. unfold process_locks_with. rewrite Hl. cbn [negb].
  destruct (scan_free (locks v) [] v Hw) as (p & b & -> & Hwb & Hs & Hp & _); [done| |by intros ?|].
  { intros u Hu E. specialize (H1 u Hu). lia. }
  assert (p = []) as ->.
  { apply elem_of_nil_inv. intros w [Hx|[Hx E]]%Hp; [set_solver|]. specialize (H1 w Hx). lia. }
  assert (H0 : ∀ u, u ∈ locks v → stage (with_app b v) u = 0).
  { intros u Hu. rewrite Hs. specialize (H1 u Hu). case_decide as Hd; [done|].
    destruct (stage v u) as [|[|]]; [done|naive_solver|lia]. }
  cbn. case_match; eexists; (split; [done|]); split_and!; done.
Qed.

(** What the leader does when nobody holds the lock: nobody waits; another unit
    waits; it waits alone. *)
Inductive served v v' : Prop :=
| served_none : (∀ u, u ∈ locks v → stage v u ≠ 3) → (∀ u, u ∈ locks v → stage v' u = 0) → runs v' = runs v →
    served v v'
| served_other u : u ∈ locks v → u ≠ me v → stage v u = 3 →
    (∀ w, w ∈ locks v → stage v' w = if decide (w = u) then 2 else if decide (stage v w = 1) then 0 else stage v w) →
    runs v' = runs v → served v v'
| served_self c : stage v (me v) = 3 → (∀ u, u ∈ locks v → stage v u = 3 → u = me v) →
    (∀ u, u ∈ locks v → stage v' u = 0) → runs v' = (runs v ++ [c])%list → served v v'.

Lemma process_free fuel v :
  wf v → is_leader v = true → (∀ u, u ∈ locks v → stage v u ≠ 2) →
  ∃ v', process_locks_fuel (S (S fuel)) v = Ok v' ∧ framed v v' ∧ wf v' ∧ served v v'.
Proof.
  intros Hw Hl H2. destruct (decide (Forall (λ u, stage v u ≤ 1) (locks v))) as [H1|H1].
  { rewrite Forall_forall in H1. destruct (process_none (S fuel) v Hw Hl H1) as (v' & E & Hf & Hw' & H0 & Hr).
    exists v'. split_and!; [done..|]. apply served_none; [|done..]. intros u Hu E3. specialize (H1 u Hu). lia. }
  rewrite process_fuel_S. unfold process_locks_with. rewrite Hl. cbn [negb].
  destruct (scan_free (locks v) [] v Hw) as (p & b & -> & Hwb & Hs & Hp & Hlast); [done|done|by intros ?|].
  cbn [mbind result_bind]. destruct (list.last p) as [u|] eqn:Eu.
  2: { apply last_None in Eu as ->. destruct H1. apply Forall_forall. intros u Hu.
       destruct (stage_cases v u) as [E|[E|[E|E]]]; [lia|lia|by destruct (H2 u Hu)|].
       assert (u ∈ []) by (apply Hp; auto). set_solver. }
  destruct (proj1 (Hp u) (last_Some_elem_of _ _ Eu)) as [?|[Hu H3]]; [set_solver|].
  set (y := set_app_status _ _). set (x := grant _ _ y).
  assert (Hsy : ∀ w, stage y w = if decide (w ∈ locks v ∧ stage v w = 1) then 0 else stage v w) by exact Hs.
  assert (Hx : wf x) by (unfold x; apply wf_set_app; [by left|exact Hwb]).
  assert (Hsx : ∀ w, w ∈ locks v → stage x w = if decide (w = u) then 2 else if decide (stage v w = 1) then 0 else stage v w).
  { intros w Hw'. unfold x. rewrite stage_grant.
    - case_decide; [done|]. rewrite Hsy. apply decide_ext. tauto.
    - rewrite Hsy, decide_False; [done|]. intros [_ ?]. lia. }
  change (me x) with (me v). case_bool_decide as Hme; [|exists x; split_and!; [done..|]; by eapply served_other].
  subst u. assert (Honly : ∀ w, w ∈ locks v → stage v w = 3 → w = me v).
  { intros w Hw' E. apply Hlast; [done|]. apply Hp. by right. }
  destruct (run_exact (process_locks_fuel (S fuel)) x) as (c & w & Hrun); [apply Hx, me_in_locks|].
  rewrite Hrun. set (z := after_run c w x).
  destruct (process_none fuel z) as (v' & -> & (Hm & Hl' & Hk) & Hw' & H0 & Hr); [by apply wf_after_run|done| |].
  { intros q Hq. change (locks z) with (locks v) in Hq. unfold z, after_run. rewrite stage_release.
    change (stage (ran c false w (run_begin x))) with (stage x). case_decide; [by case_bool_decide; lia|].
    change (me (ran c false w (run_begin x))) with (me v) in *. rewrite (Hsx q Hq), decide_False by done.
    specialize (Honly q Hq). specialize (H2 q Hq). case_decide; [lia|].
    destruct (stage_cases v q) as [E|[E|[E|E]]]; [lia..|by destruct Honly]. }
  cbn [mbind result_bind]. destruct (run_end_spec v' Hw') as (Hwe & Hme & Hle & Hke & _ & Hre & Hse).
  exists (run_end v'). split; [done|]. split; [split_and!; [rewrite Hme; exact Hm|rewrite Hle; exact Hl'|rewrite Hke; exact Hk]|]. split; [done|].
  apply (served_self _ _ c); [done|done| |by rewrite Hre, Hr]. intros q Hq. rewrite Hse. by apply H0.
Qed.

(** What a hook does: nobody goes back; the holder runs and gives the lock back,
    the leader moves somebody on when nobody holds it, no other unit finishes;
    the callback runs exactly when the unit finishes, and the leader waits for
    the others. *)
Record effect v v' : Prop := mkEffect {
  effect_frame : framed v v';
  effect_wf : wf v';
  effect_app : is_leader v = false → app_bag v' = app_bag v;
  effect_le : ∀ w, w ∈ locks v → stage v' w ≤ stage v w;
  effect_holder : stage v (me v) = 2 → stage v' (me v) ≤ 1;
  effect_leader : is_leader v = true → (∀ u, u ∈ locks v → stage v u ≠ 2) →
    (∃ w, w ∈ locks v ∧ stage v w ≠ 0) → ∃ w, w ∈ locks v ∧ stage v' w < stage v w;
  effect_others : ∀ w, w ∈ locks v → w ≠ me v → 2 ≤ stage v w → 2 ≤ stage v' w;
  effect_runs : ∃ c, runs v' = (runs v ++ if decide (2 ≤ stage v (me v) ∧ stage v' (me v) ≤ 1) then [c] else [])%list;
  effect_grant : ∀ w, w ∈ locks v → stage v w = 3 → stage v' w = 2 → w ≠ me v ∧ is_leader v = true;
  effect_last : stage v (me v) = 3 → stage v' (me v) ≤ 1 → ∀ w, w ∈ locks v → w ≠ me v → stage v w ≤ 1 }.

Ltac at_stage v w := destruct (stage_cases v w) as [?|[?|[?|?]]].

Lemma served_le v v' :
  (∀ u, u ∈ locks v → stage v u ≠ 2) → served v v' →
  (∀ w, w ∈ locks v → stage v' w ≤ stage v w) ∧
  (∀ w, w ∈ locks v → w ≠ me v → 2 ≤ stage v w → 2 ≤ stage v' w).
Proof.
  intros H2 [H3 H0 _|u Hu Hne E3 Hs _|c E3 Honly H0 _]; split.
  - intros w Hw. rewrite H0 by done. lia.
  - intros w Hw Hne Hg. specialize (H2 w Hw). specialize (H3 w Hw). at_stage v w; lia.
  - intros w Hw. rewrite Hs by done. repeat case_decide; subst; lia.
  - intros w Hw Hwm Hg. rewrite Hs by done. repeat case_decide; lia.
  - intros w Hw. rewrite H0 by done. lia.
  - intros w Hw Hne Hg. specialize (H2 w Hw). at_stage v w; try lia. by destruct Hne; apply Honly.
Qed.

(** The leader, when nobody holds the lock. *)
Lemma served_effect v v' :
  wf v → is_leader v = true → framed v v' → wf v' → (∀ u, u ∈ locks v → stage v u ≠ 2) → served v v' → effect v v'.
Proof.
  intros Hw Hl Hf Hw' H2 Hsv. destruct (served_le v v' H2 Hsv) as [Hle Ho].
  assert (Hm2 := H2 _ (me_in_locks v)).
  split; try done; [congruence|..].
  - intros _ _ (w & Hk & Hne). destruct Hsv as [H3 H0 _|u Hu Hn E3 Hs _|c E3 _ H0 _].
    + exists w. rewrite H0 by done. split; [done|lia].
    + exists u. rewrite Hs, decide_True by done. split; [done|lia].
    + exists (me v). rewrite H0 by apply me_in_locks. split; [apply me_in_locks|lia].
  - destruct Hsv as [H3 H0 Hr|u Hu Hn E3 Hs Hr|c E3 _ H0 Hr].
    + exists "". assert (H3m := H3 _ (me_in_locks v)). rewrite decide_False by (at_stage v (me v); lia).
      by rewrite app_nil_r.
    + exists "". rewrite Hs by apply me_in_locks. rewrite (decide_False (P := me v = u)) by done.
      rewrite decide_False; [by rewrite app_nil_r|]. case_decide; at_stage v (me v); lia.
    + exists c. rewrite decide_True; [done|]. rewrite H0 by apply me_in_locks. lia.
  - intros w Hk E3 E2. split; [|done]. intros ->. destruct Hsv as [H3 _ _|u Hu Hn E3' Hs _|c _ _ H0 _].
    + by destruct (H3 _ Hk).
    + rewrite Hs, decide_False, decide_False in E2 by (done || lia). lia.
    + by rewrite H0 in E2.
  - intros E3 Hfin w Hk Hne. destruct Hsv as [H3 _ _|u Hu Hn E3' Hs _|c _ Honly _ _].
    + by destruct (H3 _ (me_in_locks v)).
    + rewrite Hs, decide_False, decide_False in Hfin by (apply me_in_locks || done || lia). lia.
    + specialize (H2 w Hk). at_stage v w; try lia. by destruct Hne; apply Honly.
Qed.

(** A hook in which nothing moves. *)
Lemma idle_effect v v' :
  framed v v' → wf v' → app_bag v' = app_bag v → (∀ w, stage v' w = stage v w) → runs v' = runs v →
  stage v (me v) ≠ 2 → (is_leader v = true → ∃ u, u ∈ locks v ∧ stage v u = 2) → effect v v'.
Proof.
  intros Hf Hw Ha Hs Hr Hn Hl. split; try done.
  - intros w _. by rewrite Hs.
  - intros Hlt H2. destruct (Hl Hlt) as (u & Hu & E). by destruct (H2 u Hu).
  - intros w _ _. by rewrite Hs.
  - exists "". rewrite Hs, decide_False by lia. by rewrite app_nil_r.
  - intros w _. rewrite Hs. lia.
  - rewrite Hs. lia.
Qed.

(** The holder's run: its lock is given back, then the leader goes on. *)
Lemma stage_after_run c w v u :
  stage v (me v) = 2 → stage (after_run c w v) u = if decide (u = me v) then 1 else stage v u.
Proof.
  intros H2. unfold after_run. rewrite stage_release.
  change (stage (ran c false w (run_begin v))) with (stage v).
  change (me (ran c false w (run_begin v))) with (me v). case_decide; [|done].
  by rewrite bool_decide_eq_true_2 by (subst; auto).
Qed.

Abbreviation process_locks := (process_locks str_unit default_callback getattr).

(** The run of a leader that holds the lock: nobody waits, or the next unit is
    granted it. *)
Lemma leader_run v :
  wf v → is_leader v = true → unique str_unit v → stage v (me v) = 2 →
  ∃ x c, run_with_lock_with process_locks v = Ok x ∧ framed v x ∧ wf x ∧ runs x = (runs v ++ [c])%list ∧
    ((∀ u, u ∈ locks v → stage x u = 0) ∧ (∀ u, u ∈ locks v → u ≠ me v → stage v u = 0) ∨
     ∃ q, q ∈ locks v ∧ q ≠ me v ∧ stage v q = 3 ∧
       ∀ u, u ∈ locks v → stage x u = if decide (u = q) then 2 else if decide (u = me v) then 0 else stage v u).
Proof.
  intros Hw Hl Hu H2.
  assert (H03 : ∀ u, u ∈ locks v → u ≠ me v → stage v u = 0 ∨ stage v u = 3).
  { intros u Hk Hne. destruct (decide (stage v u = 1 ∨ stage v u = 2)) as [Hg|]; [|at_stage v u; lia].
    destruct Hne. apply Hu; [done|apply me_in_locks|by apply granted_stage|apply granted_stage; auto]. }
  destruct (run_exact process_locks v) as (c & w & ->); [apply Hw, me_in_locks|]. set (z := after_run c w v).
  assert (Hz : ∀ u, stage z u = if decide (u = me v) then 1 else stage v u) by (intros u; by apply stage_after_run).
  change (process_locks z) with (process_locks_fuel 2 z).
  destruct (process_free 0 z) as (y & -> & (Hmy & Hly & Hky) & Hwy & Hs); [by apply wf_after_run|done| |].
  { intros u Hk. rewrite Hz. case_decide as Hne; [done|]. destruct (H03 u Hk Hne) as [-> | ->]; done. }
  destruct (run_end_spec y Hwy) as (Hwe & Hme & Hle & Hke & _ & Hre & Hse). cbn [mbind result_bind].
  exists (run_end y), c. split; [done|].
  split; [split_and!; [rewrite Hme; exact Hmy|rewrite Hle; exact Hly|rewrite Hke; exact Hky]|]. split; [done|].
  change (locks z) with (locks v) in Hs. setoid_rewrite Hse.
  destruct Hs as [H3 H0 Hr|q Hk Hne E Hs Hr|? E _ _ _].
  - split; [by rewrite Hre, Hr|]. left. split; [done|]. intros u Hk Hne. destruct (H03 u Hk Hne) as [|E]; [done|].
    destruct (H3 u Hk). rewrite Hz, decide_False; done.
  - split; [by rewrite Hre, Hr|]. right. change (me z) with (me v) in Hne. exists q.
    rewrite Hz, decide_False in E by done. split_and!; [done..|]. intros u Hu'. rewrite Hs by done.
    case_decide; [done|]. rewrite Hz. destruct (decide (u = me v)) as [|Hum]; [done|].
    destruct (H03 u Hu' Hum) as [-> | ->]; done.
  - change (me z) with (me v) in E. rewrite Hz, decide_True in E by done. done.
Qed.

Lemma leader_run_effect v x c v' :
  wf v → is_leader v = true → unique str_unit v → stage v (me v) = 2 →
  framed v v' → wf v' → runs v' = (runs v ++ [c])%list → (∀ u, u ∈ locks v → stage v' u = stage x u) →
  ((∀ u, u ∈ locks v → stage x u = 0) ∧ (∀ u, u ∈ locks v → u ≠ me v → stage v u = 0) ∨
   ∃ q, q ∈ locks v ∧ q ≠ me v ∧ stage v q = 3 ∧
     ∀ u, u ∈ locks v → stage x u = if decide (u = q) then 2 else if decide (u = me v) then 0 else stage v u) →
  effect v v'.
Proof.
  intros Hw Hl Hu H2 Hf Hw' Hr Hx Hc.
  assert (Hm : stage v' (me v) = 0).
  { rewrite Hx by apply me_in_locks. destruct Hc as [[H0 _]|(q & Hk & Hne & E & Hs)]; [apply H0, me_in_locks|].
    rewrite Hs by apply me_in_locks. by rewrite decide_False, decide_True by done. }
  split; try done; try congruence; try lia.
  - intros u Hk. rewrite Hx by done. destruct Hc as [[H0 _]|(q & Hq & Hne & E & Hs)]; [rewrite H0 by done; lia|].
    rewrite Hs by done. repeat case_decide; subst; lia.
  - intros _ Hn. by destruct (Hn _ (me_in_locks v)).
  - intros u Hk Hne Hge. destruct Hc as [[_ H0]|(q & Hq & Hqm & E & Hs)]; [rewrite H0 in Hge by done; lia|].
    rewrite Hx, Hs by done. repeat case_decide; subst; try lia; done.
  - exists c. by rewrite decide_True by lia.
  - intros w _ E3 _. split; [|done]. intros ->. lia.
Qed.

(** The second time the leader looks at the locks in a hook, nothing moves. *)
Lemma process_again x :
  wf x → is_leader x = true → unique str_unit x →
  (∀ u, u ∈ locks x → stage x u = 0) ∨ (∃ q, q ∈ locks x ∧ stage x q = 2) →
  ∃ v', process_locks x = Ok v' ∧ framed x v' ∧ wf v' ∧ runs v' = runs x ∧ ∀ u, u ∈ locks x → stage v' u = stage x u.
Proof.
  intros Hw Hl Hu [H0|(q & Hq & E)].
  - destruct (process_none 1 x Hw Hl) as (v' & E & Hf & Hw' & H0' & Hr); [intros u Hk; rewrite H0 by done; lia|].
    exists v'. split_and!; [done..|]. intros u Hk. by rewrite H0, H0'.
  - exists x. split_and!; [|done..]. by eapply process_holder.
Qed.

(** A hook of a holder. *)
Lemma leader_holds v :
  wf v → is_leader v = true → unique str_unit v → stage v (me v) = 2 →
  ∃ x v', run_with_lock_with process_locks v = Ok x ∧ is_leader x = true ∧ process_locks x = Ok v' ∧ effect v v'.
Proof.
  intros Hw Hl Hu H2. destruct (leader_run v Hw Hl Hu H2) as (x & c & E & (Hm & Hlx & Hk) & Hwx & Hr & Hs).
  assert (Hux : unique str_unit x).
  { apply run_leads in E; [|done]. by apply E, Hu; apply Hw. }
  destruct (process_again x Hwx) as (v' & E' & (Hm' & Hl' & Hk') & Hw' & Hr' & Hs'); [congruence|done| |].
  { rewrite Hk. destruct Hs as [[H0 _]|(q & Hq & _ & _ & Hs)]; [by left|right].
    exists q. split; [done|]. by rewrite Hs, decide_True. }
  exists x, v'. split; [done|]. split; [congruence|]. split; [done|]. rewrite Hk in Hs'.
  apply (leader_run_effect v x c); try done; [split_and!; congruence|congruence].
Qed.

Lemma unit_holds v :
  wf v → is_leader v = false → stage v (me v) = 2 →
  ∃ x, run_with_lock_with process_locks v = Ok x ∧ is_leader x = false ∧ effect v x.
Proof.
  intros Hw Hl H2. destruct (run_exact process_locks v) as (c & w & ->); [apply Hw, me_in_locks|].
  unfold RollingOps.process_locks. rewrite not_leader_process by exact Hl. cbn [mbind result_bind].
  assert (Hwz : wf (after_run c w v)) by (by apply wf_after_run).
  destruct (run_end_spec _ Hwz) as (Hwe & Hme & Hle & Hke & Ha & Hre & Hse). exists (run_end (after_run c w v)).
  split; [done|]. split; [rewrite Hle; exact Hl|].
  assert (Hs : ∀ u, stage (run_end (after_run c w v)) u = if decide (u = me v) then 1 else stage v u)
    by (intros u; by rewrite Hse, stage_after_run).
  split; [split_and!; done|done|by rewrite Ha|..]; try setoid_rewrite Hs; try congruence; try lia.
  - intros u Hk. case_decide; [subst; lia|lia].
  - intros _. by rewrite decide_True.
  - intros u Hk Hne. by rewrite decide_False.
  - exists c. rewrite Hre, Hs, !decide_True by (done || (rewrite decide_True by done; lia)). done.
  - intros u _ E3. case_decide; lia.
Qed.

(** A hook, whatever the unit: it ends, with the effect above. *)
Lemma hook_effect v :
  wf v → unique str_unit v → ∃ v', relation_changed v = Ok v' ∧ effect v v'.
Proof.
  intros Hw Hu. unfold RollingOps.relation_changed, RollingOps.run_with_lock. rewrite is_pending_stage by (done || apply me_in_locks).
  cbn [mbind result_bind]. set (v0 := if bool_decide (stage v (me v) = 3) then _ else v).
  assert (Hv0 : ∃ st, v0 = set_unit_status st v) by (unfold v0; case_bool_decide; [by eexists|exists (unit_status v); by destruct v]).
  clearbody v0. destruct Hv0 as [st ->]. set (x := set_unit_status st v).
  assert (Heff : ∀ v', effect x v' → effect v v') by (by intros v' []; split).
  rewrite (is_held_stage (me x) x Hw (me_in_locks x)). cbn [mbind result_bind].
  destruct (is_leader v) eqn:Hl; (destruct (decide (stage x (me v) = 2)) as [H2|H2];
    [rewrite bool_decide_eq_true_2 by done|rewrite bool_decide_eq_false_2 by done; cbn [mbind result_bind]]).
  - destruct (leader_holds x Hw Hl Hu H2) as (y & v' & -> & Hly & E & He). cbn [mbind result_bind]. rewrite Hly. eauto.
  - change (is_leader x) with (is_leader v). rewrite Hl.
    destruct (decide (Exists (λ u, stage x u = 2) (locks x))) as [Hx|Hx].
    + rewrite Exists_exists in Hx. destruct Hx as (u & Hk & E).
      exists x. split; [by apply (process_holder 1 u)|]. apply Heff, idle_effect; try done. by eexists.
    + destruct (process_free 0 x Hw Hl) as (v' & E & Hf & Hw' & Hs).
      { intros u Hk E. apply Hx, Exists_exists. eauto. }
      exists v'. split; [exact E|]. apply Heff, served_effect; try done.
      intros u Hk Eu. apply Hx, Exists_exists. eauto.
  - destruct (unit_holds x Hw Hl H2) as (y & -> & Hly & He). cbn [mbind result_bind]. rewrite Hly. eauto.
  - change (is_leader x) with (is_leader v). rewrite Hl. exists x. split; [done|].
    apply Heff, idle_effect; try done. change (is_leader x) with (is_leader v). by rewrite Hl.
Qed.

(** ** The units together *)

Definition sys_stage s (u : string) : nat := stage_of (app s !! str_unit u) (sys_state s u).

(** No hook is open, the data hold what the managers write, and at most one unit
    is granted the lock. *)
Record sys_ok s : Prop := mkSysOk {
  ok_leader : leader s ∈ members s;
  ok_members : NoDup (members s);
  ok_opened : opened s = ∅;
  ok_app : ∀ u x, app s !! str_unit u = Some x → x = "granted" ∨ x = "idle";
  ok_units : ∀ u, u ∈ members s → unit_ok (default ∅ (bags s !! u));
  ok_unique : ∀ u w, u ∈ members s → w ∈ members s → sys_granted str_unit s u → sys_granted str_unit s w → u = w }.

(** What a delivered hook does to the units. *)
Record moves (u : string) (ran : list string) s s' : Prop := mkMoves {
  moves_leader : leader s' = leader s;
  moves_members : members s' = members s;
  moves_le : ∀ w, w ∈ members s → sys_stage s' w ≤ sys_stage s w;
  moves_holder : sys_stage s u = 2 → sys_stage s' u ≤ 1;
  moves_on : u = leader s → (∀ w, w ∈ members s → sys_stage s w ≠ 2) →
    (∃ w, w ∈ members s ∧ sys_stage s w ≠ 0) → ∃ w, w ∈ members s ∧ sys_stage s' w < sys_stage s w;
  moves_others : ∀ w, w ∈ members s → w ≠ u → 2 ≤ sys_stage s w → 2 ≤ sys_stage s' w;
  moves_ran : ran = if decide (2 ≤ sys_stage s u ∧ sys_stage s' u ≤ 1) then [u] else [];
  moves_grant : ∀ w, w ∈ members s → sys_stage s w = 3 → sys_stage s' w = 2 → w ≠ leader s;
  moves_last : sys_stage s u = 3 → sys_stage s' u ≤ 1 → ∀ w, w ∈ members s → w ≠ u → sys_stage s w ≤ 1 }.

Lemma locks_view_of relation charms u s :
  NoDup (members s) → u ∈ members s → locks (view_of relation charms u s) ≡ₚ members s.
Proof.
  intros Hn Hu. unfold locks. cbn. apply NoDup_Permutation; [|done|].
  - apply NoDup_app. split; [by apply NoDup_filter|]. split; [|by apply NoDup_singleton].
    intros w [Hw _]%list_elem_of_filter. by intros ?%list_elem_of_singleton.
  - intros w. rewrite elem_of_app, list_elem_of_filter, list_elem_of_singleton.
    destruct (decide (w = u)); naive_solver.
Qed.

Lemma deliver_moves relation charms u s :
  sys_ok s → u ∈ members s → ∃ ran s', deliver relation charms u s = Ok (ran, s') ∧ sys_ok s' ∧ moves u ran s s'.
Proof.
  intros I Hu. unfold deliver. set (v := view_of relation charms u s).
  assert (Hk : locks v ≡ₚ members s) by (apply locks_view_of; [apply I|done]).
  assert (Hw : wf v) by (split; [exact (ok_app s I)|]; intros w; rewrite Hk; apply (ok_units s I)).
  assert (Hun : unique str_unit v) by (unfold unique; setoid_rewrite Hk; exact (ok_unique s I)).
  destruct (hook_effect v Hw Hun) as (v' & E & He). rewrite E. cbn [mbind result_bind].
  destruct (relation_changed_leads _ _ _ _ _ E (ok_app s I)) as (Ha' & Hm & Hl & Hk' & Hb & _ & _ & Hun').
  specialize (Hun' Hun). change (me v) with u in *. set (s' := commit_view v' s).
  assert (Hst : ∀ w, sys_stage s' w = stage v' w).
  { intros w. unfold sys_stage, stage, s', commit_view, sys_state. cbn. rewrite Hm. f_equal.
    - destruct (is_leader v') eqn:El; [done|]. by rewrite (effect_app _ _ He) by congruence.
    - destruct (decide (w = u)) as [->|Hne]; [by rewrite lookup_insert_eq|]. rewrite lookup_insert_ne by done.
      by rewrite Hb. }
  exists ((λ _, u) <$> runs v'), s'. split; [done|].
  assert (Happ : app s' = app_bag v').
  { unfold s'. cbn. destruct (is_leader v') eqn:El; [done|]. by rewrite (effect_app _ _ He) by congruence. }
  assert (Hbag : ∀ w, default ∅ (bags s' !! w) = bag_of w v').
  { intros w. unfold s'. cbn. rewrite Hm. destruct (decide (w = u)) as [->|Hne]; [by rewrite lookup_insert_eq|].
    rewrite lookup_insert_ne by done. by rewrite Hb. }
  destruct He as [Hf Hw' _ Hle Hh Hlead Ho (c & Hr) Hg Hlast]. split.
  - split; try apply I.
    + unfold s'. cbn. rewrite (ok_opened s I). apply delete_empty.
    + intros w x. rewrite Happ. apply Ha'.
    + intros w Hw''. rewrite Hbag. apply Hw'. rewrite Hk', Hk. done.
    + unfold sys_granted. rewrite Happ. unfold unique in Hun'. rewrite Hk' in Hun'. setoid_rewrite Hk in Hun'. done.
  - assert (HkE : ∀ w, w ∈ members s → w ∈ locks v) by (intros w; by rewrite Hk).
    split; try done.
    + intros w Hw''. rewrite Hst. auto.
    + rewrite Hst. exact Hh.
    + intros Hul Hn (w & Hw1 & Hw2). setoid_rewrite Hst. destruct Hlead as (q & Hq & Hlt).
      * by apply bool_decide_eq_true.
      * intros q Hq. apply Hn. by rewrite <- Hk.
      * exists w. auto.
      * exists q. rewrite Hk in Hq. auto.
    + intros w Hw'' Hne. rewrite Hst. apply Ho; auto.
    + rewrite Hst, Hr. change (sys_stage s u) with (stage v u).
      by destruct (decide (2 ≤ stage v (me v) ∧ _)), (decide (2 ≤ stage v u ∧ _)).
    + intros w Hw'' E3. rewrite Hst. intros E2. destruct (Hg w (HkE w Hw'') E3 E2) as [Hne Hll]. apply bool_decide_eq_true in Hll.
      by rewrite <- Hll.
    + rewrite Hst. intros E3 E1 w Hw''. apply Hlast; auto.
Qed.

(** ** Schedules *)

(** What a schedule does to the units: those that ran are those that finished,
    once each, and the leader, unless it held the lock before, was the last. *)
Record progress (ran : list string) s s' : Prop := mkProgress {
  progress_leader : leader s' = leader s;
  progress_members : members s' = members s;
  progress_le : ∀ w, w ∈ members s → sys_stage s' w ≤ sys_stage s w;
  progress_nodup : NoDup ran;
  progress_ran : ∀ w, w ∈ ran ↔ w ∈ members s ∧ 2 ≤ sys_stage s w ∧ sys_stage s' w ≤ 1;
  progress_grant : sys_stage s (leader s) = 3 → sys_stage s' (leader s) ≠ 2;
  progress_last : sys_stage s (leader s) = 3 → leader s ∈ ran →
    list.last ran = Some (leader s) ∧ ∀ w, w ∈ members s → sys_stage s' w ≤ 1 }.

Lemma progress_refl s : progress [] s s.
Proof. split; try done; [constructor|intros w; split; [set_solver|lia]|lia|set_solver]. Qed.

Lemma moves_progress u ran1 ran2 s s1 s2 :
  leader s ∈ members s → u ∈ members s → moves u ran1 s s1 → progress ran2 s1 s2 → progress (ran1 ++ ran2)%list s s2.
Proof.
  intros Hl Hu [Ml Mm Mle Mh Mon Mo Mr Mg Mlast] [Pl Pm Ple Pn Pr Pg Plast]. rewrite Ml, Mm in *.
  assert (Hle : ∀ w, w ∈ members s → sys_stage s2 w ≤ sys_stage s w).
  { intros w Hw. specialize (Mle w Hw). specialize (Ple w Hw). lia. }
  assert (Hr1 : ∀ w, w ∈ ran1 ↔ w ∈ members s ∧ 2 ≤ sys_stage s w ∧ sys_stage s1 w ≤ 1).
  { intros w. rewrite Mr. case_decide as Hd.
    - rewrite list_elem_of_singleton. split; [by intros ->|]. intros (Hw & H2 & H1).
      destruct (decide (w = u)) as [|Hne]; [done|]. specialize (Mo w Hw Hne H2). lia.
    - split; [set_solver|]. intros (Hw & H2 & H1). destruct (decide (w = u)) as [->|Hne]; [tauto|].
      specialize (Mo w Hw Hne H2). lia. }
  split; try congruence; try done.
  - apply NoDup_app. split; [rewrite Mr; case_decide; [by apply NoDup_singleton|constructor]|]. split; [|done].
    intros w (_ & _ & H1)%Hr1 (_ & H2 & _)%Pr. lia.
  - intros w. rewrite elem_of_app, Hr1, Pr. split.
    + intros [(Hw & H2 & H1)|(Hw & H2 & H1)]; specialize (Ple w Hw); specialize (Mle w Hw); (split; [done|lia]).
    + intros (Hw & H2 & H1). destruct (decide (sys_stage s1 w ≤ 1)); [left|right]; (split; [done|lia]).
  - intros E3. specialize (Mle _ Hl). destruct (decide (sys_stage s1 (leader s) = 3)) as [E|E]; [by apply Pg|].
    specialize (Ple _ Hl). intros E2. assert (sys_stage s1 (leader s) = 2) by lia. by destruct (Mg _ Hl E3).
  - intros E3 [Hin|Hin]%elem_of_app.
    + apply Hr1 in Hin as (_ & _ & H1). assert (u = leader s) as ->.
      { destruct (decide (leader s = u)) as [|Hne]; [done|]. specialize (Mo _ Hl Hne). lia. }
      assert (Hall : ∀ w, w ∈ members s → sys_stage s1 w ≤ 1).
      { intros w Hw. destruct (decide (w = leader s)) as [->|Hne]; [done|]. specialize (Mle w Hw).
        specialize (Mlast E3 H1 w Hw Hne). lia. }
      assert (ran2 = []) as ->.
      { apply elem_of_nil_inv. intros w (Hw & H2 & _)%Pr. specialize (Hall w Hw). lia. }
      rewrite app_nil_r, Mr, decide_True by lia. split; [done|]. intros w Hw. specialize (Ple w Hw). specialize (Hall w Hw). lia.
    + apply Pr in Hin as Hin'. destruct Hin' as (_ & H2 & _). specialize (Mle _ Hl).
      assert (E : sys_stage s1 (leader s) = 3).
      { destruct (decide (sys_stage s1 (leader s) = 2)) as [E|]; [by destruct (Mg _ Hl E3)|lia]. }
      destruct (Plast E Hin) as [Hlast Hall]. split; [|done]. rewrite last_app, Hlast. done.
Qed.

Lemma schedule_progress relation charms turns s :
  sys_ok s → turns ⊆ members s →
  ∃ ran s', schedule relation charms turns s = Ok (ran, s') ∧ sys_ok s' ∧ progress ran s s'.
Proof.
  revert s. induction turns as [|u turns IH]; intros s I Ht; cbn.
  { exists [], s. split; [done|]. split; [done|apply progress_refl]. }
  destruct (deliver_moves relation charms u s I) as (ran1 & s1 & -> & I1 & M); [set_solver|]. cbn [mbind result_bind].
  destruct (IH s1 I1) as (ran2 & s2 & -> & I2 & P); [rewrite (moves_members _ _ _ _ M); set_solver|]. cbn.
  eexists _, s2. split; [done|]. split; [done|]. apply (moves_progress u ran1 ran2 s s1 s2); [apply I|set_solver|done|done].
Qed.

(** A round, in which every unit gets a turn, moves somebody on. *)
Definition movable (turns : list string) s : Prop :=
  (∃ q, q ∈ turns ∧ q ∈ members s ∧ sys_stage s q = 2) ∨
  leader s ∈ turns ∧ (∀ w, w ∈ members s → sys_stage s w ≠ 2) ∧ (∃ w, w ∈ members s ∧ sys_stage s w ≠ 0).

Lemma schedule_moves relation charms turns s ran s' :
  sys_ok s → turns ⊆ members s → movable turns s → schedule relation charms turns s = Ok (ran, s') →
  ∃ w, w ∈ members s ∧ sys_stage s' w < sys_stage s w.
Proof.
  revert s ran. induction turns as [|u turns IH]; intros s ran I Ht Hm; cbn.
  { destruct Hm as [(q & Hq & _)|[Hq _]]; set_solver. }
  destruct (deliver_moves relation charms u s I) as (ran1 & s1 & -> & I1 & M); [set_solver|]. cbn [mbind result_bind].
  pose proof (moves_members _ _ _ _ M) as Em. pose proof (moves_leader _ _ _ _ M) as El.
  destruct (schedule_progress relation charms turns s1 I1) as (ran2 & s2 & E & _ & P); [rewrite Em; set_solver|].
  rewrite E. cbn. intros [= _ <-].
  destruct (decide (Exists (λ w, sys_stage s1 w < sys_stage s w) (members s))) as [Hx|Hx].
  { rewrite Exists_exists in Hx. destruct Hx as (w & Hw & Hlt). exists w. split; [done|].
    pose proof (progress_le _ _ _ P w) as Hle. rewrite Em in Hle. specialize (Hle Hw). lia. }
  assert (Heq : ∀ w, w ∈ members s → sys_stage s1 w = sys_stage s w).
  { intros w Hw. pose proof (moves_le _ _ _ _ M w Hw). destruct (decide (sys_stage s1 w < sys_stage s w)); [|lia].
    destruct Hx. apply Exists_exists. eauto. }
  destruct (IH s1 ran2 I1) as (w & Hw & Hlt); [rewrite Em; set_solver| |done|].
  - unfold movable. rewrite Em, El. destruct Hm as [(q & [->|Hq]%elem_of_cons & Hqm & E2)|([El'|Hl]%elem_of_cons & H2 & w & Hw & H0)].
    + pose proof (moves_holder _ _ _ _ M E2). specialize (Heq u Hqm). lia.
    + left. exists q. rewrite Heq by done. done.
    + destruct (moves_on _ _ _ _ M) as (q & Hq & Hlt); [done|done|by eexists|]. specialize (Heq q Hq). lia.
    + right. split; [done|]. split; [intros q Hq; rewrite Heq by done; by apply H2|]. exists w. by rewrite Heq.
  - rewrite Em in Hw. exists w. rewrite <- (Heq w) by done. done.
Qed.

Definition work s : nat := sum_list_with (sys_stage s) (members s).

Lemma work_zero s : work s = 0 ↔ ∀ w, w ∈ members s → sys_stage s w = 0.
Proof.
  clear Hdefault Inj0 default_callback getattr. unfold work. induction (members s) as [|x l IH]; cbn; [set_solver|]. split.
  - intros H w [->|Hw]%elem_of_cons; [lia|]. apply IH; [lia|done].
  - intros H. rewrite H by set_solver. apply IH. set_solver.
Qed.

Lemma round_work relation charms turns s ran s' :
  sys_ok s → members s ⊆ turns → turns ⊆ members s → schedule relation charms turns s = Ok (ran, s') →
  work s' ≤ work s - 1.
Proof.
  intros I Hm Ht E. destruct (schedule_progress relation charms turns s I Ht) as (? & ? & E' & _ & P).
  rewrite E in E'. injection E' as <- <-. unfold work. rewrite (progress_members _ _ _ P).
  destruct (decide (work s = 0)) as [H0|H0].
  { pose proof (sum_list_with_le _ _ _ (progress_le _ _ _ P)). fold (work s) in *. lia. }
  destruct (schedule_moves relation charms turns s ran s' I Ht) as (w & Hw & Hlt); [|done|].
  - unfold movable. destruct (decide (Exists (λ w, sys_stage s w = 2) (members s))) as [Hx|Hx].
    + rewrite Exists_exists in Hx. destruct Hx as (q & Hq & E2). left. exists q. auto.
    + right. split; [apply Hm, I|]. split; [intros w Hw E2; apply Hx, Exists_exists; eauto|].
      destruct (decide (Exists (λ w, sys_stage s w ≠ 0) (members s))) as [Hy|Hy]; [by apply Exists_exists|].
      destruct H0. apply work_zero. intros w Hw. destruct (decide (sys_stage s w = 0)); [done|].
      destruct Hy. apply Exists_exists. eauto.
  - pose proof (sum_list_with_lt _ _ _ w (progress_le _ _ _ P) Hw Hlt). lia.
Qed.

Lemma schedule_app relation charms l1 l2 s :
  schedule relation charms (l1 ++ l2) s =
  ('(ran1, s1) ← schedule relation charms l1 s; '(ran2, s2) ← schedule relation charms l2 s1; Ok (ran1 ++ ran2, s2)%list).
Proof.
  revert s. induction l1 as [|u l1 IH]; intros s; cbn.
  - by destruct (schedule _ _ l2 s) as [[]|].
  - destruct (deliver relation charms u s) as [[ran s1]|]; [|done]. cbn. rewrite IH.
    destruct (schedule relation charms l1 s1) as [[ran1 s2]|]; [|done]. cbn.
    destruct (schedule relation charms l2 s2) as [[ran2 s3]|]; [|done]. cbn. by rewrite app_assoc.
Qed.

Lemma rounds_work relation charms rounds s ran s' :
  sys_ok s → Forall (λ r, ∀ w, w ∈ r ↔ w ∈ members s) rounds →
  schedule relation charms (concat rounds) s = Ok (ran, s') → work s' ≤ work s - length rounds.
Proof.
  revert s ran. induction rounds as [|r rounds IH]; intros s ran I Hr; cbn.
  { intros [= _ <-]. lia. }
  apply Forall_cons in Hr as [Hr Hrs]. rewrite schedule_app. rewrite result_bind_ok. intros ([ran1 s1] & E1 & E).
  rewrite result_bind_ok in E. destruct E as ([ran2 s2] & E2 & [= _ <-]).
  assert (Hsub : r ⊆ members s) by (intros w; by rewrite Hr).
  destruct (schedule_progress relation charms r s I Hsub) as (? & ? & E' & I1 & P). rewrite E1 in E'. injection E' as <- <-.
  apply round_work in E1; [|done|intros w; by rewrite Hr|done].
  apply IH in E2; [lia|done|by rewrite (progress_members _ _ _ P)].
Qed.
End progress.

(** ** Progress *)

