(* ===== verification/RollingRestart.v ===== *)
(** * The rolling restart of the brokers

    The charm's [_restart_broker] under the lock of RollingOps.v: what blocks a
    rolling restart, and when two brokers restart at once. *)

From S2P Require Import Prelude PyStr PyDict Json Literals Models K8s Cluster ClusterFacts Workload Auth Config Controller Balancer Tls Operator Sample TlsHandler Provider Broker Charm RollingOps Rolling RollingProgress.
Import RollingOps.

Local Open Scope string_scope.

(** [str] of a unit. *)
Definition unit_str (u : string) : string := "<ops.model.Unit " ++ u ++ ">".

#[export] Instance unit_str_inj : Inj (=) (=) unit_str.
Proof. intros x y H. apply append_inj_l in H. by apply append_inj_r in H. Qed.

Section restart.
Context {D : Type} `{RelationData D} {S : Type} `{Host S} `{X509} `{KafkaTools S}.

Abbreviation callback := "_restart_broker".
Abbreviation method := (KafkaCharm.method (D := D) (S := S)).
Implicit Types v : view (KafkaCharm.charm_in_hook (D := D) (S := S)).
Implicit Types s : system (W := KafkaCharm.charm_in_hook (D := D) (S := S)).

(** The request that the addition of a storage makes. *)
Definition storage_callback : string := "_disable_enable_restart_broker".

(** A unit that was granted the lock for a storage, and has not run yet. *)
Record stuck (u : string) s : Prop := mkStuck {
  stuck_inv : inv unit_str callback method s;
  stuck_member : u ∈ members s;
  stuck_closed : opened s !! u = None;
  stuck_granted : sys_granted unit_str s u;
  stuck_acquire : sys_state s u = Some "acquire";
  stuck_callback : default (∅ : databag) (bags s !! u) !! "callback_override" = Some storage_callback }.

(** It only gets changes of the relation: it does not ask for the lock again. *)
Definition only_changed (u : string) (e : event) v : Prop :=
  disciplined unit_str e v ∧ (me v = u → e = Changed).

(** The hook of such a unit fails. *)
Lemma storage_hook_fails v :
  granted unit_str v (me v) → bag_of (me v) v !! "state" = Some "acquire" →
  bag_of (me v) v !! "callback_override" = Some storage_callback →
  relation_changed unit_str callback method v = Err (AttributeError storage_callback).
Proof.
  intros Hg Hs Hc.
  assert (Hst : state unit_str (me v) v = Ok GRANTED).
  { unfold state, unit_state, app_state. unfold granted in Hg. by rewrite Hs, Hg. }
  unfold relation_changed, is_pending. rewrite Hst. cbn [mbind result_bind]. rewrite bool_decide_eq_false_2 by done.
  unfold is_held. rewrite Hst. cbn [mbind result_bind]. rewrite bool_decide_eq_true_2 by done.
  unfold run_with_lock, run_with_lock_with.
  change (bag_of (me (set_unit_status _ v)) (set_unit_status _ v)) with (bag_of (me v) v). by rewrite Hc.
Qed.

Lemma stuck_step u s s' :
  step unit_str callback method (only_changed u) s s' → stuck u s → stuck u s'.
Proof.
  intros Hs I. assert (I' : inv unit_str callback method s').
  { apply (inv_step _ _ _ s); [|apply I]. destruct Hs as [s w v e v' Hw Hn Hv Hd Hp He|s w v v' Ho|s w Hl Hw];
      [apply step_open; [done..|apply Hd|done|done]|by eapply step_commit|by apply step_elect]. }
  destruct I as [I Hu Hc Hg Ha Hcb].
  destruct Hs as [s w v e v' Hw Hn Hv Hd Hp He|s w v v' Ho|s w Hl Hw].
  - split; try done. unfold open_view. cbn. destruct (decide (w = u)) as [->|Hne]; [|by rewrite lookup_insert_ne].
    destruct Hv as (Hm & _ & _ & Hb & Happ & _). destruct Hd as [_ Hd]. rewrite (Hd Hm) in He. cbn in He.
    rewrite storage_hook_fails in He; [done|..].
    + unfold granted. by rewrite Hm, Happ.
    + unfold bag_of. by rewrite Hm, Hb.
    + unfold bag_of. by rewrite Hm, Hb.
  - assert (Hne : u ≠ w) by congruence.
    destruct (inv_open _ _ _ s I _ _ _ Ho) as (Hw & Hm & Hl & Hk & Hb & Hok & Hr & Happ & Hm' & Hl' & e & Hd & He).
    assert (Hcl : opened (commit_view v' s) !! u = None) by (cbn; by rewrite Hm', lookup_delete_ne).
    assert (Hbg : bags (commit_view v' s) !! u = bags s !! u) by (cbn; by rewrite Hm', lookup_insert_ne).
    split; unfold sys_state; rewrite ?Hbg; try done. unfold sys_granted. cbn.
    destruct (is_leader v') eqn:El; [|done]. assert (w = leader s) as -> by (eapply bool_decide_eq_true_1; congruence).
    specialize (Happ eq_refl).
    destruct (handle_leads _ _ _ _ _ _ He Hok) as (_ & _ & _ & _ & _ & Huse & _).
    apply Huse; [congruence| |].
    + unfold granted. by rewrite Happ.
    + intros Hrel. apply (inv_released _ _ _ s I v v' u Ho) in Hrel; [congruence|congruence|done].
  - by split.
Qed.
End restart.


(** ** Two brokers that restart at once *)

(** A broker that does not lead, whose service runs or not. *)
Definition follower (unit_name : string) : cluster_state bag :=
  mkState "broker,controller" 50000 None unit_name false (Some (mkPeerData sample_app sample_unit []))
    [] None None None [] None false ["/var/lib/kafka/data/0"] 3
    (mkK8sView (λ _, Ok "10.0.0.1") (λ _, Ok 31000%Z) (λ _, Ok 31001%Z)).
Definition running_broker (unit_name : string) : KafkaCharm.charm_in_hook (D := bag) (S := machine) :=
  ([Ok true], sample_hook, charm_in (follower unit_name) (∅, ∅)).
Definition stopped_broker (unit_name : string) : KafkaCharm.charm_in_hook (D := bag) (S := machine) :=
  ([Ok true], sample_hook, Operator.with_container (mkContainer true ∅ ∅ ∅) (charm_in (follower unit_name) (∅, ∅))).

Section trace.
Context {W : Type} (default_callback : string) (getattr : string → option (W → result (bool * W))).

(** Traces of hooks that open and commit, as the steps they are. *)
Inductive label := Open (u : string) (e : event) (order : list string) (charm : W) | Commit (u : string).
Definition view_at (u : string) (order : list string) (charm : W) (s : system (W := W)) : view W :=
  mkView "restart" u (bool_decide (u = leader s)) order (bags s) (app s) (OtherStatus "") (OtherStatus "") [] false charm.
Definition exec_label (l : label) (s : system (W := W)) : option (system (W := W)) :=
  match l with
  | Open u e order charm =>
      if bool_decide (u ∈ members s ∧ opened s !! u = None ∧ (order ++ [u])%list ≡ₚ members s ∧
                      (e = Deferred → u ∈ postponed s))
      then match handle unit_str default_callback getattr e (view_at u order charm s) with
           | Ok v' => Some (open_view u e (view_at u order charm s) v' s)
           | Err _ => None
           end
      else None
  | Commit u => '(_, v') ← opened s !! u; Some (commit_view v' s)
  end.
Fixpoint exec_trace (ls : list label) (s : system (W := W)) : option (system (W := W)) :=
  match ls with [] => Some s | l :: ls => s ← exec_label l s; exec_trace ls s end.

Definition label_allowed (allowed : event → Prop) (l : label) : Prop :=
  match l with Open _ e _ _ => allowed e | Commit _ => True end.
Definition runs_at (s : system (W := W)) (u : string) : list string :=
  match opened s !! u with Some (_, v') => runs v' | None => [] end.

Lemma exec_label_step allowed l s s' :
  label_allowed allowed l → exec_label l s = Some s' →
  step unit_str default_callback getattr (λ e _, allowed e) s s'.
Proof.
  destruct l as [u e order charm|u]; cbn; intros Ha H.
  - case_bool_decide as Hg; [|done]. destruct Hg as (Hu & Hn & Hp & Hd).
    destruct (handle _ _ _ _ _) as [v'|] eqn:He; [|done]. injection H as <-. by apply step_open.
  - apply bind_Some in H as ([v v'] & Ho & [= <-]). by eapply step_commit.
Qed.

Lemma exec_trace_steps allowed ls s s' :
  Forall (label_allowed allowed) ls → exec_trace ls s = Some s' →
  rtc (step unit_str default_callback getattr (λ e _, allowed e)) s s'.
Proof.
  revert s. induction ls as [|l ls IH]; intros s Ha; cbn; [by intros [= ->]|].
  apply Forall_cons in Ha as [Hl Ha]. intros (s1 & H1 & H2)%bind_Some.
  eapply rtc_l; [by eapply exec_label_step|by apply IH].
Qed.

(** A trace that ends with two units that run the callback. *)
Lemma overlap allowed ls s u w :
  Forall (label_allowed allowed) ls →
  (s' ← exec_trace ls s; Some (bool_decide (runs_at s' u = [default_callback] ∧ runs_at s' w = [default_callback]))) = Some true →
  ∃ s', rtc (step unit_str default_callback getattr (λ e _, allowed e)) s s' ∧ running s' u ∧ running s' w.
Proof.
  intros Ha (s' & Hs & [= Hr%bool_decide_eq_true_1])%bind_Some. exists s'. split; [by eapply exec_trace_steps|].
  assert (Hx : ∀ x, runs_at s' x = [default_callback] → running s' x).
  { intros x. unfold runs_at, running. destruct (opened s' !! x) as [[v v']|]; [|done]. intros E. eexists _, _.
    split; [done|]. by rewrite E. }
  destruct Hr. split; by apply Hx.
Qed.
End trace.
Arguments Open {_} _ _ _ _.
Arguments Commit {_} _.

(** Three brokers; the second and the third wait for the lock. *)
Definition three_brokers : system (W := KafkaCharm.charm_in_hook (D := bag) (S := machine)) :=
  mkSystem "kafka/0" ["kafka/0"; "kafka/1"; "kafka/2"]
    {[ "kafka/1" := {[ "state" := "acquire" ]}; "kafka/2" := {[ "state" := "acquire" ]} ]} ∅ ∅ ∅.
Definition leader_turn : list (label (W := KafkaCharm.charm_in_hook (D := bag) (S := machine))) :=
  [Open "kafka/0" Changed ["kafka/1"; "kafka/2"] (running_broker "kafka/0"); Commit "kafka/0"].

(** The third broker is not running when it gets the lock: its restart is
    deferred, the lock given back and granted to the second one; then the
    deferred restart comes again. *)
Definition deferral_trace : list (label (W := KafkaCharm.charm_in_hook (D := bag) (S := machine))) :=
  leader_turn ++
  [Open "kafka/2" Changed ["kafka/0"; "kafka/1"] (stopped_broker "kafka/2"); Commit "kafka/2"] ++
  leader_turn ++
  [Open "kafka/1" Changed ["kafka/0"; "kafka/2"] (running_broker "kafka/1");
   Open "kafka/2" Deferred ["kafka/0"; "kafka/1"] (running_broker "kafka/2")].

(** The third broker restarts and gives the lock back; while the leader grants it
    to the second one, the third asks for it again. *)
Definition request_trace : list (label (W := KafkaCharm.charm_in_hook (D := bag) (S := machine))) :=
  leader_turn ++
  [Open "kafka/2" Changed ["kafka/0"; "kafka/1"] (running_broker "kafka/2"); Commit "kafka/2";
   Open "kafka/0" Changed ["kafka/1"; "kafka/2"] (running_broker "kafka/0");
   Open "kafka/2" (Acquire None) ["kafka/0"; "kafka/1"] (running_broker "kafka/2");
   Commit "kafka/0";
   Open "kafka/1" Changed ["kafka/0"; "kafka/2"] (running_broker "kafka/1")].



(** ** Concrete restarts *)

(** The third broker runs: nobody else does. *)
Lemma rolling_exclusive_witness :
  ∃ s, rtc (step unit_str "_restart_broker" KafkaCharm.method (disciplined unit_str)) three_brokers s ∧
    running s "kafka/2" ∧ ∀ u, running s u → u = "kafka/2".
Proof.
  destruct (overlap "_restart_broker" KafkaCharm.method (λ e, e = Changed)
    (leader_turn ++ [Open "kafka/2" Changed ["kafka/0"; "kafka/1"] (running_broker "kafka/2")])
    three_brokers "kafka/2" "kafka/2") as (s & Hs & Hr & _); [by repeat constructor|vm_compute; reflexivity|].
  exists s.
  assert (Hd : rtc (step unit_str "_restart_broker" KafkaCharm.method (disciplined unit_str)) three_brokers s).
  { eapply rtc_subrel; [|exact Hs]. intros x y. apply step_weaken. by intros e v ->. }
  split; [exact Hd|]. split; [exact Hr|]. intros u Hu.
  apply (rolling_exclusive unit_str "_restart_broker" KafkaCharm.method three_brokers s u "kafka/2"); [done|exact Hd|exact Hu|exact Hr].
Defined.

(** The second broker was granted the lock for a storage; the leader's hooks leave
    it there. *)
Definition storage_brokers : system (W := KafkaCharm.charm_in_hook (D := bag) (S := machine)) :=
  mkSystem "kafka/0" ["kafka/0"; "kafka/1"; "kafka/2"]
    {[ "kafka/1" := {[ "state" := "acquire"; "callback_override" := storage_callback ]};
       "kafka/2" := {[ "state" := "acquire" ]} ]} {[ unit_str "kafka/1" := "granted" ]} ∅ ∅.


(** Two of three units wait, with a callback that always ends. *)
Definition plain_callback (callback : string) : option (unit → result (bool * unit)) := Some (λ w, Ok (false, w)).
Definition three_units : system (W := unit) :=
  mkSystem "kafka/0" ["kafka/0"; "kafka/1"; "kafka/2"]
    {[ "kafka/0" := {[ "state" := "acquire" ]}; "kafka/2" := {[ "state" := "acquire" ]} ]} ∅ ∅ ∅.

