(* ===== verification/DataInterfaces.v ===== *)
(** * The data interfaces library (lib/charms/data_platform_libs/v0/data_interfaces.py)

    The data of a relation as the charm sees it: fields that may be in the data
    bag of a relation or in a Juju secret of the relation. [Data] is the class of
    that name with the overrides of [DataPeerData] (the peer relation) and of the
    charm's [PeerClusterData] (the relation between applications); [DataDict] the
    dictionary on top of it. The secrets of Juju are an interface. *)

From S2P Require Import Prelude PyStr PyDict Json.

Local Open Scope string_scope.
Local Open Scope Z_scope.

Abbreviation databag := (gmap string string).

(** [RelationDataContent.__setitem__]: the empty string removes a key. *)
Definition bag_set (key value : string) (bag : databag) : databag :=
  if truthy value then <[key := value]> bag else delete key bag.
Definition bag_update (items : list (string * string)) (bag : databag) : databag :=
  foldl (λ bag '(k, v), bag_set k v bag) bag items.

Definition PROV_SECRET_PREFIX : string := "secret-".
Definition PROV_SECRET_FIELDS : string := "provided-secrets".
Definition REQ_SECRET_FIELDS : string := "requested-secrets".
Definition GROUP_SEPARATOR : ascii := "@".

(** ** The secrets of Juju *)

(** The secrets an application can see, by the label it gave them or by their
    identifier; giving both labels the secret. *)
Class Secrets (T : Type) := {
  by_label : string → T → option string;
  by_id : string → string → T → option T;
  content_of : string → T → databag;
  add_secret : databag → string → T → string * T;
  grant : string → string → T → T;
  set_content_of : string → databag → T → T;
  remove_all_revisions : string → T → T }.

(** What Juju documents: a new secret has its label and content; labels are of
    one secret; an operation on a secret leaves the others alone. *)
Class SecretsLaws (T : Type) `{Secrets T} := {
  by_label_inj l l' id (t : T) : by_label l t = Some id → by_label l' t = Some id → l = l';
  by_id_label id l (t t' : T) : by_id id l t = Some t' → by_label l t' = Some id;
  by_id_content id l (t t' : T) id' : by_id id l t = Some t' → content_of id' t' = content_of id' t;
  add_secret_id c l (t : T) : (add_secret c l t).1 ≠ "";
  add_secret_label c l (t : T) l' : by_label l t = None →
    by_label l' (add_secret c l t).2 = if decide (l' = l) then Some (add_secret c l t).1 else by_label l' t;
  add_secret_content c l (t : T) : content_of (add_secret c l t).1 (add_secret c l t).2 = c;
  add_secret_others c l (t : T) l' id :
    by_label l' t = Some id → content_of id (add_secret c l t).2 = content_of id t;
  grant_label id app (t : T) l : by_label l (grant id app t) = by_label l t;
  grant_content id app (t : T) id' : content_of id' (grant id app t) = content_of id' t;
  set_content_label id c (t : T) l : by_label l (set_content_of id c t) = by_label l t;
  set_content_content id c (t : T) l id' : by_label l t = Some id →
    content_of id' (set_content_of id c t) = if decide (id' = id) then c else content_of id' t;
  remove_label id (t : T) l :
    by_label l (remove_all_revisions id t) = if decide (by_label l t = Some id) then None else by_label l t;
  remove_content id (t : T) id' : id' ≠ id → content_of id' (remove_all_revisions id t) = content_of id' t }.

(** ** Encoded fields *)

Definition get_encoded_dict (bag : databag) (field : string) : result (option (list (string * json))) :=
  data ← loads (default "{}" (bag !! field));
  Ok (match data with JObj d => Some d | _ => None end).

Definition get_encoded_list (bag : databag) (field : string) : result (option (list json)) :=
  data ← loads (default "[]" (bag !! field));
  Ok (match data with JList l => Some l | _ => None end).

Definition set_encoded_field (field : string) (value : json) (bag : databag) : databag :=
  bag_set field (dumps value) bag.

(** ** [diff] *)

Record Diff := mkDiff { added : gset string; changed : gset string; deleted : gset string }.

(** The data of the remote application but for the key [data]. *)
Definition new_data (remote : databag) : databag := delete "data" remote.
Definition json_of_bag (bag : databag) : json := JObj (prod_map id JStr <$> map_to_list bag).

(** [bucket] is the bag the last data seen is kept in, and [remote] the one of
    the event's application; without a bucket nothing is compared. *)
Definition diff (remote : option databag) (bucket : option databag) : result (Diff * option databag) :=
  match bucket with
  | None => Ok (mkDiff ∅ ∅ ∅, None)
  | Some bag =>
      old ← get_encoded_dict bag "data";
      let old_data := default [] old in
      let new_data := match remote with Some remote => new_data remote | None => ∅ end in
      let old_keys : gset string := list_to_set (dict_keys old_data) in
      let new_keys : gset string := dom new_data in
      Ok (mkDiff (new_keys ∖ old_keys)
            (filter (λ k, dict_get k old_data ≠ JStr <$> new_data !! k) (old_keys ∩ new_keys))
            (old_keys ∖ new_keys),
          Some (set_encoded_field "data" (json_of_bag new_data) bag))
  end.

(** ** Relations and interfaces *)

Inductive Scope := APP | UNIT.
#[export] Instance Scope_eq_dec : EqDecision Scope.
Proof. solve_decision. Defined.
Definition Scope_value (s : Scope) : string := match s with APP => "app" | UNIT => "unit" end.

(** The groups of [SECRET_GROUPS], with those the charm adds (core/models.py). *)
Definition USER : string := "user".
Definition TLS : string := "tls".
Definition MTLS : string := "mtls".
Definition EXTRA : string := "extra".
Definition groups : list string := [USER; TLS; MTLS; EXTRA; "broker"; "balancer"; "controller"].
Definition get_group (group : string) : option string :=
  if bool_decide (group ∈ groups) then Some group else None.

(** A relation: its name and identifier, the remote application, and the bags of
    the applications and units in it. *)
Record relation := mkRelation {
  rel_name : string; rel_id : Z; rel_app : option string; bags : gmap string databag }.

(** The two families of classes: [DataPeerData] and its descendants, and those
    that are both provider and requirer. *)
Inductive kind := Peer | Cross.
#[export] Instance kind_eq_dec : EqDecision kind.
Proof. solve_decision. Defined.

Record interface (T : Type) := mkInterface {
  class : kind;
  SCOPE : Scope;
  SECRET_LABEL_MAP : list (string * string);
  local_app : string;
  model_unit : string;
  local_unit : string;
  is_leader : bool;
  secrets_enabled : bool;
  secret_field_name : string;
  rel : relation;
  local_fields : list string;
  remote_fields : list string;
  new_secrets : list string;
  legacy_labels : list string;
  legacy_secret_uri : option string;
  secrets : T }.
Arguments mkInterface {_} _ _ _ _ _ _ _ _ _ _ _ _ _ _ _ _.
Arguments class {_} _.
Arguments SCOPE {_} _.
Arguments SECRET_LABEL_MAP {_} _.
Arguments local_app {_} _.
Arguments model_unit {_} _.
Arguments local_unit {_} _.
Arguments is_leader {_} _.
Arguments secrets_enabled {_} _.
Arguments secret_field_name {_} _.
Arguments rel {_} _.
Arguments local_fields {_} _.
Arguments remote_fields {_} _.
Arguments new_secrets {_} _.
Arguments legacy_labels {_} _.
Arguments legacy_secret_uri {_} _.
Arguments secrets {_} _.

Module Data.
Section data.
Context {T : Type} `{Secrets T}.
Implicit Types i : interface T.

Definition component i : string := match SCOPE i with APP => local_app i | UNIT => local_unit i end.
Definition bag (member : string) i : databag := default ∅ (bags (rel i) !! member).
Definition has_member (member : string) i : bool := bool_decide (is_Some (bags (rel i) !! member)).

Definition with_bag (member : string) (b : databag) i : interface T :=
  mkInterface (class i) (SCOPE i) (SECRET_LABEL_MAP i) (local_app i) (model_unit i) (local_unit i) (is_leader i)
    (secrets_enabled i) (secret_field_name i)
    (mkRelation (rel_name (rel i)) (rel_id (rel i)) (rel_app (rel i)) (<[member := b]> (bags (rel i))))
    (local_fields i) (remote_fields i) (new_secrets i) (legacy_labels i) (legacy_secret_uri i) (secrets i).
Definition with_secrets (t : T) i : interface T :=
  mkInterface (class i) (SCOPE i) (SECRET_LABEL_MAP i) (local_app i) (model_unit i) (local_unit i) (is_leader i)
    (secrets_enabled i) (secret_field_name i) (rel i)
    (local_fields i) (remote_fields i) (new_secrets i) (legacy_labels i) (legacy_secret_uri i) t.
Definition with_fields (local remote new : list string) i : interface T :=
  mkInterface (class i) (SCOPE i) (SECRET_LABEL_MAP i) (local_app i) (model_unit i) (local_unit i) (is_leader i)
    (secrets_enabled i) (secret_field_name i) (rel i)
    local remote new (legacy_labels i) (legacy_secret_uri i) (secrets i).
Definition with_legacy (labels : list string) (uri : option string) i : interface T :=
  mkInterface (class i) (SCOPE i) (SECRET_LABEL_MAP i) (local_app i) (model_unit i) (local_unit i) (is_leader i)
    (secrets_enabled i) (secret_field_name i) (rel i)
    (local_fields i) (remote_fields i) (new_secrets i) labels uri (secrets i).

(** ** Names *)

Definition is_secret_field (field : string) : bool := startswith PROV_SECRET_PREFIX field.

Definition generate_secret_label (group : string) i : string :=
  match class i with
  | Cross => str_join "." [rel_name (rel i); str_of_Z (rel_id (rel i)); group; "secret"]
  | Peer => str_join "." ([rel_name (rel i); local_app i; Scope_value (SCOPE i)] ++
                      (if bool_decide (group = EXTRA) then [] else [group]))%list
  end.
Definition generate_secret_field_name (group : string) i : string :=
  match class i with Cross => PROV_SECRET_PREFIX ++ group | Peer => secret_field_name i end.

(** [_internal_name_to_field]. *)
Definition internal_name_to_field (name : string) : result (string * string) :=
  match split_char GROUP_SEPARATOR name with
  | [] => Err (IndexError "list index out of range")
  | [field] => Ok (field, EXTRA)
  | field :: group :: _ =>
      match get_group group with
      | Some group => Ok (field, group)
      | None => Err (ValueError ("Invalid secret field " ++ name))
      end
  end.

(** ** Finding a secret *)

(** A secret and, when it was found by the label of an earlier version, that
    label. *)
Record cached_secret := mkSecret { secret_id : string; label : string; current_label : option string }.

Definition no_secrets : exn := PyException "Secrets unavailable on current Juju version".

(** [CachedSecret.meta] *)
Definition secret_meta (label : string) (uri : option string) (legacy : list string) i
    : result (option cached_secret * interface T) :=
  match by_label label (secrets i) with
  | Some id => Ok (Some (mkSecret id label None), i)
  | None =>
      match list_find (λ l, is_Some (by_label l (secrets i))) legacy with
      | Some (_, old) =>
          match by_label old (secrets i) with
          | Some id => Ok (Some (mkSecret id label (if bool_decide (old = label) then None else Some old)), i)
          | None => Ok (None, i)
          end
      | None =>
          if truthy_opt uri then
            match by_id (default "" uri) label (secrets i) with
            | Some t => Ok (Some (mkSecret (default "" uri) label None), with_secrets t i)
            | None => Err (PyException "SecretNotFoundError")
            end
          else Ok (None, i)
      end
  end.

(** The groups whose secrets are this side's. *)
Definition my_secret_groups i : list string := omap (λ field, dict_get field (SECRET_LABEL_MAP i)) (local_fields i).

Definition get_secret_uri (group : string) i : result (option string) :=
  if negb (secrets_enabled i) then Err (PyException "Secrets are not enabled for this component")
  else
    owner ← (if bool_decide (group ∈ my_secret_groups i) then Ok (component i)
             else match rel_app (rel i) with Some app => Ok app | None => Err (KeyError "None") end);
    Ok (bag owner i !! generate_secret_field_name group i).

Definition set_secret_uri (group uri : string) i : interface T :=
  with_bag (component i) (bag_set (generate_secret_field_name group i) uri (bag (component i) i)) i.

Definition get_relation_secret (group : string) i : result (option cached_secret * interface T) :=
  if negb (secrets_enabled i) then Err no_secrets
  else
    let label := generate_secret_label group i in
    match class i with
    | Cross =>
        match by_label label (secrets i) with
        | Some id => Ok (Some (mkSecret id label None), i)
        | None =>
            uri ← get_secret_uri group i;
            if truthy_opt uri then secret_meta label uri [] i else Ok (None, i)
        end
    | Peer =>
        if bool_decide (group = EXTRA) then secret_meta label (legacy_secret_uri i) (legacy_labels i) i
        else secret_meta label None [] i
    end.

(** [CachedSecret.set_content] *)
Definition set_content (s : cached_secret) (content : databag) i : interface T :=
  if bool_decide (content = content_of (secret_id s) (secrets i)) then i
  else if bool_decide (content = ∅) then with_secrets (remove_all_revisions (secret_id s) (secrets i)) i
  else
    match current_label s with
    | None => with_secrets (set_content_of (secret_id s) content (secrets i)) i
    | Some _ => (* a secret with an old label is made again with the new one *)
        let '(id, t) := add_secret (content_of (secret_id s) (secrets i)) (label s) (secrets i) in
        with_secrets (set_content_of id content t) i
    end.

(** ** Groups of fields *)

(** [setdefault(group, []).append(field)] *)
Definition append_group (group field : string) (d : list (string * list string)) : list (string * list string) :=
  dict_set group (dict_get_or group [] d ++ [field])%list d.

Fixpoint group_fields (group_of : string → result (string * string)) (fields : list string)
    (d : list (string * list string)) : result (list (string * list string)) :=
  match fields with
  | [] => Ok d
  | key :: fields => '(field, group) ← group_of key; group_fields group_of fields (append_group group field d)
  end.
Definition group_secret_fields (secret_fields : list string) i : result (list (string * list string)) :=
  group_fields
    (match class i with
     | Cross => λ key, Ok (key, opt_or (dict_get key (SECRET_LABEL_MAP i)) EXTRA)
     | Peer => internal_name_to_field
     end) secret_fields [].

Definition get_group_secret_contents (group : string) (secret_fields : list string) i
    : result (databag * interface T) :=
  names ← (match class i with
           | Cross => Ok secret_fields
           | Peer => traverse (λ k, '(field, _) ← internal_name_to_field k; Ok field) secret_fields
           end);
  '(secret, i) ← get_relation_secret group i;
  Ok (match secret with
      | Some s => filter (λ '(k, _), names = [] ∨ k ∈ names) (content_of (secret_id s) (secrets i))
      | None => ∅
      end, i).

(** [current_secret_fields]: every secret of the peer relation is looked up. *)
Fixpoint existing_fields (gs : list string) i : result (list string * interface T) :=
  match gs with
  | [] => Ok ([], i)
  | group :: gs =>
      '(content, i) ← get_group_secret_contents group [] i;
      '(rest, i) ← existing_fields gs i;
      Ok (elements (dom content) ++ rest, i)%list
  end.
Definition current_secret_fields i : result (list string * interface T) :=
  if negb (secrets_enabled i) then Ok ([], i)
  else
    '(fields, i) ← existing_fields (filter (λ g, g ∉ [USER; TLS; MTLS]) groups) i;
    Ok (remove_dups (fields ++ new_secrets i), i)%list.

Definition static_secret_fields i : list string := remote_fields i.
Definition local_secret_fields i : result (list string * interface T) :=
  match class i with
  | Cross => Ok (if secrets_enabled i then local_fields i else [], i)
  | Peer => match static_secret_fields i with [] => current_secret_fields i | fields => Ok (fields, i) end
  end.
Definition remote_secret_fields i : list string := if secrets_enabled i then remote_fields i else [].

(** The decorator [either_static_or_dynamic_secrets] of the methods of a peer
    relation. *)
Definition either_static_or_dynamic_secrets i : result (interface T) :=
  match class i, static_secret_fields i with
  | Peer, (_ :: _) as fields =>
      '(current, i) ← current_secret_fields i;
      if forallb (λ f, bool_decide (f ∈ fields)) current then Ok i
      else Err (PyException "Unsafe usage of statically and dynamically defined secrets, aborting.")
  | _, _ => Ok i
  end.

(** The secret fields both sides agreed on, as the relation has them: a peer
    relation in the bag of this side, the other kind in the one of the remote
    application. A value that is not a string is equal to no field; one that cannot
    be in a set raises, here rather than when the set is made. *)
Definition hashable (v : json) : result (option string) :=
  match v with
  | JStr s => Ok (Some s)
  | JList _ | JObj _ => Err (TypeError "unhashable type")
  | _ => Ok None
  end.
Definition encoded_fields (b : databag) (field : string) : result (option (list string)) :=
  found ← get_encoded_list b field;
  match found with
  | Some l => fields ← traverse hashable l; Ok (Some (omap (M := list) (λ f : option string, f) fields))
  | None => Ok None
  end.
Definition load_secrets_from_databag i : result (interface T) :=
  match class i with
  | Cross =>
      match rel_app (rel i) with
      | None => Err (KeyError "None")
      | Some app =>
          requested ← encoded_fields (bag app i) REQ_SECRET_FIELDS;
          provided ← encoded_fields (bag app i) PROV_SECRET_FIELDS;
          Ok (with_fields (default (local_fields i) requested) (default (remote_fields i) provided) (new_secrets i) i)
      end
  | Peer =>
      requested ← encoded_fields (bag (component i) i) REQ_SECRET_FIELDS;
      provided ← encoded_fields (bag (component i) i) PROV_SECRET_FIELDS;
      Ok (with_fields (match provided with Some ((_ :: _) as l) => l | _ => local_fields i end)
            (match requested with Some ((_ :: _) as l) => l | _ => remote_fields i end) (new_secrets i) i)
  end.

(** ** Secrets of a group *)

(** What an operation on a group answers: nothing, success, or contents. *)
Inductive op_result := Nothing | Success | Contents (d : databag).

Definition fetch_group (group : string) (secret_fields : list string) i : result (op_result * interface T) :=
  '(d, i) ← get_group_secret_contents group secret_fields i;
  Ok (if bool_decide (d = ∅) then Nothing else Contents d, i).

Definition content_for_secret_group (content : list (string * string)) (secret_fields : list string) (group : string) i
    : result (databag * interface T) :=
  match class i with
  | Cross =>
      let wanted := if bool_decide (group = EXTRA) then None else Some group in
      Ok (list_to_map (filter (λ '(k, _), k ∈ secret_fields ∧ dict_get k (SECRET_LABEL_MAP i) = wanted) content), i)
  | Peer =>
      '(fields, i) ← local_secret_fields i;
      let own := filter (λ '(k, _), k ∈ fields) content in
      own ← (if bool_decide (group = EXTRA) then Ok own
             else traverse (λ '(k, v), '(field, _) ← internal_name_to_field k; Ok (field, v)) own);
      Ok (foldl (λ d '(k, v), <[k := v]> d) ∅ own, i)
  end.

Definition add_relation_secret (uri_to_databag : bool) (data : list (string * string)) (group : string)
    (secret_fields : list string) i : result (op_result * interface T) :=
  if negb (secrets_enabled i) then Err no_secrets
  else
    known ← (if uri_to_databag then get_secret_uri group i else Ok None);
    if truthy_opt known then Ok (Nothing, i)
    else
      '(content, i) ← content_for_secret_group data secret_fields group i;
      let label := generate_secret_label group i in
      match by_label label (secrets i) with
      | Some _ => Err (PyException ("Secret " ++ label ++ " already exists"))
      | None =>
          let '(id, t) := add_secret content label (secrets i) in
          let t := match rel_app (rel i) with
                   | Some app => if (app =? local_app i)%string then t else grant id app t
                   | None => t
                   end in
          let i := with_secrets t i in
          if uri_to_databag then
            if truthy id then Ok (Success, set_secret_uri group id i)
            else Err (PyException "Secret added but is missing Secret ID")
          else Ok (Success, i)
      end.

Definition update_relation_secret (data : list (string * string)) (group : string) (secret_fields : list string) i
    : result (op_result * interface T) :=
  '(secret, i) ← get_relation_secret group i;
  match secret with
  | None => Ok (Nothing, i)
  | Some s =>
      '(content, i) ← content_for_secret_group data secret_fields group i;
      Ok (Success, set_content s (content ∪ content_of (secret_id s) (secrets i)) i)
  end.

Definition add_or_update_relation_secrets (uri_to_databag : bool) (data : list (string * string)) (group : string)
    (secret_fields : list string) i : result (op_result * interface T) :=
  '(secret, i) ← get_relation_secret group i;
  match secret with
  | Some _ => update_relation_secret data group secret_fields i
  | None => add_relation_secret uri_to_databag data group secret_fields i
  end.

(** Every field given has to be in the secret. *)
Fixpoint pop_fields (fields : list string) (content : databag) : option databag :=
  match fields with
  | [] => Some content
  | f :: fields => match content !! f with Some _ => pop_fields fields (delete f content) | None => None end
  end.
Definition delete_relation_secret (fields : list string) (group : string) (secret_fields : list string) i
    : result (op_result * interface T) :=
  '(secret, i) ← get_relation_secret group i;
  match secret with
  | None => Ok (Nothing, i)
  | Some s =>
      match pop_fields fields (content_of (secret_id s) (secrets i)) with
      | None => Ok (Nothing, i)
      | Some content =>
          if bool_decide (content = ∅) then
            let own := bag (component i) i in
            let i := with_bag (component i) (delete (generate_secret_field_name group i) own) i in
            Ok (Success, match by_label (generate_secret_label group i) (secrets i) with
                         | Some id => with_secrets (remove_all_revisions id (secrets i)) i
                         | None => i
                         end)
          else Ok (Success, set_content s content i)
      end
  end.

(** ** Fields in the bag or in a secret *)

(** [_process_secret_fields]: the operation on each group of secret fields, and
    the fields that are left to the bag. *)
Definition operation : Type := string → list string → interface T → result (op_result * interface T).
Fixpoint run_groups (op : operation) (secret_fields : list string) (gs : list (string * list string))
    (content : databag) (normal : list string) i : result (databag * list string * interface T) :=
  match gs with
  | [] => Ok (content, normal, i)
  | (group, fields) :: gs =>
      '(r, i) ← op group secret_fields i;
      match r with
      | Nothing => run_groups op secret_fields gs content (normal ++ fields) i
      | Success => run_groups op secret_fields gs content normal i
      | Contents d => run_groups op secret_fields gs (d ∪ content) normal i
      end
  end%list.
Definition fallback_to_databag (req : list string) i : bool :=
  (local_unit i =? model_unit i)%string && is_leader i &&
  existsb (λ f, bool_decide (is_Some (bag (component i) i !! f))) req.
Definition process_secret_fields (req : list string) (impacted : list string) (op : operation) i
    : result (databag * list string * interface T) :=
  if bool_decide (req ≠ []) && secrets_enabled i && negb (fallback_to_databag req i) then
    let normal := filter (λ f, f ∉ req) impacted in
    let secret_fields := filter (λ f, f ∈ req) impacted in
    grouped ← group_secret_fields secret_fields i;
    run_groups op secret_fields grouped ∅ normal i
  else Ok (∅, impacted, i).

(** [_fetch_relation_data_without_secrets], of fields that are never empty. *)
Definition fetch_relation_data_without_secrets (member : string) (fields : list string) i : databag :=
  filter (λ '(k, _), k ∈ fields) (bag member i).

Definition fetch_relation_data_with_secrets (member : string) (req : list string) (fields : list string) i
    : result (databag * interface T) :=
  let fetch fields :=
    '(content, normal, i) ← (match fields with
                             | [] => Ok (∅, [], i)
                             | _ => process_secret_fields req fields fetch_group i
                             end);
    Ok (fetch_relation_data_without_secrets member normal i ∪ content, i) in
  match fields with
  | [] =>
      if negb (has_member member i) then Ok (∅, i)
      else fetch (filter (λ f, is_secret_field f = false) (elements (dom (bag member i))) ++ req)%list
  | _ => fetch fields
  end.

Definition update_relation_data_without_secrets (member : string) (data : list (string * string)) i : interface T :=
  if has_member member i then with_bag member (bag_update data (bag member i)) i else i.
Definition delete_relation_data_without_secrets (member : string) (fields : list string) i : interface T :=
  if has_member member i then with_bag member (foldl (λ b f, delete f b) (bag member i) fields) i else i.

(** ** Reading, writing and deleting *)

Definition fetch_specific_relation_data (fields : list string) i : result (databag * interface T) :=
  match rel_app (rel i) with
  | None => Ok (∅, i)
  | Some app =>
      i ← load_secrets_from_databag i;
      fetch_relation_data_with_secrets app (remote_secret_fields i) fields i
  end.
Definition fetch_my_specific_relation_data (fields : list string) i : result (databag * interface T) :=
  match class i with
  | Cross =>
      i ← load_secrets_from_databag i;
      '(local, i) ← local_secret_fields i;
      fetch_relation_data_with_secrets (local_app i) local fields i
  | Peer =>
      i ← either_static_or_dynamic_secrets i;
      '(local, i) ← local_secret_fields i;
      fetch_relation_data_with_secrets (component i) local fields i
  end.

(** [_update_relation_data]; the charm's classes skip the provider's, which
    refuses to write before a resource was asked for. *)
Definition update_relation_data_ (data : list (string * string)) i : result (interface T) :=
  i ← either_static_or_dynamic_secrets i;
  i ← load_secrets_from_databag i;
  '(local, i) ← local_secret_fields i;
  '(_, normal, i) ← process_secret_fields local (dict_keys data)
    (add_or_update_relation_secrets (bool_decide (class i = Cross)) data) i;
  let member := match class i with Cross => local_app i | Peer => component i end in
  Ok (update_relation_data_without_secrets member (filter (λ '(k, _), k ∈ normal) data) i).

Definition delete_relation_data_ (fields : list string) i : result (interface T) :=
  i ← either_static_or_dynamic_secrets i;
  i ← (match class i, rel_app (rel i) with
       | Cross, None => Ok i
       | _, _ => load_secrets_from_databag i
       end);
  '(local, i) ← local_secret_fields i;
  '(_, normal, i) ← process_secret_fields local fields (delete_relation_secret fields) i;
  let member := match class i with Cross => local_app i | Peer => component i end in
  Ok (delete_relation_data_without_secrets member normal i).

(** ** Upgrades from earlier versions of the library, for peer relations *)

Definition legacy_names i : interface T :=
  let labels := match legacy_labels i with
                | [] => [str_join "." [local_app i; Scope_value (SCOPE i)]]
                | labels => labels
                end in
  with_legacy labels (bag (component i) i !! generate_secret_field_name EXTRA i) i.
Definition legacy_apply_on_fetch i : interface T :=
  match class i with Cross => i | Peer => legacy_names i end.

(** Fields that are to be in a secret leave the bag, and so does the reference to
    the secret once it has its label. *)
Definition legacy_migrate_fields (fields : list string) i : result (interface T) :=
  '(local, i) ← local_secret_fields i;
  Ok (delete_relation_data_without_secrets (component i) (filter (λ f, f ∈ fields) local) i).
Definition legacy_migrate_uri i : result (interface T) :=
  if negb (truthy_opt (bag (component i) i !! generate_secret_field_name EXTRA i)) then Ok i
  else
    '(secret, i) ← get_relation_secret EXTRA i;
    if bool_decide (is_Some secret) && (negb (component i =? local_app i)%string || is_leader i)
    then Ok (with_bag (component i) (delete (generate_secret_field_name EXTRA i) (bag (component i) i)) i)
    else Ok i.
Definition legacy_apply_on_update (fields : list string) i : result (interface T) :=
  match class i with
  | Cross => Ok i
  | Peer => i ← legacy_migrate_fields fields (legacy_names i); legacy_migrate_uri i
  end.
Definition legacy_apply_on_delete := legacy_apply_on_fetch.

(** ** The public methods *)

(** The decorator [leader_only]: nothing happens. *)
Definition leader_only i : bool := negb (component i =? local_app i)%string || is_leader i.

Definition fetch_relation_data (fields : list string) i : result (databag * interface T) :=
  match class i with
  | Peer => Err (NotImplementedError "Peer Relation only supports 'self-side' fetch methods: fetch_my_relation_data() and fetch_my_relation_field()")
  | Cross => fetch_specific_relation_data fields i
  end.
Definition fetch_relation_field (field : string) i : result (option string * interface T) :=
  '(d, i) ← fetch_relation_data [field] i; Ok (d !! field, i).

(** [None] from [leader_only], which peer relations do not have here. *)
Definition fetch_my_relation_data (fields : list string) i : result (option databag * interface T) :=
  if bool_decide (class i = Cross) && negb (leader_only i) then Ok (None, i)
  else '(d, i) ← fetch_my_specific_relation_data fields (legacy_apply_on_fetch i); Ok (Some d, i).
Definition fetch_my_relation_field (field : string) i : result (option string * interface T) :=
  '(d, i) ← fetch_my_relation_data [field] i; Ok (d ← d; d !! field, i).

Definition update_relation_data (data : list (string * string)) i : result (interface T) :=
  if negb (leader_only i) then Ok i
  else i ← legacy_apply_on_update (dict_keys data) i; update_relation_data_ data i.
Definition delete_relation_data (fields : list string) i : result (interface T) :=
  if negb (leader_only i) then Ok i
  else delete_relation_data_ fields (legacy_apply_on_delete i).

(** [set_secret] and [delete_secret] of a peer relation, without a group. *)
Definition dynamic_secrets_only i : result () :=
  guard_or (bool_decide (static_secret_fields i = []))
    (PyException "Unsafe usage of statically and dynamically defined secrets, aborting.").
Definition set_secret (field value : string) i : result (interface T) :=
  _ ← dynamic_secrets_only i;
  i ← legacy_apply_on_update [field] i;
  '(current, i) ← current_secret_fields i;
  let i := if secrets_enabled i && negb (bool_decide (field ∈ current))
           then with_fields (local_fields i) (remote_fields i) (new_secrets i ++ [field])%list i else i in
  update_relation_data [(field, value)] i.
Definition delete_secret (field : string) i : result (interface T) :=
  _ ← dynamic_secrets_only i;
  let i := legacy_apply_on_delete i in
  '(current, i) ← current_secret_fields i;
  if secrets_enabled i && negb (bool_decide (field ∈ current)) then Ok i
  else delete_relation_data [field] i.
End data.
End Data.

(** ** The dictionary *)

Module DataDict.
Section data_dict.
Context {T : Type} `{Secrets T}.
Implicit Types i : interface T.

(** [data]: this side's fields over the remote ones. *)
Definition data i : result (databag * interface T) :=
  '(mine, i) ← Data.fetch_my_relation_data [] i;
  '(remote, i) ← (match class i with Peer => Ok (∅, i) | Cross => Data.fetch_relation_data [] i end);
  Ok (default ∅ mine ∪ remote, i).

Definition getitem (key : string) i : result (string * interface T) :=
  '(mine, i) ← Data.fetch_my_relation_field key i;
  '(found, i) ← (if truthy_opt mine then Ok (mine, i)
                 else match class i with Peer => Ok (None, i) | Cross => Data.fetch_relation_field key i end);
  match found with
  | Some v => if truthy v then Ok (v, i) else Err (KeyError key)
  | None => Err (KeyError key)
  end.

(** [get], whose default is [None]. *)
Definition get (key : string) i : result (option string) :=
  match getitem key i with
  | Ok (v, _) => Ok (Some v)
  | Err (KeyError _) => Ok None
  | Err e => Err e
  end.
Definition items i : result (list (string * string)) := '(d, _) ← data i; Ok (map_to_list d).
Definition setitem (key item : string) i : result (interface T) := Data.update_relation_data [(key, item)] i.
Definition update (items : list (string * string)) i : result (interface T) := Data.update_relation_data items i.
Definition delitem (key : string) i : result (interface T) := Data.delete_relation_data [key] i.
End data_dict.
End DataDict.

(** ** The peer cluster handler's use of the library (events/peer_cluster.py) *)

Module PeerClusterEventsHandler.
Section peer_cluster.
Context {T : Type} `{Secrets T}.
Implicit Types i : interface T.

(** Looking a secret up by its reference gives it the label of its group. *)
Fixpoint register_groups (added_fields : gset string) (app : string) (gs : list string) i : result (interface T) :=
  match gs with
  | [] => Ok i
  | group :: gs =>
      let secret_field := PROV_SECRET_PREFIX ++ group in
      let uri := Data.bag app i !! secret_field in
      i ← (if bool_decide (secret_field ∈ added_fields) && truthy_opt uri
           then '(_, i) ← Data.secret_meta (Data.generate_secret_label group i) uri [] i; Ok i
           else Ok i);
      register_groups added_fields app gs i
  end.

(** [_default_relation_changed], of a relation event. *)
Definition default_relation_changed i : result (interface T) :=
  match rel_app (rel i) with
  | None => Ok i
  | Some app =>
      '(d, bucket) ← diff (bags (rel i) !! app) (Some (Data.bag (local_app i) i));
      let i := match bucket with Some b => Data.with_bag (local_app i) b i | None => i end in
      if existsb Data.is_secret_field (elements (added d)) then register_groups (added d) app groups i else Ok i
  end.
End peer_cluster.
End PeerClusterEventsHandler.
