(* ===== verification/DataInterfacesDiff.v ===== *)
(** * What the data interfaces library tells of a change

    [diff] compares the data of the remote application with the data the bucket
    has of the last time, and keeps the new data there. *)

From S2P Require Import Prelude PyStr PyDict Json DataInterfaces.

Local Open Scope string_scope.

(** ** A bag as a JSON document *)

Definition json_items (b : databag) : list (string * json) := prod_map id JStr <$> map_to_list b.

Lemma json_items_keys (b : databag) : dict_keys (json_items b) = (map_to_list b).*1.
Proof. unfold dict_keys, json_items. rewrite <- list_fmap_compose. by apply list_fmap_ext. Qed.

Lemma json_items_wf (b : databag) : dict_wf (json_items b).
Proof. unfold dict_wf. rewrite json_items_keys. apply NoDup_fst_map_to_list. Qed.

Lemma elem_of_json_keys (b : databag) k : k ∈ dict_keys (json_items b) ↔ k ∈ dom b.
Proof.
  rewrite json_items_keys, list_elem_of_fmap, elem_of_dom. split.
  - intros ([k' v] & -> & Hk%elem_of_map_to_list). by exists v.
  - intros [v Hv]. exists (k, v). split; [done|]. by apply elem_of_map_to_list.
Qed.

Lemma json_items_get (b : databag) k : dict_get k (json_items b) = JStr <$> b !! k.
Proof.
  destruct (b !! k) as [v|] eqn:E; cbn.
  - apply dict_elem_get; [apply json_items_wf|]. apply list_elem_of_fmap. exists (k, v). split; [done|].
    by apply elem_of_map_to_list.
  - apply dict_get_None. rewrite elem_of_json_keys. by apply not_elem_of_dom.
Qed.

Lemma json_items_empty (b : databag) : json_items b = [] → b = ∅.
Proof. unfold json_items. by intros Hb%fmap_nil_inv%map_to_list_empty_iff. Qed.

Lemma loads_bag (b : databag) : loads (dumps (json_of_bag b)) = Ok (JObj (json_items b)).
Proof.
  apply loads_dumps. cbn [plain json_of_bag]. apply andb_true_iff. split; [apply bool_decide_eq_true, json_items_wf|].
  apply forallb_forall. by intros kv ([k v] & <- & _)%in_map_iff.
Qed.

Lemma dumps_bag_truthy b : truthy (dumps (json_of_bag b)) = true.
Proof. done. Qed.

(** ** The data last seen *)

(** What the bucket has of the data last seen; nothing before the first time. *)
Definition seen (bucket old : databag) : Prop :=
  bucket !! "data" = Some (dumps (json_of_bag old)) ∨ bucket !! "data" = None ∧ old = ∅.

Lemma seen_decodes bucket old : seen bucket old → get_encoded_dict bucket "data" = Ok (Some (json_items old)).
Proof.
  unfold get_encoded_dict. intros [-> | [-> ->]]; [|done].
  by rewrite (loads_bag old : loads (default "{}" (Some _)) = _).
Qed.

(** The keys of [new] that were not in [old], those in both with another value,
    and those that are gone. *)
Definition difference (old new : databag) : Diff :=
  mkDiff (dom new ∖ dom old) (filter (λ k, old !! k ≠ new !! k) (dom old ∩ dom new)) (dom old ∖ dom new).

Lemma diff_seen remote bucket old : seen bucket old →
  ∃ bucket', diff (Some remote) (Some bucket) = Ok (difference old (new_data remote), Some bucket') ∧
    seen bucket' (new_data remote) ∧ delete "data" bucket' = delete "data" bucket.
Proof.
  intros Hs. unfold diff. rewrite (seen_decodes _ _ Hs). cbn [mbind result_bind].
  change (default [] (Some (json_items old))) with (json_items old).
  assert (list_to_set (dict_keys (json_items old)) = (dom old : gset string)) as Hdom.
  { apply set_eq. intros k. by rewrite elem_of_list_to_set, elem_of_json_keys. }
  cbv zeta. rewrite Hdom. eexists. split; [|split].
  - unfold difference. do 3 f_equal. apply set_eq. intros k. rewrite !elem_of_filter, json_items_get.
    apply and_iff_compat_r. apply not_iff_compat.
    destruct (old !! k), (new_data remote !! k); cbn; naive_solver.
  - left. unfold set_encoded_field, bag_set. rewrite dumps_bag_truthy. apply lookup_insert_eq.
  - unfold set_encoded_field, bag_set. rewrite dumps_bag_truthy. by rewrite delete_insert_eq.
Qed.

(** Every change of the remote application's data is told exactly once: the keys
    [diff] reports are those that were added, changed and deleted since the data
    the bucket had, whatever the values are; nothing else in the bucket changes;
    and asked again before the data changes, it reports nothing. *)
Theorem diff_reports_changes_once remote bucket old :
  seen bucket old →
  ∃ bucket', diff (Some remote) (Some bucket) = Ok (difference old (new_data remote), Some bucket') ∧
    delete "data" bucket' = delete "data" bucket ∧
    ∃ bucket'', diff (Some remote) (Some bucket') = Ok (mkDiff ∅ ∅ ∅, Some bucket'').
Proof.
  intros Hs. destruct (diff_seen remote bucket old Hs) as (b1 & Hd & Hs1 & Hsame).
  destruct (diff_seen remote b1 _ Hs1) as (b2 & Hd2 & _ & _).
  exists b1. split; [done|]. split; [done|]. exists b2. rewrite Hd2. unfold difference.
  rewrite difference_diag_L. do 3 f_equal. apply set_eq. intros k. rewrite elem_of_filter. set_solver.
Qed.

Lemma diff_reports_changes_once_witness :
  ∃ bucket', diff (Some {["topic" := "t"; "data" := "{}"]}) (Some {["endpoints" := "e"]}) =
    Ok (mkDiff {["topic"]} ∅ ∅, Some bucket') ∧ bucket' !! "endpoints" = Some "e".
Proof.
  destruct (diff_reports_changes_once {["topic" := "t"; "data" := "{}"]} {["endpoints" := "e"]} ∅) as (b & Hd & Hsame & _).
  - right. split; reflexivity.
  - exists b. split; [rewrite Hd; f_equal|]. 
    apply (f_equal (lookup "endpoints")) in Hsame. by rewrite !lookup_delete_ne in Hsame by discriminate.
Defined.
