(* ===== verification/DataInterfacesFacts.v ===== *)
(** * Peer relations of the data interfaces library

    What the charm's peer interfaces promise: reading, writing and deleting
    through them is a finite map from field names to values, wherever the library
    puts a field, and the fields declared secret are never in the data bag. *)

From S2P Require Import Prelude PyStr PyDict Json DataInterfaces.

Local Open Scope string_scope.

(** ** Lists and maps *)

(** The last value a list of items has for a key. *)
Definition last_value (k : string) (data : list (string * string)) : option string :=
  foldl (λ d '(k, v), <[k := v]> d) (∅ : databag) data !! k.

Lemma foldl_insert_lookup (data : list (string * string)) (m : databag) k :
  foldl (λ d '(k, v), <[k := v]> d) m data !! k =
  match last_value k data with Some v => Some v | None => m !! k end.
Proof.
  unfold last_value. induction data as [|[k' v'] data IH] using rev_ind; [done|].
  rewrite !foldl_app. cbn [foldl]. rewrite !lookup_insert. case_decide; [done|]. apply IH.
Qed.

Lemma bag_update_lookup (data : list (string * string)) (m : databag) k :
  bag_update data m !! k =
  match last_value k data with Some v => if truthy v then Some v else None | None => m !! k end.
Proof.
  unfold bag_update, last_value. induction data as [|[k' v'] data IH] using rev_ind; [done|].
  rewrite !foldl_app. cbn [foldl]. rewrite lookup_insert. unfold bag_set at 1.
  destruct (truthy v') eqn:E; [rewrite lookup_insert|rewrite lookup_delete]; (case_decide; [by rewrite ?E|apply IH]).
Qed.

Lemma last_value_snoc k k' v data :
  last_value k (data ++ [(k', v)]) = if decide (k' = k) then Some v else last_value k data.
Proof. unfold last_value. rewrite foldl_app. cbn. apply lookup_insert. Qed.

Lemma last_value_filter (P : string → Prop) `{∀ k, Decision (P k)} k data :
  last_value k (filter (λ '(k, _), P k) data) = if decide (P k) then last_value k data else None.
Proof.
  induction data as [|[k' v'] data IH] using rev_ind; [by case_decide|].
  rewrite filter_app, last_value_snoc. destruct (decide (P k')) as [Hk'|Hk'].
  - rewrite filter_cons_True, filter_nil, last_value_snoc by done.
    destruct (decide (k' = k)) as [->|]; [by rewrite decide_True|done].
  - rewrite filter_cons_False, filter_nil, app_nil_r, IH by done.
    destruct (decide (P k)), (decide (k' = k)); congruence.
Qed.

Lemma last_value_None k data : k ∉ dict_keys data → last_value k data = None.
Proof.
  induction data as [|[k' v'] data IH] using rev_ind; [done|].
  unfold dict_keys in *. rewrite fmap_app, last_value_snoc, elem_of_app. cbn. intros Hk.
  rewrite decide_False by set_solver. apply IH. set_solver.
Qed.

Lemma last_value_is_Some k data v : last_value k data = Some v → k ∈ dict_keys data.
Proof.
  destruct (decide (k ∈ dict_keys data)); [done|]. by rewrite last_value_None.
Qed.

(** ** Peer interfaces *)

Section peer.
Context {T : Type} `{SecretsLaws T}.
(** The fields that are secret, and the name of the field earlier versions kept
    the reference to the secret in. *)
Variables (secret : string → bool) (internal : string).
Implicit Types i : interface T.

Definition own i : databag := Data.bag (Data.component i) i.
Definition secret_label i : string := Data.generate_secret_label EXTRA i.
Definition legacy_label i : string := str_join "." [local_app i; Scope_value (SCOPE i)].
(** The secret of the relation. *)
Definition content i : databag :=
  match by_label (secret_label i) (secrets i) with
  | Some id => content_of id (secrets i)
  | None => ∅
  end.
(** The fields in the order [DataDict] looks for them. *)
Definition view i : databag := content i ∪ own i.

(** Names the library uses itself are not fields. *)
Definition ordinary (k : string) : Prop :=
  lacks GROUP_SEPARATOR k = true ∧ k ∉ [REQ_SECRET_FIELDS; PROV_SECRET_FIELDS; internal].

(** An interface of a unit, or of the application on its leader; with secrets
    in Juju and no data of an earlier version of the library. The unit's
    interface declares the secret fields; the application's finds them in the
    secret, or is told by [set_secret]. *)
Record peer i : Prop := mkPeer {
  peer_class : class i = Peer;
  peer_enabled : secrets_enabled i = true;
  peer_leader : Data.leader_only i = true;
  peer_member : Data.has_member (Data.component i) i = true;
  peer_internal : secret_field_name i = internal;
  peer_groups g : g ∈ ["broker"; "balancer"; "controller"] →
    by_label (Data.generate_secret_label g i) (secrets i) = None;
  peer_legacy_labels : legacy_labels i = [] ∨ legacy_labels i = [legacy_label i];
  peer_legacy : by_label (legacy_label i) (secrets i) = None;
  peer_uri : legacy_secret_uri i = None;
  peer_reserved k : k ∈ [REQ_SECRET_FIELDS; PROV_SECRET_FIELDS; internal] → own i !! k = None;
  peer_plain k : is_Some (own i !! k) → secret k = false;
  peer_secret k : is_Some (content i !! k) → secret k = true;
  peer_new k : k ∈ new_secrets i → secret k = true;
  peer_static : remote_fields i = [] ∨ ∀ k, k ∈ remote_fields i ↔ secret k = true;
  peer_names k : secret k = true → lacks GROUP_SEPARATOR k = true }.

Hint Resolve peer_class peer_enabled peer_leader peer_member peer_internal peer_legacy peer_uri : core.

Lemma with_fields_id i : Data.with_fields (local_fields i) (remote_fields i) (new_secrets i) i = i.
Proof. by destruct i. Qed.

(** *** The labels of the secrets *)

Lemma group_label i g : class i = Peer → g ≠ EXTRA →
  Data.generate_secret_label g i = secret_label i ++ "." ++ g.
Proof.
  intros Hc Hg. unfold secret_label, Data.generate_secret_label. rewrite Hc.
  rewrite bool_decide_eq_false_2 by done. rewrite bool_decide_eq_true_2 by done. cbn.
  do 3 (rewrite ?append_assoc; cbn). done.
Qed.

Lemma group_label_ne i g : class i = Peer → g ≠ EXTRA → Data.generate_secret_label g i ≠ secret_label i.
Proof. intros Hc Hg. rewrite group_label by done. by apply append_longer. Qed.

Lemma legacy_label_ne i : class i = Peer → legacy_label i ≠ secret_label i.
Proof.
  intros Hc Heq%(f_equal String.length). revert Heq.
  unfold secret_label, Data.generate_secret_label, legacy_label. rewrite Hc, bool_decide_eq_true_2 by done.
  cbn. rewrite !append_length. cbn. rewrite !append_length. cbn. lia.
Qed.

(** *** The secret *)

Lemma peer_relation_secret i : peer i →
  Data.get_relation_secret EXTRA i =
  Ok ((λ id, Data.mkSecret id (secret_label i) None) <$> by_label (secret_label i) (secrets i), i).
Proof.
  intros Hi. unfold Data.get_relation_secret. rewrite peer_enabled, peer_class by done. cbn [negb].
  rewrite bool_decide_eq_true_2, peer_uri by done. unfold Data.secret_meta. fold (secret_label i).
  destruct (by_label (secret_label i) (secrets i)); [done|]. cbn [fmap option_fmap option_map].
  destruct (peer_legacy_labels _ Hi) as [-> | ->]; [done|].
  cbn [list_find fmap option_fmap option_map]. rewrite decide_False; [done|].
  rewrite peer_legacy by done. by intros [? ?].
Qed.

Lemma peer_group_secret i g : peer i → g ∈ ["broker"; "balancer"; "controller"] →
  Data.get_relation_secret g i = Ok (None, i).
Proof.
  intros Hi Hg. unfold Data.get_relation_secret. rewrite peer_enabled, peer_class by done. cbn [negb].
  rewrite bool_decide_eq_false_2 by set_solver. unfold Data.secret_meta.
  by rewrite (peer_groups _ Hi).
Qed.

Lemma plain_name k : lacks GROUP_SEPARATOR k = true → Data.internal_name_to_field k = Ok (k, EXTRA).
Proof. intros Hk. unfold Data.internal_name_to_field. by rewrite split_char_lacks. Qed.

Lemma extra_contents i names : peer i →
  (∀ k, k ∈ names → lacks GROUP_SEPARATOR k = true) →
  Data.get_group_secret_contents EXTRA names i =
  Ok (filter (λ '(k, _), names = [] ∨ k ∈ names) (content i), i).
Proof.
  intros Hi Hn. unfold Data.get_group_secret_contents. rewrite peer_class by done.
  assert (traverse (λ k : string, '(field, _) ← Data.internal_name_to_field k; Ok field) names = Ok names) as ->.
  { induction names as [|k names IH]; [done|]. cbn [traverse]. rewrite plain_name by (apply Hn; set_solver).
    cbn [mbind result_bind]. rewrite IH by (intros; apply Hn; set_solver). done. }
  cbn [mbind result_bind]. rewrite peer_relation_secret by done. cbn [mbind result_bind]. unfold content.
  by destruct (by_label (secret_label i) (secrets i)).
Qed.

Lemma other_contents i g : peer i → g ∈ ["broker"; "balancer"; "controller"] →
  Data.get_group_secret_contents g [] i = Ok (∅, i).
Proof.
  intros Hi Hg. unfold Data.get_group_secret_contents. rewrite peer_class by done. cbn.
  by rewrite peer_group_secret.
Qed.

(** *** The fields that are secret now *)

Definition current i : list string := remove_dups (elements (dom (content i)) ++ new_secrets i)%list.
Definition local i : list string := match remote_fields i with [] => current i | fields => fields end.

Lemma peer_current_fields i : peer i → Data.current_secret_fields i = Ok (current i, i).
Proof.
  intros Hi. unfold Data.current_secret_fields. rewrite peer_enabled by done. cbn [negb].
  assert (filter (λ g, g ∉ [USER; TLS; MTLS]) groups = [EXTRA; "broker"; "balancer"; "controller"]) as -> by done.
  cbn [Data.existing_fields]. rewrite extra_contents by (done || set_solver). cbn [mbind result_bind].
  do 3 (rewrite other_contents by (done || set_solver); cbn [mbind result_bind]).
  rewrite map_filter_id by (intros; by left). unfold current. rewrite dom_empty_L, elements_empty.
  cbn [app]. by rewrite app_nil_r.
Qed.

Lemma peer_local_fields i : peer i → Data.local_secret_fields i = Ok (local i, i).
Proof.
  intros Hi. unfold Data.local_secret_fields, Data.static_secret_fields, local. rewrite peer_class by done.
  destruct (remote_fields i); [by apply peer_current_fields|done].
Qed.

Lemma elem_of_current i k : k ∈ current i ↔ is_Some (content i !! k) ∨ k ∈ new_secrets i.
Proof. unfold current. rewrite elem_of_remove_dups, elem_of_app, elem_of_elements, elem_of_dom. done. Qed.

Lemma current_secret i k : peer i → k ∈ current i → secret k = true.
Proof. intros Hi [?|?]%elem_of_current; [by apply peer_secret with i|by apply peer_new with i]. Qed.

Lemma local_is_secret i k : peer i → k ∈ local i → secret k = true.
Proof.
  intros Hi. unfold local. destruct (peer_static _ Hi) as [->|Hs].
  - by apply current_secret.
  - destruct (remote_fields i) eqn:E; [by apply current_secret|]. by rewrite Hs.
Qed.

Lemma content_local i k : peer i → is_Some (content i !! k) → k ∈ local i.
Proof.
  intros Hi Hk. unfold local. destruct (peer_static _ Hi) as [->|Hs].
  - apply elem_of_current. by left.
  - destruct (remote_fields i); [apply elem_of_current; by left|]. apply Hs. by apply peer_secret with i.
Qed.

Lemma local_not_own i k : peer i → k ∈ local i → own i !! k = None.
Proof.
  intros Hi Hk%(local_is_secret _ _ Hi). destruct (own i !! k) eqn:E; [|done].
  rewrite (peer_plain _ Hi k) in Hk by eauto. done.
Qed.

Lemma peer_either i : peer i → Data.either_static_or_dynamic_secrets i = Ok i.
Proof.
  intros Hi. unfold Data.either_static_or_dynamic_secrets, Data.static_secret_fields. rewrite peer_class by done.
  destruct (remote_fields i) as [|f fields] eqn:E; [done|]. rewrite peer_current_fields by done. cbn [mbind result_bind].
  rewrite (proj2 (forallb_forall _ _)); [done|]. intros k Hk%list_elem_of_In. apply bool_decide_eq_true.
  apply current_secret in Hk; [|done]. destruct (peer_static _ Hi) as [Hs|Hs]; [congruence|].
  rewrite <- E. by apply Hs.
Qed.

Lemma peer_load i : peer i → Data.load_secrets_from_databag i = Ok i.
Proof.
  intros Hi. unfold Data.load_secrets_from_databag. rewrite peer_class by done.
  assert (∀ f, own i !! f = None → Data.encoded_fields (own i) f = Ok (Some [])) as Hf.
  { intros f Hf. unfold Data.encoded_fields, get_encoded_list. by rewrite Hf. }
  fold (own i). rewrite !Hf by (apply peer_reserved; [done|set_solver]). cbn. by rewrite with_fields_id.
Qed.

(** *** Operations on one group *)

Definition hits i (ks : list string) : list string := filter (λ k, k ∈ local i) ks.
Definition misses i (ks : list string) : list string := filter (λ k, k ∉ local i) ks.

Lemma one_group i ks : peer i → (∀ k, k ∈ ks → lacks GROUP_SEPARATOR k = true) → ks ≠ [] →
  Data.group_secret_fields ks i = Ok [(EXTRA, ks)].
Proof.
  intros Hi Hks Hne. unfold Data.group_secret_fields. rewrite peer_class by done.
  assert (∀ ks acc, (∀ k, k ∈ ks → lacks GROUP_SEPARATOR k = true) →
    Data.group_fields Data.internal_name_to_field ks [(EXTRA, acc)] = Ok [(EXTRA, acc ++ ks)%list]) as Hgo.
  { clear. induction ks as [|k ks IH]; intros acc Hks; [by rewrite app_nil_r|]. cbn [Data.group_fields].
    rewrite plain_name by (apply Hks; set_solver). cbn [mbind result_bind].
    unfold Data.append_group, dict_get_or. cbn. rewrite !decide_True by done.
    rewrite IH by (intros; apply Hks; set_solver).
    by rewrite <- app_assoc. }
  destruct ks as [|k ks]; [done|]. cbn [Data.group_fields]. rewrite plain_name by (apply Hks; set_solver).
  cbn [mbind result_bind]. unfold Data.append_group, dict_get_or. cbn.
  rewrite Hgo by (intros; apply Hks; set_solver). done.
Qed.

Lemma peer_no_fallback i : peer i → Data.fallback_to_databag (local i) i = false.
Proof.
  intros Hi. unfold Data.fallback_to_databag. apply andb_false_intro2.
  apply not_true_is_false. intros (k & Hk%list_elem_of_In & Hb%bool_decide_eq_true)%existsb_exists.
  change (is_Some (own i !! k)) in Hb. rewrite local_not_own in Hb by done. by destruct Hb.
Qed.

Lemma peer_process i ks op : peer i →
  Data.process_secret_fields (local i) ks op i =
  match hits i ks with
  | [] => Ok (∅, misses i ks, i)
  | fields =>
      '(r, i') ← op EXTRA fields i;
      Ok (match r with
          | Data.Nothing => (∅, misses i ks ++ fields, i')%list
          | Data.Success => (∅, misses i ks, i')
          | Data.Contents d => (d, misses i ks, i')
          end)
  end.
Proof.
  intros Hi. unfold Data.process_secret_fields. rewrite peer_enabled, peer_no_fallback by done.
  rewrite andb_true_r. cbn [negb]. rewrite andb_true_r. case_bool_decide as Hne.
  - fold (hits i ks) (misses i ks). destruct (hits i ks) as [|k fields] eqn:E; [by unfold Data.group_secret_fields; rewrite peer_class|].
    rewrite <- E. rewrite one_group; [|done| |by rewrite E].
    + cbn [mbind result_bind Data.run_groups]. destruct (op EXTRA (hits i ks) i) as [[[| |d] i']|e]; cbn; try done.
      by rewrite (right_id_L ∅ (∪)).
    + intros k' [Hk' _]%list_elem_of_filter. apply (peer_names i); [done|]. by apply local_is_secret with i.
  - unfold hits, misses. rewrite Hne.
    rewrite filter_none, filter_every by set_solver. done.
Qed.

(** *** Changing the bag, the secret and the object *)

Lemma own_with_bag i b : own (Data.with_bag (Data.component i) b i) = b.
Proof. unfold own, Data.bag. cbn. by rewrite lookup_insert_eq. Qed.

Lemma peer_with_bag i b : peer i →
  (∀ k, k ∈ [REQ_SECRET_FIELDS; PROV_SECRET_FIELDS; internal] → b !! k = None) →
  (∀ k, is_Some (b !! k) → secret k = false) →
  peer (Data.with_bag (Data.component i) b i).
Proof.
  intros [] Hr Hp. split; try done.
  - unfold Data.has_member. cbn. by rewrite lookup_insert_eq.
  - intros k Hk. rewrite own_with_bag. by apply Hr.
  - intros k. rewrite own_with_bag. apply Hp.
Qed.

Lemma peer_with_secrets i t : peer i →
  (∀ l, l ≠ secret_label i → by_label l t = by_label l (secrets i)) →
  (∀ k, is_Some (content (Data.with_secrets t i) !! k) → secret k = true) →
  peer (Data.with_secrets t i).
Proof.
  intros [] Hl Hc. split; try done; cbn.
  - intros g Hg. rewrite Hl; [by apply peer_groups0|].
    assert (g ≠ EXTRA) as Hne by set_solver. exact (group_label_ne i g peer_class0 Hne).
  - rewrite Hl; [done|]. exact (legacy_label_ne i peer_class0).
Qed.

Lemma peer_with_new i new : peer i → (∀ k, k ∈ new → secret k = true) →
  peer (Data.with_fields (local_fields i) (remote_fields i) new i).
Proof. intros [] Hn. by split. Qed.

Lemma peer_with_legacy i labels : peer i → labels = [] ∨ labels = [legacy_label i] →
  peer (Data.with_legacy labels None i).
Proof. intros [] Hl. by split. Qed.

Lemma legacy_names_eq i : peer i → Data.legacy_names i = Data.with_legacy [legacy_label i] None i.
Proof.
  intros Hi. unfold Data.legacy_names, Data.generate_secret_field_name.
  rewrite peer_class, peer_internal by done. f_equal.
  - by destruct (peer_legacy_labels _ Hi) as [-> | ->].
  - fold (own i). apply peer_reserved; [done|set_solver].
Qed.

Lemma peer_legacy_names i : peer i → peer (Data.legacy_names i).
Proof. intros Hi. rewrite legacy_names_eq by done. apply peer_with_legacy; [done|by right]. Qed.

Lemma peer_on_fetch i : peer i → Data.legacy_apply_on_fetch i = Data.legacy_names i.
Proof. intros Hi. unfold Data.legacy_apply_on_fetch. by rewrite peer_class. Qed.

Lemma view_legacy_names i : view (Data.legacy_names i) = view i.
Proof. done. Qed.

(** *** Reading *)

Lemma view_lookup i k : view i !! k = match content i !! k with Some v => Some v | None => own i !! k end.
Proof. unfold view. rewrite lookup_union. by destruct (content i !! k), (own i !! k). Qed.

Lemma fetch_bag i ks k : (∀ k', k' ∈ ks ↔ k' = k) →
  Data.fetch_relation_data_without_secrets (Data.component i) ks i !! k = own i !! k.
Proof.
  intros Hks. unfold Data.fetch_relation_data_without_secrets. fold (own i). rewrite map_lookup_filter.
  destruct (own i !! k) eqn:E; cbn; [|done]. case_guard; [done|]. by rewrite Hks in *.
Qed.

Lemma fetch_bag_none i ks k : k ∉ ks →
  Data.fetch_relation_data_without_secrets (Data.component i) ks i !! k = None.
Proof.
  intros Hks. unfold Data.fetch_relation_data_without_secrets. rewrite map_lookup_filter_None. right. by intros.
Qed.

Lemma wanted_lookup (c : databag) k : filter (λ '(k', _), [k] = [] ∨ k' ∈ [k]) c !! k = c !! k.
Proof.
  rewrite map_lookup_filter. destruct (c !! k); [|done]. cbn. case_guard as Hg; [done|]. destruct Hg. right. by left.
Qed.

Lemma peer_fetch_field i k : peer i → ordinary k →
  Data.fetch_my_relation_field k i = Ok (view i !! k, Data.legacy_names i).
Proof.
  intros Hi [Hk _]. unfold Data.fetch_my_relation_field, Data.fetch_my_relation_data.
  rewrite peer_class by done. cbn [bool_decide decide andb]. unfold Data.legacy_apply_on_fetch.
  rewrite bool_decide_eq_false_2 by done. rewrite peer_class by done. cbn [andb].
  rewrite <- view_legacy_names. pose proof (peer_legacy_names _ Hi) as Hj.
  set (j := Data.legacy_names i) in *. clearbody j. clear i Hi. rename j into i, Hj into Hi.
  unfold Data.fetch_my_specific_relation_data. rewrite peer_class by done.
  rewrite peer_either by done. cbn [mbind result_bind]. rewrite peer_local_fields by done. cbn [mbind result_bind].
  unfold Data.fetch_relation_data_with_secrets. rewrite peer_process by done. rewrite view_lookup.
  unfold hits, misses. destruct (decide (k ∈ local i)) as [Hin|Hin].
  - rewrite filter_cons_True, filter_cons_False, !filter_nil by (done || tauto).
    unfold Data.fetch_group. rewrite extra_contents by (done || set_solver). cbn [mbind result_bind].
    case_bool_decide as Hd; cbn [mbind result_bind]; do 3 f_equal.
    + cbn [option_bind mbind]. rewrite (right_id_L ∅ (∪)), fetch_bag by set_solver.
      by rewrite <- (wanted_lookup (content i) k), Hd, lookup_empty.
    + cbn [option_bind mbind]. rewrite lookup_union, fetch_bag_none by set_solver.
      rewrite (left_id_L None (∪)), wanted_lookup, local_not_own by done. by destruct (content i !! k).
  - rewrite filter_cons_False, filter_cons_True, !filter_nil by done. cbn [mbind result_bind option_bind].
    rewrite (right_id_L ∅ (∪)), fetch_bag by set_solver.
    destruct (content i !! k) eqn:E; [|done]. destruct Hin. apply content_local; [done|by eexists].
Qed.

(** *** Writing the secret and the bag *)

Lemma with_secrets_id i : Data.with_secrets (secrets i) i = i.
Proof. by destruct i. Qed.

(** [t] is [i]'s secrets after the secret of the relation got the content [c]. *)
Record writes (c : databag) i (t : T) : Prop := mkWrites {
  writes_content : content (Data.with_secrets t i) = c;
  writes_others l : l ≠ secret_label i → by_label l t = by_label l (secrets i) }.

Lemma peer_writes c i t : peer i → writes c i t → (∀ k, is_Some (c !! k) → secret k = true) →
  peer (Data.with_secrets t i).
Proof. intros Hi [Hc Ho] Hs. apply peer_with_secrets; [done..|]. by rewrite Hc. Qed.

Lemma removes_writes i id : by_label (secret_label i) (secrets i) = Some id →
  writes ∅ i (remove_all_revisions id (secrets i)).
Proof.
  intros Hl. split.
  - unfold content. change (secret_label (Data.with_secrets _ i)) with (secret_label i). cbn.
    by rewrite remove_label, decide_True.
  - intros l Hne. rewrite remove_label. case_decide as Hid; [|done]. destruct Hne. by eapply by_label_inj.
Qed.

Lemma set_content_writes i id c : by_label (secret_label i) (secrets i) = Some id →
  ∃ t, Data.set_content (Data.mkSecret id (secret_label i) None) c i = Data.with_secrets t i ∧ writes c i t.
Proof.
  intros Hl. unfold Data.set_content. cbn. case_bool_decide as Hc; [|case_bool_decide as He].
  - exists (secrets i). split; [by rewrite with_secrets_id|]. split; [|done].
    rewrite with_secrets_id. unfold content. by rewrite Hl.
  - subst c. eexists. split; [done|]. by apply removes_writes.
  - eexists. split; [done|]. split; [|intros l _; apply set_content_label].
    unfold content. change (secret_label (Data.with_secrets _ i)) with (secret_label i). cbn.
    by rewrite set_content_label, Hl, (set_content_content _ _ _ _ _ Hl), decide_True.
Qed.

Definition chosen i (data : list (string * string)) : databag :=
  foldl (λ d '(k, v), <[k := v]> d) ∅ (filter (λ '(k, _), k ∈ local i) data).

Lemma chosen_lookup i data k : chosen i data !! k = if decide (k ∈ local i) then last_value k data else None.
Proof. exact (last_value_filter (λ k, k ∈ local i) k data). Qed.

Lemma peer_chosen i data fields : peer i →
  Data.content_for_secret_group data fields EXTRA i = Ok (chosen i data, i).
Proof.
  intros Hi. unfold Data.content_for_secret_group. rewrite peer_class, peer_local_fields by done.
  cbn [mbind result_bind]. by rewrite bool_decide_eq_true_2.
Qed.

Lemma peer_add_or_update i data fields : peer i →
  ∃ t, Data.add_or_update_relation_secrets false data EXTRA fields i = Ok (Data.Success, Data.with_secrets t i) ∧
    writes (chosen i data ∪ content i) i t.
Proof.
  intros Hi. unfold Data.add_or_update_relation_secrets. rewrite peer_relation_secret by done.
  cbn [mbind result_bind]. destruct (by_label (secret_label i) (secrets i)) as [id|] eqn:Hl; cbn [fmap option_fmap option_map].
  - unfold Data.update_relation_secret. rewrite peer_relation_secret, Hl by done.
    cbn [mbind result_bind fmap option_fmap option_map]. rewrite peer_chosen by done. cbn [mbind result_bind Data.secret_id].
    destruct (set_content_writes i id (chosen i data ∪ content_of id (secrets i)) Hl) as (t & -> & Ht).
    exists t. split; [done|]. unfold content at 1. by rewrite Hl.
  - unfold Data.add_relation_secret. rewrite peer_enabled by done. cbn [negb mbind result_bind truthy_opt].
    rewrite peer_chosen by done. cbn [mbind result_bind]. fold (secret_label i). rewrite Hl.
    destruct (add_secret (chosen i data) (secret_label i) (secrets i)) as [id t] eqn:Ha.
    pose proof (λ l, add_secret_label (chosen i data) (secret_label i) (secrets i) l Hl) as Hal.
    pose proof (add_secret_content (chosen i data) (secret_label i) (secrets i)) as Hac.
    rewrite Ha in Hal, Hac. cbn in Hal, Hac.
    assert (content i = ∅) as -> by (unfold content; by rewrite Hl). rewrite (right_id_L ∅ (∪)).
    eexists. split; [done|]. split.
    + unfold content. change (secret_label (Data.with_secrets _ i)) with (secret_label i). cbn.
      destruct (rel_app (rel i)) as [app|]; [destruct (app =? local_app i)%string|];
        rewrite ?grant_label, Hal, decide_True, ?grant_content, Hac by done; done.
    + intros l Hne. destruct (rel_app (rel i)) as [app|]; [destruct (app =? local_app i)%string|];
        rewrite ?grant_label, Hal, decide_False by done; done.
Qed.

Lemma with_bag_id i : Data.has_member (Data.component i) i = true → Data.with_bag (Data.component i) (own i) i = i.
Proof.
  unfold Data.has_member. rewrite bool_decide_eq_true. intros [b Hb]. unfold own, Data.bag. rewrite Hb. cbn.
  unfold Data.with_bag. rewrite insert_id by done. destruct i as [? ? ? ? ? ? ? ? ? [] ]. done.
Qed.

Lemma delete_absent i ks : peer i → (∀ k, k ∈ ks → own i !! k = None) →
  Data.delete_relation_data_without_secrets (Data.component i) ks i = i.
Proof.
  intros Hi Hks. unfold Data.delete_relation_data_without_secrets. rewrite peer_member by done. fold (own i).
  assert (foldl (λ b f, delete f b) (own i) ks = own i) as ->; [|by apply with_bag_id, peer_member].
  induction ks as [|k ks IH]; [done|]. cbn. rewrite delete_id by (apply Hks; set_solver).
  apply IH. intros. apply Hks. set_solver.
Qed.

(** *** The operations *)

(** What [DataDict] answers: an empty value is no value. *)
Definition nonempty (v : option string) : option string := v ← v; if truthy v then Some v else None.
Definition read i (k : string) : option string := nonempty (view i !! k).

Lemma read_secret i k : peer i → secret k = true → read i k = nonempty (content i !! k).
Proof.
  intros Hi Hk. unfold read. rewrite view_lookup. destruct (content i !! k); [done|].
  destruct (own i !! k) eqn:E; [|done]. by rewrite (peer_plain _ Hi k) in Hk by eauto.
Qed.

Lemma read_plain i k : peer i → secret k = false → read i k = nonempty (own i !! k).
Proof.
  intros Hi Hk. unfold read. rewrite view_lookup. destruct (content i !! k) eqn:E; [|done].
  by rewrite (peer_secret _ Hi k) in Hk by eauto.
Qed.

Lemma peer_on_update i ks : peer i → (∀ k, k ∈ ks → ordinary k) →
  Data.legacy_apply_on_update ks i = Ok (Data.legacy_names i).
Proof.
  intros Hi Hks. unfold Data.legacy_apply_on_update. rewrite peer_class by done.
  pose proof (peer_legacy_names _ Hi) as Hj. set (j := Data.legacy_names i) in *. clearbody j.
  unfold Data.legacy_migrate_fields. rewrite peer_local_fields by done. cbn [mbind result_bind].
  rewrite delete_absent; [|done|intros k [_ Hk]%list_elem_of_filter; by apply local_not_own].
  unfold Data.legacy_migrate_uri, Data.generate_secret_field_name. rewrite peer_class, peer_internal by done.
  fold (own j). by rewrite peer_reserved by (done || set_solver).
Qed.

(** A secret field that is written has to be one the interface knows of. *)
Definition writable i (k : string) : Prop := ordinary k ∧ (secret k = true → k ∈ local i).


Lemma peer_update_bag i (ks : list string) data : peer i →
  (∀ k, k ∈ dict_keys data → ordinary k) → (∀ k, k ∈ ks → k ∈ dict_keys data → secret k = false) →
  let i' := Data.update_relation_data_without_secrets (Data.component i) (filter (λ '(k, _), k ∈ ks) data) i in
  peer i' ∧ content i' = content i ∧
  ∀ k, own i' !! k = match last_value k data with
                     | Some v => if decide (k ∈ ks) then (if truthy v then Some v else None) else own i !! k
                     | None => own i !! k
                     end.
Proof.
  intros Hi Ho Hs. unfold Data.update_relation_data_without_secrets. rewrite peer_member by done. cbn zeta.
  fold (own i). set (b := bag_update (filter (λ '(k, _), k ∈ ks) data) (own i)).
  assert (∀ k, b !! k = match last_value k data with
                        | Some v => if decide (k ∈ ks) then (if truthy v then Some v else None) else own i !! k
                        | None => own i !! k
                        end) as Hb.
  { intros k. unfold b. rewrite bag_update_lookup, (last_value_filter (λ k, k ∈ ks)).
    destruct (decide (k ∈ ks)), (last_value k data); done. }
  split; [|split; [done|intros k; by rewrite own_with_bag]].
  apply peer_with_bag; [done|..].
  - intros k Hk. rewrite Hb. destruct (last_value k data) eqn:E; [|by apply peer_reserved].
    apply last_value_is_Some in E. by destruct (Ho _ E).
  - intros k. rewrite Hb. destruct (last_value k data) eqn:E; [|by apply peer_plain].
    apply last_value_is_Some in E. case_decide; [by intros; apply Hs|by apply peer_plain].
Qed.

(** The secret, if any of its fields is written. *)
Lemma peer_write_hits i data : peer i →
  ∃ t, writes (chosen i data ∪ content i) i t ∧
    Data.process_secret_fields (local i) (dict_keys data) (Data.add_or_update_relation_secrets false data) i =
    Ok (∅, misses i (dict_keys data), Data.with_secrets t i).
Proof.
  intros Hi. rewrite peer_process by done. destruct (hits i (dict_keys data)) as [|f fields] eqn:E; cbv zeta.
  - exists (secrets i). rewrite with_secrets_id. split; [|done]. split; [|done]. rewrite with_secrets_id.
    apply map_eq. intros k. rewrite lookup_union, chosen_lookup. case_decide as Hk; [|by rewrite (left_id_L None (∪))].
    destruct (last_value k data) eqn:Hv; [|by rewrite (left_id_L None (∪))]. apply last_value_is_Some in Hv.
    exfalso. assert (k ∈ hits i (dict_keys data)) as Hin by (by apply list_elem_of_filter). rewrite E in Hin. set_solver.
  - destruct (peer_add_or_update i data (f :: fields) Hi) as (t & -> & Ht). by exists t.
Qed.

Lemma peer_update_ i data : peer i → (∀ k, k ∈ dict_keys data → writable i k) →
  ∃ i', Data.update_relation_data_ data i = Ok i' ∧ peer i' ∧ remote_fields i' = remote_fields i ∧
    ∀ k, read i' k = match last_value k data with Some v => nonempty (Some v) | None => read i k end.
Proof.
  intros Hi Hw. unfold Data.update_relation_data_. rewrite peer_either by done. cbn [mbind result_bind].
  rewrite peer_load by done. cbn [mbind result_bind]. rewrite peer_local_fields by done. cbn [mbind result_bind].
  rewrite bool_decide_eq_false_2 by (by rewrite peer_class).
  destruct (peer_write_hits i data Hi) as (t & Ht & ->). cbn [mbind result_bind].
  assert (peer (Data.with_secrets t i)) as Hj.
  { apply (peer_writes _ _ _ Hi Ht). intros k. rewrite lookup_union, chosen_lookup.
    destruct (decide (k ∈ local i)); [intros _; by apply local_is_secret with i|].
    rewrite (left_id_L None (∪)). by apply peer_secret. }
  assert (∀ k, k ∈ misses i (dict_keys data) → k ∈ dict_keys data → secret k = false) as Hmiss.
  { intros k [Hk _]%list_elem_of_filter Hd. apply not_true_is_false. intros Hs. apply Hk. by apply (Hw k Hd). }
  rewrite (peer_class _ Hj).
  destruct (peer_update_bag _ (misses i (dict_keys data)) data Hj) as (Hp & Hc & Ho); [by intros; apply Hw|done|].
  eexists. split; [done|]. split; [done|]. split.
  { unfold Data.update_relation_data_without_secrets. by rewrite peer_member. }
  intros k. destruct (secret k) eqn:Hk.
  - rewrite !read_secret, Hc, (writes_content _ _ _ Ht), lookup_union, chosen_lookup by done.
    destruct (last_value k data) eqn:Hv.
    + apply last_value_is_Some in Hv. rewrite decide_True by (by apply Hw). by destruct (content i !! k).
    + by case_decide; rewrite (left_id_L None (∪)).
  - rewrite !read_plain, Ho by done. change (own (Data.with_secrets t i)) with (own i).
    destruct (last_value k data) eqn:Hv; [|done]. apply last_value_is_Some in Hv.
    rewrite decide_True; [by destruct (truthy s) eqn:E; cbn; rewrite ?E|].
    apply list_elem_of_filter. split; [|done]. intros Hl%local_is_secret; [congruence|done].
Qed.

Lemma read_legacy_names i k : read (Data.legacy_names i) k = read i k.
Proof. done. Qed.

Lemma local_legacy_names i : local (Data.legacy_names i) = local i.
Proof. done. Qed.

Lemma peer_update i data : peer i → (∀ k, k ∈ dict_keys data → writable i k) →
  ∃ i', Data.update_relation_data data i = Ok i' ∧ peer i' ∧ remote_fields i' = remote_fields i ∧
    ∀ k, read i' k = match last_value k data with Some v => nonempty (Some v) | None => read i k end.
Proof.
  intros Hi Hw. unfold Data.update_relation_data. rewrite peer_leader by done. cbn [negb].
  rewrite peer_on_update by (done || (intros; by apply Hw)). cbn [mbind result_bind].
  apply (peer_update_ (Data.legacy_names i) data); [by apply peer_legacy_names|done].
Qed.

(** The secret field [k] goes out of the secret, if it is in it. *)
Lemma peer_delete_hit i k : peer i → k ∈ local i →
  ∃ r t, Data.delete_relation_secret [k] EXTRA [k] i = Ok (r, Data.with_secrets t i) ∧
    (r = Data.Nothing ∨ r = Data.Success) ∧ writes (delete k (content i)) i t.
Proof.
  intros Hi Hk. unfold Data.delete_relation_secret. rewrite peer_relation_secret by done. cbn [mbind result_bind].
  assert (content i !! k = None → writes (delete k (content i)) i (secrets i)) as Hno.
  { intros Hn. split; [|done]. by rewrite with_secrets_id, delete_id. }
  unfold content in *. destruct (by_label (secret_label i) (secrets i)) as [id|] eqn:Hl; cbn [fmap option_fmap option_map].
  2: { exists Data.Nothing, (secrets i). rewrite with_secrets_id. by split; [|split; [by left|apply Hno]]. }
  cbn [Data.secret_id Data.pop_fields]. destruct (content_of id (secrets i) !! k) eqn:Hc.
  2: { exists Data.Nothing, (secrets i). rewrite with_secrets_id. by split; [|split; [by left|apply Hno]]. }
  exists Data.Success. case_bool_decide as He.
  - exists (remove_all_revisions id (secrets i)). rewrite He. split; [|split; [by right|by apply removes_writes]].
    unfold Data.generate_secret_field_name. rewrite peer_class, peer_internal by done. fold (own i).
    rewrite delete_id by (apply peer_reserved; [done|set_solver]). rewrite with_bag_id by by apply peer_member.
    fold (secret_label i). by rewrite Hl.
  - destruct (set_content_writes i id (delete k (content_of id (secrets i))) Hl) as (t & -> & Ht).
    exists t. split; [done|]. split; [by right|done].
Qed.

Lemma peer_delete_ i k : peer i → ordinary k →
  ∃ i', Data.delete_relation_data_ [k] i = Ok i' ∧ peer i' ∧ remote_fields i' = remote_fields i ∧
    ∀ k', read i' k' = if decide (k' = k) then None else read i k'.
Proof.
  intros Hi [Hk Hr]. unfold Data.delete_relation_data_. rewrite peer_either by done. cbn [mbind result_bind].
  rewrite peer_class, peer_load by done. cbn [mbind result_bind]. rewrite peer_local_fields by done. cbn [mbind result_bind].
  rewrite peer_process by done. unfold hits, misses. destruct (decide (k ∈ local i)) as [Hin|Hin].
  - rewrite filter_cons_True, filter_cons_False, !filter_nil by (done || tauto).
    destruct (peer_delete_hit i k Hi Hin) as (r & t & -> & Hr' & Ht). cbn [mbind result_bind].
    assert (peer (Data.with_secrets t i)) as Hj.
    { apply (peer_writes _ _ _ Hi Ht). intros k' [v [_ Hv]%lookup_delete_Some]. apply (peer_secret _ Hi). by eexists. }
    exists (Data.with_secrets t i). split; [|split; [done|split; [done|]]].
    { destruct Hr' as [-> | ->]; cbn [mbind result_bind]; rewrite (peer_class _ Hj), delete_absent; try done;
        intros k' Hk'; [|set_solver]. assert (k' = k) as -> by set_solver. exact (local_not_own i k Hi Hin). }
    intros k'. destruct (secret k') eqn:Hs.
    + rewrite !read_secret, (writes_content _ _ _ Ht), lookup_delete by done. by repeat case_decide; subst.
    + rewrite !read_plain by done. rewrite decide_False; [done|]. intros ->. apply local_is_secret in Hin; congruence.
  - rewrite filter_cons_False, filter_cons_True, !filter_nil by done. cbn [mbind result_bind].
    rewrite (peer_class _ Hi). unfold Data.delete_relation_data_without_secrets. rewrite peer_member by done. cbn [foldl].
    fold (own i). eexists. split; [done|]. split; [|split; [done|]].
    { apply peer_with_bag; [done|..]; [intros k' Hk'; apply lookup_delete_None; right; by apply peer_reserved|].
      intros k' [v [_ Hv]%lookup_delete_Some]. apply (peer_plain _ Hi). by eexists. }
    intros k'. unfold read. rewrite !view_lookup, own_with_bag.
    change (content (Data.with_bag (Data.component i) (delete k (own i)) i)) with (content i).
    rewrite lookup_delete. case_decide as E; [subst|]; [|by rewrite decide_False by congruence].
    rewrite decide_True by done. destruct (content i !! k') eqn:Ec; [|done].
    destruct Hin. apply content_local; [done|by eexists].
Qed.

Lemma peer_delete i k : peer i → ordinary k →
  ∃ i', Data.delete_relation_data [k] i = Ok i' ∧ peer i' ∧ remote_fields i' = remote_fields i ∧
    ∀ k', read i' k' = if decide (k' = k) then None else read i k'.
Proof.
  intros Hi Hk. unfold Data.delete_relation_data. rewrite peer_leader by done. cbn [negb].
  unfold Data.legacy_apply_on_delete. rewrite peer_on_fetch by done.
  apply (peer_delete_ (Data.legacy_names i) k); [by apply peer_legacy_names|done].
Qed.

(** [set_secret] makes its field a secret field of this interface. *)
Lemma peer_register i k : peer i → remote_fields i = [] → secret k = true → ordinary k →
  let i' := if secrets_enabled i && negb (bool_decide (k ∈ current i))
            then Data.with_fields (local_fields i) (remote_fields i) (new_secrets i ++ [k])%list i else i in
  peer i' ∧ writable i' k ∧ remote_fields i' = [] ∧ ∀ k', read i' k' = read i k'.
Proof.
  intros Hi Hf Hs Hk. rewrite peer_enabled by done. cbn [andb]. case_bool_decide as Hc; cbn [negb]; cbn zeta.
  - split; [done|]. split; [split; [done|intros _; unfold local; by rewrite Hf]|done].
  - split; [|split; [|done]].
    + apply peer_with_new; [done|]. intros k' [Hk'|Hk']%elem_of_app; [by apply (peer_new _ Hi)|set_solver].
    + split; [done|intros _]. unfold local. cbn. rewrite Hf. apply elem_of_current. right. cbn. set_solver.
Qed.

Lemma peer_set_secret i k v : peer i → remote_fields i = [] → ordinary k → secret k = true →
  ∃ i', Data.set_secret k v i = Ok i' ∧ peer i' ∧ remote_fields i' = remote_fields i ∧
    ∀ k', read i' k' = if decide (k' = k) then nonempty (Some v) else read i k'.
Proof.
  intros Hi Hf Hk Hs. unfold Data.set_secret, Data.dynamic_secrets_only, Data.static_secret_fields.
  rewrite (bool_decide_eq_true_2 _ Hf). cbn [guard_or mbind result_bind].
  rewrite peer_on_update by (done || (intros ? ->%list_elem_of_singleton; done)). cbn [mbind result_bind].
  pose proof (peer_legacy_names _ Hi) as Hj. rewrite peer_current_fields by done. cbn [mbind result_bind].
  destruct (peer_register (Data.legacy_names i) k Hj Hf Hs Hk) as (Hp & Hw & Hr & Hsame).
  destruct (peer_update _ [(k, v)] Hp) as (i' & -> & Hp' & Hr' & Hread); [by intros ? ->%list_elem_of_singleton|].
  exists i'. split; [done|]. split; [done|]. split; [by rewrite Hr', Hr, Hf|]. intros k'. rewrite Hread, Hsame.
  unfold last_value. cbn. rewrite lookup_insert. by repeat case_decide; subst.
Qed.

Lemma peer_delete_secret i k : peer i → remote_fields i = [] → ordinary k → secret k = true →
  ∃ i', Data.delete_secret k i = Ok i' ∧ peer i' ∧ remote_fields i' = remote_fields i ∧
    ∀ k', read i' k' = if decide (k' = k) then None else read i k'.
Proof.
  intros Hi Hf Hk Hs. unfold Data.delete_secret, Data.dynamic_secrets_only, Data.static_secret_fields.
  rewrite (bool_decide_eq_true_2 _ Hf). cbn [guard_or mbind result_bind].
  unfold Data.legacy_apply_on_delete. rewrite peer_on_fetch by done. cbv zeta.
  pose proof (peer_legacy_names _ Hi) as Hj. rewrite peer_current_fields by done. cbn [mbind result_bind].
  rewrite (peer_enabled _ Hj). cbn [andb]. case_bool_decide as Hc; cbn [negb].
  - apply (peer_delete (Data.legacy_names i) k); done.
  - eexists. split; [done|]. split; [done|]. split; [done|]. intros k'. rewrite read_legacy_names.
    case_decide; [subst|done]. rewrite read_secret by done. change (k ∉ current i) in Hc.
    destruct (content i !! k) eqn:E; [|done]. destruct Hc. apply elem_of_current. left. by eexists.
Qed.

(** *** Sequences of operations *)

(** What the charm does with a peer interface. [NextHook] is a new object, which
    knows nothing of the secret fields the last one was told of. *)
Inductive op :=
  | SetItem (k v : string)
  | DelItem (k : string)
  | SetSecret (k v : string)
  | DelSecret (k : string)
  | NextHook.

Definition next_hook i : interface T :=
  Data.with_fields (local_fields i) (remote_fields i) [] (Data.with_legacy [] None i).

Definition run_op (o : op) i : result (interface T) :=
  match o with
  | SetItem k v => DataDict.setitem k v i
  | DelItem k => DataDict.delitem k i
  | SetSecret k v => Data.set_secret k v i
  | DelSecret k => Data.delete_secret k i
  | NextHook => Ok (next_hook i)
  end.
Fixpoint run_ops (os : list op) i : result (interface T) :=
  match os with
  | [] => Ok i
  | o :: os => i ← run_op o i; run_ops os i
  end.

(** The same operations on a finite map. *)
Definition spec_op (o : op) (m : databag) : databag :=
  match o with
  | SetItem k v | SetSecret k v => bag_set k v m
  | DelItem k | DelSecret k => delete k m
  | NextHook => m
  end.
Definition spec_ops (os : list op) (m : databag) : databag := foldl (λ m o, spec_op o m) m os.

(** The application's interface ([dynamic]) has its secret fields from
    [set_secret]; the unit's has them declared, and every field is an item. *)
Definition allowed (dynamic : bool) (o : op) : Prop :=
  match o with
  | SetItem k _ => ordinary k ∧ (dynamic = true → secret k = false)
  | DelItem k => ordinary k
  | SetSecret k _ | DelSecret k => ordinary k ∧ dynamic = true ∧ secret k = true
  | NextHook => True
  end.

Definition is_dynamic i : bool := bool_decide (remote_fields i = []).

Lemma peer_run_op i o : peer i → allowed (is_dynamic i) o →
  ∃ i', run_op o i = Ok i' ∧ peer i' ∧ remote_fields i' = remote_fields i ∧
    ∀ k, read i' k = match o with
                     | SetItem k' v | SetSecret k' v => if decide (k = k') then nonempty (Some v) else read i k
                     | DelItem k' | DelSecret k' => if decide (k = k') then None else read i k
                     | NextHook => read i k
                     end.
Proof.
  intros Hi Ho. unfold is_dynamic in Ho. destruct o as [k v|k|k v|k|]; cbn [allowed run_op] in *.
  - unfold DataDict.setitem. destruct Ho as [Hk Hd]. destruct (peer_update i [(k, v)] Hi) as (i' & -> & Hp & Hr & Hread).
    { intros ? ->%list_elem_of_singleton. split; [done|]. cbn [fst]. intros Hs. unfold local.
      destruct (remote_fields i) eqn:E; [by rewrite Hd in Hs|].
      destruct (peer_static _ Hi) as [?|Hst]; [congruence|]. rewrite <- E. by apply Hst. }
    exists i'. split_and!; [done..|]. intros k'. rewrite Hread. unfold last_value. cbn. rewrite lookup_insert.
    by repeat case_decide; subst.
  - by apply peer_delete.
  - destruct Ho as (Hk & Hd%bool_decide_eq_true & Hs). by apply peer_set_secret.
  - destruct Ho as (Hk & Hd%bool_decide_eq_true & Hs). by apply peer_delete_secret.
  - eexists. split; [done|]. split; [|done]. unfold next_hook.
    apply (peer_with_new (Data.with_legacy [] None i)); [apply peer_with_legacy; [done|by left]|]. set_solver.
Qed.

(** The interface stands for the map. *)
Definition represents i (m : databag) : Prop := ∀ k, ordinary k → read i k = m !! k.

Lemma spec_op_lookup o (m : databag) k :
  spec_op o m !! k = match o with
                     | SetItem k' v | SetSecret k' v => if decide (k = k') then nonempty (Some v) else m !! k
                     | DelItem k' | DelSecret k' => if decide (k = k') then None else m !! k
                     | NextHook => m !! k
                     end.
Proof.
  destruct o as [k' v|k'|k' v|k'|]; cbn; try done; unfold bag_set; try destruct (truthy v);
    rewrite ?lookup_insert, ?lookup_delete; repeat case_decide; congruence.
Qed.

Lemma peer_run_ops os : ∀ i m, peer i → represents i m → Forall (allowed (is_dynamic i)) os →
  ∃ i', run_ops os i = Ok i' ∧ peer i' ∧ represents i' (spec_ops os m).
Proof.
  induction os as [|o os IH]; intros i m Hi Hm Ho; [by exists i|]. inversion Ho as [|? ? Ho1 Ho2]; subst.
  destruct (peer_run_op i o Hi Ho1) as (i1 & Hr & Hp & Hf & Hread). cbn [run_ops]. rewrite Hr. cbn [mbind result_bind].
  apply IH; [done| |].
  - intros k Hk. rewrite Hread, spec_op_lookup, <- (Hm k Hk). done.
  - unfold is_dynamic in *. by rewrite Hf.
Qed.

Lemma peer_get i k : peer i → ordinary k → DataDict.get k i = Ok (read i k).
Proof.
  intros Hi Hk. unfold DataDict.get, DataDict.getitem. rewrite peer_fetch_field by done. cbn [mbind result_bind].
  rewrite (peer_class _ (peer_legacy_names _ Hi)). unfold read, nonempty. cbn [mbind option_bind].
  destruct (view i !! k) as [v|]; [|done]. cbn. by destruct (truthy v) eqn:E; cbn; rewrite ?E.
Qed.

(** C4: a peer interface is a finite map: whatever sequence of writes, deletions,
    secret writes, secret deletions and new hooks it goes through, no operation
    raises, and then every field reads as it would in a map on which the same
    operations were done - wherever the library put each field. *)
Theorem peer_interface_refines_map i m os :
  peer i → represents i m → Forall (allowed (is_dynamic i)) os →
  ∃ i', run_ops os i = Ok i' ∧ ∀ k, ordinary k → DataDict.get k i' = Ok (spec_ops os m !! k).
Proof.
  intros Hi Hm Ho. destruct (peer_run_ops os i m Hi Hm Ho) as (i' & Hr & Hp & Hread).
  exists i'. split; [done|]. intros k Hk. rewrite peer_get by done. by rewrite Hread.
Qed.

End peer.
