(* ===== verification/DataInterfacesCross.v ===== *)
(** * The relation between the applications of a peer cluster

    What one application writes with its [PeerClusterData] against what the other
    can read: the fields the other one asked to be secret are in the secret of
    their group, whose reference is in the bag, and only there; the rest is in
    the bag. *)

From S2P Require Import Prelude PyStr PyDict Json Models DataInterfaces DataInterfacesFacts.

Local Open Scope string_scope.

Section cross.
Context {T : Type} `{SecretsLaws T}.
(** The other application, the secret fields it asked for and those it said it
    provides, the groups of the fields, and the groups this application writes. *)
Variables (other : string) (requested provided : list string) (M : list (string * string)) (G : list string).
Implicit Types i : interface T.

Definition group_label i (g : string) : string := Data.generate_secret_label g i.
Definition group_ref (g : string) : string := PROV_SECRET_PREFIX ++ g.
(** What the secret of a group holds. *)
Definition group_content i (g : string) : databag :=
  match by_label (group_label i g) (secrets i) with
  | Some id => content_of id (secrets i)
  | None => ∅
  end.

(** The interface on the leader, with the secrets of its groups known by their
    labels and referred to in its bag; [G] has no group of the other side. *)
Record cross i : Prop := mkCross {
  cross_class : class i = Cross;
  cross_scope : SCOPE i = APP;
  cross_enabled : secrets_enabled i = true;
  cross_leader : Data.leader_only i = true;
  cross_member : Data.has_member (Data.component i) i = true;
  cross_app : rel_app (rel i) = Some other;
  cross_other : other ≠ local_app i;
  cross_map : SECRET_LABEL_MAP i = M;
  cross_requested : Data.encoded_fields (Data.bag other i) REQ_SECRET_FIELDS = Ok (Some requested);
  cross_provided : Data.encoded_fields (Data.bag other i) PROV_SECRET_FIELDS = Ok (Some provided);
  cross_refs g : g ∈ G → by_label (group_label i g) (secrets i) = own i !! group_ref g;
  cross_ids g : g ∈ G → own i !! group_ref g ≠ Some "";
  cross_own k : k ∈ requested → own i !! k = None }.

(** The groups have names, and are those of fields that were asked for. *)
Record groups_ok : Prop := mkGroups {
  groups_names k g : dict_get k M = Some g → g ≠ "" ∧ g ≠ EXTRA;
  groups_asked g : g ∈ G → ∃ k, k ∈ requested ∧ dict_get k M = Some g;
  groups_plain k : k ∈ requested → startswith PROV_SECRET_PREFIX k = false }.
Hypothesis Hgroups : groups_ok.

Definition loaded i : Prop := local_fields i = requested.

Hint Resolve cross_class cross_scope cross_enabled cross_leader cross_member cross_app cross_other cross_map : core.

Lemma cross_component i : cross i → Data.component i = local_app i.
Proof. intros Hi. unfold Data.component. by rewrite cross_scope. Qed.

Lemma group_label_inj i g g' : cross i → group_label i g = group_label i g' → g = g'.
Proof.
  intros Hi. unfold group_label, Data.generate_secret_label. rewrite cross_class by done. cbn.
  intros Heq%append_inj_l. injection Heq as Heq%append_inj_l. injection Heq as Heq. by eapply append_inj_r.
Qed.

Lemma my_groups i g : cross i → loaded i → g ∈ G → bool_decide (g ∈ Data.my_secret_groups i) = true.
Proof.
  intros Hi Hl Hg. apply bool_decide_eq_true. unfold Data.my_secret_groups. rewrite Hl, (cross_map _ Hi).
  apply list_elem_of_omap. by apply groups_asked.
Qed.

Lemma group_uri i g : cross i → loaded i → g ∈ G →
  Data.get_secret_uri g i = Ok (by_label (group_label i g) (secrets i)).
Proof.
  intros Hi Hl Hg. unfold Data.get_secret_uri. rewrite cross_enabled, my_groups by done. cbn [negb mbind result_bind].
  unfold Data.generate_secret_field_name. rewrite cross_class by done. by rewrite (cross_refs _ Hi).
Qed.

Lemma group_secret i g : cross i → loaded i → g ∈ G →
  Data.get_relation_secret g i =
  Ok ((λ id, Data.mkSecret id (group_label i g) None) <$> by_label (group_label i g) (secrets i), i).
Proof.
  intros Hi Hl Hg. unfold Data.get_relation_secret. rewrite cross_enabled, cross_class by done. cbn [negb].
  fold (group_label i g). destruct (by_label (group_label i g) (secrets i)) eqn:E; [done|].
  rewrite group_uri by done. cbn [mbind result_bind]. by rewrite E.
Qed.

(** ** Writing one group *)

(** The group [g] has [c] added to its secret, and nothing else changed. *)
Record wrote (g : string) (c : databag) i i' : Prop := mkWrote {
  wrote_cross : cross i';
  wrote_loaded : loaded i → loaded i';
  wrote_content : group_content i' g = c ∪ group_content i g;
  wrote_others g' : g' ≠ g → group_content i' g' = group_content i g';
  wrote_own k : k ≠ group_ref g → own i' !! k = own i !! k }.

Lemma cross_with_secrets i t : cross i →
  (∀ g, g ∈ G → by_label (group_label i g) t = by_label (group_label i g) (secrets i)) → cross (Data.with_secrets t i).
Proof.
  intros [] Ht. split; try done. intros g Hg.
  transitivity (by_label (group_label i g) (secrets i)); [by apply Ht|by apply cross_refs0].
Qed.

Definition chosen_of (data : list (string * string)) (fields : list string) (g : string) : databag :=
  list_to_map (filter (λ '(k, _), k ∈ fields ∧ dict_get k M = Some g) data).

Lemma content_for i data fields g : cross i → g ∈ G →
  Data.content_for_secret_group data fields g i = Ok (chosen_of data fields g, i).
Proof.
  intros Hi Hg. unfold Data.content_for_secret_group, chosen_of. rewrite cross_class by done.
  rewrite (cross_map _ Hi), bool_decide_eq_false_2; [done|].
  destruct (groups_asked Hgroups g Hg) as (k & _ & Hk). by apply (groups_names Hgroups k).
Qed.

(** A secret that is not emptied is written in place. *)
Record replaced (g : string) (c : databag) i i' : Prop := mkReplaced {
  replaced_cross : cross i';
  replaced_loaded : loaded i → loaded i';
  replaced_content : group_content i' g = c;
  replaced_others g' : g' ≠ g → group_content i' g' = group_content i g';
  replaced_own : own i' = own i }.

Lemma set_content_replaces i g id c : cross i → g ∈ G → by_label (group_label i g) (secrets i) = Some id → c ≠ ∅ →
  replaced g c i (Data.set_content (Data.mkSecret id (group_label i g) None) c i).
Proof.
  intros Hi Hg Hl Hne. unfold Data.set_content. cbn [Data.secret_id Data.current_label]. case_bool_decide as Hc.
  { split; try done. unfold group_content. by rewrite Hl. }
  rewrite bool_decide_eq_false_2 by done.
  assert (∀ l, by_label l (set_content_of id c (secrets i)) = by_label l (secrets i)) as Hlab
    by (intros; apply set_content_label).
  split; try done.
  - by apply cross_with_secrets.
  - unfold group_content. change (group_label (Data.with_secrets _ i) g) with (group_label i g). cbn.
    by rewrite Hlab, Hl, (set_content_content _ _ _ _ _ Hl), decide_True.
  - intros g' Hne'. unfold group_content. change (group_label (Data.with_secrets _ i) g') with (group_label i g'). cbn.
    rewrite Hlab. destruct (by_label (group_label i g') (secrets i)) as [id'|] eqn:E; [|done].
    rewrite (set_content_content _ _ _ _ _ Hl), decide_False; [done|]. intros ->.
    apply Hne'. eapply group_label_inj; [done|]. by eapply by_label_inj.
Qed.

Lemma set_group_content i g id c : cross i → g ∈ G → by_label (group_label i g) (secrets i) = Some id →
  c ∪ content_of id (secrets i) ≠ ∅ →
  wrote g c i (Data.set_content (Data.mkSecret id (group_label i g) None) (c ∪ content_of id (secrets i)) i).
Proof.
  intros Hi Hg Hl Hne. destruct (set_content_replaces i g id _ Hi Hg Hl Hne) as [Hc Hlo Hgc Ho Hown].
  split; try done; [|by rewrite Hown]. rewrite Hgc. unfold group_content. by rewrite Hl.
Qed.

Lemma group_ref_inj g g' : group_ref g = group_ref g' → g = g'.
Proof. apply append_inj_l. Qed.

Lemma requested_not_ref k g : k ∈ requested → k ≠ group_ref g.
Proof. intros Hk ->. apply groups_plain in Hk; [|done].
  assert (startswith PROV_SECRET_PREFIX (group_ref g) = true) as Ht by (apply startswith_iff; by exists g). congruence. Qed.

Lemma cross_with_bag i b : cross i →
  (∀ g, g ∈ G → b !! group_ref g = own i !! group_ref g) → (∀ k, k ∈ requested → b !! k = None) →
  cross (Data.with_bag (Data.component i) b i).
Proof.
  intros Hi Hr Hk. pose proof (cross_component _ Hi) as Hc.
  assert (Data.bag other (Data.with_bag (Data.component i) b i) = Data.bag other i) as Ho.
  { unfold Data.bag. cbn. rewrite lookup_insert_ne; [done|]. rewrite Hc. by apply not_eq_sym, cross_other. }
  destruct Hi. split; try done.
  - unfold Data.has_member. cbn. by rewrite lookup_insert_eq.
  - by rewrite Ho.
  - by rewrite Ho.
  - intros g Hg. rewrite own_with_bag, Hr by done. by apply cross_refs0.
  - intros g Hg. rewrite own_with_bag, Hr by done. by apply cross_ids0.
  - intros k. rewrite own_with_bag. apply Hk.
Qed.

Lemma cross_with_ref i g id t : cross i → g ∈ G → id ≠ "" →
  (∀ g', by_label (group_label i g') t = if decide (g' = g) then Some id else by_label (group_label i g') (secrets i)) →
  cross (Data.with_bag (Data.component i) (<[group_ref g := id]> (own i)) (Data.with_secrets t i)).
Proof.
  intros Hi Hg Hid Ht. set (i1 := Data.with_secrets t i).
  assert (Data.bag other (Data.with_bag (Data.component i) (<[group_ref g := id]> (own i)) i1) = Data.bag other i) as Ho.
  { unfold Data.bag. cbn. rewrite lookup_insert_ne; [done|]. rewrite (cross_component _ Hi). by apply not_eq_sym, cross_other. }
  assert (own (Data.with_bag (Data.component i) (<[group_ref g:=id]> (own i)) i1) = <[group_ref g:=id]> (own i)) as Hown
    by exact (own_with_bag i1 _).
  destruct Hi. split; try done; rewrite ?Hown, ?Ho; try done.
  - unfold Data.has_member. cbn. by rewrite lookup_insert_eq.
  - intros g' Hg'. transitivity (if decide (g' = g) then Some id else by_label (group_label i g') (secrets i)); [apply Ht|].
    case_decide; [subst; by rewrite lookup_insert_eq|]. rewrite lookup_insert_ne; [by apply cross_refs0|].
    by intros ?%group_ref_inj.
  - intros g' Hg'. destruct (decide (g' = g)) as [->|]; [rewrite lookup_insert_eq; congruence|].
    rewrite lookup_insert_ne; [by apply cross_ids0|]. by intros ?%group_ref_inj.
  - intros k Hk. rewrite lookup_insert_ne; [by apply cross_own0|]. by apply not_eq_sym, requested_not_ref.
Qed.

(** A new secret of the group, with its reference. *)
Lemma add_group_content i g data fields : cross i → loaded i → g ∈ G → by_label (group_label i g) (secrets i) = None →
  ∃ i', Data.add_relation_secret true data g fields i = Ok (Data.Success, i') ∧ wrote g (chosen_of data fields g) i i'.
Proof.
  intros Hi Hl Hg Hno. unfold Data.add_relation_secret. rewrite cross_enabled, group_uri by done.
  cbn [negb mbind result_bind]. rewrite Hno. cbn [truthy_opt]. rewrite content_for by done. cbn [mbind result_bind].
  fold (group_label i g). rewrite Hno. set (c := chosen_of data fields g). rewrite cross_app by done.
  pose proof (λ l, add_secret_label c (group_label i g) (secrets i) l Hno) as Hal.
  pose proof (add_secret_content c (group_label i g) (secrets i)) as Hac.
  pose proof (add_secret_others c (group_label i g) (secrets i)) as Hao.
  pose proof (add_secret_id c (group_label i g) (secrets i)) as Hid.
  destruct (add_secret c (group_label i g) (secrets i)) as [id t]. cbn in Hal, Hac, Hao, Hid.
  rewrite (proj2 (String.eqb_neq _ _)) by (by apply cross_other). rewrite (proj2 (truthy_true id)) by done.
  eexists. split; [done|]. set (i1 := Data.with_secrets (grant id other t) i).
  assert (own i1 = own i) as Hown by done.
  unfold Data.set_secret_uri, Data.generate_secret_field_name. change (class i1) with (class i). rewrite cross_class by done.
  unfold bag_set. rewrite (proj2 (truthy_true id)) by done. fold (group_ref g). fold (own i1). rewrite Hown.
  assert (own (Data.with_bag (Data.component i1) (<[group_ref g:=id]> (own i)) i1) = <[group_ref g:=id]> (own i)) as Hown'
    by apply own_with_bag.
  split; try done; rewrite ?Hown'.
  - apply (cross_with_ref i g id); [done..|]. intros g'. rewrite grant_label, Hal.
    repeat case_decide; congruence || (exfalso; naive_solver eauto using group_label_inj).
  - unfold group_content. change (group_label (Data.with_bag _ _ i1) g) with (group_label i g). cbn.
    by rewrite grant_label, Hal, decide_True, grant_content, Hac, Hno, (right_id_L ∅ (∪)).
  - intros g' Hne. unfold group_content. change (group_label (Data.with_bag _ _ i1) g') with (group_label i g'). cbn.
    rewrite grant_label, Hal, decide_False by (intros ?%group_label_inj; done).
    destruct (by_label (group_label i g') (secrets i)) eqn:E; [|done]. by rewrite grant_content, (Hao _ _ E).
  - intros k Hk. by rewrite lookup_insert_ne.
Qed.
(** ** Writing several groups *)

Lemma write_group i g data fields : cross i → loaded i → g ∈ G → chosen_of data fields g ≠ ∅ →
  ∃ i', Data.add_or_update_relation_secrets true data g fields i = Ok (Data.Success, i') ∧
    wrote g (chosen_of data fields g) i i'.
Proof.
  intros Hi Hl Hg Hne. unfold Data.add_or_update_relation_secrets. rewrite group_secret by done.
  cbn [mbind result_bind]. destruct (by_label (group_label i g) (secrets i)) as [id|] eqn:E; cbn [fmap option_fmap option_map].
  - unfold Data.update_relation_secret. rewrite group_secret, E by done.
    cbn [mbind result_bind fmap option_fmap option_map]. rewrite content_for by done. cbn [mbind result_bind Data.secret_id].
    eexists. split; [done|]. apply set_group_content; [done..|]. by apply map_positive_l_alt.
  - by apply add_group_content.
Qed.

Lemma group_fields_spec (group_of : string → string) ks : ∀ d, dict_wf d →
  ∃ gs, Data.group_fields (λ key, Ok (key, group_of key)) ks d = Ok gs ∧ dict_wf gs ∧
    ∀ g, g ∈ dict_keys gs ↔ g ∈ dict_keys d ∨ ∃ k, k ∈ ks ∧ group_of k = g.
Proof.
  induction ks as [|k ks IH]; intros d Hd.
  { exists d. split; [done|]. split; [done|]. set_solver. }
  cbn [Data.group_fields mbind result_bind].
  destruct (IH (Data.append_group (group_of k) k d)) as (gs & -> & Hwf & Hgs); [by apply dict_set_wf|].
  exists gs. split; [done|]. split; [done|]. intros g. rewrite Hgs. unfold Data.append_group.
  rewrite <- dict_mem_iff. unfold dict_mem. rewrite bool_decide_eq_true, dict_get_set. rewrite <- dict_get_is_Some.
  setoid_rewrite elem_of_cons. destruct (decide (g = group_of k)) as [->|]; [|naive_solver].
  split; [|by eauto]. intros _. right. by exists k; auto.
Qed.

Lemma write_groups data fields gs : ∀ i normal, cross i → loaded i → NoDup (dict_keys gs) →
  (∀ g, g ∈ dict_keys gs → g ∈ G ∧ chosen_of data fields g ≠ ∅) →
  ∃ i', Data.run_groups (Data.add_or_update_relation_secrets true data) fields gs ∅ normal i = Ok (∅, normal, i') ∧
    cross i' ∧ loaded i' ∧
    (∀ g, group_content i' g = (if decide (g ∈ dict_keys gs) then chosen_of data fields g else ∅) ∪ group_content i g) ∧
    (∀ k, (∀ g, k ≠ group_ref g) → own i' !! k = own i !! k).
Proof.
  induction gs as [|[g fs] gs IH]; intros i normal Hi Hl Hnd Hgs.
  { exists i. do 3 (split; [done|]). split; [|done]. intros g.
    rewrite decide_False by apply not_elem_of_nil. by rewrite (left_id_L ∅ (∪)). }
  cbn [Data.run_groups]. apply NoDup_cons in Hnd as [Hfresh Hnd].
  destruct (Hgs g) as [Hg Hne]; [by left|]. destruct (write_group i g data fields Hi Hl Hg Hne) as (i1 & -> & Hw).
  cbn [mbind result_bind].
  destruct (IH i1 normal (wrote_cross _ _ _ _ Hw) (wrote_loaded _ _ _ _ Hw Hl) Hnd) as (i' & Hr & Hc & Hl' & Hcont & Hown).
  { intros g' Hg'. apply Hgs. by right. }
  exists i'. do 3 (split; [done|]). split.
  - intros g'. rewrite Hcont. destruct (decide (g' = g)) as [->|Hg'].
    + rewrite decide_False by done. rewrite (left_id_L ∅ (∪)), (wrote_content _ _ _ _ Hw).
      by rewrite decide_True by left.
    + rewrite (wrote_others _ _ _ _ Hw g') by done. f_equal.
      repeat case_decide; try done; exfalso; unfold dict_keys in *; set_solver.
  - intros k Hk. rewrite Hown by done. by apply (wrote_own _ _ _ _ Hw).
Qed.
(** ** Writing fields *)

(** What may be written: a dictionary, each of whose fields is in a group of this
    application when it was asked for, and is no reference to a secret. *)
Record writes_ok (data : list (string * string)) : Prop := mkWritesOk {
  ok_keys : NoDup (dict_keys data);
  ok_secret k : k ∈ dict_keys data → k ∈ requested → ∃ g, g ∈ G ∧ dict_get k M = Some g;
  ok_plain k : k ∈ dict_keys data → k ∉ requested → ∀ g, k ≠ group_ref g }.

Definition asked (data : list (string * string)) : list string := filter (λ k, k ∈ requested) (dict_keys data).

Lemma chosen_lookup_of data fields g k v : NoDup (dict_keys data) →
  (k, v) ∈ data → k ∈ fields → dict_get k M = Some g → chosen_of data fields g !! k = Some v.
Proof.
  intros Hnd Hd Hf Hg. apply elem_of_list_to_map_1.
  - eapply sublist_NoDup; [exact Hnd|]. apply fmap_sublist, sublist_filter.
  - by apply list_elem_of_filter.
Qed.

Lemma chosen_not_of data fields g k : k ∉ dict_keys data → chosen_of data fields g !! k = None.
Proof.
  intros Hk. apply not_elem_of_list_to_map_1. intros ([k' v] & -> & [_ Hin]%list_elem_of_filter)%list_elem_of_fmap.
  apply Hk. apply list_elem_of_fmap. by exists (k', v).
Qed.

Lemma last_value_elem (data : list (string * string)) k v : NoDup (dict_keys data) → (k, v) ∈ data → last_value k data = Some v.
Proof.
  induction data as [|[k' v'] data IH] using rev_ind; [set_solver|]. unfold dict_keys in *. rewrite fmap_app.
  intros (Hnd & Hdis & _)%NoDup_app [Hin|Hin]%elem_of_app; rewrite last_value_snoc.
  - rewrite decide_False; [by apply IH|]. intros ->. apply (Hdis k); [|cbn; set_solver].
    apply list_elem_of_fmap. by exists (k, v).
  - apply list_elem_of_singleton in Hin as [= -> ->]. by rewrite decide_True.
Qed.

(** After a write: the secrets and the bag have it. *)
Record published (data : list (string * string)) i i' : Prop := mkPublished {
  published_cross : cross i';
  published_loaded : loaded i';
  published_secret k v g : (k, v) ∈ data → k ∈ requested → dict_get k M = Some g → group_content i' g !! k = Some v;
  published_plain k v : (k, v) ∈ data → k ∉ requested → own i' !! k = (if truthy v then Some v else None);
  published_kept k : k ∉ dict_keys data → (∀ g, k ≠ group_ref g) → own i' !! k = own i !! k;
  published_kept_secret g k : k ∉ dict_keys data → group_content i' g !! k = group_content i g !! k }.

Lemma cross_no_fallback i : cross i → Data.fallback_to_databag requested i = false.
Proof.
  intros Hi. unfold Data.fallback_to_databag. apply andb_false_intro2.
  apply not_true_is_false. intros (k & Hk%list_elem_of_In & Hb%bool_decide_eq_true)%existsb_exists.
  change (is_Some (own i !! k)) in Hb. rewrite (cross_own _ Hi) in Hb by done. by destruct Hb.
Qed.

(** The secrets are written group by group; the other fields are left. *)
Lemma write_secrets i data : cross i → loaded i → writes_ok data →
  ∃ i', Data.process_secret_fields requested (dict_keys data) (Data.add_or_update_relation_secrets true data) i =
      Ok (∅, filter (λ k, k ∉ requested) (dict_keys data), i') ∧ cross i' ∧ loaded i' ∧
    (∀ k v g, (k, v) ∈ data → k ∈ requested → dict_get k M = Some g → group_content i' g !! k = Some v) ∧
    (∀ g k, k ∉ dict_keys data → group_content i' g !! k = group_content i g !! k) ∧
    (∀ k, (∀ g, k ≠ group_ref g) → own i' !! k = own i !! k).
Proof.
  intros Hi Hl [Hnd Hs Hp]. unfold Data.process_secret_fields. rewrite cross_enabled, cross_no_fallback by done.
  cbn [negb]. rewrite !andb_true_r. case_bool_decide as Hr.
  2: { exists i. rewrite Hr. rewrite filter_every by set_solver. do 3 (split; [done|]). set_solver. }
  fold (asked data). unfold Data.group_secret_fields. rewrite cross_class, (cross_map _ Hi) by done.
  destruct (group_fields_spec (λ k, opt_or (dict_get k M) EXTRA) (asked data) []) as (gs & -> & Hwf & Hgs); [constructor|].
  cbn [mbind result_bind].
  assert (∀ k v g, (k, v) ∈ data → k ∈ requested → dict_get k M = Some g →
    chosen_of data (asked data) g !! k = Some v ∧ opt_or (dict_get k M) EXTRA = g) as Hc.
  { intros k v g Hd Hk Hg. split.
    - apply chosen_lookup_of; try done. apply list_elem_of_filter. split; [done|]. apply list_elem_of_fmap. by exists (k, v).
    - rewrite Hg. cbn. destruct (groups_names Hgroups _ _ Hg) as [Hg' _]. unfold str_or.
      by rewrite (proj2 (truthy_true g)). }
  destruct (write_groups data (asked data) gs i (filter (λ k, k ∉ requested) (dict_keys data)) Hi Hl Hwf)
    as (i' & -> & Hc' & Hl' & Hcont & Hown).
  { intros g [Hg|(k & [Hk Hd]%list_elem_of_filter & Hg)]%Hgs; [by apply elem_of_nil in Hg|].
    destruct (Hs k Hd Hk) as (g' & Hg' & Hm). apply list_elem_of_fmap in Hd as ([k' v] & -> & Hd).
    destruct (Hc _ _ _ Hd Hk Hm) as [Hch Heq]. cbn in Hg. rewrite Heq in Hg. subst g'. split; [done|].
    intros He. by rewrite He in Hch. }
  exists i'. do 3 (split; [done|]). split; [|split; [|done]].
  - intros k v g Hd Hk Hg. destruct (Hc _ _ _ Hd Hk Hg) as [Hch Heq]. rewrite Hcont, lookup_union.
    rewrite decide_True; [rewrite Hch; by destruct (group_content i g !! k)|]. apply Hgs. right. exists k. split; [|done].
    apply list_elem_of_filter. split; [done|]. apply list_elem_of_fmap. by exists (k, v).
  - intros g k Hk. rewrite Hcont, lookup_union. case_decide; rewrite ?chosen_not_of, ?lookup_empty by done;
      by rewrite (left_id_L None (∪)).
Qed.
Lemma cross_load i : cross i →
  ∃ i', Data.load_secrets_from_databag i = Ok i' ∧ cross i' ∧ loaded i' ∧ own i' = own i ∧
    ∀ g, group_content i' g = group_content i g.
Proof.
  intros Hi. unfold Data.load_secrets_from_databag. rewrite cross_class, cross_app by done.
  rewrite (cross_requested _ Hi), (cross_provided _ Hi). cbn [mbind result_bind].
  eexists. split; [done|]. split; [|done]. destruct Hi. by split.
Qed.

Lemma cross_update i data : cross i → writes_ok data →
  ∃ i', Data.update_relation_data data i = Ok i' ∧ published data i i'.
Proof.
  intros Hi Hd. unfold Data.update_relation_data, Data.legacy_apply_on_update. rewrite cross_leader, cross_class by done.
  cbn [negb mbind result_bind]. unfold Data.update_relation_data_, Data.either_static_or_dynamic_secrets.
  rewrite cross_class by done. cbn [mbind result_bind].
  destruct (cross_load i Hi) as (i0 & -> & Hi0 & Hl0 & Ho0 & Hc0). cbn [mbind result_bind].
  unfold Data.local_secret_fields. rewrite (cross_class _ Hi0), cross_enabled, Hl0 by done. cbn [mbind result_bind].
  rewrite bool_decide_eq_true_2 by by apply cross_class.
  destruct (write_secrets i0 data Hi0 Hl0 Hd) as (i1 & -> & Hi1 & Hl1 & Hs & Hks & Ho1). cbn [mbind result_bind].
  rewrite (cross_class _ Hi1), <- (cross_component _ Hi1). eexists. split; [done|].
  unfold Data.update_relation_data_without_secrets. rewrite cross_member by done. fold (own i1).
  set (rest := filter (λ '(k, _), k ∈ filter (λ k, k ∉ requested) (dict_keys data)) data).
  assert (∀ k, last_value k rest = if decide (k ∈ filter (λ k, k ∉ requested) (dict_keys data)) then last_value k data else None) as Hrest
    by (intros; exact (last_value_filter (λ k, k ∈ filter (λ k, k ∉ requested) (dict_keys data)) k data)).
  assert (∀ k, k ∉ dict_keys data ∨ k ∈ requested → bag_update rest (own i1) !! k = own i1 !! k) as Hkept.
  { intros k Hk. rewrite bag_update_lookup, Hrest, decide_False; [done|]. rewrite list_elem_of_filter. tauto. }
  split; rewrite ?own_with_bag.
  - apply cross_with_bag; [done|..].
    + intros g Hg. destruct (decide (group_ref g ∈ dict_keys data)) as [Hin|Hin]; [|apply Hkept; by left].
      apply Hkept. right. apply dec_stable. intros Hn. by destruct (ok_plain _ Hd _ Hin Hn g).
    + intros k Hk. rewrite Hkept by by right. by apply (cross_own _ Hi1).
  - exact Hl1.
  - exact Hs.
  - intros k v Hkv Hk. rewrite bag_update_lookup, Hrest, decide_True.
    + by rewrite (last_value_elem _ _ _ (ok_keys _ Hd) Hkv).
    + apply list_elem_of_filter. split; [done|]. apply list_elem_of_fmap. by exists (k, v).
  - intros k Hk Hr. rewrite Hkept by by left. by rewrite Ho1, Ho0.
  - intros g k Hk. transitivity (group_content i1 g !! k); [done|]. by rewrite Hks, Hc0.
Qed.

(** ** What the other application reads *)

(** The relation as the charm of the other application reads it (Models.v):
    [juju] is what a secret given by its identifier holds for it. *)
Definition remote_of (juju : string → option databag) (r : interface T) : PeerCluster.remote_app :=
  PeerCluster.mkRemote (bool_decide (is_Some (rel_app (rel r))))
    (λ k, app ← rel_app (rel r); Data.bag app r !! k) juju
    (λ req fields,
      match rel_app (rel r) with
      | Some app => match Data.fetch_relation_data_with_secrets app req fields r with Ok (d, _) => d | Err _ => ∅ end
      | None => ∅
      end).

(** Whatever an application writes on the relation, the other application reads:
    once the relation has it, a field the other one asked for as a secret is what
    its getters find through the secret of the field's group, and is not in the
    bag; any other field is in the bag, with the empty value as no value. *)
Theorem cross_delivers i data juju (r : interface T) :
  cross i → writes_ok data →
  ∃ i', Data.update_relation_data data i = Ok i' ∧
    (bags (rel r) = bags (rel i') → rel_app (rel r) = Some (local_app i') →
     (∀ g id, g ∈ G → by_label (group_label i' g) (secrets i') = Some id →
        juju id = Some (content_of id (secrets i'))) →
     ∀ k v, (k, v) ∈ data →
       if decide (k ∈ requested) then
         (∃ g, dict_get k M = Some g ∧ PeerCluster.fetch_from_secrets (PeerCluster.of_relation (Some (remote_of juju r))) g k = v) ∧
         PeerCluster.relation_field (remote_of juju r) k = None
       else PeerCluster.relation_field (remote_of juju r) k = (if truthy v then Some v else None)).
Proof.
  intros Hi Hd. destruct (cross_update i data Hi Hd) as (i' & Hr & [Hc _ Hs Hp _ _]).
  exists i'. split; [done|]. intros Hbags Happ Hjuju k v Hkv.
  assert (∀ k, PeerCluster.relation_field (remote_of juju r) k = own i' !! k) as Hfield.
  { intros k'. cbn. rewrite Happ. cbn. unfold own, Data.bag. by rewrite Hbags, (cross_component _ Hc). }
  case_decide as Hk; [|by rewrite Hfield; apply Hp].
  split; [|by rewrite Hfield, (cross_own _ Hc)].
  assert (k ∈ dict_keys data) as Hin by (apply list_elem_of_fmap; by exists (k, v)).
  destruct (ok_secret _ Hd k Hin Hk) as (g & Hg & Hm). exists g. split; [done|].
  pose proof (Hs _ _ _ Hkv Hk Hm) as Hv. unfold group_content in Hv.
  destruct (by_label (group_label i' g) (secrets i')) as [id|] eqn:Hid; [|by rewrite lookup_empty in Hv].
  pose proof (cross_refs _ Hc g Hg) as Href. rewrite Hid in Href.
  unfold PeerCluster.fetch_from_secrets, PeerCluster.of_relation. cbn [PeerCluster.relation]. rewrite Hfield.
  change (PeerCluster.PROV_SECRET_PREFIX ++ g) with (group_ref g). rewrite <- Href.
  rewrite (proj2 (truthy_true id)) by (intros ->; by apply (cross_ids _ Hc g Hg)).
  cbn [PeerCluster.get_secret remote_of]. rewrite (Hjuju g id Hg Hid). by rewrite Hv.
Qed.
End cross.

(** ** Requested fields only *)

Section requested_only.
Context {T : Type} `{SecretsLaws T}.
Implicit Types i : interface T.

Lemma cross_secret_class g i r i' : class i = Cross → Data.get_relation_secret g i = Ok (r, i') → class i' = Cross.
Proof.
  intros Hc. unfold Data.get_relation_secret. destruct (negb (secrets_enabled i)); [done|]. rewrite Hc.
  destruct (by_label _ _); [by intros [= _ <-]|]. rewrite result_bind_ok. intros (uri & _ & Hr).
  destruct (truthy_opt uri) eqn:Hu; [|by injection Hr as _ <-]. unfold Data.secret_meta in Hr. cbn [list_find] in Hr.
  destruct (by_label _ _); [by injection Hr as _ <-|]. rewrite Hu in Hr.
  destruct (by_id _ _ _); [|done]. by injection Hr as _ <-.
Qed.

Lemma fetch_group_only g fields i r i' : class i = Cross → fields ≠ [] → Data.fetch_group g fields i = Ok (r, i') →
  class i' = Cross ∧ match r with Data.Contents d => ∀ k, is_Some (d !! k) → k ∈ fields | _ => True end.
Proof.
  intros Hc Hne. unfold Data.fetch_group, Data.get_group_secret_contents. rewrite Hc. cbn [mbind result_bind].
  rewrite result_bind_ok. intros ([d i1] & Hd & Hr). rewrite result_bind_ok in Hd. destruct Hd as ([s i2] & Hs & Hd).
  injection Hd as <- <-. injection Hr as <- <-. split; [by eapply cross_secret_class|].
  case_bool_decide; [done|]. destruct s as [s|]; [|by intros k [v Hv%lookup_empty_Some]].
  intros k [v [_ [Hf|Hf]]%map_lookup_filter_Some]; done.
Qed.

Lemma run_groups_only fields gs : fields ≠ [] → ∀ content normal i c n i', class i = Cross →
  Data.run_groups Data.fetch_group fields gs content normal i = Ok (c, n, i') →
  (∀ k, is_Some (c !! k) → is_Some (content !! k) ∨ k ∈ fields) ∧
  (∀ k, k ∈ n → k ∈ normal ∨ ∃ fs, fs ∈ gs.*2 ∧ k ∈ fs).
Proof.
  intros Hne. induction gs as [|[g fs] gs IH]; intros content normal i c n i' Hc.
  { cbn. intros [= <- <- <-]. split; auto. }
  cbn [Data.run_groups]. rewrite result_bind_ok. intros ([r i1] & Hr & Hrun).
  destruct (fetch_group_only _ _ _ _ _ Hc Hne Hr) as [Hc1 Hd].
  destruct r as [| |d]; apply IH in Hrun as [Hk Hn]; try done; (split; [|intros k Hin; destruct (Hn k Hin) as [Hl|(fs' & Hfs & Hk')]]).
  - exact Hk.
  - apply elem_of_app in Hl as [Hl|Hl]; [by left|]. right. exists fs. split; [by left|done].
  - right. exists fs'. split; [by right|done].
  - exact Hk.
  - by left.
  - right. exists fs'. split; [by right|done].
  - intros k [[v [Hv|[_ Hv]]%lookup_union_Some_raw]|Hk']%Hk; [right; apply Hd; by exists v|left; by exists v|by right].
  - by left.
  - right. exists fs'. split; [by right|done].
Qed.

Lemma elem_of_dict_set {A} (k : string) (v : A) d x : x ∈ dict_set k v d → x = (k, v) ∨ x ∈ d.
Proof.
  induction d as [|[k' v'] d IH]; cbn; [intros ->%list_elem_of_singleton; by left|].
  case_decide; subst; intros [->|Hx]%elem_of_cons; rewrite elem_of_cons; auto. destruct (IH Hx); auto.
Qed.

Lemma group_fields_members (f : string → string) ks : ∀ d gs,
  Data.group_fields (λ key, Ok (key, f key)) ks d = Ok gs →
  ∀ g fs k, (g, fs) ∈ gs → k ∈ fs → k ∈ ks ∨ ∃ g' fs', (g', fs') ∈ d ∧ k ∈ fs'.
Proof.
  induction ks as [|k0 ks IH]; intros d gs; cbn [Data.group_fields mbind result_bind].
  { intros [= <-]. eauto. }
  intros Hgs g fs k Hfs Hk. destruct (IH _ _ Hgs _ _ _ Hfs Hk) as [?|(g' & fs' & Hin & Hk')]; [left; by right|].
  unfold Data.append_group in Hin. apply elem_of_dict_set in Hin as [[= -> ->]|Hin]; [|by eauto].
  apply elem_of_app in Hk' as [Hk'|Hk'%list_elem_of_singleton]; [|left; subst; by left].
  unfold dict_get_or in Hk'. destruct (dict_get (f k0) d) as [l|] eqn:E; [|by apply elem_of_nil in Hk'].
  right. exists (f k0), l. split; [by apply dict_get_elem|done].
Qed.

Lemma process_only req fields i c n i' : class i = Cross →
  Data.process_secret_fields req fields Data.fetch_group i = Ok (c, n, i') →
  (∀ k, is_Some (c !! k) → k ∈ fields) ∧ (∀ k, k ∈ n → k ∈ fields).
Proof.
  intros Hc. unfold Data.process_secret_fields. destruct (_ && _ && _).
  2: { intros [= <- <- <-]. split; [by intros k [v Hv%lookup_empty_Some]|done]. }
  rewrite result_bind_ok. unfold Data.group_secret_fields. rewrite Hc. intros (gs & Hgs & Hrun).
  set (asked := filter (λ f, f ∈ req) fields) in *.
  assert (∀ k, k ∈ asked → k ∈ fields) as Hsub by (by intros k [_ ?]%list_elem_of_filter).
  destruct (decide (asked = [])) as [He|Hne].
  - rewrite He in Hgs. injection Hgs as <-. injection Hrun as <- <- <-.
    split; [by intros k [v Hv%lookup_empty_Some]|by intros k [_ ?]%list_elem_of_filter].
  - destruct (run_groups_only _ _ Hne _ _ _ _ _ _ Hc Hrun) as [Hk Hn]. split.
    + intros k [[v Hv%lookup_empty_Some]|?]%Hk; [done|by apply Hsub].
    + intros k [[_ ?]%list_elem_of_filter|(fs & ([g fs'] & -> & Hin)%list_elem_of_fmap & Hk')]%Hn; [done|].
      destruct (group_fields_members _ _ _ _ Hgs _ _ _ Hin Hk') as [?|(? & ? & Hnil & _)]; [by apply Hsub|].
      by apply elem_of_nil in Hnil.
Qed.

(** The lookup of given fields answers these fields only, as the peer cluster
    object relies on. *)
Lemma library_fetches_requested juju (r : interface T) : class r = Cross → PeerCluster.fetches_requested (remote_of juju r).
Proof.
  intros Hc req fields k Hne. cbn. destruct (rel_app (rel r)) as [app|]; [|by intros [v Hv%lookup_empty_Some]].
  destruct (Data.fetch_relation_data_with_secrets app req fields r) as [[d r']|e] eqn:Hd; [|by intros [v Hv%lookup_empty_Some]].
  unfold Data.fetch_relation_data_with_secrets in Hd. destruct fields as [|f fields]; [done|].
  rewrite result_bind_ok in Hd. destruct Hd as ([[c n] r1] & Hp & Hd). injection Hd as <- <-.
  destruct (process_only _ _ _ _ _ _ Hc Hp) as [Hk Hn].
  intros [v [Hv|[_ Hv]]%lookup_union_Some_raw]; [|apply Hk; by exists v].
  unfold Data.fetch_relation_data_without_secrets in Hv. apply map_lookup_filter_Some in Hv as [_ Hv]. by apply Hn.
Qed.
End requested_only.
