(* ===== verification/DataInterfacesSample.v ===== *)
(** * Secrets of a model of Juju, and the peer interfaces on them

    A concrete implementation of the secrets the data interfaces library calls,
    for the theorems about it to be applied to. *)

From S2P Require Import Prelude PyStr PyDict Json Literals Models DataInterfaces DataInterfacesFacts DataInterfacesCross.

Local Open Scope string_scope.

(** ** A store of secrets *)

(** The secrets in the order they were made, with the label each has now; the
    identifier of a secret is its position. *)
Abbreviation store := (list (option string * databag)).

Definition secret_uri (n : nat) : string := "secret:" ++ pretty (N.of_nat n).

#[export] Instance secret_uri_inj : Inj (=) (=) secret_uri.
Proof. intros n m Hnm%append_inj_l. apply (inj pretty) in Hnm. by apply (inj N.of_nat). Qed.

(** The position an identifier stands for. *)
Definition position (id : string) (t : store) : option nat :=
  fst <$> list_find (λ n, secret_uri n = id) (seq 0 (length t)).
Definition has_label (l : string) (e : option string * databag) : Prop := e.1 = Some l.
#[export] Instance has_label_dec l e : Decision (has_label l e) := decide (e.1 = Some l).
Definition find_label (l : string) (t : store) : option nat := fst <$> list_find (has_label l) t.

(** Takes the label [l] from the secrets that have it. *)
Definition unlabel (l : string) : store → store :=
  fmap (λ '(label, c), (if decide (label = Some l) then None else label, c)).
Definition label_at (n : nat) (t : store) : option string := e ← t !! n; e.1.

#[global] Arguments secret_uri : simpl never.
#[global] Arguments position : simpl never.
#[global] Arguments find_label : simpl never.
#[global] Arguments unlabel : simpl never.

#[export] Instance store_secrets : Secrets store := {
  by_label l t := secret_uri <$> find_label l t;
  by_id id l t :=
    n ← position id t;
    let t := unlabel l t in
    e ← t !! n; Some (<[n := (Some l, e.2)]> t);
  content_of id t := default ∅ (n ← position id t; snd <$> t !! n);
  add_secret c l t := (secret_uri (length t), t ++ [(Some l, c)])%list;
  grant _ _ t := t;
  set_content_of id c t :=
    match position id t with
    | Some n => alter (λ e, (e.1, c)) n t
    | None => t
    end;
  remove_all_revisions id t :=
    match position id t ≫= λ n, label_at n t with
    | Some l => if decide (secret_uri <$> find_label l t = Some id) then unlabel l t else t
    | None => t
    end }.

Lemma position_uri n t : n < length t → position (secret_uri n) t = Some n.
Proof.
  intros Hn. unfold position. apply fmap_Some. exists (n, n). split; [|done]. apply list_find_Some.
  split; [by rewrite lookup_seq_lt|]. split; [done|]. intros m k Hm Hlt Heq%(inj secret_uri).
  apply lookup_seq in Hm. lia.
Qed.

Lemma position_Some id t n : position id t = Some n → id = secret_uri n ∧ n < length t.
Proof.
  unfold position. intros ((m & k) & (Hm & <- & _)%list_find_Some & ->)%fmap_Some.
  apply lookup_seq in Hm as [-> Hm]. by cbn in *.
Qed.

Lemma find_label_Some l t n : find_label l t = Some n ↔
  (∃ c, t !! n = Some (Some l, c)) ∧ ∀ m e, t !! m = Some e → m < n → e.1 ≠ Some l.
Proof.
  unfold find_label. rewrite fmap_Some. split.
  - intros ((m & [l' c]) & (Hm & Hl & Hf)%list_find_Some & ->). cbn in *. unfold has_label in *. cbn in Hl. subst. eauto.
  - intros [[c Hc] Hf]. exists (n, (Some l, c)). split; [|done]. by apply list_find_Some.
Qed.

Lemma find_label_None l t : find_label l t = None ↔ ∀ m e, t !! m = Some e → e.1 ≠ Some l.
Proof.
  unfold find_label. rewrite fmap_None, list_find_None, Forall_lookup. done.
Qed.

Lemma find_label_lt l t n : find_label l t = Some n → n < length t.
Proof. intros [[c Hc] _]%find_label_Some. by eapply lookup_lt_Some. Qed.

Lemma find_label_inj l l' t n : find_label l t = Some n → find_label l' t = Some n → l = l'.
Proof. intros [[c Hc] _]%find_label_Some [[c' Hc'] _]%find_label_Some. congruence. Qed.

Lemma find_label_at l t n : find_label l t = Some n → label_at n t = Some l.
Proof. intros [[c Hc] _]%find_label_Some. unfold label_at. by rewrite Hc. Qed.

Lemma label_uri l t id : secret_uri <$> find_label l t = Some id ↔ ∃ n, find_label l t = Some n ∧ id = secret_uri n.
Proof. rewrite fmap_Some. naive_solver. Qed.

Lemma unlabel_lookup l t n : unlabel l t !! n = (λ '(l', c), (if decide (l' = Some l) then None else l', c)) <$> t !! n.
Proof. apply list_lookup_fmap. Qed.

Lemma find_unlabel l l' t : find_label l' (unlabel l t) = if decide (l' = l) then None else find_label l' t.
Proof.
  case_decide as Hl.
  - subst. apply find_label_None. intros m e He. rewrite unlabel_lookup in He.
    apply fmap_Some in He as ([l' c] & _ & ->). cbn. by case_decide.
  - destruct (find_label l' t) as [n|] eqn:E.
    + apply find_label_Some in E as [[c Hc] Hf]. apply find_label_Some. split.
      * exists c. rewrite unlabel_lookup, Hc. cbn. by rewrite decide_False by congruence.
      * intros m e He. rewrite unlabel_lookup in He. apply fmap_Some in He as ([l2 c2] & Hm & ->). intros Hlt. cbn.
        case_decide; [done|]. exact (Hf _ _ Hm Hlt).
    + apply find_label_None. intros m e He. rewrite unlabel_lookup in He.
      apply fmap_Some in He as ([l2 c2] & Hm & ->). cbn. case_decide; [done|].
      rewrite find_label_None in E. exact (E _ _ Hm).
Qed.

Lemma position_length id t t' : length t = length t' → position id t = position id t'.
Proof. unfold position. by intros ->. Qed.

Lemma content_length id (t t' : store) : (∀ n, snd <$> t !! n = snd <$> t' !! n) → length t = length t' →
  content_of id t = content_of id t'.
Proof.
  intros Hn Hlen. cbn. rewrite (position_length id t t' Hlen). destruct (position id t'); cbn; [|done]. by rewrite Hn.
Qed.

Lemma find_same_labels l (t t' : store) : (∀ n, fst <$> t !! n = fst <$> t' !! n) → find_label l t = find_label l t'.
Proof.
  intros Hn. destruct (find_label l t') as [n|] eqn:E.
  - apply find_label_Some in E as [[c Hc] Hf]. apply find_label_Some. split.
    + pose proof (Hn n) as H. rewrite Hc in H. destruct (t !! n) as [[l' c']|]; [|done]. cbn in H. simplify_eq. by exists c'.
    + intros m e He Hlt. pose proof (Hn m) as H. rewrite He in H.
      destruct (t' !! m) as [e'|] eqn:E'; [|done]. cbn in H. injection H as ->. exact (Hf m e' E' Hlt).
  - rewrite find_label_None in *. intros m e He. pose proof (Hn m) as H. rewrite He in H.
    destruct (t' !! m) as [e'|] eqn:E'; [|done]. cbn in H. injection H as ->. exact (E m e' E').
Qed.

Lemma unlabel_contents l t n : snd <$> unlabel l t !! n = snd <$> t !! n.
Proof. rewrite unlabel_lookup. by destruct (t !! n) as [[? ?]|]. Qed.

Lemma content_unlabel l id t : content_of id (unlabel l t) = content_of id t.
Proof. apply content_length; [intros; apply unlabel_contents|apply length_fmap]. Qed.

(** Giving the secret at [n] the label [l], which no other has. *)
Lemma find_insert_label l (t : store) n (c : databag) : n < length t → find_label l t = None → find_label l (<[n := (Some l, c)]> t) = Some n.
Proof.
  rewrite find_label_None. intros Hn Hl. apply find_label_Some. split; [exists c; by apply list_lookup_insert_eq|].
  intros m e He Hlt. rewrite list_lookup_insert_ne in He by lia. by apply (Hl m).
Qed.

(** A new secret. *)
Lemma find_app_label l c t l' : find_label l t = None →
  find_label l' (t ++ [(Some l, c)])%list = if decide (l' = l) then Some (length t) else find_label l' t.
Proof.
  intros Hl. destruct (find_label l' t) as [n|] eqn:E.
  - rewrite decide_False by (intros ->; congruence). pose proof (find_label_lt _ _ _ E).
    apply find_label_Some in E as [[c' Hc] Hf]. apply find_label_Some. split.
    + exists c'. by rewrite lookup_app_l.
    + intros m e He Hlt. rewrite lookup_app_l in He by lia. exact (Hf m e He Hlt).
  - rewrite find_label_None in E. case_decide as Hll.
    + subst. apply find_label_Some. split; [exists c; by apply list_lookup_middle|].
      intros m e He Hlt. rewrite lookup_app_l in He by done. by apply (E m).
    + apply find_label_None. intros m e He. apply lookup_app_Some in He as [He|[_ He]]; [by apply (E m)|].
      apply list_lookup_singleton_Some in He as [_ <-]. cbn. congruence.
Qed.

Lemma remove_store_label id t l :
  by_label l (remove_all_revisions id t) = if decide (by_label l t = Some id) then None else by_label l t.
Proof.
  cbn. destruct (decide (secret_uri <$> find_label l t = Some id)) as [H1|H1].
  - pose proof H1 as (n & Hn & ->)%label_uri. pose proof (find_label_lt _ _ _ Hn).
    rewrite position_uri by done. cbn [mbind option_bind]. rewrite (find_label_at _ _ _ Hn), decide_True by done.
    by rewrite find_unlabel, decide_True.
  - destruct (position id t ≫= λ n, label_at n t) as [l1|]; [|done]. case_decide as H2; [|done].
    rewrite find_unlabel, decide_False; [done|]. intros ->. done.
Qed.

#[export] Instance store_secrets_laws : SecretsLaws store.
Proof.
  split.
  - intros l l' id t (n & Hn & ->)%label_uri (m & Hm & Heq%(inj secret_uri))%label_uri. subst m.
    by eapply find_label_inj.
  - intros id l t t' Ht. cbn in Ht. apply bind_Some in Ht as (n & Hn & Ht). apply bind_Some in Ht as (e & He & Ht).
    simplify_eq. apply position_Some in Hn as [-> Hlt]. apply label_uri. exists n. split; [|done].
    apply find_insert_label; [unfold unlabel; by rewrite length_fmap|]. rewrite find_unlabel. by case_decide.
  - intros id l t t' id' Ht. cbn in Ht. apply bind_Some in Ht as (n & Hn & Ht). apply bind_Some in Ht as (e & He & Ht).
    simplify_eq. rewrite <- (content_unlabel l id' t). apply content_length; [|by rewrite length_insert].
    intros m. destruct (decide (m = n)) as [->|]; [|by rewrite list_lookup_insert_ne].
    rewrite list_lookup_insert_eq by (by eapply lookup_lt_Some). by rewrite He.
  - done.
  - intros c l t l' Hl. cbn in *. apply fmap_None in Hl. rewrite find_app_label by done. by case_decide.
  - intros c l t. cbn. rewrite position_uri by (rewrite length_app; cbn; lia). cbn. by rewrite list_lookup_middle.
  - intros c l t l' id (n & Hn%find_label_lt & ->)%label_uri. cbn.
    rewrite !position_uri by (rewrite ?length_app; cbn; lia). cbn. by rewrite lookup_app_l.
  - done.
  - done.
  - intros id c t l. cbn. destruct (position id t); [|done]. f_equal. apply find_same_labels. intros m.
    rewrite list_lookup_alter. case_decide; [subst|done]. by destruct (t !! m).
  - intros id c t l id' (n & Hn%find_label_lt & ->)%label_uri. cbn. rewrite position_uri by done. cbn.
    erewrite position_length by apply length_alter. destruct (decide (id' = secret_uri n)) as [->|Hne].
    + rewrite position_uri by done. cbn. rewrite list_lookup_alter, decide_True by done.
      by destruct (lookup_lt_is_Some_2 t n Hn) as [e ->].
    + destruct (position id' t) as [m|] eqn:E; [|done]. cbn. apply position_Some in E as [-> _].
      rewrite list_lookup_alter. case_decide; [congruence|done].
  - apply remove_store_label.
  - intros id t id' Hne. cbn [remove_all_revisions store_secrets]. destruct (position id t ≫= λ n, label_at n t); [|done].
    case_decide; [|done]. apply content_unlabel.
Qed.

(** ** Peer interfaces of a new relation *)

Definition INTERNAL_SECRET : string := "internal_secret".
Definition peer_interface (sc : Scope) (fields : list string) : interface store :=
  mkInterface Peer sc [] "kafka-k8s" "kafka-k8s/0" "kafka-k8s/0" true true INTERNAL_SECRET
    (mkRelation "cluster" 1 (Some "kafka-k8s") {["kafka-k8s" := ∅; "kafka-k8s/0" := ∅]}) [] fields [] [] None [].

Lemma new_own sc fields : own (peer_interface sc fields) = ∅.
Proof. by destruct sc. Qed.

Lemma new_content sc fields : content (peer_interface sc fields) = ∅.
Proof. done. Qed.

Lemma new_peer secret sc fields :
  fields = [] ∨ (∀ k, k ∈ fields ↔ secret k = true) → (∀ k, secret k = true → lacks GROUP_SEPARATOR k = true) →
  peer secret INTERNAL_SECRET (peer_interface sc fields).
Proof.
  intros Hf Hn. split; try done; [by destruct sc|by destruct sc|by left|..]; rewrite ?new_own, ?new_content.
  - intros k _. apply lookup_empty.
  - by intros k [v Hv%lookup_empty_Some].
  - by intros k [v Hv%lookup_empty_Some].
  - set_solver.
Qed.

Lemma new_represents sc fields : represents INTERNAL_SECRET (peer_interface sc fields) ∅.
Proof. intros k _. unfold read, view. by rewrite new_own, new_content. Qed.

Definition password_field (k : string) : bool := bool_decide (k ∈ ["admin-password"; "sync-password"]).

Lemma password_names k : password_field k = true → lacks GROUP_SEPARATOR k = true.
Proof.
  unfold password_field. rewrite bool_decide_eq_true, !elem_of_cons, elem_of_nil. by intros [-> | [-> | []]].
Qed.

Ltac ordinary_field := split; [reflexivity|by repeat (apply not_elem_of_cons; split); [..|apply not_elem_of_nil]].

(** Operations on the fields given, one by one; whether the fields are dynamic
    is evaluated first. *)
Ltac allowed_op :=
  cbn [allowed]; split_and?;
  lazymatch goal with
  | |- ordinary _ _ => ordinary_field
  | |- _ → _ => let Hd := fresh in intros Hd; first [discriminate Hd | reflexivity]
  | |- True => exact I
  | |- _ => reflexivity
  end.
Ltac allowed_ops dynamic :=
  lazymatch goal with |- Forall (allowed _ _ ?d) ?os => change d with dynamic; unfold os end;
  repeat (apply Forall_cons_2; [allowed_op|]); apply Forall_nil_2.

(** The application's passwords over two hooks. *)
Definition app_ops : list op :=
  [SetSecret "admin-password" "one"; SetItem "cluster-uuid" "abc"; SetSecret "sync-password" "two"; NextHook;
   SetSecret "admin-password" "three"; DelSecret "sync-password"; SetItem "cluster-uuid" ""; DelItem "endpoints"].

Lemma peer_interface_refines_map_witness :
  ∃ i', run_ops app_ops (peer_interface APP []) = Ok i' ∧
    DataDict.get "admin-password" i' = Ok (Some "three") ∧ DataDict.get "sync-password" i' = Ok None ∧
    DataDict.get "cluster-uuid" i' = Ok None.
Proof.
  destruct (peer_interface_refines_map password_field INTERNAL_SECRET (peer_interface APP []) ∅ app_ops) as (i' & Hr & Hg).
  - apply new_peer; [by left|apply password_names].
  - apply new_represents.
  - allowed_ops true.
  - exists i'. split; [exact Hr|]. rewrite !Hg by ordinary_field. split_and!; reflexivity.
Defined.

(** The unit's passwords are items like the others. *)
Definition unit_ops : list op :=
  [SetItem "admin-password" "one"; SetItem "ip" "10.0.0.1"; NextHook; SetItem "sync-password" "two"].

Definition unit_before : interface store := peer_interface UNIT ["admin-password"; "sync-password"].
Definition unit_after : interface store :=
  match run_ops unit_ops unit_before with Ok i => i | Err _ => unit_before end.


(** ** A broker and a controller *)

(** The broker's interface on its leader, once the controller has asked for its
    secrets. *)
Definition broker_side : interface store :=
  mkInterface Cross APP Models.SECRET_LABEL_MAP "broker" "broker/0" "broker/0" true true ""
    (mkRelation "peer-cluster-orchestrator" 3 (Some "controller")
       {["broker" := ∅; "controller" := {[REQ_SECRET_FIELDS := dumps (JList (JStr <$> requested_secrets CONTROLLER_ROLE))]}]})
    [] [] [] [] None [].
Definition broker_data : list (string * string) :=
  [("roles", "broker"); ("broker-password", "pw"); ("cluster-uuid", "abc"); ("racks", "")].

Definition broker_after : interface store :=
  match Data.update_relation_data broker_data broker_side with Ok i => i | Err _ => broker_side end.
(** The controller's interface on the same relation. *)
Definition controller_side : interface store :=
  mkInterface Cross APP Models.SECRET_LABEL_MAP "controller" "controller/0" "controller/0" true true ""
    (mkRelation "peer-cluster" 3 (Some "broker") (bags (rel broker_after))) [] [] [] [] None [].
Definition granted (id : string) : option databag := Some (content_of id (secrets broker_after)).

Lemma broker_side_cross :
  cross "controller" (requested_secrets CONTROLLER_ROLE) [] Models.SECRET_LABEL_MAP ["broker"] broker_side.
Proof.
  split; try reflexivity.
  - discriminate.
  - intros g _. discriminate.
Qed.

Lemma broker_groups : groups_ok (requested_secrets CONTROLLER_ROLE) Models.SECRET_LABEL_MAP ["broker"].
Proof.
  split.
  - intros k g Hg%dict_get_elem. unfold Models.SECRET_LABEL_MAP in Hg.
    repeat (apply elem_of_cons in Hg as [Hg|Hg]; [injection Hg as -> ->; split; discriminate|]).
    by apply elem_of_nil in Hg.
  - intros g ->%list_elem_of_singleton. exists "broker-password". split; [cbn; set_solver|reflexivity].
  - intros k Hk. cbn in Hk. repeat (apply elem_of_cons in Hk as [->|Hk]; [reflexivity|]). by apply elem_of_nil in Hk.
Qed.

Lemma broker_writes : writes_ok (requested_secrets CONTROLLER_ROLE) Models.SECRET_LABEL_MAP ["broker"] broker_data.
Proof.
  split.
  - apply (bool_decide_unpack _). vm_compute. exact I.
  - intros k Hk Hr. exists "broker". split; [by left|]. revert Hr. cbn in Hk.
    repeat (apply elem_of_cons in Hk as [->|Hk]; [cbn; intros Hr; first [reflexivity | exfalso; set_solver]|]).
    by apply elem_of_nil in Hk.
  - intros k Hk Hr g. cbn in Hk.
    repeat (apply elem_of_cons in Hk as [->|Hk]; [discriminate|]). by apply elem_of_nil in Hk.
Qed.


Lemma broker_updates : Data.update_relation_data broker_data broker_side = Ok broker_after.
Proof. vm_compute. reflexivity. Qed.

Lemma same_bags : bags (rel controller_side) = bags (rel broker_after).
Proof. unfold controller_side. cbn [bags rel]. reflexivity. Qed.

Lemma sender_app : rel_app (rel controller_side) = Some (local_app broker_after).
Proof. vm_compute. reflexivity. Qed.

Lemma cross_delivers_witness :
  let r := remote_of granted controller_side in
  PeerCluster.fetch_from_secrets (PeerCluster.of_relation (Some r)) "broker" "broker-password" = "pw" ∧
  PeerCluster.relation_field r "broker-password" = None ∧
  PeerCluster.relation_field r "roles" = Some "broker" ∧ PeerCluster.relation_field r "racks" = None.
Proof.
  destruct (cross_delivers "controller" (requested_secrets CONTROLLER_ROLE) [] Models.SECRET_LABEL_MAP ["broker"] broker_groups
    broker_side broker_data granted controller_side broker_side_cross broker_writes) as (i' & Hi' & Hd).
  rewrite broker_updates in Hi'. apply ok_inj in Hi'. subst i'.
  specialize (Hd same_bags sender_app (λ g id _ _, eq_refl)).
  cbv zeta. split_and!.
  - destruct (Hd "broker-password" "pw") as [(g & [= <-] & Hg) _]; [by right; left|exact Hg].
  - destruct (Hd "broker-password" "pw") as [_ Hn]; [by right; left|exact Hn].
  - exact (Hd "roles" "broker" ltac:(by left)).
  - exact (Hd "racks" "" ltac:(by do 3 right; left)).
Defined.

(** A deletion of several fields at once, one of which is not in the secret,
    deletes none of the secret's: [_delete_relation_secret] is given all the fields
    and stops at the first that is not there. *)
Definition read_after_deleting (fields : list string) (k : string) : result (option string) :=
  i ← Data.delete_relation_data fields unit_after; DataDict.get k i.

Lemma mixed_delete_keeps_secret :
  read_after_deleting ["admin-password"] "admin-password" = Ok None ∧
  read_after_deleting ["admin-password"; "ip"] "ip" = Ok None ∧
  read_after_deleting ["admin-password"; "ip"] "admin-password" = Ok (Some "one").
Proof. vm_compute. done. Qed.
