(* ===== verification/PeerClusterLink.v ===== *)
(** * What an application publishes for its peer cluster reaches the other one

    [RelationState.update] (core/models.py) on the data interfaces library, for the
    relation between the applications of a peer cluster, where Models.v takes the
    data of the relation as an interface: writing, deleting and keeping the secrets
    of the labelled fields. The library implements what Handshake.v assumes of it,
    [delivers]. *)

From S2P Require Import Prelude PyStr PyDict Json Literals Models ModelsFacts Cluster Handshake DataInterfaces DataInterfacesFacts DataInterfacesCross DataInterfacesSample.

Local Open Scope string_scope.

Module PeerClusterState.
Section state.
Context {T : Type} `{Secrets T}.
Implicit Types i : interface T.

(** [del self.relation_data[field]], for each field. *)
Fixpoint delete_each (fields : list string) i : result (interface T) :=
  match fields with
  | [] => Ok i
  | field :: fields => i ← DataDict.delitem field i; delete_each fields i
  end.

(** The set of labelled fields that were written, in the order they were given. *)
Fixpoint keep_secrets (items : list (string * string)) i : result (interface T) :=
  match items with
  | [] => Ok i
  | (key, value) :: items =>
      i ← (match dict_get key Models.SECRET_LABEL_MAP with
           | Some group => '(_, i) ← Data.add_or_update_relation_secrets true [(key, value)] group [key] i; Ok i
           | None => Ok i
           end);
      keep_secrets items i
  end.

(** [RelationState.update], where there is a relation. *)
Definition update (items : list (string * string)) i : result (interface T) :=
  let delete_fields := filter (λ kv, truthy kv.2 = false) items in
  let update_content := filter (λ kv, truthy kv.2 = true) items in
  i ← DataDict.update update_content i;
  i ← delete_each (dict_keys delete_fields) i;
  keep_secrets update_content i.
End state.
End PeerClusterState.
Import PeerClusterState.

(** ** Deleting a field *)

Section link.
Context {T : Type} `{SecretsLaws T}.
Variables (other : string) (requested provided : list string) (G : list string).
Abbreviation M := Models.SECRET_LABEL_MAP.
Hypothesis Hgroups : groups_ok requested M G.
Abbreviation link := (cross other requested provided M G).
Implicit Types i : interface T.

(** The relation but for the field [k]: what the bag has, references aside, and
    what the secrets hold. *)
Record keeps_but (k : string) i i' : Prop := mkKeepsBut {
  kb_cross : link i';
  kb_loaded : loaded requested i';
  kb_own k' : k' ≠ k → (∀ g, k' ≠ group_ref g) → own i' !! k' = own i !! k';
  kb_content g k' : k' ≠ k → group_content i' g !! k' = group_content i g !! k' }.

Lemma link_without_secret i g id : link i → g ∈ G → by_label (group_label i g) (secrets i) = Some id →
  let i1 := Data.with_bag (Data.component i) (delete (group_ref g) (own i)) i in
  let i' := Data.with_secrets (remove_all_revisions id (secrets i)) i1 in
  link i' ∧ ∀ g', group_content i' g' = if decide (g' = g) then ∅ else group_content i g'.
Proof.
  intros Hi Hg Hl i1 i'.
  assert (Hbag : Data.bag other i' = Data.bag other i).
  { unfold i', i1, Data.bag. cbn. rewrite lookup_insert_ne; [done|].
    rewrite (cross_component _ _ _ _ _ _ Hi). apply not_eq_sym. by eapply cross_other. }
  assert (Hown : own i' = delete (group_ref g) (own i)) by exact (own_with_bag i _).
  assert (Hlab : ∀ g', by_label (group_label i' g') (secrets i') =
    if decide (g' = g) then None else by_label (group_label i g') (secrets i)).
  { intros g'. change (group_label i' g') with (group_label i g'). cbn. rewrite remove_label.
    destruct (decide (g' = g)) as [->|Hne]; [by rewrite decide_True|]. rewrite decide_False; [done|].
    intros E. apply Hne. eapply group_label_inj; [exact Hi|]. by eapply by_label_inj. }
  split.
  - destruct Hi. split; try done.
    + unfold Data.has_member. cbn. by rewrite lookup_insert_eq.
    + by rewrite Hbag.
    + by rewrite Hbag.
    + intros g' Hg'. rewrite Hlab, Hown. case_decide as E; [subst; by rewrite lookup_delete_eq|].
      rewrite lookup_delete_ne; [by apply cross_refs|]. by intros ?%group_ref_inj.
    + intros g' Hg'. rewrite Hown, lookup_delete. case_decide; [done|]. by apply cross_ids.
    + intros k Hk. rewrite Hown, lookup_delete. case_decide; [done|]. by apply cross_own.
  - intros g'. unfold group_content. rewrite Hlab. destruct (decide (g' = g)) as [->|Hne]; [done|].
    destruct (by_label (group_label i g') (secrets i)) as [id'|] eqn:E; [|done]. cbn.
    apply remove_content. intros ->. apply Hne. eapply group_label_inj; [exact Hi|]. by eapply by_label_inj.
Qed.

Lemma delete_in_group i g k fields : link i → loaded requested i → g ∈ G →
  ∃ r i', Data.delete_relation_secret [k] g fields i = Ok (r, i') ∧ (r = Data.Nothing ∨ r = Data.Success) ∧
    keeps_but k i i' ∧ ∀ k', (∀ g, k' ≠ group_ref g) → own i' !! k' = own i !! k'.
Proof.
  intros Hi Hl Hg. unfold Data.delete_relation_secret.
  rewrite (group_secret _ _ _ _ _ Hgroups) by done. cbn [mbind result_bind].
  assert (Hsame : keeps_but k i i) by done.
  destruct (by_label (group_label i g) (secrets i)) as [id|] eqn:E; cbn [fmap option_fmap option_map]; [|eauto 10].
  cbn [Data.secret_id Data.pop_fields].
  destruct (content_of id (secrets i) !! k) as [v|] eqn:Hk; [|eauto 10].
  assert (Hgc : group_content i g = content_of id (secrets i)) by (unfold group_content; by rewrite E).
  set (c := delete k (content_of id (secrets i))). case_bool_decide as Hc.
  - assert (Hfn : Data.generate_secret_field_name g i = group_ref g)
      by (unfold Data.generate_secret_field_name; by rewrite (cross_class _ _ _ _ _ _ Hi)).
    destruct (link_without_secret i g id Hi Hg E) as [Hlink Hcont].
    change (Data.generate_secret_label g (Data.with_bag _ _ i)) with (group_label i g).
    change (secrets (Data.with_bag _ _ i)) with (secrets i). rewrite E, Hfn.
    change (Data.bag (Data.component i) i) with (own i).
    eexists _, _. split; [done|]. split; [by right|].
    assert (Ho : ∀ k', (∀ g, k' ≠ group_ref g) → own (Data.with_secrets (remove_all_revisions id (secrets i))
      (Data.with_bag (Data.component i) (delete (group_ref g) (own i)) i)) !! k' = own i !! k').
    { intros k' Hk'. transitivity (delete (group_ref g) (own i) !! k'); [f_equal; exact (own_with_bag i _)|].
      by rewrite lookup_delete_ne by apply not_eq_sym, Hk'. }
    split; [split; [exact Hlink|exact Hl|by intros k' _; apply Ho|]|exact Ho].
    intros g' k' Hne. rewrite Hcont. case_decide; [subst g'|done].
    rewrite lookup_empty, Hgc. symmetry. fold c in Hc.
    assert (Hd : c !! k' = None) by by rewrite Hc, lookup_empty. unfold c in Hd. by rewrite lookup_delete_ne in Hd.
  - destruct (set_content_replaces _ _ _ _ _ i g id c Hi Hg E Hc) as [H1 H2 H3 H4 H5].
    eexists _, _. split; [done|]. split; [by right|]. split; [|by intros; rewrite H5].
    split; [done|by apply H2|by intros; rewrite H5|].
    intros g' k' Hne. destruct (decide (g' = g)) as [->|Hg']; [|by rewrite H4].
    rewrite H3, Hgc. unfold c. by rewrite lookup_delete_ne.
Qed.

(** A field that may be written: no reference, and in a group of this application
    when it is labelled; the fields the other application asked for are labelled. *)
Record field_ok (k : string) : Prop := mkFieldOk {
  field_group g : dict_get k M = Some g → g ∈ G;
  field_asked : k ∈ requested → is_Some (dict_get k M);
  field_name : startswith PROV_SECRET_PREFIX k = false }.

Lemma field_no_ref k g : field_ok k → k ≠ group_ref g.
Proof.
  intros Hk ->. pose proof (field_name _ Hk) as Hn.
  assert (startswith PROV_SECRET_PREFIX (group_ref g) = true) as Ht by (apply startswith_iff; by exists g). congruence.
Qed.

(** Fields that are not asked for are left to the bag. *)
Lemma process_plain req k op i : k ∉ req → Data.process_secret_fields req [k] op i = Ok (∅, [k], i).
Proof.
  intros Hk. unfold Data.process_secret_fields. destruct (_ && _ && _); [|done].
  rewrite (filter_every (λ f, f ∉ req)) by (intros ? ->%list_elem_of_singleton; done).
  rewrite (filter_none (λ f, f ∈ req)) by (intros ? ->%list_elem_of_singleton; done).
  unfold Data.group_secret_fields. done.
Qed.

Lemma process_delete i k : link i → loaded requested i → field_ok k →
  ∃ normal i', Data.process_secret_fields requested [k] (Data.delete_relation_secret [k]) i = Ok (∅, normal, i') ∧
    (normal = [] ∧ own i !! k = None ∨ normal = [k]) ∧ keeps_but k i i' ∧
    ∀ k', (∀ g, k' ≠ group_ref g) → own i' !! k' = own i !! k'.
Proof.
  intros Hi Hl Hk. destruct (decide (k ∈ requested)) as [Hr|Hr].
  2: { exists [k], i. rewrite process_plain by done. split; [done|]. split; [by right|]. done. }
  unfold Data.process_secret_fields. rewrite (cross_enabled _ _ _ _ _ _ Hi), (cross_no_fallback _ _ _ _ _ i Hi).
  rewrite bool_decide_eq_true_2 by (intros E; rewrite E in Hr; by apply elem_of_nil in Hr). cbn [andb negb].
  rewrite (filter_none (λ f, f ∉ requested)) by (intros ? ->%list_elem_of_singleton; by intros Hn).
  rewrite (filter_every (λ f, f ∈ requested)) by (intros ? ->%list_elem_of_singleton; done).
  destruct (field_asked _ Hk Hr) as [g Hg].
  unfold Data.group_secret_fields. rewrite (cross_class _ _ _ _ _ _ Hi), (cross_map _ _ _ _ _ _ Hi).
  cbn [Data.group_fields mbind result_bind]. rewrite Hg. cbn [opt_or].
  unfold str_or. rewrite (proj2 (truthy_true g)) by (by eapply groups_names). cbn [Data.append_group dict_set].
  destruct (delete_in_group i g k [k] Hi Hl (field_group _ Hk g Hg)) as (r & i' & Hd & Hres & Hkb & Ho).
  cbn [dict_get_or dict_get app Data.run_groups]. unfold dict_get_or. cbn [dict_get default app Data.run_groups]. rewrite Hd. cbn [mbind result_bind].
  destruct Hres as [-> | ->]; eexists _, i'; (split; [done|]).
  - split; [by right|]. done.
  - split; [left; split; [done|by apply (cross_own _ _ _ _ _ _ Hi)]|]. done.
Qed.

Lemma delitem_link i k : link i → field_ok k →
  ∃ i', DataDict.delitem k i = Ok i' ∧ keeps_but k i i' ∧ own i' !! k = None.
Proof.
  intros Hi Hk. unfold DataDict.delitem, Data.delete_relation_data, Data.legacy_apply_on_delete, Data.legacy_apply_on_fetch.
  rewrite (cross_leader _ _ _ _ _ _ Hi), (cross_class _ _ _ _ _ _ Hi). cbn [negb].
  unfold Data.delete_relation_data_, Data.either_static_or_dynamic_secrets.
  rewrite (cross_class _ _ _ _ _ _ Hi). cbn [mbind result_bind].
  rewrite (cross_class _ _ _ _ _ _ Hi), (cross_app _ _ _ _ _ _ Hi).
  destruct (cross_load _ _ _ _ _ i Hi) as (i0 & -> & Hi0 & Hl0 & Ho0 & Hc0). cbn [mbind result_bind].
  unfold Data.local_secret_fields. rewrite (cross_class _ _ _ _ _ _ Hi0), (cross_enabled _ _ _ _ _ _ Hi0), Hl0.
  cbn [mbind result_bind].
  destruct (process_delete i0 k Hi0 Hl0 Hk) as (normal & i1 & -> & Hn & Hkb & Ho). cbn [mbind result_bind].
  destruct Hkb as [Hi1 Hl1 _ Hc1]. rewrite (cross_class _ _ _ _ _ _ Hi1), <- (cross_component _ _ _ _ _ _ Hi1).
  eexists. split; [done|]. unfold Data.delete_relation_data_without_secrets.
  rewrite (cross_member _ _ _ _ _ _ Hi1). fold (own i1).
  assert (Hb : ∀ k', foldl (λ b f, delete f b) (own i1) normal !! k' =
    if decide (k' = k) then None else own i1 !! k').
  { intros k'. destruct Hn as [[-> Hno]| ->]; cbn [foldl].
    - case_decide; [subst|done]. rewrite Ho; [done|]. intros g. by apply field_no_ref.
    - rewrite lookup_delete. repeat case_decide; congruence. }
  split; [|by rewrite own_with_bag, Hb, decide_True].
  split.
  - apply cross_with_bag; [done|..].
    + intros g _. rewrite Hb, decide_False; [done|]. by apply not_eq_sym, field_no_ref.
    + intros k' Hk'. rewrite Hb. case_decide; [done|]. by apply (cross_own _ _ _ _ _ _ Hi1).
  - exact Hl1.
  - intros k' Hne Href. by rewrite own_with_bag, Hb, decide_False, Ho, Ho0.
  - intros g k' Hne. transitivity (group_content i1 g !! k'); [done|]. by rewrite Hc1, Hc0.
Qed.

Lemma delete_each_link ks : ∀ i, link i → loaded requested i → Forall field_ok ks →
  ∃ i', delete_each ks i = Ok i' ∧ link i' ∧ loaded requested i' ∧
    (∀ k, (∀ g, k ≠ group_ref g) → own i' !! k = if decide (k ∈ ks) then None else own i !! k) ∧
    (∀ g k, k ∉ ks → group_content i' g !! k = group_content i g !! k).
Proof.
  induction ks as [|k ks IH]; intros i Hi Hl Hks; cbn [delete_each].
  { exists i. do 3 (split; [done|]). split; [|done]. intros k _. by rewrite decide_False by apply not_elem_of_nil. }
  inversion Hks as [|?? Hk Hks']; subst.
  destruct (delitem_link i k Hi Hk) as (i1 & -> & [Hi1 Hl1 Ho1 Hc1] & Hn). cbn [mbind result_bind].
  destruct (IH i1 Hi1 Hl1 Hks') as (i' & -> & Hi' & Hl' & Ho & Hc). exists i'. do 3 (split; [done|]). split.
  - intros k' Href. rewrite Ho by done. destruct (decide (k' = k)) as [->|Hne].
    + rewrite Hn. repeat case_decide; set_solver.
    + rewrite Ho1 by done. repeat case_decide; set_solver.
  - intros g k' Hk'. rewrite Hc, Hc1; [done|set_solver..].
Qed.

(** ** Keeping the secrets of the labelled fields *)

Lemma chosen_one k v g : dict_get k M = Some g → chosen_of M [(k, v)] [k] g = {[k := v]}.
Proof.
  intros Hg. unfold chosen_of. rewrite filter_every; [done|].
  intros ? ->%list_elem_of_singleton. split; [apply list_elem_of_here|done].
Qed.

Lemma keep_secrets_link items : ∀ i, link i → loaded requested i → NoDup (dict_keys items) →
  Forall field_ok (dict_keys items) →
  ∃ i', keep_secrets items i = Ok i' ∧ link i' ∧
    (∀ k, (∀ g, k ≠ group_ref g) → own i' !! k = own i !! k) ∧
    (∀ g k, k ∉ dict_keys items → group_content i' g !! k = group_content i g !! k) ∧
    (∀ k v g, (k, v) ∈ items → dict_get k M = Some g → group_content i' g !! k = Some v).
Proof.
  induction items as [|[k v] items IH]; intros i Hi Hl Hnd Hok; cbn [keep_secrets].
  { exists i. do 4 (split; [done|]). set_solver. }
  apply NoDup_cons in Hnd as [Hfresh Hnd]. inversion Hok as [|?? Hk Hok']; subst.
  assert (Hstep : ∃ i1, match dict_get k M with
      | Some group => '(_, i) ← Data.add_or_update_relation_secrets true [(k, v)] group [k] i; Ok i
      | None => Ok i end = Ok i1 ∧ link i1 ∧ loaded requested i1 ∧
      (∀ k, (∀ g, k ≠ group_ref g) → own i1 !! k = own i !! k) ∧
      (∀ g k', k' ≠ k → group_content i1 g !! k' = group_content i g !! k') ∧
      (∀ g, dict_get k M = Some g → group_content i1 g !! k = Some v)).
  { destruct (dict_get k M) as [g|] eqn:Hg; [|exists i; by do 5 (split; [done|])].
    destruct (write_group other requested provided M G Hgroups i g [(k, v)] [k] Hi Hl (field_group _ Hk g Hg)) as (i1 & -> & Hw).
    { rewrite chosen_one by done. apply insert_non_empty. }
    rewrite chosen_one in Hw by done. destruct Hw as [H1 H2 H3 H4 H5]. exists i1. do 2 (split; [done|]).
    split; [by apply H2|]. split; [by intros; apply H5|]. split.
    - intros g' k' Hne. destruct (decide (g' = g)) as [->|Hg']; [|by rewrite H4].
      rewrite H3, lookup_union, lookup_singleton_ne by done. by rewrite (left_id_L None (∪)).
    - intros g' [= <-]. rewrite H3, lookup_union, lookup_singleton_eq. by destruct (group_content i g !! k). }
  destruct Hstep as (i1 & -> & Hi1 & Hl1 & Ho1 & Hc1 & Hv1). cbn [mbind result_bind].
  destruct (IH i1 Hi1 Hl1 Hnd Hok') as (i' & -> & Hi' & Ho & Hc & Hv). exists i'. do 2 (split; [done|]).
  split; [by intros; rewrite Ho, Ho1|]. split.
  - intros g k' [Hne Hk']%not_elem_of_cons. by rewrite Hc, Hc1.
  - intros k' v' g [[= -> ->]|Hin]%elem_of_cons Hg; [|by eauto]. rewrite Hc by done. by apply Hv1.
Qed.

(** ** The published data *)

Context {D : Type} `{RelationDataLaws D}.
Implicit Types d : D.

(** The relation holds the data [d]: the plain fields are in the bag, none of them
    empty, and the labelled ones in the secret of their group. *)
Record holds d i : Prop := mkHolds {
  holds_link : link i;
  holds_plain k : plain_field k = true → own i !! k = rd_get k d;
  holds_values k : plain_field k = true → rd_get k d ≠ Some "";
  holds_secret k g v : dict_get k M = Some g → rd_get k d = Some v → g ∈ G ∧ group_content i g !! k = Some v }.

Lemma plain_not_ref k g : plain_field k = true → k ≠ group_ref g.
Proof.
  intros [Hk%negb_true_iff _]%andb_true_iff ->.
  assert (startswith PROV_SECRET_PREFIX (group_ref g) = true) as Ht by (apply startswith_iff; by exists g).
  change PeerCluster.PROV_SECRET_PREFIX with PROV_SECRET_PREFIX in Hk. congruence.
Qed.
Lemma plain_not_asked k : plain_field k = true → field_ok k → k ∉ requested.
Proof.
  intros [_ Hk%bool_decide_eq_true]%andb_true_iff Hok Hr. destruct (field_asked _ Hok Hr) as [g Hg].
  change Models.SECRET_LABEL_MAP with M in Hk. congruence.
Qed.

Lemma content_ok items : dict_wf items → Forall field_ok (dict_keys items) →
  let content := filter (λ kv, truthy kv.2 = true) items in
  writes_ok requested M G content ∧ Forall field_ok (dict_keys content).
Proof.
  intros Hwf Hok content.
  assert (Hc : Forall field_ok (dict_keys content)).
  { apply Forall_forall. intros k ([k' v] & -> & [_ Hin]%list_elem_of_filter)%list_elem_of_fmap.
    apply (proj1 (Forall_forall _ _) Hok). apply list_elem_of_fmap. by exists (k', v). }
  split; [|done]. pose proof (proj1 (Forall_forall _ _) Hc) as Hin. split.
  - by apply filter_keys_NoDup.
  - intros k Hk Hr. destruct (field_asked _ (Hin k Hk) Hr) as [g Hg]. exists g. split; [|done].
    by apply (field_group _ (Hin k Hk)).
  - intros k Hk _ g. apply field_no_ref. by apply Hin.
Qed.

Lemma part_keys items (b : bool) k : dict_wf items →
  k ∈ dict_keys (filter (λ kv : string * string, truthy kv.2 = b) items) ↔
  ∃ v, dict_get k items = Some v ∧ truthy v = b.
Proof.
  intros Hwf. unfold dict_keys. rewrite list_elem_of_fmap. setoid_rewrite list_elem_of_filter. split.
  - intros ([k' v] & -> & Hv & Hkv). exists v. split; [by apply dict_elem_get|done].
  - intros (v & Hkv%dict_get_elem & Hv). by exists (k, v).
Qed.

(** What is left where the keys [ks] were deleted and the items [content] written. *)
Lemma update_link items i : link i → dict_wf items → Forall field_ok (dict_keys items) →
  ∃ i', PeerClusterState.update items i = Ok i' ∧ link i' ∧
    (∀ k, (∀ g, k ≠ group_ref g) → k ∉ requested → own i' !! k =
       match dict_get k items with Some v => if truthy v then Some v else None | None => own i !! k end) ∧
    (∀ k v g, dict_get k items = Some v → truthy v = true → dict_get k M = Some g → group_content i' g !! k = Some v) ∧
    (∀ g k, dict_get k items = None → group_content i' g !! k = group_content i g !! k).
Proof.
  intros Hi Hwf Hok. unfold PeerClusterState.update.
  set (content := filter (λ kv : string * string, truthy kv.2 = true) items).
  set (gone := filter (λ kv : string * string, truthy kv.2 = false) items).
  destruct (content_ok items Hwf Hok) as [Hw Hcok]. fold content in Hw, Hcok.
  destruct (cross_update other requested provided M G Hgroups i content Hi Hw) as (i1 & Hu & [Hi1 Hl1 _ Hp1 Hk1 Hc1]).
  unfold DataDict.update. rewrite Hu. cbn [mbind result_bind].
  assert (Hgok : Forall field_ok (dict_keys gone)).
  { apply Forall_forall. intros k ([k' v] & -> & [_ Hin]%list_elem_of_filter)%list_elem_of_fmap.
    apply (proj1 (Forall_forall _ _) Hok). apply list_elem_of_fmap. by exists (k', v). }
  destruct (delete_each_link (dict_keys gone) i1 Hi1 Hl1 Hgok) as (i2 & -> & Hi2 & Hl2 & Ho2 & Hc2). cbn [mbind result_bind].
  destruct (keep_secrets_link content i2 Hi2 Hl2 (ok_keys _ _ _ _ Hw) Hcok) as (i3 & Hs & Hi3 & Ho3 & Hc3 & Hv3).
  exists i3. split; [exact Hs|]. split; [done|].
  assert (Hcin : ∀ k, k ∈ dict_keys content ↔ ∃ v, dict_get k items = Some v ∧ truthy v = true)
    by (intros; by apply part_keys).
  assert (Hgin : ∀ k, k ∈ dict_keys gone ↔ ∃ v, dict_get k items = Some v ∧ truthy v = false)
    by (intros; by apply part_keys).
  assert (Hin : ∀ k v, dict_get k items = Some v → truthy v = true → (k, v) ∈ content).
  { intros k v Hk Hv. apply list_elem_of_filter. split; [done|by apply dict_get_elem]. }
  split; [|split].
  - intros k Href Hr. rewrite Ho3, Ho2 by done. destruct (dict_get k items) as [v|] eqn:Hk.
    + destruct (truthy v) eqn:Hv.
      * rewrite decide_False by (rewrite Hgin; naive_solver congruence).
        rewrite (Hp1 k v); [by rewrite Hv|by apply Hin|done].
      * rewrite decide_True; [done|]. rewrite Hgin. eauto.
    + rewrite decide_False by (rewrite Hgin; naive_solver). apply Hk1; [rewrite Hcin; naive_solver|done].
  - intros k v g Hk Hv Hg. apply Hv3; [|done]. by apply Hin.
  - intros g k Hk. rewrite Hc3, Hc2, Hc1; rewrite ?Hcin, ?Hgin; naive_solver.
Qed.

Lemma update_holds d i items : holds d i → dict_wf items → Forall field_ok (dict_keys items) →
  ∃ i' d', PeerClusterState.update items i = Ok i' ∧ Models.RelationState.update items (Some d) = Ok (Some d') ∧
    holds d' i'.
Proof.
  intros [Hi Hp Hv Hs] Hwf Hok. destruct (update_link items i Hi Hwf Hok) as (i' & Hu & Hi' & Ho & Hsec & Hkept).
  destruct (update_reads items d Hwf) as (d' & Hd' & Hg). exists i', d'. split; [done|]. split; [done|].
  split; [done|..].
  - intros k Hk. rewrite Hg. destruct (decide (k ∈ requested)) as [Hr|Hr].
    + rewrite (cross_own _ _ _ _ _ _ Hi') by done. destruct (dict_get k items) eqn:E.
      * exfalso. eapply plain_not_asked; [exact Hk| |exact Hr]. apply (proj1 (Forall_forall _ _) Hok).
        apply dict_get_is_Some. by rewrite E.
      * rewrite <- Hp by done. by rewrite (cross_own _ _ _ _ _ _ Hi).
    + rewrite Ho by (first [done | intros; by apply plain_not_ref]). destruct (dict_get k items); [done|by apply Hp].
  - intros k Hk. rewrite Hg. destruct (dict_get k items) as [v|]; [|by apply Hv].
    destruct (truthy v) eqn:E; [|done]. apply truthy_true in E. congruence.
  - intros k g v Hk. rewrite Hg. destruct (dict_get k items) as [w|] eqn:E.
    + destruct (truthy w) eqn:Ew; [intros [= ->]|done]. split; [|by eapply Hsec].
      apply (field_group k); [|done]. apply (proj1 (Forall_forall _ _) Hok). apply dict_get_is_Some. by rewrite E.
    + intros Hd. destruct (Hs k g v Hk Hd) as [Hin Hc]. split; [done|]. by rewrite Hkept.
Qed.

(** ** The other application *)

Implicit Types r : interface T.

(** The other application's interface [r] on the same relation, once it has what
    [i] wrote: it can look up the secrets of the groups, and the fields other than
    those in [mine] are neither its own nor secret. *)
Record sees (juju : string → option databag) (mine : list string) i r : Prop := mkSees {
  sees_class : class r = Cross;
  sees_bags : bags (rel r) = bags (rel i);
  sees_app : rel_app (rel r) = Some (local_app i);
  sees_secrets g id : g ∈ G → by_label (group_label i g) (secrets i) = Some id → juju id = Some (content_of id (secrets i));
  sees_asked : ∃ asked, Data.encoded_fields (own i) REQ_SECRET_FIELDS = Ok asked ∧
    ∀ k, k ∉ mine → k ∉ default (local_fields r) asked;
  sees_given : ∃ given, Data.encoded_fields (own i) PROV_SECRET_FIELDS = Ok given ∧
    ∀ k, k ∉ mine → k ∉ default (remote_fields r) given;
  sees_mine k : k ∉ mine → Data.bag (local_app r) r !! k = None }.

Lemma sees_bag juju mine i r : link i → sees juju mine i r → Data.bag (local_app i) r = own i.
Proof. intros Hi Hr. unfold own, Data.bag. by rewrite (sees_bags _ _ _ _ Hr), (cross_component _ _ _ _ _ _ Hi). Qed.

Lemma sees_load juju mine i r : link i → sees juju mine i r →
  ∃ asked given, (let r' := Data.with_fields asked given (new_secrets r) r in
    Data.load_secrets_from_databag r = Ok r' ∧ Data.load_secrets_from_databag r' = Ok r' ∧
    ∀ k, k ∉ mine → (k ∉ asked) ∧ (k ∉ given)).
Proof.
  intros Hi Hr. destruct (sees_asked _ _ _ _ Hr) as (asked & Ha & Hna), (sees_given _ _ _ _ Hr) as (given & Hg & Hng).
  exists (default (local_fields r) asked), (default (remote_fields r) given). cbv zeta.
  unfold Data.load_secrets_from_databag.
  change (class (Data.with_fields _ _ _ r)) with (class r). change (rel (Data.with_fields _ _ _ r)) with (rel r).
  rewrite (sees_class _ _ _ _ Hr), (sees_app _ _ _ _ Hr).
  change (Data.bag (local_app i) (Data.with_fields _ _ _ r)) with (Data.bag (local_app i) r).
  rewrite (sees_bag _ _ _ _ Hi Hr), Ha, Hg. cbn [mbind result_bind].
  split; [done|]. split; [by destruct asked, given|]. intros k Hk. split; [by apply Hna|by apply Hng].
Qed.

Lemma fetch_plain member req k i : k ∉ req →
  Data.fetch_relation_data_with_secrets member req [k] i =
  Ok (filter (λ '(k', _), k' ∈ [k]) (Data.bag member i) ∪ ∅, i).
Proof. intros Hk. unfold Data.fetch_relation_data_with_secrets. by rewrite process_plain. Qed.

Lemma fetched_plain member k i :
  (filter (λ '(k', _), k' ∈ [k]) (Data.bag member i) ∪ ∅) !! k = Data.bag member i !! k.
Proof.
  rewrite (right_id_L ∅ (∪)), map_lookup_filter. destruct (Data.bag member i !! k) as [v|]; cbn; [|done].
  rewrite option_guard_True; [done|]. apply list_elem_of_here.
Qed.

(** Its dictionary gives the plain fields the sender has. *)
Lemma sees_reads juju mine i r k : link i → sees juju mine i r → k ∉ mine → own i !! k ≠ Some "" →
  DataDict.get k r = Ok (own i !! k).
Proof.
  intros Hi Hr Hk Hv. destruct (sees_load juju mine i r Hi Hr) as (asked & given & Hload & Hagain & Hno).
  destruct (Hno k Hk) as [Hna Hng]. set (r1 := Data.with_fields asked given (new_secrets r) r) in *.
  assert (Hmine : ∃ r2, Data.fetch_my_relation_field k r = Ok (None, r2) ∧ Data.load_secrets_from_databag r2 = Ok r1 ∧
    class r2 = Cross ∧ rel_app (rel r2) = Some (local_app i)).
  { unfold Data.fetch_my_relation_field, Data.fetch_my_relation_data. rewrite (sees_class _ _ _ _ Hr).
    destruct (_ && _); [by exists r; destruct Hr|]. unfold Data.fetch_my_specific_relation_data, Data.legacy_apply_on_fetch.
    rewrite (sees_class _ _ _ _ Hr), (sees_class _ _ _ _ Hr), Hload. cbn [mbind result_bind].
    unfold Data.local_secret_fields. change (class r1) with (class r). rewrite (sees_class _ _ _ _ Hr).
    cbn [mbind result_bind]. rewrite fetch_plain.
    2: { change (secrets_enabled r1) with (secrets_enabled r). destruct (secrets_enabled r); [exact Hna|apply not_elem_of_nil]. }
    cbn [mbind result_bind option_bind]. rewrite fetched_plain. exists r1. split; [|by destruct Hr].
    change (Data.bag (local_app r1) r1) with (Data.bag (local_app r) r). by rewrite (sees_mine _ _ _ _ Hr). }
  destruct Hmine as (r2 & Hm & Hl2 & Hc2 & Ha2). unfold DataDict.get, DataDict.getitem. rewrite Hm.
  cbn [mbind result_bind truthy_opt]. rewrite Hc2.
  unfold Data.fetch_relation_field, Data.fetch_relation_data, Data.fetch_specific_relation_data.
  rewrite Hc2, Ha2, Hl2. cbn [mbind result_bind]. rewrite fetch_plain.
  2: { unfold Data.remote_secret_fields. change (secrets_enabled r1) with (secrets_enabled r).
       destruct (secrets_enabled r); [exact Hng|apply not_elem_of_nil]. }
  cbn [mbind result_bind]. rewrite fetched_plain.
  change (Data.bag (local_app i) r1) with (Data.bag (local_app i) r). rewrite (sees_bag _ _ _ _ Hi Hr).
  destruct (own i !! k) as [v|]; [|done]. destruct (truthy v) eqn:E; [done|]. apply truthy_false in E. congruence.
Qed.

(** What the interface holds is delivered, to a relation read through the library. *)
Lemma held_delivered d i juju mine r units (view : D) : holds d i → sees juju mine i r →
  (∀ k, plain_field k = true → k ∉ mine → DataDict.get k r = Ok (rd_get k view)) →
  delivers mine d (mkAppRelation (remote_of juju r) units view).
Proof.
  intros [Hi Hp Hv Hs] Hr Hview.
  assert (Hf : ∀ k, PeerCluster.relation_field (remote_of juju r) k = own i !! k).
  { intros k. cbn. rewrite (sees_app _ _ _ _ Hr). cbn. by rewrite (sees_bag _ _ _ _ Hi Hr). }
  split; cbn [ar_remote ar_data].
  - cbn. by rewrite (sees_app _ _ _ _ Hr).
  - intros k Hk. rewrite Hf. by apply Hp.
  - intros k Hk Hm. pose proof (Hview k Hk Hm) as Hg.
    rewrite (sees_reads juju mine i r k Hi Hr Hm) in Hg; [injection Hg as <-; by apply Hp|].
    rewrite Hp by done. by apply Hv.
  - intros k g v Hk Hd. destruct (Hs k g v Hk Hd) as [Hin Hc]. unfold group_content in Hc.
    destruct (by_label (group_label i g) (secrets i)) as [id|] eqn:Hid; [|by rewrite lookup_empty in Hc].
    exists id, (content_of id (secrets i)). split_and!; [| |by eapply sees_secrets|done].
    + rewrite Hf. change (PeerCluster.PROV_SECRET_PREFIX ++ g) with (group_ref g). by rewrite <- (cross_refs _ _ _ _ _ _ Hi).
    + intros ->. apply (cross_ids _ _ _ _ _ _ Hi g Hin). by rewrite <- (cross_refs _ _ _ _ _ _ Hi).
Qed.

(** C19: the library carries what an application publishes: an update of the shared
    data, run by the library on the relation, leaves it holding the updated data,
    labelled fields in the secrets and the rest in the bag, and whoever reads the
    relation with the library is delivered all of it. *)
Theorem library_delivers d i items :
  holds d i → dict_wf items → Forall field_ok (dict_keys items) →
  ∃ i' d', PeerClusterState.update items i = Ok i' ∧ Models.RelationState.update items (Some d) = Ok (Some d') ∧
    holds d' i' ∧
    ∀ juju mine r units view, sees juju mine i' r →
      (∀ k, plain_field k = true → k ∉ mine → DataDict.get k r = Ok (rd_get k view)) →
      delivers mine d' (mkAppRelation (remote_of juju r) units view).
Proof.
  intros Hd Hwf Hok. destruct (update_holds d i items Hd Hwf Hok) as (i' & d' & Hu & Hd' & Hh).
  exists i', d'. do 3 (split; [done|]). intros juju mine r units view Hr Hview. by apply (held_delivered d' i').
Qed.
End link.

(** ** The brokers publish to the controllers *)

Definition link_after : interface store :=
  match PeerClusterState.update broker_data broker_side with Ok i => i | Err _ => broker_side end.
(** The controllers' interface on the same relation, and the secrets it can look up. *)
Definition link_reader : interface store :=
  mkInterface Cross APP Models.SECRET_LABEL_MAP "controller" "controller/0" "controller/0" true true ""
    (mkRelation "peer-cluster" 3 (Some "broker") (bags (rel link_after))) [] [] [] [] None [].
Definition link_granted (id : string) : option databag := Some (content_of id (secrets link_after)).
Definition link_mine : list string := [REQ_SECRET_FIELDS].

Abbreviation sample_asked := (requested_secrets CONTROLLER_ROLE).

Lemma broker_side_holds : holds "controller" sample_asked [] ["broker"] (∅ : Models.bag) broker_side.
Proof.
  split.
  - exact broker_side_cross.
  - intros k _. cbn. unfold own, Data.bag. cbn. by rewrite !lookup_empty.
  - intros k _. cbn. by rewrite lookup_empty.
  - intros k g v _. cbn. by rewrite lookup_empty.
Qed.

Lemma broker_data_ok : Forall (field_ok sample_asked ["broker"]) (dict_keys broker_data).
Proof.
  apply Forall_forall. intros k Hk. cbn in Hk.
  assert (Hl : dict_get k Models.SECRET_LABEL_MAP = None ∧ bool_decide (k ∈ sample_asked) = false ∨
    dict_get k Models.SECRET_LABEL_MAP = Some "broker").
  { repeat (apply elem_of_cons in Hk as [->|Hk]; [first [by right | left; split; [done|vm_compute; reflexivity]]|]).
    by apply elem_of_nil in Hk. }
  split.
  - intros g Hg. destruct Hl as [[Hl _]|Hl]; rewrite Hg in Hl; [done|]. injection Hl as ->. apply list_elem_of_here.
  - intros Hr. destruct Hl as [[_ Hl%bool_decide_eq_false]|Hl]; [done|by rewrite Hl].
  - repeat (apply elem_of_cons in Hk as [->|Hk]; [done|]). by apply elem_of_nil in Hk.
Qed.

Lemma link_reader_sees : sees ["broker"] link_granted link_mine link_after link_reader.
Proof.
  split.
  - reflexivity.
  - unfold link_reader. reflexivity.
  - vm_compute. reflexivity.
  - done.
  - exists (Some []). split; [vm_compute; reflexivity|]. intros k _. apply not_elem_of_nil.
  - exists (Some []). split; [vm_compute; reflexivity|]. intros k _. apply not_elem_of_nil.
  - intros k Hk. assert (Hb : bool_decide (Data.bag (local_app link_reader) link_reader =
      {[REQ_SECRET_FIELDS := dumps (JList (JStr <$> sample_asked))]}) = true) by (vm_compute; reflexivity).
    apply bool_decide_eq_true in Hb. rewrite Hb. apply lookup_singleton_ne. intros <-. apply Hk, list_elem_of_here.
Qed.

Lemma link_updates : PeerClusterState.update broker_data broker_side = Ok link_after.
Proof. vm_compute. reflexivity. Qed.

Lemma library_delivers_witness :
  ∃ d : Models.bag, Models.RelationState.update broker_data (Some ∅) = Ok (Some d) ∧
    rd_get "broker-password" d = Some "pw" ∧ own link_after !! "broker-password" = None ∧
    delivers link_mine d (mkAppRelation (remote_of link_granted link_reader) [] d).
Proof.
  destruct (library_delivers "controller" sample_asked [] ["broker"] broker_groups (∅ : Models.bag) broker_side broker_data
    broker_side_holds) as (i' & d & Hu & Hd & Hh & Hdel).
  - apply (bool_decide_unpack _). vm_compute. exact I.
  - exact broker_data_ok.
  - rewrite link_updates in Hu. apply ok_inj in Hu. subst i'. exists d. split; [exact Hd|]. split.
    + injection Hd as <-. vm_compute. reflexivity.
    + split; [vm_compute; reflexivity|]. apply Hdel; [exact link_reader_sees|]. intros k Hk Hm.
      rewrite <- (holds_plain _ _ _ _ _ _ Hh k Hk).
      apply (sees_reads "controller" sample_asked [] ["broker"] link_granted link_mine); [by destruct Hh|exact link_reader_sees|done|].
      rewrite (holds_plain _ _ _ _ _ _ Hh k Hk). by apply (holds_values _ _ _ _ _ _ Hh).
Defined.
