(* ===== verification/ResourceProvider.v ===== *)
(** * Requests of the clients (lib/charms/data_platform_libs/v1/data_interfaces.py)

    How the library tells the charm of the requests of the client applications,
    and writes the responses: the difference between a request and what the charm
    saw of it before, the event it causes, and the list of responses. A request
    and a response are what the models of the library make of the relation's
    data: their parsing is the parsing library's. *)

From S2P Require Import Prelude PyStr PyDict Json DataInterfaces.

Local Open Scope string_scope.

Abbreviation document := (list (string * json)).

(** ** Differences *)

Definition RESOURCE_ALIASES : list string := ["database"; "subject"; "topic"; "index"; "plugin-url"; "prefix"].

Definition keys_of (d : document) : gset string := list_to_set (dict_keys d).

Definition value_changed (old new : document) (k : string) : bool :=
  match dict_get k old, dict_get k new with
  | Some v, Some w => negb (json_eqb v w)
  | _, _ => false
  end.
Definition diff (old new : document) : Diff :=
  mkDiff (keys_of new ∖ keys_of old)
    (filter (λ k, value_changed old new k = true) (keys_of old ∩ keys_of new))
    (keys_of old ∖ keys_of new).

Definition resource_added (d : Diff) : bool := existsb (λ k, bool_decide (k ∈ added d)) (RESOURCE_ALIASES ++ ["resource"]).

(** A request: the identifier it has in version 1, and what its model dumps
    without the unset and the default fields. *)
Record request := mkRequest { request_id : option string; dumped : document }.

Definition store_new_data (own : databag) (new_data : document) (short_uuid : option string) : result databag :=
  match short_uuid with
  | Some id =>
      if truthy id then
        data ← loads (default "{}" (own !! "data"));
        match data with
        | JObj d => Ok (bag_set "data" (dumps (JObj (dict_set id (JObj new_data) d))) own)
        | _ => Err (ValueError "")
        end
      else Ok (bag_set "data" (dumps (JObj new_data)) own)
  | None => Ok (bag_set "data" (dumps (JObj new_data)) own)
  end.

(** A document seen before that is not an object has no keys to compare. *)
Definition old_document (v : option json) : result document :=
  match v with
  | None => Ok []
  | Some (JObj d) => Ok d
  | Some v => if json_truthy v then Err (AttributeError "object has no attribute 'keys'") else Ok []
  end.

Definition compute_diff (own : databag) (r : request) (store : bool) : result (Diff * databag) :=
  old_data ← get_encoded_dict own "data";
  old ← old_document
    (match old_data with
     | Some ((_ :: _) as d) =>
         match request_id r with
         | Some id => if truthy id then dict_get id d else Some (JObj d)
         | None => Some (JObj d)
         end
     | _ => None
     end);
  own ← (if store then store_new_data own (dumped r) (request_id r) else Ok own);
  Ok (diff old (dumped r), own).

(** ** Events *)

Inductive emission :=
  | MtlsCertUpdated (r : request) (old_mtls_cert : option string)
  | ResourceRequested (r : request)
  | ResourceEntityRequested (r : request)
  | ResourceEntityPermissionsChanged (r : request)
  | BulkResourcesRequested (rs : list request).

Module ResourceProviderEventHandler.
Record handler := mkHandler { relation_name : string; mtls_enabled : bool; bulk_event : bool }.

Definition fixed_keys : list string :=
  ["resource"; "entity-type"; "entity-permissions"; "extra-user-roles"; "extra-group-roles"].

(** [_validate_diff] of a [RelationChangedEvent]. *)
Definition validate_diff (d : Diff) : result () :=
  match list_find (λ k, k ∈ changed d) fixed_keys with
  | Some (_, key) => Err (ValueError ("Cannot change " ++ key ++ " after relation has already been created"))
  | None => Ok tt
  end.

Definition has (k : string) (s : gset string) : bool := bool_decide (k ∈ s).

Definition dispatch_events (h : handler) (d : Diff) (r : request) : list emission :=
  if mtls_enabled h && has "secret-mtls" (added d) then [MtlsCertUpdated r None]
  else if resource_added d && negb (has "entity-type" (added d)) then [ResourceRequested r]
  else if resource_added d && has "entity-type" (added d) then [ResourceEntityRequested r]
  else if negb (resource_added d) && negb (has "entity-type" (added d)) &&
          (has "entity-permissions" (added d) || has "entity-permissions" (changed d))
       then [ResourceEntityPermissionsChanged r]
  else [].

Definition handle_event (h : handler) (own : databag) (r : request) : result (list emission * databag) :=
  '(d, own) ← compute_diff own r true;
  _ ← validate_diff d;
  Ok (dispatch_events h d r, own).

Fixpoint handle_events (h : handler) (own : databag) (rs : list request) : result (list emission * databag) :=
  match rs with
  | [] => Ok ([], own)
  | r :: rs =>
      '(es, own) ← handle_event h own r;
      '(rest, own) ← handle_events h own rs;
      Ok (es ++ rest, own)%list
  end.

(** The differences are checked first, and stored after the event. *)
Fixpoint validate_all (own : databag) (rs : list request) : result () :=
  match rs with
  | [] => Ok tt
  | r :: rs => '(d, _) ← compute_diff own r false; _ ← validate_diff d; validate_all own rs
  end.
Fixpoint store_all (own : databag) (rs : list request) : result databag :=
  match rs with
  | [] => Ok own
  | r :: rs => own ← store_new_data own (dumped r) (request_id r); store_all own rs
  end.
Definition handle_bulk_event (own : databag) (rs : list request) : result (list emission * databag) :=
  _ ← validate_all own rs;
  own ← store_all own rs;
  Ok ([BulkResourcesRequested rs], own).

(** The data of the remote application as the models read it: a request of
    version 0 with the name and the value of its resource, or the requests of
    version 1. *)
Record contract := mkContract {
  build_v0 : databag → result (request * string * string);
  build_v1 : databag → result (list request) }.

Definition write_field (field value : string) (own : databag) : databag :=
  if truthy value then bag_set field value own else own.

Definition version_of (remote : databag) : string := opt_or (remote !! "version") "v0".

Definition on_relation_changed (h : handler) (c : contract) (is_leader : bool) (remote own : databag)
    : result (list emission * databag) :=
  if negb is_leader then Ok ([], own)
  else if bool_decide (remote = ∅) then Ok ([], own)
  else if (version_of remote =? "v0")%string then
    '(r, old_name, resource) ← build_v0 c (delete "data" remote);
    let r := mkRequest None (dumped r) in
    '(es, own) ← handle_event h own r;
    Ok (es, write_field old_name resource own)
  else
    rs ← build_v1 c (delete "data" remote);
    if bulk_event h then handle_bulk_event own rs else handle_events h own rs.

(** *** A changed secret *)

(** The relation and the request a label is of. *)
Definition relation_from_secret_label (get_relation : string → Z → option relation) (label : string) : option relation :=
  match split_char "." label with
  | name :: id :: _ :: _ => match py_int id with Ok id => get_relation name id | Err _ => None end
  | _ => None
  end.
Definition short_uuid_from_secret_label (label : string) : option string :=
  match split_char "." label with
  | _ :: _ :: uuid :: _ :: _ :: _ => Some uuid
  | _ => None
  end.

(** The secret of the event: its label, whether this application owns it, and
    its content. *)
Record event_secret := mkEventSecret { es_label : option string; es_owned : bool; es_content : databag }.

Definition on_secret_changed (h : handler) (c : contract) (get_relation : string → Z → option relation)
    (s : event_secret) : result (list emission) :=
  if negb (mtls_enabled h) then Ok []
  else if negb (truthy_opt (es_label s)) then Ok []
  else
    let label := default "" (es_label s) in
    match relation_from_secret_label get_relation label with
    | None => Ok []
    | Some r =>
        if negb (rel_name r =? relation_name h)%string then Ok []
        else if es_owned s then Ok []
        else
          let remote := default ∅ (app ← rel_app r; bags r !! app) in
          let old := es_content s !! "mtls-cert" in
          if (version_of remote =? "v0")%string then
            '(r, _, _) ← build_v0 c (delete "data" remote);
            Ok [MtlsCertUpdated r old]
          else
            rs ← build_v1 c (delete "data" remote);
            match short_uuid_from_secret_label label with
            | None => Ok []
            | Some uuid =>
                if negb (truthy uuid) then Ok []
                else match list_find (λ r, request_id r = Some uuid) rs with
                     | Some (_, r) => Ok [MtlsCertUpdated r old]
                     | None => Ok []
                     end
            end
    end.
End ResourceProviderEventHandler.

(** ** Responses *)

(** A response: its request, its salt, and the fields that were set. *)
Record response := mkResponse { response_id : option string; salt : string; fields_set : document }.

(** [BaseCommonModel.update]: the identifier and the salt stay. *)
Definition update (r new : response) : response :=
  mkResponse (response_id r) (salt r) (dict_update (fields_set r) (fields_set new)).

(** The first response of the request is updated, or the response is added. *)
Fixpoint put_response (rs : list response) (new : response) : list response :=
  match rs with
  | [] => [new]
  | r :: rs => if decide (response_id r = response_id new) then update r new :: rs else r :: put_response rs new
  end.

(** [set_responses] of version 1: [pending] is the map of those still to be
    written, by their identifiers. *)
Fixpoint update_existing (rs : list response) (pending : list (string * response))
    : result (list response * list (string * response)) :=
  match rs with
  | [] => Ok ([], pending)
  | r :: rs =>
      match response_id r with
      | Some id =>
          if truthy id then
            match dict_get id pending with
            | Some new => '(rs, pending) ← update_existing rs (dict_del id pending); Ok (update r new :: rs, pending)
            | None => '(rs, pending) ← update_existing rs pending; Ok (r :: rs, pending)
            end
          else Err AssertionError
      | None => Err AssertionError
      end
  end.

Definition response_map (rs : list response) : list (string * response) :=
  dict_of_list (omap (λ r, id ← response_id r; if truthy id then Some (id, r) else None) rs).

Definition put_responses (rs new : list response) : result (list response) :=
  '(rs, pending) ← update_existing rs (response_map new);
  Ok (rs ++ dict_values pending)%list.

(** What is written: the response itself in version 0, the list in version 1. *)
Inductive written := WrittenV0 (r : response) | WrittenV1 (rs : list response).
Definition without_id (r : response) : response := mkResponse None (salt r) (fields_set r).

Section responses.
Variables (is_leader relation_found : bool) (remote : databag) (current : result (list response)).

Definition set_response (r : response) : result (option written) :=
  if negb is_leader then Ok None
  else if negb relation_found then Err (ValueError "Missing relation.")
  else if (ResourceProviderEventHandler.version_of remote =? "v0")%string then Ok (Some (WrittenV0 (without_id r)))
  else rs ← current; Ok (Some (WrittenV1 (put_response rs r))).

Definition set_responses (new : list response) : result (option written) :=
  if negb is_leader then Ok None
  else match new with
       | [] => Err AssertionError
       | first :: others =>
           if negb relation_found then Err (ValueError "Missing relation.")
           else if (ResourceProviderEventHandler.version_of remote =? "v0")%string then
             match others with
             | [] => Ok (Some (WrittenV0 (without_id first)))
             | _ => Err AssertionError
             end
           else rs ← current; rs ← put_responses rs new; Ok (Some (WrittenV1 rs))
       end.
End responses.
