(* ===== verification/ResourceProviderFacts.v ===== *)
(** * Requests and responses of the clients: what holds of them

    Each request is told once, whatever the others do; the labels of secrets name
    their request; writing responses together or one by one is the same. *)

From S2P Require Import Prelude PyStr PyDict Json DataInterfaces DataInterfacesDiff ResourceProvider.
Import ResourceProviderEventHandler.

Local Open Scope string_scope.

(** ** Responses *)

Section responses.
Implicit Types r n : response.

(** A response of version 1 has an identifier. *)
Definition identified r : Prop := ∃ id, response_id r = Some id ∧ id ≠ "".
Definition key r : string := default "" (response_id r).
Definition keyed (rs : list response) : list (string * response) := (λ r, (key r, r)) <$> rs.

Lemma key_eq r n : identified r → identified n → response_id r = response_id n ↔ key n = key r.
Proof.
  intros (a & Ha & _) (b & Hb & _). unfold key. rewrite Ha, Hb. cbn. split; [by intros [= ->]|by intros ->].
Qed.

Lemma keyed_keys rs : dict_keys (keyed rs) = key <$> rs.
Proof. unfold dict_keys, keyed. by rewrite <- list_fmap_compose. Qed.

Lemma keyed_values rs : dict_values (keyed rs) = rs.
Proof. unfold dict_values, keyed. rewrite <- list_fmap_compose. apply list_fmap_id. Qed.

Lemma keyed_del id rs : keyed (filter (λ r, key r ≠ id) rs) = dict_del id (keyed rs).
Proof.
  unfold dict_del, keyed. induction rs as [|r rs IH]; [done|]. rewrite filter_cons, fmap_cons, filter_cons. cbn [fst].
  destruct (decide (key r ≠ id)); cbn; by rewrite IH.
Qed.

Lemma response_map_keyed new : Forall identified new → NoDup (key <$> new) → response_map new = keyed new.
Proof.
  intros Hid Hnd. unfold response_map.
  assert (omap (λ r, id ← response_id r; if truthy id then Some (id, r) else None) new = keyed new) as ->.
  { clear Hnd. induction Hid as [|r new (id & Hr & Hne) _ IH]; [done|]. cbn [omap list_omap]. rewrite Hr. cbn [mbind option_bind].
    rewrite (proj2 (truthy_true id)) by done. unfold keyed. cbn. unfold key at 1. rewrite Hr. by rewrite IH. }
  apply dict_of_list_id. unfold dict_wf. by rewrite keyed_keys.
Qed.

Lemma put_identified rs n : Forall identified rs → identified n → Forall identified (put_response rs n).
Proof.
  intros Hrs Hn. induction Hrs as [|r rs Hr Hrs IH]; cbn; [by constructor|].
  case_decide; by constructor.
Qed.

(** What one response of the list gets. *)
Lemma put_none r rs new : (∀ n, n ∈ new → response_id n ≠ response_id r) →
  foldl put_response (r :: rs) new = r :: foldl put_response rs new.
Proof.
  revert rs. induction new as [|n new IH]; intros rs Hne; [done|]. cbn [foldl put_response].
  rewrite decide_False by (apply not_eq_sym, Hne; by left). apply IH. intros n' Hn'. apply Hne. by right.
Qed.

Lemma put_some r rs new : identified r → Forall identified new → NoDup (key <$> new) →
  foldl put_response (r :: rs) new =
  match dict_get (key r) (keyed new) with
  | Some n => update r n :: foldl put_response rs (filter (λ n, key n ≠ key r) new)
  | None => r :: foldl put_response rs new
  end.
Proof.
  intros Hr Hid. revert rs. induction Hid as [|n new Hn Hid IH]; intros rs Hnd; [done|].
  cbn [keyed fmap list_fmap] in *. apply NoDup_cons in Hnd as [Hfresh Hnd].
  fold (keyed new) in *. cbn [dict_get foldl put_response]. destruct (decide (key r = key n)) as [Hk|Hk].
  - rewrite decide_True by (by apply key_eq). rewrite put_none.
    + rewrite filter_cons_False by (intros Hne; by apply Hne). f_equal. f_equal. symmetry. apply filter_every.
      intros n' Hn' Heq. apply Hfresh. rewrite <- Hk, <- Heq. by apply list_elem_of_fmap_2.
    + intros n' Hn' Heq. apply Hfresh. rewrite Forall_forall in Hid.
      apply (key_eq n' r) in Heq; [|by apply Hid|done]. rewrite <- Hk, Heq. by apply list_elem_of_fmap_2.
  - rewrite decide_False by (intros Heq; apply Hk; by apply key_eq). rewrite IH by done.
    destruct (dict_get (key r) (keyed new)); [|done]. by rewrite filter_cons_True by congruence.
Qed.

Lemma put_all_nil new : Forall identified new → NoDup (key <$> new) → foldl put_response [] new = new.
Proof.
  intros Hid. induction Hid as [|n new Hn Hid IH]; intros Hnd; [done|]. cbn [foldl put_response].
  cbn [fmap list_fmap] in Hnd. apply NoDup_cons in Hnd as [Hfresh Hnd]. rewrite put_none; [by rewrite IH|].
  intros n' Hn' Heq. apply Hfresh. rewrite Forall_forall in Hid.
  apply (key_eq n' n) in Heq; [|by apply Hid|done]. rewrite Heq. by apply list_elem_of_fmap_2.
Qed.

Lemma update_existing_spec rs : Forall identified rs → ∀ new, Forall identified new → NoDup (key <$> new) →
  ∃ rs' new', update_existing rs (keyed new) = Ok (rs', keyed new') ∧ (rs' ++ new')%list = foldl put_response rs new.
Proof.
  induction 1 as [|r rs Hr Hrs IH]; intros new Hid Hnd.
  { exists [], new. split; [done|]. by rewrite put_all_nil. }
  cbn [update_existing]. destruct Hr as (id & Hrid & Hne). rewrite Hrid, (proj2 (truthy_true id)) by done.
  assert (identified r) as Hr by by exists id. rewrite put_some by done.
  assert (key r = id) as Hkey by (unfold key; by rewrite Hrid). rewrite Hkey.
  destruct (dict_get id (keyed new)) as [n|].
  - rewrite <- keyed_del. destruct (IH (filter (λ n, key n ≠ id) new)) as (rs' & new' & -> & <-).
    + apply Forall_forall. intros n' [_ Hn']%list_elem_of_filter. rewrite Forall_forall in Hid. by apply Hid.
    + eapply sublist_NoDup; [exact Hnd|]. apply fmap_sublist, sublist_filter.
    + by exists (update r n :: rs'), new'.
  - destruct (IH new Hid Hnd) as (rs' & new' & -> & <-). by exists (r :: rs'), new'.
Qed.

(** The responses written one after the other, each on what the one before left. *)
Fixpoint set_each (remote : databag) (rs new : list response) : result (list response) :=
  match new with
  | [] => Ok rs
  | n :: new =>
      w ← set_response true true remote (Ok rs) n;
      match w with
      | Some (WrittenV1 rs) => set_each remote rs new
      | _ => Err (ValueError "version")
      end
  end.

Lemma set_each_v1 remote new : version_of remote ≠ "v0" → ∀ rs, set_each remote rs new = Ok (foldl put_response rs new).
Proof.
  intros Hv%String.eqb_neq. induction new as [|n new IH]; intros rs; [done|].
  cbn [set_each]. unfold set_response. cbn [negb]. rewrite Hv. cbn [mbind result_bind]. by rewrite IH.
Qed.


End responses.

(** ** Requests *)

(** What the charm's bag has of the requests seen, by identifier. *)
Record kept (own : databag) (m : document) : Prop := mkKept {
  kept_data : own !! "data" = Some (dumps (JObj m)) ∨ own !! "data" = None ∧ m = [];
  kept_plain : plain (JObj m) = true;
  kept_objects id v : dict_get id m = Some v → ∃ d, v = JObj d }.

(** A request of version 1. *)
Record well (r : request) : Prop := mkWell {
  well_id : truthy_opt (request_id r) = true;
  well_plain : plain (JObj (dumped r)) = true }.
Definition id_of (r : request) : string := default "" (request_id r).

Definition old_of (m : document) (r : request) : document :=
  match dict_get (id_of r) m with Some (JObj d) => d | _ => [] end.
(** The difference of a request with what was seen of it, and the event of it. *)
Definition difference_of (m : document) (r : request) : Diff := diff (old_of m r) (dumped r).
Definition told (h : handler) (m : document) (r : request) : list emission := dispatch_events h (difference_of m r) r.
Definition valid (m : document) (r : request) : Prop := validate_diff (difference_of m r) = Ok tt.
Definition keep (m : document) (r : request) : document := dict_set (id_of r) (JObj (dumped r)) m.

Lemma well_request r : well r → request_id r = Some (id_of r) ∧ truthy (id_of r) = true.
Proof. intros [Hid _]. unfold id_of. by destruct (request_id r) as [id|]. Qed.

Lemma plain_set k v m : plain (JObj m) = true → plain v = true → plain (JObj (dict_set k v m)) = true.
Proof.
  cbn [plain]. intros [Hwf%bool_decide_eq_true Hm]%andb_true_iff Hv. apply andb_true_iff. split.
  - apply bool_decide_eq_true. by apply dict_set_wf.
  - clear Hwf. induction m as [|[k' v'] m IH]; cbn in *; [by rewrite Hv|]. apply andb_true_iff in Hm as [Hv' Hm].
    case_decide; cbn; rewrite ?Hv, ?Hm, ?Hv'; [done|]. by apply IH.
Qed.

Lemma kept_loads own m : kept own m → loads (default "{}" (own !! "data")) = Ok (JObj m).
Proof. intros [[-> | [-> ->]] Hp _]; [|done]. exact (loads_dumps (JObj m) Hp). Qed.

Lemma kept_set own m r : kept own m → well r →
  kept (bag_set "data" (dumps (JObj (keep m r))) own) (keep m r).
Proof.
  intros [_ Hp Ho] Hw. split.
  - left. unfold bag_set. change (truthy (dumps (JObj (keep m r)))) with true. apply lookup_insert_eq.
  - apply plain_set; [done|apply (well_plain _ Hw)].
  - intros id v. unfold keep. rewrite dict_get_set. case_decide; [intros [= <-]; by eexists|apply Ho].
Qed.

Lemma compute_diff_kept own m r : kept own m → well r →
  ∃ own', compute_diff own r true = Ok (difference_of m r, own') ∧ kept own' (keep m r).
Proof.
  intros Hk Hw. destruct (well_request r Hw) as [Hid Ht]. unfold compute_diff, get_encoded_dict.
  rewrite (kept_loads _ _ Hk). cbn [mbind result_bind]. rewrite Hid, Ht.
  assert (old_document (match m with [] => None | _ :: _ => dict_get (id_of r) m end) = Ok (old_of m r)) as Hold.
  { unfold old_of. destruct m as [|kv m']; [done|]. destruct (dict_get (id_of r) (kv :: m')) as [v|] eqn:E; [|done].
    destruct (kept_objects _ _ Hk _ _ E) as [d ->]. done. }
  unfold store_new_data. rewrite Ht, (kept_loads _ _ Hk).
  exists (bag_set "data" (dumps (JObj (keep m r))) own). split; [|by apply kept_set].
  destruct m; cbn [mbind result_bind] in *; rewrite Hold; done.
Qed.

Lemma handle_event_kept h own m r : kept own m → well r → valid m r →
  ∃ own', handle_event h own r = Ok (told h m r, own') ∧ kept own' (keep m r).
Proof.
  intros Hk Hw Hv. destruct (compute_diff_kept own m r Hk Hw) as (own' & Hd & Hk').
  exists own'. split; [|done]. unfold handle_event. rewrite Hd. cbn [mbind result_bind]. by rewrite Hv.
Qed.

(** What was seen of the other requests is the same. *)
Lemma old_of_keep m r r' : id_of r' ≠ id_of r → old_of (keep m r) r' = old_of m r'.
Proof. intros Hne. unfold old_of, keep. by rewrite dict_get_set_ne. Qed.

Lemma handle_events_kept h rs : ∀ own m, kept own m → Forall well rs → NoDup (id_of <$> rs) → Forall (valid m) rs →
  ∃ own', handle_events h own rs = Ok (concat (told h m <$> rs), own') ∧ kept own' (foldl keep m rs).
Proof.
  induction rs as [|r rs IH]; intros own m Hk Hw Hnd Hv; [by exists own|].
  apply Forall_cons in Hw as [Hw Hws]. apply Forall_cons in Hv as [Hv Hvs]. apply NoDup_cons in Hnd as [Hfresh Hnd].
  destruct (handle_event_kept h own m r Hk Hw Hv) as (own1 & He & Hk1). cbn [handle_events]. rewrite He. cbn [mbind result_bind].
  assert (∀ r', r' ∈ rs → difference_of (keep m r) r' = difference_of m r') as Hsame.
  { intros r' Hr'. unfold difference_of. rewrite old_of_keep; [done|]. intros Heq. apply Hfresh. rewrite <- Heq.
    by apply list_elem_of_fmap_2. }
  destruct (IH own1 (keep m r) Hk1 Hws Hnd) as (own' & -> & Hk').
  { apply Forall_forall. intros r' Hr'. unfold valid. rewrite Hsame by done. rewrite Forall_forall in Hvs. by apply Hvs. }
  exists own'. split; [|done]. cbn [mbind result_bind fmap list_fmap concat]. do 4 f_equal.
  apply map_ext_in. intros r' Hr'%list_elem_of_In. unfold told. by rewrite Hsame.
Qed.

(** *** A second look *)

Lemma concat_none {A B} (f : A → list B) (l : list A) : (∀ x, x ∈ l → f x = []) → concat (f <$> l) = [].
Proof.
  induction l as [|x l IH]; [done|]. intros Hl. cbn. rewrite (Hl x) by by left. apply IH. intros y Hy. apply Hl. by right.
Qed.

Lemma no_difference d : plain (JObj d) = true → diff d d = mkDiff ∅ ∅ ∅.
Proof.
  cbn [plain]. intros [Hwf%bool_decide_eq_true Hp]%andb_true_iff. unfold diff. rewrite difference_diag_L. f_equal.
  apply set_eq. intros k. rewrite elem_of_filter. split; [|set_solver]. intros [Hc _]. exfalso. revert Hc.
  unfold value_changed. destruct (dict_get k d) as [v|] eqn:E; [|done]. rewrite json_eqb_refl; [done|].
  apply dict_get_elem in E. rewrite forallb_forall in Hp. apply (Hp (k, v)). by apply list_elem_of_In.
Qed.

Lemma old_of_kept rs r : ∀ m, r ∈ rs → NoDup (id_of <$> rs) → old_of (foldl keep m rs) r = dumped r.
Proof.
  induction rs as [|r' rs IH] using rev_ind; intros m Hr Hnd; [by apply elem_of_nil in Hr|].
  rewrite fmap_app in Hnd. apply NoDup_app in Hnd as (Hnd & Hdis & _). rewrite foldl_app. cbn [foldl].
  apply elem_of_app in Hr as [Hr|Hr%list_elem_of_singleton].
  - rewrite old_of_keep; [by apply IH|]. intros Heq. apply (Hdis (id_of r)); [by apply list_elem_of_fmap_2|].
    rewrite Heq. by left.
  - subst. unfold old_of, keep. by rewrite dict_get_set_eq.
Qed.

Lemma told_again h m r : old_of m r = dumped r → well r → told h m r = [] ∧ valid m r.
Proof.
  intros Ho [_ Hp]. unfold told, valid, difference_of. rewrite Ho, no_difference by done. split; [|done].
  unfold dispatch_events, has, resource_added. cbn [added changed]. rewrite !bool_decide_eq_false_2 by set_solver.
  by rewrite andb_false_r.
Qed.


(** A request that was not seen, for a resource, is told as a requested resource,
    or as a certificate of the client when it has one. *)
Lemma new_request_told h m r : dict_get (id_of r) m = None → "resource" ∈ dict_keys (dumped r) →
  "entity-type" ∉ dict_keys (dumped r) →
  told h m r = if mtls_enabled h && bool_decide ("secret-mtls" ∈ dict_keys (dumped r))
               then [MtlsCertUpdated r None] else [ResourceRequested r].
Proof.
  intros Hnew Hr He. unfold told, difference_of, old_of. rewrite Hnew.
  assert (∀ k, has k (added (diff [] (dumped r))) = bool_decide (k ∈ dict_keys (dumped r))) as Hadd.
  { intros k. apply bool_decide_ext. cbn [diff added]. unfold keys_of. rewrite elem_of_difference, !elem_of_list_to_set. set_solver. }
  unfold dispatch_events. rewrite !Hadd. rewrite (bool_decide_eq_false_2 ("entity-type" ∈ _)) by done.
  assert (resource_added (diff [] (dumped r)) = true) as ->; [|done].
  apply existsb_exists. exists "resource". split; [apply in_or_app; right; by left|].
  change (has "resource" (added (diff [] (dumped r))) = true). rewrite Hadd. by apply bool_decide_eq_true.
Qed.

(** *** The label of the secret of a request *)

(** [OpsRelationRepository._generate_secret_label] *)
Definition secret_label (relation_name : string) (relation_id : Z) (short_uuid : option string) (group : string) : string :=
  str_join "." ([relation_name; str_of_Z relation_id] ++
    (if truthy_opt short_uuid then [default "" short_uuid] else []) ++ [group; "secret"])%list.

Lemma split_join l : Forall (λ s, lacks "." s = true) l → l ≠ [] → split_char "." (str_join "." l) = l.
Proof.
  induction 1 as [|s l Hs Hl IH]; intros Hne; [done|]. destruct l as [|s' l]; [by apply split_char_lacks|].
  change (str_join "." (s :: s' :: l)) with (s ++ String "." (str_join "." (s' :: l))).
  rewrite split_char_app by done. by rewrite IH.
Qed.

(** The label of a secret names its relation and its request: parsed again, it
    gives the identifiers it was made of. *)
Theorem secret_label_roundtrip get_relation name id uuid group :
  lacks "." name = true → lacks "." uuid = true → lacks "." group = true → uuid ≠ "" →
  relation_from_secret_label get_relation (secret_label name id (Some uuid) group) = get_relation name id ∧
  short_uuid_from_secret_label (secret_label name id (Some uuid) group) = Some uuid ∧
  relation_from_secret_label get_relation (secret_label name id None group) = get_relation name id ∧
  short_uuid_from_secret_label (secret_label name id None group) = None.
Proof.
  intros Hn Hu Hg Hne. unfold relation_from_secret_label, short_uuid_from_secret_label, secret_label.
  cbn [truthy_opt default]. rewrite (proj2 (truthy_true uuid)) by done. cbn [app default].
  rewrite !split_join; rewrite ?Forall_cons, ?Forall_nil; try done;
    [by rewrite py_int_str|by repeat split; try apply str_of_Z_lacks..].
Qed.

(** ** Witnesses *)

Definition kafka_handler : handler := mkHandler "kafka-client" true false.
Definition topic_request (id topic : string) : request :=
  mkRequest (Some id) [("resource", JStr topic); ("request-id", JStr id)].
Definition certificate_request (id topic uri : string) : request :=
  mkRequest (Some id) [("resource", JStr topic); ("secret-mtls", JStr uri)].
Definition two_requests : list request := [topic_request "a" "orders"; certificate_request "b" "bills" "secret:1"].
Definition client_contract : contract := mkContract (λ _, Err (ValueError "version")) (λ _, Ok two_requests).


Lemma secret_label_roundtrip_witness :
  short_uuid_from_secret_label (secret_label "kafka-client" 12 (Some "0f3a") "mtls") = Some "0f3a" ∧
  secret_label "kafka-client" 12 (Some "0f3a") "mtls" = "kafka-client.12.0f3a.mtls.secret".
Proof.
  split; [|vm_compute; reflexivity].
  apply (secret_label_roundtrip (λ _ _, None) "kafka-client" 12 "0f3a" "mtls"); [reflexivity..|discriminate].
Defined.
