(* ===== verification/Crypto.v ===== *)
(** * Keys, requests and certificates (lib/charms/tls_certificates_interface/v4/tls_certificates.py)

    The objects of the certificates library and its functions that generate
    them. The cryptography package, which reads and signs PEM texts, is an
    interface ([Cryptography]); what the library reads from its objects and the
    objects it builds are modelled. *)

From S2P Require Import Prelude PyStr PyDict.

Local Open Scope string_scope.
Local Open Scope Z_scope.

(** ** Objects of the cryptography package *)

Inductive oid :=
| COMMON_NAME | X500_UNIQUE_IDENTIFIER | ORGANIZATION_NAME | ORGANIZATIONAL_UNIT_NAME
| EMAIL_ADDRESS | COUNTRY_NAME | STATE_OR_PROVINCE_NAME | LOCALITY_NAME | OTHER_NAME (dotted : string).
#[export] Instance oid_eq_dec : EqDecision oid.
Proof. solve_decision. Defined.

Inductive general_name :=
| DNSName (value : string) | IPAddress (value : string) | RegisteredID (dotted : string)
| RFC822Name (value : string) | OtherName (value : string).
#[export] Instance general_name_eq_dec : EqDecision general_name.
Proof. solve_decision. Defined.

Inductive public_key := RSAPublicKey (n e : Z) | OtherPublicKey (der : string).
#[export] Instance public_key_eq_dec : EqDecision public_key.
Proof. solve_decision. Defined.

Record key_usage := mkKeyUsage {
  digital_signature : bool; content_commitment : bool; key_encipherment : bool;
  data_encipherment : bool; key_agreement : bool; key_cert_sign : bool; crl_sign : bool }.
#[export] Instance key_usage_eq_dec : EqDecision key_usage.
Proof. solve_decision. Defined.

Inductive extension_value :=
| AuthorityKeyIdentifier (key_identifier : string)
| SubjectKeyIdentifier (digest : string)
| BasicConstraints (ca : bool)
| SubjectAlternativeName (names : list general_name)
| KeyUsage (usage : key_usage)
| OtherExtension (dotted der : string).
#[export] Instance extension_value_eq_dec : EqDecision extension_value.
Proof. solve_decision. Defined.

Record extension := mkExtension { critical : bool; value : extension_value }.
#[export] Instance extension_eq_dec : EqDecision extension.
Proof. solve_decision. Defined.

Inductive extension_oid :=
| AUTHORITY_KEY_IDENTIFIER | SUBJECT_KEY_IDENTIFIER | BASIC_CONSTRAINTS
| SUBJECT_ALTERNATIVE_NAME | KEY_USAGE | OTHER_EXTENSION (dotted : string).
#[export] Instance extension_oid_eq_dec : EqDecision extension_oid.
Proof. solve_decision. Defined.
Definition oid_of (e : extension) : extension_oid :=
  match value e with
  | AuthorityKeyIdentifier _ => AUTHORITY_KEY_IDENTIFIER
  | SubjectKeyIdentifier _ => SUBJECT_KEY_IDENTIFIER
  | BasicConstraints _ => BASIC_CONSTRAINTS
  | SubjectAlternativeName _ => SUBJECT_ALTERNATIVE_NAME
  | KeyUsage _ => KEY_USAGE
  | OtherExtension d _ => OTHER_EXTENSION d
  end.

Record csr_object := mkCsrObject {
  csr_subject : list (oid * string); csr_public_key : public_key; csr_extensions : list extension }.
Record certificate_object := mkCertificateObject {
  subject : list (oid * string); issuer : list (oid * string); cert_public_key : public_key;
  serial_number : Z; not_valid_before : Z; not_valid_after : Z; extensions : list extension }.

(** Reading PEM texts ([None] where it raises [ValueError]; of a private key, its
    public part), signing with the private key of a PEM text, the checks the
    constructors make of a name ([name_attribute], [general_name_ok]) and of an
    address (the address as it is printed), [add_extension] of the builders, and
    what is random, by a number. *)
Class Cryptography := {
  load_pem_private_key : string → option public_key;
  load_pem_x509_csr : string → option csr_object;
  load_pem_x509_certificate : string → option certificate_object;
  sign_csr : string → list (oid * string) → list extension → string;
  sign_certificate : string → certificate_object → string;
  verify_directly_issued_by : certificate_object → certificate_object → bool;
  name_attribute : oid → string → bool;
  general_name_ok : general_name → bool;
  ip_address : string → option string;
  str_ObjectIdentifier : string → string;
  key_digest : public_key → string;
  add_extension : list extension → extension → option (list extension);
  rsa_generate_private_key : nat → string;
  uuid4 : nat → string;
  random_serial_number : nat → Z;
  sha256_hex : string → string }.

(** What is documented of it: what was signed reads back, also without the white
    space at the ends of its text; a request has no two extensions of a kind; an
    extension of another kind can be added; a generated key is an RSA key. *)
Class CryptographyLaws `{Cryptography} := {
  load_signed_csr key pk subject exts :
    load_pem_private_key key = Some pk → Forall (λ p, name_attribute p.1 p.2 = true) subject →
    NoDup (oid_of <$> exts) →
    load_pem_x509_csr (str_strip (sign_csr key subject exts)) = Some (mkCsrObject subject pk exts);
  load_signed_certificate key pk c :
    load_pem_private_key key = Some pk →
    load_pem_x509_certificate (str_strip (sign_certificate key c)) = Some c;
  csr_extensions_distinct t o : load_pem_x509_csr t = Some o → NoDup (oid_of <$> csr_extensions o);
  csr_text_strip t : load_pem_x509_csr (str_strip t) = load_pem_x509_csr t;
  certificate_text_strip t : load_pem_x509_certificate (str_strip t) = load_pem_x509_certificate t;
  add_extension_new exts e :
    oid_of e ∉ oid_of <$> exts → add_extension exts e = Some (exts ++ [e])%list;
  generated_key_is_rsa n :
    ∃ m e, load_pem_private_key (str_strip (rsa_generate_private_key n)) = Some (RSAPublicKey m e);
  uuid4_fresh n m : uuid4 n = uuid4 m → n = m }.

(** ** What the library reads *)

Definition get_attributes_for_oid (o : oid) (name : list (oid * string)) : list string :=
  snd <$> filter (λ p, p.1 = o) name.
Definition first_attribute (o : oid) (name : list (oid * string)) : option string :=
  head (get_attributes_for_oid o name).

Definition is_dns (n : general_name) : bool := match n with DNSName _ => true | _ => false end.
Definition is_ip (n : general_name) : bool := match n with IPAddress _ => true | _ => false end.
Definition is_oid (n : general_name) : bool := match n with RegisteredID _ => true | _ => false end.
Definition is_email (n : general_name) : bool := match n with RFC822Name _ => true | _ => false end.

Definition alternative_names (exts : list extension) : option (list general_name) :=
  head (omap (λ e, match value e with SubjectAlternativeName l => Some l | _ => None end) exts).
Definition dns_names (l : list general_name) : gset string :=
  list_to_set (omap (λ n, match n with DNSName s => Some s | _ => None end) l).
Definition ip_names (l : list general_name) : gset string :=
  list_to_set (omap (λ n, match n with IPAddress s => Some s | _ => None end) l).
Definition oid_names (l : list general_name) : gset string :=
  list_to_set (omap (λ n, match n with RegisteredID s => Some s | _ => None end) l).

Definition TLSCertificatesError : string → exn := PyException.

Module PrivateKey.
Section private_key.
Context `{Cryptography}.

(** A key is its text, without white space at its ends. *)
Definition from_string (private_key : string) : string := str_strip private_key.

(** [key_size] is the number of bits of the modulus. *)
Definition is_valid (raw : string) : bool :=
  match load_pem_private_key raw with
  | Some (RSAPublicKey n _) => negb (Z.log2 n + 1 <? 2048)
  | _ => false
  end.
End private_key.
End PrivateKey.

Module Certificate.
Section certificate.
Context `{Cryptography}.

Record certificate := mkCertificate {
  raw : string; common_name : string; expiry_time : Z; validity_start_time : Z; is_ca : bool;
  sans_dns : gset string; sans_ip : gset string; sans_oid : gset string;
  email_address : option string; organization : option string; organizational_unit : option string;
  country_name : option string; state_or_province_name : option string; locality_name : option string }.

Definition basic_constraints_ca (exts : list extension) : bool :=
  default false (head (omap (λ e, match value e with BasicConstraints ca => Some ca | _ => None end) exts)).

Definition from_string (text : string) : result certificate :=
  match load_pem_x509_certificate text with
  | None => Err (TLSCertificatesError "Could not load certificate")
  | Some c =>
      match first_attribute COMMON_NAME (subject c) with
      | None => Err (IndexError "list index out of range")
      | Some cn =>
          let names := default [] (alternative_names (extensions c)) in
          Ok (mkCertificate (str_strip text) cn (not_valid_after c) (not_valid_before c)
                (basic_constraints_ca (extensions c))
                (dns_names names) (ip_names names) (set_map str_ObjectIdentifier (oid_names names))
                (first_attribute EMAIL_ADDRESS (subject c)) (first_attribute ORGANIZATION_NAME (subject c))
                (first_attribute ORGANIZATIONAL_UNIT_NAME (subject c))
                (first_attribute COUNTRY_NAME (subject c))
                (first_attribute STATE_OR_PROVINCE_NAME (subject c))
                (first_attribute LOCALITY_NAME (subject c)))
      end
  end.

Definition matches_private_key (c : certificate) (private_key : string) : bool :=
  match load_pem_x509_certificate (raw c), load_pem_private_key private_key with
  | Some o, Some k =>
      match cert_public_key o, k with
      | RSAPublicKey n e, RSAPublicKey n' e' => (n =? n') && (e =? e')
      | _, _ => false
      end
  | _, _ => false
  end.
End certificate.
End Certificate.

Module CertificateSigningRequest.
Section request.
Context `{Cryptography}.

Record request := mkRequest {
  raw : string; common_name : string;
  sans_dns : option (gset string); sans_ip : option (gset string); sans_oid : option (gset string);
  email_address : option string; organization : option string; organizational_unit : option string;
  country_name : option string; state_or_province_name : option string; locality_name : option string;
  has_unique_identifier : bool }.

(** [==] on requests. *)
Definition eqb (c other : request) : bool := (str_strip (raw c) =? str_strip (raw other))%string.

Definition from_string (csr : string) : result request :=
  match load_pem_x509_csr csr with
  | None => Err (TLSCertificatesError "Could not load CSR")
  | Some o =>
      match first_attribute COMMON_NAME (csr_subject o) with
      | None => Err (IndexError "list index out of range")
      | Some cn =>
          let names := default [] (alternative_names (csr_extensions o)) in
          Ok (mkRequest (str_strip csr) cn (Some (dns_names names)) (Some (ip_names names))
                (Some (oid_names names))
                (first_attribute EMAIL_ADDRESS (csr_subject o))
                (first_attribute ORGANIZATION_NAME (csr_subject o))
                (first_attribute ORGANIZATIONAL_UNIT_NAME (csr_subject o))
                (first_attribute COUNTRY_NAME (csr_subject o))
                (first_attribute STATE_OR_PROVINCE_NAME (csr_subject o))
                (first_attribute LOCALITY_NAME (csr_subject o))
                (bool_decide (get_attributes_for_oid X500_UNIQUE_IDENTIFIER (csr_subject o) ≠ [])))
      end
  end.

(** Only the modulus is compared. *)
Definition matches_private_key (c : request) (key : string) : bool :=
  match load_pem_x509_csr (raw c), load_pem_private_key key with
  | Some o, Some (RSAPublicKey n _) =>
      match csr_public_key o with RSAPublicKey n' _ => n' =? n | OtherPublicKey _ => false end
  | _, _ => false
  end.

Definition matches_certificate (c : request) (certificate : Certificate.certificate) : result bool :=
  match load_pem_x509_csr (raw c), load_pem_x509_certificate (Certificate.raw certificate) with
  | Some o, Some o' => Ok (bool_decide (csr_public_key o = cert_public_key o'))
  | _, _ => Err (ValueError "Unable to load PEM file")
  end.

Definition get_sha256_hex (c : request) : string := sha256_hex (raw c).
End request.
End CertificateSigningRequest.

(** ** Generating *)

Record CertificateRequestAttributes := mkAttributes {
  common_name : string;
  sans_dns : option (gset string); sans_ip : option (gset string); sans_oid : option (gset string);
  email_address : option string; organization : option string; organizational_unit : option string;
  country_name : option string; state_or_province_name : option string; locality_name : option string;
  is_ca : bool; add_unique_id_to_subject_name : bool }.
#[export] Instance attributes_eq_dec : EqDecision CertificateRequestAttributes.
Proof. solve_decision. Defined.

(** The defaults of the fields. *)
Definition attributes (common_name : string) : CertificateRequestAttributes :=
  mkAttributes common_name (Some ∅) (Some ∅) (Some ∅) None None None None None None false true.

Definition is_valid (a : CertificateRequestAttributes) : bool := truthy (common_name a).

Definition from_csr (c : CertificateSigningRequest.request) (is_ca : bool) : CertificateRequestAttributes :=
  mkAttributes (CertificateSigningRequest.common_name c)
    (CertificateSigningRequest.sans_dns c) (CertificateSigningRequest.sans_ip c)
    (CertificateSigningRequest.sans_oid c) (CertificateSigningRequest.email_address c)
    (CertificateSigningRequest.organization c) (CertificateSigningRequest.organizational_unit c)
    (CertificateSigningRequest.country_name c) (CertificateSigningRequest.state_or_province_name c)
    (CertificateSigningRequest.locality_name c) is_ca (CertificateSigningRequest.has_unique_identifier c).

Section generate.
Context `{Cryptography}.
Implicit Types a : CertificateRequestAttributes.

(** [if v: l.append(NameAttribute(o, v))] *)
Definition optional_attribute (o : oid) (v : option string) : list (oid * string) :=
  match v with Some s => if truthy s then [(o, s)] else [] | None => [] end.

Definition check_names (l : list (oid * string)) : result () :=
  guard_or (forallb (λ p, name_attribute p.1 p.2) l) (ValueError "invalid name attribute").

(** The subject of a certificate authority and, with the unique identifier after
    the common name, of a request. *)
Definition rest_of_subject a : list (oid * string) :=
  (optional_attribute ORGANIZATION_NAME (organization a) ++
   optional_attribute ORGANIZATIONAL_UNIT_NAME (organizational_unit a) ++
   optional_attribute EMAIL_ADDRESS (email_address a) ++
   optional_attribute COUNTRY_NAME (country_name a) ++
   optional_attribute STATE_OR_PROVINCE_NAME (state_or_province_name a) ++
   optional_attribute LOCALITY_NAME (locality_name a))%list.
Definition request_subject a (random : nat) : list (oid * string) :=
  ((COMMON_NAME, common_name a) ::
   (if add_unique_id_to_subject_name a then [(X500_UNIQUE_IDENTIFIER, uuid4 random)] else []) ++
   rest_of_subject a)%list.

(** [[make(san) for san in sans] if sans]: nothing for [None] and for no names. *)
Definition names_of (make : string → result general_name) (sans : option (gset string))
    : result (list general_name) :=
  match sans with Some s => traverse make (elements s) | None => Ok [] end.
Definition checked_name (n : general_name) : result general_name :=
  if general_name_ok n then Ok n else Err (ValueError "invalid name").
Definition make_dns (s : string) : result general_name := checked_name (DNSName s).
Definition make_oid (s : string) : result general_name := checked_name (RegisteredID s).
Definition make_ip (s : string) : result general_name :=
  match ip_address s with
  | Some ip => Ok (IPAddress ip)
  | None => Err (ValueError "does not appear to be an IPv4 or IPv6 address")
  end.

(** [set(_sans)]; the order of a set is not used. *)
Definition request_names a : result (list general_name) :=
  oids ← names_of make_oid (sans_oid a);
  ips ← names_of make_ip (sans_ip a);
  dns ← names_of make_dns (sans_dns a);
  Ok (remove_dups (oids ++ ips ++ dns)%list).

Definition names_extension (names : list general_name) : list extension :=
  match names with [] => [] | _ => [mkExtension false (SubjectAlternativeName names)] end.

Definition generate_csr (private_key : string) a (random : nat) : result CertificateSigningRequest.request :=
  match load_pem_private_key private_key with
  | None => Err (ValueError "Could not deserialize key data")
  | Some _ =>
      _ ← check_names (request_subject a random);
      names ← request_names a;
      CertificateSigningRequest.from_string
        (sign_csr private_key (request_subject a random) (names_extension names))
  end.

Definition generate_private_key (random : nat) : string :=
  PrivateKey.from_string (rsa_generate_private_key random).

(** [_san_extension] *)
Definition san_extension a : result (list extension) :=
  email ← (match email_address a with
           | Some e => if truthy e then n ← checked_name (RFC822Name e); Ok [n] else Ok []
           | None => Ok []
           end);
  dns ← names_of make_dns (sans_dns a);
  ips ← names_of make_ip (sans_ip a);
  oids ← names_of make_oid (sans_oid a);
  Ok (names_extension (email ++ dns ++ ips ++ oids)%list).

Definition generate_ca (private_key : string) (validity : Z) a (now : Z) (random : nat)
    : result Certificate.certificate :=
  match load_pem_private_key private_key with
  | None => Err (ValueError "Could not deserialize key data")
  | Some (OtherPublicKey _) => Err AssertionError
  | Some (RSAPublicKey n e) =>
      let subject := ((COMMON_NAME, common_name a) :: rest_of_subject a)%list in
      let pk := RSAPublicKey n e in
      _ ← check_names subject;
      san ← san_extension a;
      Certificate.from_string
        (str_strip (sign_certificate private_key
           (mkCertificateObject subject subject pk (random_serial_number random) now (now + validity)
              ([mkExtension false (SubjectKeyIdentifier (key_digest pk));
                mkExtension false (AuthorityKeyIdentifier (key_digest pk));
                mkExtension true (KeyUsage (mkKeyUsage true false true false false true false));
                mkExtension true (BasicConstraints true)] ++ san)%list)))
  end.

(** [_generate_subject_alternative_name_extension] *)
Definition subject_alternative_names (csr : csr_object) : result (list extension) :=
  let loaded := default [] (alternative_names (csr_extensions csr)) in
  let sans :=
    (filter (λ n, is_dns n = true) loaded ++ filter (λ n, is_ip n = true) loaded ++
     filter (λ n, is_oid n = true) loaded ++ filter (λ n, is_email n = true) loaded)%list in
  match first_attribute EMAIL_ADDRESS (csr_subject csr) with
  | None => Ok (names_extension sans)
  | Some email =>
      n ← checked_name (RFC822Name email);
      Ok (names_extension (if bool_decide (n ∈ sans) then sans else sans ++ [n])%list)
  end.

(** [_generate_certificate_request_extensions] *)
Definition request_extensions (authority_key_identifier : string) (csr : csr_object) (is_ca : bool)
    : result (list extension) :=
  sans ← subject_alternative_names csr;
  let exts :=
    ([mkExtension false (AuthorityKeyIdentifier authority_key_identifier);
      mkExtension false (SubjectKeyIdentifier (key_digest (csr_public_key csr)));
      mkExtension true (BasicConstraints is_ca)] ++ sans ++
     (if is_ca then [mkExtension true (KeyUsage (mkKeyUsage false false false false false true true))]
      else []))%list in
  Ok (exts ++ filter (λ e, oid_of e ≠ SUBJECT_ALTERNATIVE_NAME ∧ oid_of e ∉ oid_of <$> exts)
                (csr_extensions csr))%list.

(** The loop of [add_extension]: one the builder does not take is left out. *)
Definition add_extensions (exts : list extension) : list extension :=
  foldl (λ l e, default l (add_extension l e)) [] exts.

Definition subject_key_identifier (exts : list extension) : option string :=
  head (omap (λ e, match value e with SubjectKeyIdentifier d => Some d | _ => None end) exts).

Definition generate_certificate (csr : CertificateSigningRequest.request) (ca : Certificate.certificate)
    (ca_private_key : string) (validity : Z) (is_ca : bool) (now : Z) (random : nat)
    : result Certificate.certificate :=
  match load_pem_x509_csr (CertificateSigningRequest.raw csr),
        load_pem_x509_certificate (Certificate.raw ca), load_pem_private_key ca_private_key with
  | Some o, Some ca_pem, Some _ =>
      match subject_key_identifier (extensions ca_pem) with
      | None => Err (PyException "ExtensionNotFound")
      | Some identifier =>
          exts ← request_extensions identifier o is_ca;
          Certificate.from_string
            (str_strip (sign_certificate ca_private_key
               (mkCertificateObject (csr_subject o) (subject ca_pem) (csr_public_key o)
                  (random_serial_number random) now (now + validity) (add_extensions exts))))
      end
  | _, _, _ => Err (ValueError "Unable to load PEM file")
  end.

(** [chain_has_valid_order]: each certificate is issued by the next one. *)
Fixpoint ordered_chain (chain : list string) : bool :=
  match chain with
  | c :: (i :: _) as rest =>
      match load_pem_x509_certificate c, load_pem_x509_certificate i with
      | Some c, Some i => verify_directly_issued_by c i && ordered_chain rest
      | _, _ => false
      end
  | _ => true
  end.
Definition chain_has_valid_order (chain : list string) : bool := ordered_chain chain.
End generate.
