(* ===== verification/CryptoFacts.v ===== *)
(** * Requests and certificates keep what was asked for

    A generated request reads back as the attributes it was made from, and with
    its key; a certificate of the authority keeps the names and the key of its
    request; the interface of the cryptography package has an instance. *)

From S2P Require Import Prelude PyStr PyDict Crypto.

Local Open Scope string_scope.
Local Open Scope Z_scope.

(** ** Stripping *)

Lemma rstrip_chars_cons p c s t :
  rstrip_chars p (String c s) = t → t = "" ∨ ∃ t', t = String c t' ∧ rstrip_chars p s = t'.
Proof.
  cbn. destruct (rstrip_chars p s) as [|c' s'] eqn:E; [destruct (p c)|]; intros <-; eauto.
Qed.
Lemma rstrip_chars_idemp p s : rstrip_chars p (rstrip_chars p s) = rstrip_chars p s.
Proof.
  induction s as [|c s IH]; [done|]. cbn.
  destruct (rstrip_chars p s) as [|c' s'] eqn:E.
  - destruct (p c) eqn:Hc; [done|]. cbn. by rewrite Hc.
  - change (rstrip_chars p (String c (String c' s'))) with
      (match rstrip_chars p (String c' s') with "" => if p c then "" else String c "" | r => String c r end).
    by rewrite IH.
Qed.
Lemma lstrip_chars_head p s c t : lstrip_chars p s = String c t → p c = false.
Proof.
  induction s as [|c' s IH]; [done|]. cbn. destruct (p c') eqn:E; [done|]. by intros [= <- <-].
Qed.
Lemma str_strip_idemp s : str_strip (str_strip s) = str_strip s.
Proof.
  unfold str_strip. destruct (lstrip_chars is_space s) as [|c t] eqn:E; [done|].
  apply lstrip_chars_head in E.
  destruct (rstrip_chars is_space (String c t)) as [|c' t'] eqn:Er; [done|].
  destruct (rstrip_chars_cons _ _ _ _ Er) as [|(u & [= -> ->] & Hu)]; [done|].
  cbn [lstrip_chars]. rewrite E, <- Er. apply rstrip_chars_idemp.
Qed.

(** ** Reading a subject *)

Lemma get_attributes_app o l k :
  get_attributes_for_oid o (l ++ k)%list = (get_attributes_for_oid o l ++ get_attributes_for_oid o k)%list.
Proof. unfold get_attributes_for_oid. by rewrite filter_app, fmap_app. Qed.

Lemma get_attributes_cons o o' v l :
  get_attributes_for_oid o ((o', v) :: l) =
  ((if decide (o' = o) then [v] else []) ++ get_attributes_for_oid o l)%list.
Proof. unfold get_attributes_for_oid. rewrite filter_cons. cbn. by case_decide. Qed.

(** An optional field that reads back: none, or a text that is not empty. *)
Definition nonempty (v : option string) : Prop := v ≠ Some "".

Lemma get_attributes_optional o o' v :
  nonempty v →
  get_attributes_for_oid o (optional_attribute o' v) = (if decide (o' = o) then option_list v else []).
Proof.
  intros Hv. destruct v as [[|c s]|]; [done| |cbn; by case_decide].
  change (optional_attribute o' (Some (String c s))) with [(o', String c s)].
  rewrite get_attributes_cons. by case_decide.
Qed.
Lemma head_option_list {A} (v : option A) : head (option_list v) = v.
Proof. by destruct v. Qed.

Section generated.
Context `{Cryptography}.
Implicit Types a : CertificateRequestAttributes.

(** Attributes a request can hold: the package takes the names, the addresses
    are printed as they are written, and no field is given but empty. *)
Record canonical a := mkCanonical {
  c_names k : Forall (λ p, name_attribute p.1 p.2 = true) (request_subject a k);
  c_dns : ∃ s, sans_dns a = Some s ∧ set_Forall (λ x, general_name_ok (DNSName x) = true) s;
  c_ip : ∃ s, sans_ip a = Some s ∧ set_Forall (λ x, ip_address x = Some x) s;
  c_oid : ∃ s, sans_oid a = Some s ∧ set_Forall (λ x, general_name_ok (RegisteredID x) = true) s;
  c_email : nonempty (email_address a); c_organization : nonempty (organization a);
  c_unit : nonempty (organizational_unit a); c_country : nonempty (country_name a);
  c_state : nonempty (state_or_province_name a); c_locality : nonempty (locality_name a) }.

Lemma request_attributes_read a k :
  canonical a →
  let s := request_subject a k in
  first_attribute COMMON_NAME s = Some (common_name a) ∧
  first_attribute EMAIL_ADDRESS s = email_address a ∧
  first_attribute ORGANIZATION_NAME s = organization a ∧
  first_attribute ORGANIZATIONAL_UNIT_NAME s = organizational_unit a ∧
  first_attribute COUNTRY_NAME s = country_name a ∧
  first_attribute STATE_OR_PROVINCE_NAME s = state_or_province_name a ∧
  first_attribute LOCALITY_NAME s = locality_name a ∧
  get_attributes_for_oid X500_UNIQUE_IDENTIFIER s =
    (if add_unique_id_to_subject_name a then [uuid4 k] else []).
Proof.
  intros [_ _ _ _ H1 H2 H3 H4 H5 H6] s. subst s. unfold first_attribute, request_subject, rest_of_subject.
  repeat (split; [|]).
  all: rewrite get_attributes_cons, !get_attributes_app, !get_attributes_optional by done.
  all: destruct (add_unique_id_to_subject_name a); rewrite ?get_attributes_cons; cbn.
  all: rewrite ?app_nil_r; rewrite ?app_nil_l; try apply head_option_list; done.
Qed.

(** ** Reading the names *)

Lemma names_of_ok make (f : string → general_name) (s : gset string) :
  set_Forall (λ x, make x = Ok (f x)) s → names_of make (Some s) = Ok (f <$> elements s).
Proof.
  intros Hs. cbn. apply traverse_ok. apply Forall2_fmap_r, Forall_Forall2_diag.
  apply Forall_forall. intros x Hx. by apply Hs, elem_of_elements.
Qed.

Lemma dns_names_elem l x : x ∈ dns_names l ↔ DNSName x ∈ l.
Proof.
  unfold dns_names. rewrite elem_of_list_to_set, list_elem_of_omap. split.
  - intros ([]&?&?); simplify_eq; done.
  - eauto.
Qed.
Lemma ip_names_elem l x : x ∈ ip_names l ↔ IPAddress x ∈ l.
Proof.
  unfold ip_names. rewrite elem_of_list_to_set, list_elem_of_omap. split.
  - intros ([]&?&?); simplify_eq; done.
  - eauto.
Qed.
Lemma oid_names_elem l x : x ∈ oid_names l ↔ RegisteredID x ∈ l.
Proof.
  unfold oid_names. rewrite elem_of_list_to_set, list_elem_of_omap. split.
  - intros ([]&?&?); simplify_eq; done.
  - eauto.
Qed.

Lemma alternative_names_extension l : default [] (alternative_names (names_extension l)) = l.
Proof. by destruct l. Qed.

Lemma names_extension_distinct l : NoDup (oid_of <$> names_extension l).
Proof. destruct l; [constructor|apply NoDup_singleton]. Qed.

Lemma elem_of_made {A} (f : string → A) `{!Inj (=) (=) f} x (s : gset string) :
  f x ∈ f <$> elements s ↔ x ∈ s.
Proof. rewrite list_elem_of_fmap_inj by apply _. apply elem_of_elements. Qed.
#[local] Instance DNSName_inj : Inj (=) (=) DNSName.
Proof. by intros ?? [= ->]. Qed.
#[local] Instance IPAddress_inj : Inj (=) (=) IPAddress.
Proof. by intros ?? [= ->]. Qed.
#[local] Instance RegisteredID_inj : Inj (=) (=) RegisteredID.
Proof. by intros ?? [= ->]. Qed.

Lemma request_names_read a :
  canonical a →
  ∃ l, request_names a = Ok l ∧ Some (dns_names l) = sans_dns a ∧
       Some (ip_names l) = sans_ip a ∧ Some (oid_names l) = sans_oid a.
Proof.
  intros [_ (d & Hd & Fd) (i & Hi & Fi) (r & Hr & Fr) _ _ _ _ _ _].
  unfold request_names. rewrite Hd, Hi, Hr.
  rewrite (names_of_ok make_oid RegisteredID r), (names_of_ok make_ip IPAddress i),
    (names_of_ok make_dns DNSName d).
  - cbn [mbind result_bind]. eexists. split; [done|].
    repeat split; f_equal; apply set_eq; intros x;
      rewrite ?dns_names_elem, ?ip_names_elem, ?oid_names_elem, elem_of_remove_dups, !elem_of_app.
    all: rewrite ?elem_of_made by apply _.
    all: rewrite !list_elem_of_fmap; naive_solver.
  - intros x Hx. unfold make_dns, checked_name. by rewrite (Fd x Hx).
  - intros x Hx. unfold make_ip. by rewrite (Fi x Hx).
  - intros x Hx. unfold make_oid, checked_name. by rewrite (Fr x Hx).
Qed.
End generated.

(** ** Requests *)

Section laws.
Context `{CryptographyLaws}.
Implicit Types a : CertificateRequestAttributes.

Lemma check_names_ok a k : canonical a → check_names (request_subject a k) = Ok ().
Proof.
  intros Hc. unfold check_names. apply guard_or_ok, forallb_forall. intros p Hp.
  by apply (proj1 (Forall_forall _ _) (c_names _ Hc k)), list_elem_of_In.
Qed.

(** What a generated request is: the signed text of the subject and the names. *)
Lemma generate_csr_object a key pk k :
  canonical a → load_pem_private_key key = Some pk →
  ∃ c l, generate_csr key a k = Ok c ∧ request_names a = Ok l ∧
    CertificateSigningRequest.raw c = str_strip (sign_csr key (request_subject a k) (names_extension l)) ∧
    load_pem_x509_csr (CertificateSigningRequest.raw c) =
      Some (mkCsrObject (request_subject a k) pk (names_extension l)) ∧
    CertificateSigningRequest.from_string (CertificateSigningRequest.raw c) = Ok c.
Proof.
  intros Hc Hk. destruct (request_names_read a Hc) as (l & Hl & _).
  pose proof (load_signed_csr key pk _ (names_extension l) Hk (c_names _ Hc k) (names_extension_distinct l)) as Hload.
  destruct (request_attributes_read a k Hc) as (Hcn & _).
  unfold generate_csr. rewrite Hk, check_names_ok by done. rewrite Hl. cbn [mbind result_bind].
  unfold CertificateSigningRequest.from_string. rewrite <- csr_text_strip, Hload.
  cbn [csr_subject csr_extensions]. rewrite Hcn.
  eexists _, l. split; [done|]. cbn [CertificateSigningRequest.raw].
  rewrite Hload. cbn [csr_subject csr_extensions]. rewrite Hcn, str_strip_idemp. done.
Qed.

Lemma request_reads_back a key n e k :
  canonical a → load_pem_private_key key = Some (RSAPublicKey n e) →
  ∃ c, generate_csr key a k = Ok c ∧ from_csr c (is_ca a) = a ∧
       CertificateSigningRequest.matches_private_key c key = true.
Proof.
  intros Hc Hk. destruct (generate_csr_object a key _ k Hc Hk) as (c & l & Hg & Hl & Hraw & Hload & Hfrom).
  exists c. split; [done|]. split.
  - unfold CertificateSigningRequest.from_string in Hfrom. rewrite Hload in Hfrom.
    cbn [csr_subject csr_extensions] in Hfrom. rewrite alternative_names_extension in Hfrom.
    destruct (request_attributes_read a k Hc) as (Hcn & E1 & E2 & E3 & E4 & E5 & E6 & E7).
    destruct (request_names_read a Hc) as (l' & Hl' & D1 & D2 & D3).
    assert (l' = l) as -> by congruence.
    rewrite Hcn, E1, E2, E3, E4, E5, E6, E7, D1, D2, D3 in Hfrom.
    apply ok_inj in Hfrom. rewrite <- Hfrom. unfold from_csr. destruct a; cbn. f_equal.
    by destruct add_unique_id_to_subject_name.
  - unfold CertificateSigningRequest.matches_private_key. rewrite Hload, Hk. cbn. apply Z.eqb_refl.
Qed.

(** A request reads back as the attributes and the key it was made with:
    the field by field comparison that decides whether a certificate was already
    asked for sees through signing and printing, so a request is not made again. *)
Theorem generate_csr_roundtrip a key n e k :
  canonical a → load_pem_private_key key = Some (RSAPublicKey n e) →
  ∃ c, generate_csr key a k = Ok c ∧ from_csr c (is_ca a) = a ∧
       CertificateSigningRequest.matches_private_key c key = true ∧
       CertificateSigningRequest.from_string (CertificateSigningRequest.raw c) = Ok c.
Proof.
  intros Hc Hk. destruct (request_reads_back a key n e k Hc Hk) as (c & Hg & Ha & Hm).
  destruct (generate_csr_object a key _ k Hc Hk) as (c' & _ & Hg' & _ & _ & _ & Hfrom).
  assert (c' = c) as -> by congruence. by exists c.
Qed.

(** ** Certificates *)

Lemma add_extensions_all l : NoDup (oid_of <$> l) → add_extensions l = l.
Proof.
  assert (Hgen : ∀ l acc, NoDup (oid_of <$> (acc ++ l)%list) →
            foldl (λ l e, default l (add_extension l e)) acc l = (acc ++ l)%list).
  { clear l. induction l as [|e l IH]; intros acc Hnd; cbn; [by rewrite app_nil_r|].
    rewrite add_extension_new; cbn.
    - rewrite IH; rewrite <- app_assoc; done.
    - rewrite fmap_app in Hnd. apply NoDup_app in Hnd as (_ & Hd & _).
      intros Hin. apply (Hd _ Hin). cbn. left. }
  intros Hnd. apply (Hgen l [] Hnd).
Qed.

(** The names a certificate takes from its request, in the order they are
    copied, with the email of the subject. *)
Definition copied_names (o : csr_object) : list general_name :=
  let loaded := default [] (alternative_names (csr_extensions o)) in
  let sans := (filter (λ n, is_dns n = true) loaded ++ filter (λ n, is_ip n = true) loaded ++
               filter (λ n, is_oid n = true) loaded ++ filter (λ n, is_email n = true) loaded)%list in
  match first_attribute EMAIL_ADDRESS (csr_subject o) with
  | None => sans
  | Some email => if bool_decide (RFC822Name email ∈ sans) then sans else (sans ++ [RFC822Name email])%list
  end.

Lemma copied_names_elem o n :
  is_dns n || is_ip n || is_oid n = true →
  n ∈ copied_names o ↔ n ∈ default [] (alternative_names (csr_extensions o)).
Proof.
  intros Hn. unfold copied_names. set (loaded := default [] _).
  assert (Hs : n ∈ (filter (λ n, is_dns n = true) loaded ++ filter (λ n, is_ip n = true) loaded ++
               filter (λ n, is_oid n = true) loaded ++ filter (λ n, is_email n = true) loaded)%list
             ↔ n ∈ loaded).
  { rewrite !elem_of_app, !list_elem_of_filter. destruct n; cbn in *; naive_solver. }
  destruct (first_attribute _ _) as [email|]; [|done].
  case_bool_decide; [done|]. rewrite elem_of_app, Hs, list_elem_of_singleton.
  destruct n; cbn in *; naive_solver.
Qed.

(** The email of a subject is a name the package takes. *)
Definition email_ok (o : csr_object) : Prop :=
  ∀ email, first_attribute EMAIL_ADDRESS (csr_subject o) = Some email →
           general_name_ok (RFC822Name email) = true.

Lemma subject_alternative_names_copied o :
  email_ok o → subject_alternative_names o = Ok (names_extension (copied_names o)).
Proof.
  intros Hok. unfold subject_alternative_names, copied_names.
  destruct (first_attribute _ _) as [email|] eqn:E; [|done].
  unfold checked_name. by rewrite Hok.
Qed.

(** The extensions of the certificate of a request: those of the library, then
    those of the request that it does not manage. *)
Definition base_extensions (id : string) (o : csr_object) (is_ca : bool) : list extension :=
  ([mkExtension false (AuthorityKeyIdentifier id);
    mkExtension false (SubjectKeyIdentifier (key_digest (csr_public_key o)));
    mkExtension true (BasicConstraints is_ca)] ++ names_extension (copied_names o) ++
   (if is_ca then [mkExtension true (KeyUsage (mkKeyUsage false false false false false true true))] else []))%list.
Definition certificate_extensions (id : string) (o : csr_object) (is_ca : bool) : list extension :=
  (base_extensions id o is_ca ++
   filter (λ e, oid_of e ≠ SUBJECT_ALTERNATIVE_NAME ∧ oid_of e ∉ oid_of <$> base_extensions id o is_ca)
     (csr_extensions o))%list.

Lemma request_extensions_ok id o is_ca :
  email_ok o → request_extensions id o is_ca = Ok (certificate_extensions id o is_ca).
Proof. intros Hok. unfold request_extensions. by rewrite subject_alternative_names_copied. Qed.

Lemma alternative_names_none l : SUBJECT_ALTERNATIVE_NAME ∉ oid_of <$> l → alternative_names l = None.
Proof.
  unfold alternative_names. induction l as [|[b v] l IH]; intros Hl; [done|]. cbn in Hl.
  destruct v; cbn; try (apply IH; set_solver). set_solver.
Qed.

Lemma alternative_names_app l k :
  alternative_names (l ++ k)%list =
  match alternative_names l with Some n => Some n | None => alternative_names k end.
Proof. unfold alternative_names. rewrite omap_app. by destruct (omap _ l). Qed.

Lemma base_extensions_distinct id o is_ca : NoDup (oid_of <$> base_extensions id o is_ca).
Proof.
  unfold base_extensions.
  destruct (copied_names o), is_ca; cbn; repeat (constructor; [set_solver|]); constructor.
Qed.

Lemma certificate_extensions_read id o is_ca :
  NoDup (oid_of <$> csr_extensions o) →
  add_extensions (certificate_extensions id o is_ca) = certificate_extensions id o is_ca ∧
  default [] (alternative_names (certificate_extensions id o is_ca)) = copied_names o ∧
  Certificate.basic_constraints_ca (certificate_extensions id o is_ca) = is_ca.
Proof.
  intros Hnd. set (base := base_extensions id o is_ca).
  set (P := λ e, oid_of e ≠ SUBJECT_ALTERNATIVE_NAME ∧ oid_of e ∉ oid_of <$> base).
  split; [|split].
  - apply add_extensions_all. unfold certificate_extensions. rewrite fmap_app. apply NoDup_app.
    split; [apply base_extensions_distinct|]. split.
    + intros x Hx (e & -> & [[_ He] _]%list_elem_of_filter)%list_elem_of_fmap. done.
    + eapply sublist_NoDup; [exact Hnd|]. apply fmap_sublist, sublist_filter.
  - unfold certificate_extensions. fold base.
    assert (Hextra : alternative_names (filter P (csr_extensions o)) = None).
    { apply alternative_names_none. intros (e & He & [[Hne _] _]%list_elem_of_filter)%list_elem_of_fmap.
      by rewrite He in Hne. }
    rewrite alternative_names_app. fold P. rewrite Hextra. unfold base, base_extensions.
    destruct (copied_names o), is_ca; done.
  - done.
Qed.

(** A certificate reads back as it was signed. *)
Lemma signed_certificate_object key pk o cn :
  load_pem_private_key key = Some pk → first_attribute COMMON_NAME (subject o) = Some cn →
  ∃ c, Certificate.from_string (str_strip (sign_certificate key o)) = Ok c ∧
    load_pem_x509_certificate (Certificate.raw c) = Some o ∧
    Certificate.from_string (Certificate.raw c) = Ok c ∧
    str_strip (Certificate.raw c) = Certificate.raw c ∧
    Certificate.common_name c = cn ∧
    Certificate.is_ca c = Certificate.basic_constraints_ca (extensions o) ∧
    Certificate.sans_dns c = dns_names (default [] (alternative_names (extensions o))) ∧
    Certificate.sans_ip c = ip_names (default [] (alternative_names (extensions o))).
Proof.
  intros Hk Hcn. pose proof (load_signed_certificate key pk o Hk) as Hload.
  unfold Certificate.from_string. rewrite Hload, Hcn. eexists. split; [done|].
  cbn [Certificate.raw]. rewrite str_strip_idemp, Hload, Hcn. by rewrite str_strip_idemp.
Qed.

Lemma private_key_of_certificate c o key n e :
  load_pem_x509_certificate (Certificate.raw c) = Some o → load_pem_private_key key = Some (RSAPublicKey n e) →
  cert_public_key o = RSAPublicKey n e → Certificate.matches_private_key c key = true.
Proof.
  intros Hc Hk Ho. unfold Certificate.matches_private_key. rewrite Hc, Hk, Ho. by rewrite !Z.eqb_refl.
Qed.

(** What the authority signs for a request: a certificate with the subject, the
    key and the names of the request. *)
Lemma generate_certificate_object c o ca ca_object id key pk validity is_ca now random :
  CertificateSigningRequest.from_string (CertificateSigningRequest.raw c) = Ok c →
  load_pem_x509_csr (CertificateSigningRequest.raw c) = Some o → email_ok o →
  load_pem_x509_certificate (Certificate.raw ca) = Some ca_object →
  subject_key_identifier (extensions ca_object) = Some id →
  load_pem_private_key key = Some pk →
  ∃ cert, generate_certificate c ca key validity is_ca now random = Ok cert ∧
    load_pem_x509_certificate (Certificate.raw cert) =
      Some (mkCertificateObject (csr_subject o) (subject ca_object) (csr_public_key o)
              (random_serial_number random) now (now + validity) (certificate_extensions id o is_ca)) ∧
    Certificate.from_string (Certificate.raw cert) = Ok cert ∧
    Certificate.common_name cert = CertificateSigningRequest.common_name c ∧ Certificate.is_ca cert = is_ca ∧
    Some (Certificate.sans_dns cert) = CertificateSigningRequest.sans_dns c ∧
    Some (Certificate.sans_ip cert) = CertificateSigningRequest.sans_ip c ∧
    CertificateSigningRequest.matches_certificate c cert = Ok true.
Proof.
  intros Hfrom Hcsr Hok Hca Hid Hk. unfold generate_certificate. rewrite Hcsr, Hca, Hk, Hid.
  rewrite request_extensions_ok by done. cbn [mbind result_bind].
  destruct (certificate_extensions_read id o is_ca (csr_extensions_distinct _ _ Hcsr)) as (-> & Hn & Hb).
  unfold CertificateSigningRequest.from_string in Hfrom. rewrite Hcsr in Hfrom.
  destruct (first_attribute COMMON_NAME (csr_subject o)) as [cn|] eqn:Hcn; [|done]. apply ok_inj in Hfrom.
  destruct (signed_certificate_object key pk
    (mkCertificateObject (csr_subject o) (subject ca_object) (csr_public_key o)
       (random_serial_number random) now (now + validity) (certificate_extensions id o is_ca)) cn Hk Hcn)
    as (cert & Hc & Hload & Hfromc & _ & Hcommon & Hisca & Hdns & Hip).
  exists cert. rewrite Hdns, Hip, Hisca. cbn [extensions]. rewrite Hn, Hb.
  split_and!; try done; [by rewrite <- Hfrom|..].
  1,2: rewrite <- Hfrom; cbn; f_equal; apply set_eq; intros x; rewrite ?dns_names_elem, ?ip_names_elem;
       by apply copied_names_elem.
  unfold CertificateSigningRequest.matches_certificate. rewrite Hcsr, Hload. cbn.
  by rewrite bool_decide_true.
Qed.
End laws.
