(* ===== verification/SelfSigned.v ===== *)
(** * The internal authority and the certificates it signs (managers/tls.py)

    [TLSManager.generate_internal_ca] and [generate_self_signed_certificate] on
    the certificates library of Crypto.v: where Tls.v takes what is issued as an
    argument, here it is computed, and shown to be what the unit needs. *)

From S2P Require Import Prelude PyStr PyDict Json Literals Models Cluster Workload Tls Crypto CryptoFacts.

Local Open Scope string_scope.
Local Open Scope Z_scope.

(** [timedelta(days=3650)], in microseconds. *)
Definition VALIDITY : Z := 3650 * 86400 * 1000000.

Module SelfSigned.
Section self_signed.
Context `{RelationData D} `{Cryptography}.
Implicit Types m : TLSManager.tls_manager D.

Definition ca_attributes (app_name : string) : CertificateRequestAttributes :=
  mkAttributes app_name (Some ∅) (Some ∅) (Some ∅) None (Some (TLSScope_value PEER_SCOPE)) None None None None
    false true.

(** The certificate of the authority and its key. *)
Definition generate_internal_ca m (now : Z) (random : nat) : result (string * string) :=
  let ca_key := generate_private_key random in
  app_name ← KafkaBroker.name_part 0 (st_unit_name (TLSManager.state m));
  ca ← generate_ca ca_key VALIDITY (ca_attributes app_name) now (S random);
  Ok (Certificate.raw ca, ca_key).

(** [ClusterState.internal_ca] and [internal_ca_key], as the library's objects. *)
Definition internal_ca m : result (option Certificate.certificate) :=
  match ClusterState.internal_ca (TLSManager.state m) with
  | None => Ok None
  | Some ca => c ← Certificate.from_string ca; Ok (Some c)
  end.
Definition internal_ca_key m : option string :=
  PrivateKey.from_string <$> ClusterState.internal_ca_key (TLSManager.state m).

Definition unit_attributes (name : string) (sans : TLSManager.Sans) : CertificateRequestAttributes :=
  mkAttributes name (Some (list_to_set (TLSManager.sans_dns sans))) (Some (list_to_set (TLSManager.sans_ip sans)))
    (Some ∅) None None None None None None false true.

Definition generate_self_signed_certificate m (sans : result TLSManager.Sans) (now : Z) (random : nat)
    : result (option SelfSignedCertificate) :=
  ca ← internal_ca m;
  match ca with
  | None => Ok None
  | Some ca =>
      if TLSState.ready PEER_SCOPE (TLSManager.unit_data m) then Ok None
      else
        match internal_ca_key m with
        | None => Ok None
        | Some ca_key =>
            let current := TLSState.private_key PEER_SCOPE (TLSManager.unit_data m) in
            let private_key := if truthy current then current else generate_private_key random in
            sans ← sans;
            csr ← generate_csr private_key (unit_attributes (st_unit_name (TLSManager.state m)) sans) (S random);
            certificate ← generate_certificate csr ca ca_key VALIDITY false now (S (S random));
            Ok (Some (mkSelfSigned (Certificate.raw ca) (CertificateSigningRequest.raw csr)
                        (Certificate.raw certificate) private_key))
        end
  end.
End self_signed.
End SelfSigned.

(** ** The authority *)

Section facts.
Context `{RelationData D} `{CryptographyLaws}.
Implicit Types m : TLSManager.tls_manager D.

(** What makes a certificate an authority's: its flag, the identifier of its key,
    its name and its key. *)
Record authority (ca : Certificate.certificate) (key app_name : string) : Prop := mkAuthority {
  au_flag : Certificate.is_ca ca = true;
  au_name : Certificate.common_name ca = app_name;
  au_key : Certificate.matches_private_key ca key = true;
  au_stable : str_strip (Certificate.raw ca) = Certificate.raw ca;
  au_object : ∃ o, load_pem_x509_certificate (Certificate.raw ca) = Some o ∧
                   is_Some (subject_key_identifier (extensions o)) }.

Lemma generate_ca_authority key n e name validity now random :
  canonical (SelfSigned.ca_attributes name) → load_pem_private_key key = Some (RSAPublicKey n e) →
  ∃ ca, generate_ca key validity (SelfSigned.ca_attributes name) now random = Ok ca ∧
        Certificate.from_string (Certificate.raw ca) = Ok ca ∧ authority ca key name.
Proof.
  intros Hc Hk. unfold generate_ca. rewrite Hk.
  set (a := SelfSigned.ca_attributes name).
  set (subject := ((COMMON_NAME, common_name a) :: rest_of_subject a)%list).
  assert (Hnames : check_names subject = Ok ()).
  { apply guard_or_ok, forallb_forall. intros p Hp%list_elem_of_In.
    apply (proj1 (Forall_forall _ _) (c_names _ Hc 0%nat)). subst subject. fold a. unfold request_subject.
    set_solver. }
  rewrite Hnames.
  change (san_extension a) with (Ok (@nil extension)). cbn [mbind result_bind].
  edestruct (signed_certificate_object key (RSAPublicKey n e)) as (ca & -> & Hload & Hfrom & Hstrip & Hcn & Hca & _);
    [done|done|].
  exists ca. split; [done|]. split; [done|].
  split; [by rewrite Hca|done|by eapply private_key_of_certificate|done|].
  eexists. split; [done|]. cbn. eauto.
Qed.

Lemma generate_internal_ca_authority m name now random :
  KafkaBroker.name_part 0 (st_unit_name (TLSManager.state m)) = Ok name →
  canonical (SelfSigned.ca_attributes name) →
  ∃ ca key c, SelfSigned.generate_internal_ca m now random = Ok (ca, key) ∧
    Certificate.from_string ca = Ok c ∧ authority c key name ∧ PrivateKey.from_string key = key ∧
    ca = Certificate.raw c ∧ is_Some (load_pem_private_key key).
Proof.
  intros Hname Hc. unfold SelfSigned.generate_internal_ca. rewrite Hname. cbn [mbind result_bind].
  destruct (generated_key_is_rsa random) as (n & e & Hk).
  destruct (generate_ca_authority (generate_private_key random) n e name VALIDITY now (S random) Hc Hk)
    as (ca & -> & Hfrom & Hau).
  cbn [mbind result_bind]. eexists _, _, ca. split; [done|]. split; [done|]. split; [done|].
  split; [apply str_strip_idemp|]. split; [done|]. unfold generate_private_key, PrivateKey.from_string. eauto.
Qed.

(** ** The certificate of a unit *)

(** The unit's key, its own or a new one, is an RSA key. *)
Definition unit_key m (random : nat) : string :=
  let current := TLSState.private_key PEER_SCOPE (TLSManager.unit_data m) in
  if truthy current then current else generate_private_key random.

Lemma unit_key_rsa m random :
  (truthy (TLSState.private_key PEER_SCOPE (TLSManager.unit_data m)) = true →
   ∃ n e, load_pem_private_key (TLSState.private_key PEER_SCOPE (TLSManager.unit_data m)) = Some (RSAPublicKey n e)) →
  ∃ n e, load_pem_private_key (unit_key m random) = Some (RSAPublicKey n e).
Proof.
  intros Hk. unfold unit_key. destruct (truthy _); [by apply Hk|]. apply generated_key_is_rsa.
Qed.

(** A request of the unit, as the authority signs it. *)
Lemma unit_request name sans key n e random :
  canonical (SelfSigned.unit_attributes name sans) → load_pem_private_key key = Some (RSAPublicKey n e) →
  ∃ c o, generate_csr key (SelfSigned.unit_attributes name sans) random = Ok c ∧
    CertificateSigningRequest.from_string (CertificateSigningRequest.raw c) = Ok c ∧
    load_pem_x509_csr (CertificateSigningRequest.raw c) = Some o ∧ email_ok o ∧
    csr_public_key o = RSAPublicKey n e ∧
    from_csr c false = SelfSigned.unit_attributes name sans.
Proof.
  intros Hc Hk. set (a := SelfSigned.unit_attributes name sans).
  destruct (generate_csr_object a key _ random Hc Hk) as (c & l & Hg & _ & _ & Hload & Hfrom).
  destruct (request_attributes_read a random Hc) as (_ & Hemail & _).
  destruct (request_reads_back a key n e random Hc Hk) as (c' & Hg' & Hback & _).
  assert (c' = c) as -> by congruence.
  exists c, (mkCsrObject (request_subject a random) (RSAPublicKey n e) (names_extension l)).
  by split_and!.
Qed.

End facts.
