(* ===== verification/CryptoSample.v ===== *)
(** * An instance of the cryptography package

    A text is the kind of object and the code of the object; it is read by
    decoding, after stripping. The laws of [CryptographyLaws] hold of it, and the
    theorems about requests and certificates are evaluated on it. *)

From S2P Require Import Prelude PyStr PyDict Json Literals Models Cluster Tls Crypto CryptoFacts SelfSigned.

Local Open Scope string_scope.
Local Open Scope Z_scope.

(** ** Codes *)

#[export] Instance oid_countable : Countable oid.
Proof.
  refine (inj_countable' (A := nat + string)
    (λ o, match o with
          | COMMON_NAME => inl 0 | X500_UNIQUE_IDENTIFIER => inl 1 | ORGANIZATION_NAME => inl 2
          | ORGANIZATIONAL_UNIT_NAME => inl 3 | EMAIL_ADDRESS => inl 4 | COUNTRY_NAME => inl 5
          | STATE_OR_PROVINCE_NAME => inl 6 | LOCALITY_NAME => inl 7 | OTHER_NAME s => inr s end)%nat
    (λ c, match c with
          | inl 0 => COMMON_NAME | inl 1 => X500_UNIQUE_IDENTIFIER | inl 2 => ORGANIZATION_NAME
          | inl 3 => ORGANIZATIONAL_UNIT_NAME | inl 4 => EMAIL_ADDRESS | inl 5 => COUNTRY_NAME
          | inl 6 => STATE_OR_PROVINCE_NAME | inl _ => LOCALITY_NAME | inr s => OTHER_NAME s end)%nat _).
  by intros [].
Defined.
#[export] Instance general_name_countable : Countable general_name.
Proof.
  refine (inj_countable' (A := nat * string)
    (λ n, match n with
          | DNSName s => (0, s) | IPAddress s => (1, s) | RegisteredID s => (2, s)
          | RFC822Name s => (3, s) | OtherName s => (4, s) end)%nat
    (λ c, match c with
          | (0, s) => DNSName s | (1, s) => IPAddress s | (2, s) => RegisteredID s
          | (3, s) => RFC822Name s | (_, s) => OtherName s end)%nat _).
  by intros [].
Defined.
#[export] Instance public_key_countable : Countable public_key.
Proof.
  refine (inj_countable' (A := Z * Z + string)
    (λ k, match k with RSAPublicKey n e => inl (n, e) | OtherPublicKey s => inr s end)
    (λ c, match c with inl (n, e) => RSAPublicKey n e | inr s => OtherPublicKey s end) _).
  by intros [].
Defined.
#[export] Instance key_usage_countable : Countable key_usage.
Proof.
  refine (inj_countable' (A := bool * bool * bool * bool * bool * bool * bool)
    (λ u, (digital_signature u, content_commitment u, key_encipherment u, data_encipherment u,
           key_agreement u, key_cert_sign u, crl_sign u))
    (λ '(a, b, c, d, e, f, g), mkKeyUsage a b c d e f g) _).
  by intros [].
Defined.
#[export] Instance extension_countable : Countable extension.
Proof.
  refine (inj_countable'
    (A := bool * (string + (string + (bool + (list general_name + (key_usage + string * string))))))
    (λ x, (critical x,
       match value x with
       | AuthorityKeyIdentifier s => inl s
       | SubjectKeyIdentifier s => inr (inl s)
       | BasicConstraints b => inr (inr (inl b))
       | SubjectAlternativeName l => inr (inr (inr (inl l)))
       | KeyUsage u => inr (inr (inr (inr (inl u))))
       | OtherExtension d s => inr (inr (inr (inr (inr (d, s)))))
       end))
    (λ '(b, c), mkExtension b
       match c with
       | inl s => AuthorityKeyIdentifier s
       | inr (inl s) => SubjectKeyIdentifier s
       | inr (inr (inl b)) => BasicConstraints b
       | inr (inr (inr (inl l))) => SubjectAlternativeName l
       | inr (inr (inr (inr (inl u)))) => KeyUsage u
       | inr (inr (inr (inr (inr (d, s))))) => OtherExtension d s
       end) _).
  by intros [b []].
Defined.

(** ** Texts *)

Fixpoint pos_text (p : positive) : string :=
  match p with xH => "" | xO p => String "0" (pos_text p) | xI p => String "1" (pos_text p) end.
Fixpoint text_pos (s : string) : positive :=
  match s with "" => xH | String c s => if (c =? "0")%char then xO (text_pos s) else xI (text_pos s) end.

Lemma text_pos_text p : text_pos (pos_text p) = p.
Proof. induction p as [p IH|p IH|]; cbn; by rewrite ?IH. Qed.
Lemma pos_text_no_space p : str_forall (λ c, negb (is_space c)) (pos_text p) = true.
Proof. induction p; cbn; done. Qed.

(** The text of an object of a kind, and what a text of the kind holds. *)
Definition to_text {A} `{Countable A} (kind : ascii) (x : A) : string := String kind (pos_text (encode x)).
Definition of_text {A} `{Countable A} (kind : ascii) (t : string) : option A :=
  match str_strip t with
  | String k s => if (k =? kind)%char then decode (text_pos s) else None
  | "" => None
  end.

Lemma to_text_strip {A} `{Countable A} kind (x : A) :
  is_space kind = false → str_strip (to_text kind x) = to_text kind x.
Proof. intros Hk. apply str_strip_id. cbn. by rewrite Hk, pos_text_no_space. Qed.
Lemma of_to_text {A} `{Countable A} kind (x : A) :
  is_space kind = false → of_text kind (str_strip (to_text kind x)) = Some x.
Proof.
  intros Hk. unfold of_text. rewrite !to_text_strip by done. unfold to_text.
  by rewrite Ascii.eqb_refl, text_pos_text, decode_encode.
Qed.
Lemma of_text_strip {A} `{Countable A} kind t : of_text (A := A) kind (str_strip t) = of_text kind t.
Proof. unfold of_text. by rewrite str_strip_idemp. Qed.

Definition tuple_of_certificate (c : certificate_object) :=
  (subject c, issuer c, cert_public_key c, serial_number c, not_valid_before c, not_valid_after c, extensions c).
Definition certificate_of_tuple
    (t : list (oid * string) * list (oid * string) * public_key * Z * Z * Z * list extension) :=
  let '(s, i, k, n, b, a, l) := t in mkCertificateObject s i k n b a l.

(** The modulus of a key is the text of the key; every name is taken, a name
    attribute when it is not empty. *)
Definition sample_key (t : string) : option public_key :=
  (λ n : nat, RSAPublicKey (Z.of_nat n + 2 ^ 16) 65537) <$> of_text "K" t.
#[export] Instance sample_cryptography : Cryptography := {|
  load_pem_private_key := sample_key;
  load_pem_x509_csr t :=
    match of_text "R" t with
    | Some (s, k, l) => if decide (NoDup (oid_of <$> l)) then Some (mkCsrObject s k l) else None
    | None => None
    end;
  load_pem_x509_certificate t := certificate_of_tuple <$> of_text "C" t;
  sign_csr key s l := to_text "R" (s, default (OtherPublicKey "") (sample_key key), l);
  sign_certificate _ c := to_text "C" (tuple_of_certificate c);
  verify_directly_issued_by c i := bool_decide (issuer c = subject i);
  name_attribute _ s := truthy s;
  general_name_ok _ := true;
  ip_address s := Some s;
  str_ObjectIdentifier s := s;
  key_digest k := pos_text (encode k);
  add_extension l e := if decide (oid_of e ∈ oid_of <$> l) then None else Some (l ++ [e])%list;
  rsa_generate_private_key n := to_text "K" n;
  uuid4 n := String "u" (pos_text (Pos.of_succ_nat n));
  random_serial_number n := Z.of_nat n;
  sha256_hex s := s |}.

#[export] Instance sample_cryptography_laws : CryptographyLaws.
Proof.
  split; cbn -[str_strip to_text].
  - intros key pk s l Hk _ Hl. by rewrite of_to_text, Hk, decide_True.
  - intros key pk [] _. by rewrite of_to_text.
  - intros t o. destruct (of_text "R" t) as [[[s k] l]|]; [|done]. case_decide; [|done]. by intros [= <-].
  - intros t. by rewrite of_text_strip.
  - intros t. by rewrite of_text_strip.
  - intros exts e He. by rewrite decide_False.
  - intros n. unfold sample_key. rewrite of_to_text by done. cbn. eauto.
  - intros n m [= Hn%(f_equal text_pos)]. rewrite !text_pos_text in Hn. lia.
Qed.

(** A request of the charm on this instance. *)
Definition sample_attributes : CertificateRequestAttributes :=
  mkAttributes "kafka/0" (Some {["kafka-0"; "kafka-0.kafka-endpoints"]}) (Some {["10.1.0.7"]}) (Some ∅)
    None None None None None None false true.
Lemma sample_canonical : canonical sample_attributes.
Proof.
  split; try done.
  - intros k. by repeat constructor.
  - eexists. split; [done|]. by intros x _.
  - eexists. split; [done|]. by intros x _.
  - eexists. split; [done|]. by intros x _.
Qed.

Lemma generate_csr_roundtrip_witness :
  ∃ c, generate_csr (generate_private_key 5) sample_attributes 6 = Ok c ∧
       from_csr c false = sample_attributes ∧
       CertificateSigningRequest.matches_private_key c (generate_private_key 5) = true ∧
       CertificateSigningRequest.from_string (CertificateSigningRequest.raw c) = Ok c.
Proof.
  destruct (generated_key_is_rsa 5) as (m & e & Hk).
  exact (generate_csr_roundtrip sample_attributes (generate_private_key 5) m e 6 sample_canonical Hk).
Defined.

(** ** The internal authority of an application of two units *)

Definition unit_of_application (name : string) (app : bag) : TLSManager.tls_manager bag :=
  TLSManager.mkTls
    (mkState "broker" 50000 None name true (Some (mkPeerData app ∅ [])) [] None None None [] None false [] 2
       (mkK8sView (λ _, Ok "10.0.0.1") (λ _, Ok 31000) (λ _, Ok 31001)))
    BROKER_ROLE [] [].
Definition sample_leader : TLSManager.tls_manager bag := unit_of_application "kafka/0" ∅.
Definition sample_authority : string * string :=
  match SelfSigned.generate_internal_ca sample_leader 0 1 with Ok p => p | Err _ => ("", "") end.
Definition sample_unit_1 : TLSManager.tls_manager bag :=
  unit_of_application "kafka/1"
    {[ "internal-ca" := sample_authority.1; "internal-ca-key" := sample_authority.2 ]}.
Definition sample_sans : TLSManager.Sans :=
  TLSManager.mkSans ["10.0.0.1"; "10.1.0.8"] ["kafka-1"; "kafka-1.kafka-endpoints"].

Lemma sample_attributes_canonical name dns ip organization :
  truthy name = true → nonempty organization →
  canonical (mkAttributes name (Some dns) (Some ip) (Some ∅) None organization None None None None false true).
Proof.
  intros Hn Ho. split; try done.
  - intros k. repeat constructor; [done|]. destruct organization as [[|c s]|]; by repeat constructor.
  - eexists. split; [done|]. by intros x _.
  - eexists. split; [done|]. by intros x _.
  - eexists. split; [done|]. by intros x _.
Qed.

