(* ===== verification/Certificates.v ===== *)
(** * Certificate requests (lib/charms/tls_certificates_interface/v4/tls_certificates.py)

    [TLSCertificatesRequiresV4], the side of the certificates relation the charm
    is on: its private key, the requests it has in the relation, and the
    certificates the provider answers with. *)

From S2P Require Import Prelude PyStr PyDict Crypto.

Local Open Scope string_scope.
Local Open Scope nat_scope.

Inductive Mode := UNIT | APP.
#[export] Instance Mode_eq_dec : EqDecision Mode.
Proof. solve_decision. Defined.

(** A request as it is kept in the relation, and a certificate of the provider as
    it is kept there and as an object. *)
Record csr_entry := mkEntry { certificate_signing_request : string; ca : option bool }.
#[export] Instance csr_entry_eq_dec : EqDecision csr_entry.
Proof. solve_decision. Defined.
Record certificate_entry := mkCertificateEntry {
  e_ca : string; e_csr : string; e_certificate : string; e_chain : option (list string);
  e_revoked : option bool }.
#[export] Instance certificate_entry_eq_dec : EqDecision certificate_entry.
Proof. solve_decision. Defined.
Record ProviderCertificate := mkProviderCertificate {
  p_certificate : Certificate.certificate; p_csr : CertificateSigningRequest.request;
  p_ca : Certificate.certificate; p_chain : list Certificate.certificate; p_revoked : option bool }.
(** A request of the relation as an object, with its [is_ca]. *)
Record RequirerCertificateRequest := mkRequirerRequest {
  r_csr : CertificateSigningRequest.request; r_is_ca : bool }.
(** The content of the secret of a certificate. *)
Record content := mkContent { c_certificate : string; c_csr : string }.

(** What the library sees and keeps: whether there is a relation, this side's
    requests ([None] when they are not valid), the provider's certificates ([None]
    when there is no remote application or they are not valid), the secret with the
    key and, by label, those with the certificates, the events sent, and the next
    random number. *)
Record state := mkState {
  relation : bool;
  own : option (list csr_entry);
  provider : option (list certificate_entry);
  key_secret : option string;
  certificate_secrets : gmap string content;
  available : list ProviderCertificate;
  random : nat }.

Definition LIBID : string := "afd8c2bccf834997afce12c2706d2ede".

(** [list.remove] *)
Fixpoint remove_first `{EqDecision A} (e : A) (l : list A) : list A :=
  match l with
  | [] => []
  | x :: l => if decide (x = e) then l else x :: remove_first e l
  end.

(** A loop that removes from the list it goes over: the element after one that is
    removed is not looked at. *)
Fixpoint remove_loop `{EqDecision A} (p : A → bool) (fuel i : nat) (l : list A) : list A :=
  match fuel with
  | O => l
  | S fuel =>
      match l !! i with
      | None => l
      | Some e => remove_loop p fuel (S i) (if p e then remove_first e l else l)
      end
  end.

Definition to_provider_certificate `{Cryptography} (c : certificate_entry) : result ProviderCertificate :=
  certificate ← Certificate.from_string (e_certificate c);
  csr ← CertificateSigningRequest.from_string (e_csr c);
  ca ← Certificate.from_string (e_ca c);
  chain ← traverse Certificate.from_string (default [] (e_chain c));
  Ok (mkProviderCertificate certificate csr ca chain (e_revoked c)).

Definition with_own (l : list csr_entry) s : state :=
  mkState (relation s) (Some l) (provider s) (key_secret s) (certificate_secrets s) (available s) (random s).
Definition with_key (k : option string) s : state :=
  mkState (relation s) (own s) (provider s) k (certificate_secrets s) (available s) (random s).
Definition with_certificates (m : gmap string content) s : state :=
  mkState (relation s) (own s) (provider s) (key_secret s) m (available s) (random s).
Definition emit (p : ProviderCertificate) s : state :=
  mkState (relation s) (own s) (provider s) (key_secret s) (certificate_secrets s) (available s ++ [p])%list (random s).
Definition next_random s : state :=
  mkState (relation s) (own s) (provider s) (key_secret s) (certificate_secrets s) (available s) (S (random s)).

Module TLSCertificatesRequiresV4.
Section requirer.
Context `{Cryptography}.

Record requirer := mkRequirer {
  mode : Mode; leader : bool; unit_number : string;
  certificate_requests : list CertificateRequestAttributes; given_key : option string }.
Implicit Types r : requirer.
Implicit Types s : state.

(** ** Requests in the relation *)

(** In the mode of the application only its leader reads and writes. *)
Definition not_mine r : bool := bool_decide (mode r = APP) && negb (leader r).

Definition load_entry (e : csr_entry) : result RequirerCertificateRequest :=
  c ← CertificateSigningRequest.from_string (certificate_signing_request e);
  Ok (mkRequirerRequest c (default false (ca e))).

Definition get_csrs_from_requirer_relation_data r s : result (list RequirerCertificateRequest) :=
  if not_mine r then Ok []
  else if negb (relation s) then Ok []
  else match own s with
       | None => Ok []
       | Some l => traverse load_entry l
       end.

Definition remove_requirer_csr_from_relation_data r (csr : CertificateSigningRequest.request) s : result state :=
  if negb (relation s) then Ok s
  else
    csrs ← get_csrs_from_requirer_relation_data r s;
    match csrs, own s with
    | _ :: _, Some l =>
        Ok (with_own (remove_loop (λ e,
          (str_strip (certificate_signing_request e) =? str_strip (CertificateSigningRequest.raw csr))%string)
          (length l) 0 l) s)
    | _, _ => Ok s
    end.

Definition request_certificate r (csr : CertificateSigningRequest.request) (is_ca : bool) s : state :=
  if not_mine r then s
  else if negb (relation s) then s
  else with_own (default [] (own s) ++
                 [mkEntry (str_strip (CertificateSigningRequest.raw csr)) (Some is_ca)])%list s.

(** ** The private key *)

Definition private_key r s : option string :=
  match given_key r with
  | Some k => Some k
  | None => PrivateKey.from_string <$> key_secret s
  end.

Definition new_private_key s : state := with_key (Some (generate_private_key (random s))) (next_random s).

Definition ensure_private_key r s : state :=
  match given_key r with
  | Some _ => with_key None s
  | None => match key_secret s with Some _ => s | None => new_private_key s end
  end.

(** ** Which requests are needed *)

Definition csr_matches_certificate_request r (csr : CertificateSigningRequest.request) (ca : bool) : bool :=
  existsb (λ a, bool_decide (a = from_csr csr ca)) (certificate_requests r).

Definition certificate_requested_for_attributes r (a : CertificateRequestAttributes) s
    : result (option RequirerCertificateRequest) :=
  csrs ← get_csrs_from_requirer_relation_data r s;
  Ok (snd <$> list_find (λ c, a = from_csr (r_csr c) (r_is_ca c)) csrs).

Definition certificate_requested r (a : CertificateRequestAttributes) s : result bool :=
  match private_key r s with
  | None => Ok false
  | Some key =>
      found ← certificate_requested_for_attributes r a s;
      Ok (match found with
          | Some c => CertificateSigningRequest.matches_private_key (r_csr c) key
          | None => false
          end)
  end.

(** The body of the loop of [send_certificate_requests]. *)
Definition send_request r (key : string) (a : CertificateRequestAttributes) s : result state :=
  requested ← certificate_requested r a s;
  if (requested : bool) then Ok s
  else
    csr ← generate_csr key a (random s);
    Ok (request_certificate r csr (is_ca a) (next_random s)).
Fixpoint send_requests r (key : string) (attributes : list CertificateRequestAttributes) s : result state :=
  match attributes with
  | [] => Ok s
  | a :: attributes => s ← send_request r key a s; send_requests r key attributes s
  end.
Definition send_certificate_requests r s : result state :=
  match private_key r s with
  | None => Ok s
  | Some key => send_requests r key (certificate_requests r) s
  end.

(** Whether [cleanup_certificate_requests] leaves a request. *)
Definition keeps r (key : option string) (c : RequirerCertificateRequest) : bool :=
  if negb (csr_matches_certificate_request r (r_csr c) (r_is_ca c)) then false
  else match key with
       | Some key => CertificateSigningRequest.matches_private_key (r_csr c) key
       | None => true
       end.
Fixpoint cleanup r (csrs : list RequirerCertificateRequest) s : result state :=
  match csrs with
  | [] => Ok s
  | c :: csrs =>
      s ← (if keeps r (private_key r s) c then Ok s
           else remove_requirer_csr_from_relation_data r (r_csr c) s);
      cleanup r csrs s
  end.
Definition cleanup_certificate_requests r s : result state :=
  csrs ← get_csrs_from_requirer_relation_data r s; cleanup r csrs s.

(** ** Certificates *)

Definition get_provider_certificates s : result (list ProviderCertificate) :=
  if negb (relation s) then Ok []
  else match provider s with
       | None => Ok []
       | Some l => traverse to_provider_certificate l
       end.

Definition get_csr_secret_label r (csr : CertificateSigningRequest.request) : string :=
  match mode r with
  | UNIT => LIBID ++ "-certificate-" ++ unit_number r ++ "-" ++ CertificateSigningRequest.get_sha256_hex csr
  | APP => LIBID ++ "-certificate-" ++ CertificateSigningRequest.get_sha256_hex csr
  end.

Definition find_certificate_in_relation_data r (c : RequirerCertificateRequest) s
    : result (option ProviderCertificate) :=
  match private_key r s with
  | None => Ok None
  | Some key =>
      certificates ← get_provider_certificates s;
      Ok (snd <$> list_find (λ p, CertificateSigningRequest.eqb (p_csr p) (r_csr c) = true ∧
                                  Certificate.is_ca (p_certificate p) = r_is_ca c ∧
                                  Certificate.matches_private_key (p_certificate p) key = true) certificates)
  end.

Definition get_assigned_certificate r (a : CertificateRequestAttributes) s
    : result (option ProviderCertificate * option string) :=
  found ← certificate_requested_for_attributes r a s;
  match found with
  | Some c => p ← find_certificate_in_relation_data r c s; Ok (p, private_key r s)
  | None => Ok (None, None)
  end.
Definition get_assigned_certificates r s : result (list ProviderCertificate * option string) :=
  csrs ← get_csrs_from_requirer_relation_data r s;
  found ← traverse (λ c, find_certificate_in_relation_data r c s) csrs;
  Ok (omap (M := list) (λ p, p) found, private_key r s).

(** One certificate of the provider: kept in the secret of its request, with an
    event when it is not what the secret has; the secret of a revoked one is
    removed. *)
Definition find_available r (csrs : list RequirerCertificateRequest) s (p : ProviderCertificate) : state :=
  if negb (existsb (λ c, CertificateSigningRequest.eqb (r_csr c) (p_csr p)) csrs) then s
  else
    let label := get_csr_secret_label r (p_csr p) in
    let text := Certificate.raw (p_certificate p) in
    let stored := emit p (with_certificates
      (<[label := mkContent text (CertificateSigningRequest.raw (p_csr p))]> (certificate_secrets s)) s) in
    if default false (p_revoked p) then with_certificates (delete label (certificate_secrets s)) s
    else if negb (csr_matches_certificate_request r (p_csr p) (Certificate.is_ca (p_certificate p))) then s
    else match certificate_secrets s !! label with
         | Some c => if (c_certificate c =? text)%string then s else stored
         | None => stored
         end.
Definition find_available_certificates r s : result state :=
  csrs ← get_csrs_from_requirer_relation_data r s;
  certificates ← get_provider_certificates s;
  Ok (foldl (find_available r csrs) s certificates).

(** ** Handlers *)

Definition configure r s : result state :=
  if negb (relation s) then Ok s
  else
    s ← cleanup_certificate_requests r (ensure_private_key r s);
    s ← send_certificate_requests r s;
    find_available_certificates r s.
Definition sync := configure.

Definition renew_certificate_request r (csr : CertificateSigningRequest.request) s : result state :=
  s ← remove_requirer_csr_from_relation_data r csr s; send_certificate_requests r s.

Definition renew_certificate r (p : ProviderCertificate) s : result state :=
  let label := get_csr_secret_label r (p_csr p) in
  match certificate_secrets s !! label with
  | None => Ok s
  | Some c =>
      if negb (c_csr c =? CertificateSigningRequest.raw (p_csr p))%string then Ok s
      else
        s ← renew_certificate_request r (p_csr p) s;
        Ok (with_certificates (delete label (certificate_secrets s)) s)
  end.

(** A secret with a label has expired. *)
Definition on_secret_expired r (label : string) s : result state :=
  if negb (startswith (LIBID ++ "-certificate") label) then Ok s
  else match certificate_secrets s !! label with
       | None => Ok s
       | Some c =>
           csr ← CertificateSigningRequest.from_string (c_csr c);
           s ← renew_certificate_request r csr s;
           Ok (with_certificates (delete label (certificate_secrets s)) s)
       end.

Definition regenerate_private_key r s : result state :=
  match given_key r with
  | Some _ =>
      Err (TLSCertificatesError ("Private key is passed by the charm through the private_key parameter, " ++
                                 "this function can't be used"))
  | None =>
      match key_secret s with
      | None => Ok s
      | Some _ =>
          s ← cleanup_certificate_requests r (new_private_key s);
          send_certificate_requests r s
      end
  end.

(** ** Construction *)

(** [renewal_relative_time], in thousandths. *)
Definition init (mode : Mode) (leader : bool) (unit_number : string)
    (certificate_requests : list CertificateRequestAttributes) (private_key : option string)
    (renewal_relative_time : Z) : result requirer :=
  if negb (forallb is_valid certificate_requests) then Err (TLSCertificatesError "Invalid certificate request")
  else if negb (default true (PrivateKey.is_valid <$> private_key)) then Err (TLSCertificatesError "Invalid private key")
  else if bool_decide (renewal_relative_time ≤ 500 ∨ 1000 < renewal_relative_time)%Z
  then Err (TLSCertificatesError "Invalid renewal relative time. Must be between 0.0 and 1.0")
  else Ok (mkRequirer mode leader unit_number certificate_requests private_key).
End requirer.
End TLSCertificatesRequiresV4.
