(* ===== verification/CertificatesFacts.v ===== *)
(** * What the certificates library asks for, and when

    After [configure] the relation holds exactly the requests that are needed,
    for the key there is; running it again changes nothing; a renewed certificate
    is asked for with a new request. *)

From S2P Require Import Prelude PyStr PyDict Crypto CryptoFacts Certificates.

Local Open Scope string_scope.
Local Open Scope nat_scope.

Import TLSCertificatesRequiresV4.

Definition entries (s : state) : list csr_entry := default [] (own s).
Definition text (e : csr_entry) : string := str_strip (certificate_signing_request e).

Lemma with_own_id l s : own s = Some l → with_own l s = s.
Proof. destruct s; cbn. by intros ->. Qed.
Lemma text_strip e : str_strip (text e) = text e.
Proof. apply str_strip_idemp. Qed.
Lemma with_own_twice l l' s : with_own l (with_own l' s) = with_own l s.
Proof. done. Qed.

Lemma Forall_kept {A} (P Q : A → Prop) `{∀ x, Decision (Q x)} (l : list A) : Forall P l → Forall P (filter Q l).
Proof.
  intros Hl. apply Forall_forall. intros x [_ Hx]%list_elem_of_filter. exact (proj1 (Forall_forall _ _) Hl x Hx).
Qed.

(** ** Removing a request *)

Lemma remove_first_here `{EqDecision A} (e : A) pre l : e ∉ pre → remove_first e (pre ++ e :: l) = (pre ++ l)%list.
Proof.
  induction pre as [|x pre IH]; intros He; cbn.
  - by rewrite decide_True.
  - rewrite decide_False by set_solver. rewrite IH by set_solver. done.
Qed.

Lemma remove_loop_none `{EqDecision A} (p : A → bool) fuel i l :
  Forall (λ e, p e = false) l → remove_loop p fuel i l = l.
Proof.
  intros Hl. revert i. induction fuel as [|fuel IH]; intros i; [done|]. cbn.
  destruct (l !! i) as [e|] eqn:E; [|done].
  apply (Forall_lookup_1 _ _ _ _ Hl) in E. cbn in E. rewrite E. apply IH.
Qed.

(** When there is at most one element to remove, the loop removes it: the element
    it passes over is not one to remove. *)
Lemma remove_loop_one `{EqDecision A} (p : A → bool) fuel pre rest :
  (∀ a b l1 l2, rest = (l1 ++ a :: l2)%list → b ∈ l2 → p a = true → p b = false) →
  length rest ≤ fuel → Forall (λ e, p e = false) pre →
  remove_loop p fuel (length pre) (pre ++ rest)%list = filter (λ e, p e = false) (pre ++ rest)%list.
Proof.
  revert pre rest. induction fuel as [|fuel IH]; intros pre rest Hone Hlen Hpre.
  - destruct rest; [|cbn in Hlen; lia]. rewrite app_nil_r. symmetry.
    apply filter_every, (proj1 (Forall_forall _ _)). done.
  - destruct rest as [|e rest].
    + rewrite app_nil_r, filter_every by exact (proj1 (Forall_forall _ _) Hpre). by apply remove_loop_none.
    + cbn [remove_loop]. rewrite list_lookup_middle by done. destruct (p e) eqn:He.
      * rewrite remove_first_here
          by (intros Hin; pose proof (proj1 (Forall_forall _ _) Hpre e Hin) as Hp; cbn in Hp; congruence).
        assert (Hr : ∀ x, x ∈ rest → p x = false) by (intros x Hx; by apply (Hone e x [] rest)).
        rewrite remove_loop_none by (apply Forall_app; split; [done|by apply Forall_forall]).
        rewrite filter_app, filter_cons_False by congruence.
        by rewrite !filter_every by (done || exact (proj1 (Forall_forall _ _) Hpre)).
      * rewrite (cons_middle e pre rest), app_assoc.
        rewrite <- (IH (pre ++ [e])%list rest); [by rewrite length_app, Nat.add_comm| |cbn in Hlen; lia|].
        -- intros a b l1 l2 -> Hb. by apply (Hone a b (e :: l1) l2).
        -- apply Forall_app. split; [done|by constructor].
Qed.

(** So it is for entries with distinct keys. *)
Lemma remove_loop_spec `{EqDecision A} (f : A → string) (k : string) (l : list A) :
  NoDup (f <$> l) → remove_loop (λ e, (f e =? k)%string) (length l) 0 l = filter (λ e, f e ≠ k) l.
Proof.
  intros Hnd. etrans; [apply (remove_loop_one _ (length l) [] l)|]; [|done|done|].
  - intros a b l1 l2 -> Hb <-%String.eqb_eq. apply String.eqb_neq. intros Hab.
    rewrite fmap_app in Hnd. apply NoDup_app in Hnd as (_ & _ & [Hn _]%NoDup_cons).
    apply Hn. rewrite <- Hab. by apply list_elem_of_fmap_2.
  - apply list_filter_iff. intros x. apply String.eqb_neq.
Qed.

Section facts.
Context `{CryptographyLaws}.
Implicit Types r : requirer.
Implicit Types s : state.

(** ** States of the library *)

Definition valid_entry (e : csr_entry) : Prop := ∃ c, load_entry e = Ok c.
(** The identifiers that are still to be drawn are in no request. *)
Definition fresh_entry (n : nat) (e : csr_entry) : Prop :=
  ∀ o k, load_pem_x509_csr (certificate_signing_request e) = Some o → n ≤ k →
         (X500_UNIQUE_IDENTIFIER, uuid4 k) ∉ csr_subject o.

(** The relation is there and this unit may write it, and its requests can be
    read, are distinct and were made before. *)
Record sane r s : Prop := mkSane {
  sn_relation : relation s = true;
  sn_mine : not_mine r = false;
  sn_valid : Forall valid_entry (entries s);
  sn_distinct : NoDup (text <$> entries s);
  sn_fresh : Forall (fresh_entry (random s)) (entries s) }.

Lemma load_entry_raw e c : load_entry e = Ok c → CertificateSigningRequest.raw (r_csr c) = text e.
Proof.
  unfold load_entry. intros (x & Hx & Hc)%result_bind_ok. apply ok_inj in Hc as <-. cbn.
  unfold CertificateSigningRequest.from_string in Hx.
  destruct (load_pem_x509_csr _) as [o|]; [|done]. destruct (first_attribute _ _); [|done].
  apply ok_inj in Hx as <-. done.
Qed.

Lemma valid_entries l : Forall valid_entry l → ∃ csrs, Forall2 (λ e c, load_entry e = Ok c) l csrs.
Proof. apply Forall_exists_Forall2_l. Qed.

Lemma get_csrs_read r s :
  relation s = true → not_mine r = false → Forall valid_entry (entries s) →
  ∃ csrs, get_csrs_from_requirer_relation_data r s = Ok csrs ∧
          Forall2 (λ e c, load_entry e = Ok c) (entries s) csrs.
Proof.
  intros Hr Hm Hv. unfold get_csrs_from_requirer_relation_data. rewrite Hm, Hr. cbn.
  unfold entries in *. destruct (own s) as [l|]; cbn in *; [|eauto].
  destruct (valid_entries l Hv) as (csrs & Hc). exists csrs. split; [|done]. by apply traverse_ok.
Qed.

(** ** Removing and cleaning up *)

Lemma remove_spec r s l csr :
  relation s = true → not_mine r = false → own s = Some l → Forall valid_entry l → NoDup (text <$> l) →
  remove_requirer_csr_from_relation_data r csr s =
  Ok (with_own (filter (λ e, text e ≠ str_strip (CertificateSigningRequest.raw csr)) l) s).
Proof.
  intros Hr Hm Hown Hv Hnd. unfold remove_requirer_csr_from_relation_data. rewrite Hr. cbn [negb].
  destruct (get_csrs_read r s Hr Hm) as (csrs & -> & Hf); unfold entries in *; rewrite Hown in *; [done|].
  cbn [mbind result_bind]. change (default [] (Some l)) with l in Hf.
  destruct csrs as [|c csrs]; [apply Forall2_nil_inv_r in Hf as ->; by rewrite with_own_id|].
  f_equal. f_equal. by apply (remove_loop_spec text).
Qed.

(** Whether cleaning up keeps an entry. *)
Definition keep r (key : option string) (e : csr_entry) : bool :=
  match load_entry e with Ok c => keeps r key c | Err _ => false end.

Lemma keep_load r key e c : load_entry e = Ok c → keep r key e = keeps r key c.
Proof. unfold keep. by intros ->. Qed.

Lemma cleanup_spec r csrs l1 l2 s :
  relation s = true → not_mine r = false → own s = Some (l1 ++ l2)%list →
  Forall valid_entry (l1 ++ l2)%list → NoDup (text <$> (l1 ++ l2)%list) →
  Forall2 (λ e c, load_entry e = Ok c) l2 csrs →
  cleanup r csrs s = Ok (with_own (l1 ++ filter (λ e, keep r (private_key r s) e = true) l2)%list s).
Proof.
  intros Hr Hm Hown Hv Hnd Hf. revert l1 s Hr Hown Hv Hnd.
  induction Hf as [|e c l2 csrs He Hf IH]; intros l1 s Hr Hown Hv Hnd; cbn [cleanup].
  - rewrite app_nil_r in Hown. by rewrite app_nil_r, with_own_id.
  - rewrite filter_cons, (keep_load _ _ _ _ He).
    destruct (keeps r (private_key r s) c) eqn:Hk.
    + rewrite decide_True by done. cbn [mbind result_bind].
      rewrite (IH (l1 ++ [e])%list s); rewrite <- ?app_assoc; done.
    + rewrite decide_False by done.
      rewrite (remove_spec r s (l1 ++ e :: l2)%list) by done. cbn [mbind result_bind].
      rewrite (load_entry_raw _ _ He). rewrite text_strip.
      assert (Hfilter : filter (λ x, text x ≠ text e) (l1 ++ e :: l2)%list = (l1 ++ l2)%list).
      { rewrite fmap_app in Hnd. cbn in Hnd. apply NoDup_app in Hnd as (_ & Hd & [Hrest _]%NoDup_cons).
        rewrite filter_app, filter_cons_False by naive_solver.
        rewrite !filter_every; [done|..]; intros x Hx Ht.
        - apply Hrest. rewrite <- Ht. by apply list_elem_of_fmap_2.
        - apply (Hd (text e)); [rewrite <- Ht; by apply list_elem_of_fmap_2|by left]. }
      rewrite Hfilter. rewrite (IH l1 (with_own (l1 ++ l2)%list s)); [done|done|done| |].
      * apply Forall_app in Hv as [Hv1 Hv2]. apply Forall_app. split; [done|]. by inversion Hv2.
      * eapply sublist_NoDup; [exact Hnd|].
        apply fmap_sublist, sublist_app; [done|]. by apply sublist_cons.
Qed.

(** Cleaning up leaves what is kept. *)
Lemma cleanup_requests_spec r s :
  sane r s →
  ∃ s', cleanup_certificate_requests r s = Ok s' ∧
    entries s' = filter (λ e, keep r (private_key r s) e = true) (entries s) ∧
    s' = (match own s with Some _ => with_own (entries s') s | None => s end).
Proof.
  intros [Hr Hm Hv Hd _]. unfold cleanup_certificate_requests.
  destruct (get_csrs_read r s Hr Hm Hv) as (csrs & -> & Hf). cbn [mbind result_bind].
  unfold entries in *. destruct (own s) as [l|] eqn:Ho; cbn [default] in *.
  - rewrite (cleanup_spec r csrs [] l s) by done. eexists. split; [done|]. done.
  - apply Forall2_nil_inv_l in Hf as ->. exists s. by rewrite Ho.
Qed.

(** ** Sending requests *)

(** Everything in the relation is needed and for the key. *)
Record ready r (key : string) s : Prop := mkReady {
  rd_sane : sane r s;
  rd_key : private_key r s = Some key;
  rd_keep : Forall (λ e, keep r (Some key) e = true) (entries s) }.

(** An entry asks for attributes. *)
Definition asks (a : CertificateRequestAttributes) (e : csr_entry) : Prop :=
  ∃ c, load_entry e = Ok c ∧ from_csr (r_csr c) (r_is_ca c) = a.

(** The attributes of the charm are such that a request can hold them, and a
    request of theirs has an identifier of its own. *)
Definition attributes_ok (a : CertificateRequestAttributes) : Prop :=
  canonical a ∧ add_unique_id_to_subject_name a = true.

Lemma keeps_matches r key c :
  keeps r (Some key) c = true → CertificateSigningRequest.matches_private_key (r_csr c) key = true.
Proof. unfold keeps. by destruct (csr_matches_certificate_request _ _ _). Qed.

Lemma certificate_requested_spec r key a s :
  ready r key s →
  ∃ b, certificate_requested r a s = Ok b ∧ (b = true ↔ Exists (asks a) (entries s)).
Proof.
  intros [[Hr Hm Hv _ _] Hk Hkeep]. unfold certificate_requested, certificate_requested_for_attributes.
  rewrite Hk. destruct (get_csrs_read r s Hr Hm Hv) as (csrs & -> & Hf). cbn [mbind result_bind].
  eexists. split; [done|]. rewrite Exists_exists.
  destruct (list_find _ csrs) as [[i c]|] eqn:E; cbn.
  - apply list_find_Some in E as (Hi & Ha & _).
    destruct (Forall2_lookup_r _ _ _ _ _ Hf Hi) as (e & He & Hload).
    pose proof (Forall_lookup_1 _ _ _ _ Hkeep He) as Hke. cbn in Hke. rewrite (keep_load _ _ _ _ Hload) in Hke.
    split; [|intros _; by eapply keeps_matches].
    intros _. exists e. split; [by eapply list_elem_of_lookup_2|]. exists c. done.
  - apply list_find_None in E. split; [done|]. intros (e & He & c & Hload & Ha).
    apply list_elem_of_lookup in He as [i Hi]. destruct (Forall2_lookup_l _ _ _ _ _ Hf Hi) as (c' & Hc & Hl').
    assert (c' = c) as -> by congruence.
    destruct (Forall_lookup_1 _ _ _ _ E Hc). done.
Qed.

Lemma subject_identifier a n k :
  canonical a → (X500_UNIQUE_IDENTIFIER, uuid4 k) ∈ request_subject a n → k = n.
Proof.
  intros Hc Hin. destruct (request_attributes_read a n Hc) as (_ & _ & _ & _ & _ & _ & _ & Hid).
  assert (Hv : uuid4 k ∈ get_attributes_for_oid X500_UNIQUE_IDENTIFIER (request_subject a n)).
  { unfold get_attributes_for_oid. apply list_elem_of_fmap. exists (X500_UNIQUE_IDENTIFIER, uuid4 k).
    split; [done|]. by apply list_elem_of_filter. }
  rewrite Hid in Hv. destruct (add_unique_id_to_subject_name a); [|by apply elem_of_nil in Hv].
  apply list_elem_of_singleton in Hv. by apply uuid4_fresh.
Qed.
Lemma subject_has_identifier a n :
  add_unique_id_to_subject_name a = true → (X500_UNIQUE_IDENTIFIER, uuid4 n) ∈ request_subject a n.
Proof. intros Hu. unfold request_subject. rewrite Hu. set_solver. Qed.

(** The entry of a generated request. *)
Lemma new_entry r key n e a k :
  attributes_ok a → load_pem_private_key key = Some (RSAPublicKey n e) → a ∈ certificate_requests r →
  ∃ c, generate_csr key a k = Ok c ∧
    let x := mkEntry (str_strip (CertificateSigningRequest.raw c)) (Some (is_ca a)) in
    load_entry x = Ok (mkRequirerRequest c (is_ca a)) ∧ asks a x ∧ keep r (Some key) x = true ∧
    load_pem_x509_csr (certificate_signing_request x) = load_pem_x509_csr (text x) ∧
    (∃ o, load_pem_x509_csr (text x) = Some o ∧ csr_subject o = request_subject a k ∧
          csr_public_key o = RSAPublicKey n e).
Proof.
  intros [Hc _] Hk Ha. destruct (generate_csr_object a key _ k Hc Hk) as (c & l & Hg & _ & Hraw & Hload & Hfrom).
  destruct (request_reads_back a key n e k Hc Hk) as (c' & Hg' & Hattrs & Hmatch).
  assert (c' = c) as -> by congruence.
  assert (Hs : str_strip (CertificateSigningRequest.raw c) = CertificateSigningRequest.raw c)
    by by rewrite Hraw, str_strip_idemp.
  exists c. split; [done|]. cbn zeta. rewrite Hs.
  assert (Hl : load_entry (mkEntry (CertificateSigningRequest.raw c) (Some (is_ca a))) =
               Ok (mkRequirerRequest c (is_ca a))).
  { unfold load_entry. cbn [certificate_signing_request]. by rewrite Hfrom. }
  split; [done|]. split; [by eexists|]. split.
  - rewrite (keep_load _ _ _ _ Hl). unfold keeps, csr_matches_certificate_request. cbn [r_csr r_is_ca].
    rewrite (proj2 (existsb_exists _ _)); [done|]. exists a. split; [by apply list_elem_of_In|].
    by rewrite Hattrs, bool_decide_true.
  - unfold text. cbn [certificate_signing_request]. rewrite Hs. split; [done|]. by eexists.
Qed.

(** A new entry is none of those there are, and keeps the state as it should be. *)
Lemma append_ready r key a s x o :
  ready r key s → attributes_ok a → valid_entry x → keep r (Some key) x = true →
  load_pem_x509_csr (certificate_signing_request x) = load_pem_x509_csr (text x) →
  load_pem_x509_csr (text x) = Some o → csr_subject o = request_subject a (random s) →
  ready r key (with_own (entries s ++ [x])%list (next_random s)).
Proof.
  intros [[Hr Hm Hv Hd Hf] Hk Hkeep] [Hc Hu] Hx Hkx Hload Ho Hs.
  split; [split; [done|done| | |]|by destruct s|].
  - apply Forall_app. split; [done|by constructor].
  - cbn. rewrite fmap_app. apply NoDup_app. split; [done|]. split; [|apply NoDup_singleton].
    intros t Ht ->%list_elem_of_singleton. apply list_elem_of_fmap in Ht as (y & Hy & Hin).
    apply (proj1 (Forall_forall _ _) Hf y Hin o (random s)); [|done|].
    + rewrite <- csr_text_strip. fold (text y). by rewrite <- Hy.
    + rewrite Hs. by apply subject_has_identifier.
  - cbn. apply Forall_app. split.
    + eapply Forall_impl; [exact Hf|]. intros y Hy o' k Hl Hle. apply (Hy o' k Hl). lia.
    + constructor; [|done]. intros o' k Hl Hle Hin. rewrite Hload, Ho in Hl. injection Hl as <-.
      rewrite Hs in Hin. apply subject_identifier in Hin; [lia|done].
  - cbn. apply Forall_app. split; [done|by constructor].
Qed.

(** An entry made with a key and an identifier drawn from some number on. *)
Definition drawn_from (key : string) (m : nat) (x : csr_entry) : Prop :=
  ∃ o k, load_pem_x509_csr (text x) = Some o ∧ m ≤ k ∧ (X500_UNIQUE_IDENTIFIER, uuid4 k) ∈ csr_subject o ∧
         load_pem_private_key key = Some (csr_public_key o).

Lemma drawn_is_new key m x y : drawn_from key m x → fresh_entry m y → text x ≠ text y.
Proof.
  intros (o & k & Ho & Hle & Hin & _) Hy Ht. apply (Hy o k); [|done|done].
  rewrite <- csr_text_strip. fold (text y). by rewrite <- Ht.
Qed.
Lemma drawn_later key n m l : n ≤ m → Forall (drawn_from key m) l → Forall (drawn_from key n) l.
Proof.
  intros Hle Hl. eapply Forall_impl; [exact Hl|]. intros x (o & k & Ho & Hk & Hin). exists o, k. split_and!; [done|lia|apply Hin|apply Hin].
Qed.

(** What sending leaves as it is. *)
Definition same_rest s s' : Prop :=
  relation s' = relation s ∧ provider s' = provider s ∧ key_secret s' = key_secret s ∧
  certificate_secrets s' = certificate_secrets s ∧ available s' = available s.
#[local] Instance same_rest_preorder : PreOrder same_rest.
Proof. split; [by intros s|]. intros s1 s2 s3. unfold same_rest. naive_solver congruence. Qed.

Lemma send_request_spec r key n e a s :
  ready r key s → load_pem_private_key key = Some (RSAPublicKey n e) → attributes_ok a →
  a ∈ certificate_requests r →
  ∃ s' new, send_request r key a s = Ok s' ∧ ready r key s' ∧ same_rest s s' ∧
    entries s' = (entries s ++ new)%list ∧ Exists (asks a) (entries s') ∧
    (Exists (asks a) (entries s) → s' = s) ∧ Forall (drawn_from key (random s)) new ∧ random s ≤ random s'.
Proof.
  intros Hready Hk Ha Hin. unfold send_request.
  destruct (certificate_requested_spec r key a s Hready) as ([] & -> & Hb); cbn [mbind result_bind].
  - exists s, []. rewrite app_nil_r. split_and!; try done. by apply Hb.
  - destruct (new_entry r key n e a (random s) Ha Hk Hin) as (c & -> & Hl & Hasks & Hkeep & Hload & o & Ho & Hs & Hpub).
    cbn [mbind result_bind]. set (x := mkEntry _ _) in *.
    assert (Hreq : request_certificate r c (is_ca a) (next_random s) =
                   with_own (entries s ++ [x])%list (next_random s)).
    { unfold request_certificate. rewrite (sn_mine _ _ (rd_sane _ _ _ Hready)).
      change (relation (next_random s)) with (relation s). by rewrite (sn_relation _ _ (rd_sane _ _ _ Hready)). }
    rewrite Hreq. eexists _, [x]. split; [done|]. split; [by eapply append_ready; [|done|eexists|..]|].
    split; [done|]. split; [done|]. split; [apply Exists_app; right; by left|].
    split; [intros Hex; by apply Hb in Hex|]. split; [|cbn; lia].
    constructor; [|done]. exists o, (random s). split; [done|]. split; [done|].
    rewrite Hs, Hpub. split; [apply subject_has_identifier, Ha|done].
Qed.

(** Sending asks for everything that is not asked for, and for nothing else. *)
Lemma send_requests_spec r key n e attributes s :
  ready r key s → load_pem_private_key key = Some (RSAPublicKey n e) →
  Forall attributes_ok attributes → (∀ a, a ∈ attributes → a ∈ certificate_requests r) →
  ∃ s' new, send_requests r key attributes s = Ok s' ∧ ready r key s' ∧ same_rest s s' ∧
    entries s' = (entries s ++ new)%list ∧ Forall (λ a, Exists (asks a) (entries s')) attributes ∧
    (Forall (λ a, Exists (asks a) (entries s)) attributes → s' = s) ∧ Forall (drawn_from key (random s)) new.
Proof.
  intros Hready Hk Hok Hin. revert s Hready.
  induction attributes as [|a attributes IH]; intros s Hready; cbn [send_requests].
  - exists s, []. rewrite app_nil_r. done.
  - inversion Hok as [|?? Ha Hok']; subst.
    destruct (send_request_spec r key n e a s Hready Hk Ha) as (s1 & new1 & -> & H1 & Hsame1 & He1 & Ha1 & Hid1 & Hdr1 & Hle1);
      [apply Hin; left|].
    cbn [mbind result_bind].
    destruct (IH Hok') with (s := s1) as (s2 & new2 & -> & H2 & Hsame2 & He2 & Ha2 & Hid2 & Hdr2);
      [intros b Hb; apply Hin; by right|done|].
    exists s2, (new1 ++ new2)%list. split; [done|]. split; [done|]. split; [by etrans|].
    split; [by rewrite He2, He1, app_assoc|]. split.
    + constructor; [|done]. rewrite He2. apply Exists_app. by left.
    + split; [|apply Forall_app; split; [done|by eapply drawn_later]].
      intros Hall. inversion Hall as [|?? Hx Hxs]; subst. assert (s1 = s) as -> by auto. auto.
Qed.

(** ** Certificates of the provider *)

(** Nothing is left to do for a certificate, with what its secret holds. *)
Definition settled r (csrs : list RequirerCertificateRequest) (p : ProviderCertificate) (o : option content) : bool :=
  if negb (existsb (λ c, CertificateSigningRequest.eqb (r_csr c) (p_csr p)) csrs) then true
  else if default false (p_revoked p) then negb (bool_decide (is_Some o))
  else if negb (csr_matches_certificate_request r (p_csr p) (Certificate.is_ca (p_certificate p))) then true
  else match o with Some c => (c_certificate c =? Certificate.raw (p_certificate p))%string | None => false end.

Definition label_of r (p : ProviderCertificate) : string := get_csr_secret_label r (p_csr p).

Lemma with_certificates_id s : with_certificates (certificate_secrets s) s = s.
Proof. by destruct s. Qed.

Lemma settled_nothing r csrs p s :
  settled r csrs p (certificate_secrets s !! label_of r p) = true → find_available r csrs s p = s.
Proof.
  unfold settled, find_available, label_of. destruct (existsb _ csrs); [cbn [negb]|done].
  destruct (default false (p_revoked p)).
  - intros Hn%negb_true_iff%bool_decide_eq_false. rewrite delete_id; [apply with_certificates_id|].
    destruct (certificate_secrets s !! _); [|done]. destruct Hn. eauto.
  - destruct (csr_matches_certificate_request _ _ _); [cbn [negb]|done].
    destruct (certificate_secrets s !! _); [|done]. by intros ->.
Qed.

Lemma find_available_settles r csrs p s :
  settled r csrs p (certificate_secrets (find_available r csrs s p) !! label_of r p) = true.
Proof.
  unfold settled, find_available, label_of. destruct (existsb _ csrs); [cbn [negb]|done].
  destruct (default false (p_revoked p)).
  - cbn. by rewrite lookup_delete_eq.
  - destruct (csr_matches_certificate_request _ _ _); [cbn [negb]|done].
    destruct (certificate_secrets s !! _) as [c|] eqn:E;
      [destruct (c_certificate c =? _)%string eqn:Hc; [by rewrite E|]|];
      cbn; rewrite lookup_insert_eq; cbn; apply String.eqb_refl.
Qed.

Lemma find_available_other r csrs p s l :
  l ≠ label_of r p → certificate_secrets (find_available r csrs s p) !! l = certificate_secrets s !! l.
Proof.
  intros Hl. unfold find_available. fold (label_of r p).
  destruct (negb _); [done|]. destruct (default false _); [cbn; by rewrite lookup_delete_ne|].
  destruct (negb _); [done|].
  destruct (certificate_secrets s !! label_of r p) as [c|];
    [destruct (c_certificate c =? _)%string; [done|]|]; cbn; by rewrite lookup_insert_ne.
Qed.

(** Looking for certificates changes their secrets only. *)
Definition same_requests s s' : Prop :=
  relation s' = relation s ∧ own s' = own s ∧ provider s' = provider s ∧ key_secret s' = key_secret s ∧
  random s' = random s.
#[local] Instance same_requests_preorder : PreOrder same_requests.
Proof. split; [by intros s|]. intros s1 s2 s3. unfold same_requests. naive_solver congruence. Qed.

Lemma find_available_same r csrs p s : same_requests s (find_available r csrs s p).
Proof. unfold find_available. by repeat case_match. Qed.
Lemma find_all_same r csrs ps s : same_requests s (foldl (find_available r csrs) s ps).
Proof.
  revert s. induction ps as [|p ps IH]; intros s; cbn; [done|].
  etrans; [apply find_available_same|apply IH].
Qed.

Lemma find_all_other r csrs ps s l :
  l ∉ label_of r <$> ps → certificate_secrets (foldl (find_available r csrs) s ps) !! l = certificate_secrets s !! l.
Proof.
  revert s. induction ps as [|p ps IH]; intros s Hl; cbn; [done|].
  cbn in Hl. rewrite IH by set_solver. apply find_available_other. set_solver.
Qed.

(** Certificates of distinct requests are settled by one pass. *)
Lemma find_all_settles r csrs ps s :
  NoDup (label_of r <$> ps) →
  Forall (λ p, settled r csrs p (certificate_secrets (foldl (find_available r csrs) s ps) !! label_of r p) = true) ps.
Proof.
  revert s. induction ps as [|p ps IH]; intros s Hnd; [done|]. cbn in *.
  apply NoDup_cons in Hnd as [Hp Hnd]. constructor; [|by apply IH].
  rewrite find_all_other by done. apply find_available_settles.
Qed.
Lemma find_all_settled r csrs ps s :
  Forall (λ p, settled r csrs p (certificate_secrets s !! label_of r p) = true) ps →
  foldl (find_available r csrs) s ps = s.
Proof. induction 1 as [|p ps Hp _ IH]; cbn; [done|]. by rewrite settled_nothing. Qed.

(** ** The key *)

Definition key_ok (key : string) : Prop := ∃ n e, load_pem_private_key key = Some (RSAPublicKey n e).

(** The key the charm gives, or the one in the secret, is an RSA key. *)
Definition keys_ok r s : Prop :=
  (∀ k, given_key r = Some k → key_ok k) ∧ (∀ k, key_secret s = Some k → key_ok (str_strip k)).

Lemma fresh_entries_later n m l : n ≤ m → Forall (fresh_entry n) l → Forall (fresh_entry m) l.
Proof. intros Hle Hl. eapply Forall_impl; [exact Hl|]. intros e He o k Ho Hk. apply (He o k Ho). lia. Qed.

Lemma new_private_key_ok s : key_ok (str_strip (generate_private_key (random s))).
Proof.
  unfold generate_private_key, PrivateKey.from_string. rewrite str_strip_idemp. apply generated_key_is_rsa.
Qed.

Lemma ensure_private_key_spec r s :
  sane r s → keys_ok r s →
  ∃ key, private_key r (ensure_private_key r s) = Some key ∧ key_ok key ∧
    sane r (ensure_private_key r s) ∧ own (ensure_private_key r s) = own s ∧
    provider (ensure_private_key r s) = provider s ∧
    (∀ s', key_secret s' = key_secret (ensure_private_key r s) → ensure_private_key r s' = s').
Proof.
  intros [Hr Hm Hv Hd Hf] [Hgiven Hsecret]. unfold private_key, ensure_private_key.
  destruct (given_key r) as [k|].
  - exists k. split_and!; try done; [by apply Hgiven|]. intros s' Hs. destruct s'; cbn in *. by subst.
  - destruct (key_secret s) as [k|] eqn:Hk.
    + rewrite Hk. exists (str_strip k). split_and!; try done; [by apply Hsecret|]. intros s' ->. done.
    + exists (str_strip (generate_private_key (random s))).
      split_and!; try done; [apply new_private_key_ok| |by intros s' ->].
      split; try done. eapply fresh_entries_later; [|done]. cbn. lia.
Qed.

(** What is left after cleaning up with a key is ready. *)
Lemma cleanup_ready r key s :
  sane r s → private_key r s = Some key →
  ∃ s', cleanup_certificate_requests r s = Ok s' ∧ ready r key s' ∧ same_rest s s' ∧
    entries s' = filter (λ e, keep r (Some key) e = true) (entries s) ∧
    (Forall (λ e, keep r (Some key) e = true) (entries s) → s' = s).
Proof.
  intros Hsane Hk. destruct (cleanup_requests_spec r s Hsane) as (s' & Hc & He & Hs').
  destruct Hsane as [Hr Hm Hv Hd Hf]. rewrite Hk in He. exists s'. split; [done|].
  assert (Hrest : same_rest s s' ∧ random s' = random s ∧ private_key r s' = Some key).
  { rewrite Hs'. by destruct (own s). }
  destruct Hrest as (Hrest & Hrandom & Hkey).
  assert (Hsub : entries s' `sublist_of` entries s) by (rewrite He; apply sublist_filter).
  split; [|split; [done|split; [done|]]].
  - split; [split|done|].
    + destruct Hrest as (-> & _). done.
    + done.
    + rewrite He. by apply Forall_kept.
    + eapply sublist_NoDup; [exact Hd|]. by apply fmap_sublist.
    + rewrite Hrandom, He. by apply Forall_kept.
    + rewrite He. apply Forall_forall. by intros e [He' _]%list_elem_of_filter.
  - intros Hall. rewrite filter_every in He by exact (proj1 (Forall_forall _ _) Hall).
    rewrite Hs'. destruct (own s) as [l|] eqn:Ho; [|done]. rewrite He. apply with_own_id.
    unfold entries. by rewrite Ho.
Qed.

Lemma ready_same_requests r key s s' : ready r key s → same_requests s s' → ready r key s'.
Proof.
  intros [[Hr Hm Hv Hd Hf] Hk Hkeep] (E1 & E2 & E3 & E4 & E5).
  assert (He : entries s' = entries s) by (unfold entries; by rewrite E2).
  split; [split| |]; rewrite ?He, ?E1, ?E5; try done. unfold private_key. by rewrite E4.
Qed.

(** ** Configuring *)

(** What the charm gives the library: attributes a request can hold, keys that
    can sign, and certificates of the provider that can be read. *)
Record well_given r s : Prop := mkWellGiven {
  wg_keys : keys_ok r s;
  wg_attributes : Forall attributes_ok (certificate_requests r);
  wg_provider : ∃ ps, get_provider_certificates s = Ok ps }.

Lemma requested_of_asks r key s :
  ready r key s → Forall (λ a, Exists (asks a) (entries s)) (certificate_requests r) →
  ∀ a, a ∈ certificate_requests r → certificate_requested r a s = Ok true.
Proof.
  intros Hready Hall a Ha. destruct (certificate_requested_spec r key a s Hready) as (b & -> & Hb).
  f_equal. apply Hb. exact (proj1 (Forall_forall _ _) Hall a Ha).
Qed.

Lemma get_provider_same s s' :
  relation s' = relation s → provider s' = provider s → get_provider_certificates s' = get_provider_certificates s.
Proof. unfold get_provider_certificates. by intros -> ->. Qed.

(** The steps of [configure], with what each leaves. *)
Lemma configure_steps r s :
  sane r s → well_given r s →
  ∃ key s2 new csrs ps, key_ok key ∧ ready r key s2 ∧
    configure r s = Ok (foldl (find_available r csrs) s2 ps) ∧
    get_csrs_from_requirer_relation_data r s2 = Ok csrs ∧ get_provider_certificates s = Ok ps ∧
    get_provider_certificates s2 = Ok ps ∧
    entries s2 = (filter (λ e, keep r (Some key) e = true) (entries s) ++ new)%list ∧
    Forall (λ a, Exists (asks a) (entries s2)) (certificate_requests r) ∧
    (∀ s', key_secret s' = key_secret s2 → ensure_private_key r s' = s') ∧
    Forall (λ e, ∃ m, drawn_from key m e) new.
Proof.
  intros Hsane [Hkeys Hattrs (ps & Hps)].
  destruct (ensure_private_key_spec r s Hsane Hkeys) as (key & Hkey & Hok & Hsane0 & Hown & Hprov & Hens).
  set (s0 := ensure_private_key r s) in *.
  destruct (cleanup_ready r key s0 Hsane0 Hkey) as (s1 & Hclean & Hready1 & Hrest1 & He1 & _).
  pose proof Hok as (n & e & Hload).
  destruct (send_requests_spec r key n e (certificate_requests r) s1 Hready1 Hload Hattrs) as
    (s2 & new & Hsend & Hready2 & Hrest2 & He2 & Hasks & _ & Hdrawn); [done|].
  destruct Hrest1 as (R1 & P1 & K1 & _), Hrest2 as (R2 & P2 & K2 & _).
  pose proof (rd_sane _ _ _ Hready2) as [Hr2 Hm2 Hv2 _ _].
  destruct (get_csrs_read r s2 Hr2 Hm2 Hv2) as (csrs & Hcsrs & _).
  assert (Hps2 : get_provider_certificates s2 = Ok ps).
  { rewrite <- Hps. apply get_provider_same; [|by rewrite P2, P1].
    by rewrite Hr2, (sn_relation _ _ Hsane). }
  exists key, s2, new, csrs, ps. split; [done|]. split; [done|]. split; [|split_and!; try done].
  - unfold configure. rewrite (sn_relation _ _ Hsane). cbn [negb]. fold s0. rewrite Hclean. cbn [mbind result_bind].
    unfold send_certificate_requests. rewrite (rd_key _ _ _ Hready1), Hsend. cbn [mbind result_bind].
    unfold find_available_certificates. by rewrite Hcsrs, Hps2.
  - rewrite He2, He1. unfold entries. by rewrite Hown.
  - intros s' Hs'. apply Hens. by rewrite Hs', K2, K1.
  - eapply Forall_impl; [exact Hdrawn|]. eauto.
Qed.

(** A state that lacks nothing: only the certificates are looked at. *)
Lemma configure_ready r key s csrs ps :
  ready r key s → key_ok key → Forall attributes_ok (certificate_requests r) →
  Forall (λ a, Exists (asks a) (entries s)) (certificate_requests r) → ensure_private_key r s = s →
  get_csrs_from_requirer_relation_data r s = Ok csrs → get_provider_certificates s = Ok ps →
  configure r s = Ok (foldl (find_available r csrs) s ps).
Proof.
  intros Hready (n & e & Hload) Hattrs Hasks Hens Hcsrs Hps. pose proof Hready as [Hsane Hk Hkeep].
  unfold configure. rewrite (sn_relation _ _ Hsane). cbn [negb]. rewrite Hens.
  destruct (cleanup_ready r key s Hsane Hk) as (s1 & -> & _ & _ & _ & Hid). rewrite (Hid Hkeep). cbn [mbind result_bind].
  unfold send_certificate_requests. rewrite Hk.
  destruct (send_requests_spec r key n e (certificate_requests r) s Hready Hload Hattrs) as
    (s3 & _ & -> & _ & _ & _ & _ & Hid3 & _); [done|]. rewrite Hid3 by done. cbn [mbind result_bind].
  unfold find_available_certificates. by rewrite Hcsrs, Hps.
Qed.

(** C10: after [configure] the relation holds what is needed and nothing else: the
    library has a key, a certificate is asked for, for every attributes the charm
    wants, every request in the relation is for such attributes and for that key,
    and those that already were are still there, in front of the new ones. The
    invariant of the library (the requests can be read, are distinct, and used up
    their identifiers) holds again. *)
Theorem configure_requests_spec r s :
  sane r s → well_given r s →
  ∃ s' key new, configure r s = Ok s' ∧ sane r s' ∧ private_key r s' = Some key ∧
    (∀ a, a ∈ certificate_requests r → certificate_requested r a s' = Ok true) ∧
    Forall (λ e, keep r (Some key) e = true) (entries s') ∧
    entries s' = (filter (λ e, keep r (Some key) e = true) (entries s) ++ new)%list.
Proof.
  intros Hsane Hgiven.
  destruct (configure_steps r s Hsane Hgiven) as (key & s2 & new & csrs & ps & _ & Hready & -> & _ & _ & _ & He & Ha & _).
  set (s' := foldl _ _ _). assert (Hsame : same_requests s2 s') by apply find_all_same.
  pose proof (ready_same_requests _ _ _ _ Hready Hsame) as [Hs' Hk' Hkeep'].
  assert (Hent : entries s' = entries s2) by (unfold entries; by destruct Hsame as (_ & -> & _)).
  exists s', key, new. split_and!; try done; [|by rewrite Hent].
  eapply requested_of_asks; [by split|]. by rewrite Hent.
Qed.

(** C11: [configure] runs on every change of the relation and on every refresh
    event, and once it has run, running it again on what it left does nothing: no
    request is replaced, no secret is touched, and no certificate is announced a
    second time, whatever the provider has answered, as long as it has one answer
    for each request. *)
Theorem configure_idempotent r s s' ps :
  sane r s → well_given r s → get_provider_certificates s = Ok ps → NoDup (label_of r <$> ps) →
  configure r s = Ok s' → configure r s' = Ok s'.
Proof.
  intros Hsane Hgiven Hps Hnd Hconf.
  destruct (configure_steps r s Hsane Hgiven) as
    (key & s2 & new & csrs & ps' & Hkey & Hready & Hconf' & Hcsrs & Hps' & Hps2 & _ & Ha & Hens & _).
  assert (ps' = ps) as -> by congruence. rewrite Hconf' in Hconf. apply ok_inj in Hconf.
  assert (Hsame : same_requests s2 s') by (rewrite <- Hconf; apply find_all_same).
  pose proof (ready_same_requests _ _ _ _ Hready Hsame) as Hready'. pose proof Hready' as [Hs' Hk' Hkeep'].
  destruct Hsame as (E1 & E2 & E3 & E4 & _).
  assert (Hent : entries s' = entries s2) by (unfold entries; by rewrite E2).
  assert (Hcsrs' : get_csrs_from_requirer_relation_data r s' = Ok csrs).
  { rewrite <- Hcsrs. unfold get_csrs_from_requirer_relation_data. by rewrite E1, E2. }
  rewrite (configure_ready r key s' csrs ps Hready' Hkey (wg_attributes _ _ Hgiven)); [|by rewrite Hent| |done|].
  2: by apply Hens.
  2: by rewrite (get_provider_same s2 s' E1 E3).
  f_equal.
  apply find_all_settled. rewrite <- Hconf. by apply find_all_settles.
Qed.

(** Renewing a certificate the library keeps replaces its request: the old
    one leaves the relation, the others stay, what the charm wants is asked for
    again, with a text that is not the old one, and the secret with the old certificate is gone, so that the answer
    to the new request is announced. *)
Theorem renew_certificate_spec r key n e s c o p :
  ready r key s → load_pem_private_key key = Some (RSAPublicKey n e) →
  Forall attributes_ok (certificate_requests r) → own s = Some o → Exists (λ e, text e = str_strip (CertificateSigningRequest.raw (p_csr p))) o →
  certificate_secrets s !! label_of r p = Some c → c_csr c = CertificateSigningRequest.raw (p_csr p) →
  ∃ s' new, renew_certificate r p s = Ok s' ∧ ready r key s' ∧
    entries s' = (filter (λ e, text e ≠ str_strip (CertificateSigningRequest.raw (p_csr p))) o ++ new)%list ∧
    Forall (λ e, text e ≠ str_strip (CertificateSigningRequest.raw (p_csr p))) new ∧
    (∀ a, a ∈ certificate_requests r → certificate_requested r a s' = Ok true) ∧
    certificate_secrets s' !! label_of r p = None.
Proof.
  intros [[Hr Hm Hv Hd Hf] Hk Hkeep] Hload Hattrs Hown Hold Hc Hcsr.
  unfold entries in Hv, Hd, Hf, Hkeep. rewrite Hown in Hv, Hd, Hf, Hkeep. cbn in Hv, Hd, Hf, Hkeep.
  set (P := λ e, text e ≠ str_strip (CertificateSigningRequest.raw (p_csr p))).
  set (s1 := with_own (filter P o) s).
  assert (Hready1 : ready r key s1).
  { split; [split|done|]; try done; try by apply Forall_kept.
    eapply sublist_NoDup; [exact Hd|]. apply fmap_sublist, sublist_filter. }
  destruct (send_requests_spec r key n e (certificate_requests r) s1 Hready1 Hload Hattrs) as
    (s2 & new & Hsend & Hready2 & Hrest & He & Hasks & _ & Hdrawn); [done|].
  exists (with_certificates (delete (label_of r p) (certificate_secrets s2)) s2), new.
  assert (Hready : ready r key (with_certificates (delete (label_of r p) (certificate_secrets s2)) s2))
    by by eapply ready_same_requests.
  split; [|split; [done|split; [done|split; [|split]]]].
  - unfold renew_certificate. fold (label_of r p). rewrite Hc, Hcsr, String.eqb_refl. cbn [negb].
    unfold renew_certificate_request. rewrite (remove_spec r s o) by done. fold P. fold s1. cbn [mbind result_bind].
    unfold send_certificate_requests. rewrite (rd_key _ _ _ Hready1), Hsend. cbn [mbind result_bind].
    done.
  - apply Exists_exists in Hold as (y & Hy & Hty). eapply Forall_impl; [exact Hdrawn|].
    intros x Hx. subst P. cbn beta. rewrite <- Hty. eapply drawn_is_new; [exact Hx|]. exact (proj1 (Forall_forall _ _) Hf y Hy).
  - by eapply requested_of_asks.
  - cbn. apply lookup_delete_eq.
Qed.
End facts.
