(* ===== verification/CertificatesProvider.v ===== *)
(** * Answering certificate requests (lib/charms/tls_certificates_interface/v4/tls_certificates.py)

    [TLSCertificatesProvidesV4], the other side of the certificates relation: it
    reads the requests of every relation and keeps the certificates it answers
    with, one list for each relation. *)

From S2P Require Import Prelude PyStr PyDict Crypto Certificates.

Local Open Scope string_scope.
Local Open Scope Z_scope.

(** A relation with an application: whether the remote application is there, the
    requests of its units and of the application, and the certificates this side
    published ([None] where the data is not valid). *)
Record tls_relation := mkRelation {
  id : Z; app : bool;
  unit_requests : list (option (list csr_entry)); app_requests : option (list csr_entry);
  certificates : option (list certificate_entry) }.

Definition with_entries (l : list certificate_entry) (t : tls_relation) : tls_relation :=
  mkRelation (id t) (app t) (unit_requests t) (app_requests t) (Some l).

Module TLSCertificatesProvidesV4.
Section provider.
Context `{Cryptography}.

(** The relations of the endpoint; [leader] is this unit's. *)
Implicit Types rs : list tls_relation.

Definition get_tls_relations (relation_id : option Z) rs : list tls_relation :=
  match relation_id with
  | Some i => filter (λ t, id t = i) rs
  | None => rs
  end.

(** ** Requests *)

Definition load_requirer_databag (t : tls_relation) (bag : option (list csr_entry))
    : result (list (Z * RequirerCertificateRequest)) :=
  match bag with
  | None => Ok []
  | Some l =>
      traverse (λ e, c ← CertificateSigningRequest.from_string (certificate_signing_request e);
                     Ok (id t, mkRequirerRequest c (default false (ca e)))) l
  end.

Definition requests_of (t : tls_relation) : result (list (Z * RequirerCertificateRequest)) :=
  units ← traverse (load_requirer_databag t) (unit_requests t);
  of_app ← load_requirer_databag t (app_requests t);
  Ok (concat units ++ of_app)%list.
Definition get_certificate_requests (relation_id : option Z) rs : result (list (Z * RequirerCertificateRequest)) :=
  l ← traverse requests_of (get_tls_relations relation_id rs); Ok (concat l).

(** ** Certificates *)

Definition load_provider_certificates (t : tls_relation) : list certificate_entry := default [] (certificates t).

Definition certificates_of (t : tls_relation) : result (list (Z * ProviderCertificate)) :=
  if negb (app t) then Ok []
  else traverse (λ c, p ← to_provider_certificate c; Ok (id t, p)) (load_provider_certificates t).
Definition get_provider_certificates (relation_id : option Z) rs : result (list (Z * ProviderCertificate)) :=
  l ← traverse certificates_of (get_tls_relations relation_id rs); Ok (concat l).

Definition get_issued_certificates (leader : bool) (relation_id : option Z) rs
    : result (list (Z * ProviderCertificate)) :=
  if negb leader then Ok []
  else l ← get_provider_certificates relation_id rs;
       Ok (filter (λ p, default false (p_revoked p.2) = false) l).

Definition requested (csrs : list CertificateSigningRequest.request) (c : CertificateSigningRequest.request) : bool :=
  existsb (CertificateSigningRequest.eqb c) csrs.

Definition get_unsolicited_certificates (relation_id : option Z) rs : result (list (Z * ProviderCertificate)) :=
  certificates ← get_provider_certificates relation_id rs;
  requests ← get_certificate_requests relation_id rs;
  Ok (filter (λ p, requested (r_csr ∘ snd <$> requests) (p_csr p.2) = false) certificates).

(** The first certificate of the request is compared with it. *)
Fixpoint issued_for (csr : CertificateSigningRequest.request) (l : list (Z * ProviderCertificate)) : result bool :=
  match l with
  | [] => Ok false
  | (_, p) :: l =>
      if CertificateSigningRequest.eqb (p_csr p) csr
      then CertificateSigningRequest.matches_certificate csr (p_certificate p)
      else issued_for csr l
  end.
Definition certificate_issued_for_csr (leader : bool) (csr : CertificateSigningRequest.request)
    (relation_id : option Z) rs : result bool :=
  l ← get_issued_certificates leader relation_id rs; issued_for csr l.

Definition get_outstanding_certificate_requests (leader : bool) (relation_id : option Z) rs
    : result (list (Z * RequirerCertificateRequest)) :=
  requests ← get_certificate_requests relation_id rs;
  l ← traverse (λ r : Z * RequirerCertificateRequest,
                  issued ← certificate_issued_for_csr leader (r_csr r.2) relation_id rs;
                  Ok (if (issued : bool) then [] else [r])) requests;
  Ok (concat l).

(** ** Writing *)

Definition update_relation (i : Z) (f : tls_relation → tls_relation) rs : list tls_relation :=
  (λ t, if decide (id t = i) then f t else t) <$> rs.

(** [_remove_provider_certificate], of a certificate and of a request. *)
Definition remove_matching (p : certificate_entry → bool) (t : tls_relation) : tls_relation :=
  let l := load_provider_certificates t in with_entries (remove_loop p (length l) 0 l) t.
Definition remove_certificate (c : Certificate.certificate) : tls_relation → tls_relation :=
  remove_matching (λ e, (e_certificate e =? Certificate.raw c)%string).
Definition remove_request (c : CertificateSigningRequest.request) : tls_relation → tls_relation :=
  remove_matching (λ e, (e_csr e =? CertificateSigningRequest.raw c)%string).

(** The order of the chain only makes warnings, but its first element is read. *)
Definition add_provider_certificate (p : ProviderCertificate) (t : tls_relation) : result tls_relation :=
  let chain := Certificate.raw <$> p_chain p in
  match chain with
  | [] => Err (IndexError "list index out of range")
  | _ =>
      let new_certificate :=
        mkCertificateEntry (Certificate.raw (p_ca p)) (CertificateSigningRequest.raw (p_csr p))
          (Certificate.raw (p_certificate p)) (Some chain) None in
      let l := load_provider_certificates t in
      if bool_decide (new_certificate ∈ l) then Ok t else Ok (with_entries (l ++ [new_certificate])%list t)
  end.

Definition set_relation_certificate (leader : bool) (i : Z) (p : ProviderCertificate) rs
    : result (list tls_relation) :=
  if negb leader then Ok rs
  else match find (λ t, id t =? i) rs with
       | None => Err (TLSCertificatesError "Relation does not exist")
       | Some t =>
           t ← add_provider_certificate p (remove_request (p_csr p) t);
           Ok (update_relation i (λ _, t) rs)
       end.

Definition revoke (c : certificate_entry) : certificate_entry :=
  mkCertificateEntry (e_ca c) (e_csr c) (e_certificate c) (e_chain c) (Some true).
Definition revoke_all_certificates (leader : bool) rs : list tls_relation :=
  if negb leader then rs
  else (λ t, with_entries (revoke <$> load_provider_certificates t) t) <$> rs.

Fixpoint remove_all (l : list (Z * ProviderCertificate)) rs : list tls_relation :=
  match l with
  | [] => rs
  | (i, p) :: l => remove_all l (update_relation i (remove_certificate (p_certificate p)) rs)
  end.
Definition remove_certificates_for_which_no_csr_exists rs : result (list tls_relation) :=
  certificates ← get_provider_certificates None rs;
  requests ← get_certificate_requests None rs;
  Ok (remove_all (filter (λ p, requested (r_csr ∘ snd <$> requests) (p_csr p.2) = false) certificates) rs).

Definition configure (leader : bool) rs : result (list tls_relation) :=
  if negb leader then Ok rs else remove_certificates_for_which_no_csr_exists rs.
End provider.
End TLSCertificatesProvidesV4.
