(* ===== verification/CertificatesProviderFacts.v ===== *)
(** * A certificate that is asked for is delivered

    Both sides of the certificates relation together: what the requirer asks for,
    a provider that signs every outstanding request, and the requirer that finds
    the certificates and their key. *)

From S2P Require Import Prelude PyStr PyDict Crypto CryptoFacts Certificates CertificatesFacts CertificatesProvider.

Local Open Scope string_scope.
Local Open Scope nat_scope.

Import TLSCertificatesRequiresV4.

Section delivery.
Context `{CryptographyLaws}.

(** ** A charm that provides certificates *)

(** What an authority answers to a request. *)
Definition sign (ca : Certificate.certificate) (key : string) (validity now : Z) (random : nat)
    (c : RequirerCertificateRequest) : result ProviderCertificate :=
  certificate ← generate_certificate (r_csr c) ca key validity (r_is_ca c) now random;
  Ok (mkProviderCertificate certificate (r_csr c) ca [certificate; ca] None).

Fixpoint answer_all (ca : Certificate.certificate) (key : string) (validity now : Z) (random : nat)
    (requests : list (Z * RequirerCertificateRequest)) (rs : list tls_relation) : result (list tls_relation) :=
  match requests with
  | [] => Ok rs
  | (i, c) :: requests =>
      p ← sign ca key validity now random c;
      rs ← TLSCertificatesProvidesV4.set_relation_certificate true i p rs;
      answer_all ca key validity now (S random) requests rs
  end.

(** An authority whose certificate reads back. *)
Record authority_object (ca : Certificate.certificate) (key : string) : Prop := mkAuthorityObject {
  ao_reads : Certificate.from_string (Certificate.raw ca) = Ok ca;
  ao_object : ∃ o id, load_pem_x509_certificate (Certificate.raw ca) = Some o ∧
                      subject_key_identifier (extensions o) = Some id;
  ao_key : is_Some (load_pem_private_key key) }.

(** A request that can be answered: it reads back and its email is a name. *)
Definition answerable (c : RequirerCertificateRequest) : Prop :=
  CertificateSigningRequest.from_string (CertificateSigningRequest.raw (r_csr c)) = Ok (r_csr c) ∧
  ∃ o, load_pem_x509_csr (CertificateSigningRequest.raw (r_csr c)) = Some o ∧ email_ok o.

(** The certificate, kept in the relation, that answers a request. *)
Definition entry_of (p : ProviderCertificate) : certificate_entry :=
  mkCertificateEntry (Certificate.raw (p_ca p)) (CertificateSigningRequest.raw (p_csr p))
    (Certificate.raw (p_certificate p)) (Some (Certificate.raw <$> p_chain p)) None.

Record answers (ca : Certificate.certificate) (c : RequirerCertificateRequest) (p : ProviderCertificate) : Prop :=
  mkAnswers {
    an_request : p_csr p = r_csr c;
    an_reads : to_provider_certificate (entry_of p) = Ok p;
    an_name : Certificate.common_name (p_certificate p) = CertificateSigningRequest.common_name (r_csr c);
    an_is_ca : Certificate.is_ca (p_certificate p) = r_is_ca c;
    an_dns : Some (Certificate.sans_dns (p_certificate p)) = CertificateSigningRequest.sans_dns (r_csr c);
    an_ip : Some (Certificate.sans_ip (p_certificate p)) = CertificateSigningRequest.sans_ip (r_csr c);
    an_key : ∃ o o', load_pem_x509_csr (CertificateSigningRequest.raw (r_csr c)) = Some o ∧
      load_pem_x509_certificate (Certificate.raw (p_certificate p)) = Some o' ∧
      cert_public_key o' = csr_public_key o }.

Lemma sign_answers ca key validity now random c :
  authority_object ca key → answerable c →
  ∃ p, sign ca key validity now random c = Ok p ∧ answers ca c p ∧ p_chain p ≠ [].
Proof.
  intros [Hca (o' & id & Ho' & Hid) (pk & Hpk)] [Hreads (o & Ho & Hemail)]. unfold sign.
  destruct (generate_certificate_object (r_csr c) o ca o' id key pk validity (r_is_ca c) now random
    Hreads Ho Hemail Ho' Hid Hpk) as (cert & -> & Hload & Hfrom & Hcn & Hisca & Hdns & Hip & _).
  cbn [mbind result_bind]. eexists. split; [done|]. split; [|done]. split; try done.
  - unfold to_provider_certificate, entry_of. cbn. rewrite Hfrom. cbn. rewrite Hreads. cbn. by rewrite Hca.
  - by exists o; eexists.
Qed.

(** ** Filling the relation *)

Lemma set_new_certificate t p :
  p_chain p ≠ [] → CertificateSigningRequest.raw (p_csr p) ∉ e_csr <$> default [] (certificates t) →
  TLSCertificatesProvidesV4.set_relation_certificate true (id t) p [t] =
  Ok [with_entries (default [] (certificates t) ++ [entry_of p])%list t].
Proof.
  intros Hchain Hnew. unfold TLSCertificatesProvidesV4.set_relation_certificate. cbn [negb find]. rewrite Z.eqb_refl.
  unfold TLSCertificatesProvidesV4.remove_request, TLSCertificatesProvidesV4.remove_matching. unfold TLSCertificatesProvidesV4.load_provider_certificates.
  set (l := default [] (certificates t)) in *.
  rewrite remove_loop_none.
  2:{ apply Forall_forall. intros e He. apply String.eqb_neq. intros Heq. apply Hnew. rewrite <- Heq.
      by apply list_elem_of_fmap_2. }
  unfold TLSCertificatesProvidesV4.add_provider_certificate. destruct (p_chain p) as [|x chain] eqn:Ec; [done|]. cbn [fmap list_fmap].
  change (TLSCertificatesProvidesV4.load_provider_certificates (with_entries l t)) with l.
  rewrite bool_decide_false.
  2:{ intros Hin. apply Hnew. by apply (list_elem_of_fmap_2 e_csr) in Hin. }
  cbn [mbind result_bind]. unfold TLSCertificatesProvidesV4.update_relation. cbn. rewrite decide_True by done.
  unfold entry_of. by rewrite Ec.
Qed.

(** Every request gets its certificate, in the order of the requests. *)
Lemma answer_all_spec ca key validity now csrs random t :
  authority_object ca key → Forall answerable csrs →
  NoDup ((e_csr <$> default [] (certificates t)) ++ ((λ c, CertificateSigningRequest.raw (r_csr c)) <$> csrs))%list →
  ∃ ps, answer_all ca key validity now random ((id t,.) <$> csrs) [t] =
        Ok [match csrs with [] => t | _ => with_entries (default [] (certificates t) ++ (entry_of <$> ps))%list t end] ∧
        Forall2 (answers ca) csrs ps.
Proof.
  intros Hca. revert random t. induction csrs as [|c csrs IH]; intros random t Hok Hnd; cbn [fmap list_fmap answer_all].
  - by exists [].
  - inversion Hok as [|?? Hc Hcs]; subst.
    destruct (sign_answers ca key validity now random c Hca Hc) as (p & -> & Hp & Hchain). cbn [mbind result_bind].
    cbn in Hnd. rewrite set_new_certificate; [|done|].
    2:{ rewrite (an_request _ _ _ Hp). intros Hin. apply NoDup_app in Hnd as (_ & Hd & _). apply (Hd _ Hin). by left. }
    cbn [mbind result_bind].
    set (t1 := with_entries _ t).
    destruct (IH (S random) t1 Hcs) as (ps & Hall & Hps).
    { cbn. rewrite fmap_app, <- app_assoc. cbn. by rewrite (an_request _ _ _ Hp). }
    change (id t) with (id t1). rewrite Hall. exists (p :: ps). split; [|by constructor].
    destruct csrs as [|c' csrs]; [inversion Hps; subst|]; cbn; [done|]. by rewrite <- app_assoc.
Qed.

(** ** The provider reads the requests *)

(** The relation as the provider sees it, with the requests of the requirer where
    its mode puts them. *)
Definition relation_of r (i : Z) (l : option (list csr_entry)) (published : option (list certificate_entry))
    : tls_relation :=
  match mode r with
  | UNIT => mkRelation i true [l] None published
  | APP => mkRelation i true [] l published
  end.

Lemma requests_read r i l csrs published :
  Forall2 (λ e c, load_entry e = Ok c) (default [] l) csrs →
  TLSCertificatesProvidesV4.get_certificate_requests None [relation_of r i l published] = Ok ((i,.) <$> csrs).
Proof.
  intros Hf. set (t := relation_of r i l published).
  assert (Hbag : TLSCertificatesProvidesV4.load_requirer_databag t l = Ok ((i,.) <$> csrs)).
  { destruct l as [l|]; cbn in Hf |- *; [|by apply Forall2_nil_inv_l in Hf as ->].
    apply traverse_ok, Forall2_fmap_r. eapply Forall2_impl; [exact Hf|]. intros e c. unfold load_entry.
    intros (x & -> & Hc)%result_bind_ok. apply ok_inj in Hc as <-. cbn.
    subst t. unfold relation_of. by destruct (mode r). }
  unfold TLSCertificatesProvidesV4.get_certificate_requests. cbn.
  assert (Hreq : TLSCertificatesProvidesV4.requests_of t = Ok ((i,.) <$> csrs)).
  { unfold TLSCertificatesProvidesV4.requests_of. subst t. unfold relation_of in *. destruct (mode r).
    - cbn [unit_requests app_requests traverse]. rewrite Hbag. cbn. by rewrite !app_nil_r.
    - cbn [unit_requests app_requests traverse]. cbn. by rewrite Hbag. }
  rewrite Hreq. cbn. by rewrite app_nil_r.
Qed.

Lemma certificates_read r i l es ps :
  traverse to_provider_certificate (default [] es) = Ok ps →
  TLSCertificatesProvidesV4.get_provider_certificates None [relation_of r i l es] = Ok ((i,.) <$> ps).
Proof.
  intros Hps. unfold TLSCertificatesProvidesV4.get_provider_certificates. cbn [TLSCertificatesProvidesV4.get_tls_relations traverse].
  assert (Hc : TLSCertificatesProvidesV4.certificates_of (relation_of r i l es) = Ok ((i,.) <$> ps)).
  { unfold TLSCertificatesProvidesV4.certificates_of, relation_of.
    destruct (mode r); cbn; apply traverse_ok, Forall2_fmap_r; apply traverse_ok in Hps;
      (eapply Forall2_impl; [exact Hps|]); by intros e p ->. }
  rewrite Hc. cbn. by rewrite app_nil_r.
Qed.

(** ** Certificates and their requests *)

Lemma answers_read ca csrs ps :
  Forall2 (answers ca) csrs ps → traverse to_provider_certificate (entry_of <$> ps) = Ok ps.
Proof.
  intros Hf. apply traverse_ok. induction Hf as [|c p csrs ps Hp _ IH]; cbn; constructor; [apply Hp|done].
Qed.

Lemma raw_strip e c : load_entry e = Ok c → str_strip (CertificateSigningRequest.raw (r_csr c)) = CertificateSigningRequest.raw (r_csr c).
Proof. intros Hl. rewrite (load_entry_raw _ _ Hl). apply text_strip. Qed.

(** The certificate found for a request is the one that answers it. *)
Lemma answer_found ca l csrs ps j c (Q : ProviderCertificate → Prop) `{∀ p, Decision (Q p)} :
  Forall2 (λ e c, load_entry e = Ok c) l csrs → NoDup (text <$> l) → Forall2 (answers ca) csrs ps →
  csrs !! j = Some c → (∀ p, answers ca c p → Q p) → (∀ p, Q p → CertificateSigningRequest.eqb (p_csr p) (r_csr c) = true) →
  ∃ p, list_find Q ps = Some (j, p) ∧ answers ca c p.
Proof.
  intros Hl Hnd Hps Hc Hq Heq. destruct (Forall2_lookup_l _ _ _ _ _ Hps Hc) as (p & Hp & Ha).
  exists p. split; [|done]. apply list_find_Some. split; [done|]. split; [by apply Hq|].
  intros j' p' Hp' Hlt Hq'. apply Heq in Hq'. unfold CertificateSigningRequest.eqb in Hq'. apply String.eqb_eq in Hq'.
  destruct (Forall2_lookup_r _ _ _ _ _ Hps Hp') as (c' & Hc' & Ha').
  destruct (Forall2_lookup_r _ _ _ _ _ Hl Hc) as (e & He & Hle).
  destruct (Forall2_lookup_r _ _ _ _ _ Hl Hc') as (e' & He' & Hle').
  rewrite (an_request _ _ _ Ha'), (raw_strip _ _ Hle), (raw_strip _ _ Hle') in Hq'.
  rewrite (load_entry_raw _ _ Hle), (load_entry_raw _ _ Hle') in Hq'.
  assert (j' = j); [|lia].
  eapply NoDup_lookup; [exact Hnd| |]; rewrite list_lookup_fmap; [by rewrite He'|]. cbn. by rewrite He, Hq'.
Qed.

(** ** What is outstanding *)

Lemma outstanding_before r i l csrs :
  Forall2 (λ e c, load_entry e = Ok c) (default [] l) csrs →
  TLSCertificatesProvidesV4.get_outstanding_certificate_requests true None [relation_of r i l None] = Ok ((i,.) <$> csrs).
Proof.
  intros Hf. unfold TLSCertificatesProvidesV4.get_outstanding_certificate_requests.
  rewrite (requests_read r i l csrs) by done. cbn [mbind result_bind].
  assert (Hnone : ∀ c, TLSCertificatesProvidesV4.certificate_issued_for_csr true c None [relation_of r i l None] = Ok false).
  { intros c. unfold TLSCertificatesProvidesV4.certificate_issued_for_csr, TLSCertificatesProvidesV4.get_issued_certificates.
    cbn [negb]. by rewrite (certificates_read r i l None []). }
  assert (Hall : ∀ k : list (Z * RequirerCertificateRequest),
    traverse (λ x : Z * RequirerCertificateRequest,
      issued ← TLSCertificatesProvidesV4.certificate_issued_for_csr true (r_csr x.2) None [relation_of r i l None];
      Ok (if (issued : bool) then [] else [x])) k = Ok ((λ x, [x]) <$> k)).
  { intros k. apply traverse_ok, Forall2_fmap_r, Forall_Forall2_diag, Forall_forall. intros x _. by rewrite Hnone. }
  rewrite Hall. cbn. f_equal. induction ((i,.) <$> csrs) as [|x k IH]; cbn; [done|]. by rewrite IH.
Qed.

Lemma answer_not_revoked ca c p : answers ca c p → p_revoked p = None.
Proof.
  intros Ha. pose proof (an_reads _ _ _ Ha) as Hr. unfold to_provider_certificate in Hr.
  repeat (apply result_bind_ok in Hr as (? & _ & Hr)). apply ok_inj in Hr as <-. done.
Qed.

(** Requests with the white space at their ends removed, as they are read. *)
Definition stripped (c : RequirerCertificateRequest) : Prop :=
  str_strip (CertificateSigningRequest.raw (r_csr c)) = CertificateSigningRequest.raw (r_csr c).

Lemma issued_after ca csrs ps i c :
  Forall stripped csrs → Forall2 (answers ca) csrs ps → c ∈ csrs →
  TLSCertificatesProvidesV4.issued_for (r_csr c) ((i,.) <$> ps) = Ok true.
Proof.
  intros Hs Hps Hc. assert (Hsc : stripped c) by exact (proj1 (Forall_forall _ _) Hs c Hc).
  assert (Hin : ∃ c', c' ∈ csrs ∧ CertificateSigningRequest.raw (r_csr c') = CertificateSigningRequest.raw (r_csr c))
    by by exists c. clear Hc.
  revert Hs Hin. induction Hps as [|c' p csrs ps Hp _ IH]; intros Hs (d & Hd & Hraw); [by apply elem_of_nil in Hd|].
  cbn. inversion Hs as [|?? Hsc' Hs']; subst. rewrite (an_request _ _ _ Hp). unfold CertificateSigningRequest.eqb.
  unfold stripped in Hsc, Hsc'. rewrite Hsc, Hsc'.
  destruct (String.eqb_spec (CertificateSigningRequest.raw (r_csr c')) (CertificateSigningRequest.raw (r_csr c))) as [E|E].
  - destruct (an_key _ _ _ Hp) as (o & o' & Ho & Ho' & Hk). unfold CertificateSigningRequest.matches_certificate.
    rewrite <- E, Ho, Ho'. by rewrite bool_decide_true.
  - apply IH; [done|]. exists d. split; [|done]. apply elem_of_cons in Hd as [->|]; [done|done].
Qed.

Lemma outstanding_after r i l ca csrs ps :
  Forall2 (λ e c, load_entry e = Ok c) (default [] l) csrs → Forall2 (answers ca) csrs ps →
  TLSCertificatesProvidesV4.get_outstanding_certificate_requests true None
    [relation_of r i l (Some (entry_of <$> ps))] = Ok [].
Proof.
  intros Hf Hps. unfold TLSCertificatesProvidesV4.get_outstanding_certificate_requests.
  rewrite (requests_read r i l csrs) by done. cbn [mbind result_bind].
  assert (Hs : Forall stripped csrs).
  { apply Forall_forall. intros c [j Hj]%list_elem_of_lookup.
    destruct (Forall2_lookup_r _ _ _ _ _ Hf Hj) as (e & _ & He). by eapply raw_strip. }
  assert (Hissued : TLSCertificatesProvidesV4.get_issued_certificates true None [relation_of r i l (Some (entry_of <$> ps))]
            = Ok ((i,.) <$> ps)).
  { unfold TLSCertificatesProvidesV4.get_issued_certificates. cbn [negb].
    rewrite (certificates_read r i l _ ps) by by eapply answers_read. cbn [mbind result_bind]. f_equal.
    apply filter_every. intros [j p] (p' & [= -> ->] & [k Hk]%list_elem_of_lookup)%list_elem_of_fmap.
    destruct (Forall2_lookup_r _ _ _ _ _ Hps Hk) as (c & _ & Ha). cbn. by rewrite (answer_not_revoked _ _ _ Ha). }
  set (f := λ x : Z * RequirerCertificateRequest, _).
  assert (Hall : traverse f ((i,.) <$> csrs) = Ok ((λ _, []) <$> ((i,.) <$> csrs))).
  { apply traverse_ok, Forall2_fmap_r, Forall_Forall2_diag, Forall_forall.
    intros x (c & -> & Hc)%list_elem_of_fmap. subst f. cbn beta.
    unfold TLSCertificatesProvidesV4.certificate_issued_for_csr. rewrite Hissued. cbn [mbind result_bind snd].
    by rewrite (issued_after ca csrs ps i c). }
  rewrite Hall. cbn. f_equal. clear. induction csrs as [|c csrs IH]; cbn; done.
Qed.

(** ** Delivery *)

(** The requirer sees what the provider published. *)
Definition with_provider (l : option (list certificate_entry)) (s : state) : state :=
  mkState (Certificates.relation s) (own s) l (key_secret s) (certificate_secrets s) (available s) (random s).

Definition email_names_ok (a : CertificateRequestAttributes) : Prop :=
  ∀ email, email_address a = Some email → general_name_ok (RFC822Name email) = true.

Lemma from_string_strip t : CertificateSigningRequest.from_string (str_strip t) = CertificateSigningRequest.from_string t.
Proof. unfold CertificateSigningRequest.from_string. by rewrite csr_text_strip, str_strip_idemp. Qed.

(** What is kept asks for attributes of the charm. *)
Lemma kept_asks r key e c :
  load_entry e = Ok c → keep r key e = true →
  ∃ a, a ∈ certificate_requests r ∧ from_csr (r_csr c) (r_is_ca c) = a.
Proof.
  intros Hl. rewrite (keep_load _ _ _ _ Hl). unfold keeps, csr_matches_certificate_request.
  destruct (existsb _ _) eqn:E; [|done]. intros _. apply existsb_exists in E as (a & Ha & ->%bool_decide_eq_true).
  eexists. split; [by apply list_elem_of_In|done].
Qed.

Lemma kept_answerable r key e c :
  Forall email_names_ok (certificate_requests r) → load_entry e = Ok c → keep r key e = true → answerable c.
Proof.
  intros Hemails Hl Hk. destruct (kept_asks _ _ _ _ Hl Hk) as (a & Ha & Hask).
  pose proof (proj1 (Forall_forall _ _) Hemails a Ha) as Hok.
  assert (Hf : CertificateSigningRequest.from_string (CertificateSigningRequest.raw (r_csr c)) = Ok (r_csr c)).
  { rewrite (load_entry_raw _ _ Hl). unfold text. rewrite from_string_strip. unfold load_entry in Hl.
    apply result_bind_ok in Hl as (x & Hx & Hc). by apply ok_inj in Hc as <-. }
  split; [done|]. pose proof Hf as Hf'. unfold CertificateSigningRequest.from_string in Hf'.
  destruct (load_pem_x509_csr _) as [o|]; [|done]. exists o. split; [done|].
  destruct (first_attribute COMMON_NAME _); [|done]. apply ok_inj in Hf'.
  intros email He. apply Hok. rewrite <- Hask. unfold from_csr. cbn. by rewrite <- Hf'.
Qed.

Lemma entries_requests l csrs :
  Forall2 (λ e c, load_entry e = Ok c) l csrs →
  (λ c, CertificateSigningRequest.raw (r_csr c)) <$> csrs = text <$> l.
Proof. induction 1 as [|e c l csrs He _ IH]; cbn; [done|]. by rewrite IH, (load_entry_raw _ _ He). Qed.

(** A certificate that answers a request of the library goes with its key. *)
Lemma answer_key ca key e c p m :
  load_entry e = Ok c → drawn_from key m e → key_ok key → answers ca c p →
  Certificate.matches_private_key (p_certificate p) key = true.
Proof.
  intros Hl (o & _ & Ho & _ & _ & Hk) (n & x & Hkey) Ha. destruct (an_key _ _ _ Ha) as (o1 & o' & Ho1 & Ho' & Hpub).
  rewrite (load_entry_raw _ _ Hl) in Ho1. assert (o1 = o) as -> by congruence.
  eapply private_key_of_certificate; [exact Ho'|exact Hkey|]. rewrite Hpub. congruence.
Qed.

(** What a certificate has of the attributes it was asked for with. *)
Definition certifies (p : ProviderCertificate) (a : CertificateRequestAttributes) (key : string) : Prop :=
  Certificate.common_name (p_certificate p) = common_name a ∧
  Some (Certificate.sans_dns (p_certificate p)) = sans_dns a ∧
  Some (Certificate.sans_ip (p_certificate p)) = sans_ip a ∧
  Certificate.is_ca (p_certificate p) = is_ca a ∧
  Certificate.matches_private_key (p_certificate p) key = true.

(** The certificate assigned to attributes that an entry asks for. *)
Lemma assigned_found r key s ca l csrs ps a :
  ready r key s → key_ok key → own s = Some l → Forall2 (λ e c, load_entry e = Ok c) l csrs →
  Forall2 (answers ca) csrs ps → Forall (λ e, ∃ m, drawn_from key m e) l →
  get_csrs_from_requirer_relation_data r s = Ok csrs → get_provider_certificates s = Ok ps →
  Exists (asks a) l →
  ∃ p, get_assigned_certificate r a s = Ok (Some p, Some key) ∧ certifies p a key.
Proof.
  intros Hready Hkey Hown Hl Hps Hdrawn Hcsrs Hprov Hasks.
  pose proof Hready as [[_ _ _ Hnd _] Hk _]. unfold entries in Hnd. rewrite Hown in Hnd. cbn in Hnd.
  unfold get_assigned_certificate, certificate_requested_for_attributes. rewrite Hcsrs. cbn [mbind result_bind].
  destruct (list_find _ csrs) as [[j c]|] eqn:E.
  2:{ apply list_find_None in E. apply Exists_exists in Hasks as (e & [j Hj]%list_elem_of_lookup & c & Hc & Ha).
      destruct (Forall2_lookup_l _ _ _ _ _ Hl Hj) as (c' & Hc' & Hl'). assert (c' = c) as -> by congruence.
      by destruct (Forall_lookup_1 _ _ _ _ E Hc'). }
  apply list_find_Some in E as (Hj & Ha & _). cbn [fmap option_fmap option_map snd].
  destruct (Forall2_lookup_r _ _ _ _ _ Hl Hj) as (e & He & Hle).
  destruct (Forall_lookup_1 _ _ _ _ Hdrawn He) as (m & Hm).
  unfold find_certificate_in_relation_data. rewrite Hk, Hprov. cbn [mbind result_bind].
  edestruct (answer_found ca l csrs ps j c) as (p & -> & Hp); [done|done|done|done| | |].
  - intros p Hp. cbn beta. split; [|split; [apply Hp|by eapply answer_key]].
    rewrite (an_request _ _ _ Hp). apply String.eqb_refl.
  - by intros p [Hq _].
  - cbn. exists p. split; [done|]. rewrite Ha. unfold certifies, from_csr. cbn.
    split_and!; [apply Hp|apply Hp|apply Hp|apply Hp|by eapply answer_key].
Qed.

(** What a unit that has just joined asks for: its requests, all made with its key. *)
Record first_requests r key s1 (l : list csr_entry) (csrs : list RequirerCertificateRequest) : Prop := mkFirst {
  fr_ready : ready r key s1; fr_key : key_ok key; fr_own : own s1 = Some l; fr_some : csrs ≠ [];
  fr_load : Forall2 (λ e c, load_entry e = Ok c) l csrs;
  fr_csrs : get_csrs_from_requirer_relation_data r s1 = Ok csrs;
  fr_asks : Forall (λ a, Exists (asks a) l) (certificate_requests r);
  fr_drawn : Forall (λ e, ∃ m, drawn_from key m e) l;
  fr_ensured : ∀ s', key_secret s' = key_secret s1 → ensure_private_key r s' = s' }.

Lemma configure_first r s :
  sane r s → well_given r s → own s = None → provider s = None → certificate_requests r ≠ [] →
  ∃ s1 key l csrs, configure r s = Ok s1 ∧ first_requests r key s1 l csrs.
Proof.
  intros Hsane Hgiven Hown Hprov Hne.
  destruct (configure_steps r s Hsane Hgiven) as
    (key & s1 & new & csrs & ps0 & Hkey & Hready & Hconf & Hcsrs & Hps0 & _ & He & Hasks & Hens & Hdrawn).
  assert (ps0 = []) as ->.
  { unfold get_provider_certificates in Hps0. rewrite Hprov in Hps0. destruct (negb _); by apply ok_inj in Hps0 as <-. }
  unfold entries in He. rewrite Hown in He. cbn in Hconf, He.
  pose proof Hready as [[Hr Hm Hv _ _] _ _].
  destruct (get_csrs_read r s1 Hr Hm Hv) as (csrs' & Hcsrs' & Hl). assert (csrs' = csrs) as -> by congruence.
  assert (Hnew : new ≠ []).
  { intros ->. unfold entries in Hasks. destruct (certificate_requests r) as [|a rs]; [done|].
    inversion Hasks as [|?? Hx _]; subst. rewrite He in Hx. by apply Exists_nil in Hx. }
  unfold entries in Hl, Hasks. destruct (own s1) as [l|] eqn:Ho; cbn in He, Hl, Hasks; subst new; [|done].
  exists s1, key, l, csrs. split; [done|]. split; try done. intros ->. inversion Hl. by subst.
Qed.

Lemma first_answerable r key s1 l csrs :
  first_requests r key s1 l csrs → Forall email_names_ok (certificate_requests r) → Forall answerable csrs.
Proof.
  intros Hfirst Hemails. pose proof (rd_keep _ _ _ (fr_ready _ _ _ _ _ Hfirst)) as Hkeep.
  unfold entries in Hkeep. rewrite (fr_own _ _ _ _ _ Hfirst) in Hkeep. cbn in Hkeep.
  apply Forall_forall. intros c [j Hj]%list_elem_of_lookup.
  destruct (Forall2_lookup_r _ _ _ _ _ (fr_load _ _ _ _ _ Hfirst) Hj) as (e & Hej & Hle).
  eapply kept_answerable; [done|exact Hle|]. exact (Forall_lookup_1 _ _ _ _ Hkeep Hej).
Qed.

(** A provider that has published nothing answers all of them. *)
Lemma answer_first r key s1 l csrs i ca ca_key validity now random :
  first_requests r key s1 l csrs → Forall answerable csrs → authority_object ca ca_key →
  ∃ ps, answer_all ca ca_key validity now random ((i,.) <$> csrs) [relation_of r i (Some l) None] =
        Ok [relation_of r i (Some l) (Some (entry_of <$> ps))] ∧ Forall2 (answers ca) csrs ps.
Proof.
  intros Hfirst Hansw Hca. set (t := relation_of r i (Some l) None).
  assert (Ht : id t = i ∧ certificates t = None) by (subst t; unfold relation_of; by destruct (mode r)).
  destruct Ht as [Hid Hnone].
  destruct (answer_all_spec ca ca_key validity now csrs random t Hca Hansw) as (ps & Hall & Hps).
  { rewrite Hnone. cbn. rewrite (entries_requests l csrs (fr_load _ _ _ _ _ Hfirst)).
    pose proof (sn_distinct _ _ (rd_sane _ _ _ (fr_ready _ _ _ _ _ Hfirst))) as Hnd.
    unfold entries in Hnd. by rewrite (fr_own _ _ _ _ _ Hfirst) in Hnd. }
  exists ps. split; [|done]. rewrite Hid, Hnone in Hall. rewrite Hall.
  pose proof (fr_some _ _ _ _ _ Hfirst). destruct csrs; [done|]. cbn [default app]. f_equal. f_equal.
  subst t. unfold with_entries, relation_of. by destruct (mode r).
Qed.

End delivery.
