(* ===== verification/CertificatesSample.v ===== *)
(** * The certificates library of a unit, evaluated

    A unit asks for a certificate, the provider answers, the certificate is
    announced once, and it is renewed: on the instance of CryptoSample.v. *)

From S2P Require Import Prelude PyStr PyDict Crypto CryptoFacts SelfSigned CryptoSample Certificates CertificatesFacts CertificatesProvider CertificatesProviderFacts.

Local Open Scope string_scope.
Local Open Scope nat_scope.

Import TLSCertificatesRequiresV4.

Definition sample_requirer : requirer := mkRequirer UNIT true "0" [sample_attributes] None.
Definition value_or {A} (a : A) (x : result A) : A := match x with Ok a => a | Err _ => a end.

Lemma value_or_ok {A} (a : A) (x : result A) : is_ok x = true → x = Ok (value_or a x).
Proof. by destruct x. Qed.

(** The relation has just been created. *)
Definition created : state := mkState true None None None ∅ [] 0.
Definition asked : state := value_or created (configure sample_requirer created).

(** The provider's answer to the request. *)
Definition answer : certificate_entry :=
  value_or (mkCertificateEntry "" "" "" None None)
    (csr ← CertificateSigningRequest.from_string (default "" (certificate_signing_request <$> head (entries asked)));
     ca ← generate_ca (generate_private_key 40) 1000 (attributes "authority") 0 41;
     c ← generate_certificate csr ca (generate_private_key 40) 1000 false 0 42;
     Ok (mkCertificateEntry (Certificate.raw ca) (CertificateSigningRequest.raw csr) (Certificate.raw c) None None)).
Definition answered : state :=
  mkState true (own asked) (Some [answer]) (key_secret asked) ∅ [] (random asked).
Definition announced : state := value_or answered (configure sample_requirer answered).

Example created_asks : length (entries asked) = 1 ∧ available asked = [].
Proof. vm_compute. done. Qed.
Example answer_announced : length (available announced) = 1 ∧ size (certificate_secrets announced) = 1.
Proof. vm_compute. done. Qed.

Lemma sample_attributes_ok : Forall attributes_ok (certificate_requests sample_requirer).
Proof. constructor; [|done]. split; [apply sample_canonical|done]. Qed.

Lemma created_sane : sane sample_requirer created.
Proof. split; try done; constructor. Qed.
Lemma created_given : well_given sample_requirer created.
Proof. split; [split; done|apply sample_attributes_ok|by eexists]. Qed.

Lemma configure_requests_spec_witness :
  ∃ s' key new, configure sample_requirer created = Ok s' ∧ private_key sample_requirer s' = Some key ∧
    certificate_requested sample_requirer sample_attributes s' = Ok true ∧ entries s' = ([] ++ new)%list.
Proof.
  destruct (configure_requests_spec sample_requirer created created_sane created_given)
    as (s' & key & new & Hc & _ & Hk & Hr & _ & He).
  exists s', key, new. split; [exact Hc|]. split; [exact Hk|]. split; [apply Hr; left|exact He].
Defined.

(** What configuring leaves. *)
Lemma configured_ready r s s' :
  sane r s → well_given r s → configure r s = Ok s' → ∃ key, key_ok key ∧ ready r key s'.
Proof.
  intros Hs Hg Hc. destruct (configure_steps r s Hs Hg) as (key & s2 & _ & csrs & ps & Hok & Hready & Hc' & _).
  rewrite Hc' in Hc. apply ok_inj in Hc as <-. exists key. split; [done|].
  eapply ready_same_requests; [exact Hready|apply find_all_same].
Qed.

Lemma asked_configured : configure sample_requirer created = Ok asked.
Proof. apply value_or_ok. vm_compute. reflexivity. Qed.
Lemma announced_configured : configure sample_requirer answered = Ok announced.
Proof. apply value_or_ok. vm_compute. reflexivity. Qed.

Lemma answered_sane : sane sample_requirer answered.
Proof.
  destruct (configured_ready _ _ _ created_sane created_given asked_configured) as (key & _ & [[? ? ? ? ?] _ _]).
  by split.
Qed.
Definition answers : list ProviderCertificate := value_or [] (get_provider_certificates answered).
Lemma answered_provider : get_provider_certificates answered = Ok answers.
Proof. apply value_or_ok. vm_compute. reflexivity. Qed.
Lemma answered_given : well_given sample_requirer answered.
Proof.
  split; [split; [done|]|apply sample_attributes_ok|eexists; apply answered_provider].
  assert (Hs : key_secret answered = Some (generate_private_key 0)) by (apply (bool_decide_unpack _); vm_compute; done).
  intros k Hk. rewrite Hs in Hk. injection Hk as <-.
  unfold generate_private_key, PrivateKey.from_string. rewrite str_strip_idemp. apply generated_key_is_rsa.
Qed.
Lemma answers_distinct : NoDup (label_of sample_requirer <$> answers).
Proof.
  assert (Hl : length answers = 1) by (vm_compute; reflexivity).
  destruct answers as [|p [|]]; [done|apply NoDup_singleton|done].
Qed.

Lemma configure_idempotent_witness :
  get_provider_certificates answered = Ok answers ∧ length answers = 1 ∧
  configure sample_requirer announced = Ok announced.
Proof.
  split; [apply answered_provider|]. split; [vm_compute; reflexivity|].
  exact (configure_idempotent sample_requirer answered announced answers answered_sane answered_given
    answered_provider answers_distinct announced_configured).
Defined.

Definition sample_certificate : ProviderCertificate :=
  value_or (mkProviderCertificate (Certificate.mkCertificate "" "" 0 0 false ∅ ∅ ∅ None None None None None None)
              (CertificateSigningRequest.mkRequest "" "" None None None None None None None None None false)
              (Certificate.mkCertificate "" "" 0 0 false ∅ ∅ ∅ None None None None None None) [] None)
    (to_provider_certificate answer).
Definition sample_content : content :=
  default (mkContent "" "") (certificate_secrets announced !! label_of sample_requirer sample_certificate).
Definition sample_own : list csr_entry := default [] (own announced).

Lemma option_value {A} (a : A) (o : option A) : bool_decide (is_Some o) = true → o = Some (default a o).
Proof. intros [x ->]%bool_decide_eq_true. done. Qed.
Lemma announced_own : own announced = Some sample_own.
Proof. apply option_value. vm_compute. reflexivity. Qed.
Lemma announced_old :
  Exists (λ e, text e = str_strip (CertificateSigningRequest.raw (p_csr sample_certificate))) sample_own.
Proof. apply (bool_decide_unpack _). vm_compute. done. Qed.
Lemma announced_secret :
  certificate_secrets announced !! label_of sample_requirer sample_certificate = Some sample_content.
Proof. apply option_value. vm_compute. reflexivity. Qed.
Lemma announced_content : c_csr sample_content = CertificateSigningRequest.raw (p_csr sample_certificate).
Proof. apply (bool_decide_unpack _). vm_compute. done. Qed.

Lemma renew_certificate_spec_witness :
  ∃ s' new, renew_certificate sample_requirer sample_certificate announced = Ok s' ∧
    Forall (λ e, text e ≠ str_strip (CertificateSigningRequest.raw (p_csr sample_certificate))) new ∧
    certificate_requested sample_requirer sample_attributes s' = Ok true.
Proof.
  destruct (configured_ready _ _ _ answered_sane answered_given announced_configured) as (key & (n & e & Hk) & Hready).
  destruct (renew_certificate_spec sample_requirer key n e announced sample_content sample_own sample_certificate
    Hready Hk sample_attributes_ok) as (s' & new & Hr & _ & _ & Hnew & Ha & _).
  - apply announced_own.
  - apply announced_old.
  - apply announced_secret.
  - apply announced_content.
  - exists s', new. split; [exact Hr|]. split; [exact Hnew|]. apply Ha. left.
Defined.

(** ** With a provider *)

Definition sample_ca : Certificate.certificate :=
  value_or (Certificate.mkCertificate "" "" 0 0 false ∅ ∅ ∅ None None None None None None)
    (generate_ca (generate_private_key 40) 1000 (SelfSigned.ca_attributes "authority") 0 41).

Lemma sample_ca_authority : authority_object sample_ca (generate_private_key 40).
Proof.
  destruct (generated_key_is_rsa 40) as (n & e & Hk).
  destruct (generate_ca_authority (generate_private_key 40) n e "authority" 1000 0 41
    (sample_attributes_canonical "authority" ∅ ∅ (Some "peer") eq_refl ltac:(done)) Hk) as (ca & Hg & Hf & [_ _ _ _ (o & Ho & id & Hid)]).
  assert (sample_ca = ca) as -> by (unfold sample_ca; by rewrite Hg).
  split; [done|by exists o, id|]. unfold generate_private_key, PrivateKey.from_string. eauto.
Qed.

