(* ===== verification/OpsRepository.v ===== *)
(** * The repository of version 1 (lib/charms/data_platform_libs/v1/data_interfaces.py)

    [OpsRepository] with what [OpsRelationRepository] and [OpsPeerRepository]
    override: plain fields in the data bag of a component, the others in the secret
    of their group. The secrets of Juju are the interface of DataInterfaces.v. It is
    the repository that Repository.v takes as an interface. *)

From S2P Require Import Prelude PyStr PyDict Json Models Repository DataInterfaces.

Local Open Scope string_scope.

Inductive Scope := APP | UNIT.
Definition Scope_value (s : Scope) : string := match s with APP => "app" | UNIT => "unit" end.

(** A repository and what it writes: whether the relation is a peer relation,
    whether there is one and the component has data in it, its name and identifier,
    the application the charm runs as, what the component is (an application or a
    unit, and whether it is that application), whether this unit is the leader, the
    data bag of the component, and the secrets. *)
Record repository (T : Type) := mkRepository {
  peer : bool; has_relation : bool; in_relation : bool;
  relation_name : string; relation_id : Z; local_app : string;
  scope : Scope; is_local_app : bool; is_leader : bool;
  bag : databag; secrets : T }.
Arguments mkRepository {_} _ _ _ _ _ _ _ _ _ _ _.
Arguments peer {_} _.
Arguments has_relation {_} _.
Arguments in_relation {_} _.
Arguments relation_name {_} _.
Arguments relation_id {_} _.
Arguments local_app {_} _.
Arguments scope {_} _.
Arguments is_local_app {_} _.
Arguments is_leader {_} _.
Arguments bag {_} _.
Arguments secrets {_} _.

Definition EXTRA_GROUP : string := "extra".

Module OpsRepository.
Section ops.
Context {T : Type} `{Secrets T}.
Implicit Types w : repository T.

Definition with_bag (b : databag) w : repository T :=
  mkRepository (peer w) (has_relation w) (in_relation w) (relation_name w) (relation_id w) (local_app w)
    (scope w) (is_local_app w) (is_leader w) b (secrets w).
Definition with_secrets (t : T) w : repository T :=
  mkRepository (peer w) (has_relation w) (in_relation w) (relation_name w) (relation_id w) (local_app w)
    (scope w) (is_local_app w) (is_leader w) (bag w) t.

(** [ensure_leader_for_app] lets the call through. *)
Definition ensure_leader_for_app w : bool := negb (is_local_app w && negb (is_leader w)).
(** There is a relation, with data of the component. *)
Definition usable w : bool := has_relation w && in_relation w.

(** ** Names *)

Definition generate_secret_label (secret_group : string) (short_uuid : option string) w : string :=
  if peer w then
    str_join "." ([relation_name w; local_app w; Scope_value (scope w)] ++
              (if (secret_group =? EXTRA_GROUP)%string then [] else [secret_group]))%list
  else
    match short_uuid with
    | Some u => if truthy u
                then relation_name w ++ "." ++ str_of_Z (relation_id w) ++ "." ++ u ++ "." ++ secret_group ++ ".secret"
                else relation_name w ++ "." ++ str_of_Z (relation_id w) ++ "." ++ secret_group ++ ".secret"
    | None => relation_name w ++ "." ++ str_of_Z (relation_id w) ++ "." ++ secret_group ++ ".secret"
    end.
Definition secret_field (secret_group field : string) w : string :=
  if peer w then field ++ "@" ++ secret_group else "secret-" ++ secret_group.

(** ** Plain fields *)

(** [json.loads], or the text itself. *)
Definition parsed (value : string) : json := match loads value with Ok v => v | Err _ => JStr value end.

Definition get_data w : option document :=
  if negb (peer w) && negb (ensure_leader_for_app w) then None
  else if negb (usable w) then None
  else Some ((λ '(k, v), (k, parsed v)) <$> map_to_list (bag w)).

Definition get_field (field : string) w : option string :=
  if negb (ensure_leader_for_app w) then None
  else if negb (usable w) then None
  else bag w !! field.
Definition get_fields (fields : list string) w : list (string * string) :=
  if negb (ensure_leader_for_app w) then []
  else omap (λ f, v ← get_field f w; Some (f, v)) fields.

Definition write_field (field value : string) w : repository T :=
  if negb (ensure_leader_for_app w) then w
  else if negb (usable w) then w
  else if truthy value then with_bag (<[field := value]> (bag w)) w else w.
Definition delete_field (field : string) w : repository T :=
  if negb (ensure_leader_for_app w) then w
  else if negb (usable w) then w
  else with_bag (delete field (bag w)) w.
(** The generator expression is never consumed. *)
Definition write_fields (mapping : list (string * string)) w : repository T := w.
Definition delete_fields (fields : list string) w : repository T := w.

(** ** Secrets *)

(** [CachedSecret.meta]: by its label, else by its identifier, which then gets the
    label. *)
Definition secret_meta (label : string) (uri : option string) w : option (string * repository T) :=
  match by_label label (secrets w) with
  | Some id => Some (id, w)
  | None =>
      match uri with
      | Some u => if truthy u then t ← by_id u label (secrets w); Some (u, with_secrets t w) else None
      | None => None
      end
  end.

Definition get_secret (secret_group : string) (secret_uri short_uuid : option string) w
    : option (string * repository T) :=
  if negb (usable w) then None
  else secret_meta (generate_secret_label secret_group short_uuid w) secret_uri w.

Definition get_secret_field (field secret_group : string) (uri short_uuid : option string) w
    : option json * repository T :=
  if negb (usable w) then (None, w)
  else
    let secret_uri :=
      match uri with
      | Some u => if truthy u then Some u else bag w !! secret_field secret_group field w
      | None => bag w !! secret_field secret_group field w
      end in
    if negb (peer w) && negb (truthy (default "" secret_uri)) then (None, w)
    else
      match secret_meta (generate_secret_label secret_group short_uuid w) secret_uri w with
      | None => (None, w)
      | Some (id, w) =>
          match content_of id (secrets w) !! field with
          | Some v => (if truthy v then Some (parsed v) else None, w)
          | None => (None, w)
          end
      end.

(** Granted to the relation, unless it is the own application's. *)
Definition add_secret_ (field value secret_group : string) (short_uuid : option string) w
    : result (repository T) :=
  if negb (ensure_leader_for_app w) then Ok w
  else if negb (usable w) then Ok w
  else
    let '(id, t) := add_secret {[ field := value ]} (generate_secret_label secret_group short_uuid w) (secrets w) in
    if truthy id
    then Ok (with_secrets (if peer w then t else grant id (str_of_Z (relation_id w)) t) w)
    else Err (PyException "Secret added but is missing Secret ID").

(** [CachedSecret.set_content] *)
Definition set_content (id : string) (content : databag) w : repository T :=
  if bool_decide (content = content_of id (secrets w)) then w
  else if bool_decide (content = ∅) then with_secrets (remove_all_revisions id (secrets w)) w
  else with_secrets (set_content_of id content (secrets w)) w.

Definition write_secret_field (field value secret_group : string) w : result (repository T) :=
  if negb (ensure_leader_for_app w) then Ok w
  else if negb (usable w) then Ok w
  else
    match secret_meta (generate_secret_label secret_group None w)
            (get_field (secret_field secret_group field w) w) w with
    | None => add_secret_ field value secret_group None w
    | Some (id, w) => Ok (set_content id (<[field := value]> (content_of id (secrets w))) w)
    end.

(** [SecretCache.remove] of a secret that was found. *)
Definition remove_secret (id : string) w : repository T := with_secrets (remove_all_revisions id (secrets w)) w.
Definition delete_secret (label : string) w : repository T :=
  if negb (ensure_leader_for_app w) then w
  else match by_label label (secrets w) with Some id => remove_secret id w | None => w end.

(** When the secret is empty, it is the field's own name that leaves the bag. *)
Definition delete_secret_field (field secret_group : string) w : repository T :=
  if negb (ensure_leader_for_app w) then w
  else if negb (usable w) then w
  else
    match secret_meta (generate_secret_label secret_group None w) (bag w !! secret_field secret_group field w) w with
    | None => w
    | Some (id, w) =>
        let content := delete field (content_of id (secrets w)) in
        if bool_decide (content = ∅) then remove_secret id (with_bag (delete field (bag w)) w)
        else set_content id content w
    end.

Definition register_secret (uri secret_group : string) (short_uuid : option string) w : result (repository T) :=
  if negb (ensure_leader_for_app w) then Ok w
  else if negb (has_relation w) then Err (ValueError "Cannot register without relation.")
  else match secret_meta (generate_secret_label secret_group short_uuid w) (Some uri) w with
       | Some (_, w) => Ok w
       | None => Ok w
       end.

(** ** Repository.v's interface *)

(** A secret of a relation the charm made: its metadata can be read. *)
Definition get_group_secret (secret_group : string) w : option group_secret :=
  '(id, w) ← get_secret secret_group None None w;
  Some (mkSecret (Some id) (prod_map (λ k, k) JStr <$> map_to_list (content_of id (secrets w)))).

(** An exception leaves the repository as it was. *)
#[export] Instance ops_repository : Repository (repository T) := {|
  Repository.get_data := get_data;
  Repository.get_secret := get_group_secret;
  Repository.write_field := write_field;
  Repository.write_secret_field k v g w :=
    match write_secret_field k v g w with Ok w => w | Err _ => w end;
  Repository.delete_field := delete_field;
  Repository.delete_secret_field := delete_secret_field |}.
End ops.
End OpsRepository.
