(* ===== verification/OpsRepositoryFacts.v ===== *)
(** * The repository of version 1 is a finite map

    [RelationStateV1.update], on the repository of the library, writes a map from
    fields to values: plain fields in the bag, the others in the secret of their
    group, which is made when its first field is written and removed with its last. *)

From S2P Require Import Prelude PyStr PyDict Json Models ModelsFacts Repository DataInterfaces OpsRepository.

Local Open Scope string_scope.

Import RelationStateV1.
Import OpsRepository.

Section facts.
Context {T : Type} `{SecretsLaws T}.
Implicit Types w : repository T.

(** ** Labels *)

(** The label of a peer repository: the names, then the group. *)
Lemma str_join_app_names (a b c : string) (e : bool) g :
  str_join "." ([a; b; c] ++ (if e then [] else [g]))%list =
  (a ++ "." ++ b ++ "." ++ c) ++ (if e then "" else "." ++ g).
Proof. destruct e; cbn; [by rewrite append_nil_r|]. rewrite append_assoc. cbn. by rewrite append_assoc. Qed.

(** Each group has a label of its own. *)
Lemma label_inj w g g' : generate_secret_label g None w = generate_secret_label g' None w → g = g'.
Proof.
  unfold generate_secret_label. destruct (peer w).
  - rewrite !str_join_app_names. destruct (String.eqb_spec g EXTRA_GROUP) as [->|Hg],
      (String.eqb_spec g' EXTRA_GROUP) as [->|Hg']; [done|..].
    + rewrite append_nil_r. intros E. symmetry in E. by apply append_longer in E.
    + rewrite append_nil_r. intros E. by apply append_longer in E.
    + by intros [= ?]%append_inj_l.
  - intros E%append_inj_l. injection E as E%append_inj_l. injection E as E. by eapply append_inj_r.
Qed.

(** ** Fields *)

Implicit Types r : relation.

Definition label r k w : string := generate_secret_label (group_of r k) None w.

(** What a field holds: its entry in the bag, or in the secret of its group. *)
Definition value r k w : option string :=
  if is_secret_field r k then
    id ← by_label (label r k w) (secrets w); content_of id (secrets w) !! k
  else bag w !! k.

(** The unit may write, and the bag has no identifiers of the secrets. *)
Record tidy r w : Prop := mkTidy {
  td_leader : ensure_leader_for_app w = true;
  td_usable : usable w = true;
  td_no_uri k : is_secret_field r k = true → bag w !! secret_field (group_of r k) k w = None }.

(** A plain field that is not the name an identifier would have. *)
Definition plain_ok r w k : Prop :=
  is_secret_field r k = false → ∀ k', is_secret_field r k' = true → k ≠ secret_field (group_of r k') k' w.

(** What the names depend on is not written. *)
Definition same_names w w' : Prop :=
  (∀ g, generate_secret_label g None w' = generate_secret_label g None w) ∧
  (∀ g k, secret_field g k w' = secret_field g k w).
#[local] Instance same_names_preorder : PreOrder same_names.
Proof. split; [by intros w|]. intros w1 w2 w3 [A B] [C D]. split; intros; by rewrite ?C, ?D, ?A, ?B. Qed.

(** A step that gives one field a value and leaves the others. *)
Definition sets r k (v : option string) w w' : Prop :=
  tidy r w' ∧ same_names w w' ∧ ∀ k', value r k' w' = if decide (k' = k) then v else value r k' w.

Lemma sets_bag r k v w b :
  tidy r w → is_secret_field r k = false → plain_ok r w k → (∀ k', b !! k' = if decide (k' = k) then v else bag w !! k') →
  sets r k v w (with_bag b w).
Proof.
  intros [Hl Hu Hno] Hk Hok Hb. split; [split; [done|done|]|split; [done|]].
  - intros k' Hk'. cbn. rewrite Hb, decide_False; [by apply Hno|]. intros E. by apply (Hok Hk k' Hk').
  - intros k'. unfold value. cbn. destruct (is_secret_field r k') eqn:Hk'; [|apply Hb].
    rewrite decide_False; [done|]. intros ->. congruence.
Qed.

(** Secrets that differ from those there were in the field only. *)
Lemma sets_secrets r k v w b t :
  tidy r w → is_secret_field r k = true →
  (∀ k', k' ≠ k → b !! k' = bag w !! k') → (b !! k = bag w !! k ∨ b !! k = None) →
  (id ← by_label (label r k w) t; content_of id t !! k) = v →
  (∀ k', k' ≠ k → group_of r k' = group_of r k →
    (id ← by_label (label r k w) t; content_of id t !! k') =
    (id ← by_label (label r k w) (secrets w); content_of id (secrets w) !! k')) →
  (∀ l, l ≠ label r k w → by_label l t = by_label l (secrets w)) →
  (∀ l id, l ≠ label r k w → by_label l (secrets w) = Some id → content_of id t = content_of id (secrets w)) →
  sets r k v w (with_secrets t (with_bag b w)).
Proof.
  intros [Hl Hu Hno] Hk Hb Hbk Hv Hsame Hother Hcont. split; [split; [done|done|]|split; [done|]].
  - intros k' Hk'. cbn. change (secret_field _ _ _) with (secret_field (group_of r k') k' w).
    destruct (decide (secret_field (group_of r k') k' w = k)) as [E|E]; [|rewrite Hb by done; by apply Hno].
    destruct Hbk as [Hbk|Hbk]; rewrite E; [|done]. rewrite Hbk, <- E. by apply Hno.
  - intros k'. unfold value. cbn. change (label r k' _) with (label r k' w).
    case_decide as E; [subst k'; by rewrite Hk|]. destruct (is_secret_field r k') eqn:Hk'; [|by apply Hb].
    destruct (decide (group_of r k' = group_of r k)) as [Hg|Hg].
    + unfold label in *. rewrite Hg. by apply Hsame.
    + assert (Hne : label r k' w ≠ label r k w) by (intros Hlab; by apply label_inj in Hlab).
      rewrite Hother by done. destruct (by_label (label r k' w) (secrets w)) as [id|] eqn:Eid; cbn; [|done].
      by rewrite (Hcont _ id Hne).
Qed.

Lemma repository_bag_id w : with_bag (bag w) w = w.
Proof. by destruct w. Qed.
Lemma repository_secrets_id w : with_secrets (secrets w) w = w.
Proof. by destruct w. Qed.
Lemma with_secrets_bag t w : with_secrets t w = with_secrets t (with_bag (bag w) w).
Proof. by destruct w. Qed.

(** Writing the content of the secret of a field. *)
Lemma sets_content r k v w id c :
  tidy r w → is_secret_field r k = true → by_label (label r k w) (secrets w) = Some id →
  c ≠ ∅ → c !! k = v → (∀ k', k' ≠ k → c !! k' = content_of id (secrets w) !! k') →
  sets r k v w (set_content id c w).
Proof.
  intros Ht Hk Hid Hne Hv Hc. unfold set_content. case_bool_decide as E1.
  - split; [done|split; [done|]]. intros k'. case_decide; [|done]. subst k'. unfold value. rewrite Hk, Hid. cbn.
    by rewrite <- E1.
  - rewrite bool_decide_false by done. rewrite with_secrets_bag. apply sets_secrets; try done.
    + by left.
    + rewrite set_content_label, Hid. cbn. by rewrite (set_content_content _ _ _ _ id Hid), decide_True.
    + intros k' Hk' _. rewrite set_content_label, Hid. cbn.
      rewrite (set_content_content _ _ _ _ id Hid), decide_True by done. by apply Hc.
    + intros l _. apply set_content_label.
    + intros l id' Hl Hid'. rewrite (set_content_content _ _ _ _ id' Hid). rewrite decide_False; [done|].
      intros ->. apply Hl. by eapply by_label_inj.
Qed.

Lemma sets_removed r k w b id :
  tidy r w → is_secret_field r k = true → by_label (label r k w) (secrets w) = Some id →
  base.delete k (content_of id (secrets w)) = ∅ → b = base.delete k (bag w) →
  sets r k None w (remove_secret id (with_bag b w)).
Proof.
  intros Ht Hk Hid He ->. unfold remove_secret. cbn [secrets with_bag].
  assert (Hgone : by_label (label r k w) (remove_all_revisions id (secrets w)) = None)
    by by rewrite remove_label, decide_True.
  apply sets_secrets; try done.
  - intros k' Hk'. by rewrite lookup_delete_ne.
  - right. apply lookup_delete_eq.
  - by rewrite Hgone.
  - intros k' Hk' _. rewrite Hgone, Hid. cbn. by rewrite <- (lookup_delete_ne _ k k'), He, lookup_empty by done.
  - intros l Hl. rewrite remove_label. case_decide as E; [|done]. destruct Hl. by eapply by_label_inj.
  - intros l id' Hl Hid'. apply remove_content. intros ->. apply Hl. by eapply by_label_inj.
Qed.

(** ** Writing and deleting a field *)

Lemma truthy_ne v : v ≠ "" → truthy v = true.
Proof. by destruct v. Qed.

(** A secret that is made with one field. *)
Lemma sets_added r k v w :
  tidy r w → is_secret_field r k = true → by_label (label r k w) (secrets w) = None →
  ∃ w', add_secret_ k v (group_of r k) None w = Ok w' ∧ sets r k (Some v) w w'.
Proof.
  intros Ht Hk Hnone. unfold add_secret_. rewrite (td_leader _ _ Ht), (td_usable _ _ Ht). cbn [negb].
  fold (label r k w). set (c := {[k := v]}).
  pose proof (add_secret_id c (label r k w) (secrets w)) as Hid.
  pose proof (add_secret_content c (label r k w) (secrets w)) as Hc.
  pose proof (λ l', add_secret_label c (label r k w) (secrets w) l' Hnone) as Hl.
  pose proof (add_secret_others c (label r k w) (secrets w)) as Ho.
  destruct (add_secret c (label r k w) (secrets w)) as [id t]. cbn in *.
  rewrite truthy_ne by done. eexists. split; [done|].
  set (t' := if peer w then t else _).
  assert (Hl' : ∀ l, by_label l t' = by_label l t) by (intros l; subst t'; destruct (peer w); [done|apply grant_label]).
  assert (Hc' : ∀ i, content_of i t' = content_of i t) by (intros i; subst t'; destruct (peer w); [done|apply grant_content]).
  rewrite with_secrets_bag. apply sets_secrets; try done.
  - by left.
  - rewrite Hl', Hl, decide_True by done. cbn. rewrite Hc', Hc. apply lookup_singleton_eq.
  - intros k' Hk' _. rewrite Hl', Hl, decide_True, Hnone by done. cbn. rewrite Hc', Hc. by apply lookup_singleton_ne.
  - intros l Hne. by rewrite Hl', Hl, decide_False.
  - intros l id' _ Hid'. rewrite Hc'. by eapply Ho.
Qed.

Lemma write_sets r k v w :
  tidy r w → plain_ok r w k → truthy v = true → sets r k (Some v) w (write r w (k, v)).
Proof.
  intros Ht Hok Hv. unfold write. cbn [Repository.write_field Repository.write_secret_field ops_repository].
  destruct (is_secret_field r k) eqn:Hk.
  - unfold write_secret_field, get_field, secret_meta.
    rewrite (td_leader _ _ Ht), (td_usable _ _ Ht), (td_no_uri _ _ Ht k Hk). cbn [negb]. fold (label r k w).
    destruct (by_label (label r k w) (secrets w)) as [id|] eqn:Hid.
    + apply sets_content; [done|done|done|apply insert_non_empty|apply lookup_insert_eq|].
      intros k' Hk'. by apply lookup_insert_ne.
    + destruct (sets_added r k v w Ht Hk Hid) as (w' & -> & Hs). done.
  - unfold write_field. rewrite (td_leader _ _ Ht), (td_usable _ _ Ht), Hv. cbn [negb].
    apply sets_bag; try done. intros k'. case_decide; [subst; apply lookup_insert_eq|by apply lookup_insert_ne].
Qed.

Lemma delete_sets r k w :
  tidy r w → plain_ok r w k → sets r k None w (RelationStateV1.delete r w k).
Proof.
  intros Ht Hok. unfold RelationStateV1.delete. cbn [Repository.delete_field Repository.delete_secret_field ops_repository].
  destruct (is_secret_field r k) eqn:Hk.
  - unfold delete_secret_field, secret_meta.
    rewrite (td_leader _ _ Ht), (td_usable _ _ Ht), (td_no_uri _ _ Ht k Hk). cbn [negb]. fold (label r k w).
    destruct (by_label (label r k w) (secrets w)) as [id|] eqn:Hid.
    + case_bool_decide as He; [by apply sets_removed|].
      apply sets_content; [done|done|done|done|apply lookup_delete_eq|]. intros k' Hk'. by apply lookup_delete_ne.
    + split; [done|split; [done|]]. intros k'. case_decide; [|done]. subst k'. unfold value. rewrite Hk, Hid. done.
  - unfold delete_field. rewrite (td_leader _ _ Ht), (td_usable _ _ Ht). cbn [negb].
    apply sets_bag; try done. intros k'. case_decide; [subst; apply lookup_delete_eq|by apply lookup_delete_ne].
Qed.

(** ** The map of a relation *)

Lemma plain_ok_names r w w' k : same_names w w' → plain_ok r w k → plain_ok r w' k.
Proof. intros [_ Hf] Hok Hk k' Hk'. rewrite Hf. by apply Hok. Qed.

Lemma writes_set r l w :
  tidy r w → Forall (λ kv, plain_ok r w kv.1 ∧ truthy kv.2 = true) l → NoDup (l.*1) →
  let w' := foldl (write r) w l in
  tidy r w' ∧ same_names w w' ∧
  ∀ k, value r k w' = match dict_get k l with Some v => Some v | None => value r k w end.
Proof.
  revert w. induction l as [|[k v] l IH]; intros w Ht Hl Hnd; cbn [foldl]; [done|].
  inversion Hl as [|?? [Hok Hv] Hl']; subst. apply NoDup_cons in Hnd as [Hk Hnd].
  destruct (write_sets r k v w Ht Hok Hv) as (Ht1 & Hn1 & Hval1).
  destruct (IH (write r w (k, v)) Ht1) as (Ht2 & Hn2 & Hval2); [|done|].
  - eapply Forall_impl; [exact Hl'|]. intros kv [A B]. split; [by eapply plain_ok_names|done].
  - split; [done|]. split; [by etrans|]. intros k'. rewrite Hval2. cbn [dict_get]. rewrite Hval1.
    destruct (decide (k' = k)) as [->|E]; [|by rewrite ?decide_False by congruence].
    by rewrite ?decide_True, (proj2 (dict_get_None k l) Hk) by done.
Qed.

Lemma deletes_set r l w :
  tidy r w → Forall (plain_ok r w) l →
  let w' := foldl (RelationStateV1.delete r) w l in
  tidy r w' ∧ ∀ k, value r k w' = if decide (k ∈ l) then None else value r k w.
Proof.
  revert w. induction l as [|k l IH]; intros w Ht Hl; cbn [foldl].
  - split; [done|]. intros k. by rewrite decide_False by set_solver.
  - inversion Hl as [|?? Hok Hl']; subst.
    destruct (delete_sets r k w Ht Hok) as (Ht1 & Hn1 & Hval1).
    destruct (IH (RelationStateV1.delete r w k) Ht1) as (Ht2 & Hval2).
    { eapply Forall_impl; [exact Hl'|]. intros k'. by eapply plain_ok_names. }
    split; [done|]. intros k'. rewrite Hval2, Hval1. repeat case_decide; set_solver.
Qed.

(** C20: a relation of version 1 is a map from fields to values on the repository of
    the library: an update gives each of its fields the new value, or removes it
    when the value is empty, and leaves every other field, whether the fields are in
    the bag or share the secret of a group; what the next update needs of the
    relation holds again. *)
Theorem ops_update_refines_map r w items :
  tidy r w → dict_wf items → Forall (plain_ok r w) (dict_keys items) →
  tidy r (update r items w) ∧
  ∀ k, value r k (update r items w) =
    match dict_get k items with
    | Some v => if truthy v then Some v else None
    | None => value r k w
    end.
Proof.
  intros Ht Hwf Hok. unfold update. set (set_items := filter (λ kv, truthy kv.2 = true) items).
  set (gone := filter (λ kv, truthy kv.2 = false) items).
  assert (Hkeys : ∀ kv, kv ∈ items → plain_ok r w kv.1).
  { intros kv Hkv. apply (proj1 (Forall_forall _ _) Hok). by apply list_elem_of_fmap_2. }
  destruct (writes_set r set_items w Ht) as (Ht1 & Hn1 & Hval1).
  { apply Forall_forall. intros kv [Hv Hkv]%list_elem_of_filter. split; [by apply Hkeys|done]. }
  { by apply filter_keys_NoDup. }
  destruct (deletes_set r (dict_keys gone) _ Ht1) as (Ht2 & Hval2).
  { apply Forall_forall. intros k (kv & -> & [_ Hkv]%list_elem_of_filter)%list_elem_of_fmap.
    eapply plain_ok_names; [exact Hn1|]. by apply Hkeys. }
  split; [done|]. intros k. rewrite Hval2, Hval1. by apply updated_value.
Qed.
End facts.
