(* ===== verification/OpsRepositorySample.v ===== *)
(** * A peer repository with secrets, evaluated

    [RelationStateV1.update] on the repository of a unit and the store of secrets of
    DataInterfacesSample.v. *)

From S2P Require Import Prelude PyStr PyDict Json Models Repository DataInterfaces DataInterfacesSample OpsRepository OpsRepositoryFacts.

Local Open Scope string_scope.

Import RelationStateV1.
Import OpsRepository.

Definition sample_relation : RelationStateV1.relation := mkRelation None ["password"] true.
Definition sample_repository : repository store :=
  mkRepository true true true "cluster" 3 "kafka" UNIT false true ∅ [].
Definition sample_items : list (string * string) :=
  [("password", "pw"); ("host", "kafka-0"); ("old", ""); ("relation-7", "client")].
Definition sample_updated : repository store := update sample_relation sample_items sample_repository.

Example update_makes_secret :
  value sample_relation "password" sample_updated = Some "pw" ∧ bag sample_updated = {[ "host" := "kafka-0" ]} ∧
  length (secrets sample_updated) = 1%nat.
Proof. vm_compute. done. Qed.
(** Deleting the last field of a group takes the label from its secret. *)
Example update_removes_secret :
  by_label "cluster.kafka.unit" (secrets (update sample_relation [("password", ""); ("relation-7", "")] sample_updated)) = None.
Proof. vm_compute. done. Qed.

Lemma no_group_name (k k' g : string) : lacks "@" k = true → k ≠ k' ++ "@" ++ g.
Proof.
  intros Hk ->. unfold lacks in Hk. rewrite str_forall_app in Hk. by apply andb_true_iff in Hk as [_ Hk].
Qed.

Lemma ops_update_refines_map_witness :
  tidy sample_relation sample_updated ∧
  value sample_relation "password" sample_updated = Some "pw" ∧ value sample_relation "old" sample_updated = None.
Proof.
  destruct (ops_update_refines_map sample_relation sample_repository sample_items) as [Ht Hv].
  - split; [reflexivity|reflexivity|]. intros k _. apply lookup_empty.
  - apply (bool_decide_unpack _). vm_compute. exact I.
  - repeat constructor; intros _ k' _; apply no_group_name; reflexivity.
  - split; [exact Ht|]. split; rewrite Hv; reflexivity.
Defined.
