(* ===== verification/CertificateTransfer.v ===== *)
(** * Transferred certificates (lib/charms/certificate_transfer_interface/v1/certificate_transfer.py)

    Applications give others the certificates of authorities to trust, as a set in
    the data bag of each relation. The charm is a requirer: what
    [get_all_certificates] answers is the argument [transferred_certificates] of its
    handlers (Operator.v, TlsHandler.v). Validation by the parsing library is an
    interface; sets are written in the order of [elements]. *)

From S2P Require Import Prelude PyStr PyDict Json DataInterfaces DataInterfacesFacts.

Local Open Scope string_scope.
Local Open Scope Z_scope.

(** ** The data of a provider *)

Record ProviderApplicationData := mkData { certificates : gset string; version : Z }.

(** [ProviderApplicationData.model_validate] on the fields of the model that were
    given. *)
Class Validation := { model_validate : list (string * json) → option ProviderApplicationData }.
(** A list of texts and an integer are accepted, and each has a default. *)
Class ValidationLaws `{Validation} := {
  validate_documented d certs n :
    dict_get "certificates" d = (λ l, JList (JStr <$> l)) <$> certs → dict_get "version" d = JInt <$> n →
    model_validate d = Some (mkData (list_to_set (default [] certs)) (default 1 n)) }.

Module DatabagModel.
Section model.
Context `{Validation}.

Definition model_fields : list string := ["certificates"; "version"].
Definition parse_item (kv : string * string) : result (string * json) := v ← loads kv.2; Ok (kv.1, v).

(** [load]: no value stands for [DataValidationError]. *)
Definition load (databag : databag) : option ProviderApplicationData :=
  match traverse parse_item (map_to_list (filter (λ kv, kv.1 ∈ model_fields) databag)) with
  | Ok data => model_validate data
  | Err _ => None
  end.

(** [dump], with [clear] false. *)
Definition dump (d : ProviderApplicationData) (databag : databag) : DataInterfaces.databag :=
  bag_update [("certificates", dumps (JList (JStr <$> elements (certificates d))));
              ("version", dumps (JInt (version d)))] databag.
(** [RequirerApplicationData], whose only field is the version. *)
Definition dump_requirer (version : Z) (databag : databag) : DataInterfaces.databag :=
  bag_update [("version", dumps (JInt version))] databag.
End model.
End DatabagModel.
Import DatabagModel.

(** ** Relations *)

(** A relation of the interface: its identifier, whether it is active, the two
    applications and the bag of each. *)
Record transfer := mkTransfer {
  t_id : Z; t_active : bool; t_provider : string; t_requirer : string;
  provider_bag : databag; requirer_bag : databag }.
Definition with_provider_bag (b : databag) (r : transfer) : transfer :=
  mkTransfer (t_id r) (t_active r) (t_provider r) (t_requirer r) b (requirer_bag r).

(** [model.relations[name]] of an application, and [model.get_relation(name, id)];
    [gone] answers for a relation that is no longer there. *)
Definition relations (role : transfer → string) (app : string) (rs : list transfer) : list transfer :=
  filter (λ r, role r = app) rs.
Definition get_relation (gone : Z → option transfer) (rid : Z) (rs : list transfer) : option transfer :=
  match find (λ r, t_id r =? rid) rs with Some r => Some r | None => gone rid end.

(** [_get_relation_data], of either side. *)
Definition get_relation_data `{Validation} (r : transfer) : gset string :=
  match load (provider_bag r) with Some d => certificates d | None => ∅ end.

(** *** The provider *)

Module CertificateTransferProvides.
Section provides.
Context `{Validation}.

Definition get_relevant_relations (gone : Z → option transfer) (relation_id : option Z) (rs : list transfer)
    : list transfer :=
  match relation_id with
  | Some rid => match get_relation gone rid rs with Some r => if t_active r then [r] else [] | None => [] end
  | None => rs
  end.
Definition set_relation_data (r : transfer) (data : gset string) (rs : list transfer) : list transfer :=
  (λ r', if t_id r' =? t_id r then with_provider_bag (dump (mkData data 1) (provider_bag r')) r' else r') <$> rs.

(** The loop of the three methods: the data of each relevant relation of the
    application is changed by [f]. *)
Definition for_relations (f : gset string → gset string) (todo rs : list transfer) : list transfer :=
  foldl (λ rs r, set_relation_data r (f (get_relation_data r)) rs) rs todo.
Definition change (f : gset string → gset string) (app : string) (leader : bool) (gone : Z → option transfer)
    (relation_id : option Z) (rs : list transfer) : list transfer :=
  if negb leader then rs
  else for_relations f (get_relevant_relations gone relation_id (relations t_provider app rs)) rs.

Definition add_certificates (certs : gset string) := change (λ existing, existing ∪ certs).
Definition remove_all_certificates := change (λ _, ∅).
Definition remove_certificate (certificate : string) := change (λ existing, existing ∖ {[ certificate ]}).
End provides.
End CertificateTransferProvides.

(** *** The requirer *)

Inductive event :=
| CertificatesAvailable (certs : gset string) (relation_id : Z)
| CertificatesRemoved (relation_id : Z).

Module CertificateTransferRequires.
Section requires.
Context `{Validation}.

(** An identifier that no relation has stands for all of them. *)
Definition get_relevant_relations (gone : Z → option transfer) (relation_id : option Z) (rs : list transfer)
    : list transfer :=
  match relation_id with
  | Some rid => match get_relation gone rid rs with Some r => [r] | None => rs end
  | None => rs
  end.
Definition get_all_certificates (app : string) (gone : Z → option transfer) (relation_id : option Z)
    (rs : list transfer) : gset string :=
  foldl (λ result r, result ∪ get_relation_data r) ∅
    (get_relevant_relations gone relation_id (relations t_requirer app rs)).
Definition is_ready (r : transfer) : bool := bool_decide (is_Some (load (provider_bag r))).

Definition on_relation_changed (app : string) (gone : Z → option transfer) (relation_id : Z) (rs : list transfer) : event :=
  CertificatesAvailable (get_all_certificates app gone (Some relation_id) rs) relation_id.
Definition on_relation_broken (relation_id : Z) : event := CertificatesRemoved relation_id.
Definition on_relation_created (leader : bool) (r : transfer) : transfer :=
  if negb leader then r
  else mkTransfer (t_id r) (t_active r) (t_provider r) (t_requirer r) (provider_bag r) (dump_requirer 1 (requirer_bag r)).
End requires.
End CertificateTransferRequires.

(** ** What is read is what was written *)

Section facts.
Context `{ValidationLaws}.

Lemma parse_items_get (l : list (string * string)) : Forall (λ kv, is_ok (loads kv.2) = true) l →
  ∃ d, traverse parse_item l = Ok d ∧
    ∀ k, dict_get k d = (t ← dict_get k l; match loads t with Ok v => Some v | Err _ => None end).
Proof.
  induction l as [|[k t] l IH]; intros Hl; [by exists []|]. inversion Hl as [|?? Ht Hl']; subst.
  destruct (IH Hl') as (d & Hd & Hg). cbn [traverse fst snd] in *.
  destruct (loads t) as [v|] eqn:Hv; [|done]. exists ((k, v) :: d).
  assert (Hp : parse_item (k, t) = Ok (k, v)) by (unfold parse_item; cbn [fst snd]; by rewrite Hv).
  split; [rewrite Hp; cbn [mbind result_bind]; by rewrite Hd|]. intros k'. cbn [dict_get]. case_decide; [cbn [mbind option_bind]; by rewrite Hv|apply Hg].
Qed.

Lemma dict_get_map (m : databag) k : dict_get k (map_to_list m) = m !! k.
Proof.
  destruct (m !! k) as [v|] eqn:E.
  - apply dict_elem_get; [apply NoDup_fst_map_to_list|by apply elem_of_map_to_list].
  - apply dict_get_None. unfold dict_keys. intros ([k' v] & -> & Hin%elem_of_map_to_list)%list_elem_of_fmap.
    cbn in E. congruence.
Qed.

Lemma plain_texts (l : list string) : plain (JList (JStr <$> l)) = true.
Proof. by induction l. Qed.

Lemma dumped_fields d b k :
  dump d b !! k = if decide (k = "version") then Some (dumps (JInt (version d)))
    else if decide (k = "certificates") then Some (dumps (JList (JStr <$> elements (certificates d)))) else b !! k.
Proof.
  unfold dump. rewrite bag_update_lookup. unfold last_value. cbn [foldl].
  rewrite !lookup_insert, lookup_empty.
  assert (Ht : ∀ v, plain v = true → truthy (dumps v) = true).
  { intros v Hv. apply truthy_true. intros E. pose proof (loads_dumps v Hv) as Hl. by rewrite E in Hl. }
  repeat case_decide; subst; rewrite ?Ht by (done || apply plain_texts); done.
Qed.

(** Whatever the bag held. *)
Lemma load_dump d b : load (dump d b) = Some d.
Proof.
  unfold load.
  set (m := filter (λ kv, kv.1 ∈ model_fields) (dump d b)).
  assert (Hm : ∀ k, m !! k = if decide (k ∈ model_fields) then dump d b !! k else None).
  { intros k. unfold m. rewrite map_lookup_filter. destruct (dump d b !! k); cbn; repeat case_decide; by repeat case_guard. }
  assert (Hc : loads (dumps (JList (JStr <$> elements (certificates d)))) = Ok (JList (JStr <$> elements (certificates d)))).
  { apply loads_dumps, plain_texts. }
  assert (Hv : loads (dumps (JInt (version d))) = Ok (JInt (version d))) by (by apply loads_dumps).
  destruct (parse_items_get (map_to_list m)) as (l & -> & Hl).
  { apply Forall_forall. intros [k t] Hin%elem_of_map_to_list. rewrite Hm in Hin. case_decide as Hk; [|done].
    rewrite dumped_fields in Hin. cbn [snd]. unfold model_fields in Hk. rewrite !elem_of_cons, elem_of_nil in Hk. repeat case_decide; try by destruct Hk as [|[|]].
    - apply (inj Some) in Hin. subst t. by rewrite Hv.
    - apply (inj Some) in Hin. subst t. by rewrite Hc. }
  rewrite (validate_documented l (Some (elements (certificates d))) (Some (version d))).
  - cbn. rewrite list_to_set_elements_L. by destruct d.
  - rewrite Hl, dict_get_map, Hm, dumped_fields. rewrite decide_True by set_solver.
    rewrite decide_False, decide_True by done. cbn [mbind option_bind]. by rewrite Hc.
  - rewrite Hl, dict_get_map, Hm, dumped_fields. rewrite !decide_True by set_solver.
    cbn [mbind option_bind]. by rewrite Hv.
Qed.

(** ** The relations of an interface *)

Lemma same_relation rs r r' : NoDup (t_id <$> rs) → r ∈ rs → r' ∈ rs → t_id r = t_id r' → r = r'.
Proof.
  intros Hnd Hr Hr' Hid. apply list_elem_of_lookup_1 in Hr as [i Hi], Hr' as [j Hj].
  assert (i = j) as <-; [|congruence].
  apply (NoDup_lookup (t_id <$> rs) i j (t_id r) Hnd); rewrite list_lookup_fmap; [by rewrite Hi|by rewrite Hj, Hid].
Qed.

(** A relation whose data is changed by [f]. *)
Definition changed (f : gset string → gset string) (r : transfer) : transfer :=
  with_provider_bag (dump (mkData (f (get_relation_data r)) 1) (provider_bag r)) r.
Definition changed_in (f : gset string → gset string) (ids : list Z) (rs : list transfer) : list transfer :=
  (λ r, if decide (t_id r ∈ ids) then changed f r else r) <$> rs.

Lemma changed_data f r : get_relation_data (changed f r) = f (get_relation_data r).
Proof. unfold get_relation_data at 1. cbn [changed with_provider_bag provider_bag]. by rewrite load_dump. Qed.

Lemma changed_ids f ids rs : t_id <$> changed_in f ids rs = t_id <$> rs.
Proof. unfold changed_in. rewrite <- list_fmap_compose. apply list_fmap_ext. intros ? r _. cbn. by case_decide. Qed.

Import CertificateTransferProvides.

Lemma set_changes f r rs : NoDup (t_id <$> rs) → r ∈ rs →
  set_relation_data r (f (get_relation_data r)) rs = changed_in f [t_id r] rs.
Proof.
  intros Hnd Hr. apply list_fmap_ext. intros i r' Hr'%list_elem_of_lookup_2.
  destruct (t_id r' =? t_id r) eqn:E.
  - apply Z.eqb_eq in E. rewrite (same_relation rs r' r) by done. rewrite decide_True by apply list_elem_of_here. done.
  - apply Z.eqb_neq in E. by rewrite decide_False by by rewrite list_elem_of_singleton.
Qed.

Lemma for_relations_changes f todo : ∀ rs, NoDup (t_id <$> rs) → NoDup (t_id <$> todo) → (∀ r, r ∈ todo → r ∈ rs) →
  for_relations f todo rs = changed_in f (t_id <$> todo) rs.
Proof.
  unfold for_relations. induction todo as [|r todo IH]; intros rs Hrs Htodo Hin; cbn [foldl].
  { unfold changed_in. symmetry. etrans; [|apply list_fmap_id]. apply list_fmap_ext. intros ? r _.
    by rewrite decide_False by apply not_elem_of_nil. }
  cbn [fmap list_fmap] in Htodo. apply NoDup_cons in Htodo as [Hr Htodo]. rewrite set_changes by (done || apply Hin, list_elem_of_here).
  rewrite IH; [|by rewrite changed_ids|done|].
  - unfold changed_in. rewrite <- list_fmap_compose. apply list_fmap_ext. intros ? r' _. cbn.
    destruct (decide (t_id r' ∈ [t_id r])) as [E|E]; rewrite list_elem_of_singleton in E.
    + rewrite (decide_True (P := t_id r' ∈ t_id r :: _)) by (rewrite E; apply list_elem_of_here).
      cbn [changed with_provider_bag t_id]. rewrite decide_False; [done|]. by rewrite E.
    + destruct (decide (t_id r' ∈ t_id <$> todo)) as [E'|E'].
      * by rewrite decide_True by by apply list_elem_of_further.
      * rewrite decide_False; [done|]. by apply not_elem_of_cons.
  - intros r' Hr'. apply list_elem_of_fmap. exists r'. rewrite decide_False.
    + split; [done|]. apply Hin. by apply list_elem_of_further.
    + intros E%list_elem_of_singleton. apply Hr. rewrite <- E. by apply list_elem_of_fmap_2.
Qed.

Lemma relations_ids role app rs : NoDup (t_id <$> rs) → NoDup (t_id <$> relations role app rs).
Proof.
  induction rs as [|r rs IH]; [done|]. cbn [fmap list_fmap]. intros [Hr Hnd]%NoDup_cons. unfold relations. cbn [filter list_filter].
  case_decide; [|by apply IH]. cbn [fmap list_fmap]. apply NoDup_cons. split; [|by apply IH].
  intros (r' & Hid & [_ Hin]%list_elem_of_filter)%list_elem_of_fmap. apply Hr. rewrite Hid. by apply list_elem_of_fmap_2.
Qed.

(** A relation that is there is found, by its identifier. *)
Lemma get_relation_found gone role app rs r : NoDup (t_id <$> rs) → r ∈ rs → role r = app →
  get_relation gone (t_id r) (relations role app rs) = Some r.
Proof.
  intros Hnd Hr Hrole. unfold get_relation.
  assert (Hin : r ∈ relations role app rs) by by apply list_elem_of_filter.
  destruct (find _ _) as [r'|] eqn:E.
  - apply find_some in E as [Hr'%list_elem_of_In Hid%Z.eqb_eq]. apply list_elem_of_filter in Hr' as [_ Hr'].
    by rewrite (same_relation rs r' r).
  - exfalso. pose proof (find_none _ _ E r (proj1 (list_elem_of_In _ _) Hin)) as Hn. cbn in Hn. by rewrite Z.eqb_refl in Hn.
Qed.

Lemma get_relation_elem gone rid role app rs r : get_relation gone rid (relations role app rs) = Some r →
  r ∈ rs ∧ role r = app ∧ t_id r = rid ∨ gone rid = Some r.
Proof.
  unfold get_relation. destruct (find _ _) as [r'|] eqn:E; [|by right]. intros [= <-]. left.
  apply find_some in E as [Hr'%list_elem_of_In Hid%Z.eqb_eq]. by apply list_elem_of_filter in Hr' as [Hrole Hr'].
Qed.

(** A relation that is no longer there is not active. *)
Variable gone : Z → option transfer.
Hypothesis gone_inactive : ∀ i r, gone i = Some r → t_active r = false.

(** The relations of the application a call is about. *)
Definition concerned (app : string) (relation_id : option Z) (r : transfer) : bool :=
  (t_provider r =? app)%string &&
  match relation_id with Some rid => (t_id r =? rid) && t_active r | None => true end.

Lemma relevant_relations app relation_id rs : NoDup (t_id <$> rs) →
  let todo := get_relevant_relations gone relation_id (relations t_provider app rs) in
  NoDup (t_id <$> todo) ∧ (∀ r, r ∈ todo → r ∈ rs) ∧
  ∀ r, r ∈ rs → t_id r ∈ t_id <$> todo ↔ concerned app relation_id r = true.
Proof.
  intros Hnd todo. assert (Hsub : ∀ r, r ∈ todo → r ∈ rs ∧ concerned app relation_id r = true).
  { unfold todo, get_relevant_relations, concerned. intros r. destruct relation_id as [rid|].
    - destruct (get_relation _ _ _) as [r'|] eqn:E; [|by intros ?%elem_of_nil].
      destruct (t_active r') eqn:Ha; [|by intros ?%elem_of_nil]. intros ->%list_elem_of_singleton.
      apply get_relation_elem in E as [(Hr & Hp & Hid)|Hg]; [|by rewrite (gone_inactive _ _ Hg) in Ha].
      by rewrite Hp, Hid, String.eqb_refl, Z.eqb_refl.
    - intros [Hp Hr]%list_elem_of_filter. by rewrite Hp, String.eqb_refl. }
  split; [|split; [by intros ? [??]%Hsub|]].
  - unfold todo, get_relevant_relations. destruct relation_id as [rid|]; [|by apply relations_ids].
    destruct (get_relation _ _ _) as [r|]; [|constructor]. destruct (t_active r); [apply NoDup_singleton|constructor].
  - intros r Hr. split.
    + intros (r' & Hid & [Hr' Hc]%Hsub)%list_elem_of_fmap. by rewrite (same_relation rs r r').
    + intros [Hp%String.eqb_eq Hc]%andb_true_iff. apply list_elem_of_fmap_2. unfold todo, get_relevant_relations.
      destruct relation_id as [rid|]; [|by apply list_elem_of_filter].
      apply andb_true_iff in Hc as [<-%Z.eqb_eq Ha]. rewrite (get_relation_found gone t_provider app rs r) by done.
      rewrite Ha. apply list_elem_of_here.
Qed.

Lemma change_spec f app leader relation_id rs : NoDup (t_id <$> rs) →
  change f app leader gone relation_id rs =
  (λ r, if (leader && concerned app relation_id r : bool) then changed f r else r) <$> rs.
Proof.
  intros Hnd. unfold change. destruct leader; cbn [negb andb].
  2: { symmetry. etrans; [|apply list_fmap_id]. by apply list_fmap_ext. }
  destruct (relevant_relations app relation_id rs Hnd) as (Hn & Hin & Hc). rewrite for_relations_changes by done.
  apply list_fmap_ext. intros ? r Hr%list_elem_of_lookup_2.
  destruct (concerned app relation_id r) eqn:E; [rewrite decide_True; [done|by apply Hc]|].
  rewrite decide_False; [done|]. rewrite Hc by done. by rewrite E.
Qed.

(** *** Calls of the providers *)

Inductive operation :=
| AddCertificates (certs : gset string)
| RemoveAllCertificates
| RemoveCertificate (certificate : string).
(** By the unit of an application, the leader or another, for one relation or all. *)
Record call := mkCall { caller : string; from_leader : bool; for_relation : option Z; what : operation }.

Definition run_call (c : call) (rs : list transfer) : list transfer :=
  match what c with
  | AddCertificates certs => add_certificates certs (caller c) (from_leader c) gone (for_relation c) rs
  | RemoveAllCertificates => remove_all_certificates (caller c) (from_leader c) gone (for_relation c) rs
  | RemoveCertificate cert => remove_certificate cert (caller c) (from_leader c) gone (for_relation c) rs
  end.
Definition run_calls (cs : list call) (rs : list transfer) : list transfer := foldl (λ rs c, run_call c rs) rs cs.

(** What they mean for the set of certificates of a relation. *)
Definition meaning (o : operation) (s : gset string) : gset string :=
  match o with
  | AddCertificates certs => s ∪ certs
  | RemoveAllCertificates => ∅
  | RemoveCertificate cert => s ∖ {[ cert ]}
  end.
Definition transferred (cs : list call) (r : transfer) : gset string :=
  foldl (λ s c, if (from_leader c && concerned (caller c) (for_relation c) r : bool) then meaning (what c) s else s)
    (get_relation_data r) cs.

Definition called (c : call) (r : transfer) : transfer :=
  if (from_leader c && concerned (caller c) (for_relation c) r : bool) then changed (meaning (what c)) r else r.

Lemma run_call_spec c rs : NoDup (t_id <$> rs) → run_call c rs = called c <$> rs.
Proof. intros Hnd. unfold run_call, called. destruct (what c); by apply change_spec. Qed.

Lemma called_kept c r : t_id (called c r) = t_id r ∧ t_requirer (called c r) = t_requirer r.
Proof. unfold called. by destruct (_ && _). Qed.

Lemma called_transferred cs c r : transferred cs (called c r) = transferred (c :: cs) r.
Proof.
  unfold transferred. cbn [foldl]. unfold called. destruct (from_leader c && _); [|done]. by rewrite changed_data.
Qed.

Lemma run_calls_spec cs : ∀ rs, NoDup (t_id <$> rs) →
  run_calls cs rs = (λ r, foldl (λ r c, called c r) r cs) <$> rs.
Proof.
  unfold run_calls. induction cs as [|c cs IH]; intros rs Hnd; cbn [foldl].
  { symmetry. apply list_fmap_id. }
  rewrite run_call_spec by done. rewrite IH.
  - by rewrite <- list_fmap_compose.
  - rewrite <- list_fmap_compose. erewrite list_fmap_ext; [exact Hnd|]. intros ? r _. cbn. apply called_kept.
Qed.

Lemma calls_kept cs : ∀ r, let r' := foldl (λ r c, called c r) r cs in
  t_id r' = t_id r ∧ t_requirer r' = t_requirer r ∧ get_relation_data r' = transferred cs r.
Proof.
  induction cs as [|c cs IH]; intros r; [done|]. cbn [foldl]. destruct (IH (called c r)) as (Hi & Hq & Hd).
  destruct (called_kept c r) as [Hi' Hq']. rewrite called_transferred in Hd. by rewrite <- Hi', <- Hq'.
Qed.

Lemma union_elem rs : ∀ s c, c ∈ foldl (λ result r, result ∪ get_relation_data r) s rs ↔
  c ∈ s ∨ ∃ r, r ∈ rs ∧ c ∈ get_relation_data r.
Proof.
  induction rs as [|r rs IH]; intros s c; cbn [foldl]; [set_solver|]. rewrite IH, elem_of_union.
  setoid_rewrite elem_of_cons. naive_solver.
Qed.

Import CertificateTransferRequires.

(** C29: the certificates an application is given are those of all its providers:
    after any calls of the providers, whatever their bags held, what the requirer
    reads of a relation is what the calls that concern it mean - certificates added,
    removed, all removed, by the leader, for this relation or for all of the
    provider's - and what it reads of all its relations is their union. *)
Theorem transferred_certificates_spec cs rs app :
  NoDup (t_id <$> rs) →
  (∀ c, c ∈ get_all_certificates app gone None (run_calls cs rs) ↔
        ∃ r, r ∈ rs ∧ t_requirer r = app ∧ c ∈ transferred cs r) ∧
  (∀ r, r ∈ rs → t_requirer r = app →
    get_all_certificates app gone (Some (t_id r)) (run_calls cs rs) = transferred cs r).
Proof.
  intros Hnd. rewrite run_calls_spec by done. set (after := λ r, foldl (λ r c, called c r) r cs).
  assert (Hk : ∀ r, t_id (after r) = t_id r ∧ t_requirer (after r) = t_requirer r ∧
    get_relation_data (after r) = transferred cs r) by apply calls_kept.
  assert (Hids : NoDup (t_id <$> (after <$> rs))).
  { rewrite <- list_fmap_compose. erewrite list_fmap_ext; [exact Hnd|]. intros ? r _. apply Hk. }
  unfold get_all_certificates, get_relevant_relations. split.
  - intros c. rewrite union_elem. unfold relations. setoid_rewrite list_elem_of_filter. setoid_rewrite list_elem_of_fmap. split.
    + intros [?%elem_of_empty|(r' & [Hq (r & -> & Hr)] & Hc)]; [done|]. destruct (Hk r) as (_ & Hq' & Hd).
      exists r. by rewrite <- Hq', <- Hd.
    + intros (r & Hr & Hq & Hc). right. exists (after r). destruct (Hk r) as (_ & Hq' & Hd). rewrite Hq', Hd. eauto.
  - intros r Hr Hq. destruct (Hk r) as (Hi & Hq' & Hd). rewrite <- Hi.
    rewrite (get_relation_found gone t_requirer app _ (after r) Hids); [|by apply list_elem_of_fmap_2|by rewrite Hq'].
    cbn [foldl]. by rewrite Hd, (left_id_L ∅ (∪)).
Qed.
End facts.

(** ** Two authorities *)

Import CertificateTransferRequires.

(** A validation that accepts what the library is documented to. *)
Definition texts (l : list json) : option (list string) :=
  mapM (M := option) (λ v, match v with JStr s => Some s | _ => None end) l.
#[export] Instance sample_validation : Validation := {|
  model_validate d :=
    certs ← (match dict_get "certificates" d with None => Some [] | Some (JList l) => texts l | Some _ => None end);
    n ← (match dict_get "version" d with None => Some 1 | Some (JInt n) => Some n | Some _ => None end);
    Some (mkData (list_to_set certs) n) |}.
#[export] Instance sample_validation_laws : ValidationLaws.
Proof.
  split. intros d certs n Hc Hn. cbn. rewrite Hc, Hn.
  assert (Ht : ∀ l, texts (JStr <$> l) = Some l).
  { induction l as [|s l IH]; [done|]. unfold texts in *. cbn. by rewrite IH. }
  destruct certs as [l|], n as [n|]; cbn; rewrite ?Ht; done.
Defined.

Definition nothing_gone (i : Z) : option transfer := None.
Definition sample_transfers : list transfer :=
  [mkTransfer 1 true "ca-a" "kafka" ∅ ∅;
   mkTransfer 2 true "ca-b" "kafka" {[ "certificates" := "not json" ]} ∅;
   mkTransfer 3 true "ca-b" "other" ∅ ∅].
Definition sample_calls : list call :=
  [mkCall "ca-a" true None (AddCertificates {[ "A"; "B" ]});
   mkCall "ca-b" true None (AddCertificates {[ "C" ]});
   mkCall "ca-b" false None (AddCertificates {[ "X" ]});
   mkCall "ca-b" true (Some 3) RemoveAllCertificates;
   mkCall "ca-a" true (Some 1) (RemoveCertificate "B");
   mkCall "ca-a" true (Some 2) RemoveAllCertificates].

Lemma transferred_certificates_spec_witness :
  get_all_certificates "kafka" nothing_gone (Some 2) (run_calls nothing_gone sample_calls sample_transfers) = {[ "C" ]} ∧
  "A" ∈ get_all_certificates "kafka" nothing_gone None (run_calls nothing_gone sample_calls sample_transfers).
Proof.
  destruct (transferred_certificates_spec nothing_gone ltac:(by intros ? ? [=]) sample_calls sample_transfers "kafka") as [Hall Hone].
  - apply (bool_decide_unpack _). vm_compute. exact I.
  - split.
    + etransitivity; [apply (Hone (mkTransfer 2 true "ca-b" "kafka" {[ "certificates" := "not json" ]} ∅));
        [apply list_elem_of_further, list_elem_of_here|done]|].
      apply (bool_decide_unpack _). vm_compute. exact I.
    + apply Hall. exists (mkTransfer 1 true "ca-a" "kafka" ∅ ∅). split; [apply list_elem_of_here|]. split; [done|].
      apply (bool_decide_unpack _). vm_compute. exact I.
Defined.
