(* ===== verification/TlsRequests.v ===== *)
(** * The certificates the TLS handler asks for (events/tls.py)

    What the constructor of [TLSHandler] gives the certificates library: for each of
    the two relations, the attributes of the unit's certificate and the private key
    it is for; and the event that makes the library look at them again. The rest of
    the handler is TlsHandler.v, the library Certificates.v: both together, a unit
    whose names change asks for a certificate with the new ones. *)

From S2P Require Import Prelude PyStr PyDict Json Literals Crypto CryptoFacts SelfSigned CryptoSample Certificates CertificatesFacts CertificatesProvider CertificatesSample Models Cluster Workload Config Tls Operator Sample TlsHandler.
Import Operator.

Local Open Scope string_scope.
Local Open Scope Z_scope.

Module TLSHandlerRequests.
Section requests.
Context {D : Type} `{RelationData D} {S : Type} `{Host S} `{Cryptography}.
Implicit Types o : operator D S.

Abbreviation requirer := TLSCertificatesRequiresV4.requirer.

(** [charm.unit.name] and [model.uuid] *)
Definition common_name (model_uuid : string) o : string := st_unit_name (state o) ++ "-" ++ model_uuid.

Definition certificate_request (common_name : string) (sans : TLSManager.Sans) : CertificateRequestAttributes :=
  mkAttributes common_name (Some (list_to_set (TLSManager.sans_dns sans))) (Some (list_to_set (TLSManager.sans_ip sans)))
    (Some ∅) None None None None None None false true.

(** The key of the internal certificates is always the unit's, the other one is when
    it was given as a secret. *)
Definition private_key (scope : TLSScope) o : option string :=
  let key := TLSState.private_key scope (unit_data o) in
  let given := match scope with
               | PEER_SCOPE => true
               | CLIENT_SCOPE => (KafkaBroker.private_key_kind (ClusterState.unit_broker (state o)) =? "secret")%string
               end in
  if truthy key && given then Some (PrivateKey.from_string key) else None.

(** The number in the unit's name is read later in the code, every name having one. *)
Definition make_requirer (k : hook) (model_uuid : string) (scope : TLSScope) o : result requirer :=
  sans ← TLSManager.build_sans (broker_tls k o) (bind_address k) (fqdn k) (ips k);
  number ← KafkaBroker.name_part 1 (st_unit_name (state o));
  TLSCertificatesRequiresV4.init UNIT (is_leader (state o)) number
    [certificate_request (common_name model_uuid o) sans] (private_key scope o) 900.

Definition requirer_state (relationship_name : string) : result TLSScope :=
  if (relationship_name =? TLS_RELATION)%string then Ok CLIENT_SCOPE
  else if (relationship_name =? INTERNAL_TLS_RELATION)%string then Ok PEER_SCOPE
  else Err (NotImplementedError (relationship_name ++ " not supported!")).

(** The private key that [_init_credentials] writes. *)
Definition assigned_key (r : requirer) (s : Certificates.state) : result (option string) :=
  match TLSCertificatesRequiresV4.certificate_requests r with
  | a :: _ => '(_, key) ← TLSCertificatesRequiresV4.get_assigned_certificate r a s; Ok key
  | [] => Err (IndexError "list index out of range")
  end.

(** [refresh_tls_certificates], which both requirers observe. *)
Definition refresh (k : hook) (model_uuid : string) o (client peer : Certificates.state)
    : result (Certificates.state * Certificates.state) :=
  client_requirer ← make_requirer k model_uuid CLIENT_SCOPE o;
  peer_requirer ← make_requirer k model_uuid PEER_SCOPE o;
  client ← TLSCertificatesRequiresV4.configure client_requirer client;
  peer ← TLSCertificatesRequiresV4.configure peer_requirer peer;
  Ok (client, peer).
End requests.
End TLSHandlerRequests.
Import TLSHandlerRequests.

Section facts.
Context {D : Type} `{RelationData D} {S : Type} `{Host S} `{CryptographyLaws}.
Implicit Types o : operator D S.

Lemma made_requirer k uuid scope o r sans :
  TLSManager.build_sans (broker_tls k o) (bind_address k) (fqdn k) (ips k) = Ok sans →
  make_requirer k uuid scope o = Ok r →
  TLSCertificatesRequiresV4.certificate_requests r = [certificate_request (common_name uuid o) sans] ∧
  TLSCertificatesRequiresV4.given_key r = private_key scope o.
Proof.
  intros Hs. unfold make_requirer. rewrite Hs. cbn [mbind result_bind]. rewrite result_bind_ok. intros (n & _ & Hi).
  unfold TLSCertificatesRequiresV4.init in Hi. repeat case_match; try done. by injection Hi as <-.
Qed.

(** An entry of the relation that asks for the current names of the unit. *)
Definition names_current (name : string) (sans : TLSManager.Sans) (e : csr_entry) : Prop :=
  ∃ c, TLSCertificatesRequiresV4.load_entry e = Ok c ∧ r_is_ca c = false ∧
    CertificateSigningRequest.common_name (r_csr c) = name ∧
    CertificateSigningRequest.sans_dns (r_csr c) = Some (list_to_set (TLSManager.sans_dns sans)) ∧
    CertificateSigningRequest.sans_ip (r_csr c) = Some (list_to_set (TLSManager.sans_ip sans)).

Lemma asks_current name sans e c :
  TLSCertificatesRequiresV4.load_entry e = Ok c →
  from_csr (r_csr c) (r_is_ca c) = certificate_request name sans → names_current name sans e.
Proof. intros Hl Ha. exists c. split; [done|]. by injection Ha. Qed.

(** The library and its relation before an event: the requests can be read and are
    distinct, the provider's answers can be read, and keys are RSA keys. *)
Definition library_ok (r : TLSCertificatesRequiresV4.requirer) (s : Certificates.state) : Prop :=
  sane r s ∧ keys_ok r s ∧ is_ok (TLSCertificatesRequiresV4.get_provider_certificates s) = true.

Lemma configure_current k uuid scope o r s sans :
  TLSManager.build_sans (broker_tls k o) (bind_address k) (fqdn k) (ips k) = Ok sans →
  attributes_ok (certificate_request (common_name uuid o) sans) →
  make_requirer k uuid scope o = Ok r → library_ok r s →
  ∃ s' key, TLSCertificatesRequiresV4.configure r s = Ok s' ∧ sane r s' ∧
    TLSCertificatesRequiresV4.private_key r s' = Some key ∧ entries s' ≠ [] ∧
    Forall (names_current (common_name uuid o) sans) (entries s') ∧
    Forall (λ e, keep r (Some key) e = true) (entries s').
Proof.
  intros Hsans Hok Hr (Hsane & Hkeys & Hps). destruct (made_requirer _ _ _ _ _ _ Hsans Hr) as [Hreq _].
  assert (Hgiven : well_given r s).
  { split; [done|rewrite Hreq; by constructor|]. destruct (TLSCertificatesRequiresV4.get_provider_certificates s); [eauto|done]. }
  destruct (configure_steps r s Hsane Hgiven) as (key & s2 & new & csrs & ps & _ & Hready & Hc & _ & _ & _ & _ & Ha & _).
  assert (Hsame : same_requests s2 (foldl (TLSCertificatesRequiresV4.find_available r csrs) s2 ps)) by apply find_all_same.
  pose proof (ready_same_requests _ _ _ _ Hready Hsame) as [Hs' Hk' Hkeep'].
  eexists _, key. split; [exact Hc|]. split; [done|]. split; [done|].
  assert (Hent : entries (foldl (TLSCertificatesRequiresV4.find_available r csrs) s2 ps) = entries s2)
    by (unfold entries; by destruct Hsame as (_ & -> & _)).
  rewrite Hreq in Ha. inversion Ha as [|?? Hone _]; subst. split; [|split; [|done]].
  - rewrite Hent. intros E. rewrite E in Hone. by inversion Hone.
  - eapply Forall_impl; [exact Hkeep'|]. intros e He. unfold keep in He.
    destruct (TLSCertificatesRequiresV4.load_entry e) as [c|] eqn:El; [|done].
    apply (asks_current _ _ e c El). unfold TLSCertificatesRequiresV4.keeps in He.
    destruct (TLSCertificatesRequiresV4.csr_matches_certificate_request _ _ _) eqn:Em; [|done].
    unfold TLSCertificatesRequiresV4.csr_matches_certificate_request in Em. rewrite Hreq in Em.
    cbn [existsb] in Em. rewrite orb_false_r in Em. by apply bool_decide_eq_true in Em as ->.
Qed.

(** C22: the names of a unit are always those it asks for: when the certificates are
    refreshed, as they are when its names have changed, each of the two relations is
    left with a request, and every request there is for the unit's common name and
    for the addresses and host names it has now, and for the key the library holds;
    the library can be refreshed again. *)
Theorem refresh_asks_current_names k uuid o sans client_requirer peer_requirer client peer :
  TLSManager.build_sans (broker_tls k o) (bind_address k) (fqdn k) (ips k) = Ok sans →
  attributes_ok (certificate_request (common_name uuid o) sans) →
  make_requirer k uuid CLIENT_SCOPE o = Ok client_requirer → library_ok client_requirer client →
  make_requirer k uuid PEER_SCOPE o = Ok peer_requirer → library_ok peer_requirer peer →
  ∃ client' peer', refresh k uuid o client peer = Ok (client', peer') ∧
    sane client_requirer client' ∧ sane peer_requirer peer' ∧
    entries client' ≠ [] ∧ entries peer' ≠ [] ∧
    Forall (names_current (common_name uuid o) sans) (entries client' ++ entries peer')%list ∧
    ∃ client_key peer_key,
      TLSCertificatesRequiresV4.private_key client_requirer client' = Some client_key ∧
      TLSCertificatesRequiresV4.private_key peer_requirer peer' = Some peer_key ∧
      Forall (λ e, keep client_requirer (Some client_key) e = true) (entries client') ∧
      Forall (λ e, keep peer_requirer (Some peer_key) e = true) (entries peer').
Proof.
  intros Hs Ha Hc Hclient Hp Hpeer.
  destruct (configure_current k uuid CLIENT_SCOPE o client_requirer client sans Hs Ha Hc Hclient)
    as (client' & ck & Hc' & Hsc & Hkc & Hec & Hnc & Hpc).
  destruct (configure_current k uuid PEER_SCOPE o peer_requirer peer sans Hs Ha Hp Hpeer)
    as (peer' & pk & Hp' & Hsp & Hkp & Hep & Hnp & Hpp).
  exists client', peer'. unfold refresh. rewrite Hc, Hp. cbn [mbind result_bind]. rewrite Hc', Hp'.
  split_and!; try done; [by apply Forall_app|]. exists ck, pk. done.
Qed.
End facts.

(** ** A unit that asks for both *)

Definition asking : operator bag machine :=
  charm_in (mkState "broker" 50000 None "kafka/0" true (Some (mkPeerData ∅ ∅ [])) [] None None None [] None false [] 1
    (mkK8sView (λ _, Ok "10.0.0.1") (λ _, Ok 31000) (λ _, Ok 31001))) (∅, ∅).
Definition asking_sans : TLSManager.Sans :=
  value_or (TLSManager.mkSans [] [])
    (TLSManager.build_sans (broker_tls sample_hook asking) (bind_address sample_hook) (fqdn sample_hook) (ips sample_hook)).
Definition asking_requirer (scope : TLSScope) : TLSCertificatesRequiresV4.requirer :=
  value_or sample_requirer (make_requirer sample_hook "uuid" scope asking).

Lemma asking_made scope : make_requirer sample_hook "uuid" scope asking = Ok (asking_requirer scope).
Proof. apply value_or_ok. destruct scope; vm_compute; reflexivity. Qed.

Lemma asking_library scope : library_ok (asking_requirer scope) created.
Proof.
  split; [|split; [|done]].
  - split; [done|destruct scope; vm_compute; reflexivity|constructor..].
  - assert (Hg : TLSCertificatesRequiresV4.given_key (asking_requirer scope) = None) by (destruct scope; vm_compute; reflexivity).
    split; [by rewrite Hg|done].
Qed.

Lemma refresh_asks_current_names_witness :
  ∃ client peer, refresh sample_hook "uuid" asking created created = Ok (client, peer) ∧
    entries client ≠ [] ∧ Forall (names_current "kafka/0-uuid" asking_sans) (entries client ++ entries peer)%list ∧
    "kafka-0" ∈ TLSManager.sans_dns asking_sans.
Proof.
  destruct (refresh_asks_current_names sample_hook "uuid" asking asking_sans (asking_requirer CLIENT_SCOPE)
    (asking_requirer PEER_SCOPE) created created) as (client & peer & Hr & _ & _ & Hc & _ & Hn & _).
  - apply value_or_ok. vm_compute. reflexivity.
  - split; [by apply sample_attributes_canonical|done].
  - apply asking_made.
  - apply asking_library.
  - apply asking_made.
  - apply asking_library.
  - exists client, peer. split; [exact Hr|]. split; [exact Hc|]. split; [exact Hn|].
    apply (bool_decide_unpack _). vm_compute. exact I.
Defined.
